(* ===== verification/_CoqProject ===== *)
-Q . S2P
Prelude.v
GoSort.v
GoPath.v
Json.v
Types.v
Heap.v
Memory.v
Ownership.v
DeepCopy.v
DeepCopyFacts.v
Samples.v
Binding.v
BindingSpec.v
BindingLemmas.v
BindingFacts.v
BindingRuns.v
BindingHistory.v
TemplateInvariant.v
BindingWitnesses.v
Tree.v
MetaPodTemplate.v
AccessFacts.v
Layout.v
Workload.v
WorkloadFacts.v
AccessProperties.v
FieldErrors.v
MappingWebhook.v
MappingWebhookFacts.v
Projector.v
ProjectorFacts.v
Concrete.v
WorkloadWitnesses.v
Kube.v
Resolver.v
ResolverFacts.v
ServiceBindingWebhook.v
HeapDefault.v
HeapDefaultFacts.v
HeapProperties.v
HeapWitnesses.v
Dies.v
DieFacts.v
DieSlices.v
DieTypes.v
DieProperties.v
DieWitnesses.v
Lifecycle.v
Rbac.v
ServiceBindingController.v
ControllerFacts.v
Finalization.v
WebhookController.v
WebhookFacts.v
WorkloadRuns.v
WorkloadHistory.v
Main.v
Triggering.v
Flags.v
Startup.v
ConcreteCluster.v
ClusterWitnesses.v
