(* ===== verification/Prelude.v ===== *)
(** * Service binding runtime: verification development

    The runtime implements the Service Binding specification for Kubernetes: a
    [ServiceBinding] names a service, which exposes a secret, and workloads,
    into which the secret is projected as a volume, mounts and environment
    variables. This development models the Go code under [src/] and proves what
    makes it correct.

    ** The parts of the program and their files

    - The projector on pod templates ([src/projector/binding.go]): [Binding.v]
      has every method of [serviceBindingProjector] under its Go name, as
      functions on [metaPodTemplate] records ([Types.v]). [GoSort.v] models
      [sort.SliceStable], [GoPath.v] [path.Join]. [BindingSpec.v] states what a
      projection amounts to ([projectSpec], [unprojectSpec]) and shows that the
      methods refine it; [BindingLemmas.v] and [BindingFacts.v] build on the
      closed forms: idempotence, exact removal, independent bindings, frame,
      contents. [BindingRuns.v] goes from two bindings to sequences: any
      schedule of projections converges. [BindingHistory.v] adds bindings that
      change and go ([history], a step relation on the live bindings and the
      template, in which any run of versions of bindings may be projected): the
      template depends on the live bindings only. [TemplateInvariant.v] has the
      invariant of templates ([wellFormed]) and the limits of the names.
      [BindingWitnesses.v] instantiates them at the objects of [Samples.v].
    - Reading and writing workloads ([src/projector/metapodtemplate.go]): an
      unstructured workload is a JSON tree ([Json.v]); a [reflect.Value] is a
      reference into it, that is a path ([Tree.v], a lens). [MetaPodTemplate.v]
      has [find], [getAt], [setAt], [NewMetaPodTemplate] and [WriteToWorkload].
      [AccessFacts.v] shows that the accessors are the lens and that the fuel
      is enough; [Layout.v], [Workload.v], [WorkloadFacts.v] and
      [AccessProperties.v] that templates are written to, and read from,
      exactly the places that a mapping names.
    - The projector on workloads ([Project], [Unproject] and
      [src/projector/mapping.go]): [Projector.v], with the interface
      [MappingSource]; [ProjectorFacts.v] joins the two groups above.
    - The webhooks of the API types ([src/apis/v1beta1/..._webhook.go]):
      [FieldErrors.v], [MappingWebhook.v], [MappingWebhookFacts.v],
      [ServiceBindingWebhook.v]: what is accepted, and what is defaulted.
    - The lifecycle ([src/apis/v1beta1/servicebinding_lifecycle.go]):
      [Lifecycle.v], against a condition manager with laws.
    - The resolver ([src/resolver/cluster.go]): [Resolver.v], [ResolverFacts.v];
      the kinds and helpers shared with other parts are in [Kube.v]. The
      resolver is the [MappingSource] of the cluster.
    - The access checker ([src/rbac/cani.go]): [Rbac.v], the cache as explicit
      state, and properties of runs of calls.
    - The reconciler of bindings ([src/controllers/servicebinding_controller.go]):
      [ServiceBindingController.v], one [Sync] function per sub reconciler on an
      explicit state of binding, stash and calls to the client;
      [ControllerFacts.v] follows a whole reconcile. [Finalization.v] has the
      finalizer around the sub reconcilers and the life of a binding as a
      sequence of edits and reconciles ([life]): the finalizer stays on a
      binding that may have been projected until it is released
      ([finalizer_guards]), and one reconcile without failures releases it
      ([finalization_completes]).
    - The admission webhooks and the reconcilers of their configurations
      ([src/controllers/webhook_controller.go]): [WebhookController.v],
      [WebhookFacts.v]. The rules are proved against the interface
      [CheckerLaws] of access checkers, which [Rbac.v]'s checker implements
      ([rbac_checker_laws]). [Main.v] puts reconcilers and checkers together as
      [src/main.go] does.
    - Starting the runtime ([src/main.go], [groupversion_info.go] and the
      [Setup] functions): [Flags.v] is Go's [flag] package as [main] uses it;
      [Startup.v] has [init] and [main] as programs over the operations of the
      manager, each of which may fail, and shows that they work through a list
      of steps ([run_starts]).
    - The two ends together: [WorkloadRuns.v] takes the runs of projections to
      workloads, and shows that the admission webhook leaves a workload alone
      that the reconciler has settled. [WorkloadHistory.v] does the same for
      histories: whatever whole reconciles and admissions a workload went
      through, with indexes that may be ahead of or behind the reconciles, its
      template goes through a history of [BindingHistory.v].
      [Triggering.v] joins resolver, tracker, rules and trigger webhook: an
      object that a reconcile looked for wakes the binding when it is admitted.
    - Memory ([src/apis/v1beta1/zz_generated.deepcopy.go]): [Heap.v] models
      arrays, slices and pointers on a heap and states what a deep copy
      promises ([DeepCopyable], [DeepCopyLaws]); [Memory.v] has the structs
      as they lie in memory, [DeepCopy.v] every generated function and
      [DeepCopyFacts.v] their laws. [HeapDefault.v] has [Default], the end of [LookupMapping] and
      the copies of the admission webhook on that heap, writing in place;
      [HeapDefaultFacts.v] and [HeapProperties.v] show that they refine the
      definitions on values and never write to what their callers know;
      [HeapWitnesses.v] runs them in a concrete memory.
    - The builders of API objects ([src/dies/v1beta1/]): [Dies.v] has the
      methods that the generator emits for each of the eleven types once, for
      the types of the class [DieType], a table of them for each type
      ([ServiceBindingDie_methods]), the setters, and the methods written by
      hand, which edit a field with a die of its own. [Ownership.v] is a small
      separation logic on the heap ([spec], [seps], the frame rule);
      [DieFacts.v] and [DieSlices.v] prove the methods in it for any type whose
      resources obey [Resource], [DieTypes.v] gives that for each type, and
      [DieProperties.v] that the builders do what record updates do, in a new
      die or in place; [DieWitnesses.v] builds a binding from the blank dies.

    [Concrete.v] and [ConcreteCluster.v] give every interface one concrete
    instance with its laws; [WorkloadWitnesses.v] and [ClusterWitnesses.v]
    apply the properties there.

    ** Conventions

    A Go function that may fail returns an [outcome]: a value, an error, or a
    panic. Code that changes an object in place returns the new object. State
    that outlives a call (a cache, the stash of a reconcile, a queue) is an
    argument and part of the result. Third-party code (the JSONPath library,
    codecs, clients, reconciler-runtime) is a class of operations; what the
    program relies on is a class of laws beside it, which only the theorems
    that need it assume.

    Aliasing is modelled where the code depends on it: the variable of the loop
    in [LookupMapping] is one cell to which [mapping] points ([scanState], and
    on the heap [scanFrom]), references into a workload stay valid while other
    places are written ([wellPlaced] excludes writes above a reference), and
    code that writes to API objects in place does so on the heap of [Heap.v].
    There, [triple] and [spec] say what a program does to cells of its own beside
    a heap that it leaves alone, and [freshly] that a value lives in new cells.
    A slice reaches to the end of its array, so [append] may write in place; how
    much room a slice gets when it grows is a parameter ([Growth]).

    ** Fuel

    [find] takes at most two calls for each key and two more; [findKeys] starts
    it with that ([find_terminates], [findKeys_fuel]). The work list of
    [validateRestrictedJsonPath] takes one turn for each node below the roots
    ([nodesSize], [checkNodes_spec]). All other recursion is structural.

    ** What the theorems assume

    Idempotence and removal need that no variable outside the control of the
    binding reads its secret ([exclusiveSecret]); without it they fail
    ([project_twice_drops_user_env], [unproject_shared_secret]). Properties of
    whole workloads need a layout: the mapping's paths can be followed, do not
    lie above one another, and select the same containers while the workload is
    written ([Prepared]). Histories start from a template without traces of the
    bindings that a projection leaves in order, and need bindings that do not
    share secrets or variables ([separate]). In the life of a binding each
    reconcile sees the binding as it is stored, and only the reconciler removes
    its finalizer. [LookupMapping_exact], [isActive_unnamed],
    [forbidden_releases], [unproject_shared_secret] and [find_panics_on_scalars]
    state behaviour that the code does not intend.

    ** What is not modelled

    Build tools, logging beside the errors of [main], and in [dies/] three
    conditions that only dies.dev builds. The manager, the scheme and the other
    packages' flags are parameters of the startup; the tracker of
    reconciler-runtime is one of the trigger webhook, and that it has what was
    tracked ([trackedFor]) is assumed. In a history ([workloadHistory]) each step
    is a whole write of the workload, as the API server's resource versions
    make it, and the mapping of the workload stays as it is. Deep copies and
    dies of metadata, label selectors and conditions are those of apimachinery
    and dies.dev ([ApimachineryLaws], [ForeignDies]). The JSON that dies convert
    to and from goes by reflection on third-party types ([Encoding]).
    [SelectorDie] has a definition but no theorem, as how a selector lies in
    memory is apimachinery's. Pointers
    to dies and callbacks are taken not to be [nil]. Whether a slice without
    elements is [nil] is kept on the heap but not in the records of [Types.v].
    Numbers in JSON are literals that are only carried along;
    [reconcile.Result] is whether to run again. *)

From stdpp Require Export base gmap sets list strings sorting.

(** ** Outcomes of Go functions

    A Go function that returns [(T, error)] returns [Ok] or [Err]; a call
    that makes the runtime or the [reflect] package panic is [Panic]. The
    classes of API errors are the ones that the code asks for with
    [apierrs.IsNotFound] and [apierrs.IsForbidden]. *)
Inductive error :=
  | ErrNotFound (msg : string)
  | ErrForbidden (msg : string)
  | ErrOther (msg : string).

#[export] Instance error_eq_dec : EqDecision error.
Proof. solve_decision. Defined.

Definition IsNotFound (e : error) : bool :=
  match e with ErrNotFound _ => true | _ => false end.
Definition IsForbidden (e : error) : bool :=
  match e with ErrForbidden _ => true | _ => false end.

Inductive outcome (A : Type) :=
  | Ok (a : A)
  | Err (e : error)
  | Panic (msg : string).
Arguments Ok {A} a.
Arguments Err {A} e.
Arguments Panic {A} msg.

#[export] Instance outcome_ret : MRet outcome := fun A a => Ok a.
#[export] Instance outcome_bind : MBind outcome := fun A B f m =>
  match m with Ok a => f a | Err e => Err e | Panic s => Panic s end.
#[export] Instance outcome_fmap : FMap outcome := fun A B f m =>
  match m with Ok a => Ok (f a) | Err e => Err e | Panic s => Panic s end.

Section outcome.
Context {A B : Type}.
Implicit Types (m : outcome A) (f : A -> outcome B).

Lemma bind_Ok f m b :
  m ≫= f = Ok b <-> exists a, m = Ok a /\ f a = Ok b.
Proof.
  destruct m; cbn; (split; [by eauto|]); intros (a' & [= <-] & H); done.
Qed.

Lemma bind_not_Panic f m :
  (forall s, m <> Panic s) -> (forall a s, m = Ok a -> f a <> Panic s) ->
  forall s, m ≫= f <> Panic s.
Proof. destruct m; cbn; intros H1 H2 s; [by apply H2|done|by edestruct H1]. Qed.
End outcome.

(** Splits the hypotheses [m ≫= f = Ok b] and inverts constructor equations. *)
Ltac simplify_outcome :=
  repeat match goal with
  | _ => progress simplify_eq/=
  | H : _ ≫= _ = Ok _ |- _ =>
      let a := fresh "a" in let Ha := fresh "Ha" in
      apply bind_Ok in H as (a & Ha & H)
  end.

(** ** Strings *)
Section strings.
Implicit Types s t u p : string.

Lemma string_app_cons a s t : String.append (String a s) t = String a (String.append s t).
Proof. done. Qed.

Lemma string_app_assoc s t u :
  String.append s (String.append t u) = String.append (String.append s t) u.
Proof. induction s as [|a s IH]; [done|]. rewrite !string_app_cons. by f_equal. Qed.

Lemma string_app_nil_r s : String.append s "" = s.
Proof. induction s as [|a s IH]; [done|]. rewrite string_app_cons. by f_equal. Qed.

Lemma string_app_length s t :
  String.length (String.append s t) = (String.length s + String.length t)%nat.
Proof. induction s as [|a s IH]; [done|]. rewrite string_app_cons. cbn. by f_equal. Qed.

Lemma string_app_inj_r s1 s2 t :
  String.append s1 t = String.append s2 t -> s1 = s2.
Proof.
  revert s2. induction s1 as [|a s1 IH]; intros [|b s2] H; [done|..].
  - apply (f_equal String.length) in H. rewrite !string_app_length in H. cbn in H. lia.
  - apply (f_equal String.length) in H. rewrite !string_app_length in H. cbn in H. lia.
  - rewrite !string_app_cons in H. injection H as -> H. f_equal. by apply IH.
Qed.

(** [strings.HasPrefix] *)
Fixpoint HasPrefix (s p : string) : bool :=
  match p, s with
  | EmptyString, _ => true
  | String a p', String b s' => Ascii.eqb a b && HasPrefix s' p'
  | String _ _, EmptyString => false
  end.

Lemma HasPrefix_app p s : HasPrefix (String.append p s) p = true.
Proof.
  induction p as [|a p IH]; [by destruct s|].
  rewrite string_app_cons. cbn. by rewrite Ascii.eqb_refl.
Qed.

Lemma HasPrefix_true p s :
  HasPrefix s p = true <-> exists t, s = String.append p t.
Proof.
  split; [|intros [t ->]; apply HasPrefix_app].
  revert s. induction p as [|a p IH]; intros s; [by exists s|].
  destruct s as [|b s]; cbn; [done|].
  intros [->%Ascii.eqb_eq [t ->]%IH]%andb_prop. by exists t.
Qed.

(** Go compares strings byte by byte: [s < t] is [String.ltb s t]. *)
Lemma ltb_leb s t : String.ltb s t = negb (String.leb t s).
Proof.
  unfold String.ltb, String.leb. rewrite (String.compare_antisym t s).
  by destruct (String.compare s t).
Qed.

Lemma ltb_irrefl s : String.ltb s s = false.
Proof.
  rewrite ltb_leb. assert (String.leb s s = true) as ->; [|done].
  destruct (String.leb_total s s); done.
Qed.

Lemma leb_trans s t u :
  String.leb s t = true -> String.leb t u = true -> String.leb s u = true.
Proof.
  intros H1 H2. apply Is_true_true.
  change (String.le s u). trans t; by apply Is_true_true.
Qed.

Lemma ltb_negtrans s t u :
  String.ltb s t = false -> String.ltb t u = false -> String.ltb s u = false.
Proof. rewrite !ltb_leb, !negb_false_iff. eauto using leb_trans. Qed.

Lemma ltb_asym s t : String.ltb s t = true -> String.ltb t s = false.
Proof.
  rewrite !ltb_leb, negb_true_iff, negb_false_iff.
  intros H. destruct (String.leb_total t s); congruence.
Qed.

Lemma ltb_total s t :
  String.ltb s t = false -> String.ltb t s = false -> s = t.
Proof.
  rewrite !ltb_leb, !negb_false_iff. intros. by apply String.leb_antisym.
Qed.
End strings.

#[global] Arguments HasPrefix : simpl never.

(** ** Lists *)

Lemma forallb_elem {A} (p : A -> bool) (l : list A) x : forallb p l = true -> x ∈ l -> p x = true.
Proof. rewrite forallb_forall. intros H Hx. by apply H, list_elem_of_In. Qed.

Lemma lookup_map {A B} (f : A -> B) (l : list A) i : map f l !! i = f <$> (l !! i).
Proof. apply (list_lookup_fmap f l i). Qed.
