(* ===== verification/GoSort.v ===== *)
(** * Go's [sort.SliceStable]

    [binding.go] orders volumes, volume mounts and environment variables with
    [sort.SliceStable(s, less)]. [SliceStable] is Go's insertion sort on
    blocks ([insertionSort] of package [sort], the whole of the algorithm up to
    20 elements): element [i] is swapped to the left while it is less than its
    left neighbour. The file shows that the result is the only list that is a
    permutation of the input, ordered, and keeps equivalent elements in their
    input order ([StableSortOf], [SliceStable_unique]), so that what is proved
    of it holds of every stable sort when [less] is a strict weak order.

    Two lists that are permutations of each other and have the same
    equivalence-class subsequences are sorted to the same list:
    [stable_equiv] is that relation, and sorting and concatenation are
    [Proper] for it. *)

From S2P Require Import Prelude.

(** ** The algorithm *)

Section algorithm.
Context {A : Type} (less : A -> A -> bool).

(** The inner loop: the sorted prefix is held in reverse, [x] moves to the
    left past every element it is less than. *)
Fixpoint sift (x : A) (rp : list A) : list A :=
  match rp with
  | [] => [x]
  | y :: rp' => if less x y then y :: sift x rp' else x :: y :: rp'
  end.

Definition SliceStable (l : list A) : list A :=
  rev (fold_left (fun rp x => sift x rp) l []).

(** Incomparable elements. *)
Definition eqv (x y : A) : bool := negb (less x y) && negb (less y x).
End algorithm.

Class StrictWeakOrder {A} (less : A -> A -> bool) : Prop := {
  swo_asym x y : less x y = true -> less y x = false;
  swo_negtrans x y z : less x y = false -> less y z = false -> less x z = false;
}.

(** What a stable sort promises. *)
Record StableSortOf {A} (less : A -> A -> bool) (l l' : list A) : Prop := {
  sorted_perm : l' ≡ₚ l;
  sorted_order : StronglySorted (fun a b => less b a = false) l';
  sorted_stable x : List.filter (eqv less x) l' = List.filter (eqv less x) l;
}.

(** ** Generic facts on boolean filters *)

Section filters.
Context {A : Type}.
Implicit Types (p q : A -> bool) (l : list A).

Lemma filter_ext_elem p q l :
  (forall x, x ∈ l -> p x = q x) -> List.filter p l = List.filter q l.
Proof.
  intros H. apply List.filter_ext_in. intros x Hx. by apply H, list_elem_of_In.
Qed.

Lemma filter_all p l : (forall x, x ∈ l -> p x = true) -> List.filter p l = l.
Proof.
  induction l as [|x l IH]; intros H; cbn; [done|].
  rewrite (H x) by left. f_equal. apply IH. intros y Hy. apply H. by right.
Qed.

Lemma filter_none p l : (forall x, x ∈ l -> p x = false) -> List.filter p l = [].
Proof.
  induction l as [|x l IH]; intros H; cbn; [done|].
  rewrite (H x) by left. apply IH. intros y Hy. apply H. by right.
Qed.

Lemma filter_filter p q l :
  List.filter p (List.filter q l) = List.filter (fun x => q x && p x) l.
Proof.
  induction l as [|x l IH]; cbn; [done|]. destruct (q x); cbn; [|done].
  destruct (p x); by rewrite IH.
Qed.

Lemma filter_comm p q l :
  List.filter p (List.filter q l) = List.filter q (List.filter p l).
Proof.
  rewrite !filter_filter. apply List.filter_ext. intros x. apply andb_comm.
Qed.

Lemma filter_idemp p l : List.filter p (List.filter p l) = List.filter p l.
Proof.
  rewrite filter_filter. apply List.filter_ext. intros x. by destruct (p x).
Qed.

Lemma elem_of_filter_bool p l x : x ∈ List.filter p l <-> x ∈ l /\ p x = true.
Proof. rewrite !list_elem_of_In. apply List.filter_In. Qed.

Lemma filter_Permutation p l1 l2 :
  l1 ≡ₚ l2 -> List.filter p l1 ≡ₚ List.filter p l2.
Proof.
  induction 1 as [|x l1 l2 _ IH|x y l|l1 l2 l3 _ IH1 _ IH2]; cbn.
  - done.
  - destruct (p x); by rewrite IH.
  - destruct (p x), (p y); try done. apply perm_swap.
  - by rewrite IH1.
Qed.

Lemma filter_rev p l : List.filter p (rev l) = rev (List.filter p l).
Proof.
  induction l as [|x l IH]; cbn; [done|].
  rewrite List.filter_app, IH. cbn. destruct (p x); cbn; [done|].
  apply List.app_nil_r.
Qed.

Lemma StronglySorted_filter_bool (R : relation A) p l :
  StronglySorted R l -> StronglySorted R (List.filter p l).
Proof.
  induction 1 as [|x l Hl IH Hx]; cbn; [constructor|].
  destruct (p x); [|done]. constructor; [done|].
  rewrite Forall_forall in Hx |- *. intros y [Hy _]%elem_of_filter_bool. eauto.
Qed.

Lemma StronglySorted_impl (R R' : relation A) l :
  (forall x y, R x y -> R' x y) -> StronglySorted R l -> StronglySorted R' l.
Proof.
  intros H. induction 1 as [|x l Hl IH Hx]; constructor; [done|].
  eapply Forall_impl; eauto.
Qed.

Lemma rev_StronglySorted (R : relation A) l :
  StronglySorted R l -> StronglySorted (flip R) (rev l).
Proof.
  induction 1 as [|x l Hl IH Hx]; cbn; [constructor|].
  apply StronglySorted_app_2; [|done|repeat constructor].
  intros y z Hy ->%list_elem_of_singleton. rewrite Forall_forall in Hx.
  apply Hx. by rewrite list_elem_of_In, <-in_rev, <-list_elem_of_In in Hy.
Qed.
End filters.

(** ** Correctness of the algorithm *)

Section correctness.
Context {A : Type} (less : A -> A -> bool) `{!StrictWeakOrder less}.
Implicit Types (x y z : A) (l rp : list A).

Lemma less_irrefl x : less x x = false.
Proof. destruct (less x x) eqn:E; [|done]. rewrite (swo_asym x x E) in E. done. Qed.

Lemma eqv_refl x : eqv less x x = true.
Proof. unfold eqv. by rewrite less_irrefl. Qed.

Lemma eqv_true x y : eqv less x y = true <-> less x y = false /\ less y x = false.
Proof. unfold eqv. by rewrite andb_true_iff, !negb_true_iff. Qed.

Lemma eqv_less_r x y z : eqv less z x = true -> less x y = true -> eqv less z y = false.
Proof.
  rewrite eqv_true. intros [H1 H2] H3. apply not_true_is_false. rewrite eqv_true.
  intros [H4 H5]. assert (less x y = false); [|congruence].
  eauto using swo_negtrans.
Qed.

Lemma sift_perm x rp : sift less x rp ≡ₚ x :: rp.
Proof.
  induction rp as [|y rp IH]; cbn; [done|]. destruct (less x y); [|done].
  rewrite IH. apply perm_swap.
Qed.

Lemma sift_sorted x rp :
  StronglySorted (fun a b => less a b = false) rp ->
  StronglySorted (fun a b => less a b = false) (sift less x rp).
Proof.
  induction 1 as [|y rp Hrp IH Hy]; cbn; [repeat constructor|].
  destruct (less x y) eqn:E.
  - constructor; [done|]. rewrite sift_perm. constructor; [by apply swo_asym|done].
  - constructor; [by constructor|]. constructor; [done|].
    eapply Forall_impl; [done|]. cbn. eauto using swo_negtrans.
Qed.

Lemma sift_filter z x rp :
  List.filter (eqv less z) (sift less x rp) = List.filter (eqv less z) (x :: rp).
Proof.
  induction rp as [|y rp IH]; [done|]. cbn [sift].
  destruct (less x y) eqn:E; [|done]. cbn [List.filter] in *. rewrite IH.
  destruct (eqv less z x) eqn:Ex; [|done]. by rewrite (eqv_less_r x y z).
Qed.

Lemma fold_sift_spec l rp :
  StronglySorted (fun a b => less a b = false) rp ->
  let r := fold_left (fun rp x => sift less x rp) l rp in
  r ≡ₚ rev l ++ rp /\ StronglySorted (fun a b => less a b = false) r /\
  forall z, List.filter (eqv less z) r = List.filter (eqv less z) (rev l ++ rp).
Proof.
  revert rp. induction l as [|x l IH]; intros rp Hrp; cbn; [done|].
  destruct (IH (sift less x rp)) as (Hp & Hs & Hf); [by apply sift_sorted|].
  split_and!; [|done|].
  - rewrite Hp, sift_perm. by rewrite <-(assoc_L (++)).
  - intros z. rewrite Hf, <-(assoc_L (++)), !(List.filter_app _ (rev l)). f_equal. apply sift_filter.
Qed.

Lemma SliceStable_spec l : StableSortOf less l (SliceStable less l).
Proof.
  destruct (fold_sift_spec l []) as (Hp & Hs & Hf); [constructor|].
  rewrite app_nil_r in Hp. unfold SliceStable. constructor.
  - etrans; [symmetry; apply Permutation_rev|]. rewrite Hp.
    symmetry. apply Permutation_rev.
  - by apply rev_StronglySorted in Hs.
  - intros x. by rewrite filter_rev, Hf, List.app_nil_r, <-filter_rev, rev_involutive.
Qed.
End correctness.

(** ** Uniqueness *)

Section uniqueness.
Context {A : Type} (less : A -> A -> bool) `{!StrictWeakOrder less}.
Implicit Types (x y z : A) (l k : list A).

(** The input may be rearranged as long as equivalent elements keep their
    order. *)
Definition stable_equiv l k : Prop :=
  l ≡ₚ k /\ forall x, List.filter (eqv less x) l = List.filter (eqv less x) k.

#[export] Instance stable_equiv_equivalence : Equivalence stable_equiv.
Proof.
  split.
  - by intros l.
  - intros l k [? H]. split; [by symmetry|]. intros x. by rewrite H.
  - intros l k m [? H1] [? H2]. split; [by etrans|]. intros x. by rewrite H1.
Qed.

#[export] Instance app_stable_equiv :
  Proper (stable_equiv ==> stable_equiv ==> stable_equiv) (@app A).
Proof.
  intros l1 l2 [Hp Hf] k1 k2 [Hp' Hf']. split; [by rewrite Hp, Hp'|].
  intros x. by rewrite !List.filter_app, Hf, Hf'.
Qed.

Lemma sorted_lists_eq l k :
  StronglySorted (fun a b => less b a = false) l ->
  StronglySorted (fun a b => less b a = false) k ->
  stable_equiv l k -> l = k.
Proof.
  intros Hl. revert k. induction Hl as [|a l Hl IH Ha]; intros k Hk [Hp Hf].
  { by apply Permutation_nil in Hp. }
  destruct Hk as [|b k Hk Hb]; [by apply Permutation_nil_r in Hp|].
  assert (less b a = false).
  { assert (b ∈ a :: l) as [->|Hin]%elem_of_cons by (rewrite Hp; left);
      [by apply less_irrefl|]. rewrite Forall_forall in Ha. eauto. }
  assert (less a b = false).
  { assert (a ∈ b :: k) as [->|Hin]%elem_of_cons by (rewrite <-Hp; left);
      [by apply less_irrefl|]. rewrite Forall_forall in Hb. eauto. }
  assert (a = b) as <-.
  { specialize (Hf a). cbn in Hf. rewrite (eqv_refl less) in Hf.
    rewrite (proj2 (eqv_true less a b)) in Hf by done. congruence. }
  f_equal. apply IH; [done|]. split; [by apply Permutation_cons_inv in Hp|].
  intros x. specialize (Hf x). cbn in Hf. destruct (eqv less x a); congruence.
Qed.

Lemma SliceStable_equiv l : stable_equiv (SliceStable less l) l.
Proof. destruct (SliceStable_spec less l) as [? _ ?]. done. Qed.

Lemma SliceStable_unique l k : StableSortOf less l k -> k = SliceStable less l.
Proof.
  intros [Hp Hs Hf]. destruct (SliceStable_spec less l).
  apply sorted_lists_eq; [done..|]. by rewrite SliceStable_equiv.
Qed.

#[export] Instance SliceStable_proper :
  Proper (stable_equiv ==> eq) (SliceStable less).
Proof.
  intros l k H. apply SliceStable_unique. destruct (SliceStable_spec less l).
  constructor; [by rewrite sorted_perm0; apply H|done|].
  intros x. rewrite sorted_stable0. apply H.
Qed.

Lemma SliceStable_idemp l : SliceStable less (SliceStable less l) = SliceStable less l.
Proof. apply SliceStable_proper, SliceStable_equiv. Qed.

Lemma SliceStable_app_l l k :
  SliceStable less (SliceStable less l ++ k) = SliceStable less (l ++ k).
Proof. apply SliceStable_proper, app_stable_equiv; [apply SliceStable_equiv|done]. Qed.

Lemma SliceStable_sorted_id l :
  StronglySorted (fun a b => less b a = false) l -> SliceStable less l = l.
Proof. intros. symmetry. apply SliceStable_unique. by constructor. Qed.

Lemma SliceStable_filter p l :
  List.filter p (SliceStable less l) = SliceStable less (List.filter p l).
Proof.
  apply SliceStable_unique. destruct (SliceStable_spec less l) as [Hp Hs Hf].
  constructor.
  - by apply filter_Permutation.
  - by apply StronglySorted_filter_bool.
  - intros x. by rewrite filter_comm, Hf, filter_comm.
Qed.

Lemma elem_of_SliceStable x l : x ∈ SliceStable less l <-> x ∈ l.
Proof. by rewrite (sorted_perm _ _ _ (SliceStable_spec less l)). Qed.

(** Blocks whose elements are pairwise comparable may be exchanged. *)
Lemma stable_equiv_swap l k :
  (forall x y, x ∈ l -> y ∈ k -> eqv less x y = false) ->
  stable_equiv (l ++ k) (k ++ l).
Proof.
  intros H. split; [apply Permutation_app_comm|]. intros z.
  rewrite !List.filter_app.
  destruct (List.filter (eqv less z) l) as [|x l'] eqn:El; [by rewrite app_nil_r|].
  destruct (List.filter (eqv less z) k) as [|y k'] eqn:Ek; [by rewrite app_nil_r|].
  exfalso.
  assert (x ∈ List.filter (eqv less z) l) as [Hx Hzx]%elem_of_filter_bool by (rewrite El; left).
  assert (y ∈ List.filter (eqv less z) k) as [Hy Hzy]%elem_of_filter_bool by (rewrite Ek; left).
  specialize (H x y Hx Hy). apply eqv_true in Hzx as [??], Hzy as [??].
  assert (eqv less x y = true); [|congruence].
  apply eqv_true. eauto using swo_negtrans.
Qed.
End uniqueness.

(** The order only matters on the elements of the list. *)
Lemma SliceStable_ext {A} (less1 less2 : A -> A -> bool) l :
  (forall x y, x ∈ l -> y ∈ l -> less1 x y = less2 x y) ->
  SliceStable less1 l = SliceStable less2 l.
Proof.
  intros H. unfold SliceStable. f_equal.
  assert (forall l' rp, (forall x y, x ∈ l' ++ rp -> y ∈ l' ++ rp -> less1 x y = less2 x y) ->
    fold_left (fun rp x => sift less1 x rp) l' rp =
    fold_left (fun rp x => sift less2 x rp) l' rp) as Hfold.
  { clear. induction l' as [|a l' IH]; intros rp H; cbn; [done|].
    assert (sift less1 a rp = sift less2 a rp) as Hs.
    { assert (forall y, y ∈ rp -> less1 a y = less2 a y) as Ha.
      { intros y Hy. apply H; set_solver. }
      clear -Ha. induction rp as [|b rp IH]; cbn; [done|].
      rewrite (Ha b) by left. destruct (less2 a b); [|done].
      f_equal. apply IH. intros y Hy. apply Ha. by right. }
    rewrite <-Hs. apply IH. intros x y.
    rewrite !elem_of_app, !(sift_perm less1), !elem_of_cons.
    intros. apply H; set_solver. }
  apply Hfold. by rewrite app_nil_r.
Qed.

(** ** "Projected items last, by name"

    The three comparison closures of [binding.go] have the same shape: items
    that are not projected stay first in their order, projected items follow,
    ordered by name. *)

Section projected.
Context {A : Type} (proj : A -> bool) (name : A -> string).

Definition projectedLess (ii jj : A) : bool :=
  let ip := proj ii in
  let jp := proj jj in
  if ip && jp then String.ltb (name ii) (name jj)
  else if jp then negb ip
  else false.

#[export] Instance projectedLess_swo : StrictWeakOrder projectedLess.
Proof.
  split; unfold projectedLess.
  - intros x y. destruct (proj x), (proj y); cbn; try done. apply ltb_asym.
  - intros x y z. destruct (proj x), (proj y), (proj z); cbn; try done. apply ltb_negtrans.
Qed.

Lemma eqv_projectedLess x y :
  eqv projectedLess x y = true <->
  (proj x = false /\ proj y = false) \/
  (proj x = true /\ proj y = true /\ name x = name y).
Proof.
  unfold projectedLess. rewrite eqv_true.
  destruct (proj x) eqn:?, (proj y) eqn:?; cbn; try naive_solver.
  split; [|by intros [[]|(_ & _ & ->)]; [|rewrite ltb_irrefl]].
  intros [??]. right. eauto using ltb_total.
Qed.

(** The order of the projected items among themselves. *)
Definition nameLess (x y : A) : bool := String.ltb (name x) (name y).

#[export] Instance nameLess_swo : StrictWeakOrder nameLess.
Proof.
  split; unfold nameLess; [intros x y; apply ltb_asym|intros x y z; apply ltb_negtrans].
Qed.

Lemma eqv_nameLess x y : eqv nameLess x y = true <-> name x = name y.
Proof.
  rewrite eqv_true. unfold nameLess. split.
  - intros []. by apply ltb_total.
  - intros ->. by rewrite ltb_irrefl.
Qed.

Lemma eqv_projected x y :
  proj y = true -> eqv projectedLess x y = proj x && eqv nameLess x y.
Proof.
  intros Hy. apply eq_true_iff_eq.
  rewrite andb_true_iff, eqv_projectedLess, eqv_nameLess, Hy. naive_solver.
Qed.

Lemma eqv_not_projected x y :
  proj y = false -> eqv projectedLess x y = negb (proj x).
Proof.
  intros Hy. apply eq_true_iff_eq.
  rewrite negb_true_iff, eqv_projectedLess, Hy. naive_solver.
Qed.

Lemma projected_split_sorted l k :
  (forall x, x ∈ l -> proj x = false) -> (forall x, x ∈ k -> proj x = true) ->
  StronglySorted (fun a b => nameLess b a = false) k ->
  StronglySorted (fun a b => projectedLess b a = false) (l ++ k).
Proof.
  unfold projectedLess. intros Hl Hk Hs. apply StronglySorted_app_2.
  - intros x y Hx%Hl Hy%Hk. by rewrite Hx, Hy.
  - clear Hs. induction l as [|x l IH]; constructor.
    + apply IH. intros y Hy. apply Hl. by right.
    + apply Forall_forall. intros y _. rewrite (Hl x) by left. by destruct (proj y).
  - clear Hl. induction Hs as [|x k Hs IH Hx]; constructor.
    + apply IH. intros y Hy. apply Hk. by right.
    + rewrite Forall_forall in Hx |- *. intros y Hy. specialize (Hx y Hy).
      by rewrite (Hk x), (Hk y) by set_solver.
Qed.

(** The result: the other items untouched, then the projected items. *)
Lemma SliceStable_projected l :
  SliceStable projectedLess l =
    List.filter (fun x => negb (proj x)) l ++ SliceStable nameLess (List.filter proj l).
Proof.
  symmetry. apply SliceStable_unique; [apply _|].
  destruct (SliceStable_spec nameLess (List.filter proj l)) as [Hp Hs Hf].
  assert (forall x, x ∈ SliceStable nameLess (List.filter proj l) -> proj x = true) as Hproj.
  { intros x. rewrite elem_of_SliceStable, elem_of_filter_bool by apply _. tauto. }
  assert (forall x, x ∈ List.filter (fun x => negb (proj x)) l -> proj x = false) as Hnot.
  { intros x [_ Hx]%elem_of_filter_bool. by apply negb_true_iff. }
  constructor.
  - rewrite Hp. clear. induction l as [|x l IH]; cbn; [done|].
    destruct (proj x); cbn; [rewrite <-Permutation_middle|]; by rewrite IH.
  - by apply projected_split_sorted.
  - intros x. rewrite List.filter_app.
    rewrite (filter_ext_elem _ (fun _ => negb (proj x)) (List.filter (fun x => negb (proj x)) l))
      by (intros; apply eqv_not_projected; auto).
    rewrite (filter_ext_elem _ (fun y => proj x && eqv nameLess x y) (SliceStable _ _))
      by (intros; apply eqv_projected; auto).
    destruct (proj x) eqn:Ex; cbn.
    + rewrite (filter_none (fun _ => false)), app_nil_l by done. etrans; [apply Hf|].
      rewrite filter_filter. apply List.filter_ext.
      intros y. destruct (proj y) eqn:Ey; cbn.
      * by rewrite eqv_projected, Ex.
      * by rewrite eqv_not_projected, Ex.
    + rewrite (filter_all (fun _ => true)), (filter_none (fun _ => false)), app_nil_r by done. apply List.filter_ext.
      intros y. destruct (proj y) eqn:Ey; cbn.
      * by rewrite eqv_projected, Ex.
      * by rewrite eqv_not_projected, Ex.
Qed.

(** Without projected items nothing moves. *)
Lemma SliceStable_no_projected l :
  (forall x, x ∈ l -> proj x = false) -> SliceStable projectedLess l = l.
Proof.
  intros H. rewrite SliceStable_projected, filter_all, (filter_none proj), app_nil_r; [done..|].
  intros x Hx. by rewrite H.
Qed.
End projected.

#[global] Arguments SliceStable : simpl never.
