(* ===== verification/GoPath.v ===== *)
(** * Go's [path.Join]

    [projectVolumeMount] builds the mount path with [path.Join], which joins
    with slashes and calls [path.Clean]: empty and [.] components disappear,
    [..] removes the component before it, a rooted path stays rooted. *)

From Stdlib Require Import Ascii.
From S2P Require Import Prelude.

Definition slash : ascii := "/"%char.

(** The components between the slashes. *)
Fixpoint split_slash (s : string) : list string :=
  match s with
  | EmptyString => [""%string]
  | String a s' =>
      if Ascii.eqb a slash then ""%string :: split_slash s'
      else match split_slash s' with
           | c :: cs => String a c :: cs
           | [] => [String a EmptyString]
           end
  end.

Fixpoint join_slash (cs : list string) : string :=
  match cs with
  | [] => ""
  | [c] => c
  | c :: cs' => String.append c (String slash (join_slash cs'))
  end.

Definition rooted (s : string) : bool :=
  match s with String a _ => Ascii.eqb a slash | EmptyString => false end.

(** One component of [path.Clean]; the output is a stack. *)
Definition clean_step (r : bool) (out : list string) (c : string) : list string :=
  if String.eqb c "" || String.eqb c "." then out
  else if String.eqb c ".." then
    match out with
    | top :: out' => if String.eqb top ".." then c :: out else out'
    | [] => if r then out else [c]
    end
  else c :: out.

Definition Clean (s : string) : string :=
  let r := rooted s in
  let body := join_slash (rev (fold_left (clean_step r) (split_slash s) [])) in
  let res := if r then String slash body else body in
  if String.eqb res "" then "."%string else res.

(** [path.Join(a, b)] *)
Definition Join (a b : string) : string :=
  if String.eqb a "" && String.eqb b "" then ""%string
  else if String.eqb a "" then Clean b
  else Clean (join_slash [a; b]).

Example Join_root : Join "/bindings" "db" = "/bindings/db"%string. Proof. reflexivity. Qed.
Example Join_clean : Join "/a//b/./c/.." "../db/" = "/a/db"%string. Proof. reflexivity. Qed.
Example Join_relative : Join "" "db" = "db"%string. Proof. reflexivity. Qed.
Example Join_up : Join "../x" "../.." = "../.."%string. Proof. reflexivity. Qed.

(** ** Plain components *)

Fixpoint no_slash (c : string) : bool :=
  match c with
  | EmptyString => true
  | String a c' => negb (Ascii.eqb a slash) && no_slash c'
  end.

(** A file name: not empty, no slash, not [.] or [..]. *)
Definition plain (c : string) : bool :=
  negb (String.eqb c "" || String.eqb c "." || String.eqb c "..") &&
  no_slash c.

Lemma split_slash_cons_slash s : split_slash (String slash s) = ""%string :: split_slash s.
Proof. done. Qed.

Lemma split_slash_nonempty s : split_slash s <> [].
Proof.
  destruct s as [|a s]; cbn; [done|]. destruct (Ascii.eqb a slash); [done|].
  by destruct (split_slash s).
Qed.

Lemma split_slash_no_slash c :
  no_slash c = true ->
  split_slash c = [c].
Proof.
  induction c as [|a c IH]; cbn [no_slash]; [done|].
  intros [Ha Hc]%andb_prop. cbn. apply negb_true_iff in Ha. rewrite Ha. by rewrite IH.
Qed.

Lemma split_slash_app c s :
  no_slash c = true ->
  split_slash (String.append c (String slash s)) = c :: split_slash s.
Proof.
  induction c as [|a c IH]; [done|]. cbn [no_slash].
  intros [Ha Hc]%andb_prop. rewrite string_app_cons. cbn.
  apply negb_true_iff in Ha. rewrite Ha. by rewrite IH.
Qed.

Lemma split_join cs :
  cs <> [] -> Forall (fun c => plain c = true) cs -> split_slash (join_slash cs) = cs.
Proof.
  induction cs as [|c [|c' cs] IH]; intros Hne Hcs; [done|..].
  - apply Forall_cons in Hcs as [[_ Hc]%andb_prop _].
    by apply split_slash_no_slash.
  - apply Forall_cons in Hcs as [[_ Hc]%andb_prop Hcs].
    cbn [join_slash]. rewrite split_slash_app by done. f_equal. by apply IH.
Qed.

Lemma clean_step_plain r out c : plain c = true -> clean_step r out c = c :: out.
Proof.
  unfold plain, clean_step. intros [Hc _]%andb_prop.
  apply negb_true_iff in Hc. by apply orb_false_iff in Hc as [-> ->].
Qed.

Lemma fold_clean_plain r cs out :
  Forall (fun c => plain c = true) cs ->
  fold_left (clean_step r) cs out = rev cs ++ out.
Proof.
  revert out. induction cs as [|c cs IH]; intros out Hcs; [done|].
  apply Forall_cons in Hcs as [Hc Hcs]. cbn.
  rewrite IH, clean_step_plain by done. by rewrite <-(assoc_L (++)).
Qed.

(** An absolute path given by its components. *)
Definition abs_path (cs : list string) : string := String slash (join_slash cs).

Lemma Clean_abs_path cs :
  Forall (fun c => plain c = true) cs -> Clean (abs_path cs) = abs_path cs.
Proof.
  intros Hcs. unfold Clean, abs_path. cbn [rooted].
  change (Ascii.eqb slash slash) with true. cbn iota beta.
  rewrite split_slash_cons_slash. cbn [fold_left].
  change (clean_step true [] "") with (@nil string).
  destruct cs as [|c cs]; [done|].
  rewrite split_join, fold_clean_plain, app_nil_r, rev_involutive by done. done.
Qed.

Lemma join_slash_snoc cs c :
  cs <> [] -> join_slash (cs ++ [c]) = String.append (join_slash cs) (String slash c).
Proof.
  induction cs as [|d [|d' cs] IH]; intros H; [done|done|].
  change ((d :: d' :: cs) ++ [c]) with (d :: (d' :: cs) ++ [c]).
  cbn [join_slash]. cbn [app]. change (d' :: cs ++ [c]) with ((d' :: cs) ++ [c]).
  rewrite IH by done. by rewrite <-string_app_assoc, string_app_cons.
Qed.

(** Joining a file name to an absolute path appends a component. *)
Lemma Join_abs_path cs c :
  cs <> [] -> Forall (fun c => plain c = true) cs -> plain c = true ->
  Join (abs_path cs) c = abs_path (cs ++ [c]).
Proof.
  intros Hne Hcs Hc. unfold Join.
  destruct (String.eqb (abs_path cs) "") eqn:E; [done|]. cbn [andb].
  assert (join_slash [abs_path cs; c] = abs_path (cs ++ [c])) as ->.
  { unfold abs_path. rewrite join_slash_snoc by done. done. }
  apply Clean_abs_path. apply Forall_app. auto.
Qed.

Lemma abs_path_inj cs ds :
  Forall (fun c => plain c = true) cs -> Forall (fun c => plain c = true) ds ->
  abs_path cs = abs_path ds -> cs = ds.
Proof.
  intros Hcs Hds [= H]. destruct cs as [|c cs], ds as [|d ds]; [done|..].
  - exfalso. apply (f_equal split_slash) in H. rewrite (split_join (d :: ds)) in H by done.
    cbn in H. injection H as <- <-. by apply Forall_cons in Hds as [? _].
  - exfalso. apply (f_equal split_slash) in H. rewrite (split_join (c :: cs)) in H by done.
    cbn in H. injection H as -> ->. by apply Forall_cons in Hcs as [? _].
  - apply (f_equal split_slash) in H. by rewrite !split_join in H.
Qed.
