(* ===== verification/Json.v ===== *)
(** * JSON trees and typed codecs

    The unstructured form of a Kubernetes object is a tree of
    [map[string]interface{}], [[]interface{}] and scalars ([json]). The
    program never looks into numbers: [JNum] carries the literal.

    A typed value reaches the tree through [encoding/json]: [Codec T] is what
    the program relies on for the types it reads and writes, with the
    documented round trip [json.Unmarshal(json.Marshal(x)) = x] as its law. *)

From S2P Require Import Prelude.

Inductive json :=
  | JNull
  | JBool (b : bool)
  | JNum (literal : string)
  | JStr (s : string)
  | JArr (l : list json)
  | JObj (m : gmap string json).

(** The members of a JSON object. *)
Abbreviation object := (gmap string json).

Class Codec (T : Type) := {
  marshal : T -> json;
  unmarshal : json -> outcome T;
}.

Class CodecLaws (T : Type) `{Codec T} : Prop := {
  unmarshal_marshal (x : T) : unmarshal (marshal x) = Ok x;
  (** nothing the program writes is [null] *)
  marshal_not_null (x : T) : marshal x <> JNull;
}.

(** ** Strings and string maps

    [encoding/json] decodes a JSON string into a Go string, and an object of
    strings into a [map[string]string]; a [null] member decodes to the empty
    string, anything else is an [UnmarshalTypeError]. *)
Definition as_string (j : json) : option string :=
  match j with JStr s => Some s | JNull => Some ""%string | _ => None end.

#[export] Instance string_codec : Codec string := {|
  marshal := JStr;
  unmarshal j := match as_string j with
                 | Some s => Ok s
                 | None => Err (ErrOther "cannot unmarshal into string")
                 end;
|}.

#[export] Instance string_codec_laws : CodecLaws string.
Proof. by split. Qed.

#[export] Instance string_map_codec : Codec (gmap string string) := {|
  marshal m := JObj (JStr <$> m);
  unmarshal j := match j with
                 | JObj m =>
                     if decide (map_Forall (fun _ v => is_Some (as_string v)) m)
                     then Ok (omap as_string m)
                     else Err (ErrOther "cannot unmarshal into map[string]string")
                 | JNull => Ok ∅
                 | _ => Err (ErrOther "cannot unmarshal into map[string]string")
                 end;
|}.

#[export] Instance string_map_codec_laws : CodecLaws (gmap string string).
Proof.
  split; [|done]. intros m. cbn. rewrite decide_True.
  - f_equal. apply map_eq. intros k. rewrite lookup_omap, lookup_fmap.
    by destruct (m !! k).
  - intros k v Hv. rewrite lookup_fmap in Hv. apply fmap_Some in Hv as (s & _ & ->).
    by eexists.
Qed.
