(* ===== verification/Types.v ===== *)
(** * API types

    The types of [apis/v1beta1] ([servicebinding_types.go],
    [clusterworkloadresourcemapping_types.go]) and the fields of the Kubernetes
    types that the program reads or sets. Of a Kubernetes struct, the members
    the program neither reads nor sets are kept together in an [..._other]
    object, empty in the values the program builds. *)

From S2P Require Import Prelude Json.

(** ** Kubernetes metadata *)

(** [metav1.LabelSelector] is data the program only hands on. *)
Definition LabelSelector : Type := json.

(** [*metav1.Time]: [None] is [nil], the zero time is [0]. *)
Definition Time : Type := option Z.
Definition Time_IsZero (t : Time) : bool :=
  match t with None => true | Some z => Z.eqb z 0 end.

Record ObjectMeta := mkObjectMeta {
  om_Name : string;
  om_Namespace : string;
  om_UID : string;
  om_Generation : Z;
  om_DeletionTimestamp : Time;
}.

Record Condition := mkCondition {
  cond_Type : string;
  cond_Status : string;
  cond_Reason : string;
  cond_Message : string;
}.

(** ** servicebinding_types.go *)

Record ServiceBindingWorkloadReference := mkWorkloadReference {
  wr_APIVersion : string;
  wr_Kind : string;
  wr_Name : string;
  wr_Selector : option LabelSelector;
  wr_Containers : list string;
}.

Record ServiceBindingServiceReference := mkServiceReference {
  sr_APIVersion : string;
  sr_Kind : string;
  sr_Name : string;
}.

Record ServiceBindingSecretReference := mkSecretReference {
  secretref_Name : string;
}.

Record EnvMapping := mkEnvMapping {
  em_Name : string;
  em_Key : string;
}.

Record ServiceBindingSpec := mkServiceBindingSpec {
  sbs_Name : string;
  sbs_Type : string;
  sbs_Provider : string;
  sbs_Workload : ServiceBindingWorkloadReference;
  sbs_Service : ServiceBindingServiceReference;
  sbs_Env : list EnvMapping;
}.

Record ServiceBindingStatus := mkServiceBindingStatus {
  sbst_ObservedGeneration : Z;
  sbst_Conditions : list Condition;
  sbst_Binding : option ServiceBindingSecretReference;
}.

Record ServiceBinding := mkServiceBinding {
  sb_Meta : ObjectMeta;
  sb_Spec : ServiceBindingSpec;
  sb_Status : ServiceBindingStatus;
}.

(** Field updates, as the Go code assigns them. *)
Definition set_sbs_Name (n : string) (s : ServiceBindingSpec) : ServiceBindingSpec :=
  mkServiceBindingSpec n (sbs_Type s) (sbs_Provider s) (sbs_Workload s) (sbs_Service s) (sbs_Env s).
Definition set_sb_Spec (s : ServiceBindingSpec) (b : ServiceBinding) : ServiceBinding :=
  mkServiceBinding (sb_Meta b) s (sb_Status b).
Definition set_sb_Status (s : ServiceBindingStatus) (b : ServiceBinding) : ServiceBinding :=
  mkServiceBinding (sb_Meta b) (sb_Spec b) s.
Definition set_sbst_Conditions (c : list Condition) (s : ServiceBindingStatus) : ServiceBindingStatus :=
  mkServiceBindingStatus (sbst_ObservedGeneration s) c (sbst_Binding s).
Definition set_sbst_Binding (r : option ServiceBindingSecretReference) (s : ServiceBindingStatus) :
    ServiceBindingStatus :=
  mkServiceBindingStatus (sbst_ObservedGeneration s) (sbst_Conditions s) r.

(** ** clusterworkloadresourcemapping_types.go *)

Record ClusterWorkloadResourceMappingContainer := mkMappingContainer {
  mc_Path : string;
  mc_Name : string;
  mc_Env : string;
  mc_VolumeMounts : string;
}.

Record ClusterWorkloadResourceMappingTemplate := mkMappingTemplate {
  mt_Version : string;
  mt_Annotations : string;
  mt_Containers : list ClusterWorkloadResourceMappingContainer;
  mt_Volumes : string;
}.

Record ClusterWorkloadResourceMappingSpec := mkMappingSpec {
  ms_Versions : list ClusterWorkloadResourceMappingTemplate;
}.

Record ClusterWorkloadResourceMapping := mkMapping {
  cwrm_Meta : ObjectMeta;
  cwrm_Spec : ClusterWorkloadResourceMappingSpec;
}.

(** ** The parts of [corev1] that are projected *)

Record ObjectFieldSelector := mkObjectFieldSelector {
  ofs_FieldPath : string;
  ofs_other : object;
}.

Record SecretKeySelector := mkSecretKeySelector {
  sks_Name : string;
  sks_Key : string;
  sks_other : object;
}.

Record EnvVarSource := mkEnvVarSource {
  evs_FieldRef : option ObjectFieldSelector;
  evs_SecretKeyRef : option SecretKeySelector;
  evs_other : object;
}.

Record EnvVar := mkEnvVar {
  ev_Name : string;
  ev_Value : string;
  ev_ValueFrom : option EnvVarSource;
}.

Record VolumeMount := mkVolumeMount {
  vm_Name : string;
  vm_ReadOnly : bool;
  vm_MountPath : string;
  vm_other : object;
}.

Record SecretProjection := mkSecretProjection {
  sp_Name : string;
  sp_other : object;
}.

Record DownwardAPIVolumeFile := mkDownwardAPIVolumeFile {
  daf_Path : string;
  daf_FieldRef : option ObjectFieldSelector;
  daf_other : object;
}.

Record DownwardAPIProjection := mkDownwardAPIProjection {
  dap_Items : list DownwardAPIVolumeFile;
}.

Record VolumeProjection := mkVolumeProjection {
  vp_Secret : option SecretProjection;
  vp_DownwardAPI : option DownwardAPIProjection;
  vp_other : object;
}.

Record ProjectedVolumeSource := mkProjectedVolumeSource {
  pvs_Sources : list VolumeProjection;
  pvs_other : object;
}.

Record Volume := mkVolume {
  vol_Name : string;
  vol_Projected : option ProjectedVolumeSource;
  vol_other : object;
}.

(** ** metapodtemplate.go: the pod template as the projector sees it

    The Go struct also holds the workload and its mapping, which are set once
    by [NewMetaPodTemplate]; here they are arguments of the functions that use
    them. *)

Record metaContainer := mkMetaContainer {
  mct_Name : option string;
  mct_Env : list EnvVar;
  mct_VolumeMounts : list VolumeMount;
}.

Record metaPodTemplate := mkMetaPodTemplate {
  mpt_Annotations : gmap string string;
  mpt_Containers : list metaContainer;
  mpt_Volumes : list Volume;
}.

Definition set_mct_Env (e : list EnvVar) (mc : metaContainer) : metaContainer :=
  mkMetaContainer (mct_Name mc) e (mct_VolumeMounts mc).
Definition set_mct_VolumeMounts (m : list VolumeMount) (mc : metaContainer) : metaContainer :=
  mkMetaContainer (mct_Name mc) (mct_Env mc) m.
Definition set_mpt_Annotations (a : gmap string string) (m : metaPodTemplate) : metaPodTemplate :=
  mkMetaPodTemplate a (mpt_Containers m) (mpt_Volumes m).
Definition set_mpt_Containers (c : list metaContainer) (m : metaPodTemplate) : metaPodTemplate :=
  mkMetaPodTemplate (mpt_Annotations m) c (mpt_Volumes m).
Definition set_mpt_Volumes (v : list Volume) (m : metaPodTemplate) : metaPodTemplate :=
  mkMetaPodTemplate (mpt_Annotations m) (mpt_Containers m) v.
