(* ===== verification/Heap.v ===== *)
(** * Go memory

    Objects that code shares and changes in place: a heap of arrays, slices and
    pointers into them, and the monad of code that allocates and writes. A
    slice is a view of an array, [nil] is [None]; a pointer is an element of an
    array, and [new(T)] an array of one element. [DeepCopyLaws] states what a
    deep copy promises: the old heap is untouched, and the copy lives in the
    new part of the heap only. *)

From S2P Require Import Prelude.
Local Open Scope string_scope.

Record slice := mkSlice {
  sl_array : positive;
  sl_off : nat;
  sl_len : nat;
}.

Record pointer := mkPointer {
  p_array : positive;
  p_index : nat;
}.

(** Arrays of [T] are cells of the heap. *)
Class Storable (cell T : Type) := {
  inj : list T -> cell;
  proj : cell -> option (list T);
  zero : T;
  proj_inj l : proj (inj l) = Some l;
  proj_Some c l : proj c = Some l -> c = inj l;
}.

#[export] Hint Mode Storable - ! : typeclass_instances.

(** Memory of cells. *)
Abbreviation heap cell := (gmap positive cell).
Definition M (cell A : Type) : Type := heap cell -> outcome (A * heap cell).

#[export] Instance M_ret cell : MRet (M cell) := fun A a h => Ok (a, h).
#[export] Instance M_bind cell : MBind (M cell) := fun A B f m h =>
  match m h with
  | Ok (a, h') => f a h'
  | Err e => Err e
  | Panic s => Panic s
  end.

Section memory.
Context {cell : Type}.
Implicit Types h : heap cell.

Definition panic {A} (s : string) : M cell A := fun _ => Panic s.

Definition nextLoc h : positive := Pos.succ (map_fold (fun k _ n => Pos.max k n) 1%positive h).

Section typed.
Context {T : Type} `{Storable cell T}.

Definition arrayAt h (a : positive) : option (list T) := h !! a ≫= proj.

Definition alloc (l : list T) : M cell positive := fun h =>
  Ok (nextLoc h, <[nextLoc h := inj l]> h).

(** [make([]T, n)] and [new(T)] *)
Definition make (n : nat) : M cell slice := a ← alloc (replicate n zero); mret (mkSlice a 0 n).
Definition new : M cell pointer := a ← alloc [zero]; mret (mkPointer a 0).
(** [&T{...}], and a variable whose address is taken *)
Definition newWith (v : T) : M cell pointer := a ← alloc [v]; mret (mkPointer a 0).
(** [[]T{...}] *)
Definition makeWith (l : list T) : M cell slice := a ← alloc l; mret (mkSlice a 0 (length l)).

Definition load (a : positive) (i : nat) : M cell T := fun h =>
  match arrayAt h a ≫= (.!! i) with
  | Some v => Ok (v, h)
  | None => Panic "invalid memory address"
  end.

Definition store (a : positive) (i : nat) (v : T) : M cell () := fun h =>
  match arrayAt h a with
  | Some l => if decide (i < length l) then Ok (tt, <[a := inj (<[i := v]> l)]> h)
              else Panic "invalid memory address"
  | None => Panic "invalid memory address"
  end.

(** [s[i]], [s[i] = v] *)
Definition index (s : slice) (i : nat) : M cell T :=
  if decide (i < sl_len s) then load (sl_array s) (sl_off s + i)
  else panic "index out of range".
Definition setIndex (s : slice) (i : nat) (v : T) : M cell () :=
  if decide (i < sl_len s) then store (sl_array s) (sl_off s + i) v
  else panic "index out of range".

(** [*p], [*p = v] *)
Definition deref (p : pointer) : M cell T := load (p_array p) (p_index p).
Definition assign (p : pointer) (v : T) : M cell () := store (p_array p) (p_index p) v.
(** [&s[i]] *)
Definition addrOf (s : slice) (i : nat) : M cell pointer :=
  if decide (i < sl_len s) then mret (mkPointer (sl_array s) (sl_off s + i))
  else panic "index out of range".
End typed.

(** [for i := range s { f(i) }] *)
Fixpoint forRange (i n : nat) (f : nat -> M cell ()) : M cell () :=
  match n with
  | O => mret tt
  | S n => f i ;; forRange (S i) n f
  end.
Definition range (s : slice) (f : nat -> M cell ()) : M cell () := forRange 0 (sl_len s) f.

(** The built-in [copy(dst, src)], for slices that do not overlap. *)
Definition copy {T} `{Storable cell T} (dst src : slice) : M cell () :=
  forRange 0 (sl_len dst `min` sl_len src) (fun i => v ← index (T := T) src i; setIndex dst i v).

(** ** The bodies that the generator of deep copies emits *)

(** [if in.X != nil { ... }]: the field of the copy is [nil] otherwise. *)
Definition ifNotNil {A B} (x : option A) (f : A -> M cell B) : M cell (option B) :=
  match x with
  | None => mret None
  | Some x => y ← f x; mret (Some y)
  end.

(** The element [i] of one slice is copied into that of the other. *)
Definition copyElement {T} `{Storable cell T} (into : T -> M cell T) (s d : slice) (i : nat) :
    M cell () :=
  v ← index s i; v' ← into v; setIndex d i v'.

(** [out := new(T); in.DeepCopyInto(out); return out] *)
Definition copyPointer {T} `{Storable cell T} (into : T -> M cell T) (p : pointer) :
    M cell pointer :=
  out ← new (T := T); v ← deref p; v' ← into v; assign out v';; mret out.

(** ** What a heap holds *)

(** A reader of [hT] gives the value that a Go value stands for. *)
Section readers.
Context {hT T : Type} `{Storable cell hT} (rd : heap cell -> hT -> option T).

Definition readSlice h (s : option slice) : option (list T) :=
  match s with
  | None => Some []
  | Some s =>
      l ← arrayAt h (sl_array s);
      if decide (sl_off s + sl_len s <= length l) then
        mapM (rd h) (take (sl_len s) (drop (sl_off s) l))
      else None
  end.

Definition readPointer h (p : pointer) : option T :=
  v ← arrayAt h (p_array p) ≫= (.!! p_index p); rd h v.

(** The same, where the value at [p] does not depend on the array it lies in. *)
Definition readOwned h (p : pointer) : option T :=
  v ← arrayAt h (p_array p) ≫= (.!! p_index p); rd (delete (p_array p) h) v.

Definition readOptional h (p : option pointer) : option (option T) :=
  match p with
  | None => Some None
  | Some p => Some <$> readPointer h p
  end.
End readers.
End memory.

(** A type that is copied: how its values are read, and the function that
    copies a value. *)
Class DeepCopyable (cell hT T : Type) := {
  reads : heap cell -> hT -> option T;
  DeepCopyInto : hT -> M cell hT;
}.
#[export] Hint Mode DeepCopyable + ! - : typeclass_instances.

(** A deep copy succeeds, leaves the heap as it was except for new cells, and
    reads as the original in the new cells alone. *)
Class DeepCopyLaws (cell hT T : Type) `{DeepCopyable cell hT T} := {
  reads_mono (h h' : heap cell) (v : hT) (x : T) : h ⊆ h' -> reads h v = Some x -> reads h' v = Some x;
  DeepCopyInto_fresh (h : heap cell) (v : hT) (x : T) : reads h v = Some x ->
    exists v' h', DeepCopyInto v h = Ok (v', h') /\ h ⊆ h' /\ reads (h' ∖ h) v' = Some x;
}.
#[export] Hint Mode DeepCopyLaws + ! - - : typeclass_instances.

(** ** Lemmas *)

Section heaps.
Context {cell : Type}.
Implicit Types h : heap cell.

Lemma nextLoc_above h k c : h !! k = Some c -> (k < nextLoc h)%positive.
Proof.
  unfold nextLoc. intros Hk.
  enough (k <= map_fold (fun k _ n => Pos.max k n) 1 h)%positive by lia.
  revert h Hk. refine (map_fold_weak_ind (fun r h => h !! k = Some c -> (k <= r)%positive) _ _ _ _).
  - by rewrite lookup_empty.
  - intros i x h r Hi IH [[-> _]|[_ Hk]]%lookup_insert_Some; [lia|]. specialize (IH Hk). lia.
Qed.

Lemma nextLoc_fresh h : h !! nextLoc h = None.
Proof.
  destruct (h !! nextLoc h) as [c|] eqn:E; [|done].
  apply nextLoc_above in E. lia.
Qed.

Lemma diff_mono h0 h1 h2 : h1 ⊆ h2 -> h1 ∖ h0 ⊆ h2 ∖ h0.
Proof.
  intros Hs. apply map_subseteq_spec. intros k c.
  rewrite !lookup_difference_Some. intros [H1 ?]. split; [|done].
  by eapply lookup_weaken.
Qed.

Lemma diff_anti h0 h1 h2 : h0 ⊆ h1 -> h2 ∖ h1 ⊆ h2 ∖ h0.
Proof.
  intros Hs. apply map_subseteq_spec. intros k c.
  rewrite !lookup_difference_Some. intros [H2 H1]. split; [done|].
  destruct (h0 !! k) eqn:E; [|done]. by rewrite (lookup_weaken _ _ _ _ E Hs) in H1.
Qed.

Lemma diff_sub h0 h1 : h1 ∖ h0 ⊆ h1.
Proof. apply map_subseteq_spec. intros k c. by intros [? _]%lookup_difference_Some. Qed.

Section typed.
Context {T : Type} `{Storable cell T}.

Lemma arrayAt_insert h a (l : list T) : arrayAt (<[a := inj l]> h) a = Some l.
Proof. unfold arrayAt. rewrite lookup_insert_eq. apply proj_inj. Qed.

Lemma arrayAt_mono h h' a (l : list T) : h ⊆ h' -> arrayAt h a = Some l -> arrayAt h' a = Some l.
Proof.
  unfold arrayAt. intros Hs (c & Hc & Hp)%bind_Some. by rewrite (lookup_weaken _ _ _ _ Hc Hs).
Qed.

Lemma alloc_sub h (l : list T) : h ⊆ <[nextLoc h := inj l]> h.
Proof. apply insert_subseteq, nextLoc_fresh. Qed.

Lemma arrayAt_new H0 h a (l : list T) :
  h !! a = None -> arrayAt (<[a := inj l]> H0 ∖ h) a = Some l.
Proof.
  intros Ha. unfold arrayAt.
  assert ((<[a := inj l]> H0 ∖ h) !! a = Some (inj l)) as ->; [|apply proj_inj].
  apply lookup_difference_Some. by rewrite lookup_insert_eq.
Qed.
End typed.

Section readers.
Context {hT T : Type} `{Storable cell hT} (rd : heap cell -> hT -> option T).
Hypothesis Hmono : forall h h' v x, h ⊆ h' -> rd h v = Some x -> rd h' v = Some x.

Lemma mapM_mono h h' l xs : h ⊆ h' -> mapM (rd h) l = Some xs -> mapM (rd h') l = Some xs.
Proof.
  intros Hs. rewrite !mapM_Some. intros Hf. eapply Forall2_impl; [done|]. eauto.
Qed.

Lemma readSlice_mono h h' s xs :
  h ⊆ h' -> readSlice rd h s = Some xs -> readSlice rd h' s = Some xs.
Proof.
  intros Hs. destruct s as [s|]; cbn; [|done]. intros (l & Hl & Hr)%bind_Some.
  rewrite (arrayAt_mono h h' _ l) by done. cbn.
  destruct (decide _); [|done]. by eapply mapM_mono.
Qed.

Lemma readPointer_mono h h' p x :
  h ⊆ h' -> readPointer rd h p = Some x -> readPointer rd h' p = Some x.
Proof.
  intros Hs. unfold readPointer.
  intros (v & (l & Hl & Hi)%bind_Some & Hv)%bind_Some.
  rewrite (arrayAt_mono h h' _ l) by done. cbn. rewrite Hi. cbn. eauto.
Qed.

Lemma readOwned_pointer h p x : readOwned rd h p = Some x -> readPointer rd h p = Some x.
Proof.
  unfold readOwned, readPointer. intros (v & -> & Hv)%bind_Some. cbn.
  eapply Hmono; [|exact Hv]. apply delete_subseteq.
Qed.

Lemma readOptional_mono h h' p x :
  h ⊆ h' -> readOptional rd h p = Some x -> readOptional rd h' p = Some x.
Proof.
  intros Hs. destruct p as [p|]; cbn; [|done]. intros (y & Hy & ->)%fmap_Some.
  by rewrite (readPointer_mono h h' p y Hs Hy).
Qed.
End readers.

Lemma M_bind_Ok {A B} (f : A -> M cell B) (m : M cell A) h a h' :
  m h = Ok (a, h') -> (m ≫= f) h = f a h'.
Proof. intros E. unfold mbind, M_bind. by rewrite E. Qed.

Lemma forRange_S i k f h h' :
  f i h = Ok (tt, h') -> forRange i (S k) f h = forRange (S i) k f h'.
Proof. intros E. cbn [forRange]. unfold mbind, M_bind. by rewrite E. Qed.
End heaps.

(** ** Fresh values *)

(** [m] makes a value that stands for [x] in new cells. *)
Definition freshly {cell A X} (m : M cell A) (r : heap cell -> A -> option X) (h : heap cell) (x : X) :
    Prop :=
  exists a h', m h = Ok (a, h') /\ h ⊆ h' /\ r (h' ∖ h) a = Some x.

Section fresh.
Context {cell : Type}.
Implicit Types h : heap cell.

Lemma freshly_ret {A X} (a : A) (r : heap cell -> A -> option X) h x :
  r ∅ a = Some x -> freshly (mret a) r h x.
Proof. intros Hr. exists a, h. by rewrite map_difference_diag. Qed.

(** The same seen from an older heap. *)
Lemma freshly_from {A X} (m : M cell A) (r : heap cell -> A -> option X) h0 h1 x :
  (forall h h' a x, h ⊆ h' -> r h a = Some x -> r h' a = Some x) ->
  freshly m r h1 x -> h0 ⊆ h1 ->
  exists a h2, m h1 = Ok (a, h2) /\ h0 ⊆ h2 /\ h1 ⊆ h2 /\ r (h2 ∖ h0) a = Some x.
Proof.
  intros Hm (a & h2 & Hr & Hs & Hx) H01. exists a, h2. split_and!; [done|by etrans|done|].
  eapply Hm; [|exact Hx]. by apply diff_anti.
Qed.

Lemma freshly_fmap {A B X Y} (m : M cell A) (f : A -> B)
    (r : heap cell -> A -> option X) (r' : heap cell -> B -> option Y) h x y :
  freshly m r h x -> (forall h a, r h a = Some x -> r' h (f a) = Some y) ->
  freshly (a ← m; mret (f a)) r' h y.
Proof.
  intros (a & h' & Hr & Hs & Hx) Hf. exists (f a), h'. split_and!; [|done|by apply Hf].
  by erewrite M_bind_Ok by exact Hr.
Qed.

Section optional.
Context {hT T : Type} `{Storable cell hT} (rd : heap cell -> hT -> option T).

Lemma ifNotNil_slice (s : option slice) (f : slice -> M cell slice) h xs :
  readSlice rd h s = Some xs ->
  (forall s, readSlice rd h (Some s) = Some xs ->
     freshly (f s) (fun h d => readSlice rd h (Some d)) h xs) ->
  freshly (ifNotNil s f) (readSlice rd) h xs.
Proof.
  intros Hs Hf. destruct s as [s|]; [|by apply freshly_ret].
  eapply (freshly_fmap _ Some); [by apply Hf|]. done.
Qed.

Lemma ifNotNil_pointer (p : option pointer) (f : pointer -> M cell pointer) h x :
  readOptional rd h p = Some x ->
  (forall p x, readPointer rd h p = Some x -> freshly (f p) (readPointer rd) h x) ->
  freshly (ifNotNil p f) (readOptional rd) h x.
Proof.
  intros Hp Hf. destruct p as [p|]; [|by apply freshly_ret].
  cbn in Hp. apply fmap_Some in Hp as (y & Hy & ->).
  eapply (freshly_fmap _ Some); [by apply Hf|]. intros h' a Ha. cbn. by rewrite Ha.
Qed.
End optional.
End fresh.

(** ** Copying the elements of a slice *)

Section copies.
Context {cell hT T : Type} `{Storable cell hT}.
Context (rd : heap cell -> hT -> option T) (into : hT -> M cell hT).
Hypothesis Hmono : forall h h' v x, h ⊆ h' -> rd h v = Some x -> rd h' v = Some x.
Hypothesis Hinto : forall h v x, rd h v = Some x ->
  exists v' h', into v h = Ok (v', h') /\ h ⊆ h' /\ rd (h' ∖ h) v' = Some x.

(** A heap [H], and one array [a] beside it that is being filled. *)
Lemma index_at h s i (l : list hT) v :
  arrayAt h (sl_array s) = Some l -> i < sl_len s -> l !! (sl_off s + i) = Some v ->
  index s i h = Ok (v, h).
Proof.
  intros Hl Hi Hv. unfold index, load. rewrite decide_True by done. rewrite Hl. cbn. by rewrite Hv.
Qed.

Lemma setIndex_at H0 a n (l : list hT) i v :
  length l = n -> i < n ->
  setIndex (mkSlice a 0 n) i v (<[a := inj l]> H0) = Ok (tt, <[a := inj (<[i := v]> l)]> H0).
Proof.
  intros Hl Hi. unfold setIndex, store. cbn. rewrite decide_True by done.
  rewrite arrayAt_insert. rewrite decide_True by lia. by rewrite insert_insert_eq.
Qed.

Lemma assign_new H0 a (z v : hT) :
  assign (mkPointer a 0) v (<[a := inj [z]]> H0) = Ok (tt, <[a := inj [v]]> H0).
Proof.
  unfold assign, store. cbn [p_array p_index].
  rewrite arrayAt_insert. cbn. by rewrite insert_insert_eq.
Qed.

(** One element is copied while the array [a] holds [c]: [h0] is the heap
    before [a] was allocated. *)
Lemma copy_turn h0 H1 a c v y :
  h0 ⊆ H1 -> H1 !! a = None -> rd h0 v = Some y ->
  exists v' H2, into v (<[a := c]> H1) = Ok (v', <[a := c]> H2) /\
    H1 ⊆ H2 /\ H2 !! a = None /\ rd (H2 ∖ h0) v' = Some y.
Proof.
  intros Hs Ha Hv.
  assert (h0 ⊆ <[a := c]> H1) as Hs1 by (etrans; [exact Hs|by apply insert_subseteq]).
  destruct (Hinto (<[a := c]> H1) v y) as (v' & h' & Hi & Hsub & Hr); [eauto|].
  assert (h' !! a = Some c) as Ha'.
  { eapply lookup_weaken; [|exact Hsub]. apply lookup_insert_eq. }
  exists v', (delete a h'). split_and!.
  - by rewrite insert_delete_id.
  - apply map_subseteq_spec. intros j x Hj.
    assert (j <> a) by congruence. rewrite lookup_delete_ne by done.
    eapply lookup_weaken; [|exact Hsub]. by rewrite lookup_insert_ne.
  - apply lookup_delete_eq.
  - eapply Hmono; [|exact Hr].
    apply map_subseteq_spec. intros j x. rewrite !lookup_difference_Some. intros [Hj Hj1].
    assert (j <> a). { intros ->. by rewrite lookup_insert_eq in Hj1. }
    rewrite lookup_delete_ne by done. split; [done|].
    destruct (h0 !! j) eqn:E; [|done]. by rewrite (lookup_weaken _ _ _ _ E Hs1) in Hj1.
Qed.

(** The loop that the generator emits, from turn [i] on. *)
Lemma copy_loop h0 s (l : list hT) a : forall k i H1 (dn : list hT) xs ys,
  arrayAt h0 (sl_array s) = Some l -> sl_off s + sl_len s <= length l ->
  h0 ⊆ H1 -> H1 !! a = None -> i + k = sl_len s -> length dn = i ->
  mapM (rd (H1 ∖ h0)) dn = Some xs ->
  mapM (rd h0) (take k (drop (sl_off s + i) l)) = Some ys ->
  exists H2 all,
    forRange i k (copyElement into s (mkSlice a 0 (sl_len s)))
      (<[a := inj (dn ++ replicate k zero)%list]> H1) = Ok (tt, <[a := inj all]> H2) /\
    h0 ⊆ H2 /\ H2 !! a = None /\ length all = sl_len s /\
    mapM (rd (H2 ∖ h0)) all = Some (xs ++ ys)%list.
Proof.
  induction k as [|k IH]; intros i H1 dn xs ys Hl Hb Hs Ha Hik Hd Hx Hy.
  { exists H1, dn. cbn in *. injection Hy as <-. rewrite !app_nil_r. by split_and!; [..|lia|]. }
  destruct (lookup_lt_is_Some_2 l (sl_off s + i)) as [v Hv]; [lia|].
  rewrite (drop_S _ _ _ Hv) in Hy. cbn in Hy. apply bind_Some in Hy as (y & Hy & Hys).
  apply bind_Some in Hys as (ys' & Hys & [= <-]).
  destruct (copy_turn h0 H1 a (inj (dn ++ replicate (S k) zero)%list) v y)
    as (v' & H2 & Hrun & HH & Ha2 & Hr); [done..|].
  destruct (IH (S i) H2 (dn ++ [v'])%list (xs ++ [y])%list ys')
    as (H3 & all & Hall & ? & ? & ? & Hm);
    [done..|by etrans|done|lia|rewrite length_app; cbn; lia| |by rewrite Nat.add_succ_r|].
  { rewrite mapM_Some. apply Forall2_app.
    - apply mapM_Some. eapply mapM_mono; [done| |exact Hx]. by apply diff_mono.
    - by constructor. }
  exists H3, all. split_and!; [|done..|by rewrite <-(assoc_L (++)%list) in Hm].
  rewrite <-Hall. eapply forRange_S. unfold copyElement.
  erewrite M_bind_Ok; [|apply (index_at _ s i l v); [|lia|done]].
  2: { eapply arrayAt_mono; [|exact Hl]. etrans; [exact Hs|]. by apply insert_subseteq. }
  erewrite M_bind_Ok; [|exact Hrun].
  rewrite setIndex_at by (rewrite ?length_app, ?length_replicate; cbn; lia).
  do 3 f_equal. rewrite insert_app_r_alt by lia. rewrite Hd, Nat.sub_diag. cbn.
  by rewrite <-(assoc_L (++)%list).
Qed.

Definition copySlice (s : slice) : M cell slice :=
  out ← make (T := hT) (sl_len s); range s (copyElement into s out);; mret out.

Lemma copySlice_fresh h s xs :
  readSlice rd h (Some s) = Some xs ->
  freshly (copySlice s) (fun h d => readSlice rd h (Some d)) h xs.
Proof.
  cbn. intros (l & Hl & Hx)%bind_Some. destruct (decide _) as [Hb|]; [|done].
  set (n := nextLoc h).
  destruct (copy_loop h s l n (sl_len s) 0 h [] [] xs) as (H2 & all & Hrun & Hs & Hn & Hlen & Hm);
    [done..|apply nextLoc_fresh|lia|done|done|by rewrite Nat.add_0_r|].
  exists (mkSlice n 0 (sl_len s)), (<[n := inj all]> H2). split_and!.
  - unfold copySlice, make.
    erewrite M_bind_Ok by done. erewrite M_bind_Ok; [done|]. exact Hrun.
  - etrans; [exact Hs|by apply insert_subseteq].
  - cbn. rewrite arrayAt_new by apply nextLoc_fresh. cbn. rewrite decide_True by lia. rewrite drop_0, take_ge by lia.
    eapply mapM_mono; [done| |exact Hm]. by apply diff_mono, insert_subseteq.
Qed.

Lemma copyPointer_owned h p x :
  readPointer rd h p = Some x -> freshly (copyPointer into p) (readOwned rd) h x.
Proof.
  unfold readPointer. intros (v & Hp & Hv)%bind_Some. set (n := nextLoc h).
  destruct (copy_turn h h n (inj [zero : hT]) v x) as (v' & H2 & Hrun & Hs & Hn & Hr);
    [done|apply nextLoc_fresh|done|].
  exists (mkPointer n 0), (<[n := inj [v']]> H2). split_and!.
  - unfold copyPointer, new. erewrite M_bind_Ok by done. erewrite M_bind_Ok.
    2: { unfold deref, load. apply bind_Some in Hp as (l & Hl & Hi).
      rewrite (arrayAt_mono h (<[n := inj [zero : hT]]> h) _ l); [|by apply alloc_sub|done].
      cbn. by rewrite Hi. }
    erewrite M_bind_Ok by exact Hrun. erewrite M_bind_Ok; [done|].
    apply assign_new.
  - etrans; [exact Hs|by apply insert_subseteq].
  - unfold readOwned. cbn [p_array p_index]. rewrite arrayAt_new by apply nextLoc_fresh.
    cbn. eapply Hmono; [|exact Hr]. apply map_subseteq_spec. intros k c Hk.
    assert (k <> n) as Hne.
    { intros ->. apply lookup_difference_Some in Hk as [Hk _]. congruence. }
    rewrite lookup_delete_ne by done. eapply lookup_weaken; [exact Hk|].
    by apply diff_mono, insert_subseteq.
Qed.

Lemma copyPointer_fresh h p x :
  readPointer rd h p = Some x -> freshly (copyPointer into p) (readPointer rd) h x.
Proof.
  intros (q & h' & ? & ? & Hq)%copyPointer_owned. exists q, h'. split_and!; [done..|].
  by apply readOwned_pointer.
Qed.
End copies.

(** Values without references: [copy(out, in)] and [**out = **in]. *)
Definition plain {cell T} (_ : heap cell) (v : T) : option T := Some v.

Section plain.
Context {cell T : Type} `{Storable cell T}.
Implicit Types h : heap cell.

Lemma plain_mono h h' (v x : T) : h ⊆ h' -> plain h v = Some x -> plain h' v = Some x.
Proof. done. Qed.

Lemma plain_ret h (v x : T) : plain h v = Some x ->
  exists v' h', (mret v : M cell T) h = Ok (v', h') /\ h ⊆ h' /\ plain (h' ∖ h) v' = Some x.
Proof. intros Hv. by exists v, h. Qed.

Definition copyPlain (s : slice) : M cell slice :=
  out ← make (T := T) (sl_len s); copy (T := T) out s;; mret out.

Lemma copyPlain_fresh h s (xs : list T) :
  readSlice plain h (Some s) = Some xs ->
  freshly (copyPlain s) (fun h d => readSlice plain h (Some d)) h xs.
Proof.
  intros Hs. eapply (copySlice_fresh plain mret plain_mono plain_ret) in Hs.
  destruct Hs as (d & h' & Hr & ?). exists d, h'. split; [|done]. rewrite <-Hr.
  unfold copySlice, copyPlain, range, copy, make, mbind, M_bind. cbn.
  by rewrite Nat.min_id.
Qed.
End plain.

(** ** Code that changes cells of its own

    [triple h0 G m Q]: from any heap that is [h0] and the cells [G], [m]
    succeeds, leaves [h0] alone, and [Q] holds of its result and of the cells
    it leaves beside [h0]. *)

Section triples.
Context {cell : Type}.
Implicit Types h G : heap cell.

Definition triple {A} (h0 G : heap cell) (m : M cell A) (Q : A -> heap cell -> Prop) : Prop :=
  forall h, h0 ⊆ h -> h ∖ h0 = G -> exists a h', m h = Ok (a, h') /\ h0 ⊆ h' /\ Q a (h' ∖ h0).

Lemma triple_ret {A} h0 G (a : A) (Q : A -> heap cell -> Prop) : Q a G -> triple h0 G (mret a) Q.
Proof. intros HQ h Hs <-. by exists a, h. Qed.

Lemma triple_bind {A B} h0 G (m : M cell A) (k : A -> M cell B) Q R :
  triple h0 G m Q -> (forall a G', Q a G' -> triple h0 G' (k a) R) -> triple h0 G (m ≫= k) R.
Proof.
  intros Hm Hk h Hs HG. destruct (Hm h Hs HG) as (a & h1 & Hrun & Hs1 & HQ).
  destruct (Hk a _ HQ h1 Hs1 eq_refl) as (b & h2 & Hrun' & Hs2 & HR).
  exists b, h2. by erewrite M_bind_Ok by exact Hrun.
Qed.

Lemma triple_mono {A} h0 G (m : M cell A) (Q R : A -> heap cell -> Prop) :
  triple h0 G m Q -> (forall a G', Q a G' -> R a G') -> triple h0 G m R.
Proof.
  intros Hm HQR h Hs HG. destruct (Hm h Hs HG) as (a & h1 & ? & ? & ?). exists a, h1. auto.
Qed.

Lemma diff_insert h0 h a c :
  h0 ⊆ h -> h0 !! a = None -> h0 ⊆ <[a := c]> h /\ <[a := c]> h ∖ h0 = <[a := c]> (h ∖ h0).
Proof.
  intros Hs Ha. split.
  - apply map_subseteq_spec. intros k x Hk. rewrite lookup_insert_ne by congruence.
    by eapply lookup_weaken.
  - apply map_eq. intros k. apply option_eq. intros x.
    rewrite lookup_difference_Some. destruct (decide (k = a)) as [->|Hne].
    + rewrite !lookup_insert_eq. naive_solver.
    + rewrite !lookup_insert_ne, lookup_difference_Some by done. done.
Qed.

Section typed.
Context {T : Type} `{Storable cell T}.
Implicit Types l : list T.

Lemma arrayAt_own h0 h a l :
  arrayAt (h ∖ h0) a = Some l -> h0 !! a = None /\ arrayAt h a = Some l.
Proof.
  unfold arrayAt. intros (c & [Hc Ha]%lookup_difference_Some & Hp)%bind_Some.
  split; [done|]. by rewrite Hc.
Qed.

Lemma arrayAt_id G a l : arrayAt G a = Some l -> <[a := inj l]> G = G.
Proof. intros (c & Hc & ->%proj_Some)%bind_Some. by apply insert_id. Qed.

Lemma triple_deref h0 G p l v (Q : T -> heap cell -> Prop) :
  arrayAt G (p_array p) = Some l -> l !! p_index p = Some v -> Q v G -> triple h0 G (deref p) Q.
Proof.
  intros Hl Hv HQ h Hs <-. apply arrayAt_own in Hl as [_ Hl]. exists v, h.
  split; [|done]. unfold deref, load. rewrite Hl. cbn. by rewrite Hv.
Qed.

Lemma triple_assign h0 G p l v (Q : () -> heap cell -> Prop) :
  arrayAt G (p_array p) = Some l -> p_index p < length l ->
  Q tt (<[p_array p := inj (<[p_index p := v]> l)]> G) -> triple h0 G (assign p v) Q.
Proof.
  intros Hl Hi HQ h Hs <-. apply arrayAt_own in Hl as [Ha Hl].
  destruct (diff_insert h0 h (p_array p) (inj (<[p_index p := v]> l)) Hs Ha) as [Hs' Hd].
  eexists tt, _. split_and!; [|exact Hs'|by rewrite Hd].
  unfold assign, store. rewrite Hl. by rewrite decide_True.
Qed.

Lemma triple_alloc h0 G l (Q : positive -> heap cell -> Prop) :
  (forall a, G !! a = None -> Q a (<[a := inj l]> G)) -> triple h0 G (alloc l) Q.
Proof.
  intros HQ h Hs <-. assert (h0 !! nextLoc h = None) as Hn.
  { destruct (h0 !! nextLoc h) eqn:E; [|done].
    pose proof (nextLoc_fresh h) as Hf. by rewrite (lookup_weaken _ _ _ _ E Hs) in Hf. }
  destruct (diff_insert h0 h (nextLoc h) (inj l) Hs Hn) as [Hs' Hd].
  eexists _, _. split_and!; [done|exact Hs'|]. rewrite Hd. apply HQ.
  apply lookup_difference_None. left. apply nextLoc_fresh.
Qed.

Lemma triple_index h0 G s i l v :
  arrayAt h0 (sl_array s) = Some l -> i < sl_len s -> l !! (sl_off s + i) = Some v ->
  triple h0 G (index s i) (fun x G' => x = v /\ G' = G).
Proof.
  intros Hl Hi Hv h Hs <-. exists v, h. split_and!; [|done..].
  apply (index_at h s i l v); [|done..]. by eapply arrayAt_mono.
Qed.

Lemma triple_newWith h0 G (v : T) :
  triple h0 G (newWith v)
    (fun p G' => exists a, G !! a = None /\ p = mkPointer a 0 /\ G' = <[a := inj [v]]> G).
Proof.
  eapply triple_bind; [apply (triple_alloc _ _ _
    (fun a G' => G !! a = None /\ G' = <[a := inj [v]]> G)); by intros|].
  intros a G' [Ha ->]. apply triple_ret. by exists a.
Qed.

Lemma triple_makeWith h0 G l :
  triple h0 G (makeWith l)
    (fun s G' => exists a, G !! a = None /\ s = mkSlice a 0 (length l) /\ G' = <[a := inj l]> G).
Proof.
  eapply triple_bind; [apply (triple_alloc _ _ _
    (fun a G' => G !! a = None /\ G' = <[a := inj l]> G)); by intros|].
  intros a G' [Ha ->]. apply triple_ret. by exists a.
Qed.
End typed.
End triples.
