(* ===== verification/Memory.v ===== *)
(** * The API types in memory

    The structs of [apis/v1beta1] and of the dies as they lie in memory, with
    slices and pointers where the Go structs have them, their zero values, the
    assignments to their fields, and the cells of the heap. *)

From S2P Require Import Prelude Json Types Heap.
Local Open Scope string_scope.

Record TypeMeta := mkTypeMeta {
  tm_Kind : string;
  tm_APIVersion : string;
}.

(** [metav1.ListMeta] is data the program only hands on. *)
Definition ListMeta : Type := json.

(** ** The structs *)

Record hTemplate := mkHTemplate {
  ht_Version : string;
  ht_Annotations : string;
  ht_Containers : option slice;
  ht_Volumes : string;
}.

Record hMappingSpec := mkHMappingSpec {
  hms_Versions : option slice;
}.

Record hWorkloadReference := mkHWorkloadReference {
  hwr_APIVersion : string;
  hwr_Kind : string;
  hwr_Name : string;
  hwr_Selector : option pointer;
  hwr_Containers : option slice;
}.

Record hBindingSpec := mkHBindingSpec {
  hbs_Name : string;
  hbs_Type : string;
  hbs_Provider : string;
  hbs_Workload : hWorkloadReference;
  hbs_Service : ServiceBindingServiceReference;
  hbs_Env : option slice;
}.

Record hBindingStatus := mkHBindingStatus {
  hbst_ObservedGeneration : Z;
  hbst_Conditions : option slice;
  hbst_Binding : option pointer;
}.

(** The struct of a die (dies/v1beta1): a resource, whether it may be changed in
    place, and the metadata that the dies of objects show beside it. *)
Record die (R F : Type) := mkDie {
  die_frozen : F;
  die_mutable : bool;
  die_r : R;
}.
Arguments mkDie {R F}.
Arguments die_frozen {R F}.
Arguments die_mutable {R F}.
Arguments die_r {R F}.

(** Third-party structs: their zero values, their cells of the heap, and the
    read-only view of metadata. *)
Class Apimachinery := {
  foreign : Type;
  hObjectMeta : Type;
  hListMeta : Type;
  hLabelSelector : Type;
  hCondition : Type;
  hFrozenObjectMeta : Type;
  ObjectMeta_zero : hObjectMeta;
  ListMeta_zero : hListMeta;
  LabelSelector_zero : hLabelSelector;
  Condition_zero : hCondition;
  FrozenObjectMeta_zero : hFrozenObjectMeta;
  FreezeObjectMeta : hObjectMeta -> hFrozenObjectMeta;
}.

Ltac solve_storable := try (intros []; cbn); intros; congruence.

Section structs.
Context `{Apimachinery}.

Record hMapping := mkHMapping {
  hm_TypeMeta : TypeMeta;
  hm_ObjectMeta : hObjectMeta;
  hm_Spec : hMappingSpec;
}.

Record hServiceBinding := mkHServiceBinding {
  hsb_TypeMeta : TypeMeta;
  hsb_ObjectMeta : hObjectMeta;
  hsb_Spec : hBindingSpec;
  hsb_Status : hBindingStatus;
}.

(** The lists of both kinds. *)
Record hList := mkHList {
  hl_TypeMeta : TypeMeta;
  hl_ListMeta : hListMeta;
  hl_Items : option slice;
}.

(** An array of any of the types is a cell. *)
Inductive cell :=
  | Strings (l : list string)
  | Containers (l : list ClusterWorkloadResourceMappingContainer)
  | Templates (l : list hTemplate)
  | MappingSpecs (l : list hMappingSpec)
  | Mappings (l : list hMapping)
  | EnvMappings (l : list EnvMapping)
  | SecretReferences (l : list ServiceBindingSecretReference)
  | ServiceReferences (l : list ServiceBindingServiceReference)
  | WorkloadReferences (l : list hWorkloadReference)
  | BindingSpecs (l : list hBindingSpec)
  | BindingStatuses (l : list hBindingStatus)
  | ServiceBindings (l : list hServiceBinding)
  | Lists (l : list hList)
  | LabelSelectors (l : list hLabelSelector)
  | Conditions (l : list hCondition)
  | SpecDies (l : list (die hBindingSpec ()))
  | StatusDies (l : list (die hBindingStatus ()))
  | WorkloadDies (l : list (die hWorkloadReference ()))
  | ServiceDies (l : list (die ServiceBindingServiceReference ()))
  | SecretDies (l : list (die ServiceBindingSecretReference ()))
  | EnvDies (l : list (die EnvMapping ()))
  | BindingDies (l : list (die hServiceBinding hFrozenObjectMeta))
  | MappingDies (l : list (die hMapping hFrozenObjectMeta))
  | MappingSpecDies (l : list (die hMappingSpec ()))
  | TemplateDies (l : list (die hTemplate ()))
  | ContainerDies (l : list (die ClusterWorkloadResourceMappingContainer ()))
  | Foreign (l : list foreign).

(** ** Zero values *)

Definition TypeMeta_zero : TypeMeta := mkTypeMeta "" "".
Definition hTemplate_zero : hTemplate := mkHTemplate "" "" None "".
Definition hMappingSpec_zero : hMappingSpec := mkHMappingSpec None.
Definition hMapping_zero : hMapping := mkHMapping TypeMeta_zero ObjectMeta_zero hMappingSpec_zero.
Definition serviceReference_zero : ServiceBindingServiceReference := mkServiceReference "" "" "".
Definition hWorkloadReference_zero : hWorkloadReference := mkHWorkloadReference "" "" "" None None.
Definition hBindingSpec_zero : hBindingSpec :=
  mkHBindingSpec "" "" "" hWorkloadReference_zero serviceReference_zero None.
Definition hBindingStatus_zero : hBindingStatus := mkHBindingStatus 0 None None.
Definition hServiceBinding_zero : hServiceBinding :=
  mkHServiceBinding TypeMeta_zero ObjectMeta_zero hBindingSpec_zero hBindingStatus_zero.
Definition hList_zero : hList := mkHList TypeMeta_zero ListMeta_zero None.

#[export, refine] Instance store_string : Storable cell string :=
  { inj := Strings; proj c := match c with Strings l => Some l | _ => None end; zero := "" }.
Proof. all: solve_storable. Defined.
#[export, refine] Instance store_container : Storable cell ClusterWorkloadResourceMappingContainer :=
  { inj := Containers; proj c := match c with Containers l => Some l | _ => None end;
    zero := mkMappingContainer "" "" "" "" }.
Proof. all: solve_storable. Defined.
#[export, refine] Instance store_template : Storable cell hTemplate :=
  { inj := Templates; proj c := match c with Templates l => Some l | _ => None end;
    zero := hTemplate_zero }.
Proof. all: solve_storable. Defined.
#[export, refine] Instance store_mappingSpec : Storable cell hMappingSpec :=
  { inj := MappingSpecs; proj c := match c with MappingSpecs l => Some l | _ => None end;
    zero := hMappingSpec_zero }.
Proof. all: solve_storable. Defined.
#[export, refine] Instance store_mapping : Storable cell hMapping :=
  { inj := Mappings; proj c := match c with Mappings l => Some l | _ => None end;
    zero := hMapping_zero }.
Proof. all: solve_storable. Defined.
#[export, refine] Instance store_env : Storable cell EnvMapping :=
  { inj := EnvMappings; proj c := match c with EnvMappings l => Some l | _ => None end;
    zero := mkEnvMapping "" "" }.
Proof. all: solve_storable. Defined.
#[export, refine] Instance store_secretReference : Storable cell ServiceBindingSecretReference :=
  { inj := SecretReferences; proj c := match c with SecretReferences l => Some l | _ => None end;
    zero := mkSecretReference "" }.
Proof. all: solve_storable. Defined.
#[export, refine] Instance store_serviceReference : Storable cell ServiceBindingServiceReference :=
  { inj := ServiceReferences; proj c := match c with ServiceReferences l => Some l | _ => None end;
    zero := serviceReference_zero }.
Proof. all: solve_storable. Defined.
#[export, refine] Instance store_workloadReference : Storable cell hWorkloadReference :=
  { inj := WorkloadReferences; proj c := match c with WorkloadReferences l => Some l | _ => None end;
    zero := hWorkloadReference_zero }.
Proof. all: solve_storable. Defined.
#[export, refine] Instance store_bindingSpec : Storable cell hBindingSpec :=
  { inj := BindingSpecs; proj c := match c with BindingSpecs l => Some l | _ => None end;
    zero := hBindingSpec_zero }.
Proof. all: solve_storable. Defined.
#[export, refine] Instance store_bindingStatus : Storable cell hBindingStatus :=
  { inj := BindingStatuses; proj c := match c with BindingStatuses l => Some l | _ => None end;
    zero := hBindingStatus_zero }.
Proof. all: solve_storable. Defined.
#[export, refine] Instance store_serviceBinding : Storable cell hServiceBinding :=
  { inj := ServiceBindings; proj c := match c with ServiceBindings l => Some l | _ => None end;
    zero := hServiceBinding_zero }.
Proof. all: solve_storable. Defined.
#[export, refine] Instance store_list : Storable cell hList :=
  { inj := Lists; proj c := match c with Lists l => Some l | _ => None end; zero := hList_zero }.
Proof. all: solve_storable. Defined.
#[export, refine] Instance store_selector : Storable cell hLabelSelector :=
  { inj := LabelSelectors; proj c := match c with LabelSelectors l => Some l | _ => None end;
    zero := LabelSelector_zero }.
Proof. all: solve_storable. Defined.
#[export, refine] Instance store_condition : Storable cell hCondition :=
  { inj := Conditions; proj c := match c with Conditions l => Some l | _ => None end;
    zero := Condition_zero }.
Proof. all: solve_storable. Defined.
#[export, refine] Instance store_SpecDies : Storable cell (die hBindingSpec ()) :=
  { inj := SpecDies; proj c := match c with SpecDies l => Some l | _ => None end;
    zero := mkDie tt false hBindingSpec_zero }.
Proof. all: solve_storable. Defined.
#[export, refine] Instance store_StatusDies : Storable cell (die hBindingStatus ()) :=
  { inj := StatusDies; proj c := match c with StatusDies l => Some l | _ => None end;
    zero := mkDie tt false hBindingStatus_zero }.
Proof. all: solve_storable. Defined.
#[export, refine] Instance store_WorkloadDies : Storable cell (die hWorkloadReference ()) :=
  { inj := WorkloadDies; proj c := match c with WorkloadDies l => Some l | _ => None end;
    zero := mkDie tt false hWorkloadReference_zero }.
Proof. all: solve_storable. Defined.
#[export, refine] Instance store_ServiceDies : Storable cell (die ServiceBindingServiceReference ()) :=
  { inj := ServiceDies; proj c := match c with ServiceDies l => Some l | _ => None end;
    zero := mkDie tt false serviceReference_zero }.
Proof. all: solve_storable. Defined.
#[export, refine] Instance store_SecretDies : Storable cell (die ServiceBindingSecretReference ()) :=
  { inj := SecretDies; proj c := match c with SecretDies l => Some l | _ => None end;
    zero := mkDie tt false (mkSecretReference "") }.
Proof. all: solve_storable. Defined.
#[export, refine] Instance store_EnvDies : Storable cell (die EnvMapping ()) :=
  { inj := EnvDies; proj c := match c with EnvDies l => Some l | _ => None end;
    zero := mkDie tt false (mkEnvMapping "" "") }.
Proof. all: solve_storable. Defined.
#[export, refine] Instance store_BindingDies : Storable cell (die hServiceBinding hFrozenObjectMeta) :=
  { inj := BindingDies; proj c := match c with BindingDies l => Some l | _ => None end;
    zero := mkDie FrozenObjectMeta_zero false hServiceBinding_zero }.
Proof. all: solve_storable. Defined.
#[export, refine] Instance store_MappingDies : Storable cell (die hMapping hFrozenObjectMeta) :=
  { inj := MappingDies; proj c := match c with MappingDies l => Some l | _ => None end;
    zero := mkDie FrozenObjectMeta_zero false hMapping_zero }.
Proof. all: solve_storable. Defined.
#[export, refine] Instance store_MappingSpecDies : Storable cell (die hMappingSpec ()) :=
  { inj := MappingSpecDies; proj c := match c with MappingSpecDies l => Some l | _ => None end;
    zero := mkDie tt false hMappingSpec_zero }.
Proof. all: solve_storable. Defined.
#[export, refine] Instance store_TemplateDies : Storable cell (die hTemplate ()) :=
  { inj := TemplateDies; proj c := match c with TemplateDies l => Some l | _ => None end;
    zero := mkDie tt false hTemplate_zero }.
Proof. all: solve_storable. Defined.
#[export, refine] Instance store_ContainerDies : Storable cell (die ClusterWorkloadResourceMappingContainer ()) :=
  { inj := ContainerDies; proj c := match c with ContainerDies l => Some l | _ => None end;
    zero := mkDie tt false (mkMappingContainer "" "" "" "") }.
Proof. all: solve_storable. Defined.
End structs.

(** ** Assignments to fields *)

Section setters.
Context `{Apimachinery}.
Definition set_ht_Version (x : string) (v : hTemplate) : hTemplate :=
  mkHTemplate x (ht_Annotations v) (ht_Containers v) (ht_Volumes v).
Definition set_ht_Annotations (x : string) (v : hTemplate) : hTemplate :=
  mkHTemplate (ht_Version v) x (ht_Containers v) (ht_Volumes v).
Definition set_ht_Containers (x : option slice) (v : hTemplate) : hTemplate :=
  mkHTemplate (ht_Version v) (ht_Annotations v) x (ht_Volumes v).
Definition set_ht_Volumes (x : string) (v : hTemplate) : hTemplate :=
  mkHTemplate (ht_Version v) (ht_Annotations v) (ht_Containers v) x.
Definition set_mc_Path (x : string) (v : ClusterWorkloadResourceMappingContainer) : ClusterWorkloadResourceMappingContainer :=
  mkMappingContainer x (mc_Name v) (mc_Env v) (mc_VolumeMounts v).
Definition set_mc_Name (x : string) (v : ClusterWorkloadResourceMappingContainer) : ClusterWorkloadResourceMappingContainer :=
  mkMappingContainer (mc_Path v) x (mc_Env v) (mc_VolumeMounts v).
Definition set_mc_Env (x : string) (v : ClusterWorkloadResourceMappingContainer) : ClusterWorkloadResourceMappingContainer :=
  mkMappingContainer (mc_Path v) (mc_Name v) x (mc_VolumeMounts v).
Definition set_mc_VolumeMounts (x : string) (v : ClusterWorkloadResourceMappingContainer) : ClusterWorkloadResourceMappingContainer :=
  mkMappingContainer (mc_Path v) (mc_Name v) (mc_Env v) x.
Definition set_hms_Versions (x : option slice) (v : hMappingSpec) : hMappingSpec :=
  mkHMappingSpec x.
Definition set_hwr_APIVersion (x : string) (v : hWorkloadReference) : hWorkloadReference :=
  mkHWorkloadReference x (hwr_Kind v) (hwr_Name v) (hwr_Selector v) (hwr_Containers v).
Definition set_hwr_Kind (x : string) (v : hWorkloadReference) : hWorkloadReference :=
  mkHWorkloadReference (hwr_APIVersion v) x (hwr_Name v) (hwr_Selector v) (hwr_Containers v).
Definition set_hwr_Name (x : string) (v : hWorkloadReference) : hWorkloadReference :=
  mkHWorkloadReference (hwr_APIVersion v) (hwr_Kind v) x (hwr_Selector v) (hwr_Containers v).
Definition set_hwr_Selector (x : option pointer) (v : hWorkloadReference) : hWorkloadReference :=
  mkHWorkloadReference (hwr_APIVersion v) (hwr_Kind v) (hwr_Name v) x (hwr_Containers v).
Definition set_hwr_Containers (x : option slice) (v : hWorkloadReference) : hWorkloadReference :=
  mkHWorkloadReference (hwr_APIVersion v) (hwr_Kind v) (hwr_Name v) (hwr_Selector v) x.
Definition set_sr_APIVersion (x : string) (v : ServiceBindingServiceReference) : ServiceBindingServiceReference :=
  mkServiceReference x (sr_Kind v) (sr_Name v).
Definition set_sr_Kind (x : string) (v : ServiceBindingServiceReference) : ServiceBindingServiceReference :=
  mkServiceReference (sr_APIVersion v) x (sr_Name v).
Definition set_sr_Name (x : string) (v : ServiceBindingServiceReference) : ServiceBindingServiceReference :=
  mkServiceReference (sr_APIVersion v) (sr_Kind v) x.
Definition set_em_Name (x : string) (v : EnvMapping) : EnvMapping :=
  mkEnvMapping x (em_Key v).
Definition set_em_Key (x : string) (v : EnvMapping) : EnvMapping :=
  mkEnvMapping (em_Name v) x.
Definition set_secretref_Name (x : string) (v : ServiceBindingSecretReference) : ServiceBindingSecretReference :=
  mkSecretReference x.
Definition set_hbs_Name (x : string) (v : hBindingSpec) : hBindingSpec :=
  mkHBindingSpec x (hbs_Type v) (hbs_Provider v) (hbs_Workload v) (hbs_Service v) (hbs_Env v).
Definition set_hbs_Type (x : string) (v : hBindingSpec) : hBindingSpec :=
  mkHBindingSpec (hbs_Name v) x (hbs_Provider v) (hbs_Workload v) (hbs_Service v) (hbs_Env v).
Definition set_hbs_Provider (x : string) (v : hBindingSpec) : hBindingSpec :=
  mkHBindingSpec (hbs_Name v) (hbs_Type v) x (hbs_Workload v) (hbs_Service v) (hbs_Env v).
Definition set_hbs_Workload (x : hWorkloadReference) (v : hBindingSpec) : hBindingSpec :=
  mkHBindingSpec (hbs_Name v) (hbs_Type v) (hbs_Provider v) x (hbs_Service v) (hbs_Env v).
Definition set_hbs_Service (x : ServiceBindingServiceReference) (v : hBindingSpec) : hBindingSpec :=
  mkHBindingSpec (hbs_Name v) (hbs_Type v) (hbs_Provider v) (hbs_Workload v) x (hbs_Env v).
Definition set_hbs_Env (x : option slice) (v : hBindingSpec) : hBindingSpec :=
  mkHBindingSpec (hbs_Name v) (hbs_Type v) (hbs_Provider v) (hbs_Workload v) (hbs_Service v) x.
Definition set_hbst_ObservedGeneration (x : Z) (v : hBindingStatus) : hBindingStatus :=
  mkHBindingStatus x (hbst_Conditions v) (hbst_Binding v).
Definition set_hbst_Conditions (x : option slice) (v : hBindingStatus) : hBindingStatus :=
  mkHBindingStatus (hbst_ObservedGeneration v) x (hbst_Binding v).
Definition set_hbst_Binding (x : option pointer) (v : hBindingStatus) : hBindingStatus :=
  mkHBindingStatus (hbst_ObservedGeneration v) (hbst_Conditions v) x.
Definition set_tm_Kind (x : string) (v : TypeMeta) : TypeMeta :=
  mkTypeMeta x (tm_APIVersion v).
Definition set_tm_APIVersion (x : string) (v : TypeMeta) : TypeMeta :=
  mkTypeMeta (tm_Kind v) x.
Definition set_hm_TypeMeta (x : TypeMeta) (v : hMapping) : hMapping :=
  mkHMapping x (hm_ObjectMeta v) (hm_Spec v).
Definition set_hm_ObjectMeta (x : hObjectMeta) (v : hMapping) : hMapping :=
  mkHMapping (hm_TypeMeta v) x (hm_Spec v).
Definition set_hm_Spec (x : hMappingSpec) (v : hMapping) : hMapping :=
  mkHMapping (hm_TypeMeta v) (hm_ObjectMeta v) x.
Definition set_hsb_TypeMeta (x : TypeMeta) (v : hServiceBinding) : hServiceBinding :=
  mkHServiceBinding x (hsb_ObjectMeta v) (hsb_Spec v) (hsb_Status v).
Definition set_hsb_ObjectMeta (x : hObjectMeta) (v : hServiceBinding) : hServiceBinding :=
  mkHServiceBinding (hsb_TypeMeta v) x (hsb_Spec v) (hsb_Status v).
Definition set_hsb_Spec (x : hBindingSpec) (v : hServiceBinding) : hServiceBinding :=
  mkHServiceBinding (hsb_TypeMeta v) (hsb_ObjectMeta v) x (hsb_Status v).
Definition set_hsb_Status (x : hBindingStatus) (v : hServiceBinding) : hServiceBinding :=
  mkHServiceBinding (hsb_TypeMeta v) (hsb_ObjectMeta v) (hsb_Spec v) x.
End setters.

Abbreviation GoM := (M cell).
Abbreviation GoHeap := (heap cell).
