(* ===== verification/Ownership.v ===== *)
(** * Ownership of cells

    Assertions about the part of a heap that code owns, with the separating
    conjunction, and [spec g P m Q]: where [g] is in the heap and [m] owns cells
    of which [P] holds, [m] succeeds, changes no other cell, and [Q] holds of
    its result and of cells that it owns then. The rest of the heap is
    universally quantified in [spec], so the frame rule is a lemma. *)

From S2P Require Import Prelude Heap.

Section assertions.
Context {cell : Type}.
Implicit Types h g G : heap cell.

Definition assertion : Type := heap cell -> Prop.
Implicit Types P Q R : assertion.

(** Cells that are not needed may be forgotten. *)
Definition entails P Q : Prop := forall G, P G -> exists G', G' ⊆ G /\ Q G'.
Definition emp : assertion := fun _ => True.
Definition sep P Q : assertion := fun G =>
  exists G1 G2, G = G1 ∪ G2 /\ G1 ##ₘ G2 /\ P G1 /\ Q G2.
Definition seps : list assertion -> assertion := foldr sep emp.

Definition spec {A} g P (m : M cell A) (Q : A -> assertion) : Prop :=
  forall h0 h G, g ⊆ h0 -> h0 ⊆ h -> G ⊆ h -> G ##ₘ h0 -> P G ->
  exists a h' G', m h = Ok (a, h') /\ h0 ⊆ h' /\ G' ⊆ h' /\ G' ##ₘ h0 /\ Q a G'.

(** ** Entailment *)

#[export] Instance entails_preorder : PreOrder entails.
Proof.
  split; [intros P G HP; by exists G|].
  intros P Q R HPQ HQR G (G1 & Hs & (G2 & ? & ?)%HQR)%HPQ. exists G2. split; [by etrans|done].
Qed.

Lemma entails_weaken P Q : (forall G, P G -> Q G) -> entails P Q.
Proof. intros HPQ G HP. exists G. auto. Qed.

Lemma sep_comm P Q : entails (sep P Q) (sep Q P).
Proof.
  apply entails_weaken. intros G (G1 & G2 & -> & Hd & HP & HQ). exists G2, G1.
  split_and!; [by rewrite map_union_comm by done|by symmetry|done..].
Qed.

Lemma sep_assoc P Q R : entails (sep P (sep Q R)) (sep (sep P Q) R).
Proof.
  apply entails_weaken. intros G (G1 & G2 & -> & Hd & HP & G3 & G4 & -> & Hd' & HQ & HR).
  apply map_disjoint_union_r in Hd as [Hd3 Hd4]. exists (G1 ∪ G3), G4. split_and!; [|..|done].
  - by rewrite (assoc_L (∪)).
  - by apply map_disjoint_union_l.
  - by exists G1, G3.
Qed.

#[export] Instance sep_proper : Proper (entails ==> entails ==> entails) sep.
Proof.
  intros P P' HP Q Q' HQ G (G1 & G2 & -> & Hd & (G3 & H3 & ?)%HP & (G4 & H4 & ?)%HQ).
  assert (G3 ##ₘ G4) as Hd' by (by eapply map_disjoint_weaken).
  exists (G3 ∪ G4). split; [|by exists G3, G4].
  by apply map_union_mono_l with (m3 := G3) in H4 as H34; etrans; [exact H34|apply map_union_mono_r].
Qed.

Lemma sep_drop P Q : entails (sep P Q) P.
Proof. intros G (G1 & G2 & -> & Hd & HP & _). exists G1. split; [apply map_union_subseteq_l|done]. Qed.

Lemma sep_assoc_r P Q R : entails (sep (sep P Q) R) (sep P (sep Q R)).
Proof.
  rewrite (sep_comm _ R), (sep_comm P Q), sep_assoc, (sep_comm _ P). by rewrite (sep_comm R Q).
Qed.

Lemma sep_swap P Q R : entails (sep P (sep Q R)) (sep Q (sep P R)).
Proof. by rewrite sep_assoc, (sep_comm P Q), sep_assoc_r. Qed.

(** Assertions in any order, and fewer of them. *)
#[export] Instance seps_perm : Proper ((≡ₚ) ==> entails) seps.
Proof.
  intros l k Hp. unfold seps. induction Hp; cbn.
  - done.
  - by apply sep_proper.
  - apply sep_swap.
  - by etrans.
Qed.

Lemma seps_app l k : entails (seps (l ++ k)) (sep (seps l) (seps k)).
Proof.
  induction l as [|P l IH]; cbn.
  - apply entails_weaken. intros G HG. exists ∅, G. rewrite (left_id_L ∅ (∪)).
    split_and!; [done|apply map_disjoint_empty_l|done..].
  - by rewrite IH, sep_assoc.
Qed.

Lemma seps_app_r l k : entails (sep (seps l) (seps k)) (seps (l ++ k)).
Proof.
  induction l as [|P l IH]; cbn.
  - by rewrite sep_comm, sep_drop.
  - by rewrite sep_assoc_r, IH.
Qed.

Lemma seps_submseteq l k : k ⊆+ l -> entails (seps l) (seps k).
Proof.
  intros [r ->]%submseteq_Permutation. by rewrite seps_app, sep_drop.
Qed.

Lemma seps_one P : entails P (seps [P]).
Proof.
  apply entails_weaken. intros G HP. exists G, ∅. rewrite (right_id_L ∅ (∪)).
  split_and!; [done|apply map_disjoint_empty_r|done..].
Qed.

Lemma seps_pick P (l : list assertion) : [P] ⊆+ l -> entails (seps l) P.
Proof. intros Hl. etrans; [by apply (seps_submseteq l [P])|apply sep_drop]. Qed.

(** Some assertions make one. *)
Lemma seps_fold (l1 r l : list assertion) P :
  l1 ++ r ⊆+ l -> entails (seps l1) P -> entails (seps l) (seps (P :: r)).
Proof.
  intros Hl HP. etrans; [by apply seps_submseteq|]. etrans; [apply seps_app|]. cbn. by rewrite HP.
Qed.

Lemma seps_new P (l : list assertion) : entails emp P -> entails (seps l) (seps (P :: l)).
Proof. intros HP. rewrite <-(sep_proper _ _ HP _ _ (reflexivity (seps l))). apply (seps_app [] l). Qed.

Lemma entails_fact (φ : Prop) P Q : φ -> entails P Q -> entails P (fun G => φ /\ Q G).
Proof. intros Hφ HPQ G (G' & ? & ?)%HPQ. by exists G'. Qed.

(** One of several assertions, beside a fact. *)
Lemma entails_take (φ : Prop) P (l r : list assertion) :
  P :: r ⊆+ l -> entails (fun G => φ /\ seps l G) (sep P (fun G => φ /\ seps r G)).
Proof.
  intros Hl G [Hφ HG]. destruct (seps_submseteq l (P :: r) Hl G HG) as (G' & Hs & G1 & G2 & -> & ? & ? & ?).
  eexists. split; [exact Hs|]. by exists G1, G2.
Qed.

Lemma entails_give (φ ψ : Prop) P (l r : list assertion) :
  (φ -> ψ) -> l ⊆+ P :: r -> entails (sep P (fun G => φ /\ seps r G)) (fun G => ψ /\ seps l G).
Proof.
  intros Hψ Hl G (G1 & G2 & -> & ? & ? & Hφ & ?).
  destruct (seps_submseteq (P :: r) l Hl (G1 ∪ G2)) as (G' & Hs & ?); [by exists G1, G2|].
  exists G'. auto.
Qed.

Lemma entails_emp (l : list assertion) : Forall (entails emp) l -> entails emp (seps l).
Proof.
  induction 1 as [|P l HP _ IH]; [done|]. etrans; [exact IH|]. by apply seps_new.
Qed.

(** ** The rules of [spec] *)

Section rules.
Context {A B : Type}.
Implicit Types m : M cell A.

Lemma spec_conseq g P P' m (Q : A -> assertion) (Q' : A -> assertion) :
  entails P P' -> (forall a, entails (Q' a) (Q a)) -> spec g P' m Q' -> spec g P m Q.
Proof.
  intros HP HQ Hm h0 h G Hg Hs HG Hd (G1 & H1 & HP1)%HP.
  destruct (Hm h0 h G1) as (a & h' & G2 & Hr & Hs' & HG2 & Hd2 & (G3 & H3 & ?)%HQ); [done|done|by etrans| |done|].
  { by eapply map_disjoint_weaken_l. }
  exists a, h', G3. split_and!; [done|done|by etrans| |done]. by eapply map_disjoint_weaken_l.
Qed.

Lemma spec_ext g P m m' (Q : A -> assertion) : (forall h, m h = m' h) -> spec g P m' Q -> spec g P m Q.
Proof.
  intros He Hm h0 h G ? ? ? ? ?. destruct (Hm h0 h G) as (a & h' & G' & Hr & Hrest); [done..|].
  exists a, h', G'. by rewrite He.
Qed.

Lemma spec_ret g P (a : A) (Q : A -> assertion) : entails P (Q a) -> spec g P (mret a) Q.
Proof.
  intros HPQ h0 h G _ Hs HG Hd (G' & ? & ?)%HPQ. exists a, h, G'.
  split_and!; [done|done|by etrans|by eapply map_disjoint_weaken_l|done].
Qed.

Lemma spec_bind g P m (Q : A -> assertion) (k : A -> M cell B) (R : B -> assertion) :
  spec g P m Q -> (forall a, spec g (Q a) (k a) R) -> spec g P (m ≫= k) R.
Proof.
  intros Hm Hk h0 h G Hg Hs HG Hd HP.
  destruct (Hm h0 h G) as (a & h1 & G1 & Hr & Hs1 & ? & ? & HQ); [done..|].
  destruct (Hk a h0 h1 G1) as (b & h2 & G2 & ? & ? & ? & ? & ?); [done..|].
  exists b, h2, G2. by erewrite M_bind_Ok by exact Hr.
Qed.

Lemma spec_frame g P m (Q : A -> assertion) R :
  spec g P m Q -> spec g (sep P R) m (fun a => sep (Q a) R).
Proof.
  intros Hm h0 h G Hg Hs HG Hd (G1 & G2 & -> & H12 & HP & HR).
  apply map_disjoint_union_l in Hd as [Hd1 Hd2].
  destruct (Hm (h0 ∪ G2) h G1) as (a & h' & G' & Hr & Hs' & HG' & Hd' & HQ).
  - etrans; [exact Hg|apply map_union_subseteq_l].
  - apply map_union_least; [done|]. etrans; [by apply map_union_subseteq_r|exact HG].
  - etrans; [apply map_union_subseteq_l|exact HG].
  - by apply map_disjoint_union_r.
  - done.
  - apply map_disjoint_union_r in Hd' as [Hd0 Hd2'].
    exists a, h', (G' ∪ G2). split_and!; [done|..|by exists G', G2].
    + etrans; [apply map_union_subseteq_l|exact Hs'].
    + apply map_union_least; [done|]. etrans; [|exact Hs']. by apply map_union_subseteq_r.
    + by apply map_disjoint_union_l.
Qed.

Lemma spec_pure g (φ : Prop) P m (Q : A -> assertion) :
  (φ -> spec g P m Q) -> spec g (fun G => φ /\ P G) m Q.
Proof. intros Hm h0 h G ???? [Hφ HP]. by apply (Hm Hφ h0 h G). Qed.

(** One statement, that uses some of the assertions. *)
Lemma spec_steps g (l l1 r : list assertion) m (Q : A -> assertion) (k : A -> M cell B)
    (R : B -> assertion) :
  spec g (seps l1) m Q -> l1 ++ r ⊆+ l ->
  (forall a, spec g (seps (Q a :: r)) (k a) R) -> spec g (seps l) (m ≫= k) R.
Proof.
  intros Hm Hl Hk. eapply spec_bind; [|exact Hk].
  apply (spec_conseq g _ (sep (seps l1) (seps r)) _ _ (fun a => seps (Q a :: r)));
    [|done|by apply spec_frame].
  etrans; [by apply seps_submseteq|apply seps_app].
Qed.

Lemma spec_step g (l r : list assertion) P m (Q : A -> assertion) (k : A -> M cell B)
    (R : B -> assertion) :
  spec g P m Q -> P :: r ⊆+ l ->
  (forall a, spec g (seps (Q a :: r)) (k a) R) -> spec g (seps l) (m ≫= k) R.
Proof.
  intros Hm Hl. apply (spec_steps g l [P] r); [|done].
  apply (spec_conseq g _ P _ _ Q); [apply sep_drop|done|done].
Qed.

Lemma spec_new g (l : list assertion) m (Q : A -> assertion) (k : A -> M cell B)
    (R : B -> assertion) :
  spec g emp m Q ->
  (forall a, spec g (seps (Q a :: l)) (k a) R) -> spec g (seps l) (m ≫= k) R.
Proof. intros Hm. by apply (spec_steps g l [] l). Qed.

Lemma spec_last g (l r : list assertion) P m (Q R : A -> assertion) :
  spec g P m Q -> P :: r ⊆+ l -> (forall a, entails (seps (Q a :: r)) (R a)) -> spec g (seps l) m R.
Proof.
  intros Hm Hl HR. apply (spec_conseq g _ (sep P (seps r)) _ _ (fun a => seps (Q a :: r)));
    [|exact HR|by apply spec_frame].
  by apply (seps_submseteq l (P :: r)).
Qed.

Lemma spec_last_new g (l : list assertion) m (Q R : A -> assertion) :
  spec g emp m Q -> (forall a, entails (seps (Q a :: l)) (R a)) -> spec g (seps l) m R.
Proof.
  intros Hm HR. apply (spec_conseq g _ (sep emp (seps l)) _ _ (fun a => seps (Q a :: l)));
    [|exact HR|by apply spec_frame].
  apply (seps_app [] l).
Qed.

Lemma spec_pre g P P' m (Q : A -> assertion) : entails P P' -> spec g P' m Q -> spec g P m Q.
Proof. intros HP Hm. by apply (spec_conseq g P P' m Q Q). Qed.

Lemma spec_among g (l l' : list assertion) m (Q : A -> assertion) :
  l' ⊆+ l -> spec g (seps l') m Q -> spec g (seps l) m Q.
Proof. intros Hl. by apply spec_pre, seps_submseteq. Qed.

Lemma spec_one g P m (Q : A -> assertion) : spec g (seps [P]) m Q -> spec g P m Q.
Proof. by apply spec_pre, seps_one. Qed.

Lemma spec_open_if {X} g (φ : X -> Prop) (l : X -> list assertion) (r : list assertion) m
    (Q : A -> assertion) :
  (forall x, φ x -> spec g (seps (l x ++ r)) m Q) ->
  spec g (seps ((fun G => exists x, φ x /\ seps (l x) G) :: r)) m Q.
Proof.
  intros Hm h0 h G Hg Hs HG Hd (G1 & G2 & -> & H12 & (x & Hx & H1) & H2).
  destruct (seps_app_r (l x) r (G1 ∪ G2)) as (G' & Hs' & HP); [by exists G1, G2|].
  apply (Hm x Hx h0 h G'); [done|done|by etrans| |done]. by eapply map_disjoint_weaken_l.
Qed.

Lemma spec_open {X} g (l : X -> list assertion) (r : list assertion) m (Q : A -> assertion) :
  (forall x, spec g (seps (l x ++ r)) m Q) ->
  spec g (seps ((fun G => exists x, seps (l x) G) :: r)) m Q.
Proof.
  intros Hm h0 h G Hg Hs HG Hd (G1 & G2 & E & H12 & [x H1] & H2).
  apply (spec_open_if g (fun _ => True) l r m Q (fun x _ => Hm x) h0 h G); [done..|].
  exists G1, G2. naive_solver.
Qed.

(** What an owned assertion says of its values. *)
Lemma spec_know g (φ : Prop) P (l r : list assertion) m (Q : A -> assertion) :
  (forall G, P G -> φ) -> P :: r ⊆+ l -> (φ -> spec g (seps l) m Q) -> spec g (seps l) m Q.
Proof.
  intros HP Hl Hm h0 h G Hg Hs HG Hd HG'.
  destruct (seps_submseteq l (P :: r) Hl G HG') as (_ & _ & G1 & _ & _ & _ & H1 & _).
  apply (Hm (HP G1 H1) h0 h G); done.
Qed.

Lemma spec_pure_head g (φ : Prop) P (r : list assertion) m (Q : A -> assertion) :
  (φ -> spec g (seps (P :: r)) m Q) -> spec g (seps ((fun G => φ /\ P G) :: r)) m Q.
Proof.
  intros Hm h0 h G Hg Hs HG Hd (G1 & G2 & -> & H12 & [Hφ H1] & H2).
  apply (Hm Hφ h0 h (G1 ∪ G2)); [done..|]. by exists G1, G2.
Qed.

(** Code that only adds cells may read those that it owns. *)
Lemma spec_borrow g P m (Q : A -> assertion) :
  (forall g' G, g ⊆ g' -> G ⊆ g' -> P G -> spec g' emp m Q) ->
  spec g P m (fun a => sep (Q a) P).
Proof.
  intros Hm h0 h G Hg Hs HG Hd HP.
  destruct (Hm (h0 ∪ G) G) with (h0 := h0 ∪ G) (h := h) (G := ∅ : heap cell)
    as (a & h' & G' & Hr & Hs' & HG' & [Hd0 HdG]%map_disjoint_union_r & HQ).
  - etrans; [exact Hg|apply map_union_subseteq_l].
  - by apply map_union_subseteq_r.
  - done.
  - done.
  - by apply map_union_least.
  - apply map_empty_subseteq.
  - apply map_disjoint_empty_l.
  - done.
  - exists a, h', (G' ∪ G). split_and!; [done|..|by exists G', G].
    + etrans; [apply map_union_subseteq_l|exact Hs'].
    + apply map_union_least; [done|]. etrans; [|exact Hs']. by apply map_union_subseteq_r.
    + by apply map_disjoint_union_l.
Qed.
End rules.

Lemma spec_assoc {A B C} g P (m : M cell A) (f : A -> M cell B) (k : B -> M cell C)
    (Q : C -> assertion) :
  spec g P (a ← m; b ← f a; k b) Q -> spec g P (b ← (a ← m; f a); k b) Q.
Proof.
  intros Hm h0 h G Hg Hs HG Hd HP. destruct (Hm h0 h G) as (c & h' & G' & Hr & Hrest); [done..|].
  exists c, h', G'. split; [|done]. rewrite <-Hr. unfold mbind, M_bind. by destruct (m h) as [[]| |].
Qed.

(** ** Arrays and pointers *)

Section typed.
Context {T : Type} `{Storable cell T}.
Implicit Types v : T.

(** The array [a], and the variable at [p], which has an array of its own. *)
Definition arr (a : positive) (l : list T) : assertion := fun G => arrayAt G a = Some l.
Definition pt (p : pointer) v : assertion := fun G =>
  p_index p = 0 /\ arrayAt G (p_array p) = Some [v].

(** The variable at [p], among others. *)
Definition valueAt h (p : pointer) : option T := arrayAt h (p_array p) ≫= (.!! p_index p).

Lemma pt_valueAt p v G : pt p v G -> valueAt G p = Some v.
Proof. intros [Hi Ha]. unfold valueAt. by rewrite Ha, Hi. Qed.

Lemma valueAt_mono h h' p v : h ⊆ h' -> valueAt h p = Some v -> valueAt h' p = Some v.
Proof.
  unfold valueAt. intros Hs (l & Hl & Hv)%bind_Some. by rewrite (arrayAt_mono h h' _ l).
Qed.

Lemma deref_run h p v : valueAt h p = Some v -> deref p h = Ok (v, h).
Proof. unfold deref, load, valueAt. by intros ->. Qed.

Lemma read_run h G (l r : list assertion) p v :
  G ⊆ h -> pt p v :: r ⊆+ l -> seps l G -> deref p h = Ok (v, h).
Proof.
  intros HG Hl HP.
  destruct (seps_submseteq l (pt p v :: r) Hl G HP) as (G' & HG' & G1 & G2 & -> & _ & H1 & _).
  apply deref_run. eapply valueAt_mono; [|by apply pt_valueAt].
  etrans; [apply map_union_subseteq_l|]. by etrans.
Qed.

Lemma spec_read {B} g (l r : list assertion) p v (k : T -> M cell B) (R : B -> assertion) :
  pt p v :: r ⊆+ l -> spec g (seps l) (k v) R -> spec g (seps l) (deref p ≫= k) R.
Proof.
  intros Hl Hk h0 h G Hg Hs HG Hd HP.
  destruct (Hk h0 h G) as (b & h' & G3 & Hr & Hrest); [done..|]. exists b, h', G3.
  split; [|exact Hrest]. rewrite <-Hr. by eapply M_bind_Ok, read_run.
Qed.

Lemma spec_read_last g (l r : list assertion) p v (R : T -> assertion) :
  pt p v :: r ⊆+ l -> entails (seps l) (R v) -> spec g (seps l) (deref p) R.
Proof.
  intros Hl HR h0 h G Hg Hs HG Hd HP. destruct (HR G HP) as (G' & HG' & HR').
  exists v, h, G'. split_and!; [by eapply read_run|done|by etrans|by eapply map_disjoint_weaken_l|done].
Qed.

Lemma spec_read_global {B} g P p v (k : T -> M cell B) (R : B -> assertion) :
  valueAt g p = Some v -> spec g P (k v) R -> spec g P (deref p ≫= k) R.
Proof.
  intros Hv Hk h0 h G Hg Hs HG Hd HP.
  destruct (Hk h0 h G) as (b & h' & G3 & Hr & Hrest); [done..|]. exists b, h', G3.
  split; [|exact Hrest]. rewrite <-Hr. apply M_bind_Ok, deref_run.
  eapply valueAt_mono; [|exact Hv]. by etrans.
Qed.

(** A cell of the owned part changes. *)
Lemma spec_update h0 h G a c c' :
  h0 ⊆ h -> G ⊆ h -> G ##ₘ h0 -> G !! a = Some c ->
  h0 ⊆ <[a := c']> h /\ <[a := c']> G ⊆ <[a := c']> h /\ <[a := c']> G ##ₘ h0.
Proof.
  intros Hs HG Hd Ha.
  assert (h0 !! a = None) as Hn by (by eapply map_disjoint_Some_l).
  split_and!.
  - by apply insert_subseteq_r.
  - by apply insert_mono.
  - by apply map_disjoint_insert_l_2.
Qed.

Lemma spec_store g a (l : list T) i v :
  i < length l -> spec g (arr a l) (store a i v) (fun _ => arr a (<[i := v]> l)).
Proof.
  intros Hi h0 h G Hg Hs HG Hd Ha. pose proof Ha as (c & Hc & Hp)%bind_Some.
  destruct (spec_update h0 h G a c (inj (<[i := v]> l))) as (? & ? & ?); [done..|].
  exists tt, (<[a := inj (<[i := v]> l)]> h), (<[a := inj (<[i := v]> l)]> G).
  split_and!; [|done..|apply arrayAt_insert].
  unfold store. rewrite (arrayAt_mono G h a l HG Ha). by rewrite decide_True.
Qed.

Lemma spec_assign g p v v' : spec g (pt p v) (assign p v') (fun _ => pt p v').
Proof.
  intros h0 h G Hg Hs HG Hd [Hi Ha].
  destruct (spec_store g (p_array p) [v] 0 v') with (h0 := h0) (h := h) (G := G)
    as (x & h' & G' & Hr & ? & ? & ? & ?); [cbn; lia|done..|].
  exists x, h', G'. unfold assign. by rewrite Hi.
Qed.

Lemma spec_alloc g (l : list T) : spec g emp (alloc l) (fun a => arr a l).
Proof.
  intros h0 h G Hg Hs HG Hd _.
  exists (nextLoc h), (<[nextLoc h := inj l]> h), {[nextLoc h := inj l]}.
  pose proof (nextLoc_fresh h) as Hn. split_and!.
  - done.
  - etrans; [exact Hs|by apply insert_subseteq].
  - by apply map_singleton_subseteq_l, lookup_insert_eq.
  - apply map_disjoint_singleton_l. by eapply lookup_weaken_None.
  - unfold arr, arrayAt. rewrite lookup_singleton_eq. apply proj_inj.
Qed.

Lemma arr_pt a v : entails (arr a [v]) (pt (mkPointer a 0) v).
Proof. by apply entails_weaken. Qed.

Lemma spec_newWith g v : spec g emp (newWith v) (fun p => pt p v).
Proof.
  eapply spec_bind; [apply spec_alloc|]. intros a. apply spec_ret, arr_pt.
Qed.

Lemma spec_index g s (l : list T) i v :
  i < sl_len s -> l !! (sl_off s + i) = Some v ->
  spec g (arr (sl_array s) l) (index s i) (fun x G => x = v /\ arr (sl_array s) l G).
Proof.
  intros Hi Hv h0 h G Hg Hs HG Hd HP. exists v, h, G. split_and!; [|done..].
  eapply index_at; [|done|exact Hv]. by eapply arrayAt_mono.
Qed.

Lemma spec_index_global g P s (l : list T) i v :
  arrayAt g (sl_array s) = Some l -> i < sl_len s -> l !! (sl_off s + i) = Some v ->
  spec g P (index s i) (fun x G => x = v /\ P G).
Proof.
  intros Hl Hi Hv h0 h G Hg Hs HG Hd HP. exists v, h, G. split_and!; [|done..].
  eapply index_at; [|done|exact Hv]. eapply arrayAt_mono; [|exact Hl]. by etrans.
Qed.

Lemma spec_setIndex g s (l : list T) i v :
  i < sl_len s -> sl_off s + i < length l ->
  spec g (arr (sl_array s) l) (setIndex s i v)
    (fun _ => arr (sl_array s) (<[sl_off s + i := v]> l)).
Proof. intros Hi Hl. unfold setIndex. rewrite decide_True by done. by apply spec_store. Qed.
End typed.
End assertions.
