(* ===== verification/DeepCopy.v ===== *)
(** * Deep copies (apis/v1beta1/zz_generated.deepcopy.go)

    The functions that copy the structs of [Memory.v]. [X_DeepCopyInto in]
    is the value that is left in [*out]; it starts as the value of [*in] and
    gets fresh slices and pointers for those that [in] has. What a value stands
    for is read by the instances of [DeepCopyable]: the records of [Types.v].
    Metadata, selectors and conditions are third-party types ([Apimachinery]). *)

From S2P Require Import Prelude Json Types Heap Memory.
Local Open Scope string_scope.

(** The third-party structs: what their values stand for, their own
    [DeepCopyInto], and the name in the metadata. *)
Class ApimachineryCopies `{Apimachinery} := {
  ObjectMeta_Name : hObjectMeta -> string;
  copy_ObjectMeta :: DeepCopyable cell hObjectMeta ObjectMeta;
  copy_ListMeta :: DeepCopyable cell hListMeta ListMeta;
  copy_LabelSelector :: DeepCopyable cell hLabelSelector LabelSelector;
  copy_Condition :: DeepCopyable cell hCondition Condition;
}.

Class ApimachineryLaws `{ApimachineryCopies} := {
  ObjectMeta_Name_reads (h : GoHeap) (v : hObjectMeta) (x : ObjectMeta) :
    reads h v = Some x -> ObjectMeta_Name v = om_Name x;
  laws_ObjectMeta :: DeepCopyLaws cell hObjectMeta ObjectMeta;
  laws_ListMeta :: DeepCopyLaws cell hListMeta ListMeta;
  laws_LabelSelector :: DeepCopyLaws cell hLabelSelector LabelSelector;
  laws_Condition :: DeepCopyLaws cell hCondition Condition;
}.

(** ** The functions *)

Section functions.
Context `{ApimachineryCopies}.
Definition ClusterWorkloadResourceMappingContainer_DeepCopyInto
    (in_ : ClusterWorkloadResourceMappingContainer) : GoM ClusterWorkloadResourceMappingContainer :=
  mret in_.

Definition ClusterWorkloadResourceMappingContainer_DeepCopy (in_ : option pointer) :
    GoM (option pointer) :=
  ifNotNil in_ (copyPointer ClusterWorkloadResourceMappingContainer_DeepCopyInto).

Definition ClusterWorkloadResourceMappingTemplate_DeepCopyInto (in_ : hTemplate) : GoM hTemplate :=
  containers ← ifNotNil (ht_Containers in_) (fun in_ =>
    out ← make (T := ClusterWorkloadResourceMappingContainer) (sl_len in_);
    copy (T := ClusterWorkloadResourceMappingContainer) out in_;;
    mret out);
  mret (mkHTemplate (ht_Version in_) (ht_Annotations in_) containers (ht_Volumes in_)).

Definition ClusterWorkloadResourceMappingTemplate_DeepCopy (in_ : option pointer) :
    GoM (option pointer) :=
  ifNotNil in_ (copyPointer ClusterWorkloadResourceMappingTemplate_DeepCopyInto).

Definition ClusterWorkloadResourceMappingSpec_DeepCopyInto (in_ : hMappingSpec) : GoM hMappingSpec :=
  versions ← ifNotNil (hms_Versions in_) (fun in_ =>
    out ← make (T := hTemplate) (sl_len in_);
    range in_ (copyElement ClusterWorkloadResourceMappingTemplate_DeepCopyInto in_ out);;
    mret out);
  mret (mkHMappingSpec versions).

Definition ClusterWorkloadResourceMappingSpec_DeepCopy (in_ : option pointer) :
    GoM (option pointer) :=
  ifNotNil in_ (copyPointer ClusterWorkloadResourceMappingSpec_DeepCopyInto).

Definition ClusterWorkloadResourceMapping_DeepCopyInto (in_ : hMapping) : GoM hMapping :=
  objectMeta ← DeepCopyInto (hm_ObjectMeta in_);
  spec ← ClusterWorkloadResourceMappingSpec_DeepCopyInto (hm_Spec in_);
  mret (mkHMapping (hm_TypeMeta in_) objectMeta spec).

Definition ClusterWorkloadResourceMapping_DeepCopy (in_ : option pointer) :
    GoM (option pointer) :=
  ifNotNil in_ (copyPointer ClusterWorkloadResourceMapping_DeepCopyInto).

Definition ClusterWorkloadResourceMappingList_DeepCopyInto (in_ : hList) : GoM hList :=
  listMeta ← DeepCopyInto (hl_ListMeta in_);
  items ← ifNotNil (hl_Items in_) (fun in_ =>
    out ← make (T := hMapping) (sl_len in_);
    range in_ (copyElement ClusterWorkloadResourceMapping_DeepCopyInto in_ out);;
    mret out);
  mret (mkHList (hl_TypeMeta in_) listMeta items).

Definition ClusterWorkloadResourceMappingList_DeepCopy (in_ : option pointer) :
    GoM (option pointer) :=
  ifNotNil in_ (copyPointer ClusterWorkloadResourceMappingList_DeepCopyInto).

Definition EnvMapping_DeepCopyInto (in_ : EnvMapping) : GoM EnvMapping := mret in_.

Definition EnvMapping_DeepCopy (in_ : option pointer) : GoM (option pointer) :=
  ifNotNil in_ (copyPointer EnvMapping_DeepCopyInto).

Definition ServiceBindingSecretReference_DeepCopyInto (in_ : ServiceBindingSecretReference) :
    GoM ServiceBindingSecretReference := mret in_.

Definition ServiceBindingSecretReference_DeepCopy (in_ : option pointer) : GoM (option pointer) :=
  ifNotNil in_ (copyPointer ServiceBindingSecretReference_DeepCopyInto).

Definition ServiceBindingServiceReference_DeepCopyInto (in_ : ServiceBindingServiceReference) :
    GoM ServiceBindingServiceReference := mret in_.

Definition ServiceBindingServiceReference_DeepCopy (in_ : option pointer) : GoM (option pointer) :=
  ifNotNil in_ (copyPointer ServiceBindingServiceReference_DeepCopyInto).

Definition ServiceBindingWorkloadReference_DeepCopyInto (in_ : hWorkloadReference) :
    GoM hWorkloadReference :=
  selector ← ifNotNil (hwr_Selector in_) (fun in_ =>
    out ← new (T := hLabelSelector);
    v ← deref (T := hLabelSelector) in_; v' ← DeepCopyInto v; assign out v';;
    mret out);
  containers ← ifNotNil (hwr_Containers in_) (fun in_ =>
    out ← make (T := string) (sl_len in_);
    copy (T := string) out in_;;
    mret out);
  mret (mkHWorkloadReference (hwr_APIVersion in_) (hwr_Kind in_) (hwr_Name in_) selector containers).

Definition ServiceBindingWorkloadReference_DeepCopy (in_ : option pointer) : GoM (option pointer) :=
  ifNotNil in_ (copyPointer ServiceBindingWorkloadReference_DeepCopyInto).

Definition ServiceBindingSpec_DeepCopyInto (in_ : hBindingSpec) : GoM hBindingSpec :=
  workload ← ServiceBindingWorkloadReference_DeepCopyInto (hbs_Workload in_);
  env ← ifNotNil (hbs_Env in_) (fun in_ =>
    out ← make (T := EnvMapping) (sl_len in_);
    copy (T := EnvMapping) out in_;;
    mret out);
  mret (mkHBindingSpec (hbs_Name in_) (hbs_Type in_) (hbs_Provider in_) workload (hbs_Service in_) env).

Definition ServiceBindingSpec_DeepCopy (in_ : option pointer) : GoM (option pointer) :=
  ifNotNil in_ (copyPointer ServiceBindingSpec_DeepCopyInto).

Definition ServiceBindingStatus_DeepCopyInto (in_ : hBindingStatus) : GoM hBindingStatus :=
  conditions ← ifNotNil (hbst_Conditions in_) (fun in_ =>
    out ← make (T := hCondition) (sl_len in_);
    range in_ (copyElement (T := hCondition) DeepCopyInto in_ out);;
    mret out);
  binding ← ifNotNil (hbst_Binding in_) (fun in_ =>
    out ← new (T := ServiceBindingSecretReference);
    v ← deref (T := ServiceBindingSecretReference) in_; assign out v;;
    mret out);
  mret (mkHBindingStatus (hbst_ObservedGeneration in_) conditions binding).

Definition ServiceBindingStatus_DeepCopy (in_ : option pointer) : GoM (option pointer) :=
  ifNotNil in_ (copyPointer ServiceBindingStatus_DeepCopyInto).

Definition ServiceBinding_DeepCopyInto (in_ : hServiceBinding) : GoM hServiceBinding :=
  objectMeta ← DeepCopyInto (hsb_ObjectMeta in_);
  spec ← ServiceBindingSpec_DeepCopyInto (hsb_Spec in_);
  status ← ServiceBindingStatus_DeepCopyInto (hsb_Status in_);
  mret (mkHServiceBinding (hsb_TypeMeta in_) objectMeta spec status).

Definition ServiceBinding_DeepCopy (in_ : option pointer) : GoM (option pointer) :=
  ifNotNil in_ (copyPointer ServiceBinding_DeepCopyInto).

Definition ServiceBindingList_DeepCopyInto (in_ : hList) : GoM hList :=
  listMeta ← DeepCopyInto (hl_ListMeta in_);
  items ← ifNotNil (hl_Items in_) (fun in_ =>
    out ← make (T := hServiceBinding) (sl_len in_);
    range in_ (copyElement ServiceBinding_DeepCopyInto in_ out);;
    mret out);
  mret (mkHList (hl_TypeMeta in_) listMeta items).

Definition ServiceBindingList_DeepCopy (in_ : option pointer) : GoM (option pointer) :=
  ifNotNil in_ (copyPointer ServiceBindingList_DeepCopyInto).

(** [runtime.Object]: an interface value that holds a pointer of one of the
    kinds; [None] is the [nil] interface. *)
Inductive Object :=
  | MappingObject (p : option pointer)
  | MappingListObject (p : option pointer)
  | ServiceBindingObject (p : option pointer)
  | ServiceBindingListObject (p : option pointer).

Definition ClusterWorkloadResourceMapping_DeepCopyObject (in_ : option pointer) :
    GoM (option Object) :=
  c ← ClusterWorkloadResourceMapping_DeepCopy in_;
  match c with Some _ => mret (Some (MappingObject c)) | None => mret None end.

Definition ClusterWorkloadResourceMappingList_DeepCopyObject (in_ : option pointer) :
    GoM (option Object) :=
  c ← ClusterWorkloadResourceMappingList_DeepCopy in_;
  match c with Some _ => mret (Some (MappingListObject c)) | None => mret None end.

Definition ServiceBinding_DeepCopyObject (in_ : option pointer) : GoM (option Object) :=
  c ← ServiceBinding_DeepCopy in_;
  match c with Some _ => mret (Some (ServiceBindingObject c)) | None => mret None end.

Definition ServiceBindingList_DeepCopyObject (in_ : option pointer) : GoM (option Object) :=
  c ← ServiceBindingList_DeepCopy in_;
  match c with Some _ => mret (Some (ServiceBindingListObject c)) | None => mret None end.

(** ** What the values stand for *)

Definition hTemplate_reads (h : GoHeap) (v : hTemplate) :
    option ClusterWorkloadResourceMappingTemplate :=
  containers ← readSlice plain h (ht_Containers v);
  Some (mkMappingTemplate (ht_Version v) (ht_Annotations v) containers (ht_Volumes v)).

#[export] Instance copyable_template : DeepCopyable cell hTemplate _ :=
  { reads := hTemplate_reads; DeepCopyInto := ClusterWorkloadResourceMappingTemplate_DeepCopyInto }.

Definition hMappingSpec_reads (h : GoHeap) (v : hMappingSpec) :
    option ClusterWorkloadResourceMappingSpec :=
  versions ← readSlice (hT := hTemplate) reads h (hms_Versions v); Some (mkMappingSpec versions).

#[export] Instance copyable_mappingSpec : DeepCopyable cell hMappingSpec _ :=
  { reads := hMappingSpec_reads; DeepCopyInto := ClusterWorkloadResourceMappingSpec_DeepCopyInto }.

Definition hMapping_reads (h : GoHeap) (v : hMapping) :
    option (TypeMeta * ClusterWorkloadResourceMapping) :=
  meta ← reads h (hm_ObjectMeta v);
  spec ← reads h (hm_Spec v);
  Some (hm_TypeMeta v, mkMapping meta spec).

#[export] Instance copyable_mapping : DeepCopyable cell hMapping _ :=
  { reads := hMapping_reads; DeepCopyInto := ClusterWorkloadResourceMapping_DeepCopyInto }.

Definition hWorkloadReference_reads (h : GoHeap) (v : hWorkloadReference) :
    option ServiceBindingWorkloadReference :=
  selector ← readOptional (hT := hLabelSelector) reads h (hwr_Selector v);
  containers ← readSlice plain h (hwr_Containers v);
  Some (mkWorkloadReference (hwr_APIVersion v) (hwr_Kind v) (hwr_Name v) selector containers).

#[export] Instance copyable_workloadReference : DeepCopyable cell hWorkloadReference _ :=
  { reads := hWorkloadReference_reads;
    DeepCopyInto := ServiceBindingWorkloadReference_DeepCopyInto }.

Definition hBindingSpec_reads (h : GoHeap) (v : hBindingSpec) : option ServiceBindingSpec :=
  workload ← reads h (hbs_Workload v);
  env ← readSlice plain h (hbs_Env v);
  Some (mkServiceBindingSpec (hbs_Name v) (hbs_Type v) (hbs_Provider v) workload (hbs_Service v) env).

#[export] Instance copyable_bindingSpec : DeepCopyable cell hBindingSpec _ :=
  { reads := hBindingSpec_reads; DeepCopyInto := ServiceBindingSpec_DeepCopyInto }.

Definition hBindingStatus_reads (h : GoHeap) (v : hBindingStatus) : option ServiceBindingStatus :=
  conditions ← readSlice (hT := hCondition) reads h (hbst_Conditions v);
  binding ← readOptional plain h (hbst_Binding v);
  Some (mkServiceBindingStatus (hbst_ObservedGeneration v) conditions binding).

#[export] Instance copyable_bindingStatus : DeepCopyable cell hBindingStatus _ :=
  { reads := hBindingStatus_reads; DeepCopyInto := ServiceBindingStatus_DeepCopyInto }.

Definition hServiceBinding_reads (h : GoHeap) (v : hServiceBinding) :
    option (TypeMeta * ServiceBinding) :=
  meta ← reads h (hsb_ObjectMeta v);
  spec ← reads h (hsb_Spec v);
  status ← reads h (hsb_Status v);
  Some (hsb_TypeMeta v, mkServiceBinding meta spec status).

#[export] Instance copyable_serviceBinding : DeepCopyable cell hServiceBinding _ :=
  { reads := hServiceBinding_reads; DeepCopyInto := ServiceBinding_DeepCopyInto }.

(** The lists share one struct; the kind of the items decides. *)
Definition hList_reads {hT T} `{Storable cell hT, !DeepCopyable cell hT T} (h : GoHeap) (v : hList) :
    option (TypeMeta * ListMeta * list T) :=
  meta ← reads h (hl_ListMeta v);
  items ← readSlice (hT := hT) reads h (hl_Items v);
  Some (hl_TypeMeta v, meta, items).

Definition copyable_mappingList : DeepCopyable cell hList _ :=
  {| reads := hList_reads (hT := hMapping);
     DeepCopyInto := ClusterWorkloadResourceMappingList_DeepCopyInto |}.

Definition copyable_serviceBindingList : DeepCopyable cell hList _ :=
  {| reads := hList_reads (hT := hServiceBinding);
     DeepCopyInto := ServiceBindingList_DeepCopyInto |}.
End functions.
