(* ===== verification/DeepCopyFacts.v ===== *)
(** * Deep copies are copies, and deep

    Every [DeepCopyInto] satisfies the laws of [Heap.v]: the copy reads as the
    original and has no cell in common with it, so that what is written through
    one is not seen through the other. *)

From S2P Require Import Prelude Json Types Heap Memory DeepCopy.
Local Open Scope string_scope.

(** ** Parts of a struct, one after another *)

Section facts.
Context `{ApimachineryLaws}.
Implicit Types h : GoHeap.

#[local] Hint Resolve reads_mono plain_mono : core.

Lemma slice_plain_mono {T} `{Storable cell T} h h' s (xs : list T) :
  h ⊆ h' -> readSlice plain h s = Some xs -> readSlice plain h' s = Some xs.
Proof. apply readSlice_mono, plain_mono. Qed.

Lemma slice_reads_mono {hT T} `{Storable cell hT, DeepCopyLaws cell hT T} h h' s (xs : list T) :
  h ⊆ h' -> readSlice (hT:=hT) reads h s = Some xs -> readSlice (hT:=hT) reads h' s = Some xs.
Proof. apply readSlice_mono, reads_mono. Qed.

Lemma optional_plain_mono {T} `{Storable cell T} h h' p (x : option T) :
  h ⊆ h' -> readOptional plain h p = Some x -> readOptional plain h' p = Some x.
Proof. apply readOptional_mono, plain_mono. Qed.

Lemma optional_reads_mono {hT T} `{Storable cell hT, DeepCopyLaws cell hT T} h h' p (x : option T) :
  h ⊆ h' -> readOptional (hT:=hT) reads h p = Some x -> readOptional (hT:=hT) reads h' p = Some x.
Proof. apply readOptional_mono, reads_mono. Qed.

(** The parts that the generator emits for a field. *)
Lemma copy_plainSlice {T} `{Storable cell T} h s (xs : list T) :
  readSlice plain h s = Some xs -> freshly (ifNotNil s (copyPlain (T:=T))) (readSlice plain) h xs.
Proof. intros Hs. apply ifNotNil_slice; [done|]. intros. by apply copyPlain_fresh. Qed.

Lemma copy_slice {hT T} `{Storable cell hT, DeepCopyLaws cell hT T} h s (xs : list T) :
  readSlice (hT:=hT) reads h s = Some xs ->
  freshly (ifNotNil s (copySlice (hT:=hT) DeepCopyInto)) (readSlice (hT:=hT) reads) h xs.
Proof.
  intros Hs. apply ifNotNil_slice; [done|]. intros.
  apply copySlice_fresh; [apply reads_mono|apply DeepCopyInto_fresh|done].
Qed.

Lemma copy_plainPointer {T} `{Storable cell T} h p (x : option T) :
  readOptional plain h p = Some x -> freshly (ifNotNil p (copyPointer (T:=T) mret)) (readOptional plain) h x.
Proof.
  intros Hp. apply ifNotNil_pointer; [done|]. intros.
  apply copyPointer_fresh; [apply plain_mono|apply plain_ret|done].
Qed.

Lemma copy_pointer {hT T} `{Storable cell hT, DeepCopyLaws cell hT T} h p (x : option T) :
  readOptional (hT:=hT) reads h p = Some x ->
  freshly (ifNotNil p (copyPointer (T:=hT) DeepCopyInto)) (readOptional (hT:=hT) reads) h x.
Proof.
  intros Hp. apply ifNotNil_pointer; [done|]. intros.
  apply copyPointer_fresh; [apply reads_mono|apply DeepCopyInto_fresh|done].
Qed.

(** A second part after a first one. *)
Lemma freshly_pair {A B C X Y Z} (m : GoM A) (k : GoM B) (f : A -> B -> C)
    (r : GoHeap -> A -> option X) (s : GoHeap -> B -> option Y) (t : GoHeap -> C -> option Z) h x y z :
  (forall h h' a x, h ⊆ h' -> r h a = Some x -> r h' a = Some x) ->
  (forall h h' b y, h ⊆ h' -> s h b = Some y -> s h' b = Some y) ->
  freshly m r h x -> (forall h', h ⊆ h' -> freshly k s h' y) ->
  (forall h a b, r h a = Some x -> s h b = Some y -> t h (f a b) = Some z) ->
  freshly (a ← m; b ← k; mret (f a b)) t h z.
Proof.
  intros Hr Hs (a & h1 & Hm & Hs1 & Ha) Hk Ht.
  destruct (freshly_from k s h h1 y) as (b & h2 & Hb & ? & ? & Hy); [done|by apply Hk|done|].
  exists (f a b), h2. split_and!; [|by etrans|].
  - erewrite M_bind_Ok by exact Hm. by erewrite M_bind_Ok by exact Hb.
  - apply Ht; [|done]. eapply Hr; [|exact Ha]. by apply diff_mono.
Qed.

Lemma freshly_triple {A B C D X Y W Z} (m : GoM A) (k : GoM B) (l : GoM C) (f : A -> B -> C -> D)
    (r : GoHeap -> A -> option X) (s : GoHeap -> B -> option Y) (u : GoHeap -> C -> option W)
    (t : GoHeap -> D -> option Z) h x y w z :
  (forall h h' a x, h ⊆ h' -> r h a = Some x -> r h' a = Some x) ->
  (forall h h' b y, h ⊆ h' -> s h b = Some y -> s h' b = Some y) ->
  (forall h h' c w, h ⊆ h' -> u h c = Some w -> u h' c = Some w) ->
  freshly m r h x -> (forall h', h ⊆ h' -> freshly k s h' y) ->
  (forall h', h ⊆ h' -> freshly l u h' w) ->
  (forall h a b c, r h a = Some x -> s h b = Some y -> u h c = Some w -> t h (f a b c) = Some z) ->
  freshly (a ← m; b ← k; c ← l; mret (f a b c)) t h z.
Proof.
  intros Hr Hs Hu (a & h1 & Hm & Hs1 & Ha) Hk Hl Ht.
  destruct (freshly_from k s h h1 y) as (b & h2 & Hb & Hs2 & H12 & Hy); [done|by apply Hk|done|].
  destruct (freshly_from l u h h2 w) as (c & h3 & Hc & ? & H23 & Hw); [done|by apply Hl|done|].
  exists (f a b c), h3. split_and!; [|done|].
  - erewrite M_bind_Ok by exact Hm. erewrite M_bind_Ok by exact Hb. by erewrite M_bind_Ok by exact Hc.
  - apply Ht; [| |done].
    + eapply Hr; [|exact Ha]. apply diff_mono. by etrans.
    + eapply Hs; [|exact Hy]. by apply diff_mono.
Qed.

(** ** The laws, type by type *)

Lemma laws_intro {hT T} `{DeepCopyable cell hT T} :
  (forall h h' (v : hT) (x : T), h ⊆ h' -> reads h v = Some x -> reads h' v = Some x) ->
  (forall h (v : hT) (x : T), reads h v = Some x -> freshly (DeepCopyInto v) reads h x) ->
  DeepCopyLaws cell hT T.
Proof. by split. Qed.

Lemma into_fresh {hT T} `{DeepCopyLaws cell hT T} h (v : hT) (x : T) :
  reads h v = Some x -> freshly (DeepCopyInto v) reads h x.
Proof. apply DeepCopyInto_fresh. Qed.

Lemma into_later {hT T} `{DeepCopyLaws cell hT T} h h' (v : hT) (x : T) :
  reads h v = Some x -> h ⊆ h' -> freshly (DeepCopyInto v) reads h' x.
Proof. intros Hv Hs. apply DeepCopyInto_fresh. by eapply reads_mono. Qed.

(** Gives the copy of a struct, and what it stands for, their names back. *)
Ltac expose into rd :=
  match goal with |- freshly _ _ ?h ?x => change (freshly into rd h x) end.

#[export] Instance laws_template : DeepCopyLaws cell hTemplate _.
Proof.
  apply laws_intro; unfold reads, copyable_template, hTemplate_reads.
  - intros h h' v x Hs (cs & Hc & [= <-])%bind_Some. by rewrite (slice_plain_mono h h' _ cs).
  - intros h v x (cs & Hc & [= <-])%bind_Some.
    expose (ClusterWorkloadResourceMappingTemplate_DeepCopyInto v) hTemplate_reads.
    unfold ClusterWorkloadResourceMappingTemplate_DeepCopyInto.
    eapply (freshly_fmap _
      (fun c => mkHTemplate (ht_Version v) (ht_Annotations v) c (ht_Volumes v))
      (readSlice plain) _ h cs); [exact (copy_plainSlice _ _ _ Hc)|]. intros h' c. unfold hTemplate_reads. cbn. by intros ->.
Qed.

#[export] Instance laws_mappingSpec : DeepCopyLaws cell hMappingSpec _.
Proof.
  apply laws_intro; unfold reads at 1 2, copyable_mappingSpec, hMappingSpec_reads.
  - intros h h' v x Hs (cs & Hc & [= <-])%bind_Some. by rewrite (slice_reads_mono h h' _ cs).
  - intros h v x (cs & Hc & [= <-])%bind_Some.
    expose (ClusterWorkloadResourceMappingSpec_DeepCopyInto v) hMappingSpec_reads.
    unfold ClusterWorkloadResourceMappingSpec_DeepCopyInto.
    eapply (freshly_fmap _ mkHMappingSpec
      (readSlice (hT:=hTemplate) reads) _ h cs); [exact (copy_slice _ _ _ Hc)|]. intros h' c. unfold hMappingSpec_reads. cbn. by intros ->.
Qed.

#[export] Instance laws_mapping : DeepCopyLaws cell hMapping _.
Proof.
  apply laws_intro; unfold reads at 1 2, copyable_mapping, hMapping_reads.
  - intros h h' v x Hs (m & Hm & (s & Hsp & [= <-])%bind_Some)%bind_Some.
    by rewrite (reads_mono h h' _ m Hs Hm), (reads_mono h h' _ s Hs Hsp).
  - intros h v x (m & Hm & (s & Hsp & [= <-])%bind_Some)%bind_Some.
    expose (ClusterWorkloadResourceMapping_DeepCopyInto v) hMapping_reads.
    unfold ClusterWorkloadResourceMapping_DeepCopyInto.
    eapply (freshly_pair _ _
      (mkHMapping (hm_TypeMeta v)) reads reads _ h m s);
      [apply reads_mono..|exact (into_fresh _ _ _ Hm)|intros h' Hs; exact (into_later _ _ _ _ Hsp Hs)|].
    intros h' a b. unfold hMapping_reads. cbn [hm_TypeMeta hm_ObjectMeta hm_Spec]. by intros -> ->.
Qed.

#[export] Instance laws_workloadReference : DeepCopyLaws cell hWorkloadReference _.
Proof.
  apply laws_intro; unfold reads at 1 2, copyable_workloadReference, hWorkloadReference_reads.
  - intros h h' v x Hs (p & Hp & (s & Hsp & [= <-])%bind_Some)%bind_Some.
    by rewrite (optional_reads_mono h h' _ p Hs Hp), (slice_plain_mono h h' _ s Hs Hsp).
  - intros h v x (p & Hp & (s & Hsp & [= <-])%bind_Some)%bind_Some.
    expose (ServiceBindingWorkloadReference_DeepCopyInto v) hWorkloadReference_reads.
    unfold ServiceBindingWorkloadReference_DeepCopyInto.
    eapply (freshly_pair _ _
      (mkHWorkloadReference (hwr_APIVersion v) (hwr_Kind v) (hwr_Name v))
      (readOptional (hT:=hLabelSelector) reads) (readSlice plain) _ h p s);
      [apply optional_reads_mono|apply slice_plain_mono|exact (copy_pointer _ _ _ Hp)| |].
    + intros h' Hs. exact (copy_plainSlice _ _ _ (slice_plain_mono _ _ _ _ Hs Hsp)).
    + intros h' a b. unfold hWorkloadReference_reads. cbn [hwr_APIVersion hwr_Kind hwr_Name hwr_Selector hwr_Containers].
      by intros -> ->.
Qed.

#[export] Instance laws_bindingSpec : DeepCopyLaws cell hBindingSpec _.
Proof.
  apply laws_intro; unfold reads at 1 2, copyable_bindingSpec, hBindingSpec_reads.
  - intros h h' v x Hs (w & Hw & (s & Hsp & [= <-])%bind_Some)%bind_Some.
    by rewrite (reads_mono h h' _ w Hs Hw), (slice_plain_mono h h' _ s Hs Hsp).
  - intros h v x (w & Hw & (s & Hsp & [= <-])%bind_Some)%bind_Some.
    expose (ServiceBindingSpec_DeepCopyInto v) hBindingSpec_reads.
    unfold ServiceBindingSpec_DeepCopyInto.
    eapply (freshly_pair _ _
      (fun w => mkHBindingSpec (hbs_Name v) (hbs_Type v) (hbs_Provider v) w (hbs_Service v))
      reads (readSlice plain) _ h w s);
      [apply reads_mono|apply slice_plain_mono|exact (into_fresh _ _ _ Hw)| |].
    + intros h' Hs. exact (copy_plainSlice _ _ _ (slice_plain_mono _ _ _ _ Hs Hsp)).
    + intros h' a b. unfold hBindingSpec_reads. cbn [hbs_Name hbs_Type hbs_Provider hbs_Service hbs_Workload hbs_Env].
      by intros -> ->.
Qed.

#[export] Instance laws_bindingStatus : DeepCopyLaws cell hBindingStatus _.
Proof.
  apply laws_intro; unfold reads at 1 2, copyable_bindingStatus, hBindingStatus_reads.
  - intros h h' v x Hs (cs & Hc & (p & Hp & [= <-])%bind_Some)%bind_Some.
    by rewrite (slice_reads_mono h h' _ cs Hs Hc), (optional_plain_mono h h' _ p Hs Hp).
  - intros h v x (cs & Hc & (p & Hp & [= <-])%bind_Some)%bind_Some.
    expose (ServiceBindingStatus_DeepCopyInto v) hBindingStatus_reads.
    unfold ServiceBindingStatus_DeepCopyInto.
    eapply (freshly_pair _ _
      (mkHBindingStatus (hbst_ObservedGeneration v))
      (readSlice (hT:=hCondition) reads) (readOptional plain) _ h cs p);
      [apply slice_reads_mono|apply optional_plain_mono|exact (copy_slice _ _ _ Hc)| |].
    + intros h' Hs. exact (copy_plainPointer _ _ _ (optional_plain_mono _ _ _ _ Hs Hp)).
    + intros h' a b. unfold hBindingStatus_reads. cbn [hbst_ObservedGeneration hbst_Conditions hbst_Binding]. by intros -> ->.
Qed.

#[export] Instance laws_serviceBinding : DeepCopyLaws cell hServiceBinding _.
Proof.
  apply laws_intro; unfold reads at 1 2, copyable_serviceBinding, hServiceBinding_reads.
  - intros h h' v x Hs (m & Hm & (s & Hsp & (t & Ht & [= <-])%bind_Some)%bind_Some)%bind_Some.
    by rewrite (reads_mono h h' _ m Hs Hm), (reads_mono h h' _ s Hs Hsp), (reads_mono h h' _ t Hs Ht).
  - intros h v x (m & Hm & (s & Hsp & (t & Ht & [= <-])%bind_Some)%bind_Some)%bind_Some.
    expose (ServiceBinding_DeepCopyInto v) hServiceBinding_reads.
    unfold ServiceBinding_DeepCopyInto.
    eapply (freshly_triple _ _ _ (mkHServiceBinding (hsb_TypeMeta v)) reads reads reads _ h m s t);
      [apply reads_mono..|exact (into_fresh _ _ _ Hm)
      |intros h' Hs; exact (into_later _ _ _ _ Hsp Hs)|intros h' Hs; exact (into_later _ _ _ _ Ht Hs)|].
    intros h' a b c. unfold hServiceBinding_reads.
    cbn [hsb_TypeMeta hsb_ObjectMeta hsb_Spec hsb_Status]. by intros -> -> ->.
Qed.

(** A list: its metadata and a slice of items. *)
Lemma hList_reads_mono {hT T} `{Storable cell hT, DeepCopyLaws cell hT T} h h' v
    (x : TypeMeta * ListMeta * list T) :
  h ⊆ h' -> hList_reads (hT:=hT) h v = Some x -> hList_reads (hT:=hT) h' v = Some x.
Proof.
  unfold hList_reads. intros Hs (m & Hm & (xs & Hi & [= <-])%bind_Some)%bind_Some.
  by rewrite (reads_mono h h' _ m Hs Hm), (slice_reads_mono h h' _ xs Hs Hi).
Qed.

Lemma hList_fresh {hT T} `{Storable cell hT, DeepCopyLaws cell hT T} h v
    (x : TypeMeta * ListMeta * list T) :
  hList_reads (hT:=hT) h v = Some x ->
  freshly (listMeta ← DeepCopyInto (hl_ListMeta v);
           items ← ifNotNil (hl_Items v) (copySlice (hT:=hT) DeepCopyInto);
           mret (mkHList (hl_TypeMeta v) listMeta items)) (hList_reads (hT:=hT)) h x.
Proof.
  unfold hList_reads at 1. intros (m & Hm & (xs & Hi & [= <-])%bind_Some)%bind_Some.
  eapply (freshly_pair _ _ (mkHList (hl_TypeMeta v)) reads (readSlice (hT:=hT) reads) _ h m xs);
    [apply reads_mono|apply slice_reads_mono|exact (into_fresh _ _ _ Hm)
    |intros h' Hs; exact (copy_slice _ _ _ (slice_reads_mono _ _ _ _ Hs Hi))|].
  intros h' a b. unfold hList_reads. cbn [hl_TypeMeta hl_ListMeta hl_Items]. by intros -> ->.
Qed.

Lemma laws_mappingList : @DeepCopyLaws cell hList _ copyable_mappingList.
Proof.
  split; [intros h h' v x; apply hList_reads_mono|].
  intros h v x Hv. exact (hList_fresh (hT:=hMapping) h v x Hv).
Qed.

Lemma laws_serviceBindingList : @DeepCopyLaws cell hList _ copyable_serviceBindingList.
Proof.
  split; [intros h h' v x; apply hList_reads_mono|].
  intros h v x Hv. exact (hList_fresh (hT:=hServiceBinding) h v x Hv).
Qed.

End facts.
