(* ===== verification/Samples.v ===== *)
(** * Sample objects

    Concrete bindings and templates at which the properties are instantiated:
    a MySQL and a Redis binding for the same workload. *)

From S2P Require Import Prelude Json Types.
Local Open Scope string_scope.

Definition sampleMeta (name uid : string) : ObjectMeta := mkObjectMeta name "my-namespace" uid 1 None.

Definition sampleWorkload : ServiceBindingWorkloadReference :=
  mkWorkloadReference "apps/v1" "Deployment" "my-workload" None [].

Definition sampleBinding (name uid type provider secret : string) (env : list EnvMapping) :
    ServiceBinding :=
  mkServiceBinding (sampleMeta name uid)
    (mkServiceBindingSpec name type provider sampleWorkload
       (mkServiceReference "example/v1" "MyService" name) env)
    (mkServiceBindingStatus 1 []
       (if String.eqb secret "" then None else Some (mkSecretReference secret))).

Definition mysql : ServiceBinding :=
  sampleBinding "mysql" "uid-1" "mysql" "bitnami" "mysql-secret"
    [mkEnvMapping "DB_HOST" "host"; mkEnvMapping "DB_TYPE" "type"].
Definition redis : ServiceBinding :=
  sampleBinding "redis" "uid-2" "" "" "redis-secret" [mkEnvMapping "CACHE_HOST" "host"].
(** A second consumer of the MySQL secret. *)
Definition reporting : ServiceBinding :=
  sampleBinding "reporting" "uid-3" "mysql" "" "mysql-secret"
    [mkEnvMapping "REPORT_HOST" "host"; mkEnvMapping "REPORT_TYPE" "type"].
(** A binding whose service has not exposed a secret yet. *)
Definition pending : ServiceBinding := sampleBinding "pending" "uid-4" "" "" "" [].

Definition plainEnv (name value : string) : EnvVar := mkEnvVar name value None.
Definition plainVolume (name : string) : Volume := mkVolume name None ∅.
Definition plainMount (name path : string) : VolumeMount := mkVolumeMount name false path ∅.

Definition appContainer : metaContainer :=
  mkMetaContainer (Some "app") [plainEnv "PATH" "/bin"; plainEnv "SERVICE_BINDING_ROOT" "/svc"]
    [plainMount "data" "/data"].
Definition sidecar : metaContainer := mkMetaContainer (Some "sidecar") [] [].

Definition sampleTemplate : metaPodTemplate :=
  mkMetaPodTemplate {[ "team" := "a" ]} [appContainer; sidecar]
    [plainVolume "data"; plainVolume "tmp"].

(** As [sampleTemplate], with the root set in both containers. *)
Definition rootedTemplate : metaPodTemplate :=
  mkMetaPodTemplate {[ "team" := "a" ]}
    [appContainer; mkMetaContainer (Some "sidecar") [plainEnv "SERVICE_BINDING_ROOT" "/bindings"] []]
    [plainVolume "data"; plainVolume "tmp"].

(** A container whose author reads the MySQL secret directly. *)
Definition secretReader : metaPodTemplate :=
  mkMetaPodTemplate ∅
    [mkMetaContainer (Some "app")
       [mkEnvVar "MY_PASSWORD" ""
          (Some (mkEnvVarSource None (Some (mkSecretKeySelector "mysql-secret" "password" ∅)) ∅))] []]
    [].
