(* ===== verification/Binding.v ===== *)
(** * The projector (projector/binding.go)

    [project] and [unproject] rewrite a [metaPodTemplate] for one
    [ServiceBinding]: a projected volume, a volume mount and environment
    variables per bindable container, and annotations that remember the
    secret, the type and the provider. Every method of [serviceBindingProjector]
    that works on the template is a definition of the same name; a method that
    sets an annotation on the way returns the new template beside its result. *)

From S2P Require Import Prelude GoSort GoPath Json Types.
Local Open Scope string_scope.

Definition ServiceBindingRootEnv : string := "SERVICE_BINDING_ROOT".
Definition Group : string := "projector.servicebinding.io".
Definition VolumePrefix : string := "servicebinding-".
Definition SecretAnnotationPrefix : string := Group +:+ "/secret-".
Definition TypeAnnotationPrefix : string := Group +:+ "/type-".
Definition ProviderAnnotationPrefix : string := Group +:+ "/provider-".

(** ** Names *)

Definition UID (binding : ServiceBinding) : string := om_UID (sb_Meta binding).

Definition secretAnnotationName (binding : ServiceBinding) : string :=
  SecretAnnotationPrefix +:+ UID binding.
Definition typeAnnotationName (binding : ServiceBinding) : string :=
  TypeAnnotationPrefix +:+ UID binding.
Definition providerAnnotationName (binding : ServiceBinding) : string :=
  ProviderAnnotationPrefix +:+ UID binding.
Definition volumeName (binding : ServiceBinding) : string :=
  VolumePrefix +:+ UID binding.

(** [fmt.Sprintf("metadata.annotations['%s']", name)] *)
Definition annotationFieldPath (name : string) : string :=
  "metadata.annotations['" +:+ (name +:+ "']").

Definition secretName (binding : ServiceBinding) : string :=
  match sbst_Binding (sb_Status binding) with
  | None => ""
  | Some r => secretref_Name r
  end.

(** The three methods that record a value in the annotations. *)
Definition secretAnnotation (binding : ServiceBinding) (mpt : metaPodTemplate) :
    string * metaPodTemplate :=
  let key := secretAnnotationName binding in
  let secret := secretName binding in
  if String.eqb secret "" then ("", mpt)
  else (secret, set_mpt_Annotations (<[key := secret]> (mpt_Annotations mpt)) mpt).

Definition typeAnnotation (binding : ServiceBinding) (mpt : metaPodTemplate) :
    string * metaPodTemplate :=
  let key := typeAnnotationName binding in
  (key, set_mpt_Annotations (<[key := sbs_Type (sb_Spec binding)]> (mpt_Annotations mpt)) mpt).

Definition providerAnnotation (binding : ServiceBinding) (mpt : metaPodTemplate) :
    string * metaPodTemplate :=
  let key := providerAnnotationName binding in
  (key, set_mpt_Annotations (<[key := sbs_Provider (sb_Spec binding)]> (mpt_Annotations mpt)) mpt).

(** ** Volumes *)

Definition lessVolume : Volume -> Volume -> bool :=
  projectedLess (fun v => HasPrefix (vol_Name v) VolumePrefix) vol_Name.

Definition secretProjection (name : string) : VolumeProjection :=
  mkVolumeProjection (Some (mkSecretProjection name ∅)) None ∅.

Definition downwardAPIProjection (path key : string) : VolumeProjection :=
  mkVolumeProjection None
    (Some (mkDownwardAPIProjection
       [mkDownwardAPIVolumeFile path
          (Some (mkObjectFieldSelector (annotationFieldPath key) ∅)) ∅])) ∅.

(** [volume.VolumeSource.Projected.Sources = append(..., p)] *)
Definition append_source (p : VolumeProjection) (v : Volume) : Volume :=
  mkVolume (vol_Name v)
    (match vol_Projected v with
     | Some s => Some (mkProjectedVolumeSource (pvs_Sources s ++ [p])%list (pvs_other s))
     | None => None
     end) (vol_other v).

Definition projectVolume (binding : ServiceBinding) (mpt : metaPodTemplate) : metaPodTemplate :=
  let '(secret, mpt) := secretAnnotation binding mpt in
  let volume :=
    mkVolume (volumeName binding)
      (Some (mkProjectedVolumeSource [secretProjection secret] ∅)) ∅ in
  let '(volume, mpt) :=
    if negb (String.eqb (sbs_Type (sb_Spec binding)) "") then
      let '(key, mpt) := typeAnnotation binding mpt in
      (append_source (downwardAPIProjection "type" key) volume, mpt)
    else (volume, mpt) in
  let '(volume, mpt) :=
    if negb (String.eqb (sbs_Provider (sb_Spec binding)) "") then
      let '(key, mpt) := providerAnnotation binding mpt in
      (append_source (downwardAPIProjection "provider" key) volume, mpt)
    else (volume, mpt) in
  let mpt := set_mpt_Volumes (mpt_Volumes mpt ++ [volume])%list mpt in
  set_mpt_Volumes (SliceStable lessVolume (mpt_Volumes mpt)) mpt.

Definition unprojectVolume (binding : ServiceBinding) (mpt : metaPodTemplate) : metaPodTemplate :=
  let projected := volumeName binding in
  set_mpt_Volumes
    (List.filter (fun v => negb (String.eqb (vol_Name v) projected)) (mpt_Volumes mpt)) mpt.

(** ** Volume mounts *)

Definition lessVolumeMount : VolumeMount -> VolumeMount -> bool :=
  projectedLess (fun m => HasPrefix (vm_Name m) VolumePrefix) vm_Name.

(** Reads [SERVICE_BINDING_ROOT], or adds it with its default value. *)
Definition serviceBindingRoot (mc : metaContainer) : string * metaContainer :=
  match List.find (fun e => String.eqb (ev_Name e) ServiceBindingRootEnv) (mct_Env mc) with
  | Some e => (ev_Value e, mc)
  | None =>
      let root := mkEnvVar ServiceBindingRootEnv "/bindings" None in
      (ev_Value root, set_mct_Env (mct_Env mc ++ [root])%list mc)
  end.

Definition projectVolumeMount (binding : ServiceBinding) (mc : metaContainer) : metaContainer :=
  let '(root, mc) := serviceBindingRoot mc in
  let mount := mkVolumeMount (volumeName binding) true
                 (Join root (sbs_Name (sb_Spec binding))) ∅ in
  let mc := set_mct_VolumeMounts (mct_VolumeMounts mc ++ [mount])%list mc in
  set_mct_VolumeMounts (SliceStable lessVolumeMount (mct_VolumeMounts mc)) mc.

Definition unprojectVolumeMount (binding : ServiceBinding) (mc : metaContainer) : metaContainer :=
  let projected := volumeName binding in
  set_mct_VolumeMounts
    (List.filter (fun m => negb (String.eqb (vm_Name m) projected)) (mct_VolumeMounts mc)) mc.

(** ** Environment variables *)

(** [sets.String] is a set; the iteration order of the map is irrelevant. *)
Definition knownProjectedSecrets (mpt : metaPodTemplate) : gset string :=
  map_fold (fun k v secrets =>
      if HasPrefix k SecretAnnotationPrefix then {[v]} ∪ secrets else secrets)
    ∅ (mpt_Annotations mpt).

Definition isProjectedEnv (e : EnvVar) (secrets : gset string) : bool :=
  match ev_ValueFrom e with
  | Some src =>
      match evs_SecretKeyRef src with
      | Some ref => bool_decide (sks_Name ref ∈ secrets)
      | None => false
      end ||
      match evs_FieldRef src with
      | Some ref => HasPrefix (ofs_FieldPath ref) ("metadata.annotations['" +:+ Group)
      | None => false
      end
  | None => false
  end.

Definition lessEnv (secrets : gset string) : EnvVar -> EnvVar -> bool :=
  projectedLess (fun e => isProjectedEnv e secrets) ev_Name.

Definition fieldRefEnv (name key : string) : EnvVar :=
  mkEnvVar name ""
    (Some (mkEnvVarSource (Some (mkObjectFieldSelector (annotationFieldPath key) ∅)) None ∅)).

Definition secretKeyEnv (name secret key : string) : EnvVar :=
  mkEnvVar name "" (Some (mkEnvVarSource None (Some (mkSecretKeySelector secret key ∅)) ∅)).

(** One turn of the loop over [binding.Spec.Env]. *)
Definition projectEnvMapping (binding : ServiceBinding) (e : EnvMapping)
    (st : metaPodTemplate * metaContainer) : metaPodTemplate * metaContainer :=
  let '(mpt, mc) := st in
  let append x mc := set_mct_Env (mct_Env mc ++ [x])%list mc in
  if String.eqb (em_Key e) "type" && negb (String.eqb (sbs_Type (sb_Spec binding)) "") then
    let '(key, mpt) := typeAnnotation binding mpt in
    (mpt, append (fieldRefEnv (em_Name e) key) mc)
  else if String.eqb (em_Key e) "provider" &&
          negb (String.eqb (sbs_Provider (sb_Spec binding)) "") then
    let '(key, mpt) := providerAnnotation binding mpt in
    (mpt, append (fieldRefEnv (em_Name e) key) mc)
  else
    let '(secret, mpt) := secretAnnotation binding mpt in
    (mpt, append (secretKeyEnv (em_Name e) secret (em_Key e)) mc).

Definition projectEnv (binding : ServiceBinding) (mpt : metaPodTemplate) (mc : metaContainer) :
    metaPodTemplate * metaContainer :=
  let '(mpt, mc) :=
    fold_left (fun st e => projectEnvMapping binding e st) (sbs_Env (sb_Spec binding)) (mpt, mc) in
  let secrets := knownProjectedSecrets mpt in
  (mpt, set_mct_Env (SliceStable (lessEnv secrets) (mct_Env mc)) mc).

(** The [remove] flag of the loop in [unprojectEnv]. *)
Definition removeEnv (secret typeFieldPath providerFieldPath : string) (e : EnvVar) : bool :=
  match ev_ValueFrom e with
  | Some src =>
      match evs_SecretKeyRef src with
      | Some ref => String.eqb (sks_Name ref) secret
      | None => false
      end ||
      match evs_FieldRef src with
      | Some ref => String.eqb (ofs_FieldPath ref) typeFieldPath ||
                    String.eqb (ofs_FieldPath ref) providerFieldPath
      | None => false
      end
  | None => false
  end.

Definition unprojectEnv (binding : ServiceBinding) (mpt : metaPodTemplate) (mc : metaContainer) :
    metaContainer :=
  let secret := default "" (mpt_Annotations mpt !! secretAnnotationName binding) in
  let typeFieldPath := annotationFieldPath (typeAnnotationName binding) in
  let providerFieldPath := annotationFieldPath (providerAnnotationName binding) in
  set_mct_Env
    (List.filter (fun e => negb (removeEnv secret typeFieldPath providerFieldPath e))
       (mct_Env mc)) mc.

(** ** Containers *)

Definition isContainerBindable (binding : ServiceBinding) (mc : metaContainer) : bool :=
  let containers := wr_Containers (sbs_Workload (sb_Spec binding)) in
  match containers, mct_Name mc with
  | [], _ => true
  | _, None => true
  | _, Some n => existsb (fun name => String.eqb name n) containers
  end.

Definition projectContainer (binding : ServiceBinding) (mpt : metaPodTemplate)
    (mc : metaContainer) : metaPodTemplate * metaContainer :=
  if negb (isContainerBindable binding mc) then (mpt, mc)
  else projectEnv binding mpt (projectVolumeMount binding mc).

Definition unprojectContainer (binding : ServiceBinding) (mpt : metaPodTemplate)
    (mc : metaContainer) : metaPodTemplate * metaContainer :=
  (mpt, unprojectEnv binding mpt (unprojectVolumeMount binding mc)).

(** [for i := range mpt.Containers { f(binding, mpt, &mpt.Containers[i]) }] *)
Definition forContainers
    (f : metaPodTemplate -> metaContainer -> metaPodTemplate * metaContainer)
    (mpt : metaPodTemplate) : metaPodTemplate :=
  fold_left (fun mpt i =>
      match mpt_Containers mpt !! i with
      | Some mc =>
          let '(mpt, mc) := f mpt mc in
          set_mpt_Containers (<[i := mc]> (mpt_Containers mpt)) mpt
      | None => mpt
      end) (seq 0 (length (mpt_Containers mpt))) mpt.

(** ** The two entry points *)

Definition unproject (binding : ServiceBinding) (mpt : metaPodTemplate) : metaPodTemplate :=
  let mpt := unprojectVolume binding mpt in
  let mpt := forContainers (unprojectContainer binding) mpt in
  let mpt := set_mpt_Annotations
               (delete (secretAnnotationName binding) (mpt_Annotations mpt)) mpt in
  let mpt := set_mpt_Annotations
               (delete (typeAnnotationName binding) (mpt_Annotations mpt)) mpt in
  set_mpt_Annotations (delete (providerAnnotationName binding) (mpt_Annotations mpt)) mpt.

Definition project (binding : ServiceBinding) (mpt : metaPodTemplate) : metaPodTemplate :=
  let mpt := unproject binding mpt in
  if String.eqb (secretName binding) "" then mpt
  else forContainers (projectContainer binding) (projectVolume binding mpt).
