(* ===== verification/BindingSpec.v ===== *)
(** * What a projection amounts to

    The closed form of [project] and [unproject] ([projectSpec],
    [unprojectSpec]): the volume, mounts, environment variables and annotations
    that a binding asks for, added to a template from which everything that
    belongs to the binding was filtered. [unproject_refines] and
    [project_refines] show that the methods of [Binding.v] compute exactly
    that. *)

From S2P Require Import Prelude GoSort GoPath Json Types Binding.
Local Open Scope string_scope.

(** ** Closed forms *)

Section spec.
Context (binding : ServiceBinding).

Definition hasType : bool := negb (String.eqb (sbs_Type (sb_Spec binding)) "").
Definition hasProvider : bool := negb (String.eqb (sbs_Provider (sb_Spec binding)) "").

Definition typeFieldPath : string := annotationFieldPath (typeAnnotationName binding).
Definition providerFieldPath : string := annotationFieldPath (providerAnnotationName binding).

Definition desiredVolume : Volume :=
  mkVolume (volumeName binding)
    (Some (mkProjectedVolumeSource
       ([secretProjection (secretName binding)] ++
        (if hasType then [downwardAPIProjection "type" (typeAnnotationName binding)] else []) ++
        (if hasProvider
         then [downwardAPIProjection "provider" (providerAnnotationName binding)] else []))%list
       ∅)) ∅.

Definition recordedAnnotations (a : gmap string string) : gmap string string :=
  let a := <[secretAnnotationName binding := secretName binding]> a in
  let a := if hasType then <[typeAnnotationName binding := sbs_Type (sb_Spec binding)]> a else a in
  if hasProvider then <[providerAnnotationName binding := sbs_Provider (sb_Spec binding)]> a else a.

Definition erasedAnnotations (a : gmap string string) : gmap string string :=
  delete (providerAnnotationName binding)
    (delete (typeAnnotationName binding) (delete (secretAnnotationName binding) a)).

Definition desiredEnvVar (e : EnvMapping) : EnvVar :=
  if String.eqb (em_Key e) "type" && hasType then
    fieldRefEnv (em_Name e) (typeAnnotationName binding)
  else if String.eqb (em_Key e) "provider" && hasProvider then
    fieldRefEnv (em_Name e) (providerAnnotationName binding)
  else secretKeyEnv (em_Name e) (secretName binding) (em_Key e).

Definition desiredEnv : list EnvVar := map desiredEnvVar (sbs_Env (sb_Spec binding)).

Definition isRoot (e : EnvVar) : bool := String.eqb (ev_Name e) ServiceBindingRootEnv.
Definition defaultRoot : EnvVar := mkEnvVar ServiceBindingRootEnv "/bindings" None.

Definition withRoot (env : list EnvVar) : list EnvVar :=
  match List.find isRoot env with Some _ => env | None => (env ++ [defaultRoot])%list end.
Definition rootValue (env : list EnvVar) : string :=
  match List.find isRoot env with Some e => ev_Value e | None => "/bindings" end.

Definition desiredMount (env : list EnvVar) : VolumeMount :=
  mkVolumeMount (volumeName binding) true
    (Join (rootValue env) (sbs_Name (sb_Spec binding))) ∅.

(** What stays when the binding is removed; [secret] is the recorded one. *)
Definition keepVolume (v : Volume) : bool := negb (String.eqb (vol_Name v) (volumeName binding)).
Definition keepMount (m : VolumeMount) : bool := negb (String.eqb (vm_Name m) (volumeName binding)).
Definition keepEnv (secret : string) (e : EnvVar) : bool :=
  negb (removeEnv secret typeFieldPath providerFieldPath e).
Definition recordedSecret (a : gmap string string) : string :=
  default "" (a !! secretAnnotationName binding).

Definition unboundContainer (secret : string) (mc : metaContainer) : metaContainer :=
  mkMetaContainer (mct_Name mc) (List.filter (keepEnv secret) (mct_Env mc))
    (List.filter keepMount (mct_VolumeMounts mc)).

Definition boundContainer (secrets : gset string) (mc : metaContainer) : metaContainer :=
  if isContainerBindable binding mc then
    mkMetaContainer (mct_Name mc)
      (SliceStable (lessEnv secrets) (withRoot (mct_Env mc) ++ desiredEnv))
      (SliceStable lessVolumeMount (mct_VolumeMounts mc ++ [desiredMount (mct_Env mc)]))
  else mc.

Definition unprojectSpec (m : metaPodTemplate) : metaPodTemplate :=
  mkMetaPodTemplate
    (erasedAnnotations (mpt_Annotations m))
    (map (unboundContainer (recordedSecret (mpt_Annotations m))) (mpt_Containers m))
    (List.filter keepVolume (mpt_Volumes m)).

Definition bindSpec (m : metaPodTemplate) : metaPodTemplate :=
  let a := recordedAnnotations (mpt_Annotations m) in
  mkMetaPodTemplate a
    (map (boundContainer (knownProjectedSecrets (set_mpt_Annotations a m))) (mpt_Containers m))
    (SliceStable lessVolume (mpt_Volumes m ++ [desiredVolume])).

Definition projectSpec (m : metaPodTemplate) : metaPodTemplate :=
  if String.eqb (secretName binding) "" then unprojectSpec m
  else bindSpec (unprojectSpec m).
End spec.

(** ** The container loop *)

Lemma set_mpt_Containers_id m : set_mpt_Containers (mpt_Containers m) m = m.
Proof. by destruct m. Qed.

Section loop.
Context (f : metaPodTemplate -> metaContainer -> metaPodTemplate * metaContainer).
Context (g : metaContainer -> metaContainer).

Lemma forContainers_prefix m pre suf :
  (forall c mc, f (set_mpt_Containers c m) mc = (set_mpt_Containers c m, g mc)) ->
  fold_left (fun mpt i =>
      match mpt_Containers mpt !! i with
      | Some mc => let '(mpt, mc) := f mpt mc in
                   set_mpt_Containers (<[i := mc]> (mpt_Containers mpt)) mpt
      | None => mpt
      end) (seq (length pre) (length suf)) (set_mpt_Containers (map g pre ++ suf) m)
  = set_mpt_Containers (map g (pre ++ suf)) m.
Proof.
  intros Hf. revert pre. induction suf as [|mc suf IH]; intros pre.
  { by rewrite !app_nil_r. }
  cbn [length seq fold_left]. cbn [mpt_Containers set_mpt_Containers].
  rewrite list_lookup_middle by (by rewrite length_map). cbn iota beta.
  change (mkMetaPodTemplate ?a ?c ?v) with (set_mpt_Containers c m).
  rewrite Hf. cbn [mpt_Containers set_mpt_Containers].
  change (mkMetaPodTemplate ?a ?c ?v) with (set_mpt_Containers c m).
  rewrite insert_app_r_alt by (by rewrite length_map).
  rewrite length_map, Nat.sub_diag. cbn [insert list_insert].
  specialize (IH (pre ++ [mc])%list). rewrite length_app in IH. cbn [length] in IH.
  rewrite Nat.add_1_r, map_app, <-!(assoc_L (++)%list) in IH. apply IH.
Qed.

(** When [f] leaves the template alone, the loop maps over the containers. *)
Lemma forContainers_map m :
  (forall c mc, f (set_mpt_Containers c m) mc = (set_mpt_Containers c m, g mc)) ->
  forContainers f m = set_mpt_Containers (map g (mpt_Containers m)) m.
Proof.
  intros Hf. pose proof (forContainers_prefix m [] (mpt_Containers m) Hf) as H.
  cbn [map length app] in H. by rewrite set_mpt_Containers_id in H.
Qed.
End loop.

(** ** Refinement of [unproject] *)

Section refinement.
Context (binding : ServiceBinding).

Lemma unproject_closed m : unproject binding m = unprojectSpec binding m.
Proof.
  unfold unproject.
  rewrite (forContainers_map _
    (unboundContainer binding (recordedSecret binding (mpt_Annotations m)))).
  - by destruct m.
  - intros c [? ? ?]. by destruct m.
Qed.

Lemma serviceBindingRoot_closed mc :
  serviceBindingRoot mc =
  (rootValue (mct_Env mc), set_mct_Env (withRoot (mct_Env mc)) mc).
Proof.
  unfold serviceBindingRoot, rootValue, withRoot, isRoot.
  destruct (List.find _ _); by destruct mc.
Qed.

Lemma projectVolume_closed m :
  secretName binding <> "" ->
  projectVolume binding m =
  mkMetaPodTemplate (recordedAnnotations binding (mpt_Annotations m)) (mpt_Containers m)
    (SliceStable lessVolume (mpt_Volumes m ++ [desiredVolume binding])).
Proof.
  intros Hs%String.eqb_neq.
  unfold projectVolume, secretAnnotation, recordedAnnotations, desiredVolume.
  rewrite Hs. fold (hasType binding). fold (hasProvider binding).
  destruct (hasType binding), (hasProvider binding); done.
Qed.

(** The annotations that the environment variables rely on are in place. *)
Definition annotated (m : metaPodTemplate) : Prop :=
  mpt_Annotations m !! secretAnnotationName binding = Some (secretName binding) /\
  (hasType binding = true ->
   mpt_Annotations m !! typeAnnotationName binding = Some (sbs_Type (sb_Spec binding))) /\
  (hasProvider binding = true ->
   mpt_Annotations m !! providerAnnotationName binding = Some (sbs_Provider (sb_Spec binding))).

Lemma set_annotation_id k v m :
  mpt_Annotations m !! k = Some v ->
  set_mpt_Annotations (<[k := v]> (mpt_Annotations m)) m = m.
Proof. intros H. rewrite insert_id by done. by destruct m. Qed.

Lemma projectEnvMapping_closed e m mc :
  secretName binding <> "" -> annotated m ->
  projectEnvMapping binding e (m, mc) =
  (m, set_mct_Env (mct_Env mc ++ [desiredEnvVar binding e]) mc).
Proof.
  intros Hs%String.eqb_neq (Ha & Ht & Hp).
  unfold projectEnvMapping, desiredEnvVar, typeAnnotation, providerAnnotation, secretAnnotation.
  rewrite Hs. fold (hasType binding). fold (hasProvider binding).
  destruct (_ && hasType binding) eqn:Et.
  { apply andb_prop in Et as [_ ?]. by rewrite set_annotation_id by auto. }
  destruct (_ && hasProvider binding) eqn:Ep.
  { apply andb_prop in Ep as [_ ?]. by rewrite set_annotation_id by auto. }
  by rewrite set_annotation_id.
Qed.

Lemma projectEnv_fold_closed es m mc :
  secretName binding <> "" -> annotated m ->
  fold_left (fun st e => projectEnvMapping binding e st) es (m, mc) =
  (m, set_mct_Env (mct_Env mc ++ map (desiredEnvVar binding) es) mc).
Proof.
  intros Hs Ha. revert mc. induction es as [|e es IH]; intros mc.
  { cbn. rewrite app_nil_r. by destruct mc. }
  cbn [fold_left map]. rewrite projectEnvMapping_closed, IH by done.
  cbn. by rewrite <-(assoc_L (++)%list).
Qed.

Lemma projectContainer_closed m mc :
  secretName binding <> "" -> annotated m ->
  projectContainer binding m mc =
  (m, boundContainer binding (knownProjectedSecrets m) mc).
Proof.
  intros Hs Ha. unfold projectContainer, boundContainer, projectEnv, projectVolumeMount.
  destruct (isContainerBindable binding mc); [|done]. cbn [negb].
  rewrite serviceBindingRoot_closed, projectEnv_fold_closed by done. by destruct mc.
Qed.
End refinement.

(** The names of the annotations of a binding differ from each other, and from
    those of a binding with another UID. *)
Section names.
Implicit Types b : ServiceBinding.

Lemma secretAnnotationName_inj b1 b2 :
  secretAnnotationName b1 = secretAnnotationName b2 -> UID b1 = UID b2.
Proof. apply (inj (String.append SecretAnnotationPrefix)). Qed.
Lemma typeAnnotationName_inj b1 b2 :
  typeAnnotationName b1 = typeAnnotationName b2 -> UID b1 = UID b2.
Proof. apply (inj (String.append TypeAnnotationPrefix)). Qed.
Lemma providerAnnotationName_inj b1 b2 :
  providerAnnotationName b1 = providerAnnotationName b2 -> UID b1 = UID b2.
Proof. apply (inj (String.append ProviderAnnotationPrefix)). Qed.
Lemma volumeName_inj b1 b2 : volumeName b1 = volumeName b2 -> UID b1 = UID b2.
Proof. apply (inj (String.append VolumePrefix)). Qed.

Lemma secret_type_ne b1 b2 : secretAnnotationName b1 <> typeAnnotationName b2.
Proof. done. Qed.
Lemma secret_provider_ne b1 b2 : secretAnnotationName b1 <> providerAnnotationName b2.
Proof. done. Qed.
Lemma type_provider_ne b1 b2 : typeAnnotationName b1 <> providerAnnotationName b2.
Proof. done. Qed.

Lemma annotationFieldPath_inj k1 k2 :
  annotationFieldPath k1 = annotationFieldPath k2 -> k1 = k2.
Proof.
  intros H%(inj (String.append "metadata.annotations['")).
  by apply string_app_inj_r in H.
Qed.

Lemma HasPrefix_secretAnnotation b :
  HasPrefix (secretAnnotationName b) SecretAnnotationPrefix = true.
Proof. apply HasPrefix_app. Qed.
Lemma HasPrefix_volumeName b : HasPrefix (volumeName b) VolumePrefix = true.
Proof. apply HasPrefix_app. Qed.
End names.

Create HintDb binding.
#[export] Hint Resolve secret_type_ne secret_provider_ne type_provider_ne
  not_eq_sym HasPrefix_secretAnnotation HasPrefix_volumeName : binding.

Lemma recordedAnnotations_annotated b a c v :
  annotated b (mkMetaPodTemplate (recordedAnnotations b a) c v).
Proof.
  unfold annotated, recordedAnnotations. cbn.
  destruct (hasType b), (hasProvider b); split_and!; try intros ?; try done;
    by rewrite ?lookup_insert_ne, ?lookup_insert_eq by auto with binding.
Qed.

Lemma project_closed b m : project b m = projectSpec b m.
Proof.
  unfold project, projectSpec. rewrite unproject_closed.
  destruct (String.eqb_spec (secretName b) "") as [|Hs]; [done|].
  rewrite projectVolume_closed by done.
  set (a := recordedAnnotations b (mpt_Annotations (unprojectSpec b m))).
  rewrite (forContainers_map _
    (boundContainer b (knownProjectedSecrets (set_mpt_Annotations a (unprojectSpec b m))))).
  - done.
  - intros c mc. rewrite projectContainer_closed;
      [done|done|apply recordedAnnotations_annotated].
Qed.
