(* ===== verification/BindingLemmas.v ===== *)
(** * Lemmas on the parts of a projection

    What filtering and adding do to annotations, volumes, mounts and
    environment variables, one binding at a time and for two bindings with
    different UIDs. The properties of [BindingFacts.v] are put together from
    these. *)

From S2P Require Import Prelude GoSort GoPath Json Types Binding BindingSpec.
Local Open Scope string_scope.

(** ** Annotations *)

Section annotations.
Context (b : ServiceBinding).
Implicit Types a : gmap string string.

(** The annotation keys of a binding. *)
Definition ownKey (k : string) : Prop :=
  k = secretAnnotationName b \/ k = typeAnnotationName b \/ k = providerAnnotationName b.

#[export] Instance ownKey_dec k : Decision (ownKey k).
Proof. unfold ownKey. apply _. Defined.

Lemma lookup_erased a k :
  erasedAnnotations b a !! k = if decide (ownKey k) then None else a !! k.
Proof.
  unfold erasedAnnotations. rewrite !lookup_delete. unfold ownKey.
  repeat case_decide; naive_solver.
Qed.

Lemma lookup_recorded_secret a :
  recordedAnnotations b a !! secretAnnotationName b = Some (secretName b).
Proof.
  unfold recordedAnnotations.
  destruct (hasType b), (hasProvider b);
    by rewrite ?lookup_insert_ne, lookup_insert_eq by auto with binding.
Qed.

Lemma lookup_recorded_ne a k : ~ ownKey k -> recordedAnnotations b a !! k = a !! k.
Proof.
  unfold recordedAnnotations, ownKey. intros H.
  destruct (hasType b), (hasProvider b); by rewrite ?lookup_insert_ne by naive_solver.
Qed.

(** On the keys of the binding the result does not depend on [a], once they
    are erased. *)
Lemma lookup_recorded_own a1 a2 k :
  ownKey k ->
  recordedAnnotations b (erasedAnnotations b a1) !! k =
  recordedAnnotations b (erasedAnnotations b a2) !! k.
Proof.
  intros Hk. unfold recordedAnnotations.
  assert (forall a, erasedAnnotations b a !! k = None) as He.
  { intros a. rewrite lookup_erased. by case_decide. }
  destruct (hasType b), (hasProvider b); rewrite !lookup_insert, !He; done.
Qed.

Lemma erased_recorded a : erasedAnnotations b (recordedAnnotations b a) = erasedAnnotations b a.
Proof.
  apply map_eq. intros k. rewrite !lookup_erased. case_decide; [done|].
  by apply lookup_recorded_ne.
Qed.

Lemma erased_idemp a : erasedAnnotations b (erasedAnnotations b a) = erasedAnnotations b a.
Proof. apply map_eq. intros k. rewrite !lookup_erased. by case_decide. Qed.

Lemma recordedSecret_recorded a : recordedSecret b (recordedAnnotations b a) = secretName b.
Proof. unfold recordedSecret. by rewrite lookup_recorded_secret. Qed.

Lemma recordedSecret_erased a : recordedSecret b (erasedAnnotations b a) = "".
Proof.
  unfold recordedSecret. rewrite lookup_erased, decide_True; [done|]. by left.
Qed.
End annotations.

Lemma ownKey_disjoint b1 b2 k : UID b1 <> UID b2 -> ownKey b1 k -> ~ ownKey b2 k.
Proof.
  intros Hu [-> | [-> | ->]] [H | [H | H]]; try done; apply Hu.
  - by apply secretAnnotationName_inj.
  - by apply typeAnnotationName_inj.
  - by apply providerAnnotationName_inj.
Qed.

(** Recording for two bindings commutes. *)
Lemma recorded_comm b1 b2 a :
  UID b1 <> UID b2 ->
  recordedAnnotations b1 (erasedAnnotations b1 (recordedAnnotations b2 (erasedAnnotations b2 a))) =
  recordedAnnotations b2 (erasedAnnotations b2 (recordedAnnotations b1 (erasedAnnotations b1 a))).
Proof.
  intros Hu. apply map_eq. intros k.
  destruct (decide (ownKey b1 k)) as [H1|H1], (decide (ownKey b2 k)) as [H2|H2].
  - by destruct (ownKey_disjoint b1 b2 k).
  - rewrite (lookup_recorded_ne b2), (lookup_erased b2), decide_False by done.
    by apply lookup_recorded_own.
  - rewrite (lookup_recorded_ne b1), (lookup_erased b1), decide_False by done.
    by apply lookup_recorded_own.
  - rewrite (lookup_recorded_ne b1), (lookup_erased b1), decide_False by done.
    rewrite (lookup_recorded_ne b2), (lookup_erased b2), decide_False by done.
    rewrite (lookup_recorded_ne b2), (lookup_erased b2), decide_False by done.
    by rewrite (lookup_recorded_ne b1), (lookup_erased b1), decide_False by done.
Qed.

Lemma recordedSecret_other b1 b2 a :
  UID b1 <> UID b2 ->
  recordedSecret b1 (recordedAnnotations b2 (erasedAnnotations b2 a)) = recordedSecret b1 a.
Proof.
  intros Hu. unfold recordedSecret.
  assert (~ ownKey b2 (secretAnnotationName b1)) by (eapply ownKey_disjoint; [done|by left]).
  by rewrite lookup_recorded_ne, lookup_erased, decide_False by done.
Qed.

(** ** Known secrets *)

Lemma elem_of_knownProjectedSecrets m s :
  s ∈ knownProjectedSecrets m <->
  exists k, mpt_Annotations m !! k = Some s /\ HasPrefix k SecretAnnotationPrefix = true.
Proof.
  unfold knownProjectedSecrets.
  apply (map_fold_weak_ind (fun (r : gset string) a => s ∈ r <->
    exists k, a !! k = Some s /\ HasPrefix k SecretAnnotationPrefix = true)).
  - split; [set_solver|]. intros (k & H & _). by rewrite lookup_empty in H.
  - intros k v a r Hk IH. destruct (HasPrefix k SecretAnnotationPrefix) eqn:Hp.
    + rewrite elem_of_union, elem_of_singleton, IH. split.
      * intros [->|(k' & Hk' & ?)]; [exists k; by rewrite lookup_insert_eq|].
        exists k'. rewrite lookup_insert_ne by congruence. done.
      * intros (k' & Hk' & ?). destruct (decide (k = k')) as [<-|].
        { rewrite lookup_insert_eq in Hk'. left. congruence. }
        rewrite lookup_insert_ne in Hk' by done. right. eauto.
    + rewrite IH. split.
      * intros (k' & Hk' & ?). exists k'. by rewrite lookup_insert_ne by congruence.
      * intros (k' & Hk' & ?). exists k'. by rewrite lookup_insert_ne in Hk' by congruence.
Qed.

(** ** Environment variables *)

(** The variable takes its value from a key of the secret. *)
Definition usesSecret (secret : string) (e : EnvVar) : bool :=
  match ev_ValueFrom e with
  | Some src => match evs_SecretKeyRef src with
                | Some ref => String.eqb (sks_Name ref) secret
                | None => false
                end
  | None => false
  end.

(** The variable exposes one of the two annotations through the downward API. *)
Definition usesField (tpath ppath : string) (e : EnvVar) : bool :=
  match ev_ValueFrom e with
  | Some src => match evs_FieldRef src with
                | Some ref => String.eqb (ofs_FieldPath ref) tpath ||
                              String.eqb (ofs_FieldPath ref) ppath
                | None => false
                end
  | None => false
  end.

Lemma removeEnv_alt s t p e : removeEnv s t p e = usesSecret s e || usesField t p e.
Proof. unfold removeEnv, usesSecret, usesField. by destruct (ev_ValueFrom e). Qed.

Lemma keepEnv_true b s e :
  keepEnv b s e = true <->
  usesSecret s e = false /\ usesField (typeFieldPath b) (providerFieldPath b) e = false.
Proof. unfold keepEnv. by rewrite removeEnv_alt, negb_true_iff, orb_false_iff. Qed.

Lemma keepEnv_literal b s e : ev_ValueFrom e = None -> keepEnv b s e = true.
Proof. intros H. unfold keepEnv, removeEnv. by rewrite H. Qed.

Lemma isProjectedEnv_literal S e : ev_ValueFrom e = None -> isProjectedEnv e S = false.
Proof. intros H. unfold isProjectedEnv. by rewrite H. Qed.

Lemma desiredEnv_projected b S e :
  secretName b ∈ S -> e ∈ desiredEnv b -> isProjectedEnv e S = true.
Proof.
  intros HS. unfold desiredEnv. rewrite list_elem_of_In, in_map_iff.
  intros (em & <- & _). unfold desiredEnvVar.
  destruct (_ && hasType b); [|destruct (_ && hasProvider b)]; cbn.
  - unfold isProjectedEnv. cbn. unfold annotationFieldPath, typeAnnotationName, TypeAnnotationPrefix.
    apply HasPrefix_true. exists ("/type-" +:+ (UID b +:+ "']")).
    by rewrite !string_app_assoc.
  - unfold isProjectedEnv. cbn. unfold annotationFieldPath, providerAnnotationName, ProviderAnnotationPrefix.
    apply HasPrefix_true. exists ("/provider-" +:+ (UID b +:+ "']")).
    by rewrite !string_app_assoc.
  - unfold isProjectedEnv. cbn. by rewrite bool_decide_eq_true_2.
Qed.

Lemma desiredEnv_removed b e : e ∈ desiredEnv b -> keepEnv b (secretName b) e = false.
Proof.
  unfold desiredEnv. rewrite list_elem_of_In, in_map_iff. intros (em & <- & _).
  unfold keepEnv. apply negb_false_iff. unfold desiredEnvVar.
  destruct (_ && hasType b); [|destruct (_ && hasProvider b)]; unfold removeEnv; cbn.
  - by rewrite String.eqb_refl.
  - by rewrite String.eqb_refl, orb_true_r.
  - by rewrite String.eqb_refl.
Qed.

(** They do not expose the annotations of another binding. *)
Lemma desiredEnv_field b1 b2 e :
  UID b1 <> UID b2 -> e ∈ desiredEnv b2 -> usesField (typeFieldPath b1) (providerFieldPath b1) e = false.
Proof.
  intros Hu. unfold desiredEnv. rewrite list_elem_of_In, in_map_iff. intros (em & <- & _). unfold desiredEnvVar.
  destruct (_ && hasType b2); [|destruct (_ && hasProvider b2)]; cbn; [| |done];
    apply orb_false_iff; split; apply String.eqb_neq; intros H%annotationFieldPath_inj; try done.
  - apply Hu. symmetry. by apply typeAnnotationName_inj.
  - apply Hu. symmetry. by apply providerAnnotationName_inj.
Qed.

(** The variable of the mapping shows the type or the provider, not a key of the secret. *)
Definition fromAnnotation b (em : EnvMapping) : bool :=
  (String.eqb (em_Key em) "type" && hasType b) || (String.eqb (em_Key em) "provider" && hasProvider b).

Lemma desiredEnvVar_secret b em s :
  usesSecret s (desiredEnvVar b em) = negb (fromAnnotation b em) && String.eqb (secretName b) s.
Proof.
  unfold desiredEnvVar, fromAnnotation.
  by destruct (_ && hasType b); [|destruct (_ && hasProvider b)].
Qed.

(** Another binding keeps them, unless it recorded the same secret. *)
Lemma desiredEnv_kept b1 b2 s e :
  UID b1 <> UID b2 -> s <> secretName b2 -> e ∈ desiredEnv b2 -> keepEnv b1 s e = true.
Proof.
  intros Hu Hs He. apply keepEnv_true. split; [|by apply (desiredEnv_field b1 b2)].
  apply list_elem_of_In, in_map_iff in He as (em & <- & _). rewrite desiredEnvVar_secret.
  apply andb_false_iff. right. apply String.eqb_neq. congruence.
Qed.

Lemma desiredEnv_names b e :
  e ∈ desiredEnv b -> exists em, em ∈ sbs_Env (sb_Spec b) /\ ev_Name e = em_Name em.
Proof.
  unfold desiredEnv. rewrite list_elem_of_In, in_map_iff. intros (em & <- & Hin).
  exists em. split; [by rewrite list_elem_of_In|]. unfold desiredEnvVar.
  by destruct (_ && hasType b); [|destruct (_ && hasProvider b)].
Qed.

(** ** The root directory *)

Section root.
Implicit Types env : list EnvVar.

(** [SERVICE_BINDING_ROOT] is given as a literal. *)
Definition literalRoot env : Prop :=
  forall e, e ∈ env -> isRoot e = true -> ev_ValueFrom e = None.

Lemma find_filter {A} (p q : A -> bool) l :
  (forall x, x ∈ l -> p x = true -> q x = true) ->
  List.find p (List.filter q l) = List.find p l.
Proof.
  induction l as [|x l IH]; intros H; [done|]. cbn.
  destruct (q x) eqn:Eq; cbn.
  - destruct (p x); [done|]. apply IH. intros y Hy. apply H. by right.
  - destruct (p x) eqn:Ep; [rewrite (H x) in Eq by (done || left); done|].
    apply IH. intros y Hy. apply H. by right.
Qed.

Lemma find_app {A} (p : A -> bool) l k :
  List.find p (l ++ k)%list =
  match List.find p l with Some x => Some x | None => List.find p k end.
Proof. induction l as [|x l IH]; [done|]. cbn. by destruct (p x). Qed.

Lemma find_elem {A} (p : A -> bool) l x : List.find p l = Some x -> x ∈ l /\ p x = true.
Proof. intros H. apply List.find_some in H. by rewrite list_elem_of_In. Qed.

(** The first root of [env] is a literal. *)
Definition hasLiteralRoot env : Prop :=
  exists e, List.find isRoot env = Some e /\ ev_ValueFrom e = None.

Lemma withRoot_has env : literalRoot env -> hasLiteralRoot (withRoot env).
Proof.
  intros H. unfold hasLiteralRoot, withRoot. destruct (List.find isRoot env) as [e|] eqn:E.
  - exists e. apply find_elem in E as He. naive_solver.
  - exists defaultRoot. by rewrite find_app, E.
Qed.

Lemma withRoot_id env e : List.find isRoot env = Some e -> withRoot env = env.
Proof. intros H. unfold withRoot. by rewrite H. Qed.

Lemma rootValue_withRoot env : rootValue (withRoot env) = rootValue env.
Proof.
  unfold rootValue, withRoot. destruct (List.find isRoot env) eqn:E; [by rewrite E|].
  by rewrite find_app, E.
Qed.

Lemma elem_of_withRoot env e : e ∈ withRoot env -> e ∈ env \/ e = defaultRoot.
Proof. unfold withRoot. destruct (List.find _ _); set_solver. Qed.

Lemma withRoot_literal env : literalRoot env -> literalRoot (withRoot env).
Proof. intros H e [?| ->]%elem_of_withRoot ?; [auto|done]. Qed.

Lemma withRoot_filter (p : EnvVar -> bool) env :
  (forall e, ev_ValueFrom e = None -> p e = true) -> literalRoot env ->
  List.filter p (withRoot env) = withRoot (List.filter p env).
Proof.
  intros Hp Hl. unfold withRoot. rewrite find_filter by (intros; apply Hp; auto).
  destruct (List.find isRoot env); [done|].
  rewrite List.filter_app. cbn. by rewrite (Hp defaultRoot).
Qed.

(** Sorting keeps the root that the container sees: literals come first. *)
Lemma find_root_sorted S env :
  literalRoot env -> List.find isRoot (SliceStable (lessEnv S) env) = List.find isRoot env.
Proof.
  intros Hl. unfold lessEnv. rewrite SliceStable_projected, find_app.
  rewrite find_filter; [|intros e He Hr; by rewrite isProjectedEnv_literal by auto].
  destruct (List.find isRoot env) as [e|] eqn:E; [done|].
  destruct (List.find isRoot (SliceStable _ _)) as [e|] eqn:E'; [|done].
  apply find_elem in E' as [He Hr].
  rewrite elem_of_SliceStable, elem_of_filter_bool in He by apply _. destruct He as [He _].
  eapply List.find_none in E; [|by apply list_elem_of_In]. congruence.
Qed.

(** Projected variables that are appended do not hide it. *)
Lemma find_root_sorted_app S env k :
  literalRoot env -> hasLiteralRoot env ->
  (forall e, e ∈ k -> isProjectedEnv e S = true) ->
  List.find isRoot (SliceStable (lessEnv S) (env ++ k)) = List.find isRoot env.
Proof.
  intros Hl (r & Hr & _) Hk. unfold lessEnv.
  rewrite SliceStable_projected, find_app, List.filter_app, find_app.
  rewrite find_filter; [by rewrite Hr|].
  intros e He Hre. by rewrite isProjectedEnv_literal by auto.
Qed.
End root.
