(* ===== verification/BindingFacts.v ===== *)
(** * Properties of the projector

    Idempotence, removal, independence of bindings, the contents of the
    projected template, and what the secret-name test in [unprojectEnv] does to
    variables that do not belong to the binding. *)

From S2P Require Import Prelude GoSort GoPath Json Types Binding BindingSpec BindingLemmas.
Local Open Scope string_scope.

(** ** Conditions on a template *)

Section conditions.
Context (b : ServiceBinding) (m : metaPodTemplate).

(** No variable that is outside the control of the binding reads its secret:
    either the binding already recorded this secret, or no variable of the
    template uses it. *)
Definition exclusiveSecret : Prop :=
  recordedSecret b (mpt_Annotations m) = secretName b \/
  forall mc e, mc ∈ mpt_Containers m -> e ∈ mct_Env mc -> usesSecret (secretName b) e = false.

(** [SERVICE_BINDING_ROOT] is a literal wherever it is set. *)
Definition literalRoots : Prop :=
  forall mc, mc ∈ mpt_Containers m -> literalRoot (mct_Env mc).
End conditions.

Lemma map_map_ext {A B C D} (f : B -> C) (g : A -> B) (f' : D -> C) (g' : A -> D) (l : list A) :
  (forall x, x ∈ l -> f (g x) = f' (g' x)) -> map f (map g l) = map f' (map g' l).
Proof.
  intros H. rewrite !map_map. apply map_ext_in. intros x Hx. by apply H, list_elem_of_In.
Qed.

(** ** Filters on the parts *)

Section parts.
Context (b : ServiceBinding).

Lemma keepVolume_desired : List.filter (keepVolume b) [desiredVolume b] = [].
Proof. cbn. unfold keepVolume. cbn. by rewrite String.eqb_refl. Qed.

Lemma keepMount_desired env : List.filter (keepMount b) [desiredMount b env] = [].
Proof. cbn. unfold keepMount. cbn. by rewrite String.eqb_refl. Qed.

Lemma keepEnv_desired : List.filter (keepEnv b (secretName b)) (desiredEnv b) = [].
Proof. apply filter_none. intros e. apply desiredEnv_removed. Qed.

(** Filtering again, with another secret, removes nothing more. *)
Lemma keepEnv_again s s' env :
  s = s' \/ (forall e, e ∈ env -> usesSecret s' e = false) ->
  List.filter (keepEnv b s') (List.filter (keepEnv b s) env) = List.filter (keepEnv b s) env.
Proof.
  intros [->|H]; [apply filter_idemp|]. apply filter_all.
  intros e [He [_ Hk]%keepEnv_true]%elem_of_filter_bool. apply keepEnv_true. auto.
Qed.

Lemma literalRoot_filter p env : literalRoot env -> literalRoot (List.filter p env).
Proof. intros H e [He _]%elem_of_filter_bool ?. auto. Qed.

Lemma isContainerBindable_name mc mc' :
  mct_Name mc = mct_Name mc' -> isContainerBindable b mc = isContainerBindable b mc'.
Proof. intros H. unfold isContainerBindable. by rewrite H. Qed.

Lemma isContainerBindable_unbound b' s mc :
  isContainerBindable b (unboundContainer b' s mc) = isContainerBindable b mc.
Proof. done. Qed.
End parts.

(** ** Projecting twice *)

(** What is left of a bound container once the binding is removed: order and
    root stay. *)
Lemma unbound_bound b S s mc :
  (s = secretName b \/ forall e, e ∈ mct_Env mc -> usesSecret (secretName b) e = false) ->
  unboundContainer b (secretName b) (boundContainer b S (unboundContainer b s mc)) =
  let mc0 := unboundContainer b s mc in
  if isContainerBindable b mc then
    mkMetaContainer (mct_Name mc)
      (SliceStable (lessEnv S) (List.filter (keepEnv b (secretName b)) (withRoot (mct_Env mc0))))
      (SliceStable lessVolumeMount (mct_VolumeMounts mc0))
  else mc0.
Proof.
  intros Hs. unfold boundContainer. cbn zeta.
  rewrite isContainerBindable_unbound.
  unfold unboundContainer. cbn. destruct (isContainerBindable b mc); cbn; f_equal.
  - rewrite SliceStable_filter, List.filter_app, keepEnv_desired, app_nil_r by apply _. done.
  - rewrite SliceStable_filter, List.filter_app, keepMount_desired, app_nil_r by apply _.
    by rewrite filter_idemp.
  - by apply keepEnv_again.
  - apply filter_idemp.
Qed.

Lemma bound_idemp b S s mc :
  (s = secretName b \/ forall e, e ∈ mct_Env mc -> usesSecret (secretName b) e = false) ->
  literalRoot (mct_Env mc) ->
  boundContainer b S (unboundContainer b (secretName b)
    (boundContainer b S (unboundContainer b s mc))) =
  boundContainer b S (unboundContainer b s mc).
Proof.
  intros Hs Hl. rewrite unbound_bound by done. cbn zeta.
  unfold boundContainer.
  rewrite isContainerBindable_unbound.
  destruct (isContainerBindable b mc) eqn:Hb.
  2: { by rewrite (isContainerBindable_name b _ mc), Hb by done. }
  rewrite (isContainerBindable_name b _ mc), Hb by done.
  unfold unboundContainer. cbn [mct_Name mct_Env mct_VolumeMounts].
  set (E := List.filter (keepEnv b s) (mct_Env mc)).
  assert (literalRoot E) as HlE by by apply literalRoot_filter.
  assert (List.filter (keepEnv b (secretName b)) (withRoot E) = withRoot E) as ->.
  { rewrite withRoot_filter by (done || apply keepEnv_literal).
    unfold E. by rewrite keepEnv_again. }
  assert (List.find isRoot (SliceStable (lessEnv S) (withRoot E)) =
          List.find isRoot (withRoot E)) as Hfind by by apply find_root_sorted, withRoot_literal.
  destruct (withRoot_has E HlE) as (r & Hr & _). f_equal.
  - rewrite (withRoot_id (SliceStable _ _) r) by congruence.
    by rewrite SliceStable_app_l by apply _.
  - rewrite SliceStable_app_l by apply _. do 3 f_equal. unfold desiredMount. do 2 f_equal.
    rewrite <-(rootValue_withRoot E). unfold rootValue. by rewrite Hfind.
Qed.

Lemma project_idemp b m :
  exclusiveSecret b m -> literalRoots m -> project b (project b m) = project b m.
Proof.
  intros He Hl. rewrite !project_closed. unfold projectSpec.
  destruct (String.eqb_spec (secretName b) "") as [Hs|Hs].
  - unfold unprojectSpec. cbn. rewrite erased_idemp, recordedSecret_erased, filter_idemp. f_equal.
    rewrite map_map. apply map_ext_in. intros mc Hmc%list_elem_of_In.
    unfold unboundContainer. cbn. rewrite filter_idemp. f_equal. rewrite <-Hs.
    apply keepEnv_again. destruct He as [->|He]; [by left|right; eauto].
  - unfold unprojectSpec, bindSpec. cbn.
    rewrite erased_recorded, erased_idemp, recordedSecret_recorded.
    rewrite SliceStable_filter, List.filter_app, keepVolume_desired, app_nil_r by apply _.
    rewrite filter_idemp, SliceStable_app_l by apply _. f_equal.
    rewrite !map_map. apply map_ext_in. intros mc Hmc%list_elem_of_In.
    apply bound_idemp; [|by apply Hl].
    destruct He as [He|He]; [by left|right; eauto].
Qed.

(** Idempotence. Projecting a binding into a template that already carries
    its projection changes nothing: the controller and the admission webhook
    may both project, any number of times. It holds when no variable outside
    the control of the binding reads its secret and [SERVICE_BINDING_ROOT] is
    set to literals; [project_twice_drops_user_env] shows that the first
    condition cannot be dropped. *)
Lemma project_idempotent b m :
  exclusiveSecret b m -> literalRoots m -> project b (project b m) = project b m.
Proof. apply project_idemp. Qed.

(** C1 (refinement). The methods, which change a template step by step and
    record annotations on the way, compute the closed forms of [BindingSpec.v]:
    [unproject] filters out what belongs to the binding; [project] adds, to what
    is left, the volume, the mounts and the variables that the binding asks for,
    and sorts; without a secret it only removes. *)
Theorem project_refines b m :
  unproject b m = unprojectSpec b m /\ project b m = projectSpec b m.
Proof. split; [apply unproject_closed|apply project_closed]. Qed.

(** ** Removing a projection *)

(** What a bound container looks like once the binding is gone: everything else
    is there, in order, with the root variable. *)
Definition settledContainer (b : ServiceBinding) (S : gset string) (mc : metaContainer) :
    metaContainer :=
  if isContainerBindable b mc then
    mkMetaContainer (mct_Name mc) (SliceStable (lessEnv S) (withRoot (mct_Env mc)))
      (SliceStable lessVolumeMount (mct_VolumeMounts mc))
  else mc.

Definition settled (b : ServiceBinding) (m : metaPodTemplate) : metaPodTemplate :=
  let S := knownProjectedSecrets
             (set_mpt_Annotations (recordedAnnotations b (mpt_Annotations m)) m) in
  mkMetaPodTemplate (mpt_Annotations m)
    (map (settledContainer b S) (mpt_Containers m)) (SliceStable lessVolume (mpt_Volumes m)).

Lemma keepEnv_withRoot b s env :
  List.filter (keepEnv b s) env = env ->
  List.filter (keepEnv b s) (withRoot env) = withRoot env.
Proof.
  intros H. unfold withRoot. destruct (List.find isRoot env); [done|].
  rewrite List.filter_app, H. cbn [List.filter]. by rewrite keepEnv_literal.
Qed.

Lemma unproject_project_settled b m :
  secretName b <> "" -> exclusiveSecret b m ->
  unproject b (project b m) = settled b (unproject b m).
Proof.
  intros Hs He. rewrite project_closed, !unproject_closed.
  unfold projectSpec. destruct (String.eqb_spec (secretName b) ""); [done|].
  unfold unprojectSpec, bindSpec, settled. cbn.
  rewrite erased_recorded, erased_idemp, recordedSecret_recorded.
  rewrite SliceStable_filter, List.filter_app, keepVolume_desired, app_nil_r by apply _.
  rewrite filter_idemp. f_equal. rewrite !map_map. apply map_ext_in.
  intros mc Hmc%list_elem_of_In.
  assert (recordedSecret b (mpt_Annotations m) = secretName b \/
    forall e, e ∈ mct_Env mc -> usesSecret (secretName b) e = false) as He'.
  { destruct He as [He|He]; [by left|right; eauto]. }
  rewrite unbound_bound by done. unfold settledContainer.
  rewrite isContainerBindable_unbound.
  destruct (isContainerBindable b mc); [|done]. cbn. f_equal. f_equal.
  apply keepEnv_withRoot. by apply keepEnv_again.
Qed.

(** A template in which a projection moves nothing that is already there. *)
Definition orderedFor (b : ServiceBinding) (m : metaPodTemplate) : Prop := settled b m = m.

(** Exact removal. In a template without traces of the binding, in which
    the projection moves nothing and adds no root, project and unproject are
    exact inverses. *)
Lemma unproject_restores b m :
  secretName b <> "" -> exclusiveSecret b m ->
  unproject b m = m -> orderedFor b m -> unproject b (project b m) = m.
Proof.
  intros Hs He Hu Ho. rewrite unproject_project_settled by done. by rewrite Hu.
Qed.

(** ** Two bindings *)

Section two.
Context (b1 b2 : ServiceBinding).

(** The container with both bindings, [b2] first; [S] is the final set of
    known secrets, [r1] and [r2] the secrets recorded before. *)
Definition bothContainer (S : gset string) (r1 r2 : string) (mc : metaContainer) : metaContainer :=
  let env := List.filter (keepEnv b1 r1) (List.filter (keepEnv b2 r2) (mct_Env mc)) in
  let mounts := List.filter (keepMount b1) (List.filter (keepMount b2) (mct_VolumeMounts mc)) in
  let bind1 := isContainerBindable b1 mc in
  let bind2 := isContainerBindable b2 mc in
  if bind1 || bind2 then
    mkMetaContainer (mct_Name mc)
      (SliceStable (lessEnv S) (withRoot env ++
         ((if bind2 then desiredEnv b2 else []) ++ (if bind1 then desiredEnv b1 else []))))
      (SliceStable lessVolumeMount (mounts ++
         ((if bind2 then [desiredMount b2 env] else []) ++
          (if bind1 then [desiredMount b1 env] else []))))
  else mkMetaContainer (mct_Name mc) env mounts.

Lemma isProjectedEnv_agree S S' e :
  (forall s, usesSecret s e = true -> (s ∈ S <-> s ∈ S')) ->
  isProjectedEnv e S = isProjectedEnv e S'.
Proof.
  unfold isProjectedEnv, usesSecret. intros H. destruct (ev_ValueFrom e) as [src|]; [|done].
  f_equal. destruct (evs_SecretKeyRef src) as [ref|]; [|done].
  apply bool_decide_ext, H. apply String.eqb_refl.
Qed.

Hypothesis Huid : UID b1 <> UID b2.

Lemma keepMount_other env : keepMount b1 (desiredMount b2 env) = true.
Proof.
  apply negb_true_iff, String.eqb_neq. cbn. intros H%volumeName_inj. congruence.
Qed.

Lemma keepVolume_other : keepVolume b1 (desiredVolume b2) = true.
Proof.
  apply negb_true_iff, String.eqb_neq. cbn. intros H%volumeName_inj. congruence.
Qed.

Lemma rootValue_filter p env :
  (forall e, ev_ValueFrom e = None -> p e = true) -> literalRoot env ->
  rootValue (List.filter p env) = rootValue env.
Proof. intros Hp Hl. unfold rootValue. rewrite find_filter; [done|]. intros. apply Hp. auto. Qed.

Lemma desiredMount_root b env env' :
  rootValue env = rootValue env' -> desiredMount b env = desiredMount b env'.
Proof. intros H. unfold desiredMount. by rewrite H. Qed.

(** The environment after the first binding, seen by the second. *)
Lemma first_env S S' r1 r2 env :
  secretName b2 ∈ S -> secretName b2 ∈ S' -> r1 <> secretName b2 -> literalRoot env ->
  (forall e, e ∈ List.filter (keepEnv b1 r1) (List.filter (keepEnv b2 r2) env) ->
     isProjectedEnv e S' = isProjectedEnv e S) ->
  List.filter (keepEnv b1 r1)
    (SliceStable (lessEnv S') (withRoot (List.filter (keepEnv b2 r2) env) ++ desiredEnv b2)) =
  SliceStable (lessEnv S)
    (withRoot (List.filter (keepEnv b1 r1) (List.filter (keepEnv b2 r2) env)) ++ desiredEnv b2).
Proof.
  intros H2 H2' Hr Hl Hag.
  rewrite SliceStable_filter, List.filter_app by apply _.
  rewrite (filter_all _ (desiredEnv b2)) by (intros; by eapply desiredEnv_kept).
  rewrite withRoot_filter by (apply keepEnv_literal || by apply literalRoot_filter).
  apply SliceStable_ext. intros x y Hx Hy. unfold lessEnv, projectedLess.
  assert (forall e, e ∈ (withRoot (List.filter (keepEnv b1 r1)
      (List.filter (keepEnv b2 r2) env)) ++ desiredEnv b2)%list ->
    isProjectedEnv e S' = isProjectedEnv e S) as Hall.
  { intros e [[He| ->]%elem_of_withRoot|He]%elem_of_app; [by apply Hag|done|].
    by rewrite !(desiredEnv_projected b2). }
  by rewrite !Hall.
Qed.

Lemma both_steps S S' r1 r2 mc :
  secretName b2 ∈ S -> secretName b2 ∈ S' -> r1 <> secretName b2 ->
  literalRoot (mct_Env mc) ->
  (forall e, e ∈ List.filter (keepEnv b1 r1) (List.filter (keepEnv b2 r2) (mct_Env mc)) ->
     isProjectedEnv e S' = isProjectedEnv e S) ->
  boundContainer b1 S (unboundContainer b1 r1
    (boundContainer b2 S' (unboundContainer b2 r2 mc))) = bothContainer S r1 r2 mc.
Proof.
  intros H2 H2' Hr Hl Hag. unfold bothContainer, boundContainer at 2.
  rewrite isContainerBindable_unbound.
  set (E := List.filter (keepEnv b1 r1) (List.filter (keepEnv b2 r2) (mct_Env mc))) in *.
  assert (literalRoot E) as HlE by by do 2 apply literalRoot_filter.
  assert (rootValue (List.filter (keepEnv b2 r2) (mct_Env mc)) = rootValue E) as HrE.
  { unfold E. by rewrite (rootValue_filter (keepEnv b1 r1))
      by auto using keepEnv_literal, literalRoot_filter. }
  destruct (isContainerBindable b2 mc) eqn:Hb2; cbn [orb].
  - unfold unboundContainer. cbn [mct_Name mct_Env mct_VolumeMounts].
    rewrite (first_env S) by done. fold E.
    rewrite SliceStable_filter, List.filter_app by apply _.
    rewrite (filter_all _ [_]) by (intros ? ->%list_elem_of_singleton; apply keepMount_other).
    rewrite (desiredMount_root b2 _ E HrE).
    unfold boundContainer. rewrite (isContainerBindable_name b1 _ mc) by done.
    destruct (isContainerBindable b1 mc); cbn; [|by rewrite app_nil_r].
    destruct (withRoot_has E HlE) as (r & Hroot & Hlit).
    assert (List.find isRoot (SliceStable (lessEnv S) (withRoot E ++ desiredEnv b2)) =
            List.find isRoot (withRoot E)) as Hfind.
    { apply find_root_sorted_app; [by apply withRoot_literal|by apply withRoot_has|].
      intros e. by apply desiredEnv_projected. }
    rewrite (withRoot_id (SliceStable _ _) r) by congruence.
    rewrite !SliceStable_app_l, <-!(assoc_L (++)%list) by apply _.
    rewrite (desiredMount_root b1 (SliceStable _ _) E); [done|].
    rewrite <-(rootValue_withRoot E). unfold rootValue. by rewrite Hfind.
  - unfold boundContainer, unboundContainer. cbn [mct_Name mct_Env mct_VolumeMounts].
    rewrite (isContainerBindable_name b1 _ mc) by done.
    by destruct (isContainerBindable b1 mc).
Qed.
End two.

Lemma known_step b m s :
  s <> recordedSecret b (mpt_Annotations m) -> s <> secretName b ->
  s ∈ knownProjectedSecrets (set_mpt_Annotations
        (recordedAnnotations b (erasedAnnotations b (mpt_Annotations m))) m) <->
  s ∈ knownProjectedSecrets m.
Proof.
  intros Hr Hs. rewrite !elem_of_knownProjectedSecrets. cbn.
  assert (forall k, HasPrefix k SecretAnnotationPrefix = true -> ownKey b k ->
    k = secretAnnotationName b) as Hown.
  { intros k Hk [-> | [-> | ->]]; done. }
  split; intros (k & Hk & Hp); exists k; (split; [|done]).
  - destruct (decide (ownKey b k)) as [Ho|Ho].
    + apply Hown in Ho as ->; [|done]. rewrite lookup_recorded_secret in Hk. congruence.
    + by rewrite lookup_recorded_ne, lookup_erased, decide_False in Hk.
  - destruct (decide (ownKey b k)) as [Ho|Ho].
    + apply Hown in Ho as ->; [|done]. unfold recordedSecret in Hr. rewrite Hk in Hr. done.
    + by rewrite lookup_recorded_ne, lookup_erased, decide_False.
Qed.

Lemma known_recorded b m a :
  secretName b ∈ knownProjectedSecrets (set_mpt_Annotations (recordedAnnotations b a) m).
Proof.
  apply elem_of_knownProjectedSecrets. exists (secretAnnotationName b).
  split; [apply lookup_recorded_secret|apply HasPrefix_app].
Qed.

(** The conditions under which two bindings do not get in each other's way. *)
Record independent (b1 b2 : ServiceBinding) (m : metaPodTemplate) : Prop := {
  ind_uid : UID b1 <> UID b2;
  ind_bound1 : secretName b1 <> "";
  ind_bound2 : secretName b2 <> "";
  ind_secret : secretName b1 <> secretName b2;
  ind_recorded1 : recordedSecret b1 (mpt_Annotations m) <> secretName b2;
  ind_recorded2 : recordedSecret b2 (mpt_Annotations m) <> secretName b1;
  ind_env e1 e2 : e1 ∈ sbs_Env (sb_Spec b1) -> e2 ∈ sbs_Env (sb_Spec b2) ->
    em_Name e1 <> em_Name e2;
}.

Lemma independent_sym b1 b2 m : independent b1 b2 m -> independent b2 b1 m.
Proof. intros []. split; auto. intros ??? ? ?. eapply ind_env0; eauto. Qed.

Section commute.
Context (b1 b2 : ServiceBinding) (m : metaPodTemplate).
Hypothesis Hind : independent b1 b2 m.
Hypothesis Hex1 : exclusiveSecret b1 m.
Hypothesis Hroots : literalRoots m.

Let a := mpt_Annotations m.
Let r1 := recordedSecret b1 a.
Let r2 := recordedSecret b2 a.
Let a2 := recordedAnnotations b2 (erasedAnnotations b2 a).
Let a12 := recordedAnnotations b1 (erasedAnnotations b1 a2).

Definition finalSecrets : gset string := knownProjectedSecrets (set_mpt_Annotations a12 m).

Lemma recorded_first : recordedSecret b1 a2 = r1.
Proof. apply recordedSecret_other, Hind. Qed.

Lemma final_agrees mc e :
  mc ∈ mpt_Containers m ->
  e ∈ List.filter (keepEnv b1 r1) (List.filter (keepEnv b2 r2) (mct_Env mc)) ->
  isProjectedEnv e (knownProjectedSecrets (set_mpt_Annotations a2 m)) =
  isProjectedEnv e finalSecrets.
Proof.
  intros Hmc [[He _]%elem_of_filter_bool [Hk _]%keepEnv_true]%elem_of_filter_bool.
  apply isProjectedEnv_agree. intros s Hs. symmetry. unfold finalSecrets, a12.
  apply (known_step b1 (set_mpt_Annotations a2 m)); cbn.
  - rewrite recorded_first. congruence.
  - intros ->. destruct Hex1 as [Heq|Hno].
    + fold a in Heq. fold r1 in Heq. congruence.
    + rewrite (Hno mc) in Hs; done.
Qed.

Lemma project_project_closed :
  project b1 (project b2 m) =
  mkMetaPodTemplate a12
    (map (bothContainer b1 b2 finalSecrets r1 r2) (mpt_Containers m))
    (SliceStable lessVolume
      (List.filter (keepVolume b1) (List.filter (keepVolume b2) (mpt_Volumes m)) ++
       ([desiredVolume b2] ++ [desiredVolume b1]))).
Proof.
  destruct Hind as [Hu Hb1 Hb2 Hs Hr1 Hr2 _]. rewrite !project_closed. unfold projectSpec.
  apply String.eqb_neq in Hb1 as ->, Hb2 as ->.
  unfold bindSpec, unprojectSpec. cbn. fold a a2 a12.
  rewrite recorded_first. f_equal.
  - rewrite !map_map. apply map_ext_in. intros mc Hmc%list_elem_of_In.
    apply both_steps; [done| |apply known_recorded|done|by apply Hroots|
      intros e; by apply final_agrees].
    refine (proj2 (known_step b1 (set_mpt_Annotations a2 m) _ _ _) _); cbn; [|by auto|].
    + rewrite recorded_first. by apply not_eq_sym.
    + apply (known_recorded b2 m).
  - rewrite SliceStable_filter, List.filter_app by apply _.
    rewrite (filter_all (keepVolume b1) [_])
      by (intros ? ->%list_elem_of_singleton; by apply keepVolume_other).
    rewrite SliceStable_app_l by apply _. by rewrite <-(assoc_L (++)%list).
Qed.
End commute.

Lemma desired_comparable b1 b2 m S x y :
  independent b1 b2 m -> secretName b1 ∈ S -> secretName b2 ∈ S ->
  x ∈ desiredEnv b2 -> y ∈ desiredEnv b1 -> eqv (lessEnv S) x y = false.
Proof.
  intros Hi HS1 HS2 Hx Hy. unfold lessEnv. rewrite eqv_projected by (by apply (desiredEnv_projected b1)).
  apply andb_false_iff. right. apply not_true_is_false. rewrite eqv_nameLess.
  apply desiredEnv_names in Hx as (e2 & He2 & ->), Hy as (e1 & He1 & ->).
  intros H. by eapply ind_env.
Qed.

Lemma mounts_comparable b1 b2 e1 e2 :
  UID b1 <> UID b2 -> eqv lessVolumeMount (desiredMount b2 e2) (desiredMount b1 e1) = false.
Proof.
  intros Hu. unfold lessVolumeMount. rewrite eqv_projected by apply HasPrefix_volumeName.
  apply andb_false_iff. right. apply not_true_is_false. rewrite eqv_nameLess.
  cbn. intros H%volumeName_inj. congruence.
Qed.

Lemma bothContainer_sym b1 b2 m S r1 r2 mc :
  independent b1 b2 m -> secretName b1 ∈ S -> secretName b2 ∈ S ->
  bothContainer b1 b2 S r1 r2 mc = bothContainer b2 b1 S r2 r1 mc.
Proof.
  intros Hi HS1 HS2. unfold bothContainer.
  rewrite (filter_comm (keepEnv b1 r1)), (filter_comm (keepMount b1)), (orb_comm _ (isContainerBindable b2 mc)).
  destruct (isContainerBindable b1 mc), (isContainerBindable b2 mc); cbn;
    rewrite ?app_nil_r; try done. f_equal.
  - apply SliceStable_proper; [apply _|]. apply app_stable_equiv; [done|].
    apply stable_equiv_swap; [apply _|]. intros x y. by eapply desired_comparable.
  - apply SliceStable_proper; [apply _|]. apply app_stable_equiv; [done|].
    apply (stable_equiv_swap _ [_] [_]). intros x y.
    intros ->%list_elem_of_singleton ->%list_elem_of_singleton.
    apply mounts_comparable. apply Hi.
Qed.

Lemma project_comm b1 b2 m :
  independent b1 b2 m -> exclusiveSecret b1 m -> exclusiveSecret b2 m -> literalRoots m ->
  project b1 (project b2 m) = project b2 (project b1 m).
Proof.
  intros Hi H1 H2 Hl.
  rewrite (project_project_closed b1 b2), (project_project_closed b2 b1) by auto using independent_sym.
  unfold finalSecrets. rewrite (recorded_comm b1 b2) by apply Hi. f_equal.
  - apply map_ext. intros mc. eapply bothContainer_sym; [done| |apply known_recorded].
    rewrite <-(recorded_comm b1 b2) by apply Hi. apply known_recorded.
  - rewrite (filter_comm (keepVolume b1)). apply SliceStable_proper; [apply _|].
    apply app_stable_equiv; [done|]. apply (stable_equiv_swap _ [_] [_]).
    intros x y ->%list_elem_of_singleton ->%list_elem_of_singleton.
    unfold lessVolume. rewrite eqv_projected by apply HasPrefix_volumeName.
    apply andb_false_iff. right. apply not_true_is_false. rewrite eqv_nameLess. cbn.
    intros H%volumeName_inj. by apply (ind_uid _ _ _ Hi).
Qed.

(** Confluence. Two independent bindings on the same workload can be
    projected in either order: the template is the same. *)
Lemma project_commute b1 b2 m :
  independent b1 b2 m -> exclusiveSecret b1 m -> exclusiveSecret b2 m -> literalRoots m ->
  project b1 (project b2 m) = project b2 (project b1 m).
Proof. apply project_comm. Qed.

(** ** Contents of a projected template *)

Lemma own_filter_sorted {A} (proj : A -> bool) (name : A -> string) n l x :
  (forall y, y ∈ l -> name y <> n) -> name x = n -> proj x = true ->
  List.filter (fun y => String.eqb (name y) n) (SliceStable (projectedLess proj name) (l ++ [x])) = [x].
Proof.
  intros Hl Hx Hp. rewrite SliceStable_filter, List.filter_app by apply _.
  rewrite filter_none by (intros y Hy; by apply String.eqb_neq, Hl). cbn.
  by rewrite Hx, String.eqb_refl.
Qed.

Definition ownVolume (b : ServiceBinding) (v : Volume) : bool := String.eqb (vol_Name v) (volumeName b).
Definition ownMount (b : ServiceBinding) (m : VolumeMount) : bool := String.eqb (vm_Name m) (volumeName b).

Lemma keepVolume_filtered b l v : v ∈ List.filter (keepVolume b) l -> vol_Name v <> volumeName b.
Proof. intros [_ H]%elem_of_filter_bool. by apply negb_true_iff, String.eqb_neq in H. Qed.

Lemma keepMount_filtered b l v : v ∈ List.filter (keepMount b) l -> vm_Name v <> volumeName b.
Proof. intros [_ H]%elem_of_filter_bool. by apply negb_true_iff, String.eqb_neq in H. Qed.

Lemma project_volumes_closed b m :
  secretName b <> "" ->
  mpt_Volumes (project b m) =
  SliceStable lessVolume (List.filter (keepVolume b) (mpt_Volumes m) ++ [desiredVolume b]).
Proof.
  intros Hs%String.eqb_neq. rewrite project_closed. unfold projectSpec. by rewrite Hs.
Qed.

(** C9 (volumes). A projected template has exactly one volume of the binding,
    with the bound secret and, when set, the type and provider; the volumes of
    others are all there; and volumes that are not projected come first, in
    their order, before the projected ones in the order of their names. *)
Theorem project_volumes b m :
  secretName b <> "" ->
  List.filter (ownVolume b) (mpt_Volumes (project b m)) = [desiredVolume b] /\
  List.filter (fun v => negb (ownVolume b v)) (mpt_Volumes (project b m)) ≡ₚ
    List.filter (fun v => negb (ownVolume b v)) (mpt_Volumes m) /\
  (let projected v := HasPrefix (vol_Name v) VolumePrefix in
   exists tail,
     mpt_Volumes (project b m) =
       (List.filter (fun v => negb (projected v)) (mpt_Volumes m) ++ tail)%list /\
     Forall (fun v => projected v = true) tail /\
     StronglySorted (fun v w => String.leb (vol_Name v) (vol_Name w) = true) tail).
Proof.
  intros Hs. rewrite project_volumes_closed by done. split_and!.
  - apply own_filter_sorted; [intros y; apply keepVolume_filtered|done|apply HasPrefix_volumeName].
  - change (fun v => negb (ownVolume b v)) with (keepVolume b).
    rewrite SliceStable_filter, List.filter_app, keepVolume_desired, app_nil_r, filter_idemp by apply _.
    apply (sorted_perm _ _ _ (SliceStable_spec _ _)).
  - cbn zeta. unfold lessVolume. rewrite SliceStable_projected. eexists. split_and!.
    + rewrite List.filter_app. cbn.
      rewrite HasPrefix_volumeName. cbn. rewrite app_nil_r, filter_filter. f_equal.
      apply List.filter_ext. intros v. unfold keepVolume.
      destruct (String.eqb_spec (vol_Name v) (volumeName b)) as [->|]; [|done].
      by rewrite HasPrefix_volumeName.
    + apply Forall_forall. intros v. rewrite elem_of_SliceStable by apply _.
      by intros [_ Hv]%elem_of_filter_bool.
    + eapply StronglySorted_impl; [|apply (sorted_order _ _ _ (SliceStable_spec _ _))].
      intros v w. unfold nameLess. by rewrite ltb_leb, negb_false_iff.
Qed.

(** *** Containers *)

Lemma project_container b m i mc :
  secretName b <> "" -> mpt_Containers m !! i = Some mc ->
  exists S, secretName b ∈ S /\ S = knownProjectedSecrets (project b m) /\
    mpt_Containers (project b m) !! i =
    Some (boundContainer b S (unboundContainer b (recordedSecret b (mpt_Annotations m)) mc)).
Proof.
  intros Hs%String.eqb_neq Hi. rewrite project_closed. unfold projectSpec. rewrite Hs.
  eexists. split_and!; [| |cbn; by rewrite map_map, lookup_map, Hi].
  - apply known_recorded.
  - done.
Qed.

(** C10 (mounts). In a bindable container a projection leaves exactly one mount
    of the binding: read only, at the name of the binding below
    [SERVICE_BINDING_ROOT] ([/bindings] by default). In any other container it
    leaves none, and nobody else's mount is added or lost. *)
Theorem project_mounts b m i mc :
  secretName b <> "" -> mpt_Containers m !! i = Some mc -> literalRoot (mct_Env mc) ->
  exists mc', mpt_Containers (project b m) !! i = Some mc' /\
    mct_Name mc' = mct_Name mc /\
    List.filter (ownMount b) (mct_VolumeMounts mc') =
      (if isContainerBindable b mc
       then [mkVolumeMount (volumeName b) true
               (Join (rootValue (mct_Env mc)) (sbs_Name (sb_Spec b))) ∅]
       else []) /\
    List.filter (fun v => negb (ownMount b v)) (mct_VolumeMounts mc') ≡ₚ
      List.filter (fun v => negb (ownMount b v)) (mct_VolumeMounts mc).
Proof.
  intros Hs Hi Hl. destruct (project_container b m i mc Hs Hi) as (S & _ & _ & ->).
  eexists. split; [done|]. change (fun v => negb (ownMount b v)) with (keepMount b).
  unfold boundContainer. rewrite isContainerBindable_unbound.
  destruct (isContainerBindable b mc); cbn; (split; [done|]); split.
  - etrans; [apply own_filter_sorted;
      [intros y; apply keepMount_filtered|done|apply HasPrefix_volumeName]|].
    unfold desiredMount. by rewrite (rootValue_filter (keepEnv b _)) by (done || apply keepEnv_literal).
  - rewrite SliceStable_filter, List.filter_app, keepMount_desired, app_nil_r, filter_idemp by apply _.
    apply (sorted_perm _ _ _ (SliceStable_spec _ _)).
  - apply filter_none. intros y Hy%keepMount_filtered. by apply String.eqb_neq.
  - by rewrite filter_idemp.
Qed.

(** C11 (environment). The environment of a bindable container is what it was,
    less what the binding had projected before, with the root variable and one
    variable per mapping of the binding; what is not projected keeps its order
    and comes first. Other containers only lose what was projected before. *)
Theorem project_env b m i mc :
  secretName b <> "" -> mpt_Containers m !! i = Some mc ->
  exists mc', mpt_Containers (project b m) !! i = Some mc' /\
    let kept := List.filter (keepEnv b (recordedSecret b (mpt_Annotations m))) (mct_Env mc) in
    let isProjected e := isProjectedEnv e (knownProjectedSecrets (project b m)) in
    if isContainerBindable b mc then
      mct_Env mc' ≡ₚ (withRoot kept ++ desiredEnv b)%list /\
      exists tail, mct_Env mc' =
          (List.filter (fun e => negb (isProjected e)) (withRoot kept) ++ tail)%list /\
        Forall (fun e => isProjected e = true) tail
    else mct_Env mc' = kept.
Proof.
  intros Hs Hi. destruct (project_container b m i mc Hs Hi) as (S & HS & HSm & ->).
  eexists. split; [done|]. cbn zeta. rewrite <-HSm. clear HSm.
  unfold boundContainer. rewrite isContainerBindable_unbound.
  destruct (isContainerBindable b mc); [|done]. cbn. split.
  - apply (sorted_perm _ _ _ (SliceStable_spec _ _)).
  - unfold lessEnv. rewrite SliceStable_projected. eexists. split.
    + rewrite List.filter_app.
      rewrite (filter_none _ (desiredEnv b)), app_nil_r; [done|].
      intros e He. by rewrite (desiredEnv_projected b).
    + apply Forall_forall. intros e. rewrite elem_of_SliceStable by apply _.
      by intros [_ ?]%elem_of_filter_bool.
Qed.

(** *** What belongs to another binding *)

Lemma own_filter_other {A} (proj : A -> bool) (name : A -> string) n l k :
  (forall x y, name x = name y -> proj x = proj y) ->
  (forall y, y ∈ k -> name y <> n) ->
  List.filter (fun y => String.eqb (name y) n) (SliceStable (projectedLess proj name) (l ++ k)) =
  List.filter (fun y => String.eqb (name y) n) l.
Proof.
  intros Hp Hk. rewrite SliceStable_filter, List.filter_app by apply _.
  rewrite (filter_none _ k), app_nil_r by (intros y Hy; by apply String.eqb_neq, Hk).
  apply SliceStable_sorted_id; [apply _|].
  assert (forall x, x ∈ List.filter (fun y => String.eqb (name y) n) l -> name x = n) as Hn.
  { intros x [_ Hx]%elem_of_filter_bool. by apply String.eqb_eq. }
  revert Hn. generalize (List.filter (fun y => String.eqb (name y) n) l) as l'.
  induction l' as [|x l' IH]; intros Hn; constructor.
  - apply IH. intros y Hy. apply Hn. by right.
  - apply Forall_forall. intros y Hy. unfold projectedLess.
    assert (name y = name x) as Hyx by (rewrite !Hn; set_solver).
    rewrite (Hp y x Hyx), Hyx, ltb_irrefl. by destruct (proj x).
Qed.

Lemma own_filter_keep {A} (name : A -> string) n n' (l : list A) :
  n <> n' ->
  List.filter (fun y => String.eqb (name y) n)
    (List.filter (fun y => negb (String.eqb (name y) n')) l) =
  List.filter (fun y => String.eqb (name y) n) l.
Proof.
  intros Hn. rewrite filter_filter. apply List.filter_ext. intros y.
  destruct (String.eqb_spec (name y) n) as [->|]; [|apply andb_false_r].
  by apply String.eqb_neq in Hn as ->.
Qed.

Lemma project_other b b' m :
  secretName b <> "" -> UID b <> UID b' ->
  List.filter (ownVolume b') (mpt_Volumes (project b m)) = List.filter (ownVolume b') (mpt_Volumes m) /\
  (forall k, ownKey b' k -> mpt_Annotations (project b m) !! k = mpt_Annotations m !! k) /\
  (forall i mc, mpt_Containers m !! i = Some mc ->
     exists mc', mpt_Containers (project b m) !! i = Some mc' /\
       List.filter (ownMount b') (mct_VolumeMounts mc') = List.filter (ownMount b') (mct_VolumeMounts mc)).
Proof.
  intros Hs Hu.
  assert (volumeName b' <> volumeName b) as Hn by (intros H%volumeName_inj; congruence).
  split_and!.
  - rewrite project_volumes_closed by done. etrans; [apply own_filter_other|].
    + by intros x y ->.
    + intros y ->%list_elem_of_singleton. cbn. congruence.
    + by apply own_filter_keep.
  - intros k Hk. rewrite project_closed. unfold projectSpec.
    rewrite (proj2 (String.eqb_neq _ _) Hs). cbn.
    assert (~ ownKey b k) by (by eapply ownKey_disjoint).
    by rewrite lookup_recorded_ne, lookup_erased, decide_False by done.
  - intros i mc Hi. destruct (project_container b m i mc Hs Hi) as (S & _ & _ & ->).
    eexists. split; [done|]. unfold boundContainer. rewrite isContainerBindable_unbound.
    destruct (isContainerBindable b mc); cbn; [|by apply own_filter_keep].
    etrans; [apply own_filter_other|].
    + by intros x y ->.
    + intros y ->%list_elem_of_singleton. cbn. congruence.
    + by apply own_filter_keep.
Qed.


(** ** Leaving no trace *)

(** C7 (clean removal). After [unproject] no volume, mount or annotation of the
    binding is left, and no variable that reads the recorded secret or one of
    its annotations; [project] of a binding without a secret is [unproject]. *)
Theorem unproject_clean b m :
  List.filter (ownVolume b) (mpt_Volumes (unproject b m)) = [] /\
  (forall k, ownKey b k -> mpt_Annotations (unproject b m) !! k = None) /\
  (forall mc, mc ∈ mpt_Containers (unproject b m) ->
     List.filter (ownMount b) (mct_VolumeMounts mc) = [] /\
     forall e, e ∈ mct_Env mc ->
       usesSecret (recordedSecret b (mpt_Annotations m)) e = false /\
       usesField (typeFieldPath b) (providerFieldPath b) e = false) /\
  (secretName b = "" -> project b m = unproject b m).
Proof.
  split_and!.
  - rewrite unproject_closed. apply filter_none. cbn. intros v Hv%keepVolume_filtered.
    by apply String.eqb_neq.
  - intros k Hk. rewrite unproject_closed. cbn. by rewrite lookup_erased, decide_True.
  - rewrite unproject_closed. intros mc. cbn.
    rewrite list_elem_of_In, in_map_iff. intros (mc0 & <- & _). cbn. split.
    + apply filter_none. intros v Hv%keepMount_filtered. by apply String.eqb_neq.
    + by intros e [_ He%keepEnv_true]%elem_of_filter_bool.
  - intros Hs. unfold project. by rewrite Hs.
Qed.

Lemma project_recorded b m :
  secretName b <> "" -> recordedSecret b (mpt_Annotations (project b m)) = secretName b.
Proof.
  intros Hs%String.eqb_neq. rewrite project_closed. unfold projectSpec. rewrite Hs. cbn.
  apply recordedSecret_recorded.
Qed.

(** *** Shared secrets *)

Lemma unproject_container b m i mc :
  mpt_Containers m !! i = Some mc ->
  mpt_Containers (unproject b m) !! i =
    Some (unboundContainer b (recordedSecret b (mpt_Annotations m)) mc).
Proof. intros Hi. rewrite unproject_closed. cbn. by rewrite lookup_map, Hi. Qed.

(** A variable in a container that is bound again: what the binding keeps stays,
    what it asks for comes. *)
Lemma boundContainer_env b S s mc e :
  e ∈ mct_Env mc -> keepEnv b s e = true -> e ∈ mct_Env (boundContainer b S (unboundContainer b s mc)).
Proof.
  intros He Hk. assert (e ∈ List.filter (keepEnv b s) (mct_Env mc)) as Hf by by apply elem_of_filter_bool.
  unfold boundContainer. rewrite isContainerBindable_unbound. destruct (isContainerBindable b mc); [|done].
  cbn. rewrite elem_of_SliceStable by apply _. apply elem_of_app. left. unfold withRoot.
  destruct (List.find _ _); [done|]. apply elem_of_app. by left.
Qed.

Lemma boundContainer_desired b S s mc e :
  isContainerBindable b mc = true -> e ∈ desiredEnv b ->
  e ∈ mct_Env (boundContainer b S (unboundContainer b s mc)).
Proof.
  intros Hb He. unfold boundContainer. rewrite isContainerBindable_unbound, Hb. cbn.
  rewrite elem_of_SliceStable by apply _. apply elem_of_app. by right.
Qed.

(** Removing a binding leaves what belongs to another one, variables apart. *)
Lemma unproject_other b b' m :
  UID b <> UID b' ->
  List.filter (ownVolume b') (mpt_Volumes (unproject b m)) = List.filter (ownVolume b') (mpt_Volumes m) /\
  (forall k, ownKey b' k -> mpt_Annotations (unproject b m) !! k = mpt_Annotations m !! k) /\
  forall s mc, List.filter (ownMount b') (mct_VolumeMounts (unboundContainer b s mc)) =
    List.filter (ownMount b') (mct_VolumeMounts mc).
Proof.
  intros Hu. assert (volumeName b' <> volumeName b) as Hn by (intros H%volumeName_inj; congruence).
  rewrite unproject_closed. split_and!; cbn; [by apply own_filter_keep| |intros s mc; by apply own_filter_keep].
  intros k Hk. assert (~ ownKey b k) by (by eapply ownKey_disjoint). by rewrite lookup_erased, decide_False.
Qed.

(** The variables of another binding with the same secret: those that read the
    secret go away with this binding, those of the type and provider stay. *)
Lemma shared_env b b' m i mc em :
  UID b <> UID b' -> secretName b = secretName b' -> secretName b <> "" ->
  mpt_Containers m !! i = Some mc -> desiredEnvVar b' em ∈ mct_Env mc -> em ∈ sbs_Env (sb_Spec b') ->
  exists mc', mpt_Containers (unproject b (project b m)) !! i = Some mc' /\
    (desiredEnvVar b' em ∈ mct_Env mc' <-> fromAnnotation b' em = true).
Proof.
  intros Hu Heq Hs Hi He Hem. destruct (project_container b m i mc Hs Hi) as (S & _ & _ & Hc).
  eexists. split; [by apply unproject_container|]. cbn. rewrite project_recorded by done.
  rewrite elem_of_filter_bool, keepEnv_true, desiredEnvVar_secret, Heq, String.eqb_refl, andb_true_r, negb_false_iff.
  split; [by intros (_ & ? & _)|]. intros Ha.
  assert (usesField (typeFieldPath b) (providerFieldPath b) (desiredEnvVar b' em) = false) as Hf.
  { apply (desiredEnv_field b b'); [done|]. apply list_elem_of_In, in_map, list_elem_of_In, Hem. }
  split_and!; [|done..]. apply boundContainer_env; [done|]. apply keepEnv_true.
  by rewrite desiredEnvVar_secret, Ha.
Qed.

(** C37 (shared secrets). When two bindings resolve to the same secret, removing
    one of them takes away every variable that reads this secret, also those of
    the other binding, although the other binding is still bound: its volume,
    its annotations, its mounts and its variables with the type and the provider
    are as before. [unprojectEnv] tells the variables of a binding that read
    a secret by the name of the secret only. *)
Theorem unproject_shared_secret b b' m :
  UID b <> UID b' -> secretName b = secretName b' -> secretName b <> "" ->
  let bound := project b' m in
  let rest := unproject b (project b bound) in
  (forall mc e, mc ∈ mpt_Containers rest -> e ∈ mct_Env mc -> usesSecret (secretName b') e = false) /\
  (forall i mc, mpt_Containers m !! i = Some mc -> isContainerBindable b' mc = true ->
     exists before after, mpt_Containers bound !! i = Some before /\ mpt_Containers rest !! i = Some after /\
       (forall em, em ∈ sbs_Env (sb_Spec b') ->
          desiredEnvVar b' em ∈ mct_Env before /\
          (desiredEnvVar b' em ∈ mct_Env after <-> fromAnnotation b' em = true)) /\
       List.filter (ownMount b') (mct_VolumeMounts after) =
         List.filter (ownMount b') (mct_VolumeMounts before)) /\
  List.filter (ownVolume b') (mpt_Volumes rest) = List.filter (ownVolume b') (mpt_Volumes bound) /\
  (forall k, ownKey b' k -> mpt_Annotations rest !! k = mpt_Annotations bound !! k).
Proof.
  intros Hu Heq Hs. cbn zeta.
  destruct (project_other b b' (project b' m) Hs Hu) as (Hv & Ha & Hmnt).
  destruct (unproject_other b b' (project b (project b' m)) Hu) as (Hv' & Ha' & Hmnt'). split_and!.
  - intros mc e [i Hi]%list_elem_of_lookup He. rewrite <-Heq, <-(project_recorded b (project b' m) Hs).
    rewrite unproject_closed in Hi. cbn in Hi. rewrite lookup_map in Hi.
    destruct (mpt_Containers _ !! i) as [mc0|]; [|done]. injection Hi as <-.
    by apply elem_of_filter_bool in He as [_ [? _]%keepEnv_true].
  - intros i mc Hi Hb. assert (secretName b' <> "") as Hs' by congruence.
    destruct (project_container b' m i mc Hs' Hi) as (S & _ & _ & Hbefore).
    destruct (Hmnt i _ Hbefore) as (mc1 & Hi1 & Hm1). eexists _, _.
    split; [exact Hbefore|]. split; [by apply unproject_container|]. split; [|by rewrite Hmnt'].
    intros em Hem. assert (desiredEnvVar b' em ∈ desiredEnv b') as Hd
      by apply list_elem_of_In, in_map, list_elem_of_In, Hem.
    split; [by apply boundContainer_desired|].
    destruct (shared_env b b' (project b' m) i _ em Hu Heq Hs Hbefore) as (mc' & Hmc' & Hiff);
      [by apply boundContainer_desired|done|].
    erewrite unproject_container in Hmc' by done. injection Hmc' as <-. exact Hiff.
  - by rewrite Hv'.
  - intros k Hk. by rewrite Ha', Ha.
Qed.

(** ** Mount paths *)

(** Mount paths. Two bindings with different names, mounted in containers
    whose root is the same absolute path, get different directories below it;
    the names are plain file names, as Kubernetes object names are. *)
Lemma mount_paths_distinct b1 b2 env cs :
  cs <> [] -> Forall (fun c => plain c = true) cs -> rootValue env = abs_path cs ->
  plain (sbs_Name (sb_Spec b1)) = true -> plain (sbs_Name (sb_Spec b2)) = true ->
  sbs_Name (sb_Spec b1) <> sbs_Name (sb_Spec b2) ->
  vm_MountPath (desiredMount b1 env) = abs_path (cs ++ [sbs_Name (sb_Spec b1)]) /\
  vm_MountPath (desiredMount b1 env) <> vm_MountPath (desiredMount b2 env).
Proof.
  intros Hne Hcs Hr H1 H2 Hd. unfold desiredMount. cbn. rewrite Hr, !Join_abs_path by done.
  split; [done|]. intros H%abs_path_inj.
  - apply app_inv_head in H. congruence.
  - apply Forall_app. auto.
  - apply Forall_app. auto.
Qed.
