(* ===== verification/BindingRuns.v ===== *)
(** * Runs of projections

    The reconciler projects a binding when it changes, and the admission webhook
    projects all bindings of a workload when the workload changes: a template
    sees a sequence of projections, in any order, with repetitions. For
    bindings that do not get in each other's way the template depends only on
    which bindings were projected. *)

From S2P Require Import Prelude GoSort GoPath Json Types Binding BindingSpec BindingLemmas BindingFacts.
Local Open Scope string_scope.

(** The bindings of [run], projected one after another. *)
Definition projectRun (run : list ServiceBinding) (m : metaPodTemplate) : metaPodTemplate :=
  foldl (fun m b => project b m) m run.

(** Bindings that can share a template. *)
Record compatible (bs : list ServiceBinding) (m : metaPodTemplate) : Prop := {
  comp_bound b : b ∈ bs -> secretName b <> "";
  comp_root b e : b ∈ bs -> e ∈ sbs_Env (sb_Spec b) -> em_Name e <> ServiceBindingRootEnv;
  comp_exclusive b : b ∈ bs -> exclusiveSecret b m;
  comp_independent b1 b2 : b1 ∈ bs -> b2 ∈ bs -> UID b1 <> UID b2 -> independent b1 b2 m;
  comp_unique b1 b2 : b1 ∈ bs -> b2 ∈ bs -> UID b1 = UID b2 -> b1 = b2;
  comp_roots : literalRoots m;
}.

(** ** What a projection keeps *)

Lemma project_annotations b m :
  secretName b <> "" ->
  mpt_Annotations (project b m) = recordedAnnotations b (erasedAnnotations b (mpt_Annotations m)).
Proof. intros Hs%String.eqb_neq. rewrite project_closed. unfold projectSpec. by rewrite Hs. Qed.

Lemma recordedSecret_project b b' m :
  secretName b' <> "" -> UID b <> UID b' ->
  recordedSecret b (mpt_Annotations (project b' m)) = recordedSecret b (mpt_Annotations m).
Proof. intros Hs Hu. rewrite project_annotations by done. by apply recordedSecret_other. Qed.

(** The variables of a projected template. *)
Lemma project_env_elem b m mc e :
  secretName b <> "" -> mc ∈ mpt_Containers (project b m) -> e ∈ mct_Env mc ->
  (exists mc0, mc0 ∈ mpt_Containers m /\ e ∈ mct_Env mc0) \/ e = defaultRoot \/ e ∈ desiredEnv b.
Proof.
  intros Hs [i Hi]%list_elem_of_lookup He.
  destruct (mpt_Containers m !! i) as [mc0|] eqn:Hi0.
  2: { exfalso. apply lookup_ge_None in Hi0. apply lookup_lt_Some in Hi.
    assert (length (mpt_Containers (project b m)) = length (mpt_Containers m)) as Hl.
    { rewrite project_closed. unfold projectSpec. destruct (String.eqb _ _); cbn;
        by rewrite ?length_map. }
    lia. }
  destruct (project_container b m i mc0 Hs Hi0) as (S & _ & _ & Hc).
  rewrite Hc in Hi. injection Hi as <-. unfold boundContainer in He.
  rewrite isContainerBindable_unbound in He.
  destruct (isContainerBindable b mc0); cbn in He.
  - rewrite elem_of_SliceStable in He by apply _.
    apply elem_of_app in He as [[He| ->]%elem_of_withRoot|He]; [|by right; left|by right; right].
    apply elem_of_filter_bool in He as [He _]. left. exists mc0. split; [|done].
    by eapply list_elem_of_lookup_2.
  - apply elem_of_filter_bool in He as [He _]. left. exists mc0. split; [|done].
    by eapply list_elem_of_lookup_2.
Qed.

Lemma desiredEnv_secret b s e : e ∈ desiredEnv b -> usesSecret s e = true -> s = secretName b.
Proof.
  unfold desiredEnv. rewrite list_elem_of_In, in_map_iff. intros (x & <- & _).
  unfold desiredEnvVar.
  destruct (_ && hasType b); [done|destruct (_ && hasProvider b); [done|]]. cbn.
  intros Hs. symmetry. by apply String.eqb_eq.
Qed.

Section keeps.
Context (bs : list ServiceBinding) (m : metaPodTemplate).
Hypothesis Hc : compatible bs m.

Lemma project_literalRoots b : b ∈ bs -> literalRoots (project b m).
Proof.
  intros Hb mc Hmc e He Hroot.
  destruct (project_env_elem b m mc e) as [(mc0 & Hmc0 & He0)|[-> |Hd]]; [by apply Hc|done|done|..].
  - by apply (comp_roots _ _ Hc mc0 Hmc0 e).
  - done.
  - apply desiredEnv_names in Hd as (x & Hx & Hn). exfalso.
    apply (comp_root _ _ Hc b x Hb Hx). rewrite <-Hn. by apply String.eqb_eq.
Qed.

Lemma project_exclusive b b' : b ∈ bs -> b' ∈ bs -> exclusiveSecret b' (project b m).
Proof.
  intros Hb Hb'. pose proof (comp_bound _ _ Hc b Hb) as Hs.
  destruct (String.eqb_spec (UID b) (UID b')) as [Hu|Hu].
  - left. apply (comp_unique _ _ Hc) in Hu as <-; [|done..]. by apply project_recorded.
  - destruct (comp_exclusive _ _ Hc b' Hb') as [Hr|Hno].
    + left. by rewrite recordedSecret_project by auto.
    + right. intros mc e Hmc He.
      destruct (project_env_elem b m mc e Hs Hmc He) as [(mc0 & Hmc0 & He0)|[-> |Hd]];
        [by eapply Hno|done|].
      apply not_true_is_false. intros Hus. apply (desiredEnv_secret b) in Hus; [|done].
      by eapply (ind_secret b b' m), eq_sym; [apply Hc|].
Qed.

Lemma project_independent b b1 b2 :
  b ∈ bs -> b1 ∈ bs -> b2 ∈ bs -> UID b1 <> UID b2 -> independent b1 b2 (project b m).
Proof.
  intros Hb H1 H2 Hne. pose proof (comp_bound _ _ Hc b Hb) as Hs.
  pose proof (comp_independent _ _ Hc b1 b2 H1 H2 Hne) as [Hu Hb1 Hb2 Hse Hr1 Hr2 He].
  assert (forall x y, x ∈ bs -> secretName x <> secretName y ->
    recordedSecret x (mpt_Annotations m) <> secretName y ->
    recordedSecret x (mpt_Annotations (project b m)) <> secretName y) as Hrec.
  { intros x y Hx Hxy Hr. destruct (String.eqb_spec (UID x) (UID b)) as [Hu'|Hu'].
    - apply (comp_unique _ _ Hc) in Hu' as ->; [|done..]. by rewrite project_recorded.
    - by rewrite recordedSecret_project. }
  split; [done..| | |done]; apply Hrec; auto.
Qed.

Lemma project_compatible b : b ∈ bs -> compatible bs (project b m).
Proof.
  intros Hb. split.
  - apply Hc.
  - apply Hc.
  - intros. by apply project_exclusive.
  - intros. by apply project_independent.
  - apply Hc.
  - by apply project_literalRoots.
Qed.
End keeps.

(** ** Runs *)

Section runs.
Context (bs : list ServiceBinding).
Implicit Types run : list ServiceBinding.

Lemma projectRun_compatible run m : run ⊆ bs -> compatible bs m -> compatible bs (projectRun run m).
Proof.
  revert m. induction run as [|b run IH]; intros m Hr Hc; [done|].
  cbn. apply IH; [set_solver|]. apply project_compatible; [done|set_solver].
Qed.

Lemma projectRun_swap b1 b2 m :
  compatible bs m -> b1 ∈ bs -> b2 ∈ bs -> project b1 (project b2 m) = project b2 (project b1 m).
Proof.
  intros Hc H1 H2. destruct (String.eqb_spec (UID b1) (UID b2)) as [Hu|Hu].
  { by rewrite (comp_unique _ _ Hc b1 b2). }
  apply project_comm; [by apply (comp_independent bs)|by eapply comp_exclusive..|by eapply comp_roots].
Qed.

Lemma projectRun_perm run1 run2 m :
  run1 ≡ₚ run2 -> run1 ⊆ bs -> compatible bs m -> projectRun run1 m = projectRun run2 m.
Proof.
  intros Hp. revert m. induction Hp as [|b r1 r2 Hp IH|b1 b2 r|r1 r2 r3 H12 IH1 H23 IH2]; intros m Hs Hc.
  - done.
  - cbn. apply IH; [set_solver|]. apply project_compatible; [done|set_solver].
  - cbn. f_equal. apply projectRun_swap; [done|set_solver..].
  - rewrite IH1 by done. apply IH2; [by rewrite <-H12|done].
Qed.

(** A projection that is repeated later might as well be left out. *)
Lemma projectRun_again b run m :
  b ∈ run -> run ⊆ bs -> compatible bs m -> projectRun (b :: run) m = projectRun run m.
Proof.
  intros [run' Hp]%elem_of_Permutation Hs Hc.
  assert (b ∈ bs) as Hb by (apply Hs; rewrite Hp; set_solver).
  rewrite (projectRun_perm (b :: run) (b :: b :: run')) by (done || set_solver || by rewrite Hp).
  rewrite (projectRun_perm run (b :: run')) by done. cbn. f_equal.
  apply project_idemp; [by eapply comp_exclusive|by eapply comp_roots].
Qed.

(** A run before one of the same bindings might as well be left out. *)
Lemma projectRun_absorb run1 run2 m :
  run1 ⊆ run2 -> run2 ⊆ bs -> compatible bs m -> projectRun (run1 ++ run2) m = projectRun run2 m.
Proof.
  revert m. induction run1 as [|b run1 IH]; intros m Hs Hr Hc; [done|].
  rewrite <-app_comm_cons, projectRun_again by (done || set_solver). apply IH; [set_solver|done..].
Qed.

(** Runs of the same bindings give the same template. *)
Lemma projectRun_same run1 run2 m :
  run1 ⊆ bs -> compatible bs m -> (forall b, b ∈ run1 <-> b ∈ run2) ->
  projectRun run1 m = projectRun run2 m.
Proof.
  intros Hs Hc He. rewrite <-(projectRun_absorb run2 run1) by (done || set_solver).
  rewrite (projectRun_perm (run2 ++ run1) (run1 ++ run2)) by (done || set_solver || apply Permutation_app_comm).
  apply projectRun_absorb; [set_solver..|done].
Qed.
End runs.

(** ** Properties *)

(** Bindings that do not get in each other's way may be
    projected in any order and any number of times, by the reconciler and the
    admission webhook in turns: once each of them has been projected, the
    template is the one of projecting them one after another, it carries the
    volume of each of them exactly once, and projecting any of them again
    changes nothing. *)
Lemma projections_converge bs run m :
  compatible bs m -> run ⊆ bs -> bs ⊆ run ->
  projectRun run m = projectRun bs m /\
  forall b, b ∈ bs ->
    project b (projectRun run m) = projectRun run m /\
    List.filter (ownVolume b) (mpt_Volumes (projectRun run m)) = [desiredVolume b].
Proof.
  intros Hc Hr Hb. split; [apply (projectRun_same bs); [done..|]; intros b; split; auto|].
  intros b Hin. pose proof (projectRun_compatible bs run m Hr Hc) as Hc'.
  assert (project b (projectRun run m) = projectRun run m) as Hfix.
  { change (projectRun [b] (projectRun run m) = projectRun run m).
    unfold projectRun at 1 2. rewrite <-foldl_app.
    apply (projectRun_same bs); [set_solver|done|]. intros x. rewrite elem_of_app. set_solver. }
  split; [done|]. rewrite <-Hfix, project_volumes_closed by by eapply comp_bound.
  apply own_filter_sorted; [intros y; apply keepVolume_filtered|done|apply HasPrefix_volumeName].
Qed.
