(* ===== verification/BindingHistory.v ===== *)
(** * Histories of a pod template

    Over time a template sees bindings come, change and go: the reconciler
    projects a binding when it changes and removes it when it is deleted, the
    admission webhook projects the live bindings again. [history] is that step
    relation on the live bindings, one version for each UID, and the template.
    The template refines the map of live bindings: it is what projecting them
    into the first template gives, whatever happened before. *)

From stdpp Require Import relations fin_maps.
From S2P Require Import Prelude GoSort GoPath Json Types Binding BindingSpec BindingLemmas BindingFacts BindingRuns.
Local Open Scope string_scope.

(** The versions of bindings that are projected, by UID. *)
Abbreviation liveBindings := (gmap string ServiceBinding).

(** What the live bindings make of a template. *)
Definition versions (live : liveBindings) : list ServiceBinding := (map_to_list live).*2.
Definition projectLive (live : liveBindings) (m : metaPodTemplate) : metaPodTemplate :=
  projectRun (versions live) m.

(** What the projector looks at in a binding: versions that differ in the rest,
    such as the conditions of their status, are projected alike. *)
Definition essence (b : ServiceBinding) : string * ServiceBindingSpec * string :=
  (UID b, sb_Spec b, secretName b).

(** The version of a binding that the template should have: the live one, or one
    without a secret when none is live. *)
Definition current (live : liveBindings) (b : ServiceBinding) : Prop :=
  match live !! UID b with
  | Some b' => essence b' = essence b
  | None => secretName b = ""
  end.

(** The live bindings after projecting [b], or a run of bindings. A binding without
    a secret, which has not been resolved yet, is projected as well: that
    removes it. *)
Definition projectedLive (b : ServiceBinding) (live : liveBindings) : liveBindings :=
  if String.eqb (secretName b) "" then delete (UID b) live else <[UID b := b]> live.
Definition liveAfter (run : list ServiceBinding) (live : liveBindings) : liveBindings :=
  foldl (fun live b => projectedLive b live) live run.

(** One step of a history over the versions [bs]: some bindings are projected one
    after another, one by a reconcile or any number of them, maybe older or
    newer than the live ones, by an admission; or one is removed. *)
Inductive history (bs : list ServiceBinding) : relation (liveBindings * metaPodTemplate) :=
| history_projected live m run :
    run ⊆ bs -> history bs (live, m) (liveAfter run live, projectRun run m)
| history_removed live m b :
    b ∈ bs -> history bs (live, m) (delete (UID b) live, unproject b m).

(** The templates and versions for which the history does not matter: the first
    template has no trace of a binding and is left in order by a projection,
    and bindings with different UIDs do not get in each other's way. *)
Record separate (bs : list ServiceBinding) (m : metaPodTemplate) : Prop := {
  sep_fresh b : b ∈ bs -> unproject b m = m;
  sep_ordered b : b ∈ bs -> orderedFor b m;
  sep_unread b mc e : b ∈ bs -> mc ∈ mpt_Containers m -> e ∈ mct_Env mc ->
    usesSecret (secretName b) e = false;
  sep_roots : literalRoots m;
  sep_root b e : b ∈ bs -> e ∈ sbs_Env (sb_Spec b) -> em_Name e <> ServiceBindingRootEnv;
  sep_secret b1 b2 : b1 ∈ bs -> b2 ∈ bs -> UID b1 <> UID b2 -> secretName b1 <> "" ->
    secretName b1 <> secretName b2;
  sep_env b1 b2 e1 e2 : b1 ∈ bs -> b2 ∈ bs -> UID b1 <> UID b2 ->
    e1 ∈ sbs_Env (sb_Spec b1) -> e2 ∈ sbs_Env (sb_Spec b2) -> em_Name e1 <> em_Name e2;
}.

(** ** What the projector looks at *)

Definition canonical (b : ServiceBinding) : ServiceBinding :=
  mkServiceBinding (mkObjectMeta "" "" (UID b) 0 None) (sb_Spec b)
    (mkServiceBindingStatus 0 [] (Some (mkSecretReference (secretName b)))).

Lemma project_canonical b m : project b m = project (canonical b) m.
Proof. reflexivity. Qed.

Lemma project_essence b1 b2 m : essence b1 = essence b2 -> project b1 m = project b2 m.
Proof.
  intros [= Hu Hs Hn]. rewrite (project_canonical b1), (project_canonical b2).
  unfold canonical. by rewrite Hu, Hs, Hn.
Qed.

(** ** Removing one binding and projecting another *)

(** What [unproject] removes depends on the UID only. *)
Lemma unproject_uid b1 b2 m : UID b1 = UID b2 -> unproject b1 m = unproject b2 m.
Proof.
  intros Hu. rewrite !unproject_closed.
  assert (volumeName b1 = volumeName b2) as Hv by (unfold volumeName; by rewrite Hu).
  assert (secretAnnotationName b1 = secretAnnotationName b2) as Hs by (unfold secretAnnotationName; by rewrite Hu).
  assert (typeAnnotationName b1 = typeAnnotationName b2) as Ht by (unfold typeAnnotationName; by rewrite Hu).
  assert (providerAnnotationName b1 = providerAnnotationName b2) as Hp
    by (unfold providerAnnotationName; by rewrite Hu).
  unfold unprojectSpec, erasedAnnotations, unboundContainer, recordedSecret, keepEnv, keepMount,
    keepVolume, typeFieldPath, providerFieldPath. by rewrite Hv, Hs, Ht, Hp.
Qed.

Lemma erased_recorded_comm b1 b2 a :
  UID b1 <> UID b2 ->
  erasedAnnotations b1 (recordedAnnotations b2 (erasedAnnotations b2 a)) =
  recordedAnnotations b2 (erasedAnnotations b2 (erasedAnnotations b1 a)).
Proof.
  intros Hu. apply map_eq. intros k. rewrite lookup_erased.
  destruct (decide (ownKey b1 k)) as [H1|H1], (decide (ownKey b2 k)) as [H2|H2].
  - by destruct (ownKey_disjoint b1 b2 k).
  - by rewrite lookup_recorded_ne, !lookup_erased, decide_False, decide_True by done.
  - by apply lookup_recorded_own.
  - by rewrite !lookup_recorded_ne, !lookup_erased, !decide_False by done.
Qed.

Lemma recordedSecret_erased_other b1 b2 a :
  UID b1 <> UID b2 -> recordedSecret b2 (erasedAnnotations b1 a) = recordedSecret b2 a.
Proof.
  intros Hu. unfold recordedSecret. rewrite lookup_erased, decide_False; [done|].
  eapply ownKey_disjoint; [by apply not_eq_sym|by left].
Qed.

Lemma known_erased b m a s :
  s <> recordedSecret b a ->
  s ∈ knownProjectedSecrets (set_mpt_Annotations (erasedAnnotations b a) m) <->
  s ∈ knownProjectedSecrets (set_mpt_Annotations a m).
Proof.
  intros Hr. rewrite !elem_of_knownProjectedSecrets. cbn.
  split; intros (k & Hk & Hp); exists k; (split; [|done]).
  - rewrite lookup_erased in Hk. by case_decide.
  - rewrite lookup_erased, decide_False; [done|]. intros [-> | [-> | ->]]; try done.
    unfold recordedSecret in Hr. by rewrite Hk in Hr.
Qed.


(** Removing a binding does not interfere with another one that is projected. *)
Lemma unproject_project_comm b1 b2 m :
  UID b1 <> UID b2 -> secretName b2 <> "" -> recordedSecret b1 (mpt_Annotations m) <> secretName b2 ->
  literalRoots m -> unproject b1 (project b2 m) = project b2 (unproject b1 m).
Proof.
  intros Hu Hs Hr Hl. rewrite !unproject_closed, !project_closed. unfold projectSpec.
  apply String.eqb_neq in Hs as Hs'. rewrite Hs'. unfold bindSpec, unprojectSpec. cbn.
  rewrite recordedSecret_other, recordedSecret_erased_other by done.
  rewrite <-(erased_recorded_comm b1 b2) by done. f_equal.
  - rewrite !map_map. apply map_ext_in. intros mc Hmc%list_elem_of_In.
    set (a2 := recordedAnnotations b2 (erasedAnnotations b2 (mpt_Annotations m))).
    unfold boundContainer. rewrite !isContainerBindable_unbound.
    destruct (isContainerBindable b2 mc); cycle 1.
    { unfold unboundContainer. cbn. by rewrite (filter_comm (keepEnv b1 _)), (filter_comm (keepMount b1)). }
    unfold unboundContainer. cbn. rewrite (filter_comm (keepEnv b2 _)), (filter_comm (keepMount b2)). f_equal.
    + apply first_env; [done| |apply (known_recorded b2 m)|done|by apply Hl|].
      * apply (known_erased b1 m a2); [|apply (known_recorded b2 m)].
        unfold a2. rewrite recordedSecret_other by done. by apply not_eq_sym.
      * intros e [_ [Hk _]%keepEnv_true]%elem_of_filter_bool. apply isProjectedEnv_agree.
        intros s Hse. symmetry. apply (known_erased b1 m a2). unfold a2.
        rewrite recordedSecret_other by done. congruence.
    + rewrite SliceStable_filter, List.filter_app by apply _.
      rewrite (filter_all _ [_]) by (intros ? ->%list_elem_of_singleton; by apply keepMount_other).
      do 3 f_equal. apply desiredMount_root.
      rewrite (rootValue_filter (keepEnv b1 _)); [done|apply keepEnv_literal|by apply literalRoot_filter, Hl].
  - rewrite SliceStable_filter, List.filter_app by apply _.
    rewrite (filter_all _ [_]) by (intros ? ->%list_elem_of_singleton; by apply keepVolume_other).
    by rewrite (filter_comm (keepVolume b1)).
Qed.

Lemma projectRun_app run1 run2 m : projectRun (run1 ++ run2) m = projectRun run2 (projectRun run1 m).
Proof. apply foldl_app. Qed.

Lemma unproject_run bs b run m :
  (forall b', b' ∈ run -> UID b <> UID b' /\ recordedSecret b (mpt_Annotations m) <> secretName b') ->
  run ⊆ bs -> compatible bs m -> unproject b (projectRun run m) = projectRun run (unproject b m).
Proof.
  revert m. induction run as [|b' run IH]; intros m Hb Hs Hc; [done|].
  change (unproject b (projectRun run (project b' m)) = projectRun run (project b' (unproject b m))).
  assert (b' ∈ bs) as Hb' by set_solver. pose proof (comp_bound _ _ Hc b' Hb') as Hbound.
  destruct (Hb b') as [Hu Hr]; [by left|].
  rewrite IH; [|intros b'' Hb''; destruct (Hb b'') as [??]; [by right|split; [done|]]
               |set_solver|by apply project_compatible].
  - by rewrite unproject_project_comm by (done || apply Hc).
  - by rewrite recordedSecret_project.
Qed.

Lemma project_unbound b m : secretName b = "" -> project b m = unproject b m.
Proof. intros Hs. rewrite project_closed, unproject_closed. unfold projectSpec. by rewrite Hs. Qed.

(** ** The live bindings *)

(** Every live binding is filed under its UID, comes from [bs] and has a secret. *)
Definition tracks (bs : list ServiceBinding) (live : liveBindings) : Prop :=
  forall k b, live !! k = Some b -> UID b = k /\ b ∈ bs /\ secretName b <> "".

Lemma elem_of_versions live b : b ∈ versions live <-> exists k, live !! k = Some b.
Proof.
  unfold versions. rewrite list_elem_of_fmap. split.
  - intros ([k b'] & -> & Hk%elem_of_map_to_list). by exists k.
  - intros [k Hk%elem_of_map_to_list]. by exists (k, b).
Qed.

Lemma elem_of_tracked bs live b :
  tracks bs live -> b ∈ versions live <-> live !! UID b = Some b.
Proof.
  intros Ht. rewrite elem_of_versions. split; [|by eauto].
  intros [k Hk]. by destruct (Ht k b Hk) as [<- _].
Qed.

Lemma versions_insert live b :
  live !! UID b = None -> versions (<[UID b := b]> live) ≡ₚ b :: versions live.
Proof. intros Hn. unfold versions. by rewrite map_to_list_insert. Qed.

Lemma tracks_insert bs live b :
  b ∈ bs -> secretName b <> "" -> tracks bs live -> tracks bs (<[UID b := b]> live).
Proof. intros Hb Hs Ht k b' [[<- <-]|[_ Hk]]%lookup_insert_Some; [done|by apply Ht]. Qed.

Lemma tracks_delete bs live k : tracks bs live -> tracks bs (delete k live).
Proof. intros Ht k' b [_ Hk]%lookup_delete_Some. by apply Ht. Qed.

Section simulation.
Context (bs : list ServiceBinding) (m0 : metaPodTemplate).
Hypothesis Hsep : separate bs m0.
Implicit Types live : liveBindings.

Lemma fresh_recorded b : b ∈ bs -> recordedSecret b (mpt_Annotations m0) = "".
Proof.
  intros Hb. rewrite <-(sep_fresh _ _ Hsep b Hb), unproject_closed. apply recordedSecret_erased.
Qed.

Lemma separate_exclusive b : b ∈ bs -> exclusiveSecret b m0.
Proof. intros Hb. right. intros mc e. by apply (sep_unread _ _ Hsep). Qed.

Lemma live_compatible live : tracks bs live -> compatible (versions live) m0.
Proof.
  intros Ht.
  assert (forall b, b ∈ versions live -> b ∈ bs /\ secretName b <> "") as Hv.
  { intros b [k Hk]%elem_of_versions. by destruct (Ht k b Hk). }
  split.
  - intros b Hb. by apply Hv.
  - intros b e [Hb _]%Hv. by apply (sep_root _ _ Hsep).
  - intros b [Hb _]%Hv. by apply separate_exclusive.
  - intros b1 b2 [H1 Hs1]%Hv [H2 Hs2]%Hv Hu. split; [done..| | | |].
    + by apply (sep_secret _ _ Hsep).
    + by rewrite fresh_recorded by done; apply not_eq_sym.
    + by rewrite fresh_recorded by done; apply not_eq_sym.
    + intros e1 e2. by apply (sep_env _ _ Hsep).
  - intros b1 b2 H1 H2 Hu. rewrite (elem_of_tracked bs) in H1, H2 by done. congruence.
  - apply Hsep.
Qed.

(** One more live binding. *)
Lemma projectLive_insert live b :
  b ∈ bs -> secretName b <> "" -> tracks bs live -> live !! UID b = None ->
  projectLive (<[UID b := b]> live) m0 = project b (projectLive live m0) /\
  projectLive (<[UID b := b]> live) m0 = projectRun (versions live) (project b m0).
Proof.
  intros Hb Hs Ht Hn. pose proof (versions_insert live b Hn) as Hp.
  pose proof (live_compatible _ (tracks_insert _ _ _ Hb Hs Ht)) as Hc.
  change (project b (projectLive live m0)) with (projectRun [b] (projectRun (versions live) m0)).
  unfold projectLive. rewrite <-projectRun_app. split.
  - eapply projectRun_perm; [|done|exact Hc]. by rewrite Hp, Permutation_app_comm.
  - by apply (projectRun_perm (versions (<[UID b := b]> live)) _ (b :: versions live) m0 Hp).
Qed.

(** Removing a binding, whatever its version. *)
Lemma unproject_live live b :
  b ∈ bs -> tracks bs live -> unproject b (projectLive live m0) = projectLive (delete (UID b) live) m0.
Proof.
  intros Hb Ht. pose proof (tracks_delete bs live (UID b) Ht) as Ht'.
  assert (forall b', b' ∈ versions (delete (UID b) live) ->
    b' ∈ bs /\ secretName b' <> "" /\ UID b <> UID b') as Hd.
  { intros b' [k [Hne Hk]%lookup_delete_Some]%elem_of_versions. by destruct (Ht k b' Hk) as (<- & ? & ?). }
  destruct (live !! UID b) as [b0|] eqn:E; cycle 1.
  { rewrite delete_id in * by done. unfold projectLive.
    rewrite (unproject_run (versions live)); [by rewrite (sep_fresh _ _ Hsep)| |done|by apply live_compatible].
    intros b' Hb'. destruct (Hd b' Hb') as (? & ? & ?). split; [done|].
    rewrite fresh_recorded by done. by apply not_eq_sym. }
  destruct (Ht _ _ E) as (Hu & Hb0 & Hs0).
  assert (live = <[UID b0 := b0]> (delete (UID b) live)) as Hl by (by rewrite Hu, insert_delete_id).
  rewrite <-(unproject_uid b0 b) by done. rewrite Hl at 1.
  rewrite (proj2 (projectLive_insert (delete (UID b) live) b0 Hb0 Hs0 Ht'
    ltac:(by rewrite Hu, lookup_delete_eq))).
  rewrite (unproject_run (versions live)).
  - unfold projectLive. f_equal.
    rewrite unproject_project_settled, (sep_fresh _ _ Hsep) by auto using separate_exclusive.
    by apply (sep_ordered _ _ Hsep).
  - intros b' Hb'. destruct (Hd b' Hb') as (Hin & _ & Hne). rewrite Hu. split; [done|].
    rewrite project_recorded by done. apply (sep_secret _ _ Hsep); congruence.
  - intros b' [k [_ Hk]%lookup_delete_Some]%elem_of_versions. apply elem_of_versions. by exists k.
  - apply project_compatible; [by apply live_compatible|]. apply elem_of_versions. by exists (UID b).
Qed.

(** Projecting a binding, whatever its version before. *)
Lemma project_live live b :
  b ∈ bs -> tracks bs live -> secretName b <> "" ->
  project b (projectLive live m0) = projectLive (<[UID b := b]> live) m0.
Proof.
  intros Hb Ht Hs. pose proof (tracks_delete bs live (UID b) Ht) as Ht'.
  rewrite <-insert_delete_eq.
  rewrite (proj1 (projectLive_insert (delete (UID b) live) b Hb Hs Ht' (lookup_delete_eq _ _))).
  rewrite <-unproject_live by done. rewrite !project_closed. unfold projectSpec.
  apply String.eqb_neq in Hs as ->. f_equal. rewrite <-!unproject_closed, unproject_live by done.
  rewrite unproject_live by done. by rewrite delete_delete_eq.
Qed.

(** Projecting what is there already. *)
Lemma project_current live b :
  b ∈ bs -> tracks bs live -> current live b -> project b (projectLive live m0) = projectLive live m0.
Proof.
  intros Hb Ht. unfold current. destruct (live !! UID b) as [b'|] eqn:E.
  - intros He. destruct (Ht _ _ E) as (Hu & Hb' & Hs). rewrite <-(project_essence b' b) by done.
    rewrite project_live by done. by rewrite Hu, insert_id.
  - intros Hs. rewrite (project_unbound b) by done. rewrite unproject_live by done. by rewrite delete_id.
Qed.

Lemma projectedLive_step live b :
  b ∈ bs -> tracks bs live ->
  tracks bs (projectedLive b live) /\
  project b (projectLive live m0) = projectLive (projectedLive b live) m0.
Proof.
  intros Hb Ht. unfold projectedLive. destruct (String.eqb_spec (secretName b) "") as [Hs|Hs].
  - split; [by apply tracks_delete|]. rewrite project_unbound by done. by apply unproject_live.
  - split; [by apply tracks_insert|by apply project_live].
Qed.

Lemma liveAfter_run live run :
  run ⊆ bs -> tracks bs live ->
  tracks bs (liveAfter run live) /\ projectRun run (projectLive live m0) = projectLive (liveAfter run live) m0.
Proof.
  revert live. induction run as [|b run IH]; intros live Hr Ht; [done|].
  destruct (projectedLive_step live b) as [Ht' Hp]; [set_solver|done|].
  change (projectRun (b :: run) ?m) with (projectRun run (project b m)). rewrite Hp.
  apply IH; [set_solver|done].
Qed.

(** A step of the history is a step of the live bindings. *)
Lemma history_step live live' m' :
  tracks bs live -> history bs (live, projectLive live m0) (live', m') ->
  tracks bs live' /\ m' = projectLive live' m0.
Proof.
  intros Ht Hstep. remember (live, _) as s eqn:Es. remember (live', m') as s' eqn:Es'.
  destruct Hstep as [l m run Hr|l m b Hb]; simplify_eq.
  - by apply liveAfter_run.
  - split; [by apply tracks_delete|by apply unproject_live].
Qed.

Lemma history_live live m :
  rtc (history bs) (∅, m0) (live, m) -> tracks bs live /\ m = projectLive live m0.
Proof.
  enough (forall s s', rtc (history bs) s s' -> tracks bs s.1 /\ s.2 = projectLive s.1 m0 ->
    tracks bs s'.1 /\ s'.2 = projectLive s'.1 m0) as H.
  { intros Hr. apply (H _ _ Hr). split; [|done]. intros k b Hk. cbn in Hk. by rewrite lookup_empty in Hk. }
  induction 1 as [s|[l1 m1] [l2 m2] s Hstep _ IH]; [done|]. intros [Ht Hm]. apply IH.
  cbn in *. subst m1. by apply (history_step l1).
Qed.
End simulation.

(** C3 (history). A template whose bindings come, change, lose their secret,
    go away and are projected again by admissions, in any order, depends only
    on the bindings that are live at the end, in their last versions: it is
    what projecting these into the first template gives, in any order. Live
    bindings have their volume exactly once, projecting a current version again
    changes nothing, of a binding that is not live nothing is left, and once all
    of them are gone the template is the first one again. *)
Theorem history_refines bs m0 live m :
  separate bs m0 -> rtc (history bs) (∅, m0) (live, m) ->
  (forall run, (forall b, b ∈ run <-> live !! UID b = Some b) -> m = projectRun run m0) /\
  (forall b, live !! UID b = Some b ->
     List.filter (ownVolume b) (mpt_Volumes m) = [desiredVolume b]) /\
  (forall b, b ∈ bs -> current live b -> project b m = m) /\
  (forall b, b ∈ bs -> live !! UID b = None -> unproject b m = m) /\
  (live = ∅ -> m = m0).
Proof.
  intros Hs Hr. destruct (history_live bs m0 Hs live m Hr) as [Ht ->].
  pose proof (live_compatible bs m0 Hs live Ht) as Hc. split_and!.
  - intros run Hrun. apply (projectRun_same (versions live)); [done..|]. intros b.
    by rewrite Hrun, (elem_of_tracked bs).
  - intros b Hb. apply (projections_converge (versions live)); [done..|]. by rewrite (elem_of_tracked bs).
  - intros b Hb. by apply (project_current bs).
  - intros b Hb Hn. rewrite (unproject_live bs) by done. by rewrite delete_id.
  - by intros ->.
Qed.
