(* ===== verification/TemplateInvariant.v ===== *)
(** * The invariant of projected templates, and the names in them

    What [project] and [unproject] keep true of any template: references
    between its parts do not dangle and a binding is never there twice. And
    the limits within which the names that they give are valid in
    Kubernetes. *)

From Stdlib Require Import Ascii.
From S2P Require Import Prelude GoSort GoPath Json Types Binding BindingSpec BindingLemmas BindingFacts BindingRuns.
Local Open Scope string_scope.

(** The annotation that a variable exposes through the downward API. *)
Definition exposes (key : string) (e : EnvVar) : bool :=
  match ev_ValueFrom e with
  | Some src => match evs_FieldRef src with
                | Some ref => String.eqb (ofs_FieldPath ref) (annotationFieldPath key)
                | None => false
                end
  | None => false
  end.

Definition isProjectedMount (v : VolumeMount) : bool := HasPrefix (vm_Name v) VolumePrefix.

Record wellFormed (m : metaPodTemplate) : Prop := {
  (** names of volumes are unique *)
  wf_volumes : NoDup (map vol_Name (mpt_Volumes m));
  (** mounts are of volumes that exist *)
  wf_mounts mc v : mc ∈ mpt_Containers m -> v ∈ mct_VolumeMounts mc ->
    vm_Name v ∈ map vol_Name (mpt_Volumes m);
  (** no container mounts a binding twice *)
  wf_once mc : mc ∈ mpt_Containers m ->
    NoDup (map vm_Name (List.filter isProjectedMount (mct_VolumeMounts mc)));
  (** the types and providers that variables expose are recorded *)
  wf_exposed mc e uid : mc ∈ mpt_Containers m -> e ∈ mct_Env mc ->
    (exposes (TypeAnnotationPrefix +:+ uid) e = true ->
       is_Some (mpt_Annotations m !! (TypeAnnotationPrefix +:+ uid))) /\
    (exposes (ProviderAnnotationPrefix +:+ uid) e = true ->
       is_Some (mpt_Annotations m !! (ProviderAnnotationPrefix +:+ uid)));
  (** the secret of a projected volume is recorded, so that it can be removed *)
  wf_recorded uid : VolumePrefix +:+ uid ∈ map vol_Name (mpt_Volumes m) ->
    is_Some (mpt_Annotations m !! (SecretAnnotationPrefix +:+ uid));
}.

(** ** Names *)

Lemma string_app_inj_l p s t : p +:+ s = p +:+ t -> s = t.
Proof. induction p as [|a p IH]; [done|]. rewrite !string_app_cons. by intros [= H]; apply IH. Qed.

(** A key with the UID of another binding is not a key of this one. *)
Section keys.
Context (b : ServiceBinding) (uid : string).

Lemma ownKey_secret : ownKey b (SecretAnnotationPrefix +:+ uid) -> uid = UID b.
Proof. intros [H|[H|H]]; [by apply string_app_inj_l in H|done|done]. Qed.

Lemma ownKey_type : ownKey b (TypeAnnotationPrefix +:+ uid) -> uid = UID b.
Proof. intros [H|[H|H]]; [done|by apply string_app_inj_l in H|done]. Qed.

Lemma ownKey_provider : ownKey b (ProviderAnnotationPrefix +:+ uid) -> uid = UID b.
Proof. intros [H|[H|H]]; [done|done|by apply string_app_inj_l in H]. Qed.
End keys.

Lemma exposes_removed b s e :
  keepEnv b s e = true ->
  exposes (TypeAnnotationPrefix +:+ UID b) e = false /\
  exposes (ProviderAnnotationPrefix +:+ UID b) e = false.
Proof.
  intros [_ Hf]%keepEnv_true. unfold usesField in Hf. unfold exposes.
  destruct (ev_ValueFrom e) as [src|]; [|done]. destruct (evs_FieldRef src) as [ref|]; [|done].
  by apply orb_false_iff in Hf.
Qed.

Lemma elem_of_map {A B} (f : A -> B) l y : y ∈ map f l <-> exists x, y = f x /\ x ∈ l.
Proof. rewrite list_elem_of_In, in_map_iff. setoid_rewrite list_elem_of_In. naive_solver. Qed.

Lemma NoDup_map_filter {A B} (f : A -> B) (p : A -> bool) l :
  NoDup (map f l) -> NoDup (map f (List.filter p l)).
Proof.
  induction l as [|x l IH]; [done|]. cbn. intros [Hx Hl]%NoDup_cons.
  destruct (p x); [|by apply IH]. cbn. apply NoDup_cons. split; [|by apply IH].
  intros (y & Hy & [Hin _]%elem_of_filter_bool)%elem_of_map. apply Hx, elem_of_map. eauto.
Qed.

(** ** Removing keeps the invariant *)

Lemma unproject_wf b m : wellFormed m -> wellFormed (unproject b m).
Proof.
  intros [Hv Hm Ho He Hr]. rewrite unproject_closed.
  assert (forall mc, mc ∈ mpt_Containers (unprojectSpec b m) -> exists mc0, mc0 ∈ mpt_Containers m /\
    mc = unboundContainer b (recordedSecret b (mpt_Annotations m)) mc0) as Hc.
  { intros mc (mc0 & -> & Hin)%elem_of_map. eauto. }
  split; cbn [mpt_Volumes mpt_Annotations unprojectSpec].
  - by apply NoDup_map_filter.
  - intros mc v (mc0 & Hin & ->)%Hc [Hk Hv0]%elem_of_filter_bool.
    destruct (proj1 (elem_of_map _ _ _) (Hm mc0 v Hin Hk)) as (vol & Hn & Hvol).
    apply elem_of_map. exists vol. split; [done|]. apply elem_of_filter_bool. split; [done|].
    unfold keepVolume. by rewrite <-Hn.
  - intros mc (mc0 & Hin & ->)%Hc. cbn. rewrite filter_comm. by apply NoDup_map_filter, Ho.
  - intros mc e uid (mc0 & Hin & ->)%Hc [He0 Hk]%elem_of_filter_bool.
    apply exposes_removed in Hk as [Ht Hp]. destruct (He mc0 e uid Hin He0) as [Het Hep].
    split; intros Hx; rewrite lookup_erased, decide_False; auto.
    + intros ->%ownKey_type. congruence.
    + intros ->%ownKey_provider. congruence.
  - intros uid (v & Hn & [Hin Hk]%elem_of_filter_bool)%elem_of_map.
    rewrite lookup_erased, decide_False.
    + apply Hr, elem_of_map. eauto.
    + intros ->%ownKey_secret. unfold keepVolume in Hk. rewrite <-Hn in Hk.
      apply negb_true_iff, String.eqb_neq in Hk. by apply Hk.
Qed.

(** ** Binding keeps it, in a template without the binding *)

Lemma map_sorted {A B} (f : A -> B) less `{!StrictWeakOrder less} l :
  map f (SliceStable less l) ≡ₚ map f l.
Proof. apply Permutation_map, (sorted_perm _ _ _ (SliceStable_spec _ _)). Qed.

Lemma recorded_is_Some b a k : is_Some (a !! k) -> is_Some (recordedAnnotations b a !! k).
Proof.
  intros Hk. unfold recordedAnnotations.
  destruct (hasType b), (hasProvider b); rewrite ?lookup_insert_is_Some'; auto.
Qed.

Lemma desiredEnv_exposes b a uid e :
  e ∈ desiredEnv b ->
  (exposes (TypeAnnotationPrefix +:+ uid) e = true ->
     is_Some (recordedAnnotations b a !! (TypeAnnotationPrefix +:+ uid))) /\
  (exposes (ProviderAnnotationPrefix +:+ uid) e = true ->
     is_Some (recordedAnnotations b a !! (ProviderAnnotationPrefix +:+ uid))).
Proof.
  intros (x & -> & _)%elem_of_map. unfold desiredEnvVar, recordedAnnotations.
  destruct (hasType b) eqn:Ht, (hasProvider b) eqn:Hp, (String.eqb (em_Key x) "type"),
    (String.eqb (em_Key x) "provider"); cbn [andb]; unfold exposes; cbn;
    split; try done; intros Heq%String.eqb_eq%annotationFieldPath_inj;
    rewrite <-Heq, ?lookup_insert_is_Some'; auto; by destruct (type_provider_ne b b).
Qed.

Section bind.
Context (b : ServiceBinding) (m : metaPodTemplate).
Hypothesis Hw : wellFormed m.
Hypothesis Hfree : volumeName b ∉ map vol_Name (mpt_Volumes m).

Lemma bound_names v : v ∈ map vol_Name (mpt_Volumes (bindSpec b m)) <->
  v ∈ map vol_Name (mpt_Volumes m) \/ v = volumeName b.
Proof.
  cbn [mpt_Volumes bindSpec]. rewrite (map_sorted vol_Name), map_app, elem_of_app by apply _.
  cbn. by rewrite list_elem_of_singleton.
Qed.

Lemma bound_once mc env :
  mc ∈ mpt_Containers m ->
  NoDup (map vm_Name (List.filter isProjectedMount
    (SliceStable lessVolumeMount (mct_VolumeMounts mc ++ [desiredMount b env])))).
Proof.
  intros Hmc. rewrite SliceStable_filter, (map_sorted vm_Name), List.filter_app, map_app by apply _.
  apply NoDup_app. split_and!; [by apply (wf_once _ Hw)| |cbn; destruct (isProjectedMount _); repeat constructor; set_solver].
  intros n (v & -> & [Hv _]%elem_of_filter_bool)%elem_of_map (d & Hd & [Hin _]%elem_of_filter_bool)%elem_of_map.
  apply list_elem_of_singleton in Hin as ->. cbn in Hd. apply Hfree. rewrite <-Hd.
  by apply (wf_mounts _ Hw mc).
Qed.

Lemma bind_wf : wellFormed (bindSpec b m).
Proof.
  set (a := recordedAnnotations b (mpt_Annotations m)).
  set (S := knownProjectedSecrets (set_mpt_Annotations a m)).
  assert (forall mc, mc ∈ mpt_Containers (bindSpec b m) ->
    exists mc0, mc0 ∈ mpt_Containers m /\ mc = boundContainer b S mc0) as Hc.
  { intros mc (mc0 & -> & Hin)%elem_of_map. eauto. }
  split.
  - cbn. rewrite (map_sorted vol_Name), map_app by apply _.
    apply NoDup_app. split_and!; [apply Hw| |repeat constructor; set_solver].
    intros n Hn ->%list_elem_of_singleton. done.
  - intros mc v (mc0 & Hin & ->)%Hc Hv. apply bound_names. unfold boundContainer in Hv.
    destruct (isContainerBindable b mc0); [|left; by apply (wf_mounts _ Hw mc0)]. cbn in Hv.
    rewrite elem_of_SliceStable in Hv by apply _.
    apply elem_of_app in Hv as [Hv| ->%list_elem_of_singleton]; [left; by apply (wf_mounts _ Hw mc0)|by right].
  - intros mc (mc0 & Hin & ->)%Hc. unfold boundContainer.
    destruct (isContainerBindable b mc0); [by apply bound_once|by apply (wf_once _ Hw)].
  - intros mc e uid (mc0 & Hin & ->)%Hc He. cbn [mpt_Annotations bindSpec].
    assert (e ∈ mct_Env mc0 \/ e = defaultRoot \/ e ∈ desiredEnv b) as [He0|[-> |Hd]].
    { unfold boundContainer in He. destruct (isContainerBindable b mc0); [|by left]. cbn in He.
      rewrite elem_of_SliceStable in He by apply _.
      apply elem_of_app in He as [[?| ?]%elem_of_withRoot|?]; auto. }
    + destruct (wf_exposed _ Hw mc0 e uid Hin He0) as [Ht Hp].
      split; intros Hx; apply recorded_is_Some; auto.
    + done.
    + by apply desiredEnv_exposes.
  - intros uid [Hn|Hn]%bound_names; cbn [mpt_Annotations bindSpec].
    + by apply recorded_is_Some, (wf_recorded _ Hw).
    + apply string_app_inj_l in Hn as ->. exists (secretName b). apply lookup_recorded_secret.
Qed.
End bind.

(** C4 (invariant). [project] and [unproject] keep a template well formed:
    volume names stay unique, every mount is of a volume that exists, no
    container mounts a binding twice, every type or provider that a variable
    exposes is recorded in an annotation, and so is the secret of every
    projected volume, which [unproject] needs in order to find the variables. *)
Theorem project_wellFormed b m :
  wellFormed m -> wellFormed (project b m) /\ wellFormed (unproject b m).
Proof.
  intros Hw. pose proof (unproject_wf b m Hw) as Hu. split; [|done].
  rewrite project_closed. unfold projectSpec. rewrite <-unproject_closed.
  destruct (String.eqb _ _); [done|]. apply bind_wf; [done|].
  rewrite unproject_closed. intros (v & Hn & Hv%keepVolume_filtered)%elem_of_map. congruence.
Qed.

(** ** Limits of names *)

Definition between (lo hi c : Ascii.ascii) : bool :=
  Nat.leb (Ascii.nat_of_ascii lo) (Ascii.nat_of_ascii c) &&
  Nat.leb (Ascii.nat_of_ascii c) (Ascii.nat_of_ascii hi).
Definition isAlphaNum (c : Ascii.ascii) : bool := between "a"%char "z"%char c || between "0"%char "9"%char c.
Definition isLabelChar (c : Ascii.ascii) : bool := isAlphaNum c || Ascii.eqb c "-"%char.

(** A label of Kubernetes: lower case letters, digits and dashes, with a letter
    or a digit at either end. *)
Definition isLabel (s : string) : bool :=
  let cs := String.list_ascii_of_string s in
  forallb isLabelChar cs &&
  match head cs, last cs with Some c, Some d => isAlphaNum c && isAlphaNum d | _, _ => false end.

Definition maxNameLength : nat := 63.

(** The names of volumes, and the part of an annotation key behind the [/]. *)
Definition isValidName (s : string) : bool := isLabel s && Nat.leb (String.length s) maxNameLength.

Lemma chars_app s t :
  String.list_ascii_of_string (s +:+ t) =
  (String.list_ascii_of_string s ++ String.list_ascii_of_string t)%list.
Proof. induction s as [|c s IH]; [done|]. rewrite string_app_cons. cbn. by rewrite IH. Qed.

(** A prefix of label characters that starts well may precede any label. *)
Lemma isLabel_prefix c p s :
  isAlphaNum c = true -> forallb isLabelChar (String.list_ascii_of_string p) = true ->
  isLabel s = true -> isLabel (String c p +:+ s) = true.
Proof.
  unfold isLabel. intros Hc Hp [Hs He]%andb_prop. rewrite chars_app.
  cbn [String.list_ascii_of_string]. set (q := c :: String.list_ascii_of_string p).
  assert (forallb isLabelChar q = true) as Hq.
  { cbn. rewrite Hp. unfold isLabelChar. by rewrite Hc. }
  destruct (String.list_ascii_of_string s) as [|d l]; [done|].
  rewrite forallb_app, Hq, Hs, last_app. cbn [andb].
  destruct (last (d :: l)) as [x|]; [|done]. cbn in He |- *. rewrite Hc.
  by apply andb_prop in He as [_ ->].
Qed.

Lemma isValidName_prefix c p s :
  isAlphaNum c = true -> forallb isLabelChar (String.list_ascii_of_string p) = true ->
  isLabel s = true ->
  (isValidName (String c p +:+ s) = true <-> S (String.length p) + String.length s <= maxNameLength).
Proof.
  intros Hc Hp Hs. unfold isValidName. rewrite isLabel_prefix by done.
  rewrite string_app_length. cbn [String.length andb]. by rewrite Nat.leb_le.
Qed.

(** C33 (bounds). For a UID of lower case letters, digits and dashes, the name of
    the volume, and the names of the three annotations behind the group, are
    valid up to exactly 48, 56, 58 and 54 characters of the UID: the UIDs of
    Kubernetes, which have 36, are well within. *)
Theorem names_valid b :
  isLabel (UID b) = true ->
  (isValidName (volumeName b) = true <-> String.length (UID b) <= 48) /\
  exists secret type provider,
    secretAnnotationName b = Group +:+ ("/" +:+ secret) /\
    typeAnnotationName b = Group +:+ ("/" +:+ type) /\
    providerAnnotationName b = Group +:+ ("/" +:+ provider) /\
    (isValidName secret = true <-> String.length (UID b) <= 56) /\
    (isValidName type = true <-> String.length (UID b) <= 58) /\
    (isValidName provider = true <-> String.length (UID b) <= 54).
Proof.
  intros Hu. split.
  - etrans; [by apply isValidName_prefix|]. unfold maxNameLength. cbn. lia.
  - exists ("secret-" +:+ UID b), ("type-" +:+ UID b), ("provider-" +:+ UID b).
    split_and!; [done..| | |]; (etrans; [by apply isValidName_prefix|]); unfold maxNameLength; cbn; lia.
Qed.
