(* ===== verification/BindingWitnesses.v ===== *)
(** * The projector at concrete objects

    The properties of [BindingFacts.v] at the sample bindings, and two runs
    that show what happens when their conditions fail. *)

From stdpp Require Import relations.
From S2P Require Import Prelude GoSort GoPath Json Types Samples Binding BindingSpec BindingLemmas BindingFacts BindingRuns BindingHistory TemplateInvariant.
Local Open Scope string_scope.

(** ** Deciding the conditions *)

Section decide.
Implicit Types (b : ServiceBinding) (m : metaPodTemplate).

Lemma exclusiveSecret_bool b m :
  forallb (fun mc => forallb (fun e => negb (usesSecret (secretName b) e)) (mct_Env mc))
    (mpt_Containers m) = true -> exclusiveSecret b m.
Proof.
  intros H. right. intros mc e Hmc He. rewrite forallb_forall in H.
  apply list_elem_of_In in Hmc, He. specialize (H mc Hmc).
  rewrite forallb_forall in H. by apply negb_true_iff, H.
Qed.

Definition isLiteral (e : EnvVar) : bool :=
  match ev_ValueFrom e with None => true | _ => false end.

Lemma literalRoot_bool env :
  forallb (fun e => negb (isRoot e) || isLiteral e) env = true -> literalRoot env.
Proof.
  intros H e He%list_elem_of_In Hr. rewrite forallb_forall in H. specialize (H e He).
  rewrite Hr in H. unfold isLiteral in H. by destruct (ev_ValueFrom e).
Qed.

Lemma literalRoots_bool m :
  forallb (fun mc => forallb (fun e => negb (isRoot e) || isLiteral e) (mct_Env mc))
    (mpt_Containers m) = true -> literalRoots m.
Proof.
  intros H mc Hmc%list_elem_of_In. rewrite forallb_forall in H. by apply literalRoot_bool, H.
Qed.
End decide.

Lemma mysql_redis_independent : independent mysql redis sampleTemplate.
Proof.
  split; try done. intros e1 e2. cbn. rewrite !elem_of_cons, !elem_of_nil.
  naive_solver.
Qed.

(** Both bindings can share a template in which nobody reads their secrets. *)
Lemma mysql_redis_compatible m :
  independent mysql redis m -> exclusiveSecret mysql m -> exclusiveSecret redis m -> literalRoots m ->
  compatible [mysql; redis] m.
Proof.
  intros Hi He1 He2 Hl.
  assert (forall b, b ∈ [mysql; redis] -> b = mysql \/ b = redis) as Hb.
  { intros b. rewrite !elem_of_cons, elem_of_nil. naive_solver. }
  split; [|intros b e [-> | ->]%Hb| | | |done].
  - by intros b [-> | ->]%Hb.
  - cbn. rewrite !elem_of_cons, elem_of_nil. by intros [-> |[-> |[]]].
  - cbn. rewrite !elem_of_cons, elem_of_nil. by intros [-> |[]].
  - by intros b [-> | ->]%Hb.
  - intros b1 b2 [-> | ->]%Hb [-> | ->]%Hb Hu; try done. by apply independent_sym.
  - by intros b1 b2 [-> | ->]%Hb [-> | ->]%Hb.
Qed.

Lemma run_sub {A} (a b : A) : [b; a; b; b; a] ⊆ [a; b].
Proof. set_solver. Qed.
Lemma run_covers {A} (a b : A) : [a; b] ⊆ [b; a; b; b; a].
Proof. set_solver. Qed.

(** ** Witnesses *)

Lemma project_idempotent_witness :
  project mysql (project mysql sampleTemplate) = project mysql sampleTemplate.
Proof.
  apply project_idempotent; [by apply exclusiveSecret_bool|by apply literalRoots_bool].
Defined.

Lemma project_commute_witness :
  project mysql (project redis sampleTemplate) = project redis (project mysql sampleTemplate).
Proof.
  apply project_commute; [apply mysql_redis_independent|by apply exclusiveSecret_bool
    |by apply exclusiveSecret_bool|by apply literalRoots_bool].
Defined.

Lemma projections_converge_witness :
  projectRun [redis; mysql; redis; redis; mysql] sampleTemplate = projectRun [mysql; redis] sampleTemplate.
Proof.
  refine (proj1 (projections_converge [mysql; redis] _ sampleTemplate _ (run_sub mysql redis)
    (run_covers mysql redis))).
  apply mysql_redis_compatible; [apply mysql_redis_independent|by apply exclusiveSecret_bool
    |by apply exclusiveSecret_bool|by apply literalRoots_bool].
Defined.

Lemma project_volumes_witness :
  List.filter (ownVolume mysql) (mpt_Volumes (project mysql sampleTemplate)) = [desiredVolume mysql].
Proof. apply (project_volumes mysql sampleTemplate). done. Defined.

Lemma project_mounts_witness :
  exists mc', mpt_Containers (project mysql sampleTemplate) !! 0 = Some mc' /\
    List.filter (ownMount mysql) (mct_VolumeMounts mc') =
      [mkVolumeMount "servicebinding-uid-1" true "/svc/mysql" ∅].
Proof.
  destruct (project_mounts mysql sampleTemplate 0 appContainer) as (mc' & H & _ & Hown & _);
    [done|done|by apply literalRoot_bool|].
  exists mc'. split; [exact H|exact Hown].
Defined.

Lemma project_env_witness :
  exists mc', mpt_Containers (project mysql sampleTemplate) !! 1 = Some mc' /\
    mct_Env mc' ≡ₚ (withRoot [] ++ desiredEnv mysql)%list.
Proof.
  destruct (project_env mysql sampleTemplate 1 sidecar) as (mc' & H & Henv & _); [done|done|].
  exists mc'. split; [exact H|exact Henv].
Defined.


Lemma unproject_clean_witness : project pending sampleTemplate = unproject pending sampleTemplate.
Proof. apply (unproject_clean pending sampleTemplate). done. Defined.

(** The host of the reporting binding goes away with the other binding, its type stays. *)
Lemma unproject_shared_secret_witness :
  exists before after,
    mpt_Containers (project reporting sampleTemplate) !! 0 = Some before /\
    mpt_Containers (unproject mysql (project mysql (project reporting sampleTemplate))) !! 0 = Some after /\
    secretKeyEnv "REPORT_HOST" "mysql-secret" "host" ∈ mct_Env before /\
    ~ (secretKeyEnv "REPORT_HOST" "mysql-secret" "host" ∈ mct_Env after) /\
    fieldRefEnv "REPORT_TYPE" (typeAnnotationName reporting) ∈ mct_Env after.
Proof.
  destruct (unproject_shared_secret mysql reporting sampleTemplate ltac:(discriminate) eq_refl ltac:(discriminate))
    as (_ & Henv & _ & _).
  destruct (Henv 0 appContainer eq_refl eq_refl) as (before & after & Hb & Ha & Hem & _).
  destruct (Hem (mkEnvMapping "REPORT_HOST" "host") ltac:(by left)) as [Hbefore Hhost].
  destruct (Hem (mkEnvMapping "REPORT_TYPE" "type") ltac:(by right; left)) as [_ Htype].
  exists before, after. split_and!; [exact Hb|exact Ha|exact Hbefore| |by apply Htype].
  intros H%Hhost. discriminate.
Defined.

Lemma mount_paths_distinct_witness :
  vm_MountPath (desiredMount mysql []) = "/bindings/mysql" /\
  vm_MountPath (desiredMount mysql []) <> vm_MountPath (desiredMount redis []).
Proof.
  apply (mount_paths_distinct mysql redis [] ["bindings"]); try done. by repeat constructor.
Defined.

(** ** When the secret is not exclusive *)

Definition hasEnv (name : string) (m : metaPodTemplate) : bool :=
  existsb (fun mc => existsb (fun e => String.eqb (ev_Name e) name) (mct_Env mc)) (mpt_Containers m).

(** A user's variable is lost: the author of the container reads the
    secret of the binding directly. The first projection keeps the variable; a
    second one takes it for its own and removes it, so projecting is not
    idempotent there. *)
Example project_twice_drops_user_env :
  hasEnv "MY_PASSWORD" (project mysql secretReader) = true /\
  hasEnv "MY_PASSWORD" (project mysql (project mysql secretReader)) = false /\
  project mysql (project mysql secretReader) <> project mysql secretReader.
Proof.
  split; [by vm_compute|]. split; [by vm_compute|].
  intros H. apply (f_equal (hasEnv "MY_PASSWORD")) in H. by vm_compute in H.
Qed.

(** ** The invariant and the names *)

Lemma sampleTemplate_wf : wellFormed sampleTemplate.
Proof.
  assert (forall mc, mc ∈ mpt_Containers sampleTemplate -> mc = appContainer \/ mc = sidecar) as Hc.
  { intros mc. cbn. rewrite !elem_of_cons, elem_of_nil. naive_solver. }
  split.
  - vm_compute. repeat constructor; set_solver.
  - intros mc v [-> | ->]%Hc; cbn; set_solver.
  - intros mc [-> | ->]%Hc; vm_compute; constructor.
  - intros mc e uid [-> | ->]%Hc; cbn; rewrite ?elem_of_cons, elem_of_nil; [|done].
    by intros [-> |[-> |[]]].
  - intros uid. cbn. rewrite !elem_of_cons, elem_of_nil. by intros [|[|[]]].
Qed.

Lemma project_wellFormed_witness :
  wellFormed (project mysql sampleTemplate) /\ wellFormed (unproject mysql sampleTemplate).
Proof. exact (project_wellFormed mysql sampleTemplate sampleTemplate_wf). Defined.

Lemma names_valid_witness :
  isLabel (UID mysql) = true /\ (isValidName (volumeName mysql) = true <-> String.length (UID mysql) <= 48).
Proof. exact (conj eq_refl (proj1 (names_valid mysql eq_refl))). Defined.

(** ** A history *)

(** A later version of the MySQL binding: another secret, type and mapping, for
    one container only. *)
Definition mysqlRenewed : ServiceBinding :=
  mkServiceBinding (sampleMeta "mysql" "uid-1")
    (mkServiceBindingSpec "mysql" "mariadb" ""
       (mkWorkloadReference "apps/v1" "Deployment" "my-workload" None ["app"])
       (mkServiceReference "example/v1" "MyService" "mysql") [mkEnvMapping "DB_PORT" "port"])
    (mkServiceBindingStatus 2 [] (Some (mkSecretReference "renewed-secret"))).

Definition sampleVersions : list ServiceBinding := [mysql; mysqlRenewed; redis; pending].

(** The conditions on the versions and on the variables of a template, decided. *)
Definition separateVersions (bs : list ServiceBinding) : bool :=
  forallb (fun b1 =>
    forallb (fun e => negb (String.eqb (em_Name e) ServiceBindingRootEnv)) (sbs_Env (sb_Spec b1)) &&
    forallb (fun b2 => String.eqb (UID b1) (UID b2) ||
      ((String.eqb (secretName b1) "" || negb (String.eqb (secretName b1) (secretName b2))) &&
       forallb (fun e1 => forallb (fun e2 => negb (String.eqb (em_Name e1) (em_Name e2)))
         (sbs_Env (sb_Spec b2))) (sbs_Env (sb_Spec b1)))) bs) bs.

Definition unreadIn (m : metaPodTemplate) (b : ServiceBinding) : bool :=
  forallb (fun mc => forallb (fun e => negb (usesSecret (secretName b) e)) (mct_Env mc)) (mpt_Containers m).

Lemma separate_bool bs m :
  separateVersions bs = true -> forallb (unreadIn m) bs = true -> literalRoots m ->
  Forall (fun b => unproject b m = m /\ orderedFor b m) bs -> separate bs m.
Proof.
  intros Hv Hu Hl Hm. rewrite Forall_forall in Hm.
  assert (forall b1, b1 ∈ bs ->
    (forall e, e ∈ sbs_Env (sb_Spec b1) -> em_Name e <> ServiceBindingRootEnv) /\
    forall b2, b2 ∈ bs -> UID b1 <> UID b2 ->
      (secretName b1 <> "" -> secretName b1 <> secretName b2) /\
      forall e1 e2, e1 ∈ sbs_Env (sb_Spec b1) -> e2 ∈ sbs_Env (sb_Spec b2) -> em_Name e1 <> em_Name e2) as H.
  { intros b1 H1. unfold separateVersions in Hv. apply forallb_elem with (x := b1) in Hv; [|done].
    apply andb_prop in Hv as [Hr Hp]. split.
    { intros e He. apply forallb_elem with (x := e) in Hr; [|done]. by apply String.eqb_neq, negb_true_iff. }
    intros b2 H2 Hne%String.eqb_neq. apply forallb_elem with (x := b2) in Hp; [|done].
    rewrite Hne in Hp. cbn in Hp. apply andb_prop in Hp as [Hs He]. split.
    { intros Hb%String.eqb_neq. rewrite Hb in Hs. by apply String.eqb_neq, negb_true_iff. }
    intros e1 e2 He1 He2. apply forallb_elem with (x := e1) in He; [|done].
    apply forallb_elem with (x := e2) in He; [|done]. by apply String.eqb_neq, negb_true_iff. }
  split; [apply Hm..| |done| | |].
  - intros b mc e Hb Hmc He. apply forallb_elem with (x := b) in Hu; [|done].
    apply forallb_elem with (x := mc) in Hu; [|done]. apply forallb_elem with (x := e) in Hu; [|done].
    by apply negb_true_iff.
  - intros b e Hb. by apply H.
  - intros b1 b2 H1 H2 Hne. by apply (H b1 H1).
  - intros b1 b2 e1 e2 H1 H2 Hne. by apply (H b1 H1).
Qed.

Lemma sampleVersions_separate : separate sampleVersions rootedTemplate.
Proof.
  apply separate_bool; [by vm_compute|by vm_compute|by apply literalRoots_bool|].
  repeat constructor; by vm_compute.
Qed.

(** MySQL and Redis come, MySQL changes, an admission sees also a binding without
    a secret, and Redis goes. *)
Definition sampleHistory : metaPodTemplate :=
  unproject redis (projectRun [redis; mysqlRenewed; pending]
    (projectRun [mysqlRenewed] (projectRun [redis] (projectRun [mysql] rootedTemplate)))).

Definition sampleLive : liveBindings := {[ "uid-1" := mysqlRenewed ]}.

#[local] Ltac sample_versions := intros b; unfold sampleVersions; set_solver.

Lemma sampleHistory_steps : rtc (history sampleVersions) (∅, rootedTemplate) (sampleLive, sampleHistory).
Proof.
  assert (delete (UID redis) (liveAfter [redis; mysqlRenewed; pending]
    (liveAfter [mysqlRenewed] (liveAfter [redis] (liveAfter [mysql] ∅)))) = sampleLive) as <- by by vm_compute.
  eapply rtc_l; [apply (history_projected _ _ _ [mysql]); sample_versions|].
  eapply rtc_l; [apply (history_projected _ _ _ [redis]); sample_versions|].
  eapply rtc_l; [apply (history_projected _ _ _ [mysqlRenewed]); sample_versions|].
  eapply rtc_l; [apply (history_projected _ _ _ [redis; mysqlRenewed; pending]); sample_versions|].
  eapply rtc_once, (history_removed _ _ _ redis). by repeat constructor.
Qed.

Lemma history_refines_witness :
  sampleHistory = projectRun [mysqlRenewed] rootedTemplate /\
  unproject mysqlRenewed sampleHistory = rootedTemplate.
Proof.
  split.
  - refine (proj1 (history_refines sampleVersions rootedTemplate sampleLive sampleHistory
      sampleVersions_separate sampleHistory_steps) _ _).
    intros b. rewrite list_elem_of_singleton. unfold sampleLive. rewrite lookup_singleton_Some. naive_solver.
  - refine (proj2 (proj2 (proj2 (proj2 (history_refines sampleVersions rootedTemplate ∅ _
      sampleVersions_separate _)))) eq_refl).
    eapply rtc_r; [exact sampleHistory_steps|].
    assert (delete (UID mysqlRenewed) sampleLive = ∅) as <- by by vm_compute.
    apply history_removed. by repeat constructor.
Defined.
