(* ===== verification/Tree.v ===== *)
(** * Locations in a JSON tree

    A reference into an unstructured object is modelled as the path from its
    root ([loc]). [lookup_at] follows a reference, [put_at] replaces what it
    refers to. [get_loc] and [set_loc] are reading and writing at a location
    the way [getAt] and [setAt] do it: missing or [null] members read as
    nothing, and are created as objects on the way of a write. They satisfy
    the laws of a lens, and accesses at disjoint locations do not interfere. *)

From S2P Require Import Prelude Json.

Inductive step :=
  | Field (k : string)
  | Index (i : nat).

#[export] Instance step_eq_dec : EqDecision step.
Proof. solve_decision. Defined.

Definition loc : Type := list step.

Definition child (s : step) (j : json) : option json :=
  match s, j with
  | Field k, JObj m => m !! k
  | Index i, JArr l => l !! i
  | _, _ => None
  end.

Definition set_child (s : step) (x j : json) : json :=
  match s, j with
  | Field k, JObj m => JObj (<[k := x]> m)
  | Index i, JArr l => JArr (<[i := x]> l)
  | _, _ => j
  end.

Fixpoint lookup_at (l : loc) (j : json) : option json :=
  match l with
  | [] => Some j
  | s :: l' => child s j ≫= lookup_at l'
  end.

Fixpoint put_at (l : loc) (x j : json) : json :=
  match l with
  | [] => x
  | s :: l' => match child s j with
               | Some c => set_child s (put_at l' x c) j
               | None => j
               end
  end.

Lemma lookup_at_app l1 l2 j : lookup_at (l1 ++ l2) j = lookup_at l1 j ≫= lookup_at l2.
Proof.
  revert j. induction l1 as [|s l1 IH]; intros j; [done|]. cbn.
  destruct (child s j); cbn; [apply IH|done].
Qed.

Lemma put_at_app l1 l2 x j c :
  lookup_at l1 j = Some c -> put_at (l1 ++ l2) x j = put_at l1 (put_at l2 x c) j.
Proof.
  revert j. induction l1 as [|s l1 IH]; intros j; cbn; [by intros [= ->]|].
  destruct (child s j) as [d|]; cbn; [|done]. intros H. by rewrite (IH d).
Qed.

Lemma child_set_child s x j c : child s j = Some c -> child s (set_child s x j) = Some x.
Proof.
  destruct s, j; cbn; try done.
  - intros. by rewrite lookup_insert_eq.
  - intros H. apply lookup_lt_Some in H. by apply list_lookup_insert_eq.
Qed.

Lemma child_set_child_ne s s' x j : s <> s' -> child s' (set_child s x j) = child s' j.
Proof.
  destruct s, s', j; cbn; intros H; try done.
  - rewrite lookup_insert_ne; congruence.
  - rewrite list_lookup_insert_ne; congruence.
Qed.

Lemma set_child_twice s x y j c :
  child s j = Some c -> set_child s x (set_child s y j) = set_child s x j.
Proof.
  destruct s, j; cbn; try done; intros _; f_equal.
  - apply insert_insert_eq.
  - apply list_insert_insert_eq.
Qed.

Lemma set_child_id s j c : child s j = Some c -> set_child s c j = j.
Proof.
  destruct s, j; cbn; try done; intros H; f_equal.
  - by apply insert_id.
  - by apply list_insert_id.
Qed.

Lemma lookup_put_at l x j c : lookup_at l j = Some c -> lookup_at l (put_at l x j) = Some x.
Proof.
  revert j. induction l as [|s l IH]; intros j; cbn; [done|].
  destruct (child s j) as [d|] eqn:E; cbn; [|done]. intros H.
  rewrite (child_set_child s _ _ d) by done. cbn. by apply IH.
Qed.

Lemma put_at_twice l x y j c :
  lookup_at l j = Some c -> put_at l x (put_at l y j) = put_at l x j.
Proof.
  revert j. induction l as [|s l IH]; intros j; cbn; [done|].
  destruct (child s j) as [d|] eqn:E; cbn; [|done]. intros H.
  rewrite (child_set_child s _ _ d) by done. by rewrite IH, (set_child_twice s _ _ _ d).
Qed.

Lemma put_at_id l j c : lookup_at l j = Some c -> put_at l c j = j.
Proof.
  revert j. induction l as [|s l IH]; intros j; cbn; [congruence|].
  destruct (child s j) as [d|] eqn:E; cbn; [|done]. intros H.
  by rewrite IH, (set_child_id s j d).
Qed.

(** ** Reading and writing like [getAt] and [setAt] *)

Definition isNull (j : json) : bool := match j with JNull => true | _ => false end.

(** A path that runs into a value without members: the code reports a slice as
    an unhandled kind, and [reflect] panics when it is asked whether a scalar
    is nil. *)
Definition no_members {A} (j : json) : outcome A :=
  match j with
  | JArr _ => Err (ErrOther "unhandled kind")
  | _ => Panic "reflect: call of reflect.Value.IsNil"
  end.

Fixpoint get_loc (p : loc) (j : json) : outcome (option json) :=
  if isNull j then Ok None
  else match p with
       | [] => Ok (Some j)
       | s :: p' =>
           match child s j with
           | Some c => get_loc p' c
           | None => match s, j with
                     | Field _, JObj _ => Ok None
                     | _, _ => no_members j
                     end
           end
       end.

(** An absent or [null] member becomes an object. *)
Definition vivify (c : option json) : json :=
  match c with
  | Some JNull | None => JObj ∅
  | Some c => c
  end.

Fixpoint set_loc (p : loc) (v j : json) : outcome json :=
  match p with
  | [] => Ok v
  | s :: p' =>
      match s, j with
      | Field _, JObj _ =>
          c ← (match p' with [] => Ok v | _ => set_loc p' v (vivify (child s j)) end);
          Ok (set_child s c j)
      | Index _, JArr _ =>
          match child s j with
          | Some c => c' ← set_loc p' v c; Ok (set_child s c' j)
          | None => no_members j
          end
      | _, _ => no_members j
      end
  end.

Lemma set_loc_field k p v m :
  set_loc (Field k :: p) v (JObj m) =
  (c ← set_loc p v (match p with [] => v | _ => vivify (m !! k) end); Ok (JObj (<[k := c]> m))).
Proof. by destruct p. Qed.

(** ** Laws *)

Lemma get_set_loc p v j j' :
  isNull v = false -> set_loc p v j = Ok j' -> get_loc p j' = Ok (Some v).
Proof.
  intros Hv. revert j j'. induction p as [|s p IH]; intros j j'.
  { intros [= <-]. cbn. by rewrite Hv. }
  destruct s as [k|i], j as [| | | |l|m]; try done.
  - rewrite set_loc_field. intros (c & Hc & [= <-])%bind_Ok. cbn.
    rewrite lookup_insert_eq. by eapply IH.
  - cbn. destruct (l !! i) as [c|] eqn:E; [|done].
    intros (c' & Hc & [= <-])%bind_Ok. cbn.
    rewrite list_lookup_insert_eq by by eapply lookup_lt_Some. by eapply IH.
Qed.

Lemma set_get_loc p v j :
  isNull j = false -> get_loc p j = Ok (Some v) -> set_loc p v j = Ok j.
Proof.
  revert j. induction p as [|s p IH]; intros j Hj; cbn [get_loc]; rewrite Hj.
  { by intros [= ->]. }
  destruct s as [k|i], j as [| | | |l|m]; try done; cbn [child].
  - destruct (m !! k) as [c|] eqn:E; [|done]. intros H.
    assert (isNull c = false) as Hc by (destruct p; cbn in H; by destruct (isNull c)).
    rewrite set_loc_field, E.
    assert (set_loc p v (match p with [] => v | _ => vivify (Some c) end) = Ok c) as ->.
    { destruct p as [|s p]; [|destruct c; try done; by apply IH].
      cbn in H. rewrite Hc in H. cbn. congruence. }
    cbn. by rewrite insert_id.
  - destruct (l !! i) as [c|] eqn:E; [|done]. intros H. cbn. rewrite E.
    assert (isNull c = false) as Hc by (destruct p; cbn in H; by destruct (isNull c)).
    rewrite IH by done. cbn. by rewrite list_insert_id.
Qed.

(** Neither location is above the other. *)
Fixpoint disjoint (p q : loc) : bool :=
  match p, q with
  | s :: p', t :: q' => if decide (s = t) then disjoint p' q' else true
  | _, _ => false
  end.

Lemma disjoint_sym p q : disjoint p q = disjoint q p.
Proof.
  revert q. induction p as [|s p IH]; intros [|t q]; try done. cbn.
  destruct (decide (s = t)), (decide (t = s)); try congruence; done.
Qed.

(** A location given by field names. *)
Definition fields (ks : list string) : loc := Field <$> ks.

(** Every element of a list that [q] goes through exists: what a write may
    create on the way are objects, in which only fields can be asked for. *)
Fixpoint indexed (q : loc) (j : json) : Prop :=
  match q with
  | [] => True
  | s :: q' =>
      match child s j with
      | Some c => if isNull c then exists ks, q' = fields ks else indexed q' c
      | None => exists k ks, s = Field k /\ q' = fields ks
      end
  end.

Lemma indexed_fields ks j : indexed (fields ks) j.
Proof.
  revert j. induction ks as [|k ks IH]; intros j; [done|].
  change (indexed (Field k :: fields ks) j). cbn [indexed].
  destruct (child (Field k) j) as [c|]; [|by exists k, ks].
  destruct (isNull c); [by exists ks|apply IH].
Qed.

Lemma indexed_below l ks j m : lookup_at l j = Some (JObj m) -> indexed (l ++ fields ks) j.
Proof.
  revert j. induction l as [|s l IH]; intros j H; [apply indexed_fields|].
  cbn in *. destruct (child s j) as [c|]; [|done]. cbn in H.
  destruct (isNull c) eqn:Hn; [|by apply IH].
  destruct c; try done. destruct l as [|t l]; [done|]. by destruct t.
Qed.

Lemma get_loc_missing ks : ks <> [] -> get_loc (fields ks) (JObj ∅) = Ok None.
Proof. destruct ks as [|k ks]; [done|]. intros _. cbn. by rewrite lookup_empty. Qed.

Lemma set_loc_child s p v j j' :
  set_loc (s :: p) v j = Ok j' ->
  exists c, j' = set_child s c j /\
    ((exists k m, s = Field k /\ j = JObj m /\
        set_loc p v (match p with [] => v | _ => vivify (m !! k) end) = Ok c) \/
     (exists i l d, s = Index i /\ j = JArr l /\ l !! i = Some d /\ set_loc p v d = Ok c)).
Proof.
  destruct s as [k|i], j as [| | | |l|m]; try done.
  - rewrite set_loc_field. intros (c & Hc & [= <-])%bind_Ok. exists c. split; [done|]. left. eauto.
  - cbn. destruct (l !! i) as [d|] eqn:E; [|done].
    intros (c & Hc & [= <-])%bind_Ok. exists c. split; [done|]. right. eauto 10.
Qed.

Lemma get_loc_null q j : isNull j = true -> get_loc q j = Ok None.
Proof. intros H. destruct q; cbn; by rewrite H. Qed.

Lemma vivify_not_null d : isNull d = false -> vivify (Some d) = d.
Proof. by destruct d. Qed.

Lemma get_loc_child_ne s t c p j :
  s <> t -> get_loc (t :: p) (set_child s c j) = get_loc (t :: p) j.
Proof.
  intros Hne. cbn [get_loc]. rewrite child_set_child_ne by done.
  destruct s, j; cbn [isNull set_child]; try done; destruct (child t _); try done; by destruct t.
Qed.

(** Below a member that is absent or [null], a write creates objects. *)
Lemma get_loc_created q p v c d :
  (forall q j j', disjoint p q = true -> indexed q j -> set_loc p v j = Ok j' ->
     get_loc q j' = get_loc q j) ->
  disjoint p q = true -> (exists ks, q = fields ks) ->
  vivify d = JObj ∅ -> set_loc p v (vivify d) = Ok c -> get_loc q c = Ok None.
Proof.
  intros IH Hd [ks ->] -> Hc. rewrite (IH _ (JObj ∅)) by (done || apply indexed_fields).
  apply get_loc_missing. intros ->. by rewrite disjoint_sym in Hd.
Qed.

(** Reading at a location that a write does not touch. *)
Lemma get_set_loc_disjoint p q v j j' :
  disjoint p q = true -> indexed q j -> set_loc p v j = Ok j' -> get_loc q j' = get_loc q j.
Proof.
  revert q j j'. induction p as [|s p IH]; intros [|t q] j j'; try done. cbn [disjoint].
  intros Hd Hi (c & -> & Hc)%set_loc_child.
  destruct (decide (s = t)) as [<-|Hne]; [|by apply get_loc_child_ne].
  destruct Hc as [(k & m & -> & -> & Hc)|(i & l & d & -> & -> & Hl & Hc)]; cbn in Hi |- *.
  - rewrite lookup_insert_eq. destruct p as [|s' p]; [done|].
    destruct (m !! k) as [d|] eqn:E.
    + destruct (isNull d) eqn:Hn.
      * rewrite (get_loc_null q d) by done.
        apply (get_loc_created _ (s' :: p) v _ (Some d)); [exact IH|done|done|by destruct d|exact Hc].
      * rewrite vivify_not_null in Hc by done. by apply IH.
    + destruct Hi as (k' & ks & _ & ->). apply (get_loc_created _ (s' :: p) v _ None); [exact IH|done|by eauto|done|exact Hc].
  - rewrite Hl in Hi |- *. rewrite list_lookup_insert_eq by by eapply lookup_lt_Some.
    destruct (isNull d) eqn:Hn; [|by apply IH].
    destruct d; try done. destruct p as [|s' p]; [done|]. by destruct s'.
Qed.

(** A write keeps the objects that are not below the written location. *)
Fixpoint above (p l : loc) : bool :=
  match p, l with
  | [], _ => true
  | s :: p', t :: l' => if decide (s = t) then above p' l' else false
  | _ :: _, [] => false
  end.

(** The kind of a container: an object, or a list of some length. *)
Definition container (j : json) : option (option nat) :=
  match j with
  | JObj _ => Some None
  | JArr l => Some (Some (length l))
  | _ => None
  end.

Lemma container_set_child s c j : container (set_child s c j) = container j.
Proof. destruct s, j; cbn; by rewrite ?length_insert. Qed.

Lemma lookup_set_loc_container p l v j j' x :
  above p l = false -> lookup_at l j = Some x -> container x <> None -> set_loc p v j = Ok j' ->
  exists x', lookup_at l j' = Some x' /\ container x' = container x.
Proof.
  intros Ha Hl Hx. revert l j j' Ha Hl. induction p as [|s p IH]; intros l j j' Ha Hl Hs; [done|].
  apply set_loc_child in Hs as (c & -> & Hc). destruct l as [|t l].
  { cbn in Hl. injection Hl as ->. eexists. split; [done|apply container_set_child]. }
  cbn in *. destruct (decide (s = t)) as [<-|Hne].
  - destruct (child s j) as [d|] eqn:Hd; [|done]. cbn in Hl.
    rewrite (child_set_child s c j d) by done. cbn.
    assert (d <> JNull) as Hnn by (intros ->; destruct l as [|[] ?]; [by injection Hl as <-|done..]).
    destruct Hc as [(k & m0 & -> & -> & Hc)|(i & l0 & d' & -> & -> & Hl0 & Hc)]; cbn in Hd.
    + destruct p as [|s' p]; [done|]. rewrite Hd, vivify_not_null in Hc by by destruct d.
      by eapply IH.
    + assert (d' = d) as -> by congruence. by eapply IH.
  - rewrite child_set_child_ne by done. destruct (child t j); [eauto|done].
Qed.

Lemma lookup_set_loc p l v j j' m :
  above p l = false -> lookup_at l j = Some (JObj m) -> set_loc p v j = Ok j' ->
  exists m', lookup_at l j' = Some (JObj m').
Proof.
  intros Ha Hl Hs.
  destruct (lookup_set_loc_container p l v j j' (JObj m)) as ([] & Hx & Hk); try done. eauto.
Qed.

Lemma indexed_set_loc p l ks v j j' m :
  above p l = false -> lookup_at l j = Some (JObj m) -> set_loc p v j = Ok j' ->
  indexed (l ++ fields ks) j'.
Proof. intros Ha Hl Hs. destruct (lookup_set_loc p l v j j' m) as [m' ?]; eauto using indexed_below. Qed.

(** Access below a reference. *)
Lemma get_loc_app l q j m :
  lookup_at l j = Some (JObj m) -> get_loc (l ++ q) j = get_loc q (JObj m).
Proof.
  revert j. induction l as [|s l IH]; intros j; cbn; [by intros [= ->]|].
  destruct (child s j) as [c|] eqn:E; cbn; [|done]. intros H.
  destruct (isNull j) eqn:Hn; [by destruct j, s|]. by apply IH.
Qed.

Lemma set_loc_app l q v j m :
  q <> [] -> lookup_at l j = Some (JObj m) ->
  set_loc (l ++ q) v j = (r ← set_loc q v (JObj m); Ok (put_at l r j)).
Proof.
  intros Hq. revert j. induction l as [|s l IH]; intros j; cbn [app lookup_at].
  { intros [= ->]. by destruct (set_loc q v (JObj m)). }
  destruct (child s j) as [c|] eqn:E; cbn [mbind option_bind]; [|done]. intros H.
  assert (c <> JNull) as Hnn by (intros ->; by destruct l as [|[] ?]).
  cbn [put_at]. rewrite E.
  assert (exists s' q', l ++ q = s' :: q') as (s' & q' & Hlq)
    by (destruct l; [destruct q; [done|cbn; eauto]|cbn; eauto]).
  destruct s as [k|i], j as [| | | |l0|m0]; try done; cbn in E.
  - cbn [app]. rewrite set_loc_field, Hlq, E, vivify_not_null by by destruct c.
    rewrite <-Hlq, IH by done. cbn. by destruct (set_loc q v (JObj m)).
  - cbn. rewrite E, IH by done. by destruct (set_loc q v (JObj m)).
Qed.
