(* ===== verification/MetaPodTemplate.v ===== *)
(** * Reading and writing workloads (projector/metapodtemplate.go)

    [NewMetaPodTemplate] reads the annotations, containers and volumes of an
    unstructured workload at the places that a mapping names;
    [WriteToWorkload] writes them back. The Go code walks the tree with
    [reflect]: an [rvalue] is a [reflect.Value] into the tree, and
    [SetMapIndex] changes the tree in place, here by returning the new one.

    A value that lies below a place that was written after the value was
    obtained would, in Go, refer to the detached old subtree; references here
    are paths and are followed in the current tree. The two agree as long as no
    container lies below a place that is written for another one, which the
    theorems of [MetaPodTemplateFacts.v] ask for. *)

From S2P Require Import Prelude Json Tree Types.
Local Open Scope string_scope.

(** ** The JSONPath library (k8s.io/client-go/util/jsonpath)

    The nodes that the source names are constructors; the others carry the
    name of their type. [Parse] gives the nodes of [parser.Root], [Node_String]
    how a node prints, and [FindResults] the values that the parsed expression
    selects, one list per root node. *)
Inductive Node :=
  | ListNode (nodes : list Node)
  | FieldNode (value : string)
  | OtherNode (kind : string).

(** A [reflect.Value]: invalid, an interface (the element of a map or a slice)
    or a map inside the tree, a slice or a scalar taken out of an interface. *)
Inductive rvalue :=
  | RInvalid
  | RInterface (l : loc)
  | RMap (l : loc)
  | RSlice (l : loc)
  | RScalar.

Class JsonPath := {
  Parse : string -> error + list Node;
  Node_String : Node -> string;
  FindResults : list Node -> json -> outcome (list (list rvalue));
}.

Definition jsonpath_Parse `{JsonPath} (text : string) : outcome (list Node) :=
  match Parse text with
  | inl e => Err e
  | inr nodes => Ok nodes
  end.

(** ** The conversion library (runtime.DefaultUnstructuredConverter) *)
Class UnstructuredConverter (W : Type) := {
  ToUnstructured : W -> outcome json;
  FromUnstructured : json -> W -> outcome W;
}.

(** [fmt.Sprintf("{%s}", expression)] *)
Definition braced (expression : string) : string := "{" +:+ (expression +:+ "}").

(** ** reflect *)

Definition IsNil (u : json) (v : rvalue) : outcome bool :=
  match v with
  | RInvalid => Ok true
  | RInterface l =>
      match lookup_at l u with
      | Some JNull => Ok true
      | Some _ => Ok false
      | None => Panic "dangling reference"
      end
  | RMap _ | RSlice _ => Ok false
  | RScalar => Panic "reflect: call of reflect.Value.IsNil"
  end.

Definition Elem (u : json) (l : loc) : rvalue :=
  match lookup_at l u with
  | Some (JObj _) => RMap l
  | Some (JArr _) => RSlice l
  | Some JNull | None => RInvalid
  | Some _ => RScalar
  end.

Definition MapIndex (u : json) (l : loc) (key : string) : rvalue :=
  match lookup_at (l ++ [Field key])%list u with
  | Some _ => RInterface (l ++ [Field key])%list
  | None => RInvalid
  end.

Definition SetMapIndex (u : json) (v : rvalue) (key : string) (elem : json) : outcome json :=
  match v with
  | RMap l =>
      match lookup_at l u with
      | Some (JObj m) => Ok (put_at l (JObj (<[key := elem]> m)) u)
      | _ => Panic "dangling reference"
      end
  | _ => Panic "reflect: call of reflect.Value.SetMapIndex"
  end.

(** ** find

    The recursion is over the keys, with one more call for each interface that
    is taken apart; [None] stands for too little fuel. *)
Fixpoint find (fuel : nat) (u : json) (value parent : rvalue) (keys : list string)
    (lastKey : string) (createIfNil : bool) : option (outcome (json * (rvalue * rvalue * string))) :=
  match fuel with
  | O => None
  | S fuel =>
      match IsNil u value with
      | Panic s => Some (Panic s)
      | Err e => Some (Err e)
      | Ok isNil =>
          if isNil && negb createIfNil then Some (Ok (u, (RInvalid, RInvalid, "")))
          else
            let created :=
              if isNil then
                u' ← SetMapIndex u parent lastKey (JObj ∅);
                Ok (u', match parent with
                        | RMap l => RMap (l ++ [Field lastKey])%list
                        | _ => RInvalid
                        end)
              else Ok (u, value) in
            match created with
            | Panic s => Some (Panic s)
            | Err e => Some (Err e)
            | Ok (u, value) =>
                match keys with
                | [] => Some (Ok (u, (value, parent, lastKey)))
                | key :: keys' =>
                    match value with
                    | RMap l => find fuel u (MapIndex u l key) value keys' key createIfNil
                    | RInterface l => find fuel u (Elem u l) value keys lastKey createIfNil
                    | _ => Some (Err (ErrOther "unhandled kind"))
                    end
                end
            end
      end
  end.

(** [mpt.find(value, parent, keys, "", createIfNil)] with enough fuel. *)
Definition findKeys (u : json) (value parent : rvalue) (keys : list string) (createIfNil : bool) :
    outcome (json * (rvalue * rvalue * string)) :=
  match find (2 * length keys + 2) u value parent keys "" createIfNil with
  | Some r => r
  | None => Panic "out of fuel"
  end.

(** ** keys *)

Fixpoint fieldKeys (node : Node) : outcome (list string) :=
  match node with
  | ListNode nodes =>
      (fix loop (nodes : list Node) : outcome (list string) :=
         match nodes with
         | [] => Ok []
         | n :: ns => nested ← fieldKeys n; rest ← loop ns; Ok (nested ++ rest)%list
         end) nodes
  | FieldNode value => Ok [value]
  | OtherNode kind => Err (ErrOther ("unsupported node type found: " +:+ kind))
  end.

Section library.
Context `{JsonPath}.

Definition keys (ptr : string) : outcome (list string) :=
  root ← jsonpath_Parse (braced ptr);
  fieldKeys (ListNode root).

(** ** getAt, setAt *)

(** [v.Interface()], as the tree below the value. *)
Definition Interface (u : json) (v : rvalue) : outcome json :=
  match v with
  | RInterface l | RMap l | RSlice l =>
      match lookup_at l u with
      | Some j => Ok j
      | None => Panic "dangling reference"
      end
  | _ => Panic "reflect: call of reflect.Value.Interface"
  end.

(** The new contents of [target]. The tree is not changed: without
    [createIfNil], [find] only reads. *)
Definition getAt {T} `{Codec T} (ptr : string) (u : json) (source : rvalue) (target : T) : outcome T :=
  ks ← keys ptr;
  r ← findKeys u source RInvalid ks false;
  let '(_, (v, _, _)) := r in
  isNil ← IsNil u v;
  if (isNil : bool) then Ok target
  else
    b ← Interface u v;
    unmarshal b.

(** [value] is one of the kinds (map, slice, string) that the code accepts. *)
Definition setAt {T} `{Codec T} (ptr : string) (value : T) (u : json) (target : rvalue) : outcome json :=
  ks ← keys ptr;
  r ← findKeys u target RInvalid ks true;
  let '(u, (_, vp, lk)) := r in
  SetMapIndex u vp lk (marshal value).

Context `{Codec (list EnvVar)} `{Codec (list VolumeMount)} `{Codec (list Volume)}.

(** ** NewMetaPodTemplate *)

(** [cr[0]] *)
Definition firstResult (cr : list (list rvalue)) : outcome (list rvalue) :=
  match cr with
  | r :: _ => Ok r
  | [] => Panic "index out of range"
  end.

(** The body of the inner loop. *)
Definition readContainer (u : json) (c : ClusterWorkloadResourceMappingContainer) (cv : rvalue) :
    outcome metaContainer :=
  name ← (if negb (String.eqb (mc_Name c) "") then
            n ← getAt (mc_Name c) u cv ""; Ok (Some n)
          else Ok None);
  env ← getAt (mc_Env c) u cv [];
  mounts ← getAt (mc_VolumeMounts c) u cv [];
  Ok (mkMetaContainer name env mounts).

(** One turn of the outer loop. *)
Definition readContainers (u : json) (c : ClusterWorkloadResourceMappingContainer) :
    outcome (list metaContainer) :=
  nodes ← jsonpath_Parse (braced (mc_Path c));
  match FindResults nodes u with
  | Ok cr => cvs ← firstResult cr; mapM (readContainer u c) cvs
  | Err _ => Ok []
  | Panic s => Panic s
  end.

Definition readTemplate (mapping : ClusterWorkloadResourceMappingTemplate) (u : json) :
    outcome metaPodTemplate :=
  annotations ← getAt (mt_Annotations mapping) u (RMap []) (∅ : gmap string string);
  containers ← mapM (readContainers u) (mt_Containers mapping);
  volumes ← getAt (mt_Volumes mapping) u (RMap []) [];
  Ok (mkMetaPodTemplate annotations (concat containers) volumes).

Definition NewMetaPodTemplate {W} `{UnstructuredConverter W}
    (workload : W) (mapping : ClusterWorkloadResourceMappingTemplate) : outcome metaPodTemplate :=
  u ← ToUnstructured workload;
  readTemplate mapping u.

(** ** WriteToWorkload *)

(** The inner loop: [ci] counts the containers that were written. *)
Fixpoint writeContainers (mpt : metaPodTemplate) (c : ClusterWorkloadResourceMappingContainer)
    (cvs : list rvalue) (u : json) (ci : nat) : outcome (json * nat) :=
  match cvs with
  | [] => Ok (u, ci)
  | cv :: cvs' =>
      match mpt_Containers mpt !! ci with
      | None => Panic "index out of range"
      | Some mc =>
          u ← match mct_Name mc with
              | Some name =>
                  if negb (String.eqb (mc_Name c) "") then setAt (mc_Name c) name u cv else Ok u
              | None => Ok u
              end;
          u ← setAt (mc_Env c) (mct_Env mc) u cv;
          u ← setAt (mc_VolumeMounts c) (mct_VolumeMounts mc) u cv;
          writeContainers mpt c cvs' u (S ci)
      end
  end.

Fixpoint writeMappings (mpt : metaPodTemplate) (cs : list ClusterWorkloadResourceMappingContainer)
    (u : json) (ci : nat) : outcome (json * nat) :=
  match cs with
  | [] => Ok (u, ci)
  | c :: cs' =>
      nodes ← jsonpath_Parse (braced (mc_Path c));
      match FindResults nodes u with
      | Ok cr =>
          cvs ← firstResult cr;
          r ← writeContainers mpt c cvs u ci;
          writeMappings mpt cs' (fst r) (snd r)
      | Err _ => writeMappings mpt cs' u ci
      | Panic s => Panic s
      end
  end.

Definition writeTemplate (mpt : metaPodTemplate) (mapping : ClusterWorkloadResourceMappingTemplate)
    (u : json) : outcome json :=
  u ← setAt (mt_Annotations mapping) (mpt_Annotations mpt) u (RMap []);
  r ← writeMappings mpt (mt_Containers mapping) u 0;
  setAt (mt_Volumes mapping) (mpt_Volumes mpt) (fst r) (RMap []).

Definition WriteToWorkload {W} `{UnstructuredConverter W} (mpt : metaPodTemplate)
    (mapping : ClusterWorkloadResourceMappingTemplate) (workload : W) : outcome W :=
  u ← ToUnstructured workload;
  u ← writeTemplate mpt mapping u;
  FromUnstructured u workload.
End library.
