(* ===== verification/AccessFacts.v ===== *)
(** * [getAt] and [setAt] are the lens of [Tree.v]

    [find] with its [reflect] bookkeeping, run on a reference to an object,
    reads [get_loc] and prepares the write of [set_loc]. The fuel of
    [findKeys] is always enough. *)

From S2P Require Import Prelude Json Tree Types MetaPodTemplate.

(** [v] refers to the object [m] at [l]. *)
Definition refersTo (u : json) (v : rvalue) (l : loc) (m : object) : Prop :=
  (v = RMap l \/ v = RInterface l) /\ lookup_at l u = Some (JObj m).

Lemma lookup_at_field u l m k :
  lookup_at l u = Some (JObj m) -> lookup_at (l ++ [Field k]) u = m !! k.
Proof.
  intros H. rewrite lookup_at_app, H. cbn. by destruct (m !! k).
Qed.

Lemma MapIndex_Some u l m k c :
  lookup_at l u = Some (JObj m) -> m !! k = Some c -> MapIndex u l k = RInterface (l ++ [Field k]).
Proof. intros Hl Hk. unfold MapIndex. by rewrite (lookup_at_field u l m), Hk. Qed.

Lemma MapIndex_None u l m k :
  lookup_at l u = Some (JObj m) -> m !! k = None -> MapIndex u l k = RInvalid.
Proof. intros Hl Hk. unfold MapIndex. by rewrite (lookup_at_field u l m), Hk. Qed.

(** ** Fuel *)

Definition fuelFor (value : rvalue) (keys : list string) : nat :=
  2 * length keys + match value with RInterface _ => 2 | _ => 1 end.

Lemma fuelFor_Elem u l keys : fuelFor (Elem u l) keys = 2 * length keys + 1.
Proof. unfold fuelFor, Elem. by destruct (lookup_at l u) as [[]|]. Qed.

Lemma find_total fuel u value parent keys lk c :
  fuelFor value keys <= fuel -> find fuel u value parent keys lk c <> None.
Proof.
  revert u value parent keys lk. induction fuel as [|fuel IH]; intros u value parent keys lk Hf.
  { unfold fuelFor in Hf. destruct value; lia. }
  cbn [find]. destruct (IsNil u value) as [b|e|s]; [|done|done].
  destruct (b && negb c); [done|].
  assert (forall u' value', (value' = value \/ (forall l, value' <> RInterface l)) ->
    match keys with
    | [] => Some (Ok (u', (value', parent, lk)))
    | key :: keys' =>
        match value' with
        | RMap l => find fuel u' (MapIndex u' l key) value' keys' key c
        | RInterface l => find fuel u' (Elem u' l) value' keys lk c
        | _ => Some (Err (ErrOther "unhandled kind"))
        end
    end <> None) as Hstep.
  { intros u' value' Hv. destruct keys as [|key keys]; [done|].
    destruct value' as [|l|l|l|]; try done.
    - destruct Hv as [<-|Hv]; [|by destruct (Hv l)]. apply IH.
      rewrite fuelFor_Elem. unfold fuelFor in Hf. lia.
    - apply IH. unfold fuelFor in *. cbn in Hf. destruct (MapIndex u' l key), value; lia. }
  destruct b; cbn [mbind outcome_bind].
  - destruct (SetMapIndex _ _ _ _) as [u'|e|s]; cbn; [|done|done].
    apply Hstep. right. by destruct parent.
  - apply Hstep. by left.
Qed.

(** The fuel of [findKeys] is enough for all arguments: the recursion of [find]
    ends. *)
Lemma findKeys_fuel u value parent keys c :
  exists r, find (2 * length keys + 2) u value parent keys "" c = Some r.
Proof.
  destruct (find _ _ _ _ _ _ _) as [r|] eqn:E; [by exists r|].
  exfalso. revert E. apply find_total. unfold fuelFor. destruct value; lia.
Qed.

(** ** Reading *)

(** The result of [find] when the tree gives [r] at [l]. *)
Definition readsAs (l : loc) (u : json) (r : outcome (option json))
    (res : option (outcome (json * (rvalue * rvalue * string)))) : Prop :=
  match r with
  | Ok (Some x) => lookup_at l u = Some x /\ isNull x = false /\
      exists p lk, res = Some (Ok (u, (RInterface l, p, lk)))
  | Ok None => res = Some (Ok (u, (RInvalid, RInvalid, ""%string)))
  | Err e => res = Some (Err e)
  | Panic s => res = Some (Panic s)
  end.

Lemma find_reads ks l u j parent lk fuel :
  lookup_at l u = Some j -> 2 * length ks + 1 <= fuel ->
  readsAs (l ++ fields ks) u (get_loc (fields ks) j) (find fuel u (RInterface l) parent ks lk false).
Proof.
  revert l j parent lk fuel. induction ks as [|k ks IH]; intros l j parent lk fuel Hl Hf.
  { destruct fuel as [|fuel]; [cbn in Hf; lia|]. cbn. rewrite app_nil_r, Hl.
    destruct j; cbn; eauto 10. }
  destruct fuel as [|[|fuel]]; [cbn in Hf; lia..|].
  cbn [find IsNil]. rewrite Hl.
  change (fields (k :: ks)) with (Field k :: fields ks).
  destruct j as [| | | |xs|m]; try (cbn; unfold Elem; rewrite ?Hl; done).
  cbn [isNull andb negb get_loc]. unfold Elem. rewrite Hl. cbn [IsNil andb].
  destruct (m !! k) as [c|] eqn:Hk; cbn [child]; rewrite Hk.
  - rewrite (MapIndex_Some u l m k c) by done.
    replace (l ++ Field k :: fields ks) with ((l ++ [Field k]) ++ fields ks)
      by by rewrite <-(assoc_L (++)).
    apply IH; [by rewrite (lookup_at_field u l m)|cbn in Hf; lia].
  - rewrite (MapIndex_None u l m k) by done.
    destruct fuel as [|fuel]; [cbn in Hf; lia|]. done.
Qed.

Lemma findKeys_reads ks u v l m :
  ks <> [] -> refersTo u v l m ->
  readsAs (l ++ fields ks) u (get_loc (fields ks) (JObj m))
    (Some (findKeys u v RInvalid ks false)).
Proof.
  intros Hne [[->| ->] Hl]; unfold findKeys.
  - destruct ks as [|k ks]; [done|].
    replace (2 * length (k :: ks) + 2) with (S (2 * length ks + 3)) by (cbn; lia).
    cbn [find IsNil andb]. change (fields (k :: ks)) with (Field k :: fields ks).
    cbn [get_loc isNull child].
    destruct (m !! k) as [c|] eqn:Hk.
    + rewrite (MapIndex_Some u l m k c) by done.
      assert (readsAs ((l ++ [Field k]) ++ fields ks) u (get_loc (fields ks) c)
        (find (2 * length ks + 3) u (RInterface (l ++ [Field k])) (RMap l) ks k false)) as Hr.
      { apply find_reads; [by rewrite (lookup_at_field u l m)|lia]. }
      rewrite <-(assoc_L (++)) in Hr. cbn [app] in Hr.
      destruct (find _ _ _ _ _ _ _) as [r|]; [done|].
      unfold readsAs in Hr. destruct (get_loc _ _) as [[x|]| |]; naive_solver.
    + rewrite (MapIndex_None u l m k) by done.
      replace (2 * length ks + 3) with (S (2 * length ks + 2)) by lia. done.
  - pose proof (find_reads ks l u (JObj m) RInvalid "" (2 * length ks + 2) Hl ltac:(lia)) as Hr.
    destruct (find _ _ _ _ _ _ _) as [r|]; [done|].
    unfold readsAs in Hr. destruct (get_loc _ _) as [[x|]| |]; naive_solver.
Qed.

(** ** Writing *)

(** What [setAt] does with the result of [find]. *)
Definition finish (v : json) (r : option (outcome (json * (rvalue * rvalue * string)))) : outcome json :=
  match r with
  | Some r => r ≫= (fun '(u, (_, vp, lk)) => SetMapIndex u vp lk v)
  | None => Panic "out of fuel"
  end.

Lemma SetMapIndex_at u l m k v :
  lookup_at l u = Some (JObj m) ->
  SetMapIndex u (RMap l) k v = Ok (put_at l (JObj (<[k := v]> m)) u).
Proof. intros H. unfold SetMapIndex. by rewrite H. Qed.

(** An absent or [null] member is created before the walk goes on. *)
Lemma find_creates fuel u l m k ks value :
  lookup_at l u = Some (JObj m) -> IsNil u value = Ok true ->
  find (S fuel) u value (RMap l) ks k true =
  find (S fuel) (put_at l (JObj (<[k := JObj ∅]> m)) u) (RMap (l ++ [Field k])) (RMap l) ks k true.
Proof.
  intros Hl Hn. cbn [find]. rewrite Hn. cbn [andb negb]. by rewrite (SetMapIndex_at u l m).
Qed.

Lemma IsNil_member u l m k :
  lookup_at l u = Some (JObj m) ->
  IsNil u (MapIndex u l k) = Ok (match m !! k with Some c => isNull c | None => true end).
Proof.
  intros Hl. unfold MapIndex. rewrite (lookup_at_field u l m) by done.
  destruct (m !! k) as [c|] eqn:Hk; [|done]. cbn. rewrite (lookup_at_field u l m), Hk by done.
  by destruct c.
Qed.

Lemma created_lookup u l m k :
  lookup_at l u = Some (JObj m) ->
  lookup_at (l ++ [Field k]) (put_at l (JObj (<[k := JObj ∅]> m)) u) = Some (JObj ∅).
Proof.
  intros Hl. erewrite lookup_at_field by by eapply lookup_put_at. apply lookup_insert_eq.
Qed.

Lemma put_at_field u l m k x r :
  lookup_at l u = Some (JObj m) -> m !! k = Some x ->
  put_at l (put_at [Field k] r (JObj m)) u = put_at l (JObj (<[k := r]> m)) u.
Proof. intros Hl Hk. cbn. by rewrite Hk. Qed.

Lemma put_created u l m k r :
  lookup_at l u = Some (JObj m) ->
  put_at (l ++ [Field k]) r (put_at l (JObj (<[k := JObj ∅]> m)) u) =
  put_at l (JObj (<[k := r]> m)) u.
Proof.
  intros Hl. erewrite put_at_app by by eapply lookup_put_at.
  cbn. rewrite lookup_insert_eq. cbn. by erewrite put_at_twice, insert_insert_eq.
Qed.

Lemma find_writes ks k l u m parent lk fuel v :
  lookup_at l u = Some (JObj m) -> 2 * length ks + 2 <= fuel ->
  finish v (find fuel u (RMap l) parent (k :: ks) lk true) =
  (r ← set_loc (Field k :: fields ks) v (JObj m); Ok (put_at l r u)).
Proof.
  revert k l u m parent lk fuel. induction ks as [|k' ks IH]; intros k l u m parent lk fuel Hl Hf;
    (destruct fuel as [|[|fuel]]; [cbn in Hf; lia..|]);
    cbn [find IsNil andb]; fold (find (S fuel)); pose proof (IsNil_member u l m k Hl) as Hnil.
  - change (finish v (find (S fuel) u (MapIndex u l k) (RMap l) [] k true) =
      Ok (put_at l (JObj (<[k := v]> m)) u)).
    destruct (match m !! k with Some c => isNull c | None => true end).
    + rewrite (find_creates fuel u l m) by done. cbn [find IsNil andb finish mbind outcome_bind].
      erewrite SetMapIndex_at by by eapply lookup_put_at.
      by erewrite insert_insert_eq, put_at_twice.
    + cbn [find]. rewrite Hnil. cbn. by rewrite Hl.
  - change (finish v (find (S fuel) u (MapIndex u l k) (RMap l) (k' :: ks) k true) =
      (r ← set_loc (Field k :: Field k' :: fields ks) v (JObj m); Ok (put_at l r u))).
    rewrite set_loc_field. destruct (match m !! k with Some c => isNull c | None => true end) eqn:Hc.
    + rewrite (find_creates fuel u l m) by done.
      rewrite (IH k' (l ++ [Field k]) _ ∅) by (by apply created_lookup || (cbn in Hf; lia)).
      replace (vivify (m !! k)) with (JObj ∅) by (destruct (m !! k) as [[]|]; done).
      change (Field k' :: fields ks) with (fields (k' :: ks)) in *.
      destruct (set_loc (fields (k' :: ks)) v (JObj ∅)) as [r|e|s]; cbn; [|done|done].
      by rewrite (put_created u l m).
    + destruct (m !! k) as [c|] eqn:Hk; [|done]. rewrite vivify_not_null by done.
      assert (lookup_at (l ++ [Field k]) u = Some c) as Hlk by by rewrite (lookup_at_field u l m).
      cbn [find]. rewrite Hnil, (MapIndex_Some u l m k c) by done. cbn [andb].
      destruct fuel as [|fuel]; [cbn in Hf; lia|].
      unfold Elem. rewrite Hlk. destruct c as [| | | |xs|m']; try done.
      rewrite (IH k' (l ++ [Field k]) u m') by (done || (cbn in Hf; lia)).
      destruct (set_loc (Field k' :: fields ks) v (JObj m')) as [r|e|s]; cbn; [|done|done].
      by rewrite (put_at_app _ _ _ _ (JObj m)), (put_at_field u l m k (JObj m')).
Qed.

(** [findKeys] never runs out of fuel on a write, and [setAt] writes with
    [set_loc] at the location of its target. *)
Lemma findKeys_writes ks u v l m x :
  ks <> [] -> refersTo u v l m ->
  (r ← findKeys u v RInvalid ks true; let '(u', (_, vp, lk)) := r in SetMapIndex u' vp lk x) =
  set_loc (l ++ fields ks) x u.
Proof.
  intros Hne [Hv Hl]. destruct ks as [|k ks]; [done|].
  rewrite (set_loc_app l _ x u m) by done.
  change (fields (k :: ks)) with (Field k :: fields ks).
  assert (forall r, finish x (Some r) =
    (r ← r; let '(u', (_, vp, lk)) := r in SetMapIndex u' vp lk x)) as Hfin.
  { intros [[? [[? ?] ?]]| |]; done. }
  unfold findKeys. destruct Hv as [->| ->].
  - pose proof (find_writes ks k l u m RInvalid "" (2 * length (k :: ks) + 2) x Hl
      ltac:(cbn; lia)) as Hw.
    destruct (find _ _ _ _ _ _ _) as [r|]; [by rewrite <-Hfin|exact Hw].
  - replace (2 * length (k :: ks) + 2) with (S (2 * length ks + 3)) by (cbn; lia).
    cbn [find IsNil]. rewrite Hl. cbn [andb]. unfold Elem. rewrite Hl.
    pose proof (find_writes ks k l u m (RInterface l) "" (2 * length ks + 3) x Hl
      ltac:(cbn; lia)) as Hw.
    destruct (find _ _ _ _ _ _ _) as [r|]; [by rewrite <-Hfin|exact Hw].
Qed.

(** ** The two accessors *)

Section accessors.
Context `{JsonPath}.
Context {T : Type} `{Codec T}.

Lemma getAt_get_loc ptr ks u v l m (target : T) :
  keys ptr = Ok ks -> ks <> [] -> refersTo u v l m ->
  getAt ptr u v target =
  (r ← get_loc (l ++ fields ks) u; match r with Some j => unmarshal j | None => Ok target end).
Proof.
  intros Hk Hne Hv. unfold getAt. rewrite Hk. cbn [mbind outcome_bind].
  rewrite (get_loc_app l _ u m) by apply Hv.
  pose proof (findKeys_reads ks u v l m Hne Hv) as Hr. unfold readsAs in Hr.
  destruct (get_loc (fields ks) (JObj m)) as [[x|]|e|s].
  - destruct Hr as (Hlk & Hn & p & lk & [= ->]). cbn. rewrite Hlk.
    destruct x; try done.
  - by injection Hr as ->.
  - by injection Hr as ->.
  - by injection Hr as ->.
Qed.

Lemma setAt_set_loc ptr ks u v l m (value : T) :
  keys ptr = Ok ks -> ks <> [] -> refersTo u v l m ->
  setAt ptr value u v = set_loc (l ++ fields ks) (marshal value) u.
Proof.
  intros Hk Hne Hv. unfold setAt. rewrite Hk. cbn [mbind outcome_bind].
  by apply (findKeys_writes ks u v l m).
Qed.
End accessors.
