(* ===== verification/Layout.v ===== *)
(** * The places of a mapping in a workload

    Where a mapping finds the annotations, the volumes and, for every container
    it selects, the name, the environment and the mounts ([layout]). On a
    workload with a layout, [readTemplate] and [writeTemplate] read and write
    exactly these places ([readTemplate_layout], [writeTemplate_layout]). *)

From S2P Require Import Prelude Json Tree Types MetaPodTemplate AccessFacts.

Record slot := mkSlot {
  slot_Ref : loc;
  slot_Name : option loc;
  slot_Env : loc;
  slot_VolumeMounts : loc;
}.

(** One list of slots per entry of [mapping.Containers]. *)
Record layout := mkLayout {
  lay_Annotations : loc;
  lay_Slots : list (list slot);
  lay_Volumes : loc;
}.

Section layouts.
Context `{JsonPath}.
Context `{Codec (list EnvVar)} `{Codec (list VolumeMount)} `{Codec (list Volume)}.

(** The object that a [reflect.Value] refers to. *)
Definition objectRef (u : json) (v : rvalue) : option loc :=
  match v with
  | RMap l | RInterface l =>
      match lookup_at l u with Some (JObj _) => Some l | _ => None end
  | _ => None
  end.

(** The place that a restricted JSONPath names below an object. *)
Definition place (l : loc) (ptr : string) : option loc :=
  match keys ptr with
  | Ok [] => None
  | Ok ks => Some (l ++ fields ks)
  | _ => None
  end.

Definition slotOf (u : json) (c : ClusterWorkloadResourceMappingContainer) (cv : rvalue) : option slot :=
  l ← objectRef u cv;
  name ← (if negb (String.eqb (mc_Name c) "") then p ← place l (mc_Name c); Some (Some p) else Some None);
  env ← place l (mc_Env c);
  mounts ← place l (mc_VolumeMounts c);
  Some (mkSlot l name env mounts).

Definition slotsOf (u : json) (c : ClusterWorkloadResourceMappingContainer) : option (list slot) :=
  match jsonpath_Parse (braced (mc_Path c)) with
  | Ok nodes =>
      match FindResults nodes u with
      | Ok (cvs :: _) => mapM (slotOf u c) cvs
      | Err _ => Some []
      | _ => None
      end
  | _ => None
  end.

Definition layoutOf (mapping : ClusterWorkloadResourceMappingTemplate) (u : json) : option layout :=
  root ← objectRef u (RMap []);
  annotations ← place root (mt_Annotations mapping);
  slots ← mapM (slotsOf u) (mt_Containers mapping);
  volumes ← place root (mt_Volumes mapping);
  Some (mkLayout annotations slots volumes).

(** ** Reading a layout *)

Definition readAt {T} `{Codec T} (p : loc) (u : json) (d : T) : outcome T :=
  r ← get_loc p u;
  match r with Some j => unmarshal j | None => Ok d end.

Definition readSlot (u : json) (s : slot) : outcome metaContainer :=
  name ← (match slot_Name s with
          | Some p => n ← readAt p u ""%string; Ok (Some n)
          | None => Ok None
          end);
  env ← readAt (slot_Env s) u [];
  mounts ← readAt (slot_VolumeMounts s) u [];
  Ok (mkMetaContainer name env mounts).

Definition readLayout (lay : layout) (u : json) : outcome metaPodTemplate :=
  annotations ← readAt (lay_Annotations lay) u (∅ : gmap string string);
  containers ← mapM (mapM (readSlot u)) (lay_Slots lay);
  volumes ← readAt (lay_Volumes lay) u [];
  Ok (mkMetaPodTemplate annotations (concat containers) volumes).

(** ** Writing a layout *)

Definition slotWrites (s : slot) (mc : metaContainer) : list (loc * json) :=
  match slot_Name s, mct_Name mc with
  | Some p, Some n => [(p, marshal n)]
  | _, _ => []
  end ++
  [(slot_Env s, marshal (mct_Env mc)); (slot_VolumeMounts s, marshal (mct_VolumeMounts mc))].

Definition layoutWrites (lay : layout) (m : metaPodTemplate) : list (loc * json) :=
  (lay_Annotations lay, marshal (mpt_Annotations m)) ::
  concat (zip_with slotWrites (concat (lay_Slots lay)) (mpt_Containers m)) ++
  [(lay_Volumes lay, marshal (mpt_Volumes m))].

Fixpoint writeAll (ws : list (loc * json)) (u : json) : outcome json :=
  match ws with
  | [] => Ok u
  | (p, v) :: ws' => u' ← set_loc p v u; writeAll ws' u'
  end.

Lemma writeAll_app ws1 ws2 u :
  writeAll (ws1 ++ ws2) u = (u' ← writeAll ws1 u; writeAll ws2 u').
Proof.
  revert u. induction ws1 as [|[p v] ws1 IH]; intros u; [done|]. cbn.
  destruct (set_loc p v u); cbn; [apply IH|done|done].
Qed.

(** ** What a layout says about the tree *)

Lemma objectRef_Some u v l :
  objectRef u v = Some l -> exists m, refersTo u v l m.
Proof.
  unfold objectRef, refersTo. destruct v as [|l'|l'| |]; try done;
    destruct (lookup_at l' u) as [[]|] eqn:E; try done; intros [= <-]; eauto.
Qed.

Lemma place_Some l ptr p :
  place l ptr = Some p -> exists ks, keys ptr = Ok ks /\ ks <> [] /\ p = l ++ fields ks.
Proof.
  unfold place. destruct (keys ptr) as [[|k ks]| |]; try done. intros [= <-].
  exists (k :: ks). done.
Qed.

Section access.
Context {T : Type} `{Codec T}.

Lemma getAt_place ptr u v l m p (d : T) :
  refersTo u v l m -> place l ptr = Some p -> getAt ptr u v d = readAt p u d.
Proof. intros Hv (ks & Hk & Hne & ->)%place_Some. by eapply getAt_get_loc. Qed.

Lemma setAt_place ptr u v l m p (x : T) :
  refersTo u v l m -> place l ptr = Some p -> setAt ptr x u v = set_loc p (marshal x) u.
Proof. intros Hv (ks & Hk & Hne & ->)%place_Some. by eapply setAt_set_loc. Qed.
End access.

Lemma slotOf_Some u c cv s :
  slotOf u c cv = Some s ->
  exists m, refersTo u cv (slot_Ref s) m /\
    place (slot_Ref s) (mc_Env c) = Some (slot_Env s) /\
    place (slot_Ref s) (mc_VolumeMounts c) = Some (slot_VolumeMounts s) /\
    (if negb (String.eqb (mc_Name c) "")
     then exists p, slot_Name s = Some p /\ place (slot_Ref s) (mc_Name c) = Some p
     else slot_Name s = None).
Proof.
  unfold slotOf. intros (l & (m & Hm)%objectRef_Some & Hs)%bind_Some.
  apply bind_Some in Hs as (name & Hname & (env & Henv & (mounts & Hmounts & [= <-])%bind_Some)%bind_Some).
  exists m. cbn. split_and!; [done..|]. destruct (negb _).
  - apply bind_Some in Hname as (p & Hp & [= <-]). eauto.
  - congruence.
Qed.

Lemma readContainer_slot u c cv s :
  slotOf u c cv = Some s -> readContainer u c cv = readSlot u s.
Proof.
  intros (m & Hm & Henv & Hmounts & Hname)%slotOf_Some. unfold readContainer, readSlot.
  rewrite (getAt_place _ u cv (slot_Ref s) m _ _ Hm Henv).
  rewrite (getAt_place _ u cv (slot_Ref s) m _ _ Hm Hmounts).
  destruct (negb _).
  - destruct Hname as (p & -> & Hp). by rewrite (getAt_place _ u cv (slot_Ref s) m _ _ Hm Hp).
  - by rewrite Hname.
Qed.

Lemma mapM_slots u c cvs ss :
  mapM (slotOf u c) cvs = Some ss -> mapM (readContainer u c) cvs = mapM (readSlot u) ss.
Proof.
  intros Hss%mapM_Some. induction Hss as [|cv s cvs ss Hs Hss IH]; [done|].
  cbn. by rewrite (readContainer_slot u c cv s), IH.
Qed.

Lemma readContainers_slots u c ss :
  slotsOf u c = Some ss -> readContainers u c = mapM (readSlot u) ss.
Proof.
  unfold slotsOf, readContainers. destruct (jsonpath_Parse _) as [nodes| |]; [|done..].
  cbn. destruct (FindResults nodes u) as [[|cvs cr]| |]; try done.
  - cbn. apply mapM_slots.
  - by intros [= <-].
Qed.

Lemma layoutOf_Some mapping u lay :
  layoutOf mapping u = Some lay ->
  exists m, refersTo u (RMap []) [] m /\
    place [] (mt_Annotations mapping) = Some (lay_Annotations lay) /\
    Forall2 (fun c ss => slotsOf u c = Some ss) (mt_Containers mapping) (lay_Slots lay) /\
    place [] (mt_Volumes mapping) = Some (lay_Volumes lay).
Proof.
  unfold layoutOf. intros (l & Hl & Hr)%bind_Some.
  apply bind_Some in Hr as (a & Ha & (ss & Hss%mapM_Some & (v & Hv & [= <-])%bind_Some)%bind_Some).
  apply objectRef_Some in Hl as (m & [[[= <-]|?] Hm]); [|done].
  exists m. cbn. split_and!; try done. split; [by left|done].
Qed.

Lemma readTemplate_layout mapping u lay :
  layoutOf mapping u = Some lay -> readTemplate mapping u = readLayout lay u.
Proof.
  intros (m & Hm & Ha & Hss & Hv)%layoutOf_Some. unfold readTemplate, readLayout.
  rewrite (getAt_place _ u (RMap []) [] m _ _ Hm Ha).
  rewrite (getAt_place _ u (RMap []) [] m _ _ Hm Hv).
  assert (mapM (readContainers u) (mt_Containers mapping) =
          mapM (mapM (readSlot u)) (lay_Slots lay)) as ->; [|done].
  clear -Hss. induction Hss as [|c ss cs sss Hs Hss IH]; [done|].
  cbn. by rewrite (readContainers_slots u c ss), IH.
Qed.
End layouts.
