(* ===== verification/Workload.v ===== *)
(** * Writing a layout

    When the places of a layout do not lie above one another and the paths of
    a mapping keep selecting the same containers while its places are written
    ([Stable]), [writeTemplate] is [writeAll] of the layout
    ([writeTemplate_layout]), everything that was written can be read again
    ([writeAll_get]), and nothing else changes ([writeAll_frame]). *)

From S2P Require Import Prelude Json Tree Types MetaPodTemplate AccessFacts Layout.

(** ** The places of a layout *)

Definition slotPaths (s : slot) : list loc :=
  match slot_Name s with Some p => [p] | None => [] end ++ [slot_Env s; slot_VolumeMounts s].

Definition layoutPaths (lay : layout) : list loc :=
  lay_Annotations lay :: concat (map slotPaths (concat (lay_Slots lay))) ++ [lay_Volumes lay].

(** The objects that the places of a layout are relative to. *)
Definition layoutRefs (lay : layout) : list loc := [] :: map slot_Ref (concat (lay_Slots lay)).

(** No place is above another one, nor above a container. *)
Record wellPlaced (lay : layout) : Prop := {
  places_disjoint : ForallOrdPairs (fun p q => disjoint p q = true) (layoutPaths lay);
  places_not_above p l : p ∈ layoutPaths lay -> l ∈ layoutRefs lay -> above p l = false;
}.

(** [u'] comes from [u] by writes at the places [ps]. *)
Inductive written (ps : list loc) : json -> json -> Prop :=
  | written_refl u : written ps u u
  | written_step u v p u1 u2 :
      p ∈ ps -> set_loc p v u = Ok u1 -> written ps u1 u2 -> written ps u u2.

Lemma written_trans ps u1 u2 u3 : written ps u1 u2 -> written ps u2 u3 -> written ps u1 u3.
Proof. induction 1; eauto using written. Qed.

Lemma written_one ps u v p u' : p ∈ ps -> set_loc p v u = Ok u' -> written ps u u'.
Proof. eauto using written. Qed.

Lemma written_writeAll ps ws u u' :
  (forall w, w ∈ ws -> w.1 ∈ ps) -> writeAll ws u = Ok u' -> written ps u u'.
Proof.
  revert u. induction ws as [|[p v] ws IH]; intros u Hps; cbn.
  { intros [= ->]. constructor. }
  intros (u1 & H1 & H2)%bind_Ok. econstructor; [|exact H1|].
  - apply (Hps (p, v)). left.
  - apply IH; [|done]. intros w Hw. apply Hps. by right.
Qed.

Lemma written_object ps l u u' m :
  (forall p, p ∈ ps -> above p l = false) -> written ps u u' ->
  lookup_at l u = Some (JObj m) -> exists m', lookup_at l u' = Some (JObj m').
Proof.
  intros Ha Hw. revert m. induction Hw as [u|u v p u1 u2 Hp Hs Hw IH]; intros m Hm; [eauto|].
  destruct (lookup_set_loc p l v u u1 m) as [m1 Hm1]; eauto.
Qed.

(** Places are given by field names below the objects of the layout. *)
Definition anchored (l p : loc) : Prop := exists ks, ks <> [] /\ p = l ++ fields ks.

(** ** Sequences of writes *)

Section writes.
Context (ps refs : list loc).
Context (Habove : forall p l, p ∈ ps -> l ∈ refs -> above p l = false).

Definition grounded (u : json) : Prop :=
  forall l, l ∈ refs -> exists m, lookup_at l u = Some (JObj m).

Lemma grounded_set p v u u' : p ∈ ps -> set_loc p v u = Ok u' -> grounded u -> grounded u'.
Proof.
  intros Hp Hs Hg l Hl. destruct (Hg l Hl) as [m Hm].
  eapply lookup_set_loc; [by apply Habove|exact Hm|exact Hs].
Qed.

Lemma grounded_indexed l p u : l ∈ refs -> anchored l p -> grounded u -> indexed p u.
Proof. intros Hl (ks & _ & ->) Hg. destruct (Hg l Hl) as [m Hm]. by eapply indexed_below. Qed.

(** A place that is disjoint from every written one keeps its contents. *)
Lemma writeAll_frame ws q u u' :
  (forall w, w ∈ ws -> w.1 ∈ ps /\ disjoint w.1 q = true) ->
  (forall u, grounded u -> indexed q u) ->
  grounded u -> writeAll ws u = Ok u' -> get_loc q u' = get_loc q u.
Proof.
  intros Hws Hq. revert u. induction ws as [|[p v] ws IH]; intros u Hg; cbn.
  { by intros [= ->]. }
  intros (u1 & H1 & H2)%bind_Ok. destruct (Hws (p, v)) as [Hp Hd]; [left|]. cbn in Hp, Hd.
  rewrite (IH (fun w Hw => Hws w (list_elem_of_further _ _ _ Hw)) u1) by eauto using grounded_set.
  eapply get_set_loc_disjoint; eauto.
Qed.

Definition separate (ws : list (loc * json)) : Prop :=
  ForallOrdPairs (fun p q => disjoint p q = true) (map fst ws).

Definition placed (w : loc * json) : Prop :=
  w.1 ∈ ps /\ (exists l, l ∈ refs /\ anchored l w.1) /\ isNull w.2 = false.

Lemma separate_cons p v ws :
  separate ((p, v) :: ws) -> separate ws /\ forall w, w ∈ ws -> disjoint w.1 p = true.
Proof.
  unfold separate. cbn. inversion 1 as [|? ? Hall Hrest]; subst. split; [done|].
  intros w Hw. rewrite disjoint_sym. rewrite Forall_forall in Hall. apply Hall.
  by apply list_elem_of_fmap_2.
Qed.

(** What was written is read back. *)
Lemma writeAll_get ws u u' w :
  Forall placed ws -> separate ws -> grounded u ->
  writeAll ws u = Ok u' -> w ∈ ws -> get_loc w.1 u' = Ok (Some w.2).
Proof.
  revert u. induction ws as [|[p v] ws IH]; intros u Hpl Hsep Hg; cbn.
  { by intros _ ?%elem_of_nil. }
  intros (u1 & H1 & H2)%bind_Ok Hw. apply separate_cons in Hsep as [Hsep Hdis].
  inversion Hpl as [|? ? (Hp & (l & Hl & Hanch) & Hnull) Hpl']; subst. cbn in *.
  apply elem_of_cons in Hw as [-> |Hw]; [|by eapply (IH u1); eauto using grounded_set].
  cbn. rewrite (writeAll_frame ws p u1 u'); eauto using get_set_loc, grounded_set.
  - intros w Hw. split; [|by apply Hdis]. rewrite Forall_forall in Hpl'. by apply Hpl'.
  - intros u0. by apply (grounded_indexed l).
Qed.

(** A place that can be read can be written. *)
Lemma get_set_fields_ok ks v m r :
  get_loc (fields ks) (JObj m) = Ok r -> exists j', set_loc (fields ks) v (JObj m) = Ok j'.
Proof.
  revert m r. induction ks as [|k ks IH]; intros m r; [cbn; eauto|].
  change (fields (k :: ks)) with (Field k :: fields ks). cbn [get_loc isNull child].
  rewrite set_loc_field. destruct ks as [|k' ks]; [cbn; eauto|]. intros Hr.
  assert (exists j', set_loc (fields (k' :: ks)) v (vivify (m !! k)) = Ok j') as [j' Hj].
  { destruct (m !! k) as [[| | | |l|m']|]; try done; cbn [vivify]; try by eapply IH.
    all: by eapply (IH ∅), get_loc_missing. }
  change (match fields (k' :: ks) with [] => v | _ :: _ => vivify (m !! k) end)
    with (vivify (m !! k)).
  rewrite Hj. cbn. eauto.
Qed.

Lemma get_set_loc_ok l p v u r :
  l ∈ refs -> anchored l p -> grounded u -> get_loc p u = Ok r -> exists u', set_loc p v u = Ok u'.
Proof.
  intros Hl (ks & Hne & ->) Hg. destruct (Hg l Hl) as [m Hm].
  rewrite (get_loc_app l _ u m), (set_loc_app l _ v u m) by (done || by destruct ks).
  intros [j' ->]%(get_set_fields_ok ks v). cbn. eauto.
Qed.

(** Places that can be read, and do not interfere, can all be written. *)
Lemma writeAll_ok ws u :
  Forall placed ws -> separate ws -> grounded u ->
  (forall w, w ∈ ws -> exists r, get_loc w.1 u = Ok r) -> exists u', writeAll ws u = Ok u'.
Proof.
  revert u. induction ws as [|[p v] ws IH]; intros u Hpl Hsep Hg Hr; cbn; [eauto|].
  apply separate_cons in Hsep as [Hsep Hdis].
  inversion Hpl as [|? ? (Hp & (l & Hl & Hanch) & Hnull) Hpl']; subst. cbn in Hp, Hanch.
  destruct (Hr (p, v)) as [r Hrp]; [left|]. cbn in Hrp.
  destruct (get_set_loc_ok l p v u r Hl Hanch Hg Hrp) as [u1 H1]. rewrite H1.
  apply IH; [done|done|by eapply grounded_set|].
  intros w Hw. destruct (Hr w) as [r' Hr']; [by right|]. exists r'. rewrite <-Hr'.
  rewrite Forall_forall in Hpl'. destruct (Hpl' w Hw) as (Hwp & (l' & Hl' & Hanch') & _).
  eapply get_set_loc_disjoint; [|by eapply grounded_indexed|exact H1].
  rewrite disjoint_sym. by apply Hdis.
Qed.

(** Writing what is there changes nothing. *)
Lemma writeAll_id ws u :
  isNull u = false -> (forall w, w ∈ ws -> get_loc w.1 u = Ok (Some w.2)) -> writeAll ws u = Ok u.
Proof.
  intros Hu. induction ws as [|[p v] ws IH]; intros Hr; cbn; [done|].
  rewrite set_get_loc by (done || apply (Hr (p, v)); left). cbn. apply IH.
  intros w Hw. apply Hr. by right.
Qed.
End writes.

(** ** Stable containers *)

Section stable.
Context `{JsonPath}.
Context `{Codec (list EnvVar)} `{Codec (list VolumeMount)} `{Codec (list Volume)}.

(** What the path of a mapping's container selects; [None] when the library
    does not find the path. *)
Definition selects (u : json) (c : ClusterWorkloadResourceMappingContainer) :
    outcome (option (list rvalue)) :=
  nodes ← jsonpath_Parse (braced (mc_Path c));
  match FindResults nodes u with
  | Ok cr => cvs ← firstResult cr; Ok (Some cvs)
  | Err _ => Ok None
  | Panic s => Panic s
  end.

(** The paths of the mapping select the same containers whatever is written at
    the places of the layout. *)
Definition Stable (mapping : ClusterWorkloadResourceMappingTemplate) (lay : layout) (u : json) : Prop :=
  forall u' c, written (layoutPaths lay) u u' -> c ∈ mt_Containers mapping ->
  selects u' c = selects u c.

Lemma slotsOf_selects u c :
  slotsOf u c = match selects u c with
                | Ok (Some cvs) => mapM (slotOf u c) cvs
                | Ok None => Some []
                | _ => None
                end.
Proof.
  unfold slotsOf, selects. destruct (jsonpath_Parse _) as [nodes| |]; [|done..]. cbn.
  destruct (FindResults nodes u) as [[|cvs cr]| |]; done.
Qed.

Lemma slotOf_grounded u u' c cv s :
  slotOf u c cv = Some s -> (exists m, lookup_at (slot_Ref s) u' = Some (JObj m)) ->
  slotOf u' c cv = Some s.
Proof.
  intros Hs [m' Hm']. pose proof Hs as (m & [Hcv Hm] & _)%slotOf_Some. revert Hs.
  unfold slotOf, objectRef. by destruct Hcv as [-> | ->]; rewrite Hm, Hm'.
Qed.

Lemma slotsOf_grounded u u' c cvs ss :
  mapM (slotOf u c) cvs = Some ss ->
  (forall s, s ∈ ss -> exists m, lookup_at (slot_Ref s) u' = Some (JObj m)) ->
  mapM (slotOf u' c) cvs = Some ss.
Proof.
  intros Hss%mapM_Some Hg. apply mapM_Some.
  induction Hss as [|cv s cvs ss Hs Hss IH]; constructor.
  - apply (slotOf_grounded u); [done|]. apply Hg. left.
  - apply IH. intros s' Hs'. apply Hg. by right.
Qed.

Lemma slot_paths s : 
  slot_Env s ∈ slotPaths s /\ slot_VolumeMounts s ∈ slotPaths s /\
  forall p, slot_Name s = Some p -> p ∈ slotPaths s.
Proof.
  unfold slotPaths. destruct (slot_Name s); set_solver.
Qed.

Lemma layout_slot_paths lay s p :
  s ∈ concat (lay_Slots lay) -> p ∈ slotPaths s -> p ∈ layoutPaths lay.
Proof.
  intros Hs Hp. unfold layoutPaths. right. apply elem_of_app. left.
  apply list_elem_of_In, in_concat. exists (slotPaths s).
  split; [|by apply list_elem_of_In]. by apply in_map, list_elem_of_In.
Qed.

Section layout.
Context (mapping : ClusterWorkloadResourceMappingTemplate) (lay : layout).
Context (Hwp : wellPlaced lay).

Lemma layout_grounded u : layoutOf mapping u = Some lay -> grounded (layoutRefs lay) u.
Proof.
  intros (m & [_ Hm] & _ & Hss & _)%layoutOf_Some l [-> |Hl]%elem_of_cons; [by exists m|].
  apply list_elem_of_fmap in Hl as (s & -> & Hs).
  apply list_elem_of_In, in_concat in Hs as (ss & Hss' & Hs).
  apply list_elem_of_In, list_elem_of_lookup in Hss' as [i Hi].
  apply list_elem_of_In in Hs.
  destruct (Forall2_lookup_r _ _ _ _ _ Hss Hi) as (c & _ & Hc).
  rewrite slotsOf_selects in Hc. destruct (selects u c) as [[cvs|]| |]; try done.
  - apply mapM_Some in Hc. apply list_elem_of_lookup in Hs as [j Hj].
    destruct (Forall2_lookup_r _ _ _ _ _ Hc Hj) as (cv & _ & Hcv).
    apply slotOf_Some in Hcv as (m' & [_ Hm'] & _). eauto.
  - injection Hc as <-. by apply elem_of_nil in Hs.
Qed.

Lemma grounded_written u u' :
  grounded (layoutRefs lay) u -> written (layoutPaths lay) u u' -> grounded (layoutRefs lay) u'.
Proof.
  intros Hg Hw l Hl. destruct (Hg l Hl) as [m Hm]. eapply written_object; [|exact Hw|exact Hm].
  intros p Hp. by apply (places_not_above lay Hwp).
Qed.

(** The layout stays the same while its places are written. *)
Lemma layoutOf_written u u' :
  layoutOf mapping u = Some lay -> Stable mapping lay u -> written (layoutPaths lay) u u' ->
  layoutOf mapping u' = Some lay.
Proof.
  intros Hlay Hst Hw. pose proof (grounded_written u u' (layout_grounded u Hlay) Hw) as Hg.
  apply layoutOf_Some in Hlay as (m & [_ Hm] & Ha & Hss & Hv).
  destruct (Hg []) as [m' [= ->]]; [left|].
  unfold layoutOf. cbn. rewrite Ha, Hv. cbn.
  assert (mapM (slotsOf (JObj m')) (mt_Containers mapping) = Some (lay_Slots lay)) as ->;
    [|by destruct lay].
  apply mapM_Some. apply Forall2_same_length_lookup. split; [by eapply Forall2_length|].
  intros i c ss Hci Hssi. pose proof (Forall2_lookup_lr _ _ _ _ _ _ Hss Hci Hssi) as Hss'.
  cbv beta in Hss'.
  apply list_elem_of_lookup_2 in Hci as Hc. apply list_elem_of_lookup_2 in Hssi as Hin.
  rewrite slotsOf_selects in Hss' |- *. rewrite (Hst _ c Hw Hc).
  destruct (selects u c) as [[cvs|]| |]; try done.
  apply (slotsOf_grounded u); [done|]. intros s Hs. apply Hg. right.
  apply list_elem_of_fmap. exists s. split; [done|].
  apply list_elem_of_In, in_concat. exists ss. by split; apply list_elem_of_In.
Qed.

(** ** Writing *)

Lemma grounded_writeAll ws u u' :
  (forall w, w ∈ ws -> w.1 ∈ layoutPaths lay) -> grounded (layoutRefs lay) u ->
  writeAll ws u = Ok u' -> grounded (layoutRefs lay) u'.
Proof. intros Hws Hg Hu. eapply grounded_written; [exact Hg|by eapply written_writeAll]. Qed.

Lemma slotWrites_paths s mc w : w ∈ slotWrites s mc -> w.1 ∈ slotPaths s.
Proof.
  unfold slotWrites, slotPaths. destruct (slot_Name s), (mct_Name mc); set_solver.
Qed.

(** The body of the inner loop of [writeContainers]. *)
Lemma writeSlot u c cv s mc :
  grounded (layoutRefs lay) u -> s ∈ concat (lay_Slots lay) -> slotOf u c cv = Some s ->
  (u ← match mct_Name mc with
       | Some name =>
           if negb (String.eqb (mc_Name c) "") then setAt (mc_Name c) name u cv else Ok u
       | None => Ok u
       end;
   u ← setAt (mc_Env c) (mct_Env mc) u cv;
   setAt (mc_VolumeMounts c) (mct_VolumeMounts mc) u cv) =
  writeAll (slotWrites s mc) u.
Proof.
  intros Hg Hs (m & [Hcv Hm] & Henv & Hmounts & Hname)%slotOf_Some.
  assert (slot_Ref s ∈ layoutRefs lay) as Hl by (right; by apply list_elem_of_fmap_2).
  destruct (slot_paths s) as (Pe & Pm & Pn).
  assert (forall u (T : Type) `{Codec T} ptr p (x : T), grounded (layoutRefs lay) u ->
    place (slot_Ref s) ptr = Some p -> setAt ptr x u cv = set_loc p (marshal x) u) as Hset.
  { intros u0 T ? ptr p x Hg0 Hp. destruct (Hg0 _ Hl) as [m0 Hm0].
    by apply (setAt_place ptr u0 cv (slot_Ref s) m0). }
  assert (forall u, grounded (layoutRefs lay) u ->
    (u ← setAt (mc_Env c) (mct_Env mc) u cv;
     setAt (mc_VolumeMounts c) (mct_VolumeMounts mc) u cv) =
    writeAll [(slot_Env s, marshal (mct_Env mc)); (slot_VolumeMounts s, marshal (mct_VolumeMounts mc))] u)
    as Hrest.
  { intros u0 Hg0. cbn. rewrite (Hset u0 _ _ _ _ _ Hg0 Henv).
    destruct (set_loc (slot_Env s) _ u0) as [u1| |] eqn:E; [|done..]. cbn.
    rewrite (Hset u1 _ _ _ _ _) with (2 := Hmounts).
    - by destruct (set_loc _ _ u1).
    - apply (grounded_set _ _ (places_not_above lay Hwp) _ _ _ _ (layout_slot_paths _ _ _ Hs Pe) E Hg0). }
  unfold slotWrites. destruct (negb _).
  - destruct Hname as (p & Hp & Hpp). rewrite Hp. destruct (mct_Name mc) as [n|]; [|by apply Hrest].
    rewrite (Hset u _ _ _ _ _ Hg Hpp), writeAll_app. cbn [writeAll mbind outcome_bind].
    destruct (set_loc p _ u) as [u1| |] eqn:E; [|done..]. cbn [mbind outcome_bind]. apply Hrest.
    apply (grounded_set _ _ (places_not_above lay Hwp) _ _ _ _ (layout_slot_paths _ _ _ Hs (Pn _ Hp)) E Hg).
  - rewrite Hname. destruct (mct_Name mc); by apply Hrest.
Qed.

Definition slotsWrites (ss : list slot) (mcs : list metaContainer) : list (loc * json) :=
  concat (zip_with slotWrites ss mcs).

Lemma slotsWrites_paths ss mcs w :
  (forall s, s ∈ ss -> s ∈ concat (lay_Slots lay)) -> w ∈ slotsWrites ss mcs -> w.1 ∈ layoutPaths lay.
Proof.
  intros Hss (l & Hl & Hw)%list_elem_of_In%in_concat.
  apply list_elem_of_In, elem_of_lookup_zip_with in Hl as (i & s & mc & -> & Hs & Hmc).
  apply list_elem_of_In, slotWrites_paths in Hw. eapply layout_slot_paths; [|exact Hw].
  apply Hss. by eapply list_elem_of_lookup_2.
Qed.

Lemma writeContainers_slots mpt c cvs ss u0 u ci :
  mapM (slotOf u0 c) cvs = Some ss -> (forall s, s ∈ ss -> s ∈ concat (lay_Slots lay)) ->
  grounded (layoutRefs lay) u -> ci + length ss <= length (mpt_Containers mpt) ->
  writeContainers mpt c cvs u ci =
  (u' ← writeAll (slotsWrites ss (drop ci (mpt_Containers mpt))) u; Ok (u', ci + length ss)).
Proof.
  intros Hss%mapM_Some. revert u ci. induction Hss as [|cv s cvs ss Hs Hss IH]; intros u ci Hin Hg Hlen.
  { cbn. by rewrite Nat.add_0_r. }
  cbn [writeContainers length] in *.
  destruct (lookup_lt_is_Some_2 (mpt_Containers mpt) ci) as [mc Hmc]; [lia|].
  assert (s ∈ concat (lay_Slots lay)) as Hsl by (apply Hin; left).
  rewrite Hmc, (drop_S _ mc ci) by done.
  assert (slotOf u c cv = Some s) as Hsu.
  { apply (slotOf_grounded u0); [done|]. apply Hg. right. by apply list_elem_of_fmap_2. }
  pose proof (writeSlot u c cv s mc Hg Hsl Hsu) as Hw.
  unfold slotsWrites. cbn [zip_with concat]. rewrite writeAll_app, <-Hw.
  destruct (match mct_Name mc with Some _ => _ | None => _ end) as [u1| |]; [|done..].
  cbn [mbind outcome_bind] in *. destruct (setAt (mc_Env c) _ u1 cv) as [u2| |]; [|done..].
  cbn [mbind outcome_bind] in *. destruct (setAt (mc_VolumeMounts c) _ u2 cv) as [u3| |]; [|done..].
  cbn [mbind outcome_bind] in *. rewrite IH.
  - fold (slotsWrites ss (drop (S ci) (mpt_Containers mpt))). by rewrite Nat.add_succ_r.
  - intros s' Hs'. apply Hin. by right.
  - eapply (grounded_writeAll (slotWrites s mc)); [|exact Hg|by symmetry].
    intros w Hw'. eapply layout_slot_paths; [exact Hsl|by eapply slotWrites_paths].
  - lia.
Qed.

Lemma slotsWrites_app ss1 ss2 mcs :
  slotsWrites (ss1 ++ ss2) mcs =
  slotsWrites ss1 mcs ++ slotsWrites ss2 (drop (length ss1) mcs).
Proof.
  revert mcs. induction ss1 as [|s ss1 IH]; intros mcs; [done|].
  destruct mcs as [|mc mcs]; unfold slotsWrites in *; cbn.
  - destruct ss2; done.
  - by rewrite IH, (assoc_L (++)).
Qed.

(** [u0] is the tree before the first write. *)
Lemma writeMappings_slots mpt u0 cs sss u ci :
  Stable mapping lay u0 -> (forall c, c ∈ cs -> c ∈ mt_Containers mapping) ->
  (forall ss, ss ∈ sss -> ss ∈ lay_Slots lay) ->
  Forall2 (fun c ss => slotsOf u0 c = Some ss) cs sss ->
  written (layoutPaths lay) u0 u -> grounded (layoutRefs lay) u ->
  ci + length (concat sss) <= length (mpt_Containers mpt) ->
  writeMappings mpt cs u ci =
  (u' ← writeAll (slotsWrites (concat sss) (drop ci (mpt_Containers mpt))) u;
   Ok (u', ci + length (concat sss))).
Proof.
  intros Hst Hcs Hsss Hss. revert u ci. induction Hss as [|c ss cs sss Hs Hss IH];
    intros u ci Hw Hg Hlen; [cbn; by rewrite Nat.add_0_r|].
  cbn [concat writeMappings] in *. rewrite length_app in Hlen.
  assert (c ∈ mt_Containers mapping) as Hc by (apply Hcs; left).
  pose proof (Hst u c Hw Hc) as Hsel. rewrite slotsOf_selects, <-Hsel in Hs. unfold selects in Hs.
  assert (forall s, s ∈ ss -> s ∈ concat (lay_Slots lay)) as Hin.
  { intros s Hs'. apply list_elem_of_In, in_concat. exists ss.
    split; apply list_elem_of_In; [apply Hsss; left|done]. }
  destruct (jsonpath_Parse _) as [nodes| |]; [|done..]. cbn [mbind outcome_bind] in *.
  destruct (FindResults nodes u) as [cr|e|s]; [| |done].
  - destruct (firstResult cr) as [cvs| |]; [|done..]. cbn [mbind outcome_bind] in *.
    rewrite (writeContainers_slots mpt c cvs ss u0) by (done || lia).
    rewrite slotsWrites_app, writeAll_app, drop_drop.
    destruct (writeAll (slotsWrites ss _) u) as [u1| |] eqn:E; [|done..]. cbn [mbind outcome_bind fst snd].
    assert (forall w, w ∈ slotsWrites ss (drop ci (mpt_Containers mpt)) -> w.1 ∈ layoutPaths lay) as Hp
      by (intros w; by apply slotsWrites_paths).
    rewrite IH; [|intros; apply Hcs; by right|intros; apply Hsss; by right
                 |eapply written_trans; [exact Hw|by eapply written_writeAll]
                 |by eapply grounded_writeAll|lia].
    by rewrite length_app, Nat.add_assoc.
  - injection Hs as <-. apply IH; [intros; apply Hcs; by right|intros; apply Hsss; by right
      |done..].
Qed.

(** [WriteToWorkload] writes the template at the places of the layout. *)
Lemma writeTemplate_layout mpt u :
  layoutOf mapping u = Some lay -> Stable mapping lay u ->
  length (concat (lay_Slots lay)) = length (mpt_Containers mpt) ->
  writeTemplate mpt mapping u = writeAll (layoutWrites lay mpt) u.
Proof.
  intros Hlay Hst Hlen. pose proof (layout_grounded u Hlay) as Hg0.
  apply layoutOf_Some in Hlay as (m & Hm & Ha & Hss & Hv).
  unfold writeTemplate, layoutWrites. rewrite (setAt_place _ u (RMap []) [] m _ _ Hm Ha).
  cbn [writeAll]. destruct (set_loc (lay_Annotations lay) _ u) as [u1| |] eqn:E1; [|done..].
  cbn [mbind outcome_bind]. rewrite writeAll_app.
  assert (lay_Annotations lay ∈ layoutPaths lay) as Hap by left.
  pose proof (grounded_set _ _ (places_not_above lay Hwp) _ _ _ _ Hap E1 Hg0) as Hg1.
  rewrite (writeMappings_slots mpt u _ (lay_Slots lay) u1 0); [|done..|by eapply written_one|done|lia].
  rewrite drop_0. fold (slotsWrites (concat (lay_Slots lay)) (mpt_Containers mpt)).
  destruct (writeAll (slotsWrites _ _) u1) as [u2| |] eqn:E2; [|done..]. cbn [mbind outcome_bind fst].
  assert (grounded (layoutRefs lay) u2) as Hg2.
  { eapply grounded_writeAll; [|exact Hg1|exact E2]. intros w. by apply slotsWrites_paths. }
  destruct (Hg2 []) as [m2 Hm2]; [left|].
  rewrite (setAt_place _ u2 (RMap []) [] m2 _ _ (conj (or_introl eq_refl) Hm2) Hv). cbn.
  by destruct (set_loc _ _ u2).
Qed.
End layout.
End stable.
