(* ===== verification/WorkloadFacts.v ===== *)
(** * Properties of reading and writing workloads

    On a workload with a layout that is well placed and stable, writing a
    template succeeds whenever reading did, is read back unchanged, and leaves
    everything else in the workload alone. *)

From S2P Require Import Prelude Json Tree Types MetaPodTemplate AccessFacts Layout Workload.

Section facts.
Context `{JsonPath}.
Context `{CodecLaws (list EnvVar)} `{CodecLaws (list VolumeMount)} `{CodecLaws (list Volume)}.
Context (mapping : ClusterWorkloadResourceMappingTemplate) (lay : layout).

(** A template with one container per slot, named where the slot has a place
    for the name. *)
Definition Fits (m : metaPodTemplate) : Prop :=
  Forall2 (fun s mc => is_Some (slot_Name s) <-> is_Some (mct_Name mc))
    (concat (lay_Slots lay)) (mpt_Containers m).

Lemma marshal_placed {T} `{CodecLaws T} (x : T) : isNull (marshal x) = false.
Proof. pose proof (marshal_not_null x). by destruct (marshal x). Qed.

(** ** The writes of a layout *)

Lemma place_anchored l ptr p : place l ptr = Some p -> anchored l p.
Proof. intros (ks & _ & Hne & ->)%place_Some. by exists ks. Qed.

Lemma slot_anchored u s p :
  layoutOf mapping u = Some lay -> s ∈ concat (lay_Slots lay) -> p ∈ slotPaths s ->
  anchored (slot_Ref s) p.
Proof.
  intros (m & _ & _ & Hss & _)%layoutOf_Some Hs Hp.
  apply list_elem_of_In, in_concat in Hs as (ss & Hss' & Hs).
  apply list_elem_of_In, list_elem_of_lookup in Hss' as [i Hi].
  destruct (Forall2_lookup_r _ _ _ _ _ Hss Hi) as (c & _ & Hc). cbv beta in Hc.
  rewrite slotsOf_selects in Hc. apply list_elem_of_In, list_elem_of_lookup in Hs as [j Hj].
  destruct (selects u c) as [[cvs|]| |]; try done; [|by injection Hc as <-].
  apply mapM_Some in Hc. destruct (Forall2_lookup_r _ _ _ _ _ Hc Hj) as (cv & _ & Hcv).
  apply slotOf_Some in Hcv as (m' & _ & He & Hm & Hn).
  unfold slotPaths in Hp. apply elem_of_app in Hp as [Hp|Hp].
  - destruct (slot_Name s) as [q|]; [|by apply elem_of_nil in Hp].
    apply list_elem_of_singleton in Hp as ->. destruct (negb _); [|done].
    destruct Hn as (q' & [= <-] & Hq). by eapply place_anchored.
  - apply elem_of_cons in Hp as [-> | ->%list_elem_of_singleton]; by eapply place_anchored.
Qed.

Lemma path_anchored u p :
  layoutOf mapping u = Some lay -> p ∈ layoutPaths lay ->
  exists l, l ∈ layoutRefs lay /\ anchored l p.
Proof.
  intros Hlay. pose proof Hlay as (m & _ & Ha & _ & Hv)%layoutOf_Some.
  unfold layoutPaths. intros [-> |[Hp| ->%list_elem_of_singleton]%elem_of_app]%elem_of_cons.
  - exists []. split; [left|by eapply place_anchored].
  - apply list_elem_of_In, in_concat in Hp as (ps & Hps & Hp%list_elem_of_In).
    apply in_map_iff in Hps as (s & <- & Hs%list_elem_of_In).
    exists (slot_Ref s). split; [right; by apply list_elem_of_fmap_2|]. by eapply slot_anchored.
  - exists []. split; [left|by eapply place_anchored].
Qed.

Lemma slotWrites_fst s mc :
  (is_Some (slot_Name s) <-> is_Some (mct_Name mc)) -> map fst (slotWrites s mc) = slotPaths s.
Proof.
  unfold slotWrites, slotPaths. destruct (slot_Name s), (mct_Name mc); cbn; intros [Ha Hb]; try done.
  destruct Ha; by eauto.
Qed.

(** The writes of a fitting template go to the places of the layout, each once. *)
Lemma layoutWrites_fst m : Fits m -> map fst (layoutWrites lay m) = layoutPaths lay.
Proof.
  intros Hfit. unfold layoutWrites, layoutPaths. cbn. f_equal. rewrite map_app. cbn. f_equal.
  unfold Fits in Hfit. induction Hfit as [|s mc ss mcs Hs Hss IH]; [done|].
  cbn. by rewrite map_app, slotWrites_fst, IH.
Qed.

Lemma slotWrites_not_null s mc w : w ∈ slotWrites s mc -> isNull w.2 = false.
Proof.
  unfold slotWrites. intros [Hw|Hw]%elem_of_app.
  - destruct (slot_Name s), (mct_Name mc); try by apply elem_of_nil in Hw.
    by apply list_elem_of_singleton in Hw as ->.
  - apply elem_of_cons in Hw as [-> | ->%list_elem_of_singleton]; by apply marshal_placed.
Qed.

Lemma layoutWrites_not_null m w : w ∈ layoutWrites lay m -> isNull w.2 = false.
Proof.
  unfold layoutWrites. intros [-> |[Hw| ->%list_elem_of_singleton]%elem_of_app]%elem_of_cons;
    [by apply marshal_placed| |by apply marshal_placed].
  apply list_elem_of_In, in_concat in Hw as (ws & Hws & Hw%list_elem_of_In).
  apply list_elem_of_In, elem_of_lookup_zip_with in Hws as (i & s & mc & -> & _).
  by eapply slotWrites_not_null.
Qed.

Lemma layoutWrites_placed u m :
  layoutOf mapping u = Some lay -> Fits m ->
  Forall (placed (layoutPaths lay) (layoutRefs lay)) (layoutWrites lay m).
Proof.
  intros Hlay Hfit. apply Forall_forall. intros w Hw.
  assert (w.1 ∈ layoutPaths lay) as Hp.
  { rewrite <-(layoutWrites_fst m Hfit). by apply list_elem_of_fmap_2. }
  split_and!; [done|by eapply path_anchored|by eapply layoutWrites_not_null].
Qed.

Lemma layoutWrites_separate m : wellPlaced lay -> Fits m -> separate (layoutWrites lay m).
Proof. intros Hwp Hfit. unfold separate. rewrite layoutWrites_fst by done. apply Hwp. Qed.

(** ** Reading back *)

Definition holds (ws : list (loc * json)) (u : json) : Prop :=
  forall w, w ∈ ws -> get_loc w.1 u = Ok (Some w.2).

Lemma readAt_written {T} `{CodecLaws T} p u (x d : T) :
  get_loc p u = Ok (Some (marshal x)) -> readAt p u d = Ok x.
Proof. unfold readAt. intros ->. cbn. apply unmarshal_marshal. Qed.

Lemma readSlot_holds s mc u :
  (is_Some (slot_Name s) <-> is_Some (mct_Name mc)) -> holds (slotWrites s mc) u ->
  readSlot u s = Ok mc.
Proof.
  intros Hn Hh. unfold readSlot. unfold slotWrites in Hh.
  rewrite (readAt_written (slot_Env s) u (mct_Env mc)) by
    (apply (Hh (_, _)), elem_of_app; right; left).
  rewrite (readAt_written (slot_VolumeMounts s) u (mct_VolumeMounts mc)) by
    (apply (Hh (_, _)), elem_of_app; right; right; left).
  destruct (slot_Name s) as [p|], mc as [[n|] env mounts]; cbn in *.
  - rewrite (readAt_written p u n) by (apply (Hh (_, _)); left). done.
  - destruct Hn as [[? ?] _]; [by eauto|done].
  - destruct Hn as [_ [? ?]]; [by eauto|done].
  - done.
Qed.

Lemma mapM_readSlot ss mcs u :
  Forall2 (fun s mc => is_Some (slot_Name s) <-> is_Some (mct_Name mc)) ss mcs ->
  holds (concat (zip_with slotWrites ss mcs)) u -> mapM (readSlot u) ss = Ok mcs.
Proof.
  induction 1 as [|s mc ss mcs Hs Hss IH]; [done|]. cbn. intros Hh.
  rewrite (readSlot_holds s mc) by (done || (intros w Hw; apply Hh, elem_of_app; by left)).
  cbn. rewrite IH; [done|]. intros w Hw. apply Hh, elem_of_app. by right.
Qed.

Lemma mapM_concat {A B} (f : A -> outcome B) xss ys :
  mapM f (concat xss) = Ok ys -> exists yss, mapM (mapM f) xss = Ok yss /\ concat yss = ys.
Proof.
  revert ys. induction xss as [|xs xss IH]; intros ys; cbn; [intros [= <-]; by exists []|].
  revert ys. induction xs as [|x xs IHx]; intros ys; cbn.
  - intros (yss & Hy & <-)%IH. rewrite Hy. by exists ([] :: yss).
  - intros (y & Hy & (ys' & Hys & [= <-])%bind_Ok)%bind_Ok. rewrite Hy. cbn.
    destruct (IHx ys' Hys) as (yss & Hyss & <-).
    apply bind_Ok in Hyss as (zs & Hzs & (zss & Hzss & [= <-])%bind_Ok).
    rewrite Hzs. cbn. rewrite Hzss. by exists ((y :: zs) :: zss).
Qed.

Lemma readLayout_holds m u : Fits m -> holds (layoutWrites lay m) u -> readLayout lay u = Ok m.
Proof.
  intros Hfit Hh. unfold readLayout. unfold layoutWrites in Hh.
  rewrite (readAt_written (lay_Annotations lay) u (mpt_Annotations m)) by (apply (Hh (_, _)); left).
  rewrite (readAt_written (lay_Volumes lay) u (mpt_Volumes m)) by
    (apply (Hh (_, _)); right; apply elem_of_app; right; left).
  destruct (mapM_concat (readSlot u) (lay_Slots lay) (mpt_Containers m)) as (mcss & Hm & Hc).
  { apply mapM_readSlot; [done|]. intros w Hw. apply Hh. right. apply elem_of_app. by left. }
  cbn. rewrite Hm. cbn. rewrite Hc. by destruct m.
Qed.

(** ** What was readable *)

Lemma readAt_Ok {T} `{Codec T} p u (d x : T) : readAt p u d = Ok x -> exists r, get_loc p u = Ok r.
Proof. intros (r & Hr & _)%bind_Ok. eauto. Qed.

Lemma readSlot_Ok u s mc :
  readSlot u s = Ok mc ->
  (is_Some (slot_Name s) <-> is_Some (mct_Name mc)) /\
  forall p, p ∈ slotPaths s -> exists r, get_loc p u = Ok r.
Proof.
  unfold readSlot, slotPaths. intros (n & Hn & (e & He & (vm & Hm & [= <-])%bind_Ok)%bind_Ok)%bind_Ok.
  apply readAt_Ok in He, Hm. cbn. destruct (slot_Name s) as [q|].
  - apply bind_Ok in Hn as (n' & Hn%readAt_Ok & [= <-]). split; [by split; eauto|].
    by intros p [-> |[-> | ->%list_elem_of_singleton]%elem_of_cons]%elem_of_cons.
  - injection Hn as <-. split; [done|].
    by intros p [-> | ->%list_elem_of_singleton]%elem_of_cons.
Qed.

Lemma mapM_Ok {A B} (f : A -> outcome B) xs ys :
  mapM f xs = Ok ys -> Forall2 (fun x y => f x = Ok y) xs ys.
Proof.
  revert ys. induction xs as [|x xs IH]; intros ys; cbn; [intros [= <-]; constructor|].
  intros (y & Hy & (ys' & Hys & [= <-])%bind_Ok)%bind_Ok. constructor; auto.
Qed.

Lemma mapM_concat_Ok {A B} (f : A -> outcome B) xss yss :
  mapM (mapM f) xss = Ok yss -> Forall2 (fun x y => f x = Ok y) (concat xss) (concat yss).
Proof.
  intros Hm%mapM_Ok. induction Hm as [|xs ys xss yss Hx Hxs IH]; cbn; [constructor|].
  apply Forall2_app; [by apply mapM_Ok|done].
Qed.

Lemma readLayout_Ok u m :
  readLayout lay u = Ok m ->
  Fits m /\ forall p, p ∈ layoutPaths lay -> exists r, get_loc p u = Ok r.
Proof.
  unfold readLayout. intros (a & Ha & (cs & Hcs & (v & Hv & [= <-])%bind_Ok)%bind_Ok)%bind_Ok.
  apply mapM_concat_Ok in Hcs. apply readAt_Ok in Ha, Hv. unfold Fits. cbn. split.
  - eapply Forall2_impl; [exact Hcs|]. intros s mc Hs. by apply readSlot_Ok in Hs as [? _].
  - intros p [-> |[Hp| ->%list_elem_of_singleton]%elem_of_app]%elem_of_cons; [done| |done].
    apply list_elem_of_In, in_concat in Hp as (ps & Hps & Hp%list_elem_of_In).
    apply in_map_iff in Hps as (s & <- & Hs%list_elem_of_In).
    apply list_elem_of_lookup in Hs as [j Hj].
    destruct (Forall2_lookup_l _ _ _ _ _ Hcs Hj) as (mc & _ & Hmc).
    apply readSlot_Ok in Hmc as [_ Hr]. by apply Hr.
Qed.

(** ** Reading and writing a workload *)

Context (u : json).
Context (Hlay : layoutOf mapping u = Some lay) (Hwp : wellPlaced lay) (Hst : Stable mapping lay u).

(** A template that was read can be replaced: the write succeeds, is read back,
    and touches nothing but the places of the layout. *)
Lemma write_read m0 m :
  readTemplate mapping u = Ok m0 -> Fits m ->
  exists u', writeTemplate m mapping u = Ok u' /\ written (layoutPaths lay) u u' /\
    readTemplate mapping u' = Ok m /\ writeTemplate m mapping u' = Ok u' /\
    (forall ks, (forall p, p ∈ layoutPaths lay -> disjoint p (fields ks) = true) ->
       get_loc (fields ks) u' = get_loc (fields ks) u).
Proof.
  intros Hr Hfit. rewrite (readTemplate_layout mapping u lay Hlay) in Hr.
  apply readLayout_Ok in Hr as [_ Hr].
  pose proof (layout_grounded mapping lay u Hlay) as Hg.
  pose proof (layoutWrites_placed u m Hlay Hfit) as Hpl.
  pose proof (layoutWrites_separate m Hwp Hfit) as Hsep.
  assert (forall w, w ∈ layoutWrites lay m -> w.1 ∈ layoutPaths lay) as Hps.
  { intros w Hw. rewrite Forall_forall in Hpl. by apply Hpl. }
  assert (length (concat (lay_Slots lay)) = length (mpt_Containers m)) as Hlen
    by by eapply Forall2_length.
  destruct (writeAll_ok _ _ (places_not_above lay Hwp) (layoutWrites lay m) u) as [u' Hu'];
    try done; [by intros w Hw; apply Hr, Hps|].
  assert (written (layoutPaths lay) u u') as Hw by by eapply written_writeAll.
  assert (layoutOf mapping u' = Some lay) as Hlay' by by eapply layoutOf_written.
  assert (holds (layoutWrites lay m) u') as Hh.
  { intros w Hin. by eapply (writeAll_get _ _ (places_not_above lay Hwp)). }
  exists u'. split_and!.
  - by rewrite (writeTemplate_layout mapping lay Hwp).
  - done.
  - rewrite (readTemplate_layout mapping u' lay Hlay'). by apply readLayout_holds.
  - rewrite (writeTemplate_layout mapping lay Hwp); [|done| |done].
    + apply writeAll_id; [|exact Hh]. destruct (Hg []) as [r Hroot]; [left|].
      destruct (layout_grounded mapping lay u' Hlay' []) as [r' [= ->]]; [left|done].
    + intros u'' c Hw'' Hc. rewrite (Hst u' c) by done. apply Hst; [by eapply written_trans|done].
  - intros ks Hks. eapply (writeAll_frame _ _ (places_not_above lay Hwp)); [| |exact Hg|exact Hu'].
    + intros w Hin. split; [by apply Hps|]. by apply Hks, Hps.
    + intros. apply indexed_fields.
Qed.
End facts.

Lemma Fits_names lay m m' :
  map mct_Name (mpt_Containers m') = map mct_Name (mpt_Containers m) -> Fits lay m -> Fits lay m'.
Proof.
  unfold Fits. intros Hn Hf. revert Hn. generalize (mpt_Containers m') as mcs'.
  induction Hf as [|s mc ss mcs Hs Hf IH]; intros [|mc' mcs']; try done.
  cbn. intros [= Hmc Hmcs]. constructor; [by rewrite Hmc|by apply IH].
Qed.
