(* ===== verification/AccessProperties.v ===== *)
(** * Properties of the accessors and of writing workloads

    What [getAt], [setAt] and the template functions built from them promise,
    and the inputs on which they panic. *)

From S2P Require Import Prelude Json Tree Types MetaPodTemplate AccessFacts Layout Workload WorkloadFacts.

(** [get_loc] below a scalar. *)
Lemma get_loc_below_scalar p q s j :
  lookup_at p j = Some (JStr s) ->
  forall k, get_loc (p ++ Field k :: q) j = Panic "reflect: call of reflect.Value.IsNil".
Proof.
  intros Hp k. revert j Hp. induction p as [|t p IH]; intros j Hp; cbn in *.
  - by injection Hp as ->.
  - destruct (child t j) as [c|] eqn:Hc; [|done]. cbn in Hp. rewrite IH by done.
    by destruct j, t.
Qed.

Lemma set_loc_below_scalar p q s v j :
  lookup_at p j = Some (JStr s) ->
  forall k, set_loc (p ++ Field k :: q) v j = Panic "reflect: call of reflect.Value.IsNil".
Proof.
  intros Hp k. revert j Hp. induction p as [|t p IH]; intros j Hp; cbn [app lookup_at] in *.
  - by injection Hp as ->.
  - destruct (child t j) as [c|] eqn:Hc; [|done]. cbn in Hp.
    assert (c <> JNull) as Hnn by (intros ->; destruct p as [|[] ?]; done).
    destruct t as [k'|i], j as [| | | |l|m]; try done.
    + rewrite set_loc_field. cbn in Hc. rewrite Hc.
      destruct (p ++ Field k :: q) as [|s' p'] eqn:E; [by destruct p|].
      cbv iota.
      rewrite vivify_not_null by by destruct c. by rewrite IH.
    + cbn in Hc |- *. rewrite Hc, IH by done. done.
Qed.

Lemma fields_app ks1 ks2 : fields (ks1 ++ ks2) = fields ks1 ++ fields ks2.
Proof. apply fmap_app. Qed.

(** More fuel does not change what [find] returns. *)
Lemma find_mono fuel u value parent keys lk c r :
  find fuel u value parent keys lk c = Some r -> find (S fuel) u value parent keys lk c = Some r.
Proof.
  revert u value parent keys lk. induction fuel as [|fuel IH]; intros u value parent keys lk Hr; [done|].
  remember (S fuel) as fuel' eqn:Hf. rewrite Hf in Hr. cbn [find] in Hr |- *.
  destruct (IsNil u value) as [b|e|s]; [|done|done]. destruct (b && negb c); [done|].
  destruct (if b then _ else _) as [[u' value']|e|s]; [|done|done].
  destruct keys as [|key keys]; [done|].
  destruct value' as [|l|l|l|]; try done; by apply IH.
Qed.

(** C38 (termination). The recursion of [find] ends on every input, also on ones
    where the walk fails or creates objects, within two calls for each key and
    two more; from there on the result does not depend on the fuel. *)
Theorem find_terminates u value parent keys lk c :
  exists r, forall fuel, 2 * length keys + 2 <= fuel -> find fuel u value parent keys lk c = Some r.
Proof.
  destruct (find (2 * length keys + 2) u value parent keys lk c) as [r|] eqn:E.
  - exists r. intros fuel Hf. induction Hf as [|fuel Hf IH]; [done|]. by apply find_mono.
  - exfalso. revert E. apply find_total. unfold fuelFor. destruct value; lia.
Qed.

Section properties.
Context `{JsonPath}.

(** C13 (read after write). [getAt] reads what [setAt] wrote at the same path,
    and what is at any disjoint path below the same object stays readable with
    the same result: the two accessors form a lens on the workload. *)
Theorem getAt_setAt {T} `{CodecLaws T} ptr ks u v l m (x d : T) u' :
  keys ptr = Ok ks -> ks <> [] -> refersTo u v l m -> setAt ptr x u v = Ok u' ->
  getAt ptr u' v d = Ok x /\
  forall ptr' ks' (d' : T), keys ptr' = Ok ks' -> disjoint (fields ks) (fields ks') = true ->
    getAt ptr' u' v d' = getAt ptr' u v d'.
Proof.
  intros Hk Hne Hv Hs. rewrite (setAt_set_loc ptr ks u v l m x) in Hs by done.
  pose proof Hv as [Hv' Hl].
  assert (above (l ++ fields ks) l = false) as Ha.
  { clear -Hne. induction l as [|s l IH]; [by destruct ks|]. cbn. by rewrite decide_True. }
  destruct (lookup_set_loc _ l _ u u' m Ha Hl Hs) as [m' Hm'].
  assert (refersTo u' v l m') as Hv'' by done. split.
  - rewrite (getAt_get_loc ptr ks u' v l m') by done.
    rewrite (get_set_loc _ (marshal x) u u'); [|by pose proof (marshal_not_null x); destruct (marshal x)|done].
    cbn. apply unmarshal_marshal.
  - intros ptr' ks' d' Hk' Hd. assert (ks' <> []) as Hne' by (intros ->; by rewrite disjoint_sym in Hd).
    rewrite (getAt_get_loc ptr' ks' u' v l m'), (getAt_get_loc ptr' ks' u v l m) by done.
    rewrite (get_set_loc_disjoint (l ++ fields ks) (l ++ fields ks') (marshal x) u u'); [done| | |done].
    + clear -Hd. induction l as [|s l IH]; [done|]. cbn. by rewrite decide_True.
    + by eapply indexed_below.
Qed.

(** C39 (scalars on the way). When a path leads through a string, [getAt] and
    [setAt] do not return the error for unhandled kinds: [find] asks the scalar
    whether it is nil first, and [reflect] panics. *)
Theorem find_panics_on_scalars {T} `{Codec T} ptr ks k ks' s u v l m (x d : T) :
  keys ptr = Ok (ks ++ k :: ks') -> refersTo u v l m -> lookup_at (l ++ fields ks) u = Some (JStr s) ->
  getAt ptr u v d = Panic "reflect: call of reflect.Value.IsNil" /\
  setAt ptr x u v = Panic "reflect: call of reflect.Value.IsNil".
Proof.
  intros Hk Hv Hs. assert (ks ++ k :: ks' <> []) as Hne by by destruct ks.
  rewrite (getAt_get_loc _ _ u v l m d Hk Hne Hv), (setAt_set_loc _ _ u v l m x Hk Hne Hv).
  rewrite fields_app, (assoc_L (++)). change (fields (k :: ks')) with (Field k :: fields ks').
  rewrite (get_loc_below_scalar _ _ s u Hs), (set_loc_below_scalar _ _ s _ u Hs). done.
Qed.

Context `{CodecLaws (list EnvVar)} `{CodecLaws (list VolumeMount)} `{CodecLaws (list Volume)}.

(** C12 (write and read back). Let the places that a mapping names in a workload
    not lie above one another, and its container paths select the same
    containers while these places are written. If the workload can be read,
    then any template with the same containers can be written to it; it reads
    back unchanged; writing it again changes nothing; and every value at a path
    disjoint from the places is as before. *)
Theorem writeTemplate_roundtrip mapping lay u m0 m :
  layoutOf mapping u = Some lay -> wellPlaced lay -> Stable mapping lay u ->
  readTemplate mapping u = Ok m0 ->
  map mct_Name (mpt_Containers m) = map mct_Name (mpt_Containers m0) ->
  exists u', writeTemplate m mapping u = Ok u' /\
    readTemplate mapping u' = Ok m /\ writeTemplate m mapping u' = Ok u' /\
    (forall ks, (forall p, p ∈ layoutPaths lay -> disjoint p (fields ks) = true) ->
       get_loc (fields ks) u' = get_loc (fields ks) u).
Proof.
  intros Hlay Hwp Hst Hr Hn.
  assert (Fits lay m) as Hfit.
  { eapply Fits_names; [exact Hn|]. eapply (readLayout_Ok lay u).
    by rewrite <-(readTemplate_layout mapping u lay Hlay). }
  destruct (write_read mapping lay u Hlay Hwp Hst m0 m Hr Hfit) as (u' & ? & _ & ?). eauto.
Qed.
End properties.
