(* ===== verification/FieldErrors.v ===== *)
(** * Field errors (k8s.io/apimachinery/pkg/util/validation/field)

    The errors that the webhooks report: their type, the path of the field,
    the value and a detail. [ToAggregate] turns a list of them into the error
    that the API server is given; it is [nil] for no errors. *)

From S2P Require Import Prelude Json.

Inductive ErrorType := ErrorTypeRequired | ErrorTypeInvalid | ErrorTypeDuplicate.

(** [fldPath.Child(name)] and [fldPath.Index(i)] *)
Inductive PathElement :=
  | Child (name : string)
  | AtIndex (i : nat).

Definition FieldPath : Type := list PathElement.

Record FieldError := mkFieldError {
  fe_Type : ErrorType;
  fe_Field : FieldPath;
  fe_BadValue : json;
  fe_Detail : string;
}.

Definition Required (p : FieldPath) (detail : string) : FieldError :=
  mkFieldError ErrorTypeRequired p (JStr "") detail.
Definition Invalid (p : FieldPath) (value : json) (detail : string) : FieldError :=
  mkFieldError ErrorTypeInvalid p value detail.
Definition Duplicate (p : FieldPath) (value : json) : FieldError :=
  mkFieldError ErrorTypeDuplicate p value "".

Class Aggregate := ToAggregate : list FieldError -> option error.
Class AggregateLaws `{Aggregate} : Prop :=
  ToAggregate_nil errs : ToAggregate errs = None <-> errs = [].

(** [if b { errs = append(errs, e) }] *)
Definition reportIf (b : bool) (e : FieldError) : list FieldError := if b then [e] else [].

Lemma reportIf_nil b e : reportIf b e = [] <-> b = false.
Proof. by destruct b. Qed.

Lemma app_nil_iff {A} (l1 l2 : list A) : l1 ++ l2 = [] <-> l1 = [] /\ l2 = [].
Proof. destruct l1, l2; naive_solver. Qed.

Lemma concat_nil_iff {A} (ls : list (list A)) : concat ls = [] <-> Forall (fun l => l = []) ls.
Proof.
  induction ls as [|l ls IH]; cbn; [done|]. by rewrite app_nil_iff, Forall_cons, IH.
Qed.

(** [for i := range l { errs = append(errs, f(i, l[i])...) }] *)
Definition reportEach {A} (f : nat -> A -> list FieldError) (l : list A) : list FieldError :=
  concat (imap f l).

Lemma reportEach_nil {A} (f : nat -> A -> list FieldError) (l : list A) :
  reportEach f l = [] <-> forall i x, l !! i = Some x -> f i x = [].
Proof.
  unfold reportEach. rewrite concat_nil_iff, Forall_lookup. split; intros Hl i x Hx.
  - apply (Hl i). by rewrite list_lookup_imap, Hx.
  - rewrite list_lookup_imap in Hx. apply fmap_Some in Hx as (y & Hy & ->). by apply Hl.
Qed.

(** When [f] accepts elements regardless of their index. *)
Lemma reportEach_Forall {A} (f : nat -> A -> list FieldError) (P : A -> Prop) (l : list A) :
  (forall i x, f i x = [] <-> P x) -> (reportEach f l = [] <-> Forall P l).
Proof.
  intros Hf. rewrite reportEach_nil, Forall_lookup. split; intros Hl i x Hx; [|by apply Hf, (Hl i)].
  by apply (Hf i), Hl.
Qed.
