(* ===== verification/MappingWebhook.v ===== *)
(** * Defaults and validation of resource mappings
    (apis/v1beta1/clusterworkloadresourcemapping_webhook.go)

    [Default] fills a mapping with the places of a PodSpecable resource;
    [validate] rejects duplicate versions and paths that the projector could
    not follow. *)

From stdpp Require Import pretty.
From S2P Require Import Prelude Json Types MetaPodTemplate FieldErrors.
Local Open Scope string_scope.

(** ** Defaults *)

Definition orDefault (s d : string) : string := if String.eqb s "" then d else s.

Definition Container_Default (c : ClusterWorkloadResourceMappingContainer) :
    ClusterWorkloadResourceMappingContainer :=
  mkMappingContainer (mc_Path c) (mc_Name c)
    (orDefault (mc_Env c) ".env") (orDefault (mc_VolumeMounts c) ".volumeMounts").

Definition defaultContainers : list ClusterWorkloadResourceMappingContainer :=
  [mkMappingContainer ".spec.template.spec.initContainers[*]" ".name" "" "";
   mkMappingContainer ".spec.template.spec.containers[*]" ".name" "" ""].

Definition Template_Default (r : ClusterWorkloadResourceMappingTemplate) :
    ClusterWorkloadResourceMappingTemplate :=
  let containers := match mt_Containers r with [] => defaultContainers | cs => cs end in
  mkMappingTemplate (mt_Version r)
    (orDefault (mt_Annotations r) ".spec.template.metadata.annotations")
    (map Container_Default containers)
    (orDefault (mt_Volumes r) ".spec.template.spec.volumes").

Definition Mapping_Default (r : ClusterWorkloadResourceMapping) : ClusterWorkloadResourceMapping :=
  mkMapping (cwrm_Meta r) (mkMappingSpec (map Template_Default (ms_Versions (cwrm_Spec r)))).

(** ** Validation *)

Definition errorMessage (e : error) : string :=
  match e with ErrNotFound m | ErrForbidden m | ErrOther m => m end.

Section validation.
Context `{JsonPath} `{Aggregate}.

Definition validateJsonPath (expression : string) (fldPath : FieldPath) : list FieldError :=
  match Parse (braced expression) with
  | inl err => [Invalid fldPath (JStr expression) (errorMessage err)]
  | inr nodes =>
      reportIf (negb (Nat.eqb (length nodes) 1))
        (Invalid fldPath (JStr expression) "too many root nodes")
  end.

(** The loop over [nodes], which grows by the children of the lists that it
    meets; [None] stands for too little fuel. *)
Fixpoint checkNodes (fuel : nat) (expression : string) (fldPath : FieldPath) (nodes : list Node) :
    option (list FieldError) :=
  match nodes with
  | [] => Some []
  | n :: rest =>
      match fuel with
      | O => None
      | S fuel =>
          match n with
          | ListNode ns => checkNodes fuel expression fldPath (rest ++ ns)%list
          | FieldNode _ => checkNodes fuel expression fldPath rest
          | OtherNode _ =>
              errs ← checkNodes fuel expression fldPath rest;
              Some (Invalid fldPath (JStr expression) ("unsupported node: " +:+ Node_String n) :: errs)
          end
      end
  end.

Fixpoint nodeSize (n : Node) : nat :=
  match n with
  | ListNode ns => S (list_sum (map nodeSize ns))
  | _ => 1
  end.

Definition nodesSize (nodes : list Node) : nat := list_sum (map nodeSize nodes).

Definition validateRestrictedJsonPath (expression : string) (fldPath : FieldPath) : list FieldError :=
  match Parse (braced expression) with
  | inl err => [Invalid fldPath (JStr expression) (errorMessage err)]
  | inr nodes =>
      (reportIf (negb (Nat.eqb (length nodes) 1))
         (Invalid fldPath (JStr expression) "too many root nodes") ++
       default [] (checkNodes (nodesSize nodes) expression fldPath nodes))%list
  end.

Definition Container_validate (r : ClusterWorkloadResourceMappingContainer) (fldPath : FieldPath) :
    list FieldError :=
  (validateJsonPath (mc_Path r) (fldPath ++ [Child "path"]) ++
   (if negb (String.eqb (mc_Name r) "")
    then validateRestrictedJsonPath (mc_Name r) (fldPath ++ [Child "name"]) else []) ++
   validateRestrictedJsonPath (mc_Env r) (fldPath ++ [Child "env"]) ++
   validateRestrictedJsonPath (mc_VolumeMounts r) (fldPath ++ [Child "volumeMounts"]))%list.

Definition Template_validate (r : ClusterWorkloadResourceMappingTemplate) (fldPath : FieldPath) :
    list FieldError :=
  (reportIf (String.eqb (mt_Version r) "") (Required (fldPath ++ [Child "version"]) "") ++
   validateRestrictedJsonPath (mt_Annotations r) (fldPath ++ [Child "annotations"]) ++
   validateRestrictedJsonPath (mt_Volumes r) (fldPath ++ [Child "volumes"]) ++
   reportEach (fun i c => Container_validate c (fldPath ++ [Child "containers"; AtIndex i]))
     (mt_Containers r))%list.

(** [fmt.Sprintf("[%d, %d]", p, i)] *)
Definition indexPair (p i : nat) : string :=
  "[" +:+ (pretty p +:+ (", " +:+ (pretty i +:+ "]"))).

(** The loop over the versions from index [i] on; [versions] maps a version to
    the last index that had it. *)
Fixpoint validateVersions (versions : gmap string nat) (i : nat)
    (ts : list ClusterWorkloadResourceMappingTemplate) : list FieldError :=
  match ts with
  | [] => []
  | t :: ts =>
      (match versions !! mt_Version t with
       | Some p => [Duplicate [Child "spec"; Child "versions"; Child (indexPair p i); Child "version"]
                      (JStr (mt_Version t))]
       | None => []
       end ++
       Template_validate t [Child "spec"; Child "versions"; AtIndex i] ++
       validateVersions (<[mt_Version t := i]> versions) (S i) ts)%list
  end.

Definition Mapping_validate (r : ClusterWorkloadResourceMapping) : list FieldError :=
  validateVersions ∅ 0 (ms_Versions (cwrm_Spec r)).

(** The object is defaulted in place: the new object beside the error. *)
Definition Mapping_ValidateCreate (r : ClusterWorkloadResourceMapping) :
    ClusterWorkloadResourceMapping * option error :=
  let r := Mapping_Default r in (r, ToAggregate (Mapping_validate r)).

Definition Mapping_ValidateUpdate (r old : ClusterWorkloadResourceMapping) :
    ClusterWorkloadResourceMapping * option error :=
  let r := Mapping_Default r in (r, ToAggregate (Mapping_validate r)).

Definition Mapping_ValidateDelete (r : ClusterWorkloadResourceMapping) : option error := None.
End validation.
