(* ===== verification/Projector.v ===== *)
(** * The projector on workloads (projector/binding.go, mapping.go)

    [Project] and [Unproject] look up the mapping of a workload, read its
    template, rewrite it and write it back. The mapping comes from a
    [MappingSource]: the resolver of the cluster, or a [staticMapping]. *)

From S2P Require Import Prelude Json Tree Types MetaPodTemplate MappingWebhook Binding.

(** projector/interface.go: what the projector asks of its mapping source. *)
Class MappingSource (W : Type) :=
  LookupMapping : W -> outcome ClusterWorkloadResourceMappingTemplate.

(** mapping.go: one mapping for all workloads. *)
Definition NewStaticMapping {W} (mapping : ClusterWorkloadResourceMappingTemplate) : MappingSource W :=
  let mapping := Template_Default mapping in
  fun workload => Ok mapping.

Section projector.
Context `{JsonPath}.
Context `{Codec (list EnvVar)} `{Codec (list VolumeMount)} `{Codec (list Volume)}.
Context {W : Type} `{UnstructuredConverter W} `{MappingSource W}.

(** The workload is changed in place in Go; the result is the changed workload.
    After an error the callers discard it. *)
Definition Project (binding : ServiceBinding) (workload : W) : outcome W :=
  mapping ← LookupMapping workload;
  mpt ← NewMetaPodTemplate workload mapping;
  WriteToWorkload (project binding mpt) mapping workload.

Definition Unproject (binding : ServiceBinding) (workload : W) : outcome W :=
  mapping ← LookupMapping workload;
  mpt ← NewMetaPodTemplate workload mapping;
  WriteToWorkload (unproject binding mpt) mapping workload.
End projector.
