(* ===== verification/ProjectorFacts.v ===== *)
(** * Properties of the projector on workloads

    The template theorems of [BindingFacts.v] and the read and write theorems of
    [WorkloadFacts.v], put together for a workload whose mapping has a
    layout. *)

From S2P Require Import Prelude GoSort Json Tree Types MetaPodTemplate Layout Workload WorkloadFacts.
From S2P Require Import Binding BindingSpec BindingLemmas BindingFacts Projector.

(** The conversion to and from the tree loses nothing: what was converted back
    converts to the same tree, and converting back the tree of a workload
    leaves the workload as it is. *)
Class ConverterLaws (W : Type) `{UnstructuredConverter W} : Prop := {
  to_after_from u w w' : FromUnstructured u w = Ok w' -> ToUnstructured w' = Ok u;
  from_after_to u w : ToUnstructured w = Ok u -> FromUnstructured u w = Ok w;
}.

(** ** Names of containers *)

Lemma unproject_names b m :
  map mct_Name (mpt_Containers (unproject b m)) = map mct_Name (mpt_Containers m).
Proof. rewrite unproject_closed. cbn. by rewrite map_map. Qed.

Lemma bind_names b m :
  map mct_Name (mpt_Containers (bindSpec b m)) = map mct_Name (mpt_Containers m).
Proof.
  cbn. rewrite map_map. apply map_ext. intros mc. unfold boundContainer.
  by destruct (isContainerBindable b mc).
Qed.

Lemma project_names b m :
  map mct_Name (mpt_Containers (project b m)) = map mct_Name (mpt_Containers m).
Proof.
  rewrite project_closed. unfold projectSpec. rewrite <-(unproject_names b m), unproject_closed.
  destruct (String.eqb _ _); [done|apply bind_names].
Qed.

Section facts.
Context `{JsonPath}.
Context `{CodecLaws (list EnvVar)} `{CodecLaws (list VolumeMount)} `{CodecLaws (list Volume)}.

Context {W : Type} `{UnstructuredConverter W} `{MappingSource W}.

(** A workload that the projector can read and write. *)
Record Prepared (w : W) (mapping : ClusterWorkloadResourceMappingTemplate) (lay : layout)
    (u : json) (m : metaPodTemplate) : Prop := {
  prep_mapping : LookupMapping w = Ok mapping;
  prep_tree : ToUnstructured w = Ok u;
  prep_layout : layoutOf mapping u = Some lay;
  prep_placed : wellPlaced lay;
  prep_stable : Stable mapping lay u;
  prep_read : readTemplate mapping u = Ok m;
}.

(** Nothing outside the places of the layout differs. *)
Definition sameElsewhere (lay : layout) (u u' : json) : Prop :=
  forall ks, (forall p, p ∈ layoutPaths lay -> disjoint p (fields ks) = true) ->
  get_loc (fields ks) u' = get_loc (fields ks) u.

(** Reading, rewriting with [f] and writing back. *)
Definition rewrites (f : metaPodTemplate -> metaPodTemplate) (w : W) : outcome W :=
  mapping ← LookupMapping w;
  mpt ← NewMetaPodTemplate w mapping;
  WriteToWorkload (f mpt) mapping w.

Lemma rewrites_spec f w mapping lay u m :
  Prepared w mapping lay u m ->
  (map mct_Name (mpt_Containers (f m)) = map mct_Name (mpt_Containers m)) ->
  exists u', rewrites f w = FromUnstructured u' w /\
    written (layoutPaths lay) u u' /\ readTemplate mapping u' = Ok (f m) /\
    writeTemplate (f m) mapping u' = Ok u' /\ sameElsewhere lay u u'.
Proof.
  intros [Hm Ht Hlay Hwp Hst Hr] Hn.
  assert (Fits lay (f m)) as Hfit.
  { eapply Fits_names; [exact Hn|]. eapply (readLayout_Ok lay u).
    by rewrite <-(readTemplate_layout mapping u lay Hlay). }
  destruct (write_read mapping lay u Hlay Hwp Hst m (f m) Hr Hfit) as (u' & Hu' & Hw & Hr' & Hw' & Hf).
  exists u'. split_and!; try done. unfold rewrites, NewMetaPodTemplate, WriteToWorkload.
  by rewrite Hm; cbn; rewrite Ht; cbn; rewrite Hr; cbn; rewrite Hu'.
Qed.

(** The result of a rewrite is prepared again. *)
Lemma rewrites_prepared `{!ConverterLaws W} f w mapping lay u m u' w' :
  Prepared w mapping lay u m -> written (layoutPaths lay) u u' ->
  readTemplate mapping u' = Ok (f m) -> FromUnstructured u' w = Ok w' ->
  LookupMapping w' = Ok mapping -> Prepared w' mapping lay u' (f m).
Proof.
  intros [Hm Ht Hlay Hwp Hst Hr] Hw Hr' Hf Hm'. split; try done.
  - by eapply to_after_from.
  - by eapply layoutOf_written.
  - intros u'' c Hw'' Hc. rewrite (Hst u' c) by done. apply Hst; [by eapply written_trans|done].
Qed.

Lemma rewrites_twice `{!ConverterLaws W} f w mapping lay u m w' :
  Prepared w mapping lay u m ->
  (map mct_Name (mpt_Containers (f m)) = map mct_Name (mpt_Containers m)) ->
  f (f m) = f m -> rewrites f w = Ok w' -> LookupMapping w' = Ok mapping -> rewrites f w' = Ok w'.
Proof.
  intros Hp Hn Hff Hw' Hm'.
  destruct (rewrites_spec f w mapping lay u m Hp Hn) as (u' & Hu' & Hw & Hr & Hid & _).
  rewrite Hu' in Hw'. pose proof (to_after_from _ _ _ Hw') as Ht'.
  unfold rewrites, NewMetaPodTemplate, WriteToWorkload.
  rewrite Hm'. cbn. rewrite Ht'. cbn. rewrite Hr. cbn. rewrite Hff, Hid. cbn.
  by apply from_after_to.
Qed.

(** ** Properties *)

(** On a prepared workload [Project] does not fail
    before the tree is converted back: the tree that it converts reads as the
    projected template, and nothing outside the places of the mapping, such as
    the metadata or the status of the workload, has changed. *)
Lemma Project_effect b w mapping lay u m :
  Prepared w mapping lay u m ->
  exists u', Project b w = FromUnstructured u' w /\
    readTemplate mapping u' = Ok (project b m) /\ sameElsewhere lay u u'.
Proof.
  intros Hp. destruct (rewrites_spec (project b) w mapping lay u m Hp) as (u' & ? & _ & ? & _ & ?);
    [apply project_names|]. by exists u'.
Qed.

(** Idempotence on workloads. Projecting the same binding again leaves the
    workload exactly as it is: reconciling again causes no update. *)
Lemma Project_idempotent `{!ConverterLaws W} b w mapping lay u m w' :
  Prepared w mapping lay u m -> exclusiveSecret b m -> literalRoots m ->
  Project b w = Ok w' -> LookupMapping w' = Ok mapping -> Project b w' = Ok w'.
Proof.
  intros Hp He Hl. apply (rewrites_twice (project b) w mapping lay u m w' Hp);
    [apply project_names|by apply project_idemp].
Qed.

(** Removal from workloads. Removing a binding that was projected gives a
    workload that reads as before, when the template had no trace of the
    binding and the projection moved nothing; everything outside the places of
    the mapping is as it was in the first place. *)
Lemma Unproject_restores `{!ConverterLaws W} b w mapping lay u m w' :
  Prepared w mapping lay u m -> secretName b <> ""%string -> exclusiveSecret b m ->
  unproject b m = m -> orderedFor b m ->
  Project b w = Ok w' -> LookupMapping w' = Ok mapping ->
  exists u', Unproject b w' = FromUnstructured u' w' /\
    readTemplate mapping u' = Ok m /\ sameElsewhere lay u u'.
Proof.
  intros Hp Hs He Hu Ho Hw' Hm'.
  destruct (rewrites_spec (project b) w mapping lay u m Hp) as (u1 & Hu1 & Hw1 & Hr1 & _ & Hs1);
    [apply project_names|].
  change (rewrites (project b) w) with (Project b w) in Hu1. rewrite Hw' in Hu1. symmetry in Hu1.
  pose proof (rewrites_prepared (project b) w mapping lay u m u1 w' Hp Hw1 Hr1 Hu1 Hm') as Hp'.
  destruct (rewrites_spec (unproject b) w' mapping lay u1 _ Hp') as (u2 & Hu2 & _ & Hr2 & _ & Hs2);
    [apply unproject_names|].
  exists u2. split_and!; [done| |].
  - rewrite Hr2, unproject_project_settled, Hu by done. by f_equal.
  - intros ks Hks. rewrite Hs2, Hs1; done.
Qed.

End facts.
