(* ===== verification/Concrete.v ===== *)
(** * Concrete instances of the libraries

    The properties are proved for any JSONPath library, any lossless JSON
    codecs and any conversion. Here is one of each, at which the properties are
    instantiated: a parser and an evaluator for paths of fields and [[*]], a
    positional encoding of the corev1 records, and the conversion of an
    unstructured workload, which is its own tree. *)

From Stdlib Require Import Ascii.
From S2P Require Import Prelude Json Tree Types MetaPodTemplate Layout Workload ProjectorFacts.
Local Open Scope string_scope.

(** ** Paths such as [.spec.containers[*]] *)

Definition emit (cur : string) : list Node :=
  if String.eqb cur "" then [] else [FieldNode cur].

Fixpoint scan (s cur : string) : list Node :=
  match s with
  | "" => emit cur
  | String "."%char s' => (emit cur ++ scan s' "")%list
  | String "["%char (String "*"%char (String "]"%char s')) =>
      (emit cur ++ OtherNode "NodeArray" :: scan s' "")%list
  | String c s' => scan s' (cur +:+ String c "")
  end.

(** Drops the braces. *)
Fixpoint unbrace (s : string) : string :=
  match s with
  | "" => ""
  | String "{"%char s' | String "}"%char s' => unbrace s'
  | String c s' => String c (unbrace s')
  end.

Fixpoint walk (u : json) (ns : list Node) (ls : list loc) : outcome (list loc) :=
  match ns with
  | [] => Ok ls
  | FieldNode k :: ns' =>
      if forallb (fun l => bool_decide (is_Some (lookup_at (l ++ [Field k])%list u))) ls
      then walk u ns' (map (fun l => l ++ [Field k])%list ls)
      else Err (ErrOther (k +:+ " is not found"))
  | _ :: ns' =>
      walk u ns' (concat (map (fun l =>
        match lookup_at l u with
        | Some (JArr xs) => map (fun i => l ++ [Index i])%list (seq 0 (length xs))
        | _ => []
        end) ls))
  end.

#[export] Instance dotted_paths : JsonPath := {|
  Parse s := let ns := scan (unbrace s) "" in inr [ListNode ns];
  Node_String n := "node";
  FindResults nodes u :=
    match nodes with
    | [ListNode ns] => ls ← walk u ns [[]]; Ok [map RInterface ls]
    | _ => Err (ErrOther "unsupported expression")
    end;
|}.

(** ** Unstructured workloads *)

#[export] Instance unstructured_converter : UnstructuredConverter json := {|
  ToUnstructured w := Ok w;
  FromUnstructured u _ := Ok u;
|}.

#[export] Instance unstructured_converter_laws : ConverterLaws json.
Proof. split; [by intros ? ? ? [= <-]|by intros ? ? [= <-]]. Qed.

(** ** Codecs *)

Class Encoding (T : Type) := { enc : T -> json; dec : json -> option T }.
Class EncodingLaws (T : Type) `{Encoding T} : Prop := dec_enc (x : T) : dec (enc x) = Some x.

#[export] Instance enc_string : Encoding string :=
  {| enc := JStr; dec j := match j with JStr s => Some s | _ => None end |}.
#[export] Instance enc_bool : Encoding bool :=
  {| enc := JBool; dec j := match j with JBool b => Some b | _ => None end |}.
#[export] Instance enc_object : Encoding object :=
  {| enc := JObj; dec j := match j with JObj m => Some m | _ => None end |}.
#[export] Instance enc_option `{Encoding T} : Encoding (option T) :=
  {| enc o := match o with Some x => JArr [enc x] | None => JArr [] end;
     dec j := match j with
              | JArr [] => Some None
              | JArr [x] => x ← dec x; Some (Some x)
              | _ => None
              end |}.
#[export] Instance enc_list `{Encoding T} : Encoding (list T) :=
  {| enc l := JArr (map enc l); dec j := match j with JArr l => mapM dec l | _ => None end |}.
#[export] Instance enc_prod `{Encoding A} `{Encoding B} : Encoding (A * B) :=
  {| enc p := JArr [enc p.1; enc p.2];
     dec j := match j with JArr [x; y] => x ← dec x; y ← dec y; Some (x, y) | _ => None end |}.

(** A record that is a tuple. *)
Definition enc_via {R T} `{Encoding T} (to : R -> T) (from : T -> R) : Encoding R :=
  {| enc r := enc (to r); dec j := x ← dec j; Some (from x) |}.

#[export] Instance enc_ofs : Encoding ObjectFieldSelector :=
  enc_via (fun x => (ofs_FieldPath x, ofs_other x)) (fun '(a, b) => mkObjectFieldSelector a b).
#[export] Instance enc_sks : Encoding SecretKeySelector :=
  enc_via (fun x => (sks_Name x, sks_Key x, sks_other x)) (fun '(a, b, c) => mkSecretKeySelector a b c).
#[export] Instance enc_evs : Encoding EnvVarSource :=
  enc_via (fun x => (evs_FieldRef x, evs_SecretKeyRef x, evs_other x))
    (fun '(a, b, c) => mkEnvVarSource a b c).
#[export] Instance enc_env : Encoding EnvVar :=
  enc_via (fun x => (ev_Name x, ev_Value x, ev_ValueFrom x)) (fun '(a, b, c) => mkEnvVar a b c).
#[export] Instance enc_mount : Encoding VolumeMount :=
  enc_via (fun x => (vm_Name x, vm_ReadOnly x, vm_MountPath x, vm_other x))
    (fun '(a, b, c, d) => mkVolumeMount a b c d).
#[export] Instance enc_sp : Encoding SecretProjection :=
  enc_via (fun x => (sp_Name x, sp_other x)) (fun '(a, b) => mkSecretProjection a b).
#[export] Instance enc_daf : Encoding DownwardAPIVolumeFile :=
  enc_via (fun x => (daf_Path x, daf_FieldRef x, daf_other x))
    (fun '(a, b, c) => mkDownwardAPIVolumeFile a b c).
#[export] Instance enc_dap : Encoding DownwardAPIProjection :=
  enc_via dap_Items mkDownwardAPIProjection.
#[export] Instance enc_vp : Encoding VolumeProjection :=
  enc_via (fun x => (vp_Secret x, vp_DownwardAPI x, vp_other x))
    (fun '(a, b, c) => mkVolumeProjection a b c).
#[export] Instance enc_pvs : Encoding ProjectedVolumeSource :=
  enc_via (fun x => (pvs_Sources x, pvs_other x)) (fun '(a, b) => mkProjectedVolumeSource a b).
#[export] Instance enc_volume : Encoding Volume :=
  enc_via (fun x => (vol_Name x, vol_Projected x, vol_other x)) (fun '(a, b, c) => mkVolume a b c).

Section laws.
Context {T : Type} `{EncodingLaws T}.

#[export] Instance laws_option : EncodingLaws (option T).
Proof. intros [x|]; cbn; [|done]. by rewrite dec_enc. Qed.

#[export] Instance laws_list : EncodingLaws (list T).
Proof.
  intros l. cbn. induction l as [|x l IH]; [done|]. cbn. by rewrite dec_enc; cbn; rewrite IH.
Qed.

#[export] Instance laws_prod {A} `{EncodingLaws A} : EncodingLaws (T * A).
Proof. intros [x y]. cbn. by rewrite dec_enc; cbn; rewrite dec_enc. Qed.

Lemma laws_via {R} (to : R -> T) (from : T -> R) :
  (forall r, from (to r) = r) -> @EncodingLaws R (enc_via to from).
Proof. intros Hr r. cbn. rewrite dec_enc. cbn. by rewrite Hr. Qed.
End laws.

#[export] Instance laws_string : EncodingLaws string. Proof. done. Qed.
#[export] Instance laws_bool : EncodingLaws bool. Proof. done. Qed.
#[export] Instance laws_object : EncodingLaws object. Proof. done. Qed.

Ltac solve_via := apply laws_via; by intros [].
#[export] Instance laws_ofs : EncodingLaws ObjectFieldSelector. Proof. solve_via. Qed.
#[export] Instance laws_sks : EncodingLaws SecretKeySelector. Proof. solve_via. Qed.
#[export] Instance laws_evs : EncodingLaws EnvVarSource. Proof. solve_via. Qed.
#[export] Instance laws_env : EncodingLaws EnvVar. Proof. solve_via. Qed.
#[export] Instance laws_mount : EncodingLaws VolumeMount. Proof. solve_via. Qed.
#[export] Instance laws_sp : EncodingLaws SecretProjection. Proof. solve_via. Qed.
#[export] Instance laws_daf : EncodingLaws DownwardAPIVolumeFile. Proof. solve_via. Qed.
#[export] Instance laws_dap : EncodingLaws DownwardAPIProjection. Proof. solve_via. Qed.
#[export] Instance laws_vp : EncodingLaws VolumeProjection. Proof. solve_via. Qed.
#[export] Instance laws_pvs : EncodingLaws ProjectedVolumeSource. Proof. solve_via. Qed.
#[export] Instance laws_volume : EncodingLaws Volume. Proof. solve_via. Qed.

(** A codec from an encoding. *)
#[export] Instance list_codec `{Encoding T} : Codec (list T) := {|
  marshal := enc;
  unmarshal j := match dec j with Some x => Ok x | None => Err (ErrOther "cannot unmarshal") end;
|}.

#[export] Instance list_codec_laws `{EncodingLaws T} : CodecLaws (list T).
Proof. split; [|done]. intros l. cbn. by rewrite (laws_list l : mapM dec (map enc l) = Some l). Qed.
