(* ===== verification/WorkloadWitnesses.v ===== *)
(** * The workload properties at a concrete deployment

    [deployment] is an unstructured Deployment with two containers, and
    [deploymentMapping] a mapping for it; [deployment_prepared] shows that it
    meets the conditions of the workload properties with the instances of
    [Concrete.v]. *)

From S2P Require Import Prelude GoSort Json Tree Types Samples MetaPodTemplate AccessFacts Layout Workload.
From S2P Require Import WorkloadFacts AccessProperties FieldErrors MappingWebhook MappingWebhookFacts.
From S2P Require Import Binding BindingSpec BindingLemmas BindingFacts Projector ProjectorFacts Concrete.
Local Open Scope string_scope.

Definition obj (l : list (string * json)) : json := JObj (list_to_map l).

Definition deployment : json :=
  obj [("kind", JStr "Deployment");
       ("metadata", obj [("name", JStr "my-workload"); ("uid", JStr "w-1")]);
       ("spec", obj [("template", obj [("spec", obj [("containers",
          JArr [obj [("name", JStr "app"); ("image", JStr "nginx")]; obj [("name", JStr "sidecar")]])])])])].

Definition deploymentMapping : ClusterWorkloadResourceMappingTemplate :=
  mkMappingTemplate "*" ".spec.template.metadata.annotations"
    [mkMappingContainer ".spec.template.spec.containers[*]" ".name" ".env" ".volumeMounts"]
    ".spec.template.spec.volumes".

#[export] Instance deploymentSource : MappingSource json := NewStaticMapping deploymentMapping.

Definition podSpec : loc := fields ["spec"; "template"; "spec"]%list.
Definition containersAt : loc := (podSpec ++ [Field "containers"])%list.

Definition containerSlot (i : nat) : slot :=
  let l := (containersAt ++ [Index i])%list in
  mkSlot l (Some (l ++ [Field "name"])%list) (l ++ [Field "env"])%list (l ++ [Field "volumeMounts"])%list.

Definition deploymentLayout : layout :=
  mkLayout (fields ["spec"; "template"; "metadata"; "annotations"]%list)
    [[containerSlot 0; containerSlot 1]] (podSpec ++ [Field "volumes"])%list.

Lemma deployment_layout : layoutOf deploymentMapping deployment = Some deploymentLayout.
Proof. vm_compute. reflexivity. Qed.

(** ** Places *)

Fixpoint all_disjoint (ps : list loc) : bool :=
  match ps with
  | [] => true
  | p :: ps => forallb (disjoint p) ps && all_disjoint ps
  end.

Lemma all_disjoint_spec ps :
  all_disjoint ps = true -> ForallOrdPairs (fun p q => disjoint p q = true) ps.
Proof.
  induction ps as [|p ps IH]; [constructor|]. cbn. intros [Hp Hps]%andb_prop. constructor; [|auto].
  apply Forall_forall. intros q Hq. rewrite forallb_forall in Hp. by apply Hp, list_elem_of_In.
Qed.

Lemma deployment_placed : wellPlaced deploymentLayout.
Proof.
  split; [by apply all_disjoint_spec; vm_compute|].
  assert (forallb (fun p => forallb (fun l => negb (above p l)) (layoutRefs deploymentLayout))
    (layoutPaths deploymentLayout) = true) as H by by vm_compute.
  intros p l Hp Hl. rewrite forallb_forall in H. apply list_elem_of_In in Hp, Hl.
  specialize (H p Hp). rewrite forallb_forall in H. by apply negb_true_iff, H.
Qed.

(** ** Stability *)

Lemma written_container ps l u u' x :
  (forall p, p ∈ ps -> above p l = false) -> written ps u u' ->
  lookup_at l u = Some x -> container x <> None ->
  exists x', lookup_at l u' = Some x' /\ container x' = container x.
Proof.
  intros Ha Hw. revert x. induction Hw as [u|u v p u1 u2 Hp Hs Hw IH]; intros x Hx Hc; [eauto|].
  destruct (lookup_set_loc_container p l v u u1 x) as (x1 & Hx1 & Hk1); try done; [by apply Ha|].
  destruct (IH x1 Hx1) as (x' & ? & ?); [congruence|]. exists x'. split; congruence.
Qed.

Lemma walk_fields u ks ns l x :
  lookup_at (l ++ fields ks)%list u = Some x ->
  walk u (map FieldNode ks ++ ns)%list [l] = walk u ns [(l ++ fields ks)%list].
Proof.
  revert l. induction ks as [|k ks IH]; intros l Hx; [by rewrite app_nil_r|].
  change (fields (k :: ks)) with ([Field k] ++ fields ks)%list in *.
  rewrite (assoc_L (++)%list) in *. cbn. rewrite bool_decide_eq_true_2.
  - cbn. by apply IH.
  - rewrite lookup_at_app in Hx. destruct (lookup_at (l ++ [Field k])%list u); [by eexists|done].
Qed.

Lemma walk_star u l xs k :
  lookup_at l u = Some (JArr xs) ->
  walk u [OtherNode k] [l] = Ok (map (fun i => l ++ [Index i])%list (seq 0 (length xs))).
Proof. intros Hl. cbn. by rewrite Hl, app_nil_r. Qed.

(** The containers are selected as long as their list has its length. *)
Lemma deployment_selects u xs c :
  lookup_at containersAt u = Some (JArr xs) -> c ∈ mt_Containers deploymentMapping ->
  selects u c = Ok (Some (map RInterface (map (fun i => containersAt ++ [Index i])%list (seq 0 (length xs))))).
Proof.
  intros Hx ->%list_elem_of_singleton. unfold selects.
  change (jsonpath_Parse _) with (Ok [ListNode
    (map FieldNode ["spec"; "template"; "spec"; "containers"]%list ++ [OtherNode "NodeArray"])]).
  cbn [mbind outcome_bind FindResults dotted_paths].
  rewrite (walk_fields u _ _ [] (JArr xs)) by exact Hx.
  by rewrite (walk_star u _ xs).
Qed.

Definition twoContainers (u : json) : Prop :=
  exists x, lookup_at containersAt u = Some x /\ container x = Some (Some 2).

Lemma deployment_stable u : twoContainers u -> Stable deploymentMapping deploymentLayout u.
Proof.
  intros (x & Hx & Hk) u' c Hw Hc.
  destruct (written_container (layoutPaths deploymentLayout) containersAt u u' x)
    as (x' & Hx' & Hk'); [|exact Hw|exact Hx|congruence|].
  - assert (forallb (fun p => negb (above p containersAt)) (layoutPaths deploymentLayout) = true) as H
      by by vm_compute.
    intros p Hp%list_elem_of_In. rewrite forallb_forall in H. by apply negb_true_iff, H.
  - destruct x as [| | | |xs|], x' as [| | | |xs'|]; try done.
    rewrite (deployment_selects u' xs'), (deployment_selects u xs) by done.
    cbn in Hk, Hk'. do 4 f_equal. congruence.
Qed.

(** What the projector reads. *)
Definition deploymentTemplate : metaPodTemplate :=
  mkMetaPodTemplate ∅
    [mkMetaContainer (Some "app") [] []; mkMetaContainer (Some "sidecar") [] []] [].

Lemma deployment_read : readTemplate deploymentMapping deployment = Ok deploymentTemplate.
Proof. vm_compute. reflexivity. Qed.

Lemma deployment_prepared :
  Prepared deployment deploymentMapping deploymentLayout deployment deploymentTemplate.
Proof.
  split; [reflexivity|reflexivity|apply deployment_layout|apply deployment_placed
         |apply deployment_stable; vm_compute; eauto|apply deployment_read].
Qed.

(** The same deployment with the root set in both containers. *)
Definition rootEnv : EnvVar := plainEnv "SERVICE_BINDING_ROOT" "/bindings".

Definition rootedDeployment : json :=
  obj [("kind", JStr "Deployment");
       ("metadata", obj [("name", JStr "my-workload"); ("uid", JStr "w-1")]);
       ("spec", obj [("template", obj [("spec", obj [("containers",
          JArr [obj [("name", JStr "app"); ("env", marshal [rootEnv])];
                obj [("name", JStr "sidecar"); ("env", marshal [rootEnv])]])])])])].

Definition rootedDeploymentTemplate : metaPodTemplate :=
  mkMetaPodTemplate ∅
    [mkMetaContainer (Some "app") [rootEnv] []; mkMetaContainer (Some "sidecar") [rootEnv] []] [].

Lemma rooted_prepared :
  Prepared rootedDeployment deploymentMapping deploymentLayout rootedDeployment
    rootedDeploymentTemplate.
Proof.
  split; [reflexivity|reflexivity|vm_compute; reflexivity|apply deployment_placed
         |apply deployment_stable; vm_compute; eauto|vm_compute; reflexivity].
Qed.

Definition resultOf (r : outcome json) : json := match r with Ok w => w | _ => JNull end.

Lemma rooted_exclusive : exclusiveSecret mysql rootedDeploymentTemplate.
Proof.
  right. intros mc e Hmc He. apply elem_of_cons in Hmc as [-> | ->%list_elem_of_singleton];
    by apply list_elem_of_singleton in He as ->.
Qed.

Lemma deployment_exclusive : exclusiveSecret mysql deploymentTemplate.
Proof.
  right. intros mc e Hmc He. apply elem_of_cons in Hmc as [-> | ->%list_elem_of_singleton];
    by apply elem_of_nil in He.
Qed.

Lemma deployment_roots : literalRoots deploymentTemplate.
Proof.
  intros mc Hmc e He. apply elem_of_cons in Hmc as [-> | ->%list_elem_of_singleton];
    by apply elem_of_nil in He.
Qed.

Lemma lookup_deploymentMapping (w : json) : LookupMapping w = Ok deploymentMapping.
Proof. reflexivity. Qed.

Definition projectedDeployment : json := resultOf (Project mysql deployment).
Lemma deployment_projected : Project mysql deployment = Ok projectedDeployment.
Proof. vm_compute. reflexivity. Qed.

Definition projectedRooted : json := resultOf (Project mysql rootedDeployment).
Lemma rooted_projected : Project mysql rootedDeployment = Ok projectedRooted.
Proof. vm_compute. reflexivity. Qed.

Lemma rooted_unprojected : unproject mysql rootedDeploymentTemplate = rootedDeploymentTemplate.
Proof. vm_compute. reflexivity. Qed.

Lemma rooted_ordered : orderedFor mysql rootedDeploymentTemplate.
Proof. vm_compute. reflexivity. Qed.

Definition labelled : json := resultOf (setAt ".metadata.labels.team" "a" deployment (RMap [])).
Lemma deployment_labelled : setAt ".metadata.labels.team" "a" deployment (RMap []) = Ok labelled.
Proof. vm_compute. reflexivity. Qed.

(** ** Witnesses *)

Lemma Project_effect_witness :
  exists u', Project mysql deployment = FromUnstructured u' deployment /\
    readTemplate deploymentMapping u' = Ok (project mysql deploymentTemplate) /\
    sameElsewhere deploymentLayout deployment u'.
Proof. exact (Project_effect mysql deployment _ _ _ _ deployment_prepared). Defined.

Lemma Project_idempotent_witness : Project mysql projectedDeployment = Ok projectedDeployment.
Proof.
  exact (Project_idempotent mysql deployment deploymentMapping deploymentLayout deployment
    deploymentTemplate projectedDeployment deployment_prepared
    deployment_exclusive deployment_roots deployment_projected (lookup_deploymentMapping _)).
Defined.

Lemma Unproject_restores_witness :
  exists u', Unproject mysql projectedRooted = FromUnstructured u' projectedRooted /\
    readTemplate deploymentMapping u' = Ok rootedDeploymentTemplate /\
    sameElsewhere deploymentLayout rootedDeployment u'.
Proof.
  exact (Unproject_restores mysql rootedDeployment deploymentMapping deploymentLayout
    rootedDeployment rootedDeploymentTemplate projectedRooted
    rooted_prepared ltac:(discriminate) rooted_exclusive rooted_unprojected rooted_ordered
    rooted_projected (lookup_deploymentMapping _)).
Defined.

Lemma writeTemplate_roundtrip_witness :
  let m := project mysql deploymentTemplate in
  exists u', writeTemplate m deploymentMapping deployment = Ok u' /\
    readTemplate deploymentMapping u' = Ok m /\ writeTemplate m deploymentMapping u' = Ok u' /\
    (forall ks, (forall p, p ∈ layoutPaths deploymentLayout -> disjoint p (fields ks) = true) ->
       get_loc (fields ks) u' = get_loc (fields ks) deployment).
Proof.
  exact (writeTemplate_roundtrip deploymentMapping deploymentLayout deployment deploymentTemplate
    (project mysql deploymentTemplate) deployment_layout deployment_placed
    (deployment_stable deployment ltac:(vm_compute; eauto)) deployment_read (project_names _ _)).
Defined.

Definition refersTo_root (m : object) : refersTo (JObj m) (RMap []) [] m := conj (or_introl eq_refl) eq_refl.

Lemma getAt_setAt_witness :
  getAt ".metadata.labels.team" labelled (RMap []) "" = Ok "a" /\
  forall ptr' ks' (d' : string), keys ptr' = Ok ks' ->
    disjoint (fields ["metadata"; "labels"; "team"]%list) (fields ks') = true ->
    getAt ptr' labelled (RMap []) d' = getAt ptr' deployment (RMap []) d'.
Proof.
  exact (getAt_setAt ".metadata.labels.team" ["metadata"; "labels"; "team"]%list deployment (RMap [])
    [] _ "a" "" labelled eq_refl ltac:(discriminate) (refersTo_root _) deployment_labelled).
Defined.

Lemma find_panics_on_scalars_witness :
  getAt ".kind.name" deployment (RMap []) "" = Panic "reflect: call of reflect.Value.IsNil" /\
  setAt ".kind.name" "a" deployment (RMap []) = Panic "reflect: call of reflect.Value.IsNil".
Proof.
  exact (find_panics_on_scalars ".kind.name" ["kind"]%list "name" []%list "Deployment" deployment
    (RMap []) [] _ "a" "" eq_refl (refersTo_root _) eq_refl).
Defined.
