(* ===== verification/Kube.v ===== *)
(** * The parts of apimachinery that several components use

    Kinds, resources and references, and the helpers of the library that are
    parameters of the model: parsing label selectors and API versions. *)

From S2P Require Import Prelude Json Types.

(** schema.GroupVersionKind and the resource of a RESTMapping *)
Record GroupVersionKind := mkGVK { gvk_Group : string; gvk_Version : string; gvk_Kind : string }.
Record GroupVersionResource := mkGVR { gvr_Group : string; gvr_Version : string; gvr_Resource : string }.

(** corev1.ObjectReference *)
Record ObjectReference := mkObjectReference {
  or_APIVersion : string;
  or_Kind : string;
  or_Namespace : string;
  or_Name : string;
}.

(** metav1.LabelSelectorAsSelector: an error, or which labels match. *)
Class LabelSelectors :=
  LabelSelectorAsSelector : option LabelSelector -> error + (gmap string string -> bool).

(** schema.FromAPIVersionAndKind *)
Class Schema := FromAPIVersionAndKind : string -> string -> GroupVersionKind.

(** c.RESTMapper().RESTMapping(gvk.GroupKind(), gvk.Version) *)
Class RESTMapper := RESTMapping : string -> string -> string -> outcome GroupVersionResource.
