(* ===== verification/Resolver.v ===== *)
(** * The resolver (resolver/cluster.go)

    [LookupMapping] finds the mapping of a workload's resource and version,
    [LookupBindingSecret] the secret that a service exposes, and
    [LookupWorkloads] the workloads that a binding refers to. The cluster is a
    parameter: the client, the REST mapper and the helpers of apimachinery
    that the code calls ([Cluster]). *)

From S2P Require Import Prelude Json Types Kube MappingWebhook Projector.
Local Open Scope string_scope.

(** The workloads are unstructured objects, that is their trees. *)
Class Cluster := {
  GVKForObject : json -> outcome GroupVersionKind;
  GetMapping : string -> outcome ClusterWorkloadResourceMapping;
  TrackAndGet : string -> string -> string -> string -> outcome json;
  ListUnstructured : string -> string -> string -> (gmap string string -> bool) -> outcome (list json);
  (** unstructured.NestedString: the value, whether it was found, the error *)
  NestedString : json -> list string -> string * bool * option error;
}.

(** ** LookupMapping *)

(** The loop over the versions. The variable of the loop is one cell for all
    turns (Go 1.18): [mapping = &v] makes [mapping] point to that cell, whose
    contents change with every turn. The state is the contents of the cell,
    whether [mapping] points to it, and the wildcard mapping. *)
Record scanState := mkScan {
  scan_v : ClusterWorkloadResourceMappingTemplate;
  scan_mapping : bool;
  scan_wildcard : ClusterWorkloadResourceMappingTemplate;
}.

Definition scanVersion (version : string) (st : scanState)
    (v : ClusterWorkloadResourceMappingTemplate) : scanState :=
  let st := mkScan v (scan_mapping st) (scan_wildcard st) in
  if String.eqb (mt_Version v) version then mkScan (scan_v st) true (scan_wildcard st)
  else if String.eqb (mt_Version v) "*" then mkScan (scan_v st) (scan_mapping st) (scan_v st)
  else st.

Definition emptyTemplate (version : string) : ClusterWorkloadResourceMappingTemplate :=
  mkMappingTemplate version "" [] "".

(** What [mapping] points to after the loop. *)
Definition scanVersions (version : string) (vs : list ClusterWorkloadResourceMappingTemplate) :
    ClusterWorkloadResourceMappingTemplate :=
  let st := fold_left (scanVersion version) vs
              (mkScan (emptyTemplate "") false (emptyTemplate "*")) in
  if scan_mapping st then scan_v st else scan_wildcard st.

Section resolver.
Context `{LabelSelectors} `{RESTMapper} `{Cluster}.

(** The versions of the mapping resource; none when there is no such resource. *)
Definition mappingVersions (name : string) : outcome (list ClusterWorkloadResourceMappingTemplate) :=
  match GetMapping name with
  | Ok wrm => Ok (ms_Versions (cwrm_Spec wrm))
  | Err err => if IsNotFound err then Ok [] else Err err
  | Panic s => Panic s
  end.

Definition cluster_LookupMapping (workload : json) : outcome ClusterWorkloadResourceMappingTemplate :=
  gvk ← GVKForObject workload;
  rm ← RESTMapping (gvk_Group gvk) (gvk_Kind gvk) (gvk_Version gvk);
  versions ← mappingVersions (gvr_Resource rm +:+ ("." +:+ gvr_Group rm));
  Ok (Template_Default (scanVersions (gvk_Version gvk) versions)).

(** ** LookupBindingSecret *)

Definition LookupBindingSecret (serviceRef : ObjectReference) : outcome string :=
  if String.eqb (or_APIVersion serviceRef) "v1" && String.eqb (or_Kind serviceRef) "Secret" then
    Ok (or_Name serviceRef)
  else
    service ← TrackAndGet (or_APIVersion serviceRef) (or_Kind serviceRef)
                (or_Namespace serviceRef) (or_Name serviceRef);
    let '(secretName, _, err) := NestedString service ["status"; "binding"; "name"] in
    match err with
    | Some err => Err err
    | None => Ok secretName
    end.

(** ** LookupWorkloads *)

Definition lookupWorkload (workloadRef : ObjectReference) : outcome json :=
  TrackAndGet (or_APIVersion workloadRef) (or_Kind workloadRef)
    (or_Namespace workloadRef) (or_Name workloadRef).

Definition lookupWorkloads (workloadRef : ObjectReference) (selector : option LabelSelector) :
    outcome (list json) :=
  match LabelSelectorAsSelector selector with
  | inl err => Err err
  | inr ls =>
      ListUnstructured (or_APIVersion workloadRef) (or_Kind workloadRef +:+ "List")
        (or_Namespace workloadRef) ls
  end.

Definition LookupWorkloads (workloadRef : ObjectReference) (selector : option LabelSelector) :
    outcome (list json) :=
  if negb (String.eqb (or_Name workloadRef) "") then
    workload ← lookupWorkload workloadRef; Ok [workload]
  else lookupWorkloads workloadRef selector.

(** The resolver is the mapping source of the cluster. *)
#[export] Instance cluster_mappingSource : MappingSource json := cluster_LookupMapping.
End resolver.
