(* ===== verification/ResolverFacts.v ===== *)
(** * Properties of the resolver

    Which mapping [LookupMapping] returns, compared with the one that the
    interface promises ([lookupSpec]): they agree unless the matching version
    is followed by another one. *)

From S2P Require Import Prelude Json Types Kube MappingWebhook Projector Resolver.
Local Open Scope string_scope.

(** ** What the interface promises

    [resolver/interface.go]: the version is directly matched, or the wildcard
    version is returned, or a mapping for PodSpecable resources. The last entry
    counts when there are several. *)
Definition forVersion (version : string) (v : ClusterWorkloadResourceMappingTemplate) : bool :=
  String.eqb (mt_Version v) version.

Definition lookupSpec (version : string) (vs : list ClusterWorkloadResourceMappingTemplate) :
    ClusterWorkloadResourceMappingTemplate :=
  match List.find (forVersion version) (rev vs) with
  | Some v => v
  | None => match List.find (forVersion "*") (rev vs) with
            | Some v => v
            | None => emptyTemplate "*"
            end
  end.

(** ** The loop *)

Lemma scan_app version vs v st :
  fold_left (scanVersion version) (vs ++ [v])%list st =
  scanVersion version (fold_left (scanVersion version) vs st) v.
Proof. by rewrite fold_left_app. Qed.

(** The closed form of the loop's state. *)
Lemma scan_state version vs :
  let st := fold_left (scanVersion version) vs
              (mkScan (emptyTemplate "") false (emptyTemplate "*")) in
  scan_v st = List.last vs (emptyTemplate "") /\
  scan_mapping st = existsb (forVersion version) vs /\
  (version <> "*" ->
   scan_wildcard st = default (emptyTemplate "*") (List.find (forVersion "*") (rev vs))).
Proof.
  cbn zeta. induction vs as [|v vs (IHv & IHm & IHw)] using rev_ind; [done|].
  rewrite scan_app, last_last, existsb_app, rev_app_distr. revert IHv IHm IHw.
  generalize (fold_left (scanVersion version) vs
    (mkScan (emptyTemplate "") false (emptyTemplate "*"))) as st.
  intros st IHv IHm IHw. unfold scanVersion.
  cbn [rev app existsb List.find]. rewrite orb_false_r. fold (forVersion version v).
  change (String.eqb (mt_Version v) "*") with (forVersion "*" v).
  destruct (forVersion version v) eqn:Hv; cbn; rewrite ?orb_true_r, ?orb_false_r.
  - split_and!; [done..|]. intros Hne. rewrite IHw by done.
    assert (forVersion "*" v = false) as ->; [|done].
    apply String.eqb_eq in Hv. apply String.eqb_neq. congruence.
  - by destruct (forVersion "*" v).
Qed.

Lemma find_rev_none {A} (f : A -> bool) l :
  existsb f l = false -> List.find f (rev l) = None.
Proof.
  intros Hl. destruct (List.find f (rev l)) as [x|] eqn:E; [|done].
  apply find_some in E as [Hx%in_rev Hfx].
  assert (existsb f l = true) as Ht by (apply existsb_exists; eauto). congruence.
Qed.

(** What the loop finds: once some entry matches, the last entry, whatever its
    version is. *)
Lemma scanVersions_closed version vs :
  version <> "*" ->
  scanVersions version vs =
  if existsb (forVersion version) vs then List.last vs (emptyTemplate "") else lookupSpec version vs.
Proof.
  intros Hne. unfold scanVersions. destruct (scan_state version vs) as (-> & -> & Hw).
  destruct (existsb _ _) eqn:E; [done|]. rewrite Hw by done. unfold lookupSpec.
  rewrite (find_rev_none _ _ E). by destruct (List.find _ _).
Qed.

Section facts.
Context `{LabelSelectors} `{RESTMapper} `{Cluster}.

(** [w] has version [version], and [vs] are the versions of its mapping. *)
Definition Resolves (w : json) (version : string) (vs : list ClusterWorkloadResourceMappingTemplate) :
    Prop :=
  exists gvk rm, GVKForObject w = Ok gvk /\ gvk_Version gvk = version /\ version <> "*" /\
    RESTMapping (gvk_Group gvk) (gvk_Kind gvk) (gvk_Version gvk) = Ok rm /\
    mappingVersions (gvr_Resource rm +:+ ("." +:+ gvr_Group rm)) = Ok vs.

Lemma LookupMapping_closed w version vs :
  Resolves w version vs -> LookupMapping w = Ok (Template_Default (scanVersions version vs)).
Proof.
  intros (gvk & rm & Hg & Hv & Hne & Hr & Hm). unfold LookupMapping, cluster_mappingSource,
    cluster_LookupMapping. rewrite Hg. cbn. rewrite Hr. cbn. rewrite Hm. cbn. by rewrite Hv.
Qed.

(** The right mapping. The mapping that the interface promises is returned
    when no entry is for the version of the workload: the wildcard entry, or
    the defaults for PodSpecable resources; and when the last entry is for it. *)
Lemma LookupMapping_correct w version vs :
  Resolves w version vs ->
  (existsb (forVersion version) vs = true ->
   mt_Version (List.last vs (emptyTemplate "")) = version) ->
  LookupMapping w = Ok (Template_Default (lookupSpec version vs)).
Proof.
  intros Hr Hlast. rewrite (LookupMapping_closed w version vs Hr). do 2 f_equal.
  destruct Hr as (? & ? & _ & _ & Hne & _). rewrite scanVersions_closed by done.
  destruct (existsb _ vs) eqn:E; [|done]. specialize (Hlast eq_refl).
  destruct vs as [|v vs _] using rev_ind; [done|]. rewrite last_last in *.
  unfold lookupSpec. rewrite rev_app_distr. cbn. unfold forVersion at 1.
  by rewrite Hlast, String.eqb_refl.
Qed.

(** The wrong mapping. When an entry is for the version of the workload but
    the last entry is not, the mapping that [LookupMapping] returns is one for
    another version: [mapping = &v] points to the variable of the loop, which
    goes on to the last entry. *)
Lemma LookupMapping_wrong_version w version vs :
  Resolves w version vs -> existsb (forVersion version) vs = true ->
  mt_Version (List.last vs (emptyTemplate "")) <> version ->
  mt_Version (lookupSpec version vs) = version /\
  exists t, LookupMapping w = Ok t /\ mt_Version t <> version.
Proof.
  intros Hr E Hlast. split.
  - unfold lookupSpec. destruct (List.find (forVersion version) (rev vs)) as [v|] eqn:F.
    + apply find_some in F as [_ Hv]. by apply String.eqb_eq.
    + apply existsb_exists in E as (v & Hv%in_rev & Hfv).
      by rewrite (find_none _ _ F v Hv) in Hfv.
  - rewrite (LookupMapping_closed w version vs Hr). eexists. split; [done|].
    destruct Hr as (? & ? & _ & _ & Hne & _). by rewrite scanVersions_closed, E.
Qed.

(** C34 (mapping lookup). [LookupMapping] returns the mapping that the interface
    promises, the entry for the version of the workload or else the wildcard
    entry or the defaults, exactly when no entry is for that version or the
    last entry is. Otherwise the mapping that it returns is for another
    version: [mapping = &v] points to the variable of the loop, which goes on
    to the last entry. *)
Theorem LookupMapping_exact w version vs :
  Resolves w version vs ->
  let last := mt_Version (List.last vs (emptyTemplate "")) in
  (LookupMapping w = Ok (Template_Default (lookupSpec version vs)) <->
   (existsb (forVersion version) vs = true -> last = version)) /\
  (existsb (forVersion version) vs = true -> last <> version ->
   mt_Version (lookupSpec version vs) = version /\
   exists t, LookupMapping w = Ok t /\ mt_Version t <> version).
Proof.
  intros Hr. cbn zeta. split; [|intros; by apply LookupMapping_wrong_version].
  split; [|intros; by apply LookupMapping_correct]. intros Hl E.
  destruct (String.eqb_spec (mt_Version (List.last vs (emptyTemplate ""))) version) as [?|Hne]; [done|].
  destruct (LookupMapping_wrong_version w version vs Hr E Hne) as (Hs & t & Ht & Hv).
  destruct Hv. assert (t = Template_Default (lookupSpec version vs)) as -> by congruence. exact Hs.
Qed.

(** No mapping resource. For a workload without a mapping resource the
    defaults for PodSpecable resources are used; any other error of the client
    is returned. *)
Lemma LookupMapping_missing w gvk rm :
  GVKForObject w = Ok gvk ->
  RESTMapping (gvk_Group gvk) (gvk_Kind gvk) (gvk_Version gvk) = Ok rm ->
  forall e, GetMapping (gvr_Resource rm +:+ ("." +:+ gvr_Group rm)) = Err e ->
  LookupMapping w =
  if IsNotFound e then
    Ok (mkMappingTemplate "*" ".spec.template.metadata.annotations"
          [mkMappingContainer ".spec.template.spec.initContainers[*]" ".name" ".env" ".volumeMounts";
           mkMappingContainer ".spec.template.spec.containers[*]" ".name" ".env" ".volumeMounts"]
          ".spec.template.spec.volumes")
  else Err e.
Proof.
  intros Hg Hr e He. unfold LookupMapping, cluster_mappingSource, cluster_LookupMapping,
    mappingVersions. rewrite Hg. cbn. rewrite Hr. cbn. rewrite He. by destruct (IsNotFound e).
Qed.

(** A binding to a Secret resolves to that secret without
    asking the cluster; any other service is read once, its lookup errors are
    returned, and of a service that is found it is [.status.binding.name]. *)
Lemma LookupBindingSecret_spec ref :
  LookupBindingSecret ref =
  if bool_decide (or_APIVersion ref = "v1" /\ or_Kind ref = "Secret") then Ok (or_Name ref)
  else
    match TrackAndGet (or_APIVersion ref) (or_Kind ref) (or_Namespace ref) (or_Name ref) with
    | Ok service =>
        match (NestedString service ["status"; "binding"; "name"]).2 with
        | Some e => Err e
        | None => Ok (NestedString service ["status"; "binding"; "name"]).1.1
        end
    | Err e => Err e
    | Panic s => Panic s
    end.
Proof.
  unfold LookupBindingSecret.
  destruct (String.eqb_spec (or_APIVersion ref) "v1"), (String.eqb_spec (or_Kind ref) "Secret");
    case_bool_decide; try naive_solver; cbn.
  all: destruct (TrackAndGet _ _ _ _); cbn; [|done..]; by destruct (NestedString _ _) as [[? ?] []].
Qed.
End facts.
