(* ===== verification/ServiceBindingWebhook.v ===== *)
(** * Defaults and validation of service bindings
    (apis/v1beta1/servicebinding_webhook.go) *)

From S2P Require Import Prelude Json Types Kube FieldErrors MappingWebhook.
Local Open Scope string_scope.

(** The name of a binding is, by default, the name of its resource. *)
Definition ServiceBinding_Default (r : ServiceBinding) : ServiceBinding :=
  if String.eqb (sbs_Name (sb_Spec r)) ""
  then set_sb_Spec (set_sbs_Name (om_Name (sb_Meta r)) (sb_Spec r)) r
  else r.

Section validation.
Context `{LabelSelectors} `{Aggregate}.

Definition ServiceReference_validate (r : ServiceBindingServiceReference) (fldPath : FieldPath) :
    list FieldError :=
  (reportIf (String.eqb (sr_APIVersion r) "") (Required (fldPath ++ [Child "apiVersion"]) "") ++
   reportIf (String.eqb (sr_Kind r) "") (Required (fldPath ++ [Child "kind"]) "") ++
   reportIf (String.eqb (sr_Name r) "") (Required (fldPath ++ [Child "name"]) ""))%list.

Definition WorkloadReference_validate (r : ServiceBindingWorkloadReference) (fldPath : FieldPath) :
    list FieldError :=
  (reportIf (String.eqb (wr_APIVersion r) "") (Required (fldPath ++ [Child "apiVersion"]) "") ++
   reportIf (String.eqb (wr_Kind r) "") (Required (fldPath ++ [Child "kind"]) "") ++
   reportIf (String.eqb (wr_Name r) "" && bool_decide (wr_Selector r = None))
     (Required (fldPath ++ [Child "[name, selector]"]) "expected exactly one, got neither") ++
   reportIf (negb (String.eqb (wr_Name r) "") && negb (bool_decide (wr_Selector r = None)))
     (Required (fldPath ++ [Child "[name, selector]"]) "expected exactly one, got both") ++
   match wr_Selector r with
   | Some selector =>
       match LabelSelectorAsSelector (Some selector) with
       | inl err => [Invalid (fldPath ++ [Child "selector"]) selector (errorMessage err)]
       | inr _ => []
       end
   | None => []
   end)%list.

Definition EnvMapping_validate (r : EnvMapping) (fldPath : FieldPath) : list FieldError :=
  (reportIf (String.eqb (em_Name r) "") (Required (fldPath ++ [Child "name"]) "") ++
   reportIf (String.eqb (em_Key r) "") (Required (fldPath ++ [Child "key"]) ""))%list.

Definition ServiceBindingSpec_validate (r : ServiceBindingSpec) (fldPath : FieldPath) :
    list FieldError :=
  (reportIf (String.eqb (sbs_Name r) "") (Required (fldPath ++ [Child "name"]) "") ++
   ServiceReference_validate (sbs_Service r) (fldPath ++ [Child "service"]) ++
   WorkloadReference_validate (sbs_Workload r) (fldPath ++ [Child "workload"]) ++
   reportEach (fun i e => EnvMapping_validate e (fldPath ++ [Child "env"; AtIndex i])) (sbs_Env r))%list.

Definition ServiceBinding_validate (r : ServiceBinding) : list FieldError :=
  ServiceBindingSpec_validate (sb_Spec r) [Child "spec"].

(** The object is defaulted in place: the new object beside the error. *)
Definition ServiceBinding_ValidateCreate (r : ServiceBinding) : ServiceBinding * option error :=
  let r := ServiceBinding_Default r in (r, ToAggregate (ServiceBinding_validate r)).

Definition ServiceBinding_ValidateUpdate (r old : ServiceBinding) : ServiceBinding * option error :=
  let r := ServiceBinding_Default r in (r, ToAggregate (ServiceBinding_validate r)).

Definition ServiceBinding_ValidateDelete (r : ServiceBinding) : option error := None.

(** ** Properties *)

(** The requirements on a binding. *)
Record ValidWorkload (r : ServiceBindingWorkloadReference) : Prop := {
  vw_APIVersion : wr_APIVersion r <> "";
  vw_Kind : wr_Kind r <> "";
  vw_one : wr_Name r = "" <-> wr_Selector r <> None;
  vw_selector s : wr_Selector r = Some s -> exists m, LabelSelectorAsSelector (Some s) = inr m;
}.

Record ValidSpec (s : ServiceBindingSpec) : Prop := {
  vs_Name : sbs_Name s <> "";
  vs_Service : sr_APIVersion (sbs_Service s) <> "" /\ sr_Kind (sbs_Service s) <> "" /\
    sr_Name (sbs_Service s) <> "";
  vs_Workload : ValidWorkload (sbs_Workload s);
  vs_Env : Forall (fun e => em_Name e <> "" /\ em_Key e <> "") (sbs_Env s);
}.

Lemma required_nil s p d : reportIf (String.eqb s "") (Required p d) = [] <-> s <> "".
Proof. by rewrite reportIf_nil, String.eqb_neq. Qed.

Lemma WorkloadReference_validate_iff r p : WorkloadReference_validate r p = [] <-> ValidWorkload r.
Proof.
  unfold WorkloadReference_validate. rewrite !app_nil_iff, !required_nil, !reportIf_nil.
  rewrite !andb_false_iff, !negb_false_iff, String.eqb_neq, String.eqb_eq.
  rewrite bool_decide_eq_true, bool_decide_eq_false.
  destruct (wr_Selector r) as [s|] eqn:Hs.
  - destruct (LabelSelectorAsSelector (Some s)) as [e|m] eqn:Hl; split.
    + naive_solver.
    + intros [_ _ _ Hsel]. destruct (Hsel s Hs). congruence.
    + intros (? & ? & ? & ? & _). split; [done..|rewrite Hs; naive_solver|].
      intros s' Hs'. exists m. congruence.
    + intros [? ? Hone _]. rewrite Hs in Hone. naive_solver.
  - split.
    + intros (? & ? & ? & ? & _). split; [done..|rewrite Hs; naive_solver|naive_solver].
    + intros [? ? Hone _]. rewrite Hs in Hone. naive_solver.
Qed.

Lemma EnvMapping_validate_iff e p :
  EnvMapping_validate e p = [] <-> em_Name e <> "" /\ em_Key e <> "".
Proof. unfold EnvMapping_validate. by rewrite app_nil_iff, !required_nil. Qed.

Lemma ServiceBindingSpec_validate_iff s p : ServiceBindingSpec_validate s p = [] <-> ValidSpec s.
Proof.
  unfold ServiceBindingSpec_validate, ServiceReference_validate.
  rewrite !app_nil_iff, !required_nil, WorkloadReference_validate_iff.
  rewrite (reportEach_Forall _ (fun e => em_Name e <> "" /\ em_Key e <> ""))
    by (intros; apply EnvMapping_validate_iff).
  split; [intros (?&?&?&?); by split|by intros []].
Qed.

(** C36 (admission of bindings). Creating or updating a binding is accepted
    exactly when it, or its resource, has a name; its service reference is
    complete; its workload reference has an API version, a kind and exactly one
    of a name and a selector, which parses; and its environment mappings have
    names and keys. The binding that is accepted carries its name. *)
Theorem ServiceBinding_admission `{!AggregateLaws} r old :
  (snd (ServiceBinding_ValidateCreate r) = None <-> ValidSpec (sb_Spec (ServiceBinding_Default r))) /\
  ServiceBinding_ValidateUpdate r old = ServiceBinding_ValidateCreate r /\
  fst (ServiceBinding_ValidateCreate r) = ServiceBinding_Default r /\
  sbs_Name (sb_Spec (ServiceBinding_Default r)) =
    orDefault (sbs_Name (sb_Spec r)) (om_Name (sb_Meta r)) /\
  ServiceBinding_Default (ServiceBinding_Default r) = ServiceBinding_Default r.
Proof.
  split_and!; [|done|done| |].
  - unfold ServiceBinding_ValidateCreate, ServiceBinding_validate. cbn [snd].
    by rewrite ToAggregate_nil, ServiceBindingSpec_validate_iff.
  - unfold ServiceBinding_Default, orDefault. by destruct (String.eqb _ _).
  - unfold ServiceBinding_Default. destruct (String.eqb (sbs_Name (sb_Spec r)) "") eqn:E; [|by rewrite E].
    cbn. destruct (String.eqb (om_Name (sb_Meta r)) ""); reflexivity.
Qed.

(** A workload reference with a name and a selector, or with
    neither, is reported at [name, selector]. *)
Lemma WorkloadReference_exactly_one r p :
  (wr_Name r = "" <-> wr_Selector r = None) ->
  exists d, Required (p ++ [Child "[name, selector]"])%list d ∈ WorkloadReference_validate r p.
Proof.
  intros Hone. unfold WorkloadReference_validate.
  destruct (String.eqb_spec (wr_Name r) "") as [Hn|Hn].
  - rewrite (bool_decide_eq_true_2 _ (proj1 Hone Hn)). eexists.
    apply elem_of_app; right; apply elem_of_app; right; apply elem_of_app; left. left.
  - rewrite bool_decide_eq_false_2 by naive_solver. eexists.
    do 3 (apply elem_of_app; right). apply elem_of_app; left. left.
Qed.
End validation.
