(* ===== verification/HeapDefault.v ===== *)
(** * Defaults in place, and the lookup of a mapping, in memory

    [Default] writes through its receiver. [LookupMapping] and
    [NewStaticMapping] call it on a deep copy: the objects of their callers,
    whose containers it would otherwise share, stay as they are. The functions
    follow the code line by line on the heap of [DeepCopy.v]; they refine those
    of [MappingWebhook.v] and [Resolver.v]. *)

From S2P Require Import Prelude Json Types Heap Memory DeepCopy DeepCopyFacts.
From S2P Require Import MappingWebhook ServiceBindingWebhook Projector Resolver.
Local Open Scope string_scope.

(** ** The code *)

Section code.
Context `{ApimachineryCopies}.

(** [if r.X == "" { r.X = d }], for a field of [*r]. *)
Definition defaultField {T} `{Storable cell T} (r : pointer) (get : T -> string)
    (set : string -> T -> T) (d : string) : GoM () :=
  v ← deref r;
  if String.eqb (get v) "" then assign r (set d v) else mret tt.

(** The body of the loop over the containers. *)
Definition defaultContainer (s : slice) (i : nat) : GoM () :=
  c ← addrOf s i;
  defaultField c mc_Env set_mc_Env ".env";;
  defaultField c mc_VolumeMounts set_mc_VolumeMounts ".volumeMounts".

Definition sliceLen (s : option slice) : nat := from_option sl_len 0 s.

Definition Template_DefaultInPlace (r : pointer) : GoM () :=
  defaultField r ht_Annotations set_ht_Annotations ".spec.template.metadata.annotations";;
  v ← deref (T := hTemplate) r;
  (if Nat.eqb (sliceLen (ht_Containers v)) 0 then
     s ← makeWith defaultContainers;
     assign r (set_ht_Containers (Some s) v)
   else mret tt);;
  v ← deref (T := hTemplate) r;
  match ht_Containers v with
  | None => mret tt
  | Some s => range s (defaultContainer s)
  end;;
  defaultField r ht_Volumes set_ht_Volumes ".spec.template.spec.volumes".

(** [mapping = mapping.DeepCopy(); mapping.Default()] *)
Definition copyDefault (mapping : pointer) : GoM pointer :=
  mapping ← ClusterWorkloadResourceMappingTemplate_DeepCopy (Some mapping);
  match mapping with
  | Some mapping => Template_DefaultInPlace mapping;; mret mapping
  | None => panic "nil pointer dereference"
  end.

(** The mapping that a [staticMapping] keeps. *)
Definition NewStaticMapping_mapping (mapping : pointer) : GoM pointer := copyDefault mapping.

(** The loop of [LookupMapping] over the versions: [v] is the variable of the
    loop, [mapping] the pointer that is set to [&v]. *)
Fixpoint scanFrom (version : string) (versions : slice) (v wildcardMapping : pointer)
    (mapping : option pointer) (i n : nat) : GoM (option pointer) :=
  match n with
  | O => mret mapping
  | S n =>
      x ← index (T := hTemplate) versions i;
      assign v x;;
      mapping ←
        (if String.eqb (ht_Version x) version then mret (Some v)
         else if String.eqb (ht_Version x) "*" then
           x ← deref (T := hTemplate) v; assign wildcardMapping x;; mret mapping
         else mret mapping);
      scanFrom version versions v wildcardMapping mapping (S i) n
  end.

(** The version of the mapping resource, or the wildcard: [versions] is
    [wrm.Spec.Versions]. *)
Definition findVersion (version : string) (versions : option slice) : GoM pointer :=
  wildcardMapping ← newWith (mkHTemplate "*" "" None "");
  v ← new (T := hTemplate);
  mapping ← match versions with
            | None => mret None
            | Some s => scanFrom version s v wildcardMapping None 0 (sl_len s)
            end;
  mret (default wildcardMapping mapping).

(** The end of [LookupMapping], from the mapping resource on. *)
Definition lookupVersion (version : string) (versions : option slice) : GoM pointer :=
  mapping ← findVersion version versions; copyDefault mapping.

(** [func (r *ServiceBinding) Default()] *)
Definition set_hsb_Name (n : string) (b : hServiceBinding) : hServiceBinding :=
  let s := hsb_Spec b in
  mkHServiceBinding (hsb_TypeMeta b) (hsb_ObjectMeta b)
    (mkHBindingSpec n (hbs_Type s) (hbs_Provider s) (hbs_Workload s) (hbs_Service s) (hbs_Env s))
    (hsb_Status b).

Definition ServiceBinding_DefaultInPlace (r : pointer) : GoM () :=
  v ← deref (T := hServiceBinding) r;
  if String.eqb (hbs_Name (hsb_Spec v)) "" then
    assign r (set_hsb_Name (ObjectMeta_Name (hsb_ObjectMeta v)) v)
  else mret tt.

(** [sb := activeServiceBindings[i].DeepCopy(); sb.Default()], in the admission
    webhook. *)
Definition copyDefaultBinding (p : pointer) : GoM pointer :=
  sb ← ServiceBinding_DeepCopy (Some p);
  match sb with
  | Some sb => ServiceBinding_DefaultInPlace sb;; mret sb
  | None => panic "nil pointer dereference"
  end.

Definition copyActive (active : slice) (i : nat) : GoM pointer :=
  p ← addrOf active i; copyDefaultBinding p.
End code.
