(* ===== verification/HeapDefaultFacts.v ===== *)
(** * Defaults in place refine the defaults of values

    [Template_DefaultInPlace] and [lookupVersion] compute on the heap what
    [Template_Default] and [scanVersions] compute on values, and change no cell
    that their callers know. *)

From S2P Require Import Prelude Json Types Heap Memory DeepCopy DeepCopyFacts.
From S2P Require Import MappingWebhook ServiceBindingWebhook Projector Resolver HeapDefault.
Local Open Scope string_scope.

Section facts.
Context `{ApimachineryLaws}.
Implicit Types h G : GoHeap.

(** ** Fields and elements *)

Lemma arrayAt_other {T U} `{Storable cell T, Storable cell U} G a b (l : list T) (c : list U) :
  a <> b -> arrayAt G a = Some l -> arrayAt (<[b := inj c]> G) a = Some l.
Proof. intros Hab. unfold arrayAt. by rewrite lookup_insert_ne. Qed.

Definition setIfEmpty {T} (get : T -> string) (set : string -> T -> T) (d : string) (v : T) : T :=
  if String.eqb (get v) "" then set d v else v.

Lemma defaultField_triple {T} `{Storable cell T} h0 G r get set d (l : list T) v :
  arrayAt G (p_array r) = Some l -> l !! p_index r = Some v ->
  triple h0 G (defaultField r get set d)
    (fun _ G' => G' = <[p_array r := inj (<[p_index r := setIfEmpty get set d v]> l)]> G).
Proof.
  intros Hl Hv. unfold defaultField.
  eapply triple_bind; [by eapply (triple_deref _ _ _ _ _ (fun x G' => x = v /\ G' = G))|].
  intros x G' [-> ->]. unfold setIfEmpty. destruct (String.eqb (get v) "").
  - eapply triple_assign; [done|by eapply lookup_lt_Some|done].
  - apply triple_ret. rewrite list_insert_id by done. by rewrite arrayAt_id.
Qed.

Lemma defaultContainer_triple h0 G s i l x :
  i < sl_len s -> arrayAt G (sl_array s) = Some l -> l !! (sl_off s + i) = Some x ->
  triple h0 G (defaultContainer s i)
    (fun _ G' => G' = <[sl_array s := inj (<[sl_off s + i := Container_Default x]> l)]> G).
Proof.
  intros Hi Hl Hx. unfold defaultContainer, addrOf. rewrite decide_True by done.
  eapply triple_bind; [by apply (triple_ret _ _ _
    (fun c G' => c = mkPointer (sl_array s) (sl_off s + i) /\ G' = G))|].
  intros c G' [-> ->].
  eapply triple_bind; [by eapply defaultField_triple|]. cbn beta. intros _ G' ->.
  eapply triple_mono; [eapply defaultField_triple; [apply arrayAt_insert|]|].
  { apply list_lookup_insert_eq. by eapply lookup_lt_Some. }
  cbn. intros _ G' ->. rewrite insert_insert_eq, list_insert_insert_eq. do 3 f_equal.
  unfold setIfEmpty, Container_Default, orDefault. destruct x as [p n e m]. cbn.
  by destruct (String.eqb e ""); cbn; destruct (String.eqb m "").
Qed.

(** The containers from turn [i] on. *)
Definition defaultedFrom (o i k : nat) (l l' : list ClusterWorkloadResourceMappingContainer) : Prop :=
  length l' = length l /\
  forall j, l' !! j = if decide (o + i <= j < o + i + k) then Container_Default <$> (l !! j) else l !! j.

Lemma defaultContainers_triple h0 s : forall k i G l,
  i + k = sl_len s -> arrayAt G (sl_array s) = Some l -> sl_off s + sl_len s <= length l ->
  triple h0 G (forRange i k (defaultContainer s))
    (fun _ G' => exists l', G' = <[sl_array s := inj l']> G /\ defaultedFrom (sl_off s) i k l l').
Proof.
  induction k as [|k IH]; intros i G l Hik Hl Hb.
  { apply triple_ret. exists l. split; [by rewrite arrayAt_id|]. split; [done|].
    intros j. by rewrite decide_False by lia. }
  destruct (lookup_lt_is_Some_2 l (sl_off s + i)) as [x Hx]; [lia|].
  eapply triple_bind; [eapply defaultContainer_triple; [lia|done..]|].
  cbn beta. intros _ G' ->.
  eapply triple_mono; [eapply (IH (S i)); [lia|apply arrayAt_insert|by rewrite length_insert]|].
  intros _ G' (l' & -> & Hlen & Hj). exists l'. rewrite insert_insert_eq. split; [done|].
  rewrite length_insert in Hlen. split; [done|]. intros j. rewrite Hj.
  destruct (decide (j = sl_off s + i)) as [->|Hne].
  - rewrite decide_False, decide_True by lia. rewrite Hx.
    rewrite list_lookup_insert_eq by lia. done.
  - rewrite list_lookup_insert_ne by done.
    destruct (decide (sl_off s + S i <= j < _)), (decide (sl_off s + i <= j < _)); done || lia.
Qed.

Lemma defaultedFrom_view s l l' :
  sl_off s + sl_len s <= length l -> defaultedFrom (sl_off s) 0 (sl_len s) l l' ->
  take (sl_len s) (drop (sl_off s) l') = map Container_Default (take (sl_len s) (drop (sl_off s) l)).
Proof.
  intros Hb [Hlen Hj]. apply list_eq. intros j.
  rewrite lookup_map.
  destruct (decide (j < sl_len s)).
  - rewrite !lookup_take_lt, !lookup_drop, Hj by lia. by rewrite decide_True by lia.
  - rewrite !lookup_take_ge by lia. done.
Qed.

Lemma mapM_plain {T} h (l : list T) : mapM (plain h) l = Some l.
Proof. apply mapM_Some. by induction l; constructor. Qed.

Lemma readSlice_plain {T} `{Storable cell T} h s (l : list T) :
  arrayAt h (sl_array s) = Some l -> sl_off s + sl_len s <= length l ->
  readSlice plain h (Some s) = Some (take (sl_len s) (drop (sl_off s) l)).
Proof. intros Hl Hb. cbn. rewrite Hl. cbn. rewrite decide_True by done. apply mapM_plain. Qed.

(** ** The template at a pointer *)

Definition templateAt G (r : pointer) (v : hTemplate) (cs : list ClusterWorkloadResourceMappingContainer) :
    Prop :=
  (exists l, arrayAt G (p_array r) = Some l /\ l !! p_index r = Some v) /\
  readSlice plain G (ht_Containers v) = Some cs.

Lemma template_container_ne G a b (l : list hTemplate)
    (c : list ClusterWorkloadResourceMappingContainer) :
  arrayAt G a = Some l -> arrayAt G b = Some c -> a <> b.
Proof. intros Hl Hc ->. unfold arrayAt in *. destruct (G !! b) as [[]|]; done. Qed.

Lemma readSlice_other G a (l l' : list hTemplate) s cs :
  arrayAt G a = Some l -> readSlice (T:=ClusterWorkloadResourceMappingContainer) plain G s = Some cs ->
  readSlice plain (<[a := inj l']> G) s = Some cs.
Proof.
  intros Hl. destruct s as [s|]; [|done]. unfold readSlice. intros (c & Hc & Hr)%bind_Some.
  rewrite (arrayAt_other _ _ _ c) by (done || by apply not_eq_sym; eapply template_container_ne).
  cbn. destruct (decide _); [|done]. by rewrite mapM_plain in *.
Qed.

Lemma templateAt_set G r l v v' cs :
  arrayAt G (p_array r) = Some l -> l !! p_index r = Some v ->
  readSlice plain G (ht_Containers v') = Some cs ->
  templateAt (<[p_array r := inj (<[p_index r := v']> l)]> G) r v' cs.
Proof.
  intros Hl Hv Hc. split.
  - eexists. split; [apply arrayAt_insert|]. apply list_lookup_insert_eq. by eapply lookup_lt_Some.
  - by eapply readSlice_other.
Qed.

Lemma templateField_triple h0 G r get set d v cs :
  templateAt G r v cs -> ht_Containers (setIfEmpty get set d v) = ht_Containers v ->
  triple h0 G (defaultField r get set d)
    (fun _ G' => templateAt G' r (setIfEmpty get set d v) cs).
Proof.
  intros [(l & Hl & Hv) Hc] Hs. eapply triple_mono; [by eapply defaultField_triple|].
  intros _ G' ->. eapply templateAt_set; [done..|by rewrite Hs].
Qed.

Lemma template_deref h0 G r v cs :
  templateAt G r v cs -> triple h0 G (deref r) (fun x G' => x = v /\ G' = G).
Proof. intros [(l & Hl & Hv) _]. by eapply triple_deref. Qed.

(** An empty list of containers is replaced. *)
Lemma defaultList_triple h0 G r v cs :
  templateAt G r v cs ->
  triple h0 G
    (if Nat.eqb (sliceLen (ht_Containers v)) 0 then
       s ← makeWith defaultContainers; assign r (set_ht_Containers (Some s) v)
     else mret tt)
    (fun _ G' => exists s, templateAt G' r (set_ht_Containers (Some s) v)
       (match cs with [] => defaultContainers | cs => cs end)).
Proof.
  intros [(l & Hl & Hv) Hc]. destruct (Nat.eqb_spec (sliceLen (ht_Containers v)) 0) as [Hz|Hz].
  - assert (cs = []) as ->.
    { destruct (ht_Containers v) as [s|]; [|by injection Hc]. cbn in Hz, Hc.
      apply bind_Some in Hc as (c & _ & Hc). rewrite Hz, take_0 in Hc.
      destruct (decide _); [|done]. by injection Hc. }
    eapply triple_bind; [apply triple_makeWith|]. cbn beta. intros s G' (a & Ha & -> & ->).
    assert (p_array r <> a) as Hne.
    { intros Hra. unfold arrayAt in Hl. by rewrite Hra, Ha in Hl. }
    eapply triple_assign; [by apply arrayAt_other|by eapply lookup_lt_Some|].
    exists (mkSlice a 0 2). eapply (templateAt_set _ _ l v); [by apply arrayAt_other|done|].
    cbn [ht_Containers set_ht_Containers].
    by rewrite (readSlice_plain _ _ defaultContainers) by (apply arrayAt_insert || cbn; lia).
  - apply triple_ret. destruct (ht_Containers v) as [s|] eqn:Es; [|done]. exists s.
    assert (set_ht_Containers (Some s) v = v) as -> by (destruct v; cbn in Es; by subst).
    destruct cs as [|c cs].
    + exfalso. cbn in Hc, Hz. apply bind_Some in Hc as (c & _ & Hc). destruct (decide _); [|done].
      rewrite mapM_plain in Hc. injection Hc as Hc.
      apply (f_equal length) in Hc. rewrite length_take, length_drop in Hc. cbn in Hc. lia.
    + split; [by exists l|by rewrite Es].
Qed.

Lemma defaultLoop_triple h0 G r v s cs :
  templateAt G r v cs -> ht_Containers v = Some s ->
  triple h0 G (range s (defaultContainer s))
    (fun _ G' => templateAt G' r v (map Container_Default cs)).
Proof.
  intros [(l & Hl & Hv) Hc] Es. rewrite Es in Hc. cbn in Hc.
  apply bind_Some in Hc as (c & Hc & Hr). destruct (decide _) as [Hb|]; [|done].
  rewrite mapM_plain in Hr. injection Hr as <-.
  eapply triple_mono; [by eapply defaultContainers_triple|].
  intros _ G' (c' & -> & Hd). split.
  - exists l. split; [|done]. apply arrayAt_other; [|done]. by eapply template_container_ne.
  - rewrite Es, (readSlice_plain _ _ c'); [|apply arrayAt_insert|destruct Hd as [-> _]; done].
    f_equal. by apply defaultedFrom_view.
Qed.

Lemma templateAt_reads G r v cs :
  templateAt G r v cs ->
  readPointer (hT:=hTemplate) reads G r = Some (mkMappingTemplate (ht_Version v) (ht_Annotations v) cs (ht_Volumes v)).
Proof.
  intros [(l & Hl & Hv) Hc]. unfold readPointer. rewrite Hl. cbn. rewrite Hv. cbn.
  unfold hTemplate_reads. by rewrite Hc.
Qed.

Lemma readPointer_templateAt G r t :
  readPointer (hT:=hTemplate) reads G r = Some t ->
  exists v, templateAt G r v (mt_Containers t) /\
    t = mkMappingTemplate (ht_Version v) (ht_Annotations v) (mt_Containers t) (ht_Volumes v).
Proof.
  unfold readPointer. intros (v & (l & Hl & Hv)%bind_Some & Hr)%bind_Some.
  cbn in Hr. unfold hTemplate_reads in Hr. apply bind_Some in Hr as (cs & Hc & [= <-]).
  exists v. split; [|done]. split; [by exists l|done].
Qed.

Lemma Template_DefaultInPlace_triple h0 G r t :
  readPointer (hT:=hTemplate) reads G r = Some t ->
  triple h0 G (Template_DefaultInPlace r)
    (fun _ G' => readPointer (hT:=hTemplate) reads G' r = Some (Template_Default t)).
Proof.
  intros (v & Hv & ->)%readPointer_templateAt. set (cs := mt_Containers t) in *.
  unfold Template_DefaultInPlace.
  eapply triple_bind; [eapply templateField_triple; [done|by unfold setIfEmpty; case_match]|].
  cbn beta. set (v1 := setIfEmpty _ _ _ v). intros _ G1 H1'.
  eapply triple_bind; [by eapply template_deref|].
  intros x G' [-> ->].
  eapply triple_bind; [by apply defaultList_triple|]. cbn beta. intros _ G2 (s & H2').
  set (v2 := set_ht_Containers (Some s) v1) in *.
  eapply triple_bind; [by eapply template_deref|].
  intros x G' [-> ->]. cbn [ht_Containers v2 set_ht_Containers].
  eapply triple_bind; [by eapply defaultLoop_triple|]. cbn beta. intros _ G3 H3'.
  eapply triple_mono; [eapply templateField_triple; [exact H3'|by unfold setIfEmpty; destruct (String.eqb (ht_Volumes v2) "")]|].
  cbn beta. intros _ G4 H4'%templateAt_reads. rewrite H4'. f_equal.
  unfold Template_Default, orDefault, v2, v1, setIfEmpty. cbn.
  destruct v as [ver ann cont vol]. cbn. fold cs.
  by destruct (String.eqb ann ""); cbn; destruct (String.eqb vol ""); destruct cs.
Qed.

(** ** Copy, then default *)

(** What is done to a fresh value, with a triple, leaves the rest alone. *)
Lemma freshly_then {A B X Y} (m : GoM A) (k : A -> GoM B) (r : GoHeap -> A -> option X)
    (t : GoHeap -> B -> option Y) h x y :
  freshly m r h x ->
  (forall a G, r G a = Some x -> triple h G (k a) (fun b G' => t G' b = Some y)) ->
  freshly (m ≫= k) t h y.
Proof.
  intros (a & h1 & Hm & Hs & Ha) Hk.
  destruct (Hk a _ Ha h1 Hs eq_refl) as (b & h2 & Hb & Hs' & Hy).
  exists b, h2. by erewrite M_bind_Ok by exact Hm.
Qed.

Lemma DeepCopy_owned {hT T} `{Storable cell hT, DeepCopyLaws cell hT T} h p (x : T) :
  readPointer (hT:=hT) reads h p = Some x ->
  freshly (ifNotNil (Some p) (copyPointer (T:=hT) DeepCopyInto))
    (fun h q => q ≫= readOwned (hT:=hT) reads h) h x.
Proof.
  intros Hp. eapply (freshly_fmap _ Some (readOwned (hT:=hT) reads)); [|done].
  apply copyPointer_owned; [apply reads_mono|apply DeepCopyInto_fresh|done].
Qed.

Lemma copyDefault_fresh h p t :
  readPointer (hT:=hTemplate) reads h p = Some t ->
  freshly (copyDefault p) (readPointer (hT:=hTemplate) reads) h (Template_Default t).
Proof.
  intros Hp. unfold copyDefault. eapply (freshly_then _ _ (fun h q => q ≫= readOwned (hT:=hTemplate) reads h) _ _ t).
  { exact (DeepCopy_owned _ _ _ Hp). }
  intros [q|] G; [|done]. cbn [mbind option_bind].
  intros Hq%readOwned_pointer; [|apply reads_mono].
  eapply triple_bind; [by apply Template_DefaultInPlace_triple|]. cbn beta. intros _ G' HG.
  by apply triple_ret.
Qed.

(** ** The loop over the versions *)

(** Beside the heap [h0] of the caller there are the variables of the loop. *)
Record scanAt h0 G (v w : positive) (st : scanState) : Prop := {
  scanAt_ne : v <> w;
  scanAt_v : exists x, arrayAt G v = Some [x] /\ hTemplate_reads h0 x = Some (scan_v st);
  scanAt_w : exists x, arrayAt G w = Some [x] /\ hTemplate_reads h0 x = Some (scan_wildcard st);
}.

Definition scanPointer (v : positive) (st : scanState) : option pointer :=
  if scan_mapping st then Some (mkPointer v 0) else None.

Lemma template_version h x t : hTemplate_reads h x = Some t -> ht_Version x = mt_Version t.
Proof. unfold hTemplate_reads. by intros (cs & _ & [= <-])%bind_Some. Qed.

Lemma scanFrom_triple h0 version s v w l : forall k i G st ys,
  arrayAt h0 (sl_array s) = Some l -> sl_off s + sl_len s <= length l -> i + k = sl_len s ->
  mapM (hTemplate_reads h0) (take k (drop (sl_off s + i) l)) = Some ys ->
  scanAt h0 G v w st ->
  triple h0 G (scanFrom version s (mkPointer v 0) (mkPointer w 0) (scanPointer v st) i k)
    (fun m G' => exists st', st' = fold_left (scanVersion version) ys st /\
       scanAt h0 G' v w st' /\ m = scanPointer v st').
Proof.
  induction k as [|k IH]; intros i G st ys Hl Hb Hik Hys Hst.
  { cbn in Hys. injection Hys as <-. apply triple_ret. by exists st. }
  destruct (lookup_lt_is_Some_2 l (sl_off s + i)) as [x Hx]; [lia|].
  rewrite (drop_S _ _ _ Hx) in Hys. cbn in Hys. apply bind_Some in Hys as (t & Ht & Hys).
  apply bind_Some in Hys as (ys' & Hys & [= <-]).
  rewrite <-Nat.add_succ_r in Hys.
  destruct Hst as [Hne (xv & Hv & Hxv) (xw & Hw & Hxw)].
  assert (arrayAt (<[v := inj [x]]> G) w = Some [xw]) as Hw'.
  { by apply arrayAt_other; [apply not_eq_sym|]. }
  cbn [scanFrom].
  eapply triple_bind; [eapply triple_index; [done|lia|done]|]. intros x' G' [-> ->].
  eapply triple_bind; [by apply (triple_assign _ _ _ [xv] _ (fun _ G' => G' = <[v := inj [x]]> G));
    [done|cbn; lia|]|]. cbn beta. intros _ G' ->.
  rewrite (template_version h0 x t) by done. cbn [fold_left]. unfold scanVersion at 2.
  destruct (String.eqb (mt_Version t) version); [|destruct (String.eqb (mt_Version t) "*")].
  - eapply triple_bind; [by apply (triple_ret _ _ _ (fun m G' => m = Some (mkPointer v 0) /\ G' = <[v := inj [x]]> G))|].
    intros m G' [-> ->]. apply (IH (S i) _ (mkScan t true (scan_wildcard st))); [done..|lia|done|].
    split; [done|exists x; split; [apply arrayAt_insert|done]|by exists xw].
  - eapply (triple_bind _ _ _ _ (fun m G' => m = scanPointer v st /\
      G' = <[w := inj [x]]> (<[v := inj [x]]> G))).
    { eapply triple_bind; [eapply (triple_deref _ _ _ [x] x (fun y G' => y = x /\ G' = <[v := inj [x]]> G));
        [apply arrayAt_insert|done|done]|]. intros y G' [-> ->].
      eapply triple_bind; [by apply (triple_assign _ _ _ [xw] _
        (fun _ G' => G' = <[w := inj [x]]> (<[v := inj [x]]> G))); [done|cbn; lia|]|].
      cbn beta. intros _ G' ->. by apply triple_ret. }
    intros m G' [-> ->]. apply (IH (S i) _ (mkScan t (scan_mapping st) t)); [done..|lia|done|].
    split; [done|exists x; split; [by apply arrayAt_other, arrayAt_insert|done]
      |exists x; split; [apply arrayAt_insert|done]].
  - eapply triple_bind; [by apply (triple_ret _ _ _ (fun m G' => m = scanPointer v st /\ G' = <[v := inj [x]]> G))|].
    intros m G' [-> ->]. apply (IH (S i) _ (mkScan t (scan_mapping st) (scan_wildcard st))); [done..|lia|done|].
    split; [done|exists x; split; [apply arrayAt_insert|done]|by exists xw].
Qed.

(** The loop and its two variables, started from any heap. *)
Lemma findVersion_triple h0 version versions vs :
  readSlice (hT:=hTemplate) reads h0 versions = Some vs ->
  triple h0 ∅
    (findVersion version versions)
    (fun p G => exists x, arrayAt G (p_array p) = Some [x] /\ p_index p = 0 /\
       hTemplate_reads h0 x = Some (scanVersions version vs)).
Proof.
  intros Hvs. unfold findVersion. eapply triple_bind; [apply triple_newWith|]. cbn beta. intros w' G (w & Hw & -> & ->).
  unfold new. eapply triple_bind; [apply (triple_newWith _ _ (zero : hTemplate))|].
  cbn beta. intros v' G (v & Hv & -> & ->).
  set (st := mkScan (emptyTemplate "") false (emptyTemplate "*")).
  assert (v <> w) as Hne. { intros ->. by rewrite lookup_insert_eq in Hv. }
  assert (scanAt h0 (<[v := inj [hTemplate_zero]]> (<[w := inj [mkHTemplate "*" "" None ""]]> ∅)) v w st) as Hst.
  { split; [done|exists hTemplate_zero; split; [apply arrayAt_insert|done]|].
    eexists. split; [apply arrayAt_other; [by apply not_eq_sym|apply arrayAt_insert]|done]. }
  eapply (triple_bind _ _ _ _ (fun m G' => exists st', st' = fold_left (scanVersion version) vs st /\
       scanAt h0 G' v w st' /\ m = scanPointer v st')).
  { destruct versions as [s|].
    - cbn [readSlice] in Hvs. apply bind_Some in Hvs as (l & Hl & Hvs).
      destruct (decide _) as [Hb|]; [|done].
      eapply (scanFrom_triple h0 version s v w l (sl_len s) 0 _ st vs); [done..|by rewrite Nat.add_0_r|done].
    - injection Hvs as <-. apply triple_ret. by exists st. }
  intros m G' (st' & -> & [_ (xv & Hxv & Hrv) (xw & Hxw & Hrw)] & ->).
  apply triple_ret. unfold scanVersions, scanPointer. fold st.
  destruct (scan_mapping _); [by exists xv|by exists xw].
Qed.

Lemma lookupVersion_fresh h version versions vs :
  readSlice (hT:=hTemplate) reads h versions = Some vs ->
  freshly (lookupVersion version versions) (readPointer (hT:=hTemplate) reads) h
    (Template_Default (scanVersions version vs)).
Proof.
  intros Hvs. destruct (findVersion_triple h version versions vs Hvs h) as (p & h1 & Hrun & Hs & x & Hx & Hp & Hr);
    [done|apply map_difference_diag|].
  destruct (copyDefault_fresh h1 p (scanVersions version vs)) as (q & h2 & Hq & Hs2 & Hr2).
  { unfold readPointer. apply arrayAt_own in Hx as [_ Hx]. rewrite Hx, Hp. cbn.
    exact (reads_mono (hT:=hTemplate) h h1 x _ Hs Hr). }
  exists q, h2. split_and!; [|by etrans|].
  - unfold lookupVersion. by erewrite M_bind_Ok by exact Hrun.
  - eapply readPointer_mono; [apply reads_mono| |exact Hr2]. by apply diff_anti.
Qed.

(** ** Bindings *)

Lemma binding_reads_name G v tm sb :
  hServiceBinding_reads G v = Some (tm, sb) ->
  hbs_Name (hsb_Spec v) = sbs_Name (sb_Spec sb) /\
  ObjectMeta_Name (hsb_ObjectMeta v) = om_Name (sb_Meta sb) /\
  forall n, hServiceBinding_reads G (set_hsb_Name n v) =
    Some (tm, set_sb_Spec (set_sbs_Name n (sb_Spec sb)) sb).
Proof.
  unfold hServiceBinding_reads. intros (m & Hm & (s & Hs & (t & Ht & [= <- <-])%bind_Some)%bind_Some)%bind_Some.
  cbn [sb_Spec sb_Meta]. rewrite (ObjectMeta_Name_reads G _ m) by done.
  cbn in Hs. unfold hBindingSpec_reads in Hs.
  apply bind_Some in Hs as (w & Hw & (env & He & [= <-])%bind_Some). split_and!; [done..|].
  intros n. cbn [set_hsb_Name hsb_ObjectMeta hsb_Spec hsb_Status]. rewrite Hm, Ht.
  cbn. unfold hBindingSpec_reads. cbn [hbs_Workload hbs_Env]. cbn in Hw. by rewrite Hw, He.
Qed.

Lemma ServiceBinding_DefaultInPlace_triple h0 G r tm sb :
  readOwned (hT:=hServiceBinding) reads G r = Some (tm, sb) ->
  triple h0 G (ServiceBinding_DefaultInPlace r)
    (fun _ G' => readOwned (hT:=hServiceBinding) reads G' r = Some (tm, ServiceBinding_Default sb)).
Proof.
  unfold readOwned at 1. intros (v & (l & Hl & Hv)%bind_Some & Hr)%bind_Some.
  eapply triple_bind; [by eapply (triple_deref _ _ _ _ _ (fun x G' => x = v /\ G' = G))|].
  intros x G' [-> ->]. apply binding_reads_name in Hr as Hn. destruct Hn as (Hname & Hmeta & Hset).
  rewrite Hname, Hmeta. unfold ServiceBinding_Default.
  destruct (String.eqb (sbs_Name (sb_Spec sb)) "").
  - eapply triple_assign; [done|by eapply lookup_lt_Some|].
    unfold readOwned. rewrite arrayAt_insert. cbn [mbind option_bind].
    rewrite list_lookup_insert_eq by (by eapply lookup_lt_Some). cbn [mbind option_bind].
    rewrite delete_insert_eq. apply Hset.
  - apply triple_ret. unfold readOwned. rewrite Hl. cbn [mbind option_bind]. rewrite Hv. apply Hr.
Qed.

Lemma copyDefaultBinding_fresh h p tm sb :
  readPointer (hT:=hServiceBinding) reads h p = Some (tm, sb) ->
  freshly (copyDefaultBinding p) (readPointer (hT:=hServiceBinding) reads) h
    (tm, ServiceBinding_Default sb).
Proof.
  intros Hp. unfold copyDefaultBinding.
  eapply (freshly_then _ _ (fun h q => q ≫= readOwned (hT:=hServiceBinding) reads h) _ _ (tm, sb)).
  { exact (DeepCopy_owned _ _ _ Hp). }
  intros [q|] G; [|done]. cbn [mbind option_bind]. intros Hq.
  eapply triple_bind; [by apply ServiceBinding_DefaultInPlace_triple|]. cbn beta. intros _ G' HG.
  apply triple_ret. apply readOwned_pointer; [apply reads_mono|done].
Qed.

Lemma copyActive_fresh h active i xs tm sb :
  readSlice (hT:=hServiceBinding) reads h (Some active) = Some xs -> xs !! i = Some (tm, sb) ->
  freshly (copyActive active i) (readPointer (hT:=hServiceBinding) reads) h
    (tm, ServiceBinding_Default sb).
Proof.
  intros Hxs Hi. cbn [readSlice] in Hxs. apply bind_Some in Hxs as (l & Hl & Hxs).
  destruct (decide _) as [Hb|]; [|done]. apply mapM_Some in Hxs.
  destruct (Forall2_lookup_r _ _ _ _ _ Hxs Hi) as (v & Hv & Hr).
  apply lookup_take_Some in Hv as [Hv Hlt]. rewrite lookup_drop in Hv.
  unfold copyActive, addrOf. rewrite decide_True by done.
  apply (copyDefaultBinding_fresh h (mkPointer (sl_array active) (sl_off active + i))).
  unfold readPointer. cbn [p_array p_index]. by rewrite Hl; cbn; rewrite Hv.
Qed.
End facts.
