(* ===== verification/HeapProperties.v ===== *)
(** * What deep copies are for

    The copies share nothing with their originals; the mapping that a lookup
    hands out, and the bindings that the admission webhook defaults, can be
    changed at will without changing the objects they come from. *)

From S2P Require Import Prelude Json Types Heap Memory DeepCopy DeepCopyFacts.
From S2P Require Import MappingWebhook ServiceBindingWebhook Projector Resolver HeapDefault HeapDefaultFacts.
Local Open Scope string_scope.

Section properties.
Context `{ApimachineryLaws}.
Implicit Types h g : GoHeap.

(** [copy] makes a deep copy: it succeeds, the copy stands for the same value,
    whatever is later done to the cells of the copy does not change the
    original, and whatever is done to all other cells does not change the copy.
    A [nil] pointer, that stands for [None], has a [nil] copy. *)
Definition isDeepCopy {X} (rd : GoHeap -> option pointer -> option (option X))
    (copy : option pointer -> GoM (option pointer)) : Prop :=
  forall h p x, rd h p = Some x ->
  exists q h', copy p h = Ok (q, h') /\ (q = None <-> p = None) /\ h ⊆ h' /\
    (forall g, h ⊆ g -> rd g p = Some x) /\ (forall g, h' ∖ h ⊆ g -> rd g q = Some x).

Lemma isDeepCopy_pointer {hT T} `{Storable cell hT} (rd : GoHeap -> hT -> option T)
    (into : hT -> GoM hT) :
  (forall h h' v x, h ⊆ h' -> rd h v = Some x -> rd h' v = Some x) ->
  (forall h v x, rd h v = Some x -> freshly (into v) rd h x) ->
  isDeepCopy (readOptional rd) (fun p => ifNotNil p (copyPointer into)).
Proof.
  intros Hm Hf h p x Hp. destruct p as [p|].
  - unfold readOptional in Hp. apply fmap_Some in Hp as (y & Hy & ->).
    destruct (copyPointer_fresh rd into Hm Hf h p y Hy) as (q & h' & Hq & Hs & Hr).
    exists (Some q), h'. split_and!; [|done|done|..].
    + unfold ifNotNil. by erewrite M_bind_Ok by exact Hq.
    + intros g Hg. cbn. by rewrite (readPointer_mono rd Hm h g p y).
    + intros g Hg. cbn. by rewrite (readPointer_mono rd Hm (h' ∖ h) g q y).
  - exists None, h. injection Hp as <-. by split_and!.
Qed.

Lemma isDeepCopy_reads {hT T} `{Storable cell hT, DeepCopyLaws cell hT T} :
  isDeepCopy (readOptional (hT := hT) reads) (fun p => ifNotNil p (copyPointer (T := hT) DeepCopyInto)).
Proof. apply isDeepCopy_pointer; [apply reads_mono|apply DeepCopyInto_fresh]. Qed.

Lemma isDeepCopy_plain {T} `{Storable cell T} :
  isDeepCopy (readOptional (hT := T) plain) (fun p => ifNotNil p (copyPointer (T := T) mret)).
Proof. apply isDeepCopy_pointer; [apply plain_mono|intros h v x; apply plain_ret]. Qed.

(** C27 (safety). Every [DeepCopy] of the API types is a deep copy. *)
Theorem DeepCopy_deep :
  isDeepCopy (readOptional (hT := hServiceBinding) reads) ServiceBinding_DeepCopy /\
  isDeepCopy (readOptional (hT := hList) (hList_reads (hT := hServiceBinding))) ServiceBindingList_DeepCopy /\
  isDeepCopy (readOptional (hT := hBindingSpec) reads) ServiceBindingSpec_DeepCopy /\
  isDeepCopy (readOptional (hT := hBindingStatus) reads) ServiceBindingStatus_DeepCopy /\
  isDeepCopy (readOptional (hT := hWorkloadReference) reads) ServiceBindingWorkloadReference_DeepCopy /\
  isDeepCopy (readOptional (hT := ServiceBindingServiceReference) plain) ServiceBindingServiceReference_DeepCopy /\
  isDeepCopy (readOptional (hT := ServiceBindingSecretReference) plain) ServiceBindingSecretReference_DeepCopy /\
  isDeepCopy (readOptional (hT := EnvMapping) plain) EnvMapping_DeepCopy /\
  isDeepCopy (readOptional (hT := hMapping) reads) ClusterWorkloadResourceMapping_DeepCopy /\
  isDeepCopy (readOptional (hT := hList) (hList_reads (hT := hMapping)))
    ClusterWorkloadResourceMappingList_DeepCopy /\
  isDeepCopy (readOptional (hT := hMappingSpec) reads) ClusterWorkloadResourceMappingSpec_DeepCopy /\
  isDeepCopy (readOptional (hT := hTemplate) reads) ClusterWorkloadResourceMappingTemplate_DeepCopy /\
  isDeepCopy (readOptional (hT := ClusterWorkloadResourceMappingContainer) plain) ClusterWorkloadResourceMappingContainer_DeepCopy.
Proof.
  split_and!; first [exact isDeepCopy_reads|exact isDeepCopy_plain|idtac].
  - apply (isDeepCopy_pointer (hList_reads (hT := hServiceBinding)) ServiceBindingList_DeepCopyInto);
      [intros h h' v x; apply hList_reads_mono|intros h v x Hv; exact (hList_fresh (hT := hServiceBinding) h v x Hv)].
  - apply (isDeepCopy_pointer (hList_reads (hT := hMapping)) ClusterWorkloadResourceMappingList_DeepCopyInto);
      [intros h h' v x; apply hList_reads_mono|intros h v x Hv; exact (hList_fresh (hT := hMapping) h v x Hv)].
Qed.

(** [DeepCopyObject] of a [nil] pointer is the [nil] interface, not an interface
    that holds a [nil] pointer. *)
Lemma DeepCopyObject_nil h :
  ServiceBinding_DeepCopyObject None h = Ok (None, h) /\
  ServiceBindingList_DeepCopyObject None h = Ok (None, h) /\
  ClusterWorkloadResourceMapping_DeepCopyObject None h = Ok (None, h) /\
  ClusterWorkloadResourceMappingList_DeepCopyObject None h = Ok (None, h).
Proof. done. Qed.

(** C28 (refinement). [LookupMapping], on the heap, from the mapping resource
    on: it succeeds, the mapping it returns is the one of the pure
    [scanVersions], with its defaults; the mapping resource, and every other
    object that was there, keep every cell; and what the caller writes through
    the result does not reach them. *)
Theorem lookupVersion_refines h version versions vs :
  readSlice (hT := hTemplate) reads h versions = Some vs ->
  exists q h', lookupVersion version versions h = Ok (q, h') /\
    readPointer (hT := hTemplate) reads h' q = Some (Template_Default (scanVersions version vs)) /\
    h ⊆ h' /\
    (forall g, h' ∖ h ⊆ g -> readPointer (hT := hTemplate) reads g q =
       Some (Template_Default (scanVersions version vs))).
Proof.
  intros Hvs. destruct (lookupVersion_fresh h version versions vs Hvs) as (q & h' & Hq & Hs & Hr).
  assert (forall g, h' ∖ h ⊆ g -> readPointer (hT := hTemplate) reads g q =
    Some (Template_Default (scanVersions version vs))) as Hg.
  { intros g Hg. eapply readPointer_mono; [apply reads_mono|exact Hg|exact Hr]. }
  exists q, h'. split_and!; [done|apply Hg, diff_sub|done|done].
Qed.

(** C29 (safety). The admission webhook sets the defaults of the bindings that
    it projects on deep copies: the copy has the defaults of the binding, and
    the list of active bindings, which shares their slices and pointers with
    the objects of the cache, reads as before, whatever is done to the copy. *)
Theorem copyActive_refines h active i xs tm sb :
  readSlice (hT := hServiceBinding) reads h (Some active) = Some xs -> xs !! i = Some (tm, sb) ->
  exists q h', copyActive active i h = Ok (q, h') /\
    readPointer (hT := hServiceBinding) reads h' q = Some (tm, ServiceBinding_Default sb) /\
    h ⊆ h' /\ (forall g, h ⊆ g -> readSlice (hT := hServiceBinding) reads g (Some active) = Some xs).
Proof.
  intros Hxs Hi. destruct (copyActive_fresh h active i xs tm sb Hxs Hi) as (q & h' & Hq & Hs & Hr).
  exists q, h'. split_and!; [done| |done|].
  - eapply readPointer_mono; [apply reads_mono|apply diff_sub|exact Hr].
  - intros g Hg. eapply readSlice_mono; [apply reads_mono|exact Hg|exact Hxs].
Qed.
End properties.
