(* ===== verification/HeapWitnesses.v ===== *)
(** * Objects in a concrete memory

    Metadata with a pointer to its deletion time, and a heap that holds a
    binding, a list of bindings and a mapping resource. *)

From S2P Require Import Prelude Json Types Heap Memory DeepCopy DeepCopyFacts.
From S2P Require Import MappingWebhook ServiceBindingWebhook Projector Resolver.
From S2P Require Import HeapDefault HeapDefaultFacts HeapProperties.
Local Open Scope string_scope.

(** ** Metadata *)

Record goObjectMeta := mkGoObjectMeta {
  gom_Name : string;
  gom_Namespace : string;
  gom_UID : string;
  gom_Generation : Z;
  gom_DeletionTimestamp : option pointer;
}.

(** A cell of third-party code is an array of times. *)
#[export] Instance goApimachinery : Apimachinery := {
  foreign := Z;
  hObjectMeta := goObjectMeta;
  hListMeta := json;
  hLabelSelector := json;
  hCondition := Condition;
  hFrozenObjectMeta := string * string;
  ObjectMeta_zero := mkGoObjectMeta "" "" "" 0 None;
  ListMeta_zero := JNull;
  LabelSelector_zero := JNull;
  Condition_zero := mkCondition "" "" "" "";
  FrozenObjectMeta_zero := ("", "");
  FreezeObjectMeta m := (gom_Namespace m, gom_Name m);
}.

#[export, refine] Instance store_time : Storable cell Z :=
  { inj := Foreign; proj c := match c with Foreign l => Some l | _ => None end; zero := 0%Z }.
Proof. all: solve_storable. Defined.

Definition goObjectMeta_reads (h : GoHeap) (v : goObjectMeta) : option ObjectMeta :=
  t ← readOptional (hT := Z) plain h (gom_DeletionTimestamp v);
  Some (mkObjectMeta (gom_Name v) (gom_Namespace v) (gom_UID v) (gom_Generation v) t).

Definition goObjectMeta_DeepCopyInto (v : goObjectMeta) : GoM goObjectMeta :=
  t ← ifNotNil (gom_DeletionTimestamp v) (copyPointer (T := Z) mret);
  mret (mkGoObjectMeta (gom_Name v) (gom_Namespace v) (gom_UID v) (gom_Generation v) t).

#[export] Instance goCopies : ApimachineryCopies := {
  ObjectMeta_Name := gom_Name;
  copy_ObjectMeta := {| reads := goObjectMeta_reads; DeepCopyInto := goObjectMeta_DeepCopyInto |};
  copy_ListMeta := {| reads := plain; DeepCopyInto := mret |};
  copy_LabelSelector := {| reads := plain; DeepCopyInto := mret |};
  copy_Condition := {| reads := plain; DeepCopyInto := mret |};
}.

#[export] Instance goLaws : ApimachineryLaws.
Proof.
  split; [|split|split; [intros h h' v x; apply plain_mono|intros h v x; apply plain_ret]..].
  - intros h v x. cbn. unfold goObjectMeta_reads. by intros (t & _ & [= <-])%bind_Some.
  - intros h h' v x Hs. cbn. unfold goObjectMeta_reads. intros (t & Ht & [= <-])%bind_Some.
    by rewrite (readOptional_mono plain plain_mono h h' _ t Hs Ht).
  - intros h v x. cbn. unfold goObjectMeta_reads at 1. intros (t & Ht & [= <-])%bind_Some.
    eapply (freshly_fmap _ (mkGoObjectMeta (gom_Name v) (gom_Namespace v) (gom_UID v) (gom_Generation v))
      (readOptional plain) goObjectMeta_reads h t).
    + apply ifNotNil_pointer; [done|]. intros.
      apply copyPointer_fresh; [apply plain_mono|apply plain_ret|done].
    + intros h' a. unfold goObjectMeta_reads. cbn [gom_DeletionTimestamp]. by intros ->.
Qed.

(** ** A memory *)

Definition sampleMapping : ClusterWorkloadResourceMappingContainer :=
  mkMappingContainer ".spec.container" "" "" "".

(** Two versions that share the array of their containers, a binding with a
    selector, containers, variables, a condition and a secret, and the list of
    it. *)
Definition sampleHeap : GoHeap :=
  {[ 1%positive := Containers [sampleMapping; sampleMapping];
     2%positive := Templates [mkHTemplate "v1" "" (Some (mkSlice 1 0 2)) "";
                              mkHTemplate "*" "" (Some (mkSlice 1 1 1)) ".volumes";
                              mkHTemplate "v2" "" None ""];
     3%positive := LabelSelectors [JStr "app"];
     4%positive := Strings ["web"; "sidecar"];
     5%positive := EnvMappings [mkEnvMapping "HOST" "host"];
     6%positive := Conditions [mkCondition "Ready" "True" "" ""];
     7%positive := SecretReferences [mkSecretReference "db"];
     8%positive := Foreign [5%Z];
     9%positive := ServiceBindings
       [mkHServiceBinding (mkTypeMeta "ServiceBinding" "servicebinding.io/v1beta1")
          (mkGoObjectMeta "orders" "ns" "uid-1" 1 (Some (mkPointer 8 0)))
          (mkHBindingSpec "" "" ""
             (mkHWorkloadReference "apps/v1" "Deployment" "" (Some (mkPointer 3 0)) (Some (mkSlice 4 0 1)))
             (mkServiceReference "v1" "Secret" "db") (Some (mkSlice 5 0 1)))
          (mkHBindingStatus 1 (Some (mkSlice 6 0 1)) (Some (mkPointer 7 0)))] ]}.

Definition sampleTemplates : list ClusterWorkloadResourceMappingTemplate :=
  [mkMappingTemplate "v1" "" [sampleMapping; sampleMapping] "";
   mkMappingTemplate "*" "" [sampleMapping] ".volumes";
   mkMappingTemplate "v2" "" [] ""].

Definition sampleSpec : ServiceBindingSpec :=
  mkServiceBindingSpec "" "" "" (mkWorkloadReference "apps/v1" "Deployment" "" (Some (JStr "app")) ["web"])
    (mkServiceReference "v1" "Secret" "db") [mkEnvMapping "HOST" "host"].

Definition sampleStored : TypeMeta * ServiceBinding :=
  (mkTypeMeta "ServiceBinding" "servicebinding.io/v1beta1",
   mkServiceBinding (mkObjectMeta "orders" "ns" "uid-1" 1 (Some 5%Z)) sampleSpec
     (mkServiceBindingStatus 1 [mkCondition "Ready" "True" "" ""] (Some (mkSecretReference "db")))).

Lemma sample_binding :
  readOptional (hT := hServiceBinding) reads sampleHeap (Some (mkPointer 9 0)) = Some (Some sampleStored).
Proof. vm_compute. reflexivity. Qed.

Lemma sample_versions :
  readSlice (hT := hTemplate) reads sampleHeap (Some (mkSlice 2 0 3)) = Some sampleTemplates.
Proof. vm_compute. reflexivity. Qed.

Lemma sample_active :
  readSlice (hT := hServiceBinding) reads sampleHeap (Some (mkSlice 9 0 1)) = Some [sampleStored].
Proof. vm_compute. reflexivity. Qed.

Lemma DeepCopy_deep_witness :
  exists q h', ServiceBinding_DeepCopy (Some (mkPointer 9 0)) sampleHeap = Ok (q, h') /\
    sampleHeap ⊆ h' /\ readOptional (hT := hServiceBinding) reads h' q = Some (Some sampleStored).
Proof.
  destruct (proj1 DeepCopy_deep sampleHeap _ _ sample_binding) as (q & h' & Hq & _ & Hs & _ & Hr).
  exists q, h'. split; [exact Hq|split; [exact Hs|apply Hr, diff_sub]].
Defined.

Lemma lookupVersion_refines_witness :
  exists q h', lookupVersion "v1" (Some (mkSlice 2 0 3)) sampleHeap = Ok (q, h') /\
    readPointer (hT := hTemplate) reads h' q =
      Some (Template_Default (scanVersions "v1" sampleTemplates)) /\ sampleHeap ⊆ h'.
Proof.
  destruct (lookupVersion_refines sampleHeap "v1" _ _ sample_versions) as (q & h' & Hq & Hr & Hs & _).
  exists q, h'. exact (conj Hq (conj Hr Hs)).
Defined.

Lemma copyActive_refines_witness :
  exists q h', copyActive (mkSlice 9 0 1) 0 sampleHeap = Ok (q, h') /\
    readPointer (hT := hServiceBinding) reads h' q =
      Some (fst sampleStored, ServiceBinding_Default (snd sampleStored)) /\ sampleHeap ⊆ h'.
Proof.
  destruct (copyActive_refines sampleHeap (mkSlice 9 0 1) 0 [sampleStored] (fst sampleStored) (snd sampleStored)
    sample_active eq_refl) as (q & h' & Hq & Hr & Hs & _).
  exists q, h'. exact (conj Hq (conj Hr Hs)).
Defined.

(** Without the copy, the defaults reach the mapping resource: two versions
    share their containers here. *)
Example default_in_place_is_seen :
  match Template_DefaultInPlace (mkPointer 2 0) sampleHeap with
  | Ok (_, h') => readSlice (hT := hTemplate) reads h' (Some (mkSlice 2 1 1)) =
      Some [mkMappingTemplate "*" "" [Container_Default sampleMapping] ".volumes"]
  | _ => False
  end.
Proof. vm_compute. reflexivity. Qed.
