(* ===== verification/Dies.v ===== *)
(** * Dies: builders of API objects (dies/v1beta1)

    A die holds a resource; its methods return a die with a changed resource:
    an immutable die a new one, a mutable die itself. diegen emits the same
    methods for every type ([zz_generated.die.go]); they are written once here,
    for the types of the class [DieType], on the heap of [Memory.v]. The methods
    that are written by hand ([servicebinding.go],
    [clusterworkloadresourcemapping.go]) edit a nested field with a die of its
    own, or one element of a slice. A die is the pointer to its struct, and no
    pointer to a die and no callback is [nil]. *)

From S2P Require Import Prelude Json Types Heap Memory DeepCopy.
Local Open Scope string_scope.

(** The type [R] of a resource, and [F] of the metadata that its die shows. *)
Class DieType `{Apimachinery} (R F : Type) `{Storable cell R} `{Storable cell (die R F)} := {
  resourceDeepCopyInto : R -> GoM R;
  freeze : R -> F;
}.
#[export] Hint Mode DieType - ! - - - : typeclass_instances.

(** encoding/json on [T], which works by reflection on the tags: the bytes, or
    the value that is left in the target, and the error. *)
Class Encoding `{Apimachinery} (T : Type) := {
  Marshal : T -> GoM (string * option string);
  Unmarshal : string -> T -> GoM (T * option string);
}.
#[export] Hint Mode Encoding - ! : typeclass_instances.

(** The third-party types that dies convert to. *)
Class Extensions `{Apimachinery} := {
  RawExtension : Type;
  RawExtension_zero : RawExtension;
  encode_raw :: Encoding RawExtension;
  DefaultUnstructuredConverter_ToUnstructured {T} : T -> GoM (option json * option string);
}.

(** How many more elements than it needs the runtime gives a slice that grows. *)
Class Growth := spare : nat -> nat.

(** ** append *)

Section append.
Context `{Apimachinery} `{Growth} {T : Type} `{Storable cell T}.

Definition loadArray (a : positive) : GoM (list T) := fun h =>
  match arrayAt h a with
  | Some l => Ok (l, h)
  | None => Panic "invalid memory address"
  end.

(** A slice reaches to the end of its array: what lies there is overwritten. *)
Definition append (s : option slice) (v : T) : GoM slice :=
  match s with
  | None => a ← alloc (v :: replicate (spare 1) zero)%list; mret (mkSlice a 0 1)
  | Some s =>
      let n := sl_len s in
      l ← loadArray (sl_array s);
      if decide (sl_off s + n < length l) then
        store (sl_array s) (sl_off s + n) v;;
        mret (mkSlice (sl_array s) (sl_off s) (S n))
      else
        a ← alloc (take n (drop (sl_off s) l) ++ v :: replicate (spare (S n)) zero)%list;
        mret (mkSlice a 0 (S n))
  end.
End append.

(** ** The methods of every die *)

Section methods.
Context `{Apimachinery}.
Context {R F : Type} `{Storable cell R} `{Storable cell (die R F)} `{!DieType R F}.
Implicit Types (d p : pointer) (r : R).

Definition getDie d : GoM (die R F) := deref d.

(** [r.DeepCopy()] of the resource that a die holds *)
Definition resourceDeepCopy r : GoM pointer :=
  out ← new (T := R); r' ← resourceDeepCopyInto r; assign out r';; mret out.

Definition DeepCopy d : GoM pointer :=
  v ← getDie d;
  p ← resourceDeepCopy (die_r v);
  r ← deref (T := R) p;
  newWith (mkDie (freeze r) (die_mutable v) r).

Definition DieImmutable d (immutable : bool) : GoM pointer :=
  v ← getDie d;
  if Bool.eqb (die_mutable v) (negb immutable) then mret d
  else
    d ← DeepCopy d;
    v ← getDie d;
    assign d (mkDie (die_frozen v) (negb immutable) (die_r v));;
    mret d.

Definition DieFeed d r : GoM pointer :=
  v ← getDie d;
  if die_mutable v then assign d (mkDie (freeze r) (die_mutable v) r);; mret d
  else newWith (mkDie (freeze r) (die_mutable v) r).

Definition DieFeedPtr d (r : option pointer) : GoM pointer :=
  r ← match r with None => newWith (zero : R) | Some r => mret r end;
  v ← deref (T := R) r;
  DieFeed d v.

Definition DieRelease d : GoM R :=
  v ← getDie d;
  if die_mutable v then mret (die_r v)
  else p ← resourceDeepCopy (die_r v); deref p.

Definition DieReleasePtr d : GoM pointer := r ← DieRelease d; newWith r.

Definition DieStamp d (fn : pointer -> GoM ()) : GoM pointer :=
  r ← DieRelease d;
  p ← newWith r;
  fn p;;
  r ← deref (T := R) p;
  DieFeed d r.

Definition DieFeedRawExtension `{!Extensions, !Encoding R} d (raw : RawExtension) : GoM pointer :=
  b ← Marshal raw;
  u ← Unmarshal b.1 (zero : R);
  DieFeed d u.1.

Definition DieReleaseRawExtension `{!Extensions, !Encoding R} d : GoM RawExtension :=
  p ← DieReleasePtr d;
  r ← deref (T := R) p;
  b ← Marshal r;
  u ← Unmarshal b.1 RawExtension_zero;
  mret u.1.

(** The methods that only the dies of objects have. The object of the returned
    [Unstructured] is [None] when the conversion fails. *)
Definition DieReleaseUnstructured `{!Extensions} d : GoM (option json) :=
  p ← DieReleasePtr d;
  u ← DefaultUnstructuredConverter_ToUnstructured p;
  mret u.1.

(** The pointer to the resource, of the type of the object. *)
Definition DeepCopyObject d : GoM pointer := v ← getDie d; resourceDeepCopy (die_r v).

(** The type metadata of the copy at the pointer. *)
Definition GetObjectKind d : GoM pointer := r ← DieRelease d; newWith r.

Definition MarshalJSON `{!Encoding R} d : GoM (string * option string) :=
  v ← getDie d; Marshal (die_r v).

#[export] Instance pointer_eq_dec : EqDecision pointer.
Proof. solve_decision. Defined.

Definition UnmarshalJSON `{!Encoding R} (blank d : pointer) (b : string) : GoM (option string) :=
  if decide (d = blank) then
    mret (Some "cannot unmarshal into the blank die, create a copy first")
  else
    v ← getDie d;
    if negb (die_mutable v) then
      mret (Some "cannot unmarshal into immutable dies, create a mutable version first")
    else
      u ← Unmarshal b (zero : R);
      d' ← DieFeed d u.1;
      v ← getDie d';
      assign d v;;
      mret u.2.

(** [XBlank = (&XDie{}).DieFeed(X{})] *)
Definition newBlank : GoM pointer :=
  d ← newWith (zero : die R F); DieFeed d (zero : R).
End methods.
Arguments getDie {_} R {_ _ _} d.
Arguments newBlank {_} R {_ _ _ _}.

(** *** The methods of a type, as diegen emits them *)

Record DieMethods `{Apimachinery} `{!Extensions} (R : Type) := {
  m_DieImmutable : pointer -> bool -> GoM pointer;
  m_DieFeed : pointer -> R -> GoM pointer;
  m_DieFeedPtr : pointer -> option pointer -> GoM pointer;
  m_DieFeedRawExtension : pointer -> RawExtension -> GoM pointer;
  m_DieRelease : pointer -> GoM R;
  m_DieReleasePtr : pointer -> GoM pointer;
  m_DieReleaseRawExtension : pointer -> GoM RawExtension;
  m_DieStamp : pointer -> (pointer -> GoM ()) -> GoM pointer;
  m_DeepCopy : pointer -> GoM pointer;
}.
Arguments m_DieImmutable {_ _ _}.
Arguments m_DieFeed {_ _ _}.
Arguments m_DieFeedPtr {_ _ _}.
Arguments m_DieFeedRawExtension {_ _ _}.
Arguments m_DieRelease {_ _ _}.
Arguments m_DieReleasePtr {_ _ _}.
Arguments m_DieReleaseRawExtension {_ _ _}.
Arguments m_DieStamp {_ _ _}.
Arguments m_DeepCopy {_ _ _}.

(** Objects have more of them. *)
Record ObjectDieMethods `{Apimachinery} `{!Extensions} (R : Type) := {
  o_methods :> DieMethods R;
  o_DieReleaseUnstructured : pointer -> GoM (option json);
  o_DeepCopyObject : pointer -> GoM pointer;
  o_GetObjectKind : pointer -> GoM pointer;
  o_MarshalJSON : pointer -> GoM (string * option string);
  o_UnmarshalJSON : pointer -> string -> GoM (option string);
}.
Arguments o_methods {_ _ _}.

Section tables.
Context `{Apimachinery} `{!Extensions}.
Context (R : Type) {F : Type} `{Storable cell R} `{Storable cell (die R F)} `{!DieType R F} `{!Encoding R}.

Definition dieMethods : DieMethods R := {|
  m_DieImmutable := DieImmutable (R := R);
  m_DieFeed := DieFeed;
  m_DieFeedPtr := DieFeedPtr (R := R);
  m_DieFeedRawExtension := DieFeedRawExtension (R := R);
  m_DieRelease := DieRelease;
  m_DieReleasePtr := DieReleasePtr (R := R);
  m_DieReleaseRawExtension := DieReleaseRawExtension (R := R);
  m_DieStamp := DieStamp (R := R);
  m_DeepCopy := DeepCopy (R := R);
|}.

Definition objectDieMethods (blank : pointer) : ObjectDieMethods R := {|
  o_methods := dieMethods;
  o_DieReleaseUnstructured := DieReleaseUnstructured (R := R);
  o_DeepCopyObject := DeepCopyObject (R := R);
  o_GetObjectKind := GetObjectKind (R := R);
  o_MarshalJSON := MarshalJSON (R := R);
  o_UnmarshalJSON := UnmarshalJSON (R := R) blank;
|}.
End tables.

(** ** Edits of a resource, the callbacks of [DieStamp] *)

Section edits.
Context `{Apimachinery}.
Context {R : Type} `{Storable cell R}.

(** [r.X = v] *)
Definition setField (set : R -> R) (p : pointer) : GoM () := v ← deref p; assign p (set v).

(** A field is edited through a mutable die: [feed] makes the die, [release] gives
    its resource back. *)
Definition editField {A} (feed : A -> GoM pointer) (release : pointer -> GoM A)
    (get : R -> A) (set : A -> R -> R) (fn : pointer -> GoM ()) (p : pointer) : GoM () :=
  v ← deref p;
  d ← feed (get v);
  fn d;;
  r ← release d;
  v ← deref p;
  assign p (set r v).

(** A field becomes a slice of the resources of the dies [ds]. *)
Section elements.
Context {E : Type} `{Storable cell E}.
Context (get : R -> option slice) (set : option slice -> R -> R).

Definition elementAt (v : R) (i : nat) : GoM E :=
  match get v with Some s => index s i | None => panic "index out of range" end.
Definition setElementAt (v : R) (i : nat) (e : E) : GoM () :=
  match get v with Some s => setIndex s i e | None => panic "index out of range" end.

Fixpoint releaseFrom (release : pointer -> GoM E) (p : pointer) (i : nat) (ds : list pointer) : GoM () :=
  match ds with
  | [] => mret tt
  | d :: ds =>
      e ← release d;
      v ← deref p;
      setElementAt v i e;;
      releaseFrom release p (S i) ds
  end.

Definition releaseAll (release : pointer -> GoM E) (ds : list pointer) (p : pointer) : GoM () :=
  out ← make (T := E) (length ds);
  setField (set (Some out)) p;;
  releaseFrom release p 0 ds.

(** The first element with the key is edited, or a new one is appended. *)
Context `{Growth} (feed : E -> GoM pointer) (release : pointer -> GoM E).
Context (hasKey : E -> bool) (fresh : E) (fn : pointer -> GoM ()).

Fixpoint upsertFrom (p : pointer) (i n : nat) : GoM () :=
  match n with
  | O =>
      d ← feed fresh;
      fn d;;
      e ← release d;
      v ← deref p;
      s ← append (get v) e;
      assign p (set (Some s) v)
  | S n =>
      v ← deref p;
      e ← elementAt v i;
      if hasKey e then
        d ← feed e;
        fn d;;
        e ← release d;
        v ← deref p;
        setElementAt v i e
      else upsertFrom p (S i) n
  end.

Definition upsert (p : pointer) : GoM () :=
  v ← deref p; upsertFrom p 0 (from_option sl_len 0 (get v)).
End elements.
End edits.

(** ** The types of zz_generated.die.go *)

Section types.
Context `{ApimachineryCopies}.

#[export] Instance ClusterWorkloadResourceMappingDie : DieType hMapping hFrozenObjectMeta :=
  { resourceDeepCopyInto := ClusterWorkloadResourceMapping_DeepCopyInto; freeze r := FreezeObjectMeta (hm_ObjectMeta r) }.
#[export] Instance ClusterWorkloadResourceMappingSpecDie : DieType hMappingSpec () :=
  { resourceDeepCopyInto := ClusterWorkloadResourceMappingSpec_DeepCopyInto; freeze _ := tt }.
#[export] Instance ClusterWorkloadResourceMappingTemplateDie : DieType hTemplate () :=
  { resourceDeepCopyInto := ClusterWorkloadResourceMappingTemplate_DeepCopyInto; freeze _ := tt }.
#[export] Instance ClusterWorkloadResourceMappingContainerDie : DieType ClusterWorkloadResourceMappingContainer () :=
  { resourceDeepCopyInto := ClusterWorkloadResourceMappingContainer_DeepCopyInto; freeze _ := tt }.
#[export] Instance ServiceBindingDie : DieType hServiceBinding hFrozenObjectMeta :=
  { resourceDeepCopyInto := ServiceBinding_DeepCopyInto; freeze r := FreezeObjectMeta (hsb_ObjectMeta r) }.
#[export] Instance ServiceBindingSpecDie : DieType hBindingSpec () :=
  { resourceDeepCopyInto := ServiceBindingSpec_DeepCopyInto; freeze _ := tt }.
#[export] Instance ServiceBindingWorkloadReferenceDie : DieType hWorkloadReference () :=
  { resourceDeepCopyInto := ServiceBindingWorkloadReference_DeepCopyInto; freeze _ := tt }.
#[export] Instance ServiceBindingServiceReferenceDie : DieType ServiceBindingServiceReference () :=
  { resourceDeepCopyInto := ServiceBindingServiceReference_DeepCopyInto; freeze _ := tt }.
#[export] Instance EnvMappingDie : DieType EnvMapping () :=
  { resourceDeepCopyInto := EnvMapping_DeepCopyInto; freeze _ := tt }.
#[export] Instance ServiceBindingStatusDie : DieType hBindingStatus () :=
  { resourceDeepCopyInto := ServiceBindingStatus_DeepCopyInto; freeze _ := tt }.
#[export] Instance ServiceBindingSecretReferenceDie : DieType ServiceBindingSecretReference () :=
  { resourceDeepCopyInto := ServiceBindingSecretReference_DeepCopyInto; freeze _ := tt }.
End types.

(** The package variables. *)
Class Blanks := mkBlanks {
  ClusterWorkloadResourceMappingBlank : pointer;
  ClusterWorkloadResourceMappingSpecBlank : pointer;
  ClusterWorkloadResourceMappingTemplateBlank : pointer;
  ClusterWorkloadResourceMappingContainerBlank : pointer;
  ServiceBindingBlank : pointer;
  ServiceBindingSpecBlank : pointer;
  ServiceBindingWorkloadReferenceBlank : pointer;
  ServiceBindingServiceReferenceBlank : pointer;
  EnvMappingBlank : pointer;
  ServiceBindingStatusBlank : pointer;
  ServiceBindingSecretReferenceBlank : pointer;
}.

(** The dies of dies.dev, as the package uses them: [X_feed] is
    [XBlank.DieImmutable(false).DieFeed] or [DieFeedPtr]. *)
Class ForeignDies `{Apimachinery} := {
  ObjectMetaDie_feed : hObjectMeta -> GoM pointer;
  ObjectMetaDie_DieRelease : pointer -> GoM hObjectMeta;
  LabelSelectorDie_feedPtr : option pointer -> GoM pointer;
  LabelSelectorDie_DieReleasePtr : pointer -> GoM pointer;
  ConditionDie_DieRelease : pointer -> GoM hCondition;
}.

Section package.
Context `{ApimachineryCopies} `{!Growth} `{!ForeignDies}.

Definition initBlanks : GoM Blanks :=
  b0 ← newBlank hMapping;
  b1 ← newBlank hMappingSpec;
  b2 ← newBlank hTemplate;
  b3 ← newBlank ClusterWorkloadResourceMappingContainer;
  b4 ← newBlank hServiceBinding;
  b5 ← newBlank hBindingSpec;
  b6 ← newBlank hWorkloadReference;
  b7 ← newBlank ServiceBindingServiceReference;
  b8 ← newBlank EnvMapping;
  b9 ← newBlank hBindingStatus;
  b10 ← newBlank ServiceBindingSecretReference;
  mret (mkBlanks b0 b1 b2 b3 b4 b5 b6 b7 b8 b9 b10).

Context `{!Blanks}.

(** [XBlank.DieImmutable(false).DieFeed(r)] *)
Definition mutableDie {R F} `{Storable cell R, Storable cell (die R F), !DieType R F}
    (blank : pointer) (r : R) : GoM pointer :=
  d ← DieImmutable (R := R) blank false; DieFeed d r.
Definition mutableDiePtr {R F} `{Storable cell R, Storable cell (die R F), !DieType R F}
    (blank : pointer) (r : option pointer) : GoM pointer :=
  d ← DieImmutable (R := R) blank false; DieFeedPtr (R := R) d r.

(** *** ClusterWorkloadResourceMapping *)

Definition ClusterWorkloadResourceMappingDie_APIVersion (d : pointer) (v : string) : GoM pointer :=
  DieStamp (R := hMapping) d (setField (fun r => set_hm_TypeMeta (set_tm_APIVersion v (hm_TypeMeta r)) r)).
Definition ClusterWorkloadResourceMappingDie_Kind (d : pointer) (v : string) : GoM pointer :=
  DieStamp (R := hMapping) d (setField (fun r => set_hm_TypeMeta (set_tm_Kind v (hm_TypeMeta r)) r)).
Definition ClusterWorkloadResourceMappingDie_MetadataDie (d : pointer) (fn : pointer -> GoM ()) : GoM pointer :=
  DieStamp (R := hMapping) d (
    editField ObjectMetaDie_feed ObjectMetaDie_DieRelease hm_ObjectMeta set_hm_ObjectMeta fn).
Definition ClusterWorkloadResourceMappingDie_SpecDie (d : pointer) (fn : pointer -> GoM ()) : GoM pointer :=
  DieStamp (R := hMapping) d (
    editField (mutableDie ClusterWorkloadResourceMappingSpecBlank) DieRelease hm_Spec set_hm_Spec fn).
Definition ClusterWorkloadResourceMappingDie_Spec (d : pointer) (v : hMappingSpec) : GoM pointer :=
  DieStamp (R := hMapping) d (setField (set_hm_Spec v)).
Definition ClusterWorkloadResourceMappingSpecDie_Versions (d : pointer) (v : option slice) : GoM pointer :=
  DieStamp (R := hMappingSpec) d (setField (set_hms_Versions v)).
Definition ClusterWorkloadResourceMappingSpecDie_VersionsDie (d : pointer) (version : string) (fn : pointer -> GoM ()) : GoM pointer :=
  DieStamp (R := hMappingSpec) d (
    upsert hms_Versions set_hms_Versions (mutableDie ClusterWorkloadResourceMappingTemplateBlank) DieRelease
      (fun t => String.eqb version (ht_Version t)) (set_ht_Version version hTemplate_zero) fn).
Definition ClusterWorkloadResourceMappingTemplateDie_Version (d : pointer) (v : string) : GoM pointer :=
  DieStamp (R := hTemplate) d (setField (set_ht_Version v)).
Definition ClusterWorkloadResourceMappingTemplateDie_Annotations (d : pointer) (v : string) : GoM pointer :=
  DieStamp (R := hTemplate) d (setField (set_ht_Annotations v)).
Definition ClusterWorkloadResourceMappingTemplateDie_Containers (d : pointer) (v : option slice) : GoM pointer :=
  DieStamp (R := hTemplate) d (setField (set_ht_Containers v)).
Definition ClusterWorkloadResourceMappingTemplateDie_Volumes (d : pointer) (v : string) : GoM pointer :=
  DieStamp (R := hTemplate) d (setField (set_ht_Volumes v)).
Definition ClusterWorkloadResourceMappingTemplateDie_ContainersDie (d : pointer) (containers : list pointer) : GoM pointer :=
  DieStamp (R := hTemplate) d (
    releaseAll ht_Containers set_ht_Containers (DieRelease (R := ClusterWorkloadResourceMappingContainer)) containers).
Definition ClusterWorkloadResourceMappingContainerDie_Path (d : pointer) (v : string) : GoM pointer :=
  DieStamp (R := ClusterWorkloadResourceMappingContainer) d (setField (set_mc_Path v)).
Definition ClusterWorkloadResourceMappingContainerDie_Name (d : pointer) (v : string) : GoM pointer :=
  DieStamp (R := ClusterWorkloadResourceMappingContainer) d (setField (set_mc_Name v)).
Definition ClusterWorkloadResourceMappingContainerDie_Env (d : pointer) (v : string) : GoM pointer :=
  DieStamp (R := ClusterWorkloadResourceMappingContainer) d (setField (set_mc_Env v)).
Definition ClusterWorkloadResourceMappingContainerDie_VolumeMounts (d : pointer) (v : string) : GoM pointer :=
  DieStamp (R := ClusterWorkloadResourceMappingContainer) d (setField (set_mc_VolumeMounts v)).

(** *** ServiceBinding *)

Definition ServiceBindingDie_APIVersion (d : pointer) (v : string) : GoM pointer :=
  DieStamp (R := hServiceBinding) d (setField (fun r => set_hsb_TypeMeta (set_tm_APIVersion v (hsb_TypeMeta r)) r)).
Definition ServiceBindingDie_Kind (d : pointer) (v : string) : GoM pointer :=
  DieStamp (R := hServiceBinding) d (setField (fun r => set_hsb_TypeMeta (set_tm_Kind v (hsb_TypeMeta r)) r)).
Definition ServiceBindingDie_MetadataDie (d : pointer) (fn : pointer -> GoM ()) : GoM pointer :=
  DieStamp (R := hServiceBinding) d (
    editField ObjectMetaDie_feed ObjectMetaDie_DieRelease hsb_ObjectMeta set_hsb_ObjectMeta fn).
Definition ServiceBindingDie_SpecDie (d : pointer) (fn : pointer -> GoM ()) : GoM pointer :=
  DieStamp (R := hServiceBinding) d (
    editField (mutableDie ServiceBindingSpecBlank) DieRelease hsb_Spec set_hsb_Spec fn).
Definition ServiceBindingDie_StatusDie (d : pointer) (fn : pointer -> GoM ()) : GoM pointer :=
  DieStamp (R := hServiceBinding) d (
    editField (mutableDie ServiceBindingStatusBlank) DieRelease hsb_Status set_hsb_Status fn).
Definition ServiceBindingDie_Spec (d : pointer) (v : hBindingSpec) : GoM pointer :=
  DieStamp (R := hServiceBinding) d (setField (set_hsb_Spec v)).
Definition ServiceBindingDie_Status (d : pointer) (v : hBindingStatus) : GoM pointer :=
  DieStamp (R := hServiceBinding) d (setField (set_hsb_Status v)).
Definition ServiceBindingSpecDie_Name (d : pointer) (v : string) : GoM pointer :=
  DieStamp (R := hBindingSpec) d (setField (set_hbs_Name v)).
Definition ServiceBindingSpecDie_Type (d : pointer) (v : string) : GoM pointer :=
  DieStamp (R := hBindingSpec) d (setField (set_hbs_Type v)).
Definition ServiceBindingSpecDie_Provider (d : pointer) (v : string) : GoM pointer :=
  DieStamp (R := hBindingSpec) d (setField (set_hbs_Provider v)).
Definition ServiceBindingSpecDie_Workload (d : pointer) (v : hWorkloadReference) : GoM pointer :=
  DieStamp (R := hBindingSpec) d (setField (set_hbs_Workload v)).
Definition ServiceBindingSpecDie_Service (d : pointer) (v : ServiceBindingServiceReference) : GoM pointer :=
  DieStamp (R := hBindingSpec) d (setField (set_hbs_Service v)).
Definition ServiceBindingSpecDie_Env (d : pointer) (v : option slice) : GoM pointer :=
  DieStamp (R := hBindingSpec) d (setField (set_hbs_Env v)).
Definition ServiceBindingSpecDie_WorkloadDie (d : pointer) (fn : pointer -> GoM ()) : GoM pointer :=
  DieStamp (R := hBindingSpec) d (
    editField (mutableDie ServiceBindingWorkloadReferenceBlank) DieRelease hbs_Workload set_hbs_Workload fn).
Definition ServiceBindingSpecDie_ServiceDie (d : pointer) (fn : pointer -> GoM ()) : GoM pointer :=
  DieStamp (R := hBindingSpec) d (
    editField (mutableDie ServiceBindingServiceReferenceBlank) DieRelease hbs_Service set_hbs_Service fn).
Definition ServiceBindingSpecDie_EnvDie (d : pointer) (key : string) (fn : pointer -> GoM ()) : GoM pointer :=
  DieStamp (R := hBindingSpec) d (
    upsert hbs_Env set_hbs_Env (mutableDie EnvMappingBlank) DieRelease
      (fun e => String.eqb key (em_Key e)) (mkEnvMapping "" key) fn).
Definition ServiceBindingWorkloadReferenceDie_APIVersion (d : pointer) (v : string) : GoM pointer :=
  DieStamp (R := hWorkloadReference) d (setField (set_hwr_APIVersion v)).
Definition ServiceBindingWorkloadReferenceDie_Kind (d : pointer) (v : string) : GoM pointer :=
  DieStamp (R := hWorkloadReference) d (setField (set_hwr_Kind v)).
Definition ServiceBindingWorkloadReferenceDie_Name (d : pointer) (v : string) : GoM pointer :=
  DieStamp (R := hWorkloadReference) d (setField (set_hwr_Name v)).
Definition ServiceBindingWorkloadReferenceDie_Selector (d : pointer) (v : option pointer) : GoM pointer :=
  DieStamp (R := hWorkloadReference) d (setField (set_hwr_Selector v)).
Definition ServiceBindingWorkloadReferenceDie_Containers (d : pointer) (v : option slice) : GoM pointer :=
  DieStamp (R := hWorkloadReference) d (setField (set_hwr_Containers v)).
Definition ServiceBindingWorkloadReferenceDie_SelectorDie (d : pointer) (fn : pointer -> GoM ()) : GoM pointer :=
  DieStamp (R := hWorkloadReference) d (
    editField LabelSelectorDie_feedPtr (fun d => p ← LabelSelectorDie_DieReleasePtr d; mret (Some p))
      hwr_Selector set_hwr_Selector fn).
Definition ServiceBindingServiceReferenceDie_APIVersion (d : pointer) (v : string) : GoM pointer :=
  DieStamp (R := ServiceBindingServiceReference) d (setField (set_sr_APIVersion v)).
Definition ServiceBindingServiceReferenceDie_Kind (d : pointer) (v : string) : GoM pointer :=
  DieStamp (R := ServiceBindingServiceReference) d (setField (set_sr_Kind v)).
Definition ServiceBindingServiceReferenceDie_Name (d : pointer) (v : string) : GoM pointer :=
  DieStamp (R := ServiceBindingServiceReference) d (setField (set_sr_Name v)).
Definition EnvMappingDie_Name (d : pointer) (v : string) : GoM pointer :=
  DieStamp (R := EnvMapping) d (setField (set_em_Name v)).
Definition EnvMappingDie_Key (d : pointer) (v : string) : GoM pointer :=
  DieStamp (R := EnvMapping) d (setField (set_em_Key v)).
Definition ServiceBindingStatusDie_ObservedGeneration (d : pointer) (v : Z) : GoM pointer :=
  DieStamp (R := hBindingStatus) d (setField (set_hbst_ObservedGeneration v)).
Definition ServiceBindingStatusDie_Conditions (d : pointer) (v : option slice) : GoM pointer :=
  DieStamp (R := hBindingStatus) d (setField (set_hbst_Conditions v)).
Definition ServiceBindingStatusDie_Binding (d : pointer) (v : option pointer) : GoM pointer :=
  DieStamp (R := hBindingStatus) d (setField (set_hbst_Binding v)).
Definition ServiceBindingStatusDie_ConditionsDie (d : pointer) (conditions : list pointer) : GoM pointer :=
  DieStamp (R := hBindingStatus) d (
    releaseAll hbst_Conditions set_hbst_Conditions ConditionDie_DieRelease conditions).
Definition ServiceBindingStatusDie_BindingDie (d : pointer) (fn : pointer -> GoM ()) : GoM pointer :=
  DieStamp (R := hBindingStatus) d (
    editField (mutableDiePtr (R := ServiceBindingSecretReference) ServiceBindingSecretReferenceBlank)
      (fun d => p ← DieReleasePtr (R := ServiceBindingSecretReference) d; mret (Some p))
      hbst_Binding set_hbst_Binding fn).
Definition ServiceBindingSecretReferenceDie_Name (d : pointer) (v : string) : GoM pointer :=
  DieStamp (R := ServiceBindingSecretReference) d (setField (set_secretref_Name v)).
(** *** The methods, type by type *)

Context `{!Extensions}.

Definition ClusterWorkloadResourceMappingDie_methods `{!Encoding hMapping} : ObjectDieMethods hMapping :=
  objectDieMethods hMapping ClusterWorkloadResourceMappingBlank.
Definition ClusterWorkloadResourceMappingSpecDie_methods `{!Encoding hMappingSpec} : DieMethods hMappingSpec := dieMethods hMappingSpec.
Definition ClusterWorkloadResourceMappingTemplateDie_methods `{!Encoding hTemplate} : DieMethods hTemplate := dieMethods hTemplate.
Definition ClusterWorkloadResourceMappingContainerDie_methods `{!Encoding ClusterWorkloadResourceMappingContainer} : DieMethods ClusterWorkloadResourceMappingContainer := dieMethods ClusterWorkloadResourceMappingContainer.
Definition ServiceBindingDie_methods `{!Encoding hServiceBinding} : ObjectDieMethods hServiceBinding :=
  objectDieMethods hServiceBinding ServiceBindingBlank.
Definition ServiceBindingSpecDie_methods `{!Encoding hBindingSpec} : DieMethods hBindingSpec := dieMethods hBindingSpec.
Definition ServiceBindingWorkloadReferenceDie_methods `{!Encoding hWorkloadReference} : DieMethods hWorkloadReference := dieMethods hWorkloadReference.
Definition ServiceBindingServiceReferenceDie_methods `{!Encoding ServiceBindingServiceReference} : DieMethods ServiceBindingServiceReference := dieMethods ServiceBindingServiceReference.
Definition EnvMappingDie_methods `{!Encoding EnvMapping} : DieMethods EnvMapping := dieMethods EnvMapping.
Definition ServiceBindingStatusDie_methods `{!Encoding hBindingStatus} : DieMethods hBindingStatus := dieMethods hBindingStatus.
Definition ServiceBindingSecretReferenceDie_methods `{!Encoding ServiceBindingSecretReference} : DieMethods ServiceBindingSecretReference := dieMethods ServiceBindingSecretReference.

End package.
