(* ===== verification/DieFacts.v ===== *)
(** * What the methods of dies do

    The methods of any type of die, from the laws of its resource: stamping an
    immutable die gives a new die and leaves every old one alone; stamping a
    mutable die changes it in place; the nested dies change one field. *)

From S2P Require Import Prelude Json Types Heap Memory Ownership DeepCopy Dies.
Local Open Scope string_scope.

(** What a resource stands for, [rd]; that it does so in cells of its own, [own];
    and that a copy has cells of its own. *)
Class Resource `{Apimachinery} (R X : Type) (copy : R -> GoM R) := {
  rd : GoHeap -> R -> option X;
  own : R -> X -> assertion (cell := cell);
  rd_mono h h' v x : h ⊆ h' -> rd h v = Some x -> rd h' v = Some x;
  own_rd G v x : own v x G -> rd G v = Some x;
  copy_own g v x : rd g v = Some x -> spec g emp (copy v) (fun v' => own v' x);
}.
#[export] Hint Mode Resource - ! - - : typeclass_instances.

(** Proves that one list of assertions is among another. *)
Ltac pick := cbn [app]; solve_submseteq.

Section dies.
Context `{Apimachinery}.
Context {R F X : Type} `{Storable cell R} `{Storable cell (die R F)} `{!DieType R F}.
Context `{!Resource R X resourceDeepCopyInto}.
Implicit Types (g h G : GoHeap) (d p : pointer) (v r : R) (x : X).

(** A variable with its resource. *)
Definition resAt p x : assertion := fun G => exists v, seps [pt p v; own v x] G.

(** A die of its own, with its resource. *)
Definition dieOwn d (mutable : bool) x : assertion := fun G =>
  exists v, seps [pt d (mkDie (freeze v) mutable v); own v x] G.

(** An immutable die that is there for everyone. *)
Definition dieAt g d x : Prop :=
  exists v, valueAt g d = Some (mkDie (freeze v) false v) /\ rd g v = Some x.

(** Callbacks of [DieStamp], and of the methods that edit with a die. *)
Definition stamps g (fn : pointer -> GoM ()) (f : X -> X) : Prop :=
  forall p x, spec g (resAt p x) (fn p) (fun _ => resAt p (f x)).
Definition edits g (fn : pointer -> GoM ()) (f : X -> X) : Prop :=
  forall d x, spec g (dieOwn d true x) (fn d) (fun _ => dieOwn d true (f x)).

Lemma dieAt_mono g h d x : g ⊆ h -> dieAt g d x -> dieAt h d x.
Proof.
  intros Hs (v & Hv & Hr). exists v. split; [by eapply valueAt_mono|by eapply rd_mono].
Qed.

(** What is owned can be read by everyone, once it is given away. *)
Lemma dieOwn_dieAt g d x : dieOwn d false x g -> dieAt g d x.
Proof.
  intros (v & G1 & G2 & -> & Hd & Hp & G3 & G4 & -> & Hd' & Ho & _). exists v. split.
  - eapply valueAt_mono; [|by apply pt_valueAt]. apply map_union_subseteq_l.
  - eapply rd_mono; [|by apply own_rd].
    etrans; [apply (map_union_subseteq_l G3 G4)|by apply map_union_subseteq_r].
Qed.

Lemma resAt_intro p v x (l : list assertion) : pt p v :: own v x :: [] ⊆+ l -> entails (seps l) (resAt p x).
Proof. intros Hl. etrans; [by apply seps_submseteq|]. apply entails_weaken. intros G HG. by exists v. Qed.

Lemma dieOwn_intro d m v x (l : list assertion) :
  pt d (mkDie (freeze v) m v) :: own v x :: [] ⊆+ l -> entails (seps l) (dieOwn d m x).
Proof. intros Hl. etrans; [by apply seps_submseteq|]. apply entails_weaken. intros G HG. by exists v. Qed.

(** ** Copies *)

Lemma resourceDeepCopy_spec g v x :
  rd g v = Some x -> spec g (seps []) (resourceDeepCopy v) (fun p => resAt p x).
Proof.
  intros Hv. unfold resourceDeepCopy.
  eapply spec_new; [apply spec_newWith|]. intros p.
  eapply spec_new; [exact (copy_own g v x Hv)|]. intros v'.
  eapply (spec_step _ _ [own v' x]); [apply spec_assign|pick|]. intros [].
  apply spec_ret, (resAt_intro p v' x). pick.
Qed.

(** The same of cells that the code owns. *)
Lemma resourceDeepCopy_own g v x :
  spec g (own v x) (resourceDeepCopy v) (fun p => sep (resAt p x) (own v x)).
Proof.
  apply spec_borrow. intros g' G _ HG Ho. apply resourceDeepCopy_spec.
  eapply rd_mono; [exact HG|]. by apply own_rd.
Qed.

Lemma DieRelease_immutable g d x :
  dieAt g d x -> spec g (seps []) (DieRelease d) (fun v => own v x).
Proof.
  intros (v & Hv & Hr). unfold DieRelease, getDie.
  eapply spec_read_global; [exact Hv|]. cbn [die_mutable die_r].
  eapply spec_new; [by apply resourceDeepCopy_spec|]. intros p. apply (spec_open g (fun v => [pt p v; own v x])).
  intros v'. eapply spec_read_last; [pick|].
  apply seps_pick. pick.
Qed.

(** The resource of a mutable die is not copied. *)
Lemma DieRelease_shares g d z v :
  spec g (pt d (mkDie z true v)) (DieRelease d) (fun r G => r = v /\ pt d (mkDie z true v) G).
Proof.
  apply spec_one. unfold DieRelease, getDie. eapply spec_read; [pick|]. cbn [die_mutable die_r].
  apply spec_ret. etrans; [apply (seps_pick (pt d (mkDie z true v))); pick|]. by apply entails_weaken.
Qed.

Lemma DieRelease_own g d x : spec g (dieOwn d true x) (DieRelease d) (fun v => own v x).
Proof.
  apply spec_one, (spec_open g (fun v => [pt d (mkDie (freeze v) true v); own v x])). intros v.
  eapply (spec_last _ _ [own v x]); [apply DieRelease_shares|pick|].
  intros r G (G1 & G2 & -> & Hd & [-> _] & HG2). apply (seps_pick (own v x) [own v x]) in HG2 as (G3 & ? & ?); [|pick].
  exists G3. split; [|done]. etrans; [done|by apply map_union_subseteq_r].
Qed.

(** ** Feeding a die *)

Lemma DieFeed_immutable g d f v0 v x :
  valueAt g d = Some (mkDie f false v0) ->
  spec g (own v x) (DieFeed d v) (fun d' => dieOwn d' false x).
Proof.
  intros Hd. unfold DieFeed, getDie. eapply spec_read_global; [exact Hd|].
  apply spec_one. eapply spec_last_new; [apply spec_newWith|].
  intros d'. apply (dieOwn_intro d' false v x). pick.
Qed.

Lemma DieFeed_mutable g d f v0 v x :
  spec g (seps [pt d (mkDie f true v0); own v x]) (DieFeed d v)
    (fun d' G => d' = d /\ dieOwn d true x G).
Proof.
  unfold DieFeed, getDie. eapply spec_read; [pick|]. cbn [die_mutable].
  eapply (spec_step _ _ [own v x]); [apply spec_assign|pick|]. intros [].
  apply spec_ret. etrans; [apply (dieOwn_intro d true v x); pick|].
  by apply entails_weaken.
Qed.

(** ** Mutable dies, for the callbacks *)

Lemma DeepCopy_immutable g d x :
  dieAt g d x -> spec g (seps []) (DeepCopy d) (fun d' => dieOwn d' false x).
Proof.
  intros (v & Hv & Hr). unfold DeepCopy, getDie.
  eapply spec_read_global; [exact Hv|]. cbn [die_mutable die_r].
  eapply spec_new; [by apply resourceDeepCopy_spec|]. intros p.
  apply (spec_open g (fun v => [pt p v; own v x])). intros v'. eapply spec_read; [pick|].
  eapply spec_last_new; [apply spec_newWith|]. intros d'. apply (dieOwn_intro d' false v' x). pick.
Qed.

Lemma DieImmutable_false g d x :
  dieAt g d x -> spec g (seps []) (DieImmutable d false) (fun d' => dieOwn d' true x).
Proof.
  intros Hd. pose proof Hd as (v & Hv & Hr). unfold DieImmutable, getDie.
  eapply spec_read_global; [exact Hv|]. cbn [die_mutable Bool.eqb negb].
  eapply spec_new; [by apply DeepCopy_immutable|].
  intros d'. apply (spec_open g (fun v => [pt d' (mkDie (freeze v) false v); own v x])). intros v'.
  eapply spec_read; [pick|]. cbn [die_frozen die_r].
  eapply (spec_step _ _ [own v' x]); [apply spec_assign|pick|]. intros [].
  apply spec_ret, (dieOwn_intro d' true v' x). pick.
Qed.

Lemma mutableDie_spec g blank x0 v x :
  dieAt g blank x0 -> spec g (own v x) (mutableDie blank v) (fun d => dieOwn d true x).
Proof.
  intros Hb. apply spec_one. unfold mutableDie.
  eapply spec_new; [by apply DieImmutable_false|]. intros d.
  apply (spec_open g (fun v => [pt d (mkDie (freeze v) true v); own v x0])). intros v0.
  eapply spec_conseq; [..|apply DieFeed_mutable]; [apply seps_submseteq; pick|].
  intros d' G [-> HG]. by exists G.
Qed.

(** A snapshot of a mutable die is a mutable die of its own. *)
Lemma DeepCopy_mutable g d x :
  spec g (dieOwn d true x) (DeepCopy d) (fun d' => seps [dieOwn d' true x; dieOwn d true x]).
Proof.
  apply spec_one, (spec_open g (fun v => [pt d (mkDie (freeze v) true v); own v x])). intros v.
  unfold DeepCopy, getDie. eapply spec_read; [pick|]. cbn [die_mutable die_r].
  eapply (spec_step _ _ [pt d (mkDie (freeze v) true v)]); [apply resourceDeepCopy_own|pick|]. intros p.
  apply (spec_pre _ _ (seps [resAt p x; own v x; pt d (mkDie (freeze v) true v)])); [apply sep_assoc_r|].
  apply (spec_open g (fun v => [pt p v; own v x])). intros v'. eapply spec_read; [pick|].
  eapply spec_last_new; [apply spec_newWith|]. intros d'.
  etrans; [apply (seps_fold [pt d' (mkDie (freeze v') true v'); own v' x]
    [pt d (mkDie (freeze v) true v); own v x] _ (dieOwn d' true x)); [pick|apply (dieOwn_intro d' true v' x); pick]|].
  etrans; [apply (seps_fold [pt d (mkDie (freeze v) true v); own v x] [dieOwn d' true x] _ (dieOwn d true x));
    [pick|apply (dieOwn_intro d true v x); pick]|].
  apply seps_submseteq. pick.
Qed.

(** ** Stamping *)

(** Callbacks that also get cells of which [P] holds. *)
Definition stampsWith g P (fn : pointer -> GoM ()) (f : X -> X) : Prop :=
  forall p x, spec g (seps [P; resAt p x]) (fn p) (fun _ => resAt p (f x)).

Lemma stamps_with g fn f : stamps g fn f -> stampsWith g emp fn f.
Proof.
  intros Hfn p x. eapply spec_pre; [|apply (Hfn p x)]. apply seps_pick. pick.
Qed.

Lemma stamp_callback {B} g P fn f p v x (l : list assertion) (k : R -> GoM B) (Q : B -> assertion) :
  stampsWith g P fn f ->
  (forall r, spec g (seps (pt p r :: own r (f x) :: l)) (k r) Q) ->
  spec g (seps (pt p v :: own v x :: P :: l)) (fn p;; r ← deref p; k r) Q.
Proof.
  intros Hfn Hk. eapply (spec_steps _ _ [pt p v; own v x; P] l).
  - apply (spec_pre _ _ (seps [P; resAt p x])); [|apply Hfn].
    etrans; [|apply (seps_submseteq [resAt p x; P]); pick].
    apply (seps_fold [pt p v; own v x]); [pick|]. apply (resAt_intro p v x). pick.
  - pick.
  - intros []. apply (spec_open g (fun r => [pt p r; own r (f x)])). intros r.
    eapply spec_read; [pick|]. apply Hk.
Qed.

Lemma DieStamp_immutable g d x P fn f :
  dieAt g d x -> stampsWith g P fn f ->
  spec g P (DieStamp d fn) (fun d' => dieOwn d' false (f x)).
Proof.
  intros Hd Hfn. pose proof Hd as (v & Hv & Hr). apply spec_one. unfold DieStamp.
  eapply spec_new; [by apply DieRelease_immutable|]. intros r.
  eapply spec_new; [apply spec_newWith|]. intros p.
  apply (stamp_callback g P fn f p r x []); [done|]. intros r'.
  eapply (spec_last _ _ [pt p r']); [exact (DieFeed_immutable g d _ _ r' (f x) Hv)|pick|].
  intros d'. apply seps_pick. pick.
Qed.

Lemma DieStamp_mutable g d x P fn f :
  stampsWith g P fn f ->
  spec g (seps [dieOwn d true x; P]) (DieStamp d fn) (fun d' G => d' = d /\ dieOwn d true (f x) G).
Proof.
  intros Hfn. apply (spec_open g (fun v => [pt d (mkDie (freeze v) true v); own v x])).
  intros v. unfold DieStamp.
  eapply (spec_step _ _ [own v x; P]); [apply DieRelease_shares|pick|].
  intros r. apply spec_pure_head. intros ->.
  eapply spec_new; [apply spec_newWith|]. intros p.
  eapply spec_among; [|apply (stamp_callback g P fn f p v x [pt d (mkDie (freeze v) true v)]); [done|]];
    [pick|].
  intros r. eapply spec_among; [|apply DieFeed_mutable]. pick.
Qed.

(** ** Assignments and nested edits *)

Lemma stampsWith_set g P set f :
  (forall v x, entails (sep P (own v x)) (own (set v) (f x))) -> stampsWith g P (setField set) f.
Proof.
  intros Hset p x. eapply (spec_among _ _ [resAt p x; P]); [pick|].
  apply (spec_open g (fun v => [pt p v; own v x])). intros v.
  unfold setField. eapply spec_read; [pick|].
  eapply (spec_last _ _ [P; own v x]); [apply spec_assign|pick|]. intros [].
  etrans; [|apply (resAt_intro p (set v) (f x)); reflexivity].
  cbn. rewrite (sep_assoc P). by rewrite (Hset v x).
Qed.

Lemma stamps_set g set f :
  (forall v x, entails (own v x) (own (set v) (f x))) -> stamps g (setField set) f.
Proof.
  intros Hset p x. eapply spec_pre; [|apply (stampsWith_set g emp set f)].
  - etrans; [apply seps_one|]. by apply (seps_new emp).
  - intros v y. rewrite sep_comm, sep_drop. apply Hset.
Qed.

(** A field in cells of its own. *)
Record field {A Y : Type} (ownA : A -> Y -> assertion) (get : R -> A) (set : A -> R -> R)
    (getX : X -> Y) (setX : Y -> X -> X) (rest : R -> X -> assertion) : Prop := {
  field_get v x : entails (own v x) (sep (ownA (get v) (getX x)) (rest v x));
  field_set v x a y : entails (sep (ownA a y) (rest v x)) (own (set a v) (setX y x));
}.

Lemma stamps_field {A Y Z} (ownA : A -> Y -> assertion) (D : pointer -> Z -> assertion)
    get set getX setX rest g feed release fn (φ : Z -> Z) (η : Y -> Z) (ρ : Z -> Y) :
  field ownA get set getX setX rest ->
  (forall a y, spec g (ownA a y) (feed a) (fun d => D d (η y))) ->
  (forall d z, spec g (D d z) (fn d) (fun _ => D d (φ z))) ->
  (forall d z, spec g (D d z) (release d) (fun a => ownA a (ρ z))) ->
  stamps g (editField feed release get set fn) (fun x => setX (ρ (φ (η (getX x)))) x).
Proof.
  intros [Hget Hset] Hfeed Hfn Hrel p x.
  apply spec_one, (spec_open g (fun v => [pt p v; own v x])). intros v.
  unfold editField. eapply spec_read; [pick|].
  eapply (spec_pre _ _ (seps [ownA (get v) (getX x); rest v x; pt p v])).
  { cbn. rewrite (Hget v x), sep_swap, sep_assoc_r. cbn. reflexivity. }
  eapply (spec_step _ _ [rest v x; pt p v]); [apply Hfeed|pick|]. intros d.
  eapply (spec_step _ _ [rest v x; pt p v]); [apply Hfn|pick|]. intros [].
  eapply (spec_step _ _ [rest v x; pt p v]); [apply Hrel|pick|]. intros a.
  eapply spec_read; [pick|].
  set (y := ρ (φ (η (getX x)))).
  eapply (spec_last _ _ [ownA a y; rest v x]); [apply spec_assign|pick|]. intros [].
  etrans; [|apply (resAt_intro p (set a v) (setX y x)); reflexivity].
  cbn. rewrite (sep_assoc (ownA _ _)). by rewrite Hset.
Qed.

(** ** Methods *)

(** A method makes of an immutable die a new one, and changes a mutable die in
    place. *)
Definition method g (m : pointer -> GoM pointer) (f : X -> X) : Prop :=
  (forall d x, dieAt g d x -> spec g emp (m d) (fun d' => dieOwn d' false (f x))) /\
  (forall d x, spec g (dieOwn d true x) (m d) (fun d' G => d' = d /\ dieOwn d true (f x) G)).

(** The same for a method that takes over the cells of its argument. *)
Definition methodWith g P (m : pointer -> GoM pointer) (f : X -> X) : Prop :=
  (forall d x, dieAt g d x -> spec g P (m d) (fun d' => dieOwn d' false (f x))) /\
  (forall d x, spec g (seps [dieOwn d true x; P]) (m d) (fun d' G => d' = d /\ dieOwn d true (f x) G)).

Lemma methodWith_stamp g P fn f : stampsWith g P fn f -> methodWith g P (fun d => DieStamp d fn) f.
Proof.
  intros Hfn. split; intros d x; [intros Hd; by apply DieStamp_immutable|by apply DieStamp_mutable].
Qed.

Lemma method_stamp g fn f : stamps g fn f -> method g (fun d => DieStamp d fn) f.
Proof.
  intros [Hi Hm]%stamps_with%methodWith_stamp. split; [exact Hi|]. intros d x.
  eapply spec_pre; [|apply (Hm d x)].
  etrans; [apply seps_one|]. etrans; [by apply (seps_new emp)|]. apply seps_submseteq. pick.
Qed.

Lemma methodWith_give {A Y} (ownA : A -> Y -> assertion) get set getX setX rest g a y :
  field ownA get set getX setX rest ->
  methodWith g (ownA a y) (fun d => DieStamp d (setField (set a))) (setX y).
Proof.
  intros [Hget Hset]. apply methodWith_stamp, stampsWith_set. intros v x.
  rewrite (Hget v x), sep_swap, sep_comm, sep_drop. apply Hset.
Qed.

Lemma method_run g m f d x :
  method g m f -> dieAt g d x ->
  exists d' h', m d g = Ok (d', h') /\ g ⊆ h' /\ dieAt h' d' (f x).
Proof.
  intros [Hm _] Hd.
  destruct (Hm d x Hd g g ∅) as (d' & h' & G & ? & ? & HG & _ & Ho);
    [done..|apply map_empty_subseteq|apply map_disjoint_empty_l|done|].
  exists d', h'. split_and!; [done|done|]. eapply dieAt_mono; [exact HG|]. by apply dieOwn_dieAt.
Qed.

(** Methods may be chained in the callback of another one. *)
Lemma edits_method g m f : method g m f -> edits g (fun d => m d;; mret tt) f.
Proof.
  intros [_ Hm] d x. eapply spec_bind; [apply Hm|].
  intros d'. apply spec_pure. intros ->. by apply spec_ret.
Qed.
End dies.

(** What [freshly] says of every larger heap. *)
Lemma freshly_spec {cell A X} (m : M cell A) (r : heap cell -> A -> option X) g x :
  (forall h, g ⊆ h -> freshly m r h x) -> spec g emp m (fun a G => r G a = Some x).
Proof.
  intros Hm h0 h G Hg Hs HG Hd _. destruct (Hm h) as (a & h' & Hr & Hs' & Hx); [by etrans|].
  exists a, h', (h' ∖ h). split_and!; [done|by etrans|by apply diff_sub| |done].
  apply map_disjoint_weaken_r with h; [|done]. by apply map_disjoint_difference_l1.
Qed.
