(* ===== verification/DieSlices.v ===== *)
(** * Slices of their own

    A slice whose array, and what its elements refer to, is owned: it is copied
    by the loop of the deep copies, grown by [append], and its elements are
    edited one at a time. *)

From S2P Require Import Prelude Json Types Heap Memory Ownership DeepCopy Dies DieFacts.
Local Open Scope string_scope.

Section slices.
Context `{Apimachinery} `{!Growth}.
Context {E Y : Type} `{Storable cell E}.
Context (ownE : E -> Y -> assertion (cell := cell)).
Implicit Types (g h G : GoHeap) (d p : pointer) (e : E) (y : Y) (es l : list E) (ys : list Y).

Definition elements es ys : list (assertion (cell := cell)) := zip_with ownE es ys.

Definition ownSlice (s : option slice) ys : assertion :=
  match s with
  | None => fun G => ys = [] /\ emp G
  | Some s => fun G => exists l, (sl_off s + sl_len s <= length l /\ length ys = sl_len s) /\
      seps (arr (sl_array s) l :: elements (take (sl_len s) (drop (sl_off s) l)) ys) G
  end.

Lemma elements_split es1 e es2 ys1 y ys2 :
  length es1 = length ys1 ->
  elements (es1 ++ e :: es2) (ys1 ++ y :: ys2) ≡ₚ ownE e y :: elements es1 ys1 ++ elements es2 ys2.
Proof. intros Hl. unfold elements. rewrite zip_with_app by done. cbn. by rewrite <-Permutation_middle. Qed.

Lemma ownSlice_intro (s : slice) l es ys (k : list assertion) :
  sl_off s + sl_len s <= length l -> length ys = sl_len s ->
  take (sl_len s) (drop (sl_off s) l) = es ->
  arr (sl_array s) l :: elements es ys ⊆+ k -> entails (seps k) (ownSlice (Some s) ys).
Proof.
  intros Hb Hn <- Hk. etrans; [by apply seps_submseteq|].
  apply entails_weaken. intros G HG. by exists l.
Qed.

(** The part of the array that a slice shows, when one of its elements, or the
    one behind it, is written. *)
Lemma window_insert l (o n i : nat) e :
  i < n -> take n (drop o (<[o + i := e]> l)) = <[i := e]> (take n (drop o l)).
Proof. intros Hi. by rewrite drop_insert_ge, Nat.add_sub_swap, Nat.sub_diag, take_insert_lt by lia. Qed.

Lemma window_grow l (o n : nat) e :
  o + n < length l -> take (S n) (drop o (<[o + n := e]> l)) = (take n (drop o l) ++ [e])%list.
Proof.
  intros Hl. rewrite drop_insert_ge, Nat.add_sub_swap, Nat.sub_diag by lia.
  rewrite (take_S_r _ _ e).
  - by rewrite take_insert_ge by lia.
  - apply list_lookup_insert_eq. rewrite length_drop. lia.
Qed.

Lemma window_length l (o n : nat) : o + n <= length l -> length (take n (drop o l)) = n.
Proof. intros Hl. rewrite length_take, length_drop. lia. Qed.

Lemma elements_read (rdE : GoHeap -> E -> option Y) G es ys :
  (forall h h' e y, h ⊆ h' -> rdE h e = Some y -> rdE h' e = Some y) ->
  (forall h e y, ownE e y h -> rdE h e = Some y) ->
  length es = length ys -> seps (elements es ys) G -> Forall2 (fun e y => rdE G e = Some y) es ys.
Proof.
  intros Hm Hr. revert ys G. induction es as [|e es IH]; intros [|y ys] G Hl HG; try done.
  destruct HG as (G1 & G2 & -> & Hd & He & Hes). constructor.
  - eapply Hm; [apply map_union_subseteq_l|]. by apply Hr.
  - eapply Forall2_impl; [apply (IH ys G2); [by injection Hl|done]|].
    intros ? ?. apply Hm. by apply map_union_subseteq_r.
Qed.

Lemma ownSlice_read (rdE : GoHeap -> E -> option Y) G s ys :
  (forall h h' e y, h ⊆ h' -> rdE h e = Some y -> rdE h' e = Some y) ->
  (forall h e y, ownE e y h -> rdE h e = Some y) ->
  ownSlice s ys G -> readSlice rdE G s = Some ys.
Proof.
  intros Hm Hr. destruct s as [s|]; [|by intros [-> _]].
  intros (l & [Hb Hn] & G1 & G2 & -> & Hd & Ha & He). cbn [readSlice].
  rewrite (arrayAt_mono G1 (G1 ∪ G2) _ l) by (done || apply map_union_subseteq_l). cbn.
  rewrite decide_True by done. apply mapM_Some. eapply Forall2_impl.
  - apply (elements_read rdE G2); [done..|by rewrite window_length|exact He].
  - intros ? ?. apply Hm. by apply map_union_subseteq_r.
Qed.

(** A field of the copy: [nil], or a slice. *)
Lemma ifNotNil_own (rdE : GoHeap -> E -> option Y) g s ys (f : slice -> GoM slice) :
  (forall s, readSlice rdE g (Some s) = Some ys -> spec g emp (f s) (fun s' => ownSlice (Some s') ys)) ->
  readSlice rdE g s = Some ys -> spec g emp (ifNotNil s f) (fun s' => ownSlice s' ys).
Proof.
  intros Hf Hs. destruct s as [s|]; cbn [ifNotNil].
  - eapply spec_bind; [by apply Hf|]. intros s'. by apply spec_ret.
  - injection Hs as <-. apply spec_ret. by apply entails_weaken.
Qed.

(** ** append *)

Lemma spec_loadArray {B} g (k r : list assertion) a l (f : list E -> GoM B) (Q : B -> assertion) :
  arr a l :: r ⊆+ k -> spec g (seps k) (f l) Q -> spec g (seps k) (loadArray a ≫= f) Q.
Proof.
  intros Hk Hf h0 h G Hg Hs HG Hd HP.
  destruct (seps_submseteq k (arr a l :: r) Hk G HP) as (G' & HG' & G1 & G2 & -> & _ & Ha & _).
  destruct (Hf h0 h G) as (b & h' & G3 & Hr & Hrest); [done..|]. exists b, h', G3.
  split; [|exact Hrest]. rewrite <-Hr. apply M_bind_Ok. unfold loadArray.
  rewrite (arrayAt_mono G1 h a l); [done| |exact Ha].
  etrans; [apply map_union_subseteq_l|]. by etrans.
Qed.

(** Opens an owned slice: its array and its elements. *)
Lemma ownSlice_open {B} g (s : slice) ys (r : list assertion) (m : GoM B) (Q : B -> assertion) :
  (forall l, sl_off s + sl_len s <= length l -> length ys = sl_len s ->
   spec g (seps (arr (sl_array s) l :: elements (take (sl_len s) (drop (sl_off s) l)) ys ++ r)) m Q) ->
  spec g (seps (ownSlice (Some s) ys :: r)) m Q.
Proof.
  intros Hm. apply (spec_open_if g (fun l => sl_off s + sl_len s <= length l /\ length ys = sl_len s)
    (fun l => arr (sl_array s) l :: elements (take (sl_len s) (drop (sl_off s) l)) ys)).
  intros l [Hb Hn]. by apply Hm.
Qed.

Lemma append_spec g (s : option slice) ys e y :
  spec g (seps [ownSlice s ys; ownE e y]) (append s e) (fun s' => ownSlice (Some s') (ys ++ [y])%list).
Proof.
  destruct s as [s|]; unfold append.
  - apply ownSlice_open. intros l Hb Hn. set (es := take _ _).
    assert (length es = length ys) as He by (rewrite Hn; by apply window_length).
    eapply spec_loadArray; [reflexivity|]. destruct (decide _) as [Hlt|_].
    + eapply (spec_step _ _ (elements es ys ++ [ownE e y])); [by apply spec_store|done|]. intros [].
      apply spec_ret, (ownSlice_intro (mkSlice _ _ _) (<[sl_off s + sl_len s:=e]> l) (es ++ [e])%list);
        cbn [sl_off sl_len sl_array];
        [rewrite length_insert; lia|rewrite length_app, Hn; cbn; lia|by apply window_grow|].
      rewrite (elements_split es e [] ys y []) by done. unfold elements. cbn. rewrite app_nil_r.
      by rewrite (Permutation_app_comm _ [_]).
    + eapply spec_new; [apply spec_alloc|]. intros a.
      apply spec_ret, (ownSlice_intro (mkSlice _ _ _)
        (es ++ e :: replicate (spare (S (sl_len s))) zero) (es ++ [e])%list); cbn [sl_off sl_len sl_array];
        [rewrite !length_app, He; cbn; lia|rewrite length_app, Hn; cbn; lia|..].
      * rewrite drop_0, cons_middle, (assoc_L (++)%list), take_app_le, take_ge;
          rewrite ?length_app, ?He; cbn; try lia. done.
      * rewrite (elements_split es e [] ys y []) by done. unfold elements. cbn. rewrite app_nil_r.
        apply submseteq_skip, submseteq_cons. by rewrite (Permutation_app_comm _ [_]).
  - apply (spec_pure_head g (ys = []) emp). intros ->.
    eapply spec_new; [apply spec_alloc|]. intros a.
    apply spec_ret, (ownSlice_intro (mkSlice _ _ _) (e :: replicate (spare 1) zero) [e]);
      cbn [sl_off sl_len sl_array app length drop take elements zip_with]; [lia|done|done|].
    apply submseteq_skip. pick.
Qed.

(** ** Filling a slice *)

(** The first elements are there, [k] are to come. *)
Definition filling (a : positive) es ys (k : nat) : list (assertion (cell := cell)) :=
  arr a (es ++ replicate k zero)%list :: elements es ys.

Lemma spec_make g n (r : list assertion) {B} (k : slice -> GoM B) (Q : B -> assertion) :
  (forall a, spec g (seps (filling a [] [] n ++ r)) (k (mkSlice a 0 n)) Q) ->
  spec g (seps r) (make (T := E) n ≫= k) Q.
Proof.
  intros Hk. eapply (spec_new _ _ _
    (fun s G => s = mkSlice (sl_array s) 0 n /\ arr (sl_array s) (replicate n (zero : E)) G)).
  - eapply spec_bind; [apply spec_alloc|]. intros a. apply spec_ret. by apply entails_weaken.
  - intros s. apply spec_pure_head. intros ->. apply Hk.
Qed.

Lemma fill_one g a n k es ys e y (r : list assertion) {B} (m : GoM B) (Q : B -> assertion) i :
  length es = length ys -> i = length es -> n = i + S k ->
  spec g (seps (filling a (es ++ [e])%list (ys ++ [y])%list k ++ r)) m Q ->
  spec g (seps (ownE e y :: filling a es ys (S k) ++ r)) (setIndex (mkSlice a 0 n) i e ;; m) Q.
Proof.
  intros Hl -> -> Hm.
  eapply (spec_step _ _ (ownE e y :: elements es ys ++ r));
    [apply (spec_setIndex g (mkSlice a 0 _) (es ++ replicate (S k) zero)%list)|unfold filling; pick|].
  - cbn. lia.
  - cbn. rewrite length_app. cbn. lia.
  - intros []. eapply spec_among; [|exact Hm]. unfold filling. cbn [sl_array sl_off plus app].
    rewrite insert_app_r_alt, Nat.sub_diag by lia. cbn. rewrite <-(assoc_L (++)%list). cbn.
    apply submseteq_skip. rewrite (elements_split es e [] ys y []) by done.
    unfold elements. cbn. by rewrite app_nil_r.
Qed.

Lemma fill_done a n es ys (r : list assertion) :
  length es = n -> length ys = n ->
  entails (seps (filling a es ys 0 ++ r)) (seps (ownSlice (Some (mkSlice a 0 n)) ys :: r)).
Proof.
  intros He Hy. unfold filling. cbn [replicate]. rewrite app_nil_r.
  eapply (seps_fold (arr a es :: elements es ys) r); [done|].
  apply (ownSlice_intro (mkSlice a 0 n) es es); cbn [sl_off sl_len]; [lia|done| |done].
  by rewrite drop_0, <-He, firstn_all.
Qed.

(** The loop of the deep copies. *)
Lemma copySlice_own (rdE : GoHeap -> E -> option Y) (into : E -> GoM E) g s ys :
  (forall v y, rdE g v = Some y -> spec g emp (into v) (fun v' => ownE v' y)) ->
  readSlice rdE g (Some s) = Some ys ->
  spec g (seps []) (copySlice into s) (fun s' => ownSlice (Some s') ys).
Proof.
  intros Hinto. cbn [readSlice]. intros (l & Hl & Hys)%bind_Some.
  destruct (decide _) as [Hb|]; [|done]. apply mapM_Some in Hys.
  unfold copySlice. apply spec_make. intros a. rewrite app_nil_r. unfold range.
  assert (length ys = sl_len s) as Hn by (rewrite <-(Forall2_length _ _ _ Hys); by apply window_length).
  set (n := sl_len s) in *.
  enough (forall k i es, i + k = n -> length es = i ->
    spec g (seps (filling a es (take i ys) k))
      (forRange i k (copyElement into s (mkSlice a 0 n)) ;; mret (mkSlice a 0 n))
      (fun s' => ownSlice (Some s') ys)) as Hloop by by apply (Hloop n 0 []).
  induction k as [|k IH]; intros i es Hi He.
  - rewrite take_ge by lia. apply (spec_ret g _ (mkSlice a 0 n)).
    rewrite <-(app_nil_r (filling _ _ _ _)), (fill_done a n) by lia. apply seps_pick. pick.
  - destruct (lookup_lt_is_Some_2 ys i) as [y Hy]; [lia|].
    destruct (Forall2_lookup_r _ _ _ _ _ Hys Hy) as (v & Hv & Hr).
    rewrite lookup_take in Hv. destruct (decide (i < n)) as [_|]; [|done]. rewrite lookup_drop in Hv.
    cbn [forRange]. apply spec_assoc, spec_assoc.
    eapply (spec_new _ (filling a es (take i ys) (S k)) _ (fun x G => x = v /\ emp G)).
    { apply (spec_index_global g emp s l i v Hl); [lia|done]. }
    intros v'. apply spec_pure_head. intros ->. apply spec_assoc.
    eapply (spec_among _ _ (filling a es (take i ys) (S k))); [pick|].
    eapply spec_new; [by apply Hinto|]. intros e.
    rewrite <-(app_nil_r (filling _ _ _ _)).
    apply fill_one; [rewrite length_take; lia|done|lia|].
    rewrite app_nil_r, <-take_S_r by done. apply IH; [lia|rewrite length_app; cbn; lia].
Qed.

(** ** One element of a slice *)

Context {R F X : Type} `{Storable cell R} `{Storable cell (die R F)} `{!DieType R F}.
Context `{!Resource R X resourceDeepCopyInto}.
Context (get : R -> option slice) (set : option slice -> R -> R).
Context (getX : X -> list Y) (setX : list Y -> X -> X) (rest : R -> X -> assertion (cell := cell)).
Hypothesis Hfield : field ownSlice get set getX setX rest.
Hypothesis Hsame : forall v, set (get v) v = v.

Lemma field_back p v x s ys (l : list assertion) :
  pt p (set s v) :: ownSlice s ys :: rest v x :: [] ⊆+ l -> entails (seps l) (resAt p (setX ys x)).
Proof.
  intros Hl. etrans; [by apply seps_submseteq|].
  etrans; [|apply (resAt_intro p (set s v) (setX ys x)); reflexivity].
  cbn. rewrite (sep_assoc (ownSlice _ _)). by rewrite (field_set _ _ _ _ _ _ Hfield).
Qed.

Lemma field_open g (m : GoM ()) p v x (r : list assertion) (Q : () -> assertion) :
  spec g (seps (ownSlice (get v) (getX x) :: rest v x :: pt p v :: r)) m Q ->
  spec g (seps (pt p v :: own v x :: r)) m Q.
Proof.
  apply spec_pre. cbn. rewrite (field_get _ _ _ _ _ _ Hfield v x), sep_swap, sep_assoc_r. done.
Qed.

(** A slice of the resources of other dies. *)
Lemma stamps_releaseAll g (rel : pointer -> GoM E) ds ys :
  (forall v s, get (set s v) = s) ->
  Forall2 (fun d y => spec g emp (rel d) (fun e => ownE e y)) ds ys ->
  stamps g (releaseAll get set rel ds) (fun x => setX ys x).
Proof.
  intros Hgs Hds p x. apply spec_one, (spec_open g (fun v => [pt p v; own v x])). intros v.
  unfold releaseAll. apply field_open.
  eapply (spec_among _ _ [rest v x; pt p v]); [pick|].
  apply spec_make. intros a. unfold setField. apply spec_assoc.
  eapply (spec_read _ _ (filling a [] [] (length ds) ++ [rest v x])); [pick|].
  set (n := length ds).
  eapply (spec_step _ _ (filling a [] [] n ++ [rest v x])); [apply spec_assign|pick|]. intros [].
  set (v' := set (Some (mkSlice a 0 n)) v).
  enough (forall ds2 ys2 es ys1, Forall2 (fun d y => spec g emp (rel d) (fun e => ownE e y)) ds2 ys2 ->
    length es = length ys1 -> length es + length ds2 = n ->
    spec g (seps (filling a es ys1 (length ds2) ++ [pt p v'; rest v x]))
      (releaseFrom get rel p (length es) ds2)
      (fun _ => resAt p (setX (ys1 ++ ys2)%list x))) as Hloop.
  { eapply spec_among; [|by apply (Hloop ds ys [] [])]. pick. }
  intros ds2. induction ds2 as [|d ds2 IH]; intros ys2 es ys1 HF Hl Hn; inversion HF as [|? y ? ys3 Hd HF']; subst.
  - cbn [releaseFrom]. apply spec_ret. rewrite app_nil_r. cbn [length] in Hn.
    rewrite (fill_done a n) by lia. eapply field_back. unfold v'. pick.
  - cbn [releaseFrom length]. eapply spec_new; [exact Hd|]. intros e.
    eapply (spec_read _ _ (ownE e y :: filling a es ys1 (S (length ds2)) ++ [rest v x])); [pick|].
    unfold setElementAt, v'. rewrite Hgs. cbn [length] in Hn.
    apply fill_one; [done|done|lia|].
    specialize (IH ys3 (es ++ [e])%list (ys1 ++ [y])%list HF').
    rewrite !length_app, <-(assoc_L (++)%list) in IH. cbn in IH.
    rewrite Nat.add_1_r in IH. apply IH; lia.
Qed.

Context (D : pointer -> Y -> assertion (cell := cell)) (φ : Y -> Y).
Context (feed : E -> GoM pointer) (release : pointer -> GoM E) (fn : pointer -> GoM ()) (g : GoHeap).
Hypothesis Hfeed : forall e y, spec g (ownE e y) (feed e) (fun d => D d y).
Hypothesis Hfn : forall d y, spec g (D d y) (fn d) (fun _ => D d (φ y)).
Hypothesis Hrel : forall d y, spec g (D d y) (release d) (fun e => ownE e y).

Context (hasKey : E -> bool) (hasKeyX : Y -> bool) (fresh : E) (freshX : Y).
Hypothesis Hkey : forall e y G, ownE e y G -> hasKey e = hasKeyX y.
Hypothesis Hfresh : entails emp (ownE fresh freshX).

(** The first element with the key is edited, or a new one is put behind. *)
Fixpoint upsertList (ys : list Y) : list Y :=
  match ys with
  | [] => [φ freshX]
  | y :: ys => if hasKeyX y then φ y :: ys else y :: upsertList ys
  end.

Lemma edit_one e y (l : list assertion) {B} (k : E -> GoM B) (Q : B -> assertion) :
  (forall e', spec g (seps (ownE e' (φ y) :: l)) (k e') Q) ->
  spec g (seps (ownE e y :: l)) (d ← feed e; fn d;; e' ← release d; k e') Q.
Proof.
  intros Hk.
  eapply (spec_step _ _ l); [apply Hfeed|done|]. intros d.
  eapply (spec_step _ _ l); [apply Hfn|done|]. intros [].
  eapply (spec_step _ _ l); [apply Hrel|done|]. intros e'. apply Hk.
Qed.


Abbreviation upsertFrom := (upsertFrom get set feed release hasKey fresh fn).

Lemma upsert_append p v x s ys i :
  get v = s ->
  spec g (seps [ownSlice s ys; rest v x; pt p v]) (upsertFrom p i 0)
    (fun _ => resAt p (setX (ys ++ [φ freshX])%list x)).
Proof.
  intros Hs. cbn [Dies.upsertFrom]. eapply spec_pre; [by apply seps_new|].
  apply edit_one. intros e. eapply spec_read; [pick|]. rewrite Hs.
  eapply (spec_steps _ _ [ownSlice s ys; ownE e (φ freshX)] [rest v x; pt p v]);
    [apply append_spec|pick|]. intros s'.
  eapply (spec_last _ _ [ownSlice (Some s') _; rest v x]); [apply spec_assign|pick|].
  intros []. eapply field_back. reflexivity.
Qed.

(** The elements beside the one at [i]. *)
Definition others es ys (i : nat) : list (assertion (cell := cell)) :=
  (elements (take i es) (take i ys) ++ elements (drop (S i) es) (drop (S i) ys))%list.

Lemma elements_at es ys i e y :
  es !! i = Some e -> ys !! i = Some y -> elements es ys ≡ₚ ownE e y :: others es ys i.
Proof.
  intros He Hy. rewrite <-(take_drop_middle es i e He) at 1. rewrite <-(take_drop_middle ys i y Hy) at 1.
  apply elements_split. apply lookup_lt_Some in He, Hy. rewrite !length_take. lia.
Qed.

Lemma others_insert es ys i e y : others (<[i := e]> es) (<[i := y]> ys) i = others es ys i.
Proof. unfold others. by rewrite !take_insert_ge, !drop_insert_lt by lia. Qed.

(** The element at [i], that has the key, is edited in place. *)
Lemma upsert_hit p v x s ys l i e y :
  get v = Some s -> sl_off s + sl_len s <= length l -> length ys = sl_len s ->
  take (sl_len s) (drop (sl_off s) l) !! i = Some e -> ys !! i = Some y -> 
  spec g (seps (arr (sl_array s) l :: elements (take (sl_len s) (drop (sl_off s) l)) ys ++
            [rest v x; pt p v]))
    (d ← feed e; fn d;; e' ← release d; v' ← deref p; setElementAt get v' i e')
    (fun _ => resAt p (setX (<[i := φ y]> ys) x)).
Proof.
  intros Hv Hb Hn He Hy. set (es := take _ _) in *.
  apply spec_among with (ownE e y :: arr (sl_array s) l :: others es ys i ++ [rest v x; pt p v]).
  { rewrite (elements_at es ys i e y) by done. pick. }
  apply edit_one. intros e'.
  eapply (spec_read _ _ (ownE e' (φ y) :: arr (sl_array s) l :: others es ys i ++ [rest v x])); [pick|].
  unfold setElementAt. rewrite Hv.
  assert (i < sl_len s) as Hi.
  { apply lookup_lt_Some in Hy. lia. }
  eapply (spec_last _ _ (ownE e' (φ y) :: others es ys i ++ [rest v x; pt p v]));
    [apply (spec_setIndex _ s l); lia|pick|]. intros [].
  assert (set (Some s) v = v) as Hset by (by rewrite <-Hv).
  etrans; [|apply (field_back p v x (Some s) (<[i := φ y]> ys) [pt p v; ownSlice (Some s) (<[i := φ y]> ys); rest v x]);
    by rewrite Hset].
  etrans; [|apply (seps_submseteq [ownSlice (Some s) (<[i := φ y]> ys); pt p v; rest v x]); pick].
  eapply (seps_fold (arr (sl_array s) (<[sl_off s + i:=e']> l) :: ownE e' (φ y) :: others es ys i)
    [pt p v; rest v x]); [pick|].
  eapply (ownSlice_intro s _ (<[i := e']> es)); [by rewrite length_insert|by rewrite length_insert| |].
  - by apply window_insert.
  - rewrite (elements_at (<[i := e']> es) (<[i := φ y]> ys) i e' (φ y)), others_insert; [done|..].
    + apply list_lookup_insert_eq. by eapply lookup_lt_Some.
    + apply list_lookup_insert_eq. by eapply lookup_lt_Some.
Qed.

Lemma upsert_loop p v x s ys l :
  get v = Some s -> sl_off s + sl_len s <= length l -> length ys = sl_len s ->
  forall n i, i + n = sl_len s ->
  spec g (seps (arr (sl_array s) l :: elements (take (sl_len s) (drop (sl_off s) l)) ys ++
            [rest v x; pt p v])) (upsertFrom p i n)
    (fun _ => resAt p (setX (take i ys ++ upsertList (drop i ys))%list x)).
Proof.
  intros Hv Hb Hn. set (es := take _ _).
  assert (length es = length ys) as He by (rewrite Hn; by apply window_length).
  induction n as [|n IH]; intros i Hi.
  { rewrite drop_ge, take_ge by lia. eapply spec_pre; [|by apply upsert_append].
    apply (seps_fold (arr (sl_array s) l :: elements es ys)); [done|]. by apply (ownSlice_intro s l es ys). }
  destruct (lookup_lt_is_Some_2 es i) as [e Hei]; [lia|].
  destruct (lookup_lt_is_Some_2 ys i) as [y Hyi]; [lia|].
  cbn [Dies.upsertFrom]. eapply (spec_read _ _ (arr (sl_array s) l :: elements es ys ++ [rest v x])); [pick|].
  unfold elementAt. rewrite Hv.
  eapply (spec_step _ _ (elements es ys ++ [rest v x; pt p v])); [apply (spec_index _ s l i e)|done|].
  - lia.
  - unfold es in Hei. by rewrite lookup_take_lt, lookup_drop in Hei by lia.
  - intros e0. apply spec_pure_head. intros ->.
    apply (spec_know _ (hasKey e = hasKeyX y) (ownE e y) _
      (arr (sl_array s) l :: others es ys i ++ [rest v x; pt p v])); [apply Hkey| |].
    { rewrite (elements_at es ys i e y) by done. pick. }
    intros Hk. rewrite (drop_S ys y i) by done. cbn [upsertList]. rewrite Hk. destruct (hasKeyX y) eqn:Ey.
    + rewrite <-insert_take_drop by lia. by apply upsert_hit.
    + specialize (IH (S i) ltac:(lia)). by rewrite (take_S_r _ _ y), <-(assoc_L (++)%list) in IH.
Qed.

Lemma stamps_upsert :
  stamps g (upsert get set feed release hasKey fresh fn) (fun x => setX (upsertList (getX x)) x).
Proof.
  intros p x. apply spec_one, (spec_open g (fun v => [pt p v; own v x])). intros v.
  unfold upsert. eapply spec_read; [pick|].
  apply field_open.
  destruct (get v) as [s|] eqn:Ev.
  - apply ownSlice_open. intros l Hb Hn. by apply (upsert_loop p v x s (getX x) l).
  - eapply (spec_know _ (getX x = []) (ownSlice None (getX x))); [by intros G [HG _]|reflexivity|].
    intros Hx. pose proof (upsert_append p v x None (getX x) 0 Ev) as Happ. by rewrite Hx in *.
Qed.
End slices.

(** Elements without references. *)
Definition plainOwn {cell T} (v x : T) : assertion (cell := cell) := fun G => v = x /\ emp G.

Lemma plain_element `{Apimachinery} {T} (g : GoHeap) (v x : T) :
  plain g v = Some x -> spec g emp (mret v) (fun v' => plainOwn v' x).
Proof. intros [= ->]. apply spec_ret. by apply entails_weaken. Qed.

Lemma copyPlain_own `{Apimachinery} {T} `{Storable cell T} (g : GoHeap) s (xs : list T) :
  readSlice plain g (Some s) = Some xs ->
  spec g emp (copyPlain (T := T) s) (fun s' => ownSlice plainOwn (Some s') xs).
Proof.
  intros Hs. eapply (spec_ext _ _ _ (copySlice mret s)).
  - intros h. unfold copySlice, copyPlain, range, copy, make, mbind, M_bind. cbn. by rewrite Nat.min_id.
  - eapply (copySlice_own plainOwn plain); [apply plain_element|exact Hs].
Qed.
