(* ===== verification/DieTypes.v ===== *)
(** * The resources of the dies

    For every type: what a resource of its own is, that a deep copy makes one,
    and its fields. *)

From S2P Require Import Prelude Json Types Heap Memory Ownership DeepCopy DeepCopyFacts.
From S2P Require Import Dies DieFacts DieSlices.
Local Open Scope string_scope.

(** Structs whose reader is all there is to say. *)
Definition readsOwn {cell hT T} `{DeepCopyable cell hT T} (v : hT) (x : T) : assertion (cell := cell) :=
  fun G => reads G v = Some x.

Lemma copy_readsOwn {cell hT T} `{DeepCopyLaws cell hT T} (g : heap cell) (v : hT) (x : T) :
  reads g v = Some x -> spec g emp (DeepCopyInto v) (fun v' => readsOwn v' x).
Proof.
  intros Hv. apply freshly_spec. intros h Hs. apply DeepCopyInto_fresh. by eapply reads_mono.
Qed.

Section plain.
Context `{Apimachinery} {T : Type}.

Definition plain_resource : Resource T T mret := {|
  rd := plain;
  own := plainOwn;
  rd_mono h h' v x _ Hv := Hv;
  own_rd G v x Hv := f_equal Some (proj1 Hv);
  copy_own g v x := plain_element g v x;
|}.
End plain.

Section types.
Context `{ApimachineryLaws}.
Implicit Types g h G : GoHeap.

#[export] Instance resource_container :
  Resource ClusterWorkloadResourceMappingContainer _ resourceDeepCopyInto := plain_resource.
#[export] Instance resource_service :
  Resource ServiceBindingServiceReference _ resourceDeepCopyInto := plain_resource.
#[export] Instance resource_env : Resource EnvMapping _ resourceDeepCopyInto := plain_resource.
#[export] Instance resource_secret :
  Resource ServiceBindingSecretReference _ resourceDeepCopyInto := plain_resource.

(** A workload reference is its reader. *)
#[export, refine] Instance resource_workload :
    Resource hWorkloadReference ServiceBindingWorkloadReference resourceDeepCopyInto := {
  rd := reads;
  own := readsOwn;
}.
Proof. - apply reads_mono. - done. - intros g v x. exact (copy_readsOwn (hT := hWorkloadReference) g v x). Defined.

(** *** Templates of mappings *)

Definition template_own (v : hTemplate) (x : ClusterWorkloadResourceMappingTemplate) :
    assertion (cell := cell) := fun G =>
  (mt_Version x = ht_Version v /\ mt_Annotations x = ht_Annotations v /\ mt_Volumes x = ht_Volumes v) /\
  seps [ownSlice plainOwn (ht_Containers v) (mt_Containers x)] G.

Lemma slice_plain_read {T} `{Storable cell T} G s (xs : list T) :
  ownSlice plainOwn s xs G -> readSlice plain G s = Some xs.
Proof. apply ownSlice_read; [done|]. by intros h e y [-> _]. Qed.

#[export, refine] Instance resource_template :
    Resource hTemplate ClusterWorkloadResourceMappingTemplate resourceDeepCopyInto := {
  rd := reads;
  own := template_own;
}.
Proof.
  - apply reads_mono.
  - intros G v x [(Hv & Ha & Ho) (G1 & G2 & -> & _ & Hc & _)]. apply slice_plain_read in Hc.
    eapply reads_mono; [apply map_union_subseteq_l|]. cbn. unfold hTemplate_reads. rewrite Hc. cbn.
    by rewrite <-Hv, <-Ha, <-Ho; destruct x.
  - intros g v x. cbn. unfold hTemplate_reads. intros (cs & Hc & [= <-])%bind_Some.
    eapply spec_bind.
    { eapply ifNotNil_own; [|exact Hc]. intros s Hs. by apply copyPlain_own. }
    intros s. apply spec_ret, entails_fact; [done|]. apply seps_one.
Defined.

Lemma template_read G v x : template_own v x G -> reads G v = Some x.
Proof. exact (@own_rd _ _ _ _ resource_template G v x). Qed.

Lemma template_copy g v x :
  reads g v = Some x ->
  spec g emp (ClusterWorkloadResourceMappingTemplate_DeepCopyInto v) (fun v' => template_own v' x).
Proof. exact (@copy_own _ _ _ _ resource_template g v x). Qed.

(** *** Specs of mappings *)

Definition mappingSpec_own (v : hMappingSpec) (x : ClusterWorkloadResourceMappingSpec) :
    assertion (cell := cell) := ownSlice template_own (hms_Versions v) (ms_Versions x).

#[export, refine] Instance resource_mappingSpec :
    Resource hMappingSpec ClusterWorkloadResourceMappingSpec resourceDeepCopyInto := {
  rd := reads;
  own := mappingSpec_own;
}.
Proof.
  - apply reads_mono.
  - intros G v [vs] Hv. cbn. unfold hMappingSpec_reads.
    by rewrite (ownSlice_read template_own reads G _ vs reads_mono template_read Hv).
  - intros g v x. cbn. unfold hMappingSpec_reads. intros (vs & Hvs & [= <-])%bind_Some.
    eapply spec_bind.
    { apply (ifNotNil_own template_own reads g _ vs); [|exact Hvs]. intros s Hs.
      apply (copySlice_own template_own reads); [|exact Hs]. apply template_copy. }
    intros s. by apply spec_ret.
Defined.

Lemma mappingSpec_read G v x : mappingSpec_own v x G -> reads G v = Some x.
Proof. exact (@own_rd _ _ _ _ resource_mappingSpec G v x). Qed.

Lemma mappingSpec_copy g v x :
  reads g v = Some x ->
  spec g emp (ClusterWorkloadResourceMappingSpec_DeepCopyInto v) (fun v' => mappingSpec_own v' x).
Proof. exact (@copy_own _ _ _ _ resource_mappingSpec g v x). Qed.

(** *** Mappings *)

Definition mapping_own (v : hMapping) (x : TypeMeta * ClusterWorkloadResourceMapping) :
    assertion (cell := cell) := fun G =>
  x.1 = hm_TypeMeta v /\
  seps [readsOwn (hm_ObjectMeta v) (cwrm_Meta x.2); mappingSpec_own (hm_Spec v) (cwrm_Spec x.2)] G.

#[export, refine] Instance resource_mapping :
    Resource hMapping (TypeMeta * ClusterWorkloadResourceMapping) resourceDeepCopyInto := {
  rd := reads;
  own := mapping_own;
}.
Proof.
  - apply reads_mono.
  - intros G v [t [m s]] [Ht (G1 & G2 & -> & ? & Hm & G3 & G4 & -> & ? & Hs & _)].
    cbn [fst snd cwrm_Meta cwrm_Spec] in *. subst t. apply bind_Some. exists m. split.
    { eapply reads_mono; [apply map_union_subseteq_l|exact Hm]. }
    apply bind_Some. exists s. split; [|done].
    eapply reads_mono; [|by apply mappingSpec_read].
    etrans; [apply (map_union_subseteq_l G3 G4)|by apply map_union_subseteq_r].
  - intros g v x. cbn. unfold hMapping_reads.
    intros (m & Hm & (s & Hs & [= <-])%bind_Some)%bind_Some.
    eapply (spec_new _ []); [exact (copy_readsOwn _ _ _ Hm)|]. intros m'.
    eapply spec_new; [exact (mappingSpec_copy _ _ _ Hs)|]. intros s'.
    apply spec_ret, entails_fact; [done|]. apply seps_submseteq. pick.
Defined.

(** *** Specs of bindings *)

Definition bindingSpec_own (v : hBindingSpec) (x : ServiceBindingSpec) : assertion (cell := cell) :=
  fun G =>
  (sbs_Name x = hbs_Name v /\ sbs_Type x = hbs_Type v /\ sbs_Provider x = hbs_Provider v) /\
  seps [readsOwn (hbs_Workload v) (sbs_Workload x); plainOwn (hbs_Service v) (sbs_Service x);
        ownSlice plainOwn (hbs_Env v) (sbs_Env x)] G.

#[export, refine] Instance resource_bindingSpec :
    Resource hBindingSpec ServiceBindingSpec resourceDeepCopyInto := {
  rd := reads;
  own := bindingSpec_own;
}.
Proof.
  - apply reads_mono.
  - intros G v [n t p w s e] [(Hn & Ht & Hp) (G1 & G2 & -> & ? & Hw & G3 & G4 & -> & ? & [Hs _] & G5 & G6 & -> & ? & He & _)].
    cbn [sbs_Name sbs_Type sbs_Provider sbs_Workload sbs_Service sbs_Env] in *. subst n t p s.
    apply slice_plain_read in He.
    apply bind_Some. exists w. split.
    { eapply reads_mono; [apply map_union_subseteq_l|exact Hw]. }
    apply bind_Some. exists e. split; [|done].
    eapply slice_plain_mono; [|exact He].
    etrans; [apply (map_union_subseteq_l G5 G6)|]. etrans; by apply map_union_subseteq_r.
  - intros g v x. cbn. unfold hBindingSpec_reads.
    intros (w & Hw & (e & He & [= <-])%bind_Some)%bind_Some.
    eapply (spec_new _ []); [exact (copy_readsOwn (hT := hWorkloadReference) g _ w Hw)|]. intros w'.
    eapply spec_new.
    { apply (ifNotNil_own plainOwn plain g _ e); [|exact He]. intros s Hs. by apply copyPlain_own. }
    intros e'. apply spec_ret, entails_fact; [done|].
    etrans; [apply (seps_new (plainOwn (hbs_Service v) (hbs_Service v)))|apply seps_submseteq; pick].
    by apply entails_weaken.
Defined.

(** *** Statuses of bindings *)

(** A variable at a pointer that may be [nil]. *)
Definition ptOwn {T} `{Storable cell T} (p : option pointer) (y : option T) : assertion :=
  match p, y with
  | None, None => emp
  | Some p, Some b => pt p b
  | _, _ => fun _ => False
  end.

Definition bindingStatus_own (v : hBindingStatus) (x : ServiceBindingStatus) :
    assertion (cell := cell) := fun G =>
  sbst_ObservedGeneration x = hbst_ObservedGeneration v /\
  seps [ownSlice (E := hCondition) readsOwn (hbst_Conditions v) (sbst_Conditions x);
        ptOwn (hbst_Binding v) (sbst_Binding x)] G.

Lemma ptOwn_read {T} `{Storable cell T} G p (y : option T) :
  ptOwn p y G -> readOptional plain G p = Some y.
Proof.
  destruct p as [p|], y as [y|]; try done. cbn. intros Hp%pt_valueAt.
  unfold readPointer. unfold valueAt in Hp. by rewrite Hp.
Qed.

Lemma copy_ptOwn {T} `{Storable cell T} g p (y : option T) :
  readOptional plain g p = Some y ->
  spec g emp (ifNotNil p (copyPointer (T := T) mret)) (fun p' => ptOwn p' y).
Proof.
  destruct p as [p|]; cbn [readOptional ifNotNil].
  - intros (v & Hv & ->)%fmap_Some. unfold readPointer, plain in Hv. rewrite bind_with_Some in Hv.
    apply (spec_bind g emp _ (fun q => pt q v)); [|intros q; by apply spec_ret].
    unfold copyPointer. eapply (spec_new _ []); [apply spec_newWith|]. intros q.
    eapply spec_read_global; [exact Hv|].
    eapply spec_new; [apply (plain_element g v v); done|]. intros v'. apply spec_pure_head. intros ->.
    eapply (spec_step _ _ []); [apply spec_assign|pick|]. intros [].
    apply spec_ret, seps_pick. pick.
  - intros [= <-]. by apply spec_ret.
Qed.

#[export, refine] Instance resource_bindingStatus :
    Resource hBindingStatus ServiceBindingStatus resourceDeepCopyInto := {
  rd := reads;
  own := bindingStatus_own;
}.
Proof.
  - apply reads_mono.
  - intros G v [n cs b] [Hn (G1 & G2 & -> & ? & Hc & G3 & G4 & -> & ? & Hb & _)].
    cbn [sbst_ObservedGeneration sbst_Conditions sbst_Binding] in *. subst n.
    apply ptOwn_read in Hb.
    apply (ownSlice_read (E := hCondition) readsOwn reads G1 _ cs reads_mono (fun _ _ _ He => He)) in Hc.
    apply bind_Some. exists cs. split.
    { eapply slice_reads_mono; [apply map_union_subseteq_l|exact Hc]. }
    apply bind_Some. exists b. split; [|done].
    eapply optional_plain_mono; [|exact Hb].
    etrans; [apply (map_union_subseteq_l G3 G4)|by apply map_union_subseteq_r].
  - intros g v x. cbn. unfold hBindingStatus_reads.
    intros (cs & Hc & (b & Hb & [= <-])%bind_Some)%bind_Some.
    eapply (spec_new _ []).
    { apply (ifNotNil_own (E := hCondition) readsOwn reads g _ cs); [|exact Hc]. intros s Hs.
      apply (copySlice_own (E := hCondition) readsOwn reads); [|exact Hs]. apply copy_readsOwn. }
    intros cs'. eapply spec_new; [exact (copy_ptOwn _ _ _ Hb)|].
    intros b'. apply spec_ret, entails_fact; [done|]. apply seps_submseteq. pick.
Defined.

Lemma bindingSpec_read G v x : bindingSpec_own v x G -> reads G v = Some x.
Proof. exact (@own_rd _ _ _ _ resource_bindingSpec G v x). Qed.
Lemma bindingSpec_copy g v x :
  reads g v = Some x ->
  spec g emp (ServiceBindingSpec_DeepCopyInto v) (fun v' => bindingSpec_own v' x).
Proof. exact (@copy_own _ _ _ _ resource_bindingSpec g v x). Qed.
Lemma bindingStatus_read G v x : bindingStatus_own v x G -> reads G v = Some x.
Proof. exact (@own_rd _ _ _ _ resource_bindingStatus G v x). Qed.
Lemma bindingStatus_copy g v x :
  reads g v = Some x ->
  spec g emp (ServiceBindingStatus_DeepCopyInto v) (fun v' => bindingStatus_own v' x).
Proof. exact (@copy_own _ _ _ _ resource_bindingStatus g v x). Qed.

(** *** Bindings *)

Definition serviceBinding_own (v : hServiceBinding) (x : TypeMeta * ServiceBinding) :
    assertion (cell := cell) := fun G =>
  x.1 = hsb_TypeMeta v /\
  seps [readsOwn (hsb_ObjectMeta v) (sb_Meta x.2); bindingSpec_own (hsb_Spec v) (sb_Spec x.2);
        bindingStatus_own (hsb_Status v) (sb_Status x.2)] G.

#[export, refine] Instance resource_serviceBinding :
    Resource hServiceBinding (TypeMeta * ServiceBinding) resourceDeepCopyInto := {
  rd := reads;
  own := serviceBinding_own;
}.
Proof.
  - apply reads_mono.
  - intros G v [t [m s u]] [Ht (G1 & G2 & -> & ? & Hm & G3 & G4 & -> & ? & Hs & G5 & G6 & -> & ? & Hu & _)].
    cbn [fst snd sb_Meta sb_Spec sb_Status] in *. subst t. apply bind_Some. exists m. split.
    { eapply reads_mono; [apply map_union_subseteq_l|exact Hm]. }
    apply bind_Some. exists s. split.
    { eapply reads_mono; [|by apply bindingSpec_read].
      etrans; [apply (map_union_subseteq_l G3 (G5 ∪ G6))|by apply map_union_subseteq_r]. }
    apply bind_Some. exists u. split; [|done].
    eapply reads_mono; [|by apply bindingStatus_read].
    etrans; [apply (map_union_subseteq_l G5 G6)|]. etrans; by apply map_union_subseteq_r.
  - intros g v x. cbn. unfold hServiceBinding_reads.
    intros (m & Hm & (s & Hs & (u & Hu & [= <-])%bind_Some)%bind_Some)%bind_Some.
    eapply (spec_new _ []); [exact (copy_readsOwn _ _ _ Hm)|]. intros m'.
    eapply spec_new; [exact (bindingSpec_copy _ _ _ Hs)|]. intros s'.
    eapply spec_new; [exact (bindingStatus_copy _ _ _ Hu)|]. intros u'.
    apply spec_ret, entails_fact; [done|]. apply seps_submseteq. pick.
Defined.
End types.
