(* ===== verification/DieProperties.v ===== *)
(** * What is built with dies

    The dies of the package edit the API objects as the plain record updates
    do; what existed before stays as it was. *)

From S2P Require Import Prelude Json Types Heap Memory Ownership DeepCopy DeepCopyFacts.
From S2P Require Import Dies DieFacts DieSlices DieTypes.
Local Open Scope string_scope.

(** ** The package variables *)

(** The blank dies are there, immutable, whatever they hold. *)
Definition blank `{Apimachinery} (R : Type) {F X} `{Storable cell R, Storable cell (die R F), !DieType R F}
    `{!Resource R X resourceDeepCopyInto} (g : GoHeap) (d : pointer) : Prop :=
  exists x : X, dieAt (R := R) g d x.

Record blanksAt `{ApimachineryLaws} `{!Blanks} (g : GoHeap) : Prop := {
  blank_mappingSpec : blank hMappingSpec g ClusterWorkloadResourceMappingSpecBlank;
  blank_template : blank hTemplate g ClusterWorkloadResourceMappingTemplateBlank;
  blank_bindingSpec : blank hBindingSpec g ServiceBindingSpecBlank;
  blank_workload : blank hWorkloadReference g ServiceBindingWorkloadReferenceBlank;
  blank_service : blank ServiceBindingServiceReference g ServiceBindingServiceReferenceBlank;
  blank_env : blank EnvMapping g EnvMappingBlank;
  blank_status : blank hBindingStatus g ServiceBindingStatusBlank;
  blank_secret : blank ServiceBindingSecretReference g ServiceBindingSecretReferenceBlank;
}.

(** ** Methods that edit with a die *)

Section nested.
Context `{Apimachinery} `{!Growth}.
Context {R F X : Type} `{Storable cell R} `{Storable cell (die R F)} `{!DieType R F}.
Context `{!Resource R X resourceDeepCopyInto}.
Context {E FE Y : Type} `{Storable cell E} `{Storable cell (die E FE)} `{!DieType E FE}.
Context `{!Resource E Y resourceDeepCopyInto}.
Context (g : GoHeap) (b : pointer) (fn : pointer -> GoM ()) (f : Y -> Y).
Hypothesis Hblank : blank E g b.
Hypothesis Hfn : edits (R := E) g fn f.

Lemma method_edit get set getX setX (rest : R -> X -> assertion (cell := cell)) :
  field own get set getX setX rest ->
  method (R := R) g (fun d => DieStamp (R := R) d (editField (mutableDie (R := E) b) DieRelease get set fn))
    (fun x => setX (f (getX x)) x).
Proof.
  intros Hfield. destruct Hblank as [x0 Hb]. apply method_stamp.
  apply (stamps_field own (fun d y => dieOwn (R := E) d true y) get set getX setX rest g
    _ _ fn f id id Hfield).
  - intros e y. by eapply mutableDie_spec.
  - intros d y. apply Hfn.
  - intros d y. apply DieRelease_own.
Qed.

Lemma method_upsert get set getX setX (rest : R -> X -> assertion (cell := cell)) 
    (hasKey : E -> bool) (hasKeyX : Y -> bool) (fresh : E) (freshX : Y) :
  field (ownSlice (E := E) own) get set getX setX rest -> (forall v, set (get v) v = v) ->
  (forall e y G, own e y G -> hasKey e = hasKeyX y) -> entails emp (own fresh freshX) ->
  method (R := R) g
    (fun d => DieStamp (R := R) d (upsert (E := E) get set (mutableDie b) DieRelease hasKey fresh fn))
    (fun x => setX (upsertList f hasKeyX freshX (getX x)) x).
Proof.
  intros Hfield Hsame Hkey Hfresh. destruct Hblank as [x0 Hb]. apply method_stamp.
  eapply (stamps_upsert (E := E) own get set getX setX rest Hfield Hsame
    (fun d y => dieOwn (R := E) d true y) f); [..|exact Hkey|exact Hfresh].
  - intros e y. by eapply mutableDie_spec.
  - intros d y. apply Hfn.
  - intros d y. apply DieRelease_own.
Qed.
End nested.

(** ** The fields *)

Section fields.
Context `{ApimachineryLaws}.

Ltac solve_field :=
  split; intros v x;
  [ apply entails_take; pick
  | intros a y; apply entails_give; [naive_solver|cbn; pick] ].

Lemma field_hsb_Spec : field (R := hServiceBinding) bindingSpec_own hsb_Spec set_hsb_Spec
  (fun x => sb_Spec x.2) (fun s x => (x.1, set_sb_Spec s x.2))
  (fun v x G => x.1 = hsb_TypeMeta v /\
     seps [readsOwn (hsb_ObjectMeta v) (sb_Meta x.2); bindingStatus_own (hsb_Status v) (sb_Status x.2)] G).
Proof. solve_field. Qed.

Lemma field_hsb_Status : field (R := hServiceBinding) bindingStatus_own hsb_Status set_hsb_Status
  (fun x => sb_Status x.2) (fun s x => (x.1, set_sb_Status s x.2))
  (fun v x G => x.1 = hsb_TypeMeta v /\
     seps [readsOwn (hsb_ObjectMeta v) (sb_Meta x.2); bindingSpec_own (hsb_Spec v) (sb_Spec x.2)] G).
Proof. solve_field. Qed.

Lemma field_hsb_ObjectMeta : field (R := hServiceBinding) (readsOwn (hT := hObjectMeta))
  hsb_ObjectMeta set_hsb_ObjectMeta
  (fun x => sb_Meta x.2) (fun m x => (x.1, mkServiceBinding m (sb_Spec x.2) (sb_Status x.2)))
  (fun v x G => x.1 = hsb_TypeMeta v /\
     seps [bindingSpec_own (hsb_Spec v) (sb_Spec x.2); bindingStatus_own (hsb_Status v) (sb_Status x.2)] G).
Proof. solve_field. Qed.

Lemma field_hm_ObjectMeta : field (R := hMapping) (readsOwn (hT := hObjectMeta))
  hm_ObjectMeta set_hm_ObjectMeta (fun x => cwrm_Meta x.2) (fun m x => (x.1, mkMapping m (cwrm_Spec x.2)))
  (fun v x G => x.1 = hm_TypeMeta v /\ seps [mappingSpec_own (hm_Spec v) (cwrm_Spec x.2)] G).
Proof. solve_field. Qed.

Lemma field_hm_Spec : field (R := hMapping) mappingSpec_own hm_Spec set_hm_Spec
  (fun x => cwrm_Spec x.2) (fun s x => (x.1, mkMapping (cwrm_Meta x.2) s))
  (fun v x G => x.1 = hm_TypeMeta v /\ seps [readsOwn (hm_ObjectMeta v) (cwrm_Meta x.2)] G).
Proof. solve_field. Qed.

Definition sbs_scalars (v : hBindingSpec) (x : ServiceBindingSpec) : Prop :=
  sbs_Name x = hbs_Name v /\ sbs_Type x = hbs_Type v /\ sbs_Provider x = hbs_Provider v.

Definition set_sbs_Workload (w : ServiceBindingWorkloadReference) (x : ServiceBindingSpec) : ServiceBindingSpec :=
  mkServiceBindingSpec (sbs_Name x) (sbs_Type x) (sbs_Provider x) w (sbs_Service x) (sbs_Env x).
Definition set_sbs_Service (s : ServiceBindingServiceReference) (x : ServiceBindingSpec) : ServiceBindingSpec :=
  mkServiceBindingSpec (sbs_Name x) (sbs_Type x) (sbs_Provider x) (sbs_Workload x) s (sbs_Env x).
Definition set_sbs_Env (e : list EnvMapping) (x : ServiceBindingSpec) : ServiceBindingSpec :=
  mkServiceBindingSpec (sbs_Name x) (sbs_Type x) (sbs_Provider x) (sbs_Workload x) (sbs_Service x) e.

Lemma field_hbs_Workload : field (R := hBindingSpec) (readsOwn (hT := hWorkloadReference))
  hbs_Workload set_hbs_Workload sbs_Workload set_sbs_Workload
  (fun v x G => sbs_scalars v x /\
     seps [plainOwn (hbs_Service v) (sbs_Service x); ownSlice plainOwn (hbs_Env v) (sbs_Env x)] G).
Proof. solve_field. Qed.

Lemma field_hbs_Service : field (R := hBindingSpec) plainOwn
  hbs_Service set_hbs_Service sbs_Service set_sbs_Service
  (fun v x G => sbs_scalars v x /\
     seps [readsOwn (hbs_Workload v) (sbs_Workload x); ownSlice plainOwn (hbs_Env v) (sbs_Env x)] G).
Proof. solve_field. Qed.

Lemma field_hbs_Env : field (R := hBindingSpec) (ownSlice plainOwn)
  hbs_Env set_hbs_Env sbs_Env set_sbs_Env
  (fun v x G => sbs_scalars v x /\
     seps [readsOwn (hbs_Workload v) (sbs_Workload x); plainOwn (hbs_Service v) (sbs_Service x)] G).
Proof. solve_field. Qed.

Lemma field_hbst_Binding : field (R := hBindingStatus) ptOwn
  hbst_Binding set_hbst_Binding sbst_Binding set_sbst_Binding
  (fun v x G => sbst_ObservedGeneration x = hbst_ObservedGeneration v /\
     seps [ownSlice (E := hCondition) readsOwn (hbst_Conditions v) (sbst_Conditions x)] G).
Proof. solve_field. Qed.

Lemma field_hbst_Conditions : field (R := hBindingStatus) (ownSlice (E := hCondition) readsOwn)
  hbst_Conditions set_hbst_Conditions sbst_Conditions set_sbst_Conditions
  (fun v x G => sbst_ObservedGeneration x = hbst_ObservedGeneration v /\
     seps [ptOwn (hbst_Binding v) (sbst_Binding x)] G).
Proof. solve_field. Qed.

Definition set_mt_Containers (c : list ClusterWorkloadResourceMappingContainer)
    (x : ClusterWorkloadResourceMappingTemplate) : ClusterWorkloadResourceMappingTemplate :=
  mkMappingTemplate (mt_Version x) (mt_Annotations x) c (mt_Volumes x).

Lemma field_ht_Containers : field (R := hTemplate) (ownSlice plainOwn)
  ht_Containers set_ht_Containers mt_Containers set_mt_Containers
  (fun v x G => (mt_Version x = ht_Version v /\ mt_Annotations x = ht_Annotations v /\
     mt_Volumes x = ht_Volumes v) /\ seps [] G).
Proof. solve_field. Qed.

Lemma field_hms_Versions : field (R := hMappingSpec) (ownSlice template_own)
  hms_Versions set_hms_Versions ms_Versions (fun vs _ => mkMappingSpec vs) (fun _ _ => emp).
Proof. split; intros v x; [apply (seps_one (mappingSpec_own v x))|intros a y; apply sep_drop]. Qed.
End fields.

(** ** The methods of the package *)

Section stamping.
Context `{Apimachinery} {R F X : Type} `{Storable cell R} `{Storable cell (die R F)}.
Context `{!DieType R F} `{!Resource R X resourceDeepCopyInto}.
Implicit Types (g h G : GoHeap) (d : pointer) (x : X).

(** [stamp], with a callback that makes [f x] of [x] in cells of its own. On an
    immutable die it succeeds with another immutable die, that holds [f x]
    whatever is done to all older cells; no cell changes, so the stamped die, and
    every other one, reads as before. On a mutable die it returns that die, which
    holds [f x] now, and no other cell changes. *)
Definition stampsWell (stamp : pointer -> (pointer -> GoM ()) -> GoM pointer) : Prop :=
  forall fn f,
  (forall h d x, dieAt (R := R) h d x -> stamps (R := R) h fn f ->
   exists d' h', stamp d fn h = Ok (d', h') /\ h ⊆ h' /\ d' <> d /\
     (forall g, h' ∖ h ⊆ g -> dieAt (R := R) g d' (f x)) /\
     (forall g, h ⊆ g -> dieAt (R := R) g d x)) /\
  (forall h0 h G d x, stamps (R := R) h0 fn f -> h0 ⊆ h -> G ⊆ h -> G ##ₘ h0 ->
   dieOwn (R := R) d true x G ->
   exists h' G', stamp d fn h = Ok (d, h') /\ h0 ⊆ h' /\ G' ⊆ h' /\ G' ##ₘ h0 /\
     dieOwn (R := R) d true (f x) G').

Lemma DieStamp_well : stampsWell (DieStamp (R := R)).
Proof.
  intros fn f. split.
  - intros h d x Hd Hfn.
    destruct (proj1 (method_stamp h fn f Hfn) d x Hd h h ∅) as (d' & h' & G & Hr & Hs & HG & Hdisj & Ho);
      [done..|apply map_empty_subseteq|apply map_disjoint_empty_l|done|].
    exists d', h'. split_and!; [done|done|..].
    + intros ->. destruct Ho as (v & G1 & G2 & -> & _ & [_ Hp] & _). destruct Hd as (w & Hw & _).
      unfold valueAt, arrayAt in *. apply bind_Some in Hp as (c & Hc & _).
      apply bind_Some in Hw as (l & (c' & Hc' & _)%bind_Some & _).
      apply map_disjoint_union_l in Hdisj as [Hdisj _].
      by eapply (map_disjoint_spec G1 h).
    + intros g Hg. eapply dieAt_mono; [|by apply dieOwn_dieAt].
      etrans; [|exact Hg]. apply map_subseteq_spec. intros k c Hk. apply lookup_difference_Some. split.
      * by eapply lookup_weaken.
      * by eapply map_disjoint_Some_l.
    + intros g Hg. by eapply dieAt_mono.
  - intros h0 h G d x Hfn Hs HG Hd Ho.
    destruct (proj2 (method_stamp h0 fn f Hfn) d x h0 h G) as (d' & h' & G' & Hr & ? & ? & ? & -> & ?);
      [done..|]. by exists h', G'.
Qed.
End stamping.

(** encoding/json for every type. *)
Class Encodings `{Apimachinery} := {
  encode_ClusterWorkloadResourceMapping :: Encoding hMapping;
  encode_ClusterWorkloadResourceMappingSpec :: Encoding hMappingSpec;
  encode_ClusterWorkloadResourceMappingTemplate :: Encoding hTemplate;
  encode_ClusterWorkloadResourceMappingContainer :: Encoding ClusterWorkloadResourceMappingContainer;
  encode_ServiceBinding :: Encoding hServiceBinding;
  encode_ServiceBindingSpec :: Encoding hBindingSpec;
  encode_ServiceBindingWorkloadReference :: Encoding hWorkloadReference;
  encode_ServiceBindingServiceReference :: Encoding ServiceBindingServiceReference;
  encode_EnvMapping :: Encoding EnvMapping;
  encode_ServiceBindingStatus :: Encoding hBindingStatus;
  encode_ServiceBindingSecretReference :: Encoding ServiceBindingSecretReference;
}.

(** C30 (safety). Stamping, in every type of die: an immutable die stays as it is
    and a new one is returned, a mutable die is changed in place. *)
Theorem DieStamp_correct `{ApimachineryLaws} `{!Blanks} `{!Extensions} `{!Encodings} :
  stampsWell (R := hMapping) (m_DieStamp ClusterWorkloadResourceMappingDie_methods) /\
  stampsWell (R := hMappingSpec) (m_DieStamp ClusterWorkloadResourceMappingSpecDie_methods) /\
  stampsWell (R := hTemplate) (m_DieStamp ClusterWorkloadResourceMappingTemplateDie_methods) /\
  stampsWell (R := ClusterWorkloadResourceMappingContainer) (m_DieStamp ClusterWorkloadResourceMappingContainerDie_methods) /\
  stampsWell (R := hServiceBinding) (m_DieStamp ServiceBindingDie_methods) /\
  stampsWell (R := hBindingSpec) (m_DieStamp ServiceBindingSpecDie_methods) /\
  stampsWell (R := hWorkloadReference) (m_DieStamp ServiceBindingWorkloadReferenceDie_methods) /\
  stampsWell (R := ServiceBindingServiceReference) (m_DieStamp ServiceBindingServiceReferenceDie_methods) /\
  stampsWell (R := EnvMapping) (m_DieStamp EnvMappingDie_methods) /\
  stampsWell (R := hBindingStatus) (m_DieStamp ServiceBindingStatusDie_methods) /\
  stampsWell (R := ServiceBindingSecretReference) (m_DieStamp ServiceBindingSecretReferenceDie_methods).
Proof. split_and!; apply DieStamp_well. Qed.

Section package.
Context `{ApimachineryLaws} `{!Growth} `{!ForeignDies} `{!Blanks}.
Implicit Types (g : GoHeap) (fn : pointer -> GoM ()).

(** A die for what a pointer, that may be [nil], points to. *)
Lemma feed_secret g d (v0 v : ServiceBindingSecretReference) (l : list (assertion (cell := cell))) :
  [pt d (mkDie tt true v0)] ⊆+ l ->
  spec g (seps l) (DieFeed (R := ServiceBindingSecretReference) d v)
    (fun d' => dieOwn (R := ServiceBindingSecretReference) d' true v).
Proof.
  intros Hl. eapply spec_among; [exact Hl|]. eapply spec_pre.
  { apply (seps_new (plainOwn v v)). by apply entails_weaken. }
  eapply spec_conseq;
    [..|apply (DieFeed_mutable (R := ServiceBindingSecretReference) g d tt v0 v v)].
  - apply seps_submseteq. pick.
  - intros d'. apply entails_weaken. by intros G [-> HG].
Qed.

Lemma mutableDiePtr_secret g p y :
  blank ServiceBindingSecretReference g ServiceBindingSecretReferenceBlank ->
  spec g (ptOwn p y)
    (mutableDiePtr (R := ServiceBindingSecretReference) ServiceBindingSecretReferenceBlank p)
    (fun d => dieOwn (R := ServiceBindingSecretReference) d true (default (mkSecretReference "") y)).
Proof.
  intros [x0 Hb]. apply spec_one. unfold mutableDiePtr.
  eapply spec_new; [by apply (DieImmutable_false (R := ServiceBindingSecretReference))|]. intros d.
  apply (spec_open g (fun v => [pt d (mkDie tt true v); plainOwn v x0])). intros v0.
  unfold DieFeedPtr. destruct p as [p|].
  - destruct y as [b|]; [|by eapply (spec_know _ False (fun _ => False)); [| |done]; [done|pick]].
    eapply spec_new; [apply (plain_element g p p); done|]. intros p'. apply spec_pure_head. intros ->.
    eapply (spec_read _ _ [emp; pt d (mkDie tt true v0); plainOwn v0 x0]); [pick|].
    eapply feed_secret. pick.
  - destruct y as [b|]; [by eapply (spec_know _ False (fun _ => False)); [| |done]; [done|pick]|].
    eapply spec_new; [apply spec_newWith|]. intros q.
    eapply spec_read; [pick|]. eapply feed_secret. pick.
Qed.

Lemma releasePtr_secret g d z :
  spec g (dieOwn (R := ServiceBindingSecretReference) d true z)
    (p ← DieReleasePtr (R := ServiceBindingSecretReference) d; mret (Some p))
    (fun p => ptOwn p (Some z)).
Proof.
  apply spec_one, spec_assoc.
  eapply (spec_step _ _ []); [apply (DieRelease_own (R := ServiceBindingSecretReference))|pick|].
  intros v. apply spec_pure_head. intros ->.
  eapply spec_new; [apply spec_newWith|]. intros p. apply spec_ret, seps_pick. pick.
Qed.

(** C31 (refinement). The methods that edit a field with a die of its own do to
    the resource what the callback does to the field, in a new die or in place,
    and leave the other fields and everything else in memory as they were. *)
Theorem nested_dies g fn : blanksAt g ->
  (forall f, edits (R := hBindingSpec) g fn f ->
     method (R := hServiceBinding) g (fun d => ServiceBindingDie_SpecDie d fn)
       (fun x => (x.1, set_sb_Spec (f (sb_Spec x.2)) x.2))) /\
  (forall f, edits (R := hBindingStatus) g fn f ->
     method (R := hServiceBinding) g (fun d => ServiceBindingDie_StatusDie d fn)
       (fun x => (x.1, set_sb_Status (f (sb_Status x.2)) x.2))) /\
  (forall f, edits (R := hWorkloadReference) g fn f ->
     method (R := hBindingSpec) g (fun d => ServiceBindingSpecDie_WorkloadDie d fn)
       (fun s => set_sbs_Workload (f (sbs_Workload s)) s)) /\
  (forall f, edits (R := ServiceBindingServiceReference) g fn f ->
     method (R := hBindingSpec) g (fun d => ServiceBindingSpecDie_ServiceDie d fn)
       (fun s => set_sbs_Service (f (sbs_Service s)) s)) /\
  (forall f, edits (R := ServiceBindingSecretReference) g fn f ->
     method (R := hBindingStatus) g (fun d => ServiceBindingStatusDie_BindingDie d fn)
       (fun s => set_sbst_Binding (Some (f (default (mkSecretReference "") (sbst_Binding s)))) s)) /\
  (forall f, edits (R := hMappingSpec) g fn f ->
     method (R := hMapping) g (fun d => ClusterWorkloadResourceMappingDie_SpecDie d fn)
       (fun x => (x.1, mkMapping (cwrm_Meta x.2) (f (cwrm_Spec x.2))))).
Proof.
  intros Hb. split_and!; intros f Hf.
  - exact (method_edit g _ fn f (blank_bindingSpec _ Hb) Hf _ _ _ _ _ field_hsb_Spec).
  - exact (method_edit g _ fn f (blank_status _ Hb) Hf _ _ _ _ _ field_hsb_Status).
  - exact (method_edit g _ fn f (blank_workload _ Hb) Hf _ _ _ _ _ field_hbs_Workload).
  - exact (method_edit g _ fn f (blank_service _ Hb) Hf _ _ _ _ _ field_hbs_Service).
  - apply method_stamp.
    apply (stamps_field ptOwn (fun d z => dieOwn (R := ServiceBindingSecretReference) d true z)
      _ _ _ _ _ g _ _ fn f (default (mkSecretReference "")) Some field_hbst_Binding).
    + intros p y. apply mutableDiePtr_secret, blank_secret, Hb.
    + exact Hf.
    + apply releasePtr_secret.
  - exact (method_edit g _ fn f (blank_mappingSpec _ Hb) Hf _ _ _ _ _ field_hm_Spec).
Qed.

(** A die of a container, immutable or not, that is there for everyone. *)
Definition containerDie (g : GoHeap) (d : pointer) (c : ClusterWorkloadResourceMappingContainer) : Prop :=
  exists frozen mutable, valueAt g d = Some (mkDie frozen mutable c).

Lemma dieAt_containerDie g d c :
  dieAt (R := ClusterWorkloadResourceMappingContainer) g d c -> containerDie g d c.
Proof. intros (v & Hv & [= <-]). by eexists _, _. Qed.

(** Containers hold no references, so releasing a mutable die is also a copy. *)
Lemma container_release g d c :
  containerDie g d c ->
  spec g emp (DieRelease (R := ClusterWorkloadResourceMappingContainer) d) (fun v => plainOwn v c).
Proof.
  intros (z & [] & Hv).
  - unfold DieRelease, getDie. eapply spec_read_global; [exact Hv|]. cbn [die_mutable die_r].
    eapply (spec_pre _ _ (seps [])); [apply entails_weaken; by intros|]. apply spec_ret.
    apply entails_fact; [done|]. done.
  - assert (dieAt (R := ClusterWorkloadResourceMappingContainer) g d c) as Hd by (exists c; by destruct z).
    exact (DieRelease_immutable (R := ClusterWorkloadResourceMappingContainer) g d c Hd).
Qed.

(** C32 (functional). [EnvDie] and [VersionsDie] edit the first element with the
    key, or append a new one with it; [ContainersDie] and [ConditionsDie] set the
    resources of the dies that they are given, which in the case of
    [ContainersDie] may be immutable or mutable. *)
Theorem element_dies g fn : blanksAt g ->
  (forall key f, edits (R := EnvMapping) g fn f ->
     method (R := hBindingSpec) g (fun d => ServiceBindingSpecDie_EnvDie d key fn)
       (fun s => set_sbs_Env (upsertList f (fun e => String.eqb key (em_Key e)) (mkEnvMapping "" key)
          (sbs_Env s)) s)) /\
  (forall version f, edits (R := hTemplate) g fn f ->
     method (R := hMappingSpec) g (fun d => ClusterWorkloadResourceMappingSpecDie_VersionsDie d version fn)
       (fun s => mkMappingSpec (upsertList f (fun t => String.eqb version (mt_Version t))
          (mkMappingTemplate version "" [] "") (ms_Versions s)))) /\
  (forall ds cs, Forall2 (containerDie g) ds cs ->
     method (R := hTemplate) g (fun d => ClusterWorkloadResourceMappingTemplateDie_ContainersDie d ds)
       (set_mt_Containers cs)) /\
  (forall ds cs,
     Forall2 (fun d c => spec g emp (ConditionDie_DieRelease d) (fun v => readsOwn v c)) ds cs ->
     method (R := hBindingStatus) g (fun d => ServiceBindingStatusDie_ConditionsDie d ds)
       (set_sbst_Conditions cs)).
Proof.
  intros Hb. split_and!.
  - intros key f Hf.
    apply (method_upsert g _ fn f (blank_env _ Hb) Hf _ _ _ _ _ _ _ _ _ field_hbs_Env);
      [by intros []|by intros e y G [-> _]|by apply entails_weaken].
  - intros version f Hf.
    apply (method_upsert g _ fn f (blank_template _ Hb) Hf _ _ _ _ _ _ _ _ _ field_hms_Versions).
    + by intros [].
    + by intros e y G [(-> & _) _].
    + etrans; [apply (seps_one emp)|]. apply entails_weaken. intros G _. split; [done|].
      exists ∅, G. rewrite (left_id_L ∅ (∪)). split_and!; [done|apply map_disjoint_empty_l|done..].
  - intros ds cs Hds. apply method_stamp.
    apply (stamps_releaseAll plainOwn _ _ _ _ _ field_ht_Containers); [done|].
    eapply Forall2_impl; [exact Hds|]. apply container_release.
  - intros ds cs Hds. apply method_stamp.
    by apply (stamps_releaseAll (E := hCondition) readsOwn _ _ _ _ _ field_hbst_Conditions).
Qed.

(** The methods that set a scalar field set that field. *)
Lemma scalar_dies g :
  (forall v : string, method (R := hServiceBinding) g (fun d => ServiceBindingDie_APIVersion d v)
     (fun x => (mkTypeMeta (tm_Kind x.1) v, x.2))) /\
  (forall v : string, method (R := hServiceBinding) g (fun d => ServiceBindingDie_Kind d v)
     (fun x => (mkTypeMeta v (tm_APIVersion x.1), x.2))) /\
  (forall v : string, method (R := hBindingSpec) g (fun d => ServiceBindingSpecDie_Name d v)
     (fun x => mkServiceBindingSpec v (sbs_Type x) (sbs_Provider x) (sbs_Workload x) (sbs_Service x) (sbs_Env x))) /\
  (forall v : string, method (R := hBindingSpec) g (fun d => ServiceBindingSpecDie_Type d v)
     (fun x => mkServiceBindingSpec (sbs_Name x) v (sbs_Provider x) (sbs_Workload x) (sbs_Service x) (sbs_Env x))) /\
  (forall v : string, method (R := hBindingSpec) g (fun d => ServiceBindingSpecDie_Provider d v)
     (fun x => mkServiceBindingSpec (sbs_Name x) (sbs_Type x) v (sbs_Workload x) (sbs_Service x) (sbs_Env x))) /\
  (forall v : string, method (R := hWorkloadReference) g (fun d => ServiceBindingWorkloadReferenceDie_APIVersion d v)
     (fun x => mkWorkloadReference v (wr_Kind x) (wr_Name x) (wr_Selector x) (wr_Containers x))) /\
  (forall v : string, method (R := hWorkloadReference) g (fun d => ServiceBindingWorkloadReferenceDie_Kind d v)
     (fun x => mkWorkloadReference (wr_APIVersion x) v (wr_Name x) (wr_Selector x) (wr_Containers x))) /\
  (forall v : string, method (R := hWorkloadReference) g (fun d => ServiceBindingWorkloadReferenceDie_Name d v)
     (fun x => mkWorkloadReference (wr_APIVersion x) (wr_Kind x) v (wr_Selector x) (wr_Containers x))) /\
  (forall v : string, method (R := ServiceBindingServiceReference) g (fun d => ServiceBindingServiceReferenceDie_APIVersion d v)
     (fun x => mkServiceReference v (sr_Kind x) (sr_Name x))) /\
  (forall v : string, method (R := ServiceBindingServiceReference) g (fun d => ServiceBindingServiceReferenceDie_Kind d v)
     (fun x => mkServiceReference (sr_APIVersion x) v (sr_Name x))) /\
  (forall v : string, method (R := ServiceBindingServiceReference) g (fun d => ServiceBindingServiceReferenceDie_Name d v)
     (fun x => mkServiceReference (sr_APIVersion x) (sr_Kind x) v)) /\
  (forall v : string, method (R := EnvMapping) g (fun d => EnvMappingDie_Name d v)
     (fun x => mkEnvMapping v (em_Key x))) /\
  (forall v : string, method (R := EnvMapping) g (fun d => EnvMappingDie_Key d v)
     (fun x => mkEnvMapping (em_Name x) v)) /\
  (forall v : Z, method (R := hBindingStatus) g (fun d => ServiceBindingStatusDie_ObservedGeneration d v)
     (fun x => mkServiceBindingStatus v (sbst_Conditions x) (sbst_Binding x))) /\
  (forall v : string, method (R := ServiceBindingSecretReference) g
     (fun d => ServiceBindingSecretReferenceDie_Name d v)
     (fun _ => mkSecretReference v)) /\
  (forall v : string, method (R := hMapping) g (fun d => ClusterWorkloadResourceMappingDie_APIVersion d v)
     (fun x => (mkTypeMeta (tm_Kind x.1) v, x.2))) /\
  (forall v : string, method (R := hMapping) g (fun d => ClusterWorkloadResourceMappingDie_Kind d v)
     (fun x => (mkTypeMeta v (tm_APIVersion x.1), x.2))) /\
  (forall v : string, method (R := hTemplate) g (fun d => ClusterWorkloadResourceMappingTemplateDie_Version d v)
     (fun x => mkMappingTemplate v (mt_Annotations x) (mt_Containers x) (mt_Volumes x))) /\
  (forall v : string, method (R := hTemplate) g (fun d => ClusterWorkloadResourceMappingTemplateDie_Annotations d v)
     (fun x => mkMappingTemplate (mt_Version x) v (mt_Containers x) (mt_Volumes x))) /\
  (forall v : string, method (R := hTemplate) g (fun d => ClusterWorkloadResourceMappingTemplateDie_Volumes d v)
     (fun x => mkMappingTemplate (mt_Version x) (mt_Annotations x) (mt_Containers x) v)) /\
  (forall v : string, method (R := ClusterWorkloadResourceMappingContainer) g
     (fun d => ClusterWorkloadResourceMappingContainerDie_Path d v)
     (fun x => mkMappingContainer v (mc_Name x) (mc_Env x) (mc_VolumeMounts x))) /\
  (forall v : string, method (R := ClusterWorkloadResourceMappingContainer) g
     (fun d => ClusterWorkloadResourceMappingContainerDie_Name d v)
     (fun x => mkMappingContainer (mc_Path x) v (mc_Env x) (mc_VolumeMounts x))) /\
  (forall v : string, method (R := ClusterWorkloadResourceMappingContainer) g
     (fun d => ClusterWorkloadResourceMappingContainerDie_Env d v)
     (fun x => mkMappingContainer (mc_Path x) (mc_Name x) v (mc_VolumeMounts x))) /\
  (forall v : string, method (R := ClusterWorkloadResourceMappingContainer) g
     (fun d => ClusterWorkloadResourceMappingContainerDie_VolumeMounts d v)
     (fun x => mkMappingContainer (mc_Path x) (mc_Name x) (mc_Env x) v)).
Proof.
  split_and!; intros v; apply method_stamp, stamps_set; intros r x; apply entails_weaken; intros G;
    first
      [ by intros [-> _]
      | intros (p & Hp & (s & Hs & [= <-])%bind_Some)%bind_Some; apply bind_Some; exists p;
        split; [exact Hp|]; apply bind_Some; by exists s
      | intros [Hφ HG]; split; [first [done|by cbn; rewrite Hφ|by destruct Hφ as (? & ? & ?)]|exact HG] ].
Qed.

(** [MetadataDie], for any dies of metadata that hold what they are fed with,
    [D d m], until it is released. *)
Lemma metadata_dies g fn f (D : pointer -> ObjectMeta -> assertion (cell := cell)) :
  (forall v m, spec g (readsOwn v m) (ObjectMetaDie_feed v) (fun d => D d m)) ->
  (forall d m, spec g (D d m) (fn d) (fun _ => D d (f m))) ->
  (forall d m, spec g (D d m) (ObjectMetaDie_DieRelease d) (fun v => readsOwn v m)) ->
  method (R := hServiceBinding) g (fun d => ServiceBindingDie_MetadataDie d fn)
    (fun x => (x.1, mkServiceBinding (f (sb_Meta x.2)) (sb_Spec x.2) (sb_Status x.2))) /\
  method (R := hMapping) g (fun d => ClusterWorkloadResourceMappingDie_MetadataDie d fn)
    (fun x => (x.1, mkMapping (f (cwrm_Meta x.2)) (cwrm_Spec x.2))).
Proof.
  intros Hfeed Hfn Hrel. split; apply method_stamp.
  - exact (stamps_field _ D _ _ _ _ _ g _ _ fn f id id field_hsb_ObjectMeta Hfeed Hfn Hrel).
  - exact (stamps_field _ D _ _ _ _ _ g _ _ fn f id id field_hm_ObjectMeta Hfeed Hfn Hrel).
Qed.

(** A selector that a pointer, that may be [nil], points to. *)
Definition selectorOwn (p : option pointer) (y : option LabelSelector) : assertion (cell := cell) :=
  fun G => readOptional (hT := hLabelSelector) reads G p = Some y.

Lemma workload_give P set f g :
  (forall v x G1 G2, G1 ##ₘ G2 -> P G1 -> readsOwn v x G2 ->
     readsOwn (hT := hWorkloadReference) (set v) (f x) (G1 ∪ G2)) ->
  methodWith (R := hWorkloadReference) g P
    (fun d => DieStamp (R := hWorkloadReference) d (setField set)) f.
Proof.
  intros Hset. apply methodWith_stamp, stampsWith_set. intros v x. apply entails_weaken.
  intros G (G1 & G2 & -> & ? & ? & ?). by apply Hset.
Qed.

(** The methods that set a field with references take over the cells of their
    argument: the caller may not use them any more. *)
Lemma given_dies g :
  (forall v x, methodWith (R := hServiceBinding) g (bindingSpec_own v x)
     (fun d => ServiceBindingDie_Spec d v) (fun b => (b.1, set_sb_Spec x b.2))) /\
  (forall v x, methodWith (R := hServiceBinding) g (bindingStatus_own v x)
     (fun d => ServiceBindingDie_Status d v) (fun b => (b.1, set_sb_Status x b.2))) /\
  (forall v x, methodWith (R := hBindingSpec) g (readsOwn v x)
     (fun d => ServiceBindingSpecDie_Workload d v) (set_sbs_Workload x)) /\
  (forall v x, methodWith (R := hBindingSpec) g (plainOwn v x)
     (fun d => ServiceBindingSpecDie_Service d v) (set_sbs_Service x)) /\
  (forall v x, methodWith (R := hBindingSpec) g (ownSlice plainOwn v x)
     (fun d => ServiceBindingSpecDie_Env d v) (set_sbs_Env x)) /\
  (forall v x, methodWith (R := hBindingStatus) g (ownSlice (E := hCondition) readsOwn v x)
     (fun d => ServiceBindingStatusDie_Conditions d v) (set_sbst_Conditions x)) /\
  (forall v x, methodWith (R := hBindingStatus) g (ptOwn v x)
     (fun d => ServiceBindingStatusDie_Binding d v) (set_sbst_Binding x)) /\
  (forall v x, methodWith (R := hMapping) g (mappingSpec_own v x)
     (fun d => ClusterWorkloadResourceMappingDie_Spec d v) (fun b => (b.1, mkMapping (cwrm_Meta b.2) x))) /\
  (forall v x, methodWith (R := hMappingSpec) g (ownSlice template_own v x)
     (fun d => ClusterWorkloadResourceMappingSpecDie_Versions d v) (fun _ => mkMappingSpec x)) /\
  (forall v x, methodWith (R := hTemplate) g (ownSlice plainOwn v x)
     (fun d => ClusterWorkloadResourceMappingTemplateDie_Containers d v) (set_mt_Containers x)) /\
  (forall v x, methodWith (R := hWorkloadReference) g (selectorOwn v x)
     (fun d => ServiceBindingWorkloadReferenceDie_Selector d v)
     (fun w => mkWorkloadReference (wr_APIVersion w) (wr_Kind w) (wr_Name w) x (wr_Containers w))) /\
  (forall v x, methodWith (R := hWorkloadReference) g (ownSlice plainOwn v x)
     (fun d => ServiceBindingWorkloadReferenceDie_Containers d v)
     (fun w => mkWorkloadReference (wr_APIVersion w) (wr_Kind w) (wr_Name w) (wr_Selector w) x)).
Proof.
  split_and!; intros v x.
  - apply (methodWith_give _ _ _ _ _ _ _ _ _ field_hsb_Spec).
  - apply (methodWith_give _ _ _ _ _ _ _ _ _ field_hsb_Status).
  - apply (methodWith_give _ _ _ _ _ _ _ _ _ field_hbs_Workload).
  - apply (methodWith_give _ _ _ _ _ _ _ _ _ field_hbs_Service).
  - apply (methodWith_give _ _ _ _ _ _ _ _ _ field_hbs_Env).
  - apply (methodWith_give _ _ _ _ _ _ _ _ _ field_hbst_Conditions).
  - apply (methodWith_give _ _ _ _ _ _ _ _ _ field_hbst_Binding).
  - apply (methodWith_give _ _ _ _ _ _ _ _ _ field_hm_Spec).
  - apply (methodWith_give _ _ _ _ _ _ _ _ _ field_hms_Versions).
  - apply (methodWith_give _ _ _ _ _ _ _ _ _ field_ht_Containers).
  - apply workload_give. intros w y G1 G2 Hd Hv (p & _ & (s & Hs & [= <-])%bind_Some)%bind_Some.
    apply bind_Some. exists x. split; [eapply optional_reads_mono; [apply map_union_subseteq_l|exact Hv]|].
    apply bind_Some. exists s. split; [|done].
    eapply slice_plain_mono; [by apply map_union_subseteq_r|exact Hs].
  - apply workload_give. intros w y G1 G2 Hd Hv (p & Hp & (s & _ & [= <-])%bind_Some)%bind_Some.
    apply bind_Some. exists p. split; [eapply optional_reads_mono; [by apply map_union_subseteq_r|exact Hp]|].
    apply bind_Some. exists x. split; [|done].
    eapply slice_plain_mono; [apply map_union_subseteq_l|by apply slice_plain_read].
Qed.

(** ** The package variables *)

Lemma dieOwn_among {R F X} `{Storable cell R, Storable cell (die R F), !DieType R F}
    `{!Resource R X resourceDeepCopyInto} (h G : GoHeap) (l : list assertion) d (x : X) :
  [dieOwn (R := R) d false x] ⊆+ l -> seps l G -> G ⊆ h -> dieAt (R := R) h d x.
Proof.
  intros Hl HG Hs. destruct (seps_pick _ _ Hl G HG) as (G' & Hs' & Ho).
  eapply dieAt_mono; [|by apply dieOwn_dieAt]. by etrans.
Qed.

Lemma newBlank_spec {R F X} `{Storable cell R, Storable cell (die R F), !DieType R F}
    `{!Resource R X resourceDeepCopyInto} g (x : X) :
  die_mutable (zero : die R F) = false -> entails emp (own (zero : R) x) ->
  spec g emp (newBlank R) (fun d => dieOwn (R := R) d false x).
Proof.
  intros Hz Hx. unfold newBlank. eapply (spec_new _ []); [apply spec_newWith|]. intros d.
  unfold DieFeed, getDie. eapply spec_read; [pick|]. rewrite Hz.
  eapply spec_pre; [by apply seps_new|].
  eapply spec_last_new; [apply spec_newWith|]. intros d'. apply (dieOwn_intro d' false zero x). pick.
Qed.

(** The zero values need no cells. *)
Lemma plain_zero {T} (v : T) : entails emp (plainOwn (cell := cell) v v).
Proof. by apply entails_weaken. Qed.

Lemma reads_zero {hT T} `{DeepCopyLaws cell hT T} (v : hT) (x : T) :
  reads (∅ : GoHeap) v = Some x -> entails emp (readsOwn (cell := cell) v x).
Proof.
  intros Hv. apply entails_weaken. intros G _. eapply reads_mono; [|exact Hv]. apply map_empty_subseteq.
Qed.

Lemma slice_zero {E Y} `{Storable cell E} (ownE : E -> Y -> assertion (cell := cell)) :
  entails emp (ownSlice ownE None []).
Proof. by apply entails_weaken. Qed.

Definition zeroBindingSpec : ServiceBindingSpec :=
  mkServiceBindingSpec "" "" "" (mkWorkloadReference "" "" "" None []) (mkServiceReference "" "" "") [].

Lemma mappingSpec_zero : entails emp (mappingSpec_own hMappingSpec_zero (mkMappingSpec [])).
Proof. apply slice_zero. Qed.

Lemma bindingSpec_zero : entails emp (bindingSpec_own hBindingSpec_zero zeroBindingSpec).
Proof.
  apply entails_fact; [done|]. apply entails_emp. repeat constructor; [by apply reads_zero|apply plain_zero|apply slice_zero].
Qed.

Lemma bindingStatus_zero : entails emp (bindingStatus_own hBindingStatus_zero (mkServiceBindingStatus 0 [] None)).
Proof. apply entails_fact; [done|]. apply entails_emp. repeat constructor; [apply slice_zero|done]. Qed.

Lemma mapping_zero m0 : reads (∅ : GoHeap) ObjectMeta_zero = Some m0 ->
  entails emp (mapping_own hMapping_zero (TypeMeta_zero, mkMapping m0 (mkMappingSpec []))).
Proof.
  intros Hm. apply entails_fact; [done|]. apply entails_emp.
  repeat constructor; [by apply reads_zero|apply mappingSpec_zero].
Qed.

Lemma serviceBinding_zero m0 : reads (∅ : GoHeap) ObjectMeta_zero = Some m0 ->
  entails emp (serviceBinding_own hServiceBinding_zero
    (TypeMeta_zero, mkServiceBinding m0 zeroBindingSpec (mkServiceBindingStatus 0 [] None))).
Proof.
  intros Hm. apply entails_fact; [done|]. apply entails_emp.
  repeat constructor; [by apply reads_zero|apply bindingSpec_zero|apply bindingStatus_zero].
Qed.

Lemma template_zero : entails emp (template_own hTemplate_zero (mkMappingTemplate "" "" [] "")).
Proof. apply entails_fact; [done|]. apply entails_emp. repeat constructor. apply slice_zero. Qed.

(** The eleven blank dies of their own. *)
Definition blankDies (m0 : ObjectMeta) (b : Blanks) : list (assertion (cell := cell)) :=
  [dieOwn (R := hMapping) (@ClusterWorkloadResourceMappingBlank b) false (TypeMeta_zero, mkMapping m0 (mkMappingSpec []));
   dieOwn (R := hMappingSpec) (@ClusterWorkloadResourceMappingSpecBlank b) false (mkMappingSpec []);
   dieOwn (R := hTemplate) (@ClusterWorkloadResourceMappingTemplateBlank b) false (mkMappingTemplate "" "" [] "");
   dieOwn (R := ClusterWorkloadResourceMappingContainer) (@ClusterWorkloadResourceMappingContainerBlank b) false (mkMappingContainer "" "" "" "");
   dieOwn (R := hServiceBinding) (@ServiceBindingBlank b) false (TypeMeta_zero, mkServiceBinding m0 zeroBindingSpec (mkServiceBindingStatus 0 [] None));
   dieOwn (R := hBindingSpec) (@ServiceBindingSpecBlank b) false zeroBindingSpec;
   dieOwn (R := hWorkloadReference) (@ServiceBindingWorkloadReferenceBlank b) false (mkWorkloadReference "" "" "" None []);
   dieOwn (R := ServiceBindingServiceReference) (@ServiceBindingServiceReferenceBlank b) false (mkServiceReference "" "" "");
   dieOwn (R := EnvMapping) (@EnvMappingBlank b) false (mkEnvMapping "" "");
   dieOwn (R := hBindingStatus) (@ServiceBindingStatusBlank b) false (mkServiceBindingStatus 0 [] None);
   dieOwn (R := ServiceBindingSecretReference) (@ServiceBindingSecretReferenceBlank b) false (mkSecretReference "")].

Lemma initBlanks_spec g m0 : reads (∅ : GoHeap) ObjectMeta_zero = Some m0 ->
  spec g emp initBlanks (fun b => seps (blankDies m0 b)).
Proof.
  intros Hm. unfold initBlanks. change emp with (seps (cell := cell) []).
  eapply spec_new; [apply (newBlank_spec (R := hMapping) g (TypeMeta_zero, mkMapping m0 (mkMappingSpec []))); [done|by apply mapping_zero]|intros ?].
  eapply spec_new; [apply (newBlank_spec (R := hMappingSpec) g (mkMappingSpec [])); [done|apply mappingSpec_zero]|intros ?].
  eapply spec_new; [apply (newBlank_spec (R := hTemplate) g (mkMappingTemplate "" "" [] "")); [done|apply template_zero]|intros ?].
  eapply spec_new; [apply (newBlank_spec (R := ClusterWorkloadResourceMappingContainer) g (mkMappingContainer "" "" "" "")); [done|apply plain_zero]|intros ?].
  eapply spec_new; [apply (newBlank_spec (R := hServiceBinding) g (TypeMeta_zero, mkServiceBinding m0 zeroBindingSpec (mkServiceBindingStatus 0 [] None))); [done|by apply serviceBinding_zero]|intros ?].
  eapply spec_new; [apply (newBlank_spec (R := hBindingSpec) g zeroBindingSpec); [done|apply bindingSpec_zero]|intros ?].
  eapply spec_new; [apply (newBlank_spec (R := hWorkloadReference) g (mkWorkloadReference "" "" "" None [])); [done|by apply (reads_zero (hT := hWorkloadReference))]|intros ?].
  eapply spec_new; [apply (newBlank_spec (R := ServiceBindingServiceReference) g (mkServiceReference "" "" "")); [done|apply plain_zero]|intros ?].
  eapply spec_new; [apply (newBlank_spec (R := EnvMapping) g (mkEnvMapping "" "")); [done|apply plain_zero]|intros ?].
  eapply spec_new; [apply (newBlank_spec (R := hBindingStatus) g (mkServiceBindingStatus 0 [] None)); [done|apply bindingStatus_zero]|intros ?].
  eapply spec_new; [apply (newBlank_spec (R := ServiceBindingSecretReference) g (mkSecretReference "")); [done|apply plain_zero]|intros ?].
  apply spec_ret, seps_submseteq. unfold blankDies. pick.
Qed.

(** The initialisation of the package, in any memory, makes eleven
    immutable dies of the zero values, and changes nothing else: [m0] is what
    the zero metadata stands for. *)
Lemma initBlanks_blank m0 h : reads (∅ : GoHeap) ObjectMeta_zero = Some m0 ->
  exists b h', initBlanks h = Ok (b, h') /\ h ⊆ h' /\ @blanksAt _ _ _ b h' /\
    dieAt (R := hMapping) h' (@ClusterWorkloadResourceMappingBlank b) (TypeMeta_zero, mkMapping m0 (mkMappingSpec [])) /\
    dieAt (R := hMappingSpec) h' (@ClusterWorkloadResourceMappingSpecBlank b) (mkMappingSpec []) /\
    dieAt (R := hTemplate) h' (@ClusterWorkloadResourceMappingTemplateBlank b) (mkMappingTemplate "" "" [] "") /\
    dieAt (R := ClusterWorkloadResourceMappingContainer) h' (@ClusterWorkloadResourceMappingContainerBlank b) (mkMappingContainer "" "" "" "") /\
    dieAt (R := hServiceBinding) h' (@ServiceBindingBlank b) (TypeMeta_zero, mkServiceBinding m0 zeroBindingSpec (mkServiceBindingStatus 0 [] None)) /\
    dieAt (R := hBindingSpec) h' (@ServiceBindingSpecBlank b) zeroBindingSpec /\
    dieAt (R := hWorkloadReference) h' (@ServiceBindingWorkloadReferenceBlank b) (mkWorkloadReference "" "" "" None []) /\
    dieAt (R := ServiceBindingServiceReference) h' (@ServiceBindingServiceReferenceBlank b) (mkServiceReference "" "" "") /\
    dieAt (R := EnvMapping) h' (@EnvMappingBlank b) (mkEnvMapping "" "") /\
    dieAt (R := hBindingStatus) h' (@ServiceBindingStatusBlank b) (mkServiceBindingStatus 0 [] None) /\
    dieAt (R := ServiceBindingSecretReference) h' (@ServiceBindingSecretReferenceBlank b) (mkSecretReference "").
Proof.
  intros Hm.
  destruct (initBlanks_spec h m0 Hm h h ∅) as (b & h' & G & Hr & Hs & HG & _ & Hb);
    [done..|apply map_empty_subseteq|apply map_disjoint_empty_l|done|].
  exists b, h'. split; [done|]. split; [done|].
  match goal with |- _ /\ ?P => assert P as Hall end.
  { split_and!; (eapply dieOwn_among; [|exact Hb|exact HG]); unfold blankDies; pick. }
  split; [|exact Hall]. destruct Hall as (? & ? & ? & ? & ? & ? & ? & ? & ? & ? & ?).
  split; by eexists.
Qed.
End package.

(** ** JSON *)

Section json.
Context `{Apimachinery} {R F X : Type} `{Storable cell R} `{Storable cell (die R F)}.
Context `{!DieType R F} `{!Resource R X resourceDeepCopyInto} `{!Encoding R}.
Implicit Types (g h G : GoHeap) (d : pointer) (x : X).

(** [UnmarshalJSON] refuses the blank die and immutable dies, with an
    error each, and leaves the memory as it is. A mutable die holds what
    json.Unmarshal left in the target, also when that failed, and its error is
    returned. *)
Lemma UnmarshalJSON_guards blank b :
  (forall h, UnmarshalJSON (R := R) blank blank b h =
     Ok (Some "cannot unmarshal into the blank die, create a copy first", h)) /\
  (forall h d v, d <> blank -> valueAt h d = Some v -> die_mutable v = false ->
     UnmarshalJSON (R := R) blank d b h =
     Ok (Some "cannot unmarshal into immutable dies, create a mutable version first", h)) /\
  (forall g d x x0 e, d <> blank ->
     spec g emp (Unmarshal b (zero : R)) (fun u G => u.2 = e /\ own u.1 x G) ->
     spec g (dieOwn (R := R) d true x0) (UnmarshalJSON (R := R) blank d b)
       (fun e' G => e' = e /\ dieOwn (R := R) d true x G)).
Proof.
  split_and!.
  - intros h. unfold UnmarshalJSON. by rewrite decide_True.
  - intros h d v Hd Hv Hmut. unfold UnmarshalJSON. rewrite decide_False by done.
    unfold getDie. erewrite M_bind_Ok by by apply deref_run. by rewrite Hmut.
  - intros g d x x0 e Hd Hu. unfold UnmarshalJSON. rewrite decide_False by done.
    apply spec_one, (spec_open g (fun v => [pt d (mkDie (freeze v) true v); own v x0])). intros v0.
    eapply spec_read; [pick|]. cbn [die_mutable negb].
    eapply spec_new; [exact Hu|]. intros [v e']. apply spec_pure_head. cbn [fst snd]. intros ->.
    eapply spec_among; [|eapply (spec_steps _ _ _ []); [apply (DieFeed_mutable (R := R) g d (freeze v0) v0 v x)|reflexivity|]].
    { pick. }
    intros d'. apply spec_pure_head. intros ->.
    apply (spec_open g (fun v => [pt d (mkDie (freeze v) true v); own v x])). intros v'.
    eapply spec_read; [pick|].
    eapply (spec_step _ _ [own v' x]); [apply spec_assign|pick|]. intros [].
    apply spec_ret, entails_fact; [done|]. apply (dieOwn_intro d true v' x). pick.
Qed.
End json.
