(* ===== verification/DieWitnesses.v ===== *)
(** * Dies in a concrete memory

    The blank dies of a fresh memory, and what is built from them. *)

From S2P Require Import Prelude Json Types Heap Memory Ownership DeepCopy DeepCopyFacts.
From S2P Require Import Dies DieFacts DieSlices DieTypes DieProperties HeapWitnesses.
Local Open Scope string_scope.

(** Slices grow by one element more than they need. *)
#[export] Instance spareOne : Growth := fun _ => 1.

(** Metadata is edited in the variable of a binding, selectors and conditions in
    variables of their own. *)
#[export] Instance goForeignDies : ForeignDies := {
  ObjectMetaDie_feed m :=
    newWith (mkHServiceBinding TypeMeta_zero m hBindingSpec_zero hBindingStatus_zero);
  ObjectMetaDie_DieRelease d := v ← deref (T := hServiceBinding) d; mret (hsb_ObjectMeta v);
  LabelSelectorDie_feedPtr p :=
    match p with
    | None => newWith (T := hLabelSelector) LabelSelector_zero
    | Some p => v ← deref (T := hLabelSelector) p; newWith v
    end;
  LabelSelectorDie_DieReleasePtr d := v ← deref (T := hLabelSelector) d; newWith v;
  ConditionDie_DieRelease d := deref (T := hCondition) d;
}.

(** The memory after the initialisation of the package. *)
Definition blankHeap : GoHeap := match initBlanks ∅ with Ok (_, h) => h | _ => ∅ end.
#[export] Instance goBlanks : Blanks :=
  match initBlanks ∅ with
  | Ok (b, _) => b
  | _ => let p := mkPointer 1 0 in mkBlanks p p p p p p p p p p p
  end.

Ltac solve_blank := eexists; exists zero; split; vm_compute; reflexivity.

Lemma blankHeap_blanks : blanksAt blankHeap.
Proof. split; solve_blank. Qed.

Definition zeroBinding : TypeMeta * ServiceBinding :=
  (TypeMeta_zero, mkServiceBinding (mkObjectMeta "" "" "" 0 None) zeroBindingSpec
    (mkServiceBindingStatus 0 [] None)).

Lemma blankHeap_binding : dieAt (R := hServiceBinding) blankHeap ServiceBindingBlank zeroBinding.
Proof. exists zero; split; vm_compute; reflexivity. Qed.

Lemma blankHeap_spec : dieAt (R := hBindingSpec) blankHeap ServiceBindingSpecBlank zeroBindingSpec.
Proof. exists zero; split; vm_compute; reflexivity. Qed.

(** Callbacks. *)
Definition withType (x : ServiceBindingSpec) : ServiceBindingSpec :=
  mkServiceBindingSpec (sbs_Name x) "mysql" (sbs_Provider x) (sbs_Workload x) (sbs_Service x) (sbs_Env x).

Lemma stamps_type g :
  stamps (R := hBindingSpec) g (setField (set_hbs_Type "mysql"))
    withType.
Proof.
  apply stamps_set. intros v x. apply entails_weaken. intros G [(? & ? & ?) HG]. by split.
Qed.

Definition setEnvName (d : pointer) : GoM () := EnvMappingDie_Name d "PORT";; mret tt.

Lemma edits_env g :
  edits (R := EnvMapping) g setEnvName (fun e => mkEnvMapping "PORT" (em_Key e)).
Proof.
  apply (edits_method (R := EnvMapping)), method_stamp, stamps_set.
  intros v x. apply entails_weaken. by intros G [-> _].
Qed.

Definition setType (d : pointer) : GoM () := ServiceBindingSpecDie_Type d "mysql";; mret tt.

Lemma edits_type g : edits (R := hBindingSpec) g setType
  withType.
Proof. apply (edits_method (R := hBindingSpec)), method_stamp, stamps_type. Qed.

(** JSON that is empty, and does not decode. *)
Definition noEncoding {T} : Encoding T := {| Marshal _ := mret ("", None); Unmarshal _ v := mret (v, Some "EOF") |}.
#[export] Instance goEncodings : Encodings :=
  {| encode_ClusterWorkloadResourceMapping := noEncoding; encode_ClusterWorkloadResourceMappingSpec := noEncoding; encode_ClusterWorkloadResourceMappingTemplate := noEncoding; encode_ClusterWorkloadResourceMappingContainer := noEncoding; encode_ServiceBinding := noEncoding; encode_ServiceBindingSpec := noEncoding; encode_ServiceBindingWorkloadReference := noEncoding; encode_ServiceBindingServiceReference := noEncoding; encode_EnvMapping := noEncoding; encode_ServiceBindingStatus := noEncoding; encode_ServiceBindingSecretReference := noEncoding |}.
#[export] Instance goExtensions : Extensions := {|
  RawExtension := string;
  RawExtension_zero := "";
  encode_raw := noEncoding;
  DefaultUnstructuredConverter_ToUnstructured _ _ := mret (None, Some "not a struct");
|}.

Lemma DieStamp_correct_witness :
  exists d' h', m_DieStamp ServiceBindingSpecDie_methods ServiceBindingSpecBlank
      (setField (set_hbs_Type "mysql")) blankHeap = Ok (d', h') /\
    blankHeap ⊆ h' /\ d' <> ServiceBindingSpecBlank /\
    dieAt (R := hBindingSpec) h' ServiceBindingSpecBlank zeroBindingSpec.
Proof.
  destruct DieStamp_correct as (_ & _ & _ & _ & _ & Hspec & _).
  destruct (Hspec (setField (set_hbs_Type "mysql")) withType) as [Hi _].
  destruct (Hi blankHeap _ _ blankHeap_spec (stamps_type _)) as (d' & h' & Hr & Hs & Hne & _ & Hold).
  exists d', h'. exact (conj Hr (conj Hs (conj Hne (Hold h' Hs)))).
Defined.

Lemma nested_dies_witness :
  exists d' h', ServiceBindingDie_SpecDie ServiceBindingBlank setType blankHeap = Ok (d', h') /\
    blankHeap ⊆ h' /\
    dieAt (R := hServiceBinding) h' d'
      (zeroBinding.1, set_sb_Spec (mkServiceBindingSpec "" "mysql" ""
        (mkWorkloadReference "" "" "" None []) (mkServiceReference "" "" "") []) zeroBinding.2).
Proof.
  destruct (nested_dies blankHeap setType blankHeap_blanks) as [Hspec _].
  exact (method_run _ _ _ _ _ (Hspec _ (edits_type _)) blankHeap_binding).
Defined.

Lemma element_dies_witness :
  exists d' h', ServiceBindingSpecDie_EnvDie ServiceBindingSpecBlank "port" setEnvName blankHeap = Ok (d', h') /\
    blankHeap ⊆ h' /\
    dieAt (R := hBindingSpec) h' d' (set_sbs_Env [mkEnvMapping "PORT" "port"] zeroBindingSpec).
Proof.
  destruct (element_dies blankHeap setEnvName blankHeap_blanks) as [Henv _].
  exact (method_run _ _ _ _ _ (Henv "port" _ (edits_env _)) blankHeap_spec).
Defined.

(** A binding as the tests build it: nested dies, chained methods, an element
    that is appended and then edited. *)
Definition buildBinding : GoM hServiceBinding :=
  d ← ServiceBindingDie_MetadataDie ServiceBindingBlank (fun m =>
        v ← deref (T := hServiceBinding) m;
        assign m (set_hsb_ObjectMeta (mkGoObjectMeta "orders" "ns" "uid-1" 1 None) v));
  d ← ServiceBindingDie_APIVersion d "servicebinding.io/v1beta1";
  d ← ServiceBindingDie_SpecDie d (fun d =>
        ServiceBindingSpecDie_ServiceDie d (fun d =>
          ServiceBindingServiceReferenceDie_Kind d "Secret";;
          ServiceBindingServiceReferenceDie_Name d "db";; mret tt);;
        ServiceBindingSpecDie_EnvDie d "host" (fun d => EnvMappingDie_Name d "HOST";; mret tt);;
        ServiceBindingSpecDie_EnvDie d "port" (fun d => EnvMappingDie_Name d "PORT";; mret tt);;
        ServiceBindingSpecDie_EnvDie d "host" (fun d => EnvMappingDie_Name d "DB_HOST";; mret tt);;
        mret tt);
  DieRelease (R := hServiceBinding) d.

Example buildBinding_builds :
  match buildBinding blankHeap with
  | Ok (v, h) => reads h v =
      Some (mkTypeMeta "" "servicebinding.io/v1beta1",
        mkServiceBinding (mkObjectMeta "orders" "ns" "uid-1" 1 None)
          (mkServiceBindingSpec "" "" "" (mkWorkloadReference "" "" "" None [])
             (mkServiceReference "" "Secret" "db")
             [mkEnvMapping "DB_HOST" "host"; mkEnvMapping "PORT" "port"])
          (mkServiceBindingStatus 0 [] None))
  | _ => False
  end.
Proof. vm_compute. reflexivity. Qed.

(** [DieFeed] does not copy: an immutable die shows what is written through the
    slice that it was given. *)
Example feed_shares :
  match (s ← makeWith [mkEnvMapping "HOST" "host"];
         d ← DieFeed (R := hBindingSpec) ServiceBindingSpecBlank (set_hbs_Env (Some s) hBindingSpec_zero);
         setIndex s 0 (mkEnvMapping "CHANGED" "host");;
         DieRelease (R := hBindingSpec) d) blankHeap with
  | Ok (v, h) => reads h v = Some (set_sbs_Env [mkEnvMapping "CHANGED" "host"] zeroBindingSpec)
  | _ => False
  end.
Proof. vm_compute. reflexivity. Qed.
