(* ===== verification/Lifecycle.v ===== *)
(** * The lifecycle of a service binding
    (apis/v1beta1/servicebinding_lifecycle.go)

    The condition set and its manager belong to reconciler-runtime
    ([ConditionManager]); what the program relies on is that a condition that
    is marked can be fetched, and that marking one of the two dependent
    conditions leaves the other alone ([ConditionManagerLaws]). *)

From S2P Require Import Prelude Json Types.
Local Open Scope string_scope.

Definition ServiceBindingConditionReady : string := "Ready".
Definition ServiceBindingConditionServiceAvailable : string := "ServiceAvailable".
Definition ServiceBindingConditionWorkloadProjected : string := "WorkloadProjected".

(** [NewLivingConditionSetWithHappyReason("ServiceBound", ...)] *)
Definition happyReason : string := "ServiceBound".
Definition dependentConditions : list string :=
  [ServiceBindingConditionServiceAvailable; ServiceBindingConditionWorkloadProjected].

(** Marking a condition and (re)initializing, on the conditions of a status.
    The arguments are the type, the reason and the message. *)
Class ConditionManager := {
  MarkTrue : string -> string -> string -> list Condition -> list Condition;
  MarkFalse : string -> string -> string -> list Condition -> list Condition;
  MarkUnknown : string -> string -> string -> list Condition -> list Condition;
  manager_InitializeConditions : list Condition -> list Condition;
  ConditionIsUnknown : option Condition -> bool;
}.

(** [GetCondition] fetches the first condition of the type. *)
Definition GetCondition (t : string) (s : ServiceBindingStatus) : option Condition :=
  List.find (fun cond => String.eqb (cond_Type cond) t) (sbst_Conditions s).

Definition GetConditions (s : ServiceBindingStatus) : list Condition := sbst_Conditions s.
Definition SetConditions (c : list Condition) (s : ServiceBindingStatus) : ServiceBindingStatus :=
  set_sbst_Conditions c s.

Class ConditionManagerLaws `{ConditionManager} : Prop := {
  marked (s : ServiceBindingStatus) t r m :
    t ∈ dependentConditions ->
    GetCondition t (SetConditions (MarkTrue t r m (GetConditions s)) s) = Some (mkCondition t "True" r m) /\
    GetCondition t (SetConditions (MarkFalse t r m (GetConditions s)) s) = Some (mkCondition t "False" r m) /\
    GetCondition t (SetConditions (MarkUnknown t r m (GetConditions s)) s) = Some (mkCondition t "Unknown" r m);
  marked_other (s : ServiceBindingStatus) t t' r m :
    t ∈ dependentConditions -> t' ∈ dependentConditions -> t <> t' ->
    GetCondition t' (SetConditions (MarkTrue t r m (GetConditions s)) s) = GetCondition t' s /\
    GetCondition t' (SetConditions (MarkFalse t r m (GetConditions s)) s) = GetCondition t' s /\
    GetCondition t' (SetConditions (MarkUnknown t r m (GetConditions s)) s) = GetCondition t' s;
  unknown_status c : ConditionIsUnknown (Some c) = String.eqb (cond_Status c) "Unknown";
}.

Section lifecycle.
Context `{ConditionManager}.

(** The three ways in which the controller marks a condition of a binding:
    [resource.GetConditionManager().Mark...]. *)
Definition markTrue (t r m : string) (b : ServiceBinding) : ServiceBinding :=
  set_sb_Status (SetConditions (MarkTrue t r m (GetConditions (sb_Status b))) (sb_Status b)) b.
Definition markFalse (t r m : string) (b : ServiceBinding) : ServiceBinding :=
  set_sb_Status (SetConditions (MarkFalse t r m (GetConditions (sb_Status b))) (sb_Status b)) b.
Definition markUnknown (t r m : string) (b : ServiceBinding) : ServiceBinding :=
  set_sb_Status (SetConditions (MarkUnknown t r m (GetConditions (sb_Status b))) (sb_Status b)) b.

Definition InitializeConditions (s : ServiceBindingStatus) : ServiceBindingStatus :=
  let s := SetConditions (manager_InitializeConditions (GetConditions s)) s in
  let s := SetConditions
    (MarkUnknown ServiceBindingConditionServiceAvailable "Initializing" "" (GetConditions s)) s in
  SetConditions
    (MarkUnknown ServiceBindingConditionWorkloadProjected "Initializing" "" (GetConditions s)) s.

(** ** Properties *)

(** What a binding says about one of its conditions. *)
Definition conditionOf (t : string) (b : ServiceBinding) : option Condition :=
  GetCondition t (sb_Status b).

Lemma available_dependent : ServiceBindingConditionServiceAvailable ∈ dependentConditions.
Proof. by left. Qed.
Lemma projected_dependent : ServiceBindingConditionWorkloadProjected ∈ dependentConditions.
Proof. by right; left. Qed.

Context `{!ConditionManagerLaws}.

Lemma markTrue_get t r m b :
  t ∈ dependentConditions -> conditionOf t (markTrue t r m b) = Some (mkCondition t "True" r m).
Proof. intros Ht. apply (marked (sb_Status b) t r m Ht). Qed.
Lemma markFalse_get t r m b :
  t ∈ dependentConditions -> conditionOf t (markFalse t r m b) = Some (mkCondition t "False" r m).
Proof. intros Ht. apply (marked (sb_Status b) t r m Ht). Qed.
Lemma markUnknown_get t r m b :
  t ∈ dependentConditions -> conditionOf t (markUnknown t r m b) = Some (mkCondition t "Unknown" r m).
Proof. intros Ht. apply (marked (sb_Status b) t r m Ht). Qed.

Lemma mark_other t t' r m b :
  t ∈ dependentConditions -> t' ∈ dependentConditions -> t <> t' ->
  conditionOf t' (markTrue t r m b) = conditionOf t' b /\
  conditionOf t' (markFalse t r m b) = conditionOf t' b /\
  conditionOf t' (markUnknown t r m b) = conditionOf t' b.
Proof. intros Ht Ht' Hne. apply (marked_other (sb_Status b) t t' r m Ht Ht' Hne). Qed.

(** After [InitializeConditions] both conditions of the
    binding are unknown with the reason [Initializing], whatever they were;
    the secret and the observed generation are kept. *)
Lemma InitializeConditions_unknown s :
  GetCondition ServiceBindingConditionServiceAvailable (InitializeConditions s) =
    Some (mkCondition ServiceBindingConditionServiceAvailable "Unknown" "Initializing" "") /\
  GetCondition ServiceBindingConditionWorkloadProjected (InitializeConditions s) =
    Some (mkCondition ServiceBindingConditionWorkloadProjected "Unknown" "Initializing" "") /\
  sbst_Binding (InitializeConditions s) = sbst_Binding s /\
  sbst_ObservedGeneration (InitializeConditions s) = sbst_ObservedGeneration s.
Proof.
  unfold InitializeConditions. split_and!; [| |done|done].
  - rewrite (proj2 (proj2 (marked_other _ _ ServiceBindingConditionServiceAvailable _ _
      projected_dependent available_dependent ltac:(discriminate)))).
    apply marked, available_dependent.
  - apply marked, projected_dependent.
Qed.
End lifecycle.
