(* ===== verification/Rbac.v ===== *)
(** * The access checker (rbac/cani.go)

    [CanI] asks the API server whether the runtime may act on a resource and
    caches the answers for some time. The checker is explicit state; the calls
    of [CanI] exclude each other by a mutex, so a run is a sequence of calls.
    The clock and the client's [Create] are arguments of a call: the two times
    that are read, before and after [Create], and what [Create] makes of the
    review that it is given. *)

From S2P Require Import Prelude.
Local Open Scope Z_scope.

(** authorizationv1.ResourceAttributes, of the fields that the code sets *)
Record ResourceAttributes := mkAttributes {
  ra_Namespace : string;
  ra_Verb : string;
  ra_Group : string;
  ra_Resource : string;
}.

#[export] Instance attributes_eq_dec : EqDecision ResourceAttributes.
Proof. solve_decision. Defined.
#[export] Instance attributes_countable : Countable ResourceAttributes.
Proof.
  refine (inj_countable' (fun a => (ra_Namespace a, ra_Verb a, ra_Group a, ra_Resource a))
    (fun '(n, v, g, r) => mkAttributes n v g r) _). by intros [].
Defined.

(** Times are nanoseconds since the epoch; the zero time is the year 1. *)
Definition zeroTime : Z := -62135596800000000000.

Record SelfSubjectAccessReview := mkReview {
  ssar_CreationTimestamp : Z;
  ssar_Spec : option ResourceAttributes;
  ssar_Allowed : bool;
}.
Definition emptyReview : SelfSubjectAccessReview := mkReview zeroTime None false.

Record accessChecker := mkChecker {
  ac_verb : string;
  ac_ttl : Z;
  ac_cache : gmap ResourceAttributes SelfSubjectAccessReview;
}.

Definition NewAccessChecker (ttl : Z) : accessChecker := mkChecker "*" ttl ∅.
Definition WithVerb (ac : accessChecker) (verb : string) : accessChecker :=
  mkChecker verb (ac_ttl ac) ∅.

(** One call: its arguments, the times it reads and the client's answer. *)
Record call := mkCall {
  call_Group : string;
  call_Resource : string;
  call_now : Z;
  call_later : Z;
  call_Create : SelfSubjectAccessReview -> SelfSubjectAccessReview * option error;
}.

Definition keyOf (ac : accessChecker) (c : call) : ResourceAttributes :=
  mkAttributes "" (ac_verb ac) (call_Group c) (call_Resource c).

Definition set_cache (cache : gmap ResourceAttributes SelfSubjectAccessReview) (ac : accessChecker) :
    accessChecker := mkChecker (ac_verb ac) (ac_ttl ac) cache.

(** [ssar.GetCreationTimestamp().Add(ac.ttl).After(time.Now())] *)
Definition recent (ac : accessChecker) (now : Z) (ssar : SelfSubjectAccessReview) : bool :=
  now <? ssar_CreationTimestamp ssar + ac_ttl ac.

(** Asking the server, and what is done with an error. *)
Definition review (key : ResourceAttributes) (ssar : SelfSubjectAccessReview) (c : call) :
    SelfSubjectAccessReview :=
  let ssar := mkReview (ssar_CreationTimestamp ssar) (Some key) (ssar_Allowed ssar) in
  let '(ssar, err) := call_Create c ssar in
  match err with
  | Some _ => mkReview (call_later c) (ssar_Spec ssar) (ssar_Allowed ssar)
  | None => ssar
  end.

Definition CanI (ac : accessChecker) (c : call) : bool * accessChecker :=
  let key := keyOf ac c in
  let ask cache ssar :=
    let ssar := review key ssar c in
    (ssar_Allowed ssar, set_cache (<[key := ssar]> cache) ac) in
  match ac_cache ac !! key with
  | Some ssar =>
      if recent ac (call_now c) ssar then (ssar_Allowed ssar, ac)
      else ask (delete key (ac_cache ac)) emptyReview
  | None => ask (ac_cache ac) emptyReview
  end.

(** A run of a checker: the answers of its calls, and the final state. *)
Fixpoint run (ac : accessChecker) (cs : list call) : list bool * accessChecker :=
  match cs with
  | [] => ([], ac)
  | c :: cs =>
      let '(b, ac) := CanI ac c in
      let '(bs, ac) := run ac cs in
      (b :: bs, ac)
  end.

(** ** Properties *)

(** A client that fails leaves the review as it was given. *)
Definition failsCleanly (c : call) : Prop :=
  forall s s' e, call_Create c s = (s', Some e) -> s' = s.

(** Does the call reach the server? *)
Definition asks (ac : accessChecker) (c : call) : bool :=
  match ac_cache ac !! keyOf ac c with
  | Some ssar => negb (recent ac (call_now c) ssar)
  | None => true
  end.

Lemma CanI_asks ac c :
  asks ac c = true ->
  CanI ac c = (ssar_Allowed (review (keyOf ac c) emptyReview c),
    set_cache (<[keyOf ac c := review (keyOf ac c) emptyReview c]> (ac_cache ac)) ac).
Proof.
  unfold asks, CanI. destruct (ac_cache ac !! keyOf ac c) as [s|]; [|done].
  intros ->%negb_true_iff. by rewrite insert_delete_eq.
Qed.

Lemma CanI_cached ac c :
  asks ac c = false ->
  exists s, ac_cache ac !! keyOf ac c = Some s /\ recent ac (call_now c) s = true /\
    CanI ac c = (ssar_Allowed s, ac).
Proof.
  unfold asks, CanI. destruct (ac_cache ac !! keyOf ac c) as [s|]; [|done].
  intros Hr%negb_false_iff. rewrite Hr. by exists s.
Qed.

(** [CanI] never changes the verb, the time to live or what is cached for
    another resource. *)
Lemma CanI_frame ac c :
  ac_verb (CanI ac c).2 = ac_verb ac /\ ac_ttl (CanI ac c).2 = ac_ttl ac /\
  forall k, k <> keyOf ac c -> ac_cache (CanI ac c).2 !! k = ac_cache ac !! k.
Proof.
  destruct (asks ac c) eqn:E.
  - rewrite (CanI_asks ac c E). split_and!; [done..|]. intros k Hk. cbn. by rewrite lookup_insert_ne.
  - by destruct (CanI_cached ac c E) as (s & _ & _ & ->).
Qed.

(** Answers. A call that finds a recent answer returns it, asks nobody and
    changes nothing. Any other call asks once, for exactly the verb of the
    checker and the group and resource of the call, returns that answer and
    caches it under that key only; when the client fails the answer is no. *)
Lemma CanI_answers ac c :
  let k := keyOf ac c in
  (asks ac c = false ->
   exists s, ac_cache ac !! k = Some s /\ call_now c < ssar_CreationTimestamp s + ac_ttl ac /\
     CanI ac c = (ssar_Allowed s, ac)) /\
  (asks ac c = true ->
   let '(s, err) := call_Create c (mkReview zeroTime (Some k) false) in
   exists s', ac_cache (CanI ac c).2 !! k = Some s' /\ (CanI ac c).1 = ssar_Allowed s' /\
     ssar_Allowed s' = ssar_Allowed s /\
     (failsCleanly c -> err <> None -> (CanI ac c).1 = false /\
        ssar_CreationTimestamp s' = call_later c)) /\
  (forall k', k' <> k -> ac_cache (CanI ac c).2 !! k' = ac_cache ac !! k').
Proof.
  cbn zeta. split_and!; [| |apply CanI_frame].
  - intros (s & Hs & Hr & Hc)%CanI_cached. exists s. split_and!; [done| |done].
    by apply Z.ltb_lt.
  - intros Ha. rewrite (CanI_asks ac c Ha). unfold review. cbn.
    destruct (call_Create c _) as [s [e|]] eqn:E; cbn; eexists;
      (split; [apply lookup_insert_eq|]); split_and!; try done.
    intros Hf _. by rewrite (Hf _ _ _ E).
Qed.

(** ** Runs *)

(** The reviews that the server was asked for during a run. *)
Fixpoint asked (ac : accessChecker) (cs : list call) : list (ResourceAttributes * SelfSubjectAccessReview) :=
  match cs with
  | [] => []
  | c :: cs =>
      (if asks ac c then [(keyOf ac c, review (keyOf ac c) emptyReview c)] else []) ++
      asked (CanI ac c).2 cs
  end.

Lemma run_app ac cs1 cs2 :
  run ac (cs1 ++ cs2) =
  let '(bs1, ac1) := run ac cs1 in let '(bs2, ac2) := run ac1 cs2 in (bs1 ++ bs2, ac2).
Proof.
  revert ac. induction cs1 as [|c cs1 IH]; intros ac; cbn; [by destruct (run ac cs2)|].
  destruct (CanI ac c) as [b ac1]. rewrite IH. destruct (run ac1 cs1) as [bs1 ac2].
  by destruct (run ac2 cs2).
Qed.

(** Whatever is cached was an answer of the server to exactly this question. *)
Lemma run_cached ac cs k s :
  (forall k s, ac_cache ac !! k = Some s -> False) ->
  ac_cache (run ac cs).2 !! k = Some s -> (k, s) ∈ asked ac cs.
Proof.
  intros Hempty. assert (forall k s, ac_cache (run ac cs).2 !! k = Some s ->
    (k, s) ∈ asked ac cs \/ ac_cache ac !! k = Some s) as Hrun; [|naive_solver].
  clear Hempty k s. revert ac. induction cs as [|c cs IH]; intros ac k s; cbn; [by right|].
  specialize (IH (CanI ac c).2 k s). destruct (CanI ac c) as [b ac1] eqn:Ec.
  destruct (run ac1 cs) as [bs ac2] eqn:Er. cbn in *. rewrite Er in IH. intros Hs.
  destruct (IH Hs) as [Hin|Hin]; [left; by apply elem_of_app; right|].
  destruct (asks ac c) eqn:Ea.
  - rewrite (CanI_asks ac c Ea) in Ec. injection Ec as <- <-. cbn in Hin.
    apply lookup_insert_Some in Hin as [[<- <-]|[_ ?]]; [left; by left|by right].
  - destruct (CanI_cached ac c Ea) as (s' & _ & _ & Hc). rewrite Hc in Ec. injection Ec as <- <-.
    by right.
Qed.

Lemma run_frame ac cs : ac_verb (run ac cs).2 = ac_verb ac /\ ac_ttl (run ac cs).2 = ac_ttl ac.
Proof.
  revert ac. induction cs as [|c cs IH]; intros ac; [done|]. cbn.
  pose proof (CanI_frame ac c) as (Hv & Ht & _). destruct (CanI ac c) as [b ac1]. cbn in *.
  specialize (IH ac1). destruct (run ac1 cs). cbn in *. destruct IH. split; congruence.
Qed.

(** C23 (no stale or foreign permission). When a fresh checker says yes after
    any sequence of calls, the server said yes to the very same question
    (verb, group and resource): in this call, or in an earlier one whose answer
    is still within the time to live. *)
Theorem CanI_sound ttl verb cs c :
  let ac := (run (WithVerb (NewAccessChecker ttl) verb) cs).2 in
  (CanI ac c).1 = true ->
  let k := mkAttributes "" verb (call_Group c) (call_Resource c) in
  ssar_Allowed (review k emptyReview c) = true \/
  exists s, (k, s) ∈ asked (WithVerb (NewAccessChecker ttl) verb) cs /\ ssar_Allowed s = true /\
    call_now c < ssar_CreationTimestamp s + ttl.
Proof.
  cbn zeta. set (ac0 := WithVerb (NewAccessChecker ttl) verb). intros Hyes.
  destruct (run_frame ac0 cs) as [Hv Ht].
  assert (keyOf (run ac0 cs).2 c = mkAttributes "" verb (call_Group c) (call_Resource c)) as Hk.
  { unfold keyOf. by rewrite Hv. }
  destruct (asks (run ac0 cs).2 c) eqn:Ea.
  - left. rewrite (CanI_asks _ _ Ea) in Hyes. by rewrite <-Hk.
  - right. destruct (CanI_cached _ _ Ea) as (s & Hs & Hr & Hc). rewrite Hc in Hyes. exists s.
    rewrite Hk in Hs. split_and!; [|done|].
    + apply (run_cached ac0); [|done]. intros k s'. cbn. by rewrite lookup_empty.
    + apply Z.ltb_lt in Hr. by rewrite Ht in Hr.
Qed.

(** After the client failed on a question, the checker
    goes on saying no to it, without asking, until the time to live is over. *)
Lemma CanI_denial_cached ac c c' :
  asks ac c = true -> failsCleanly c ->
  (exists e, (call_Create c (mkReview zeroTime (Some (keyOf ac c)) false)).2 = Some e) ->
  call_Group c' = call_Group c -> call_Resource c' = call_Resource c ->
  call_now c' < call_later c + ac_ttl ac ->
  CanI (CanI ac c).2 c' = (false, (CanI ac c).2).
Proof.
  intros Ha Hf [e He] Hg Hr Ht. rewrite (CanI_asks ac c Ha). cbn [snd].
  assert (keyOf ac c' = keyOf ac c) as Hk by (unfold keyOf; by rewrite Hg, Hr).
  unfold CanI at 1. cbn [ac_cache set_cache].
  change (keyOf (set_cache _ ac) c') with (keyOf ac c'). rewrite Hk, lookup_insert_eq.
  unfold review. cbn [ssar_CreationTimestamp ssar_Allowed emptyReview].
  destruct (call_Create c _) as [s err] eqn:E. cbn in He. subst err.
  unfold recent. cbn. rewrite (proj2 (Z.ltb_lt _ _) Ht). by rewrite (Hf _ _ _ E).
Qed.

(** Answers without a timestamp. An answer that carries no creation time
    is never reused: every further call asks again. *)
Lemma CanI_unstamped_asks_again ac c c' :
  asks ac c = true ->
  (forall s, let '(s', err) := call_Create c s in err = None /\ ssar_CreationTimestamp s' = zeroTime) ->
  zeroTime + ac_ttl ac <= call_now c' ->
  call_Group c' = call_Group c -> call_Resource c' = call_Resource c ->
  asks (CanI ac c).2 c' = true.
Proof.
  intros Ha Hc Ht Hg Hr. rewrite (CanI_asks ac c Ha). unfold asks. cbn.
  assert (keyOf (set_cache (<[keyOf ac c:=review (keyOf ac c) emptyReview c]> (ac_cache ac)) ac) c' =
    keyOf ac c) as -> by (unfold keyOf; cbn; by rewrite Hg, Hr).
  rewrite lookup_insert_eq. unfold review, recent. cbn. specialize (Hc (mkReview zeroTime (Some (keyOf ac c)) false)).
  destruct (call_Create c _) as [s err]. destruct Hc as [-> ->]. cbn.
  apply negb_true_iff, Z.ltb_ge. lia.
Qed.
