(* ===== verification/ServiceBindingController.v ===== *)
(** * The service binding reconciler (controllers/servicebinding_controller.go)

    Four sub reconcilers work on the binding that is reconciled and on a stash
    of workloads. Here the state of one reconcile request is explicit
    ([reconcileState]) and a [Sync] function maps it to the next state and a
    result. Running sub reconcilers, in sequence and during finalization, is
    the business of reconciler-runtime ([Runtime]), as is updating a workload
    ([Manage]); the calls to [Manage] are recorded in order. *)

From S2P Require Import Prelude Json Types Kube MetaPodTemplate Projector Resolver Lifecycle.
Local Open Scope string_scope.

Record reconcileState := mkReconcile {
  st_Resource : ServiceBinding;
  (** what is stashed under [WorkloadsStashKey] and [ProjectedWorkloadsStashKey] *)
  st_Workloads : option (list json);
  st_Projected : option (list json);
  (** the calls to [workloadManager.Manage] so far: workload and desired *)
  st_Managed : list (json * json);
  (** the finalizers in the metadata of the resource *)
  st_Finalizers : gset string;
}.

Inductive syncResult :=
  | Done (requeue : bool)
  | Failed (e : error)
  | Panicked (msg : string).

Definition set_Resource (b : ServiceBinding) (st : reconcileState) : reconcileState :=
  mkReconcile b (st_Workloads st) (st_Projected st) (st_Managed st) (st_Finalizers st).
Definition StashWorkloads (ws : list json) (st : reconcileState) : reconcileState :=
  mkReconcile (st_Resource st) (Some ws) (st_Projected st) (st_Managed st) (st_Finalizers st).
Definition StashProjectedWorkloads (ws : list json) (st : reconcileState) : reconcileState :=
  mkReconcile (st_Resource st) (st_Workloads st) (Some ws) (st_Managed st) (st_Finalizers st).
Definition set_Finalizers (fs : gset string) (st : reconcileState) : reconcileState :=
  mkReconcile (st_Resource st) (st_Workloads st) (st_Projected st) (st_Managed st) fs.
Definition RetrieveWorkloads (st : reconcileState) : list json := default [] (st_Workloads st).
Definition RetrieveProjectedWorkloads (st : reconcileState) : list json :=
  default [] (st_Projected st).

Inductive SubReconciler :=
  | SyncReconciler (Name : string) (SyncDuringFinalization : bool)
      (Sync : reconcileState -> reconcileState * syncResult)
  | Sequence (subs : list SubReconciler)
  | WithFinalizer (Finalizer : string) (sub : SubReconciler).

(** client.Object accessors of unstructured objects *)
Class Accessors := { GetUID : json -> string; GetResourceVersion : json -> string }.

(** [workloadManager.Manage]; the answer may depend on the calls before. *)
Class WorkloadManager :=
  Manage : list (json * json) -> ServiceBinding -> json -> json -> outcome json.

Definition isDeleting (b : ServiceBinding) : bool :=
  negb (Time_IsZero (om_DeletionTimestamp (sb_Meta b))).

(** The group of the API and [/finalizer]. *)
Definition finalizer : string := "servicebinding.io" +:+ "/finalizer".

Section controller.
Context `{JsonPath} `{Codec (list EnvVar)} `{Codec (list VolumeMount)} `{Codec (list Volume)}.
Context `{UnstructuredConverter json} `{LabelSelectors} `{RESTMapper} `{Cluster}.
Context `{ConditionManager} `{Accessors} `{WorkloadManager}.

(** ** ResolveBindingSecret *)

Definition serviceRef (b : ServiceBinding) : ObjectReference :=
  mkObjectReference (sr_APIVersion (sbs_Service (sb_Spec b))) (sr_Kind (sbs_Service (sb_Spec b)))
    (om_Namespace (sb_Meta b)) (sr_Name (sbs_Service (sb_Spec b))).

Definition set_Binding (r : option ServiceBindingSecretReference) (b : ServiceBinding) : ServiceBinding :=
  set_sb_Status (set_sbst_Binding r (sb_Status b)) b.

Definition ResolveBindingSecret_Sync (st : reconcileState) : reconcileState * syncResult :=
  let resource := st_Resource st in
  let done b := (set_Resource b st, Done false) in
  match LookupBindingSecret (serviceRef resource) with
  | Err err =>
      if IsNotFound err then
        done (markUnknown ServiceBindingConditionServiceAvailable "ServiceNotFound"
                "the service was not found" resource)
      else if IsForbidden err then
        done (markFalse ServiceBindingConditionServiceAvailable "ServiceForbidden"
                "the controller does not have permission to get the service" resource)
      else (st, Failed err)
  | Ok secretName =>
      if negb (String.eqb secretName "") then
        done (set_Binding (Some (mkSecretReference secretName))
                (markTrue ServiceBindingConditionServiceAvailable "ResolvedBindingSecret" "" resource))
      else
        done (set_Binding None
                (markUnknown ServiceBindingConditionServiceAvailable "ServiceMissingBinding"
                   "the service was found, but did not contain a binding secret" resource))
  | Panic s => (st, Panicked s)
  end.

Definition ResolveBindingSecret : SubReconciler :=
  SyncReconciler "ResolveBindingSecret" false ResolveBindingSecret_Sync.

(** ** ResolveWorkloads *)

Definition workloadRef (b : ServiceBinding) : ObjectReference :=
  mkObjectReference (wr_APIVersion (sbs_Workload (sb_Spec b))) (wr_Kind (sbs_Workload (sb_Spec b)))
    (om_Namespace (sb_Meta b)) (wr_Name (sbs_Workload (sb_Spec b))).

Definition ResolveWorkloads_Sync (st : reconcileState) : reconcileState * syncResult :=
  let resource := st_Resource st in
  match LookupWorkloads (workloadRef resource) (wr_Selector (sbs_Workload (sb_Spec resource))) with
  | Err err =>
      if IsNotFound err then
        (set_Resource (markUnknown ServiceBindingConditionWorkloadProjected "WorkloadNotFound"
                         "the workload was not found" resource) st, Done true)
      else if IsForbidden err then
        (set_Resource (markFalse ServiceBindingConditionWorkloadProjected "WorkloadForbidden"
           (if String.eqb (wr_Name (sbs_Workload (sb_Spec resource))) ""
            then "the controller does not have permission to list the workloads"
            else "the controller does not have permission to get the workload") resource) st, Done true)
      else (st, Failed err)
  | Ok workloads => (StashWorkloads workloads st, Done false)
  | Panic s => (st, Panicked s)
  end.

Definition ResolveWorkloads : SubReconciler :=
  SyncReconciler "ResolveWorkloads" true ResolveWorkloads_Sync.

(** ** ProjectBinding *)

(** The workloads are copied before they are changed. *)
Definition projectOne (resource : ServiceBinding) (workload : json) : outcome json :=
  if isDeleting resource then Unproject resource workload else Project resource workload.

Definition ProjectBinding_Sync (st : reconcileState) : reconcileState * syncResult :=
  match mapM (projectOne (st_Resource st)) (RetrieveWorkloads st) with
  | Ok projectedWorkloads => (StashProjectedWorkloads projectedWorkloads st, Done false)
  | Err err => (st, Failed err)
  | Panic s => (st, Panicked s)
  end.

Definition ProjectBinding : SubReconciler := SyncReconciler "ProjectBinding" true ProjectBinding_Sync.

(** ** PatchWorkloads *)

(** [MergeBeforeUpdate] of the workload manager. *)
Definition MergeBeforeUpdate (current desired : json) : json := desired.

Definition record (w d : json) (st : reconcileState) : reconcileState :=
  mkReconcile (st_Resource st) (st_Workloads st) (st_Projected st) (st_Managed st ++ [(w, d)]) (st_Finalizers st).

(** The loop; [None] when it ran to its end. *)
Fixpoint patchEach (pairs : list (json * json)) (st : reconcileState) :
    reconcileState * option syncResult :=
  match pairs with
  | [] => (st, None)
  | (workload, projected) :: rest =>
      if negb (String.eqb (GetUID workload) (GetUID projected)) ||
         negb (String.eqb (GetResourceVersion workload) (GetResourceVersion projected)) then
        (st, Some (Panicked "workload and projectedWorkload must have the same uid and resourceVersion"))
      else
        let answer := Manage (st_Managed st) (st_Resource st) workload projected in
        let st := record workload projected st in
        match answer with
        | Ok _ => patchEach rest st
        | Err err =>
            if IsNotFound err then patchEach rest st
            else if IsForbidden err then
              (set_Resource (markFalse ServiceBindingConditionWorkloadProjected "WorkloadForbidden"
                 "the controller does not have permission to update the workloads"
                 (st_Resource st)) st, Some (Done false))
            else (st, Some (Failed err))
        | Panic s => (st, Some (Panicked s))
        end
  end.

Definition PatchWorkloads_Sync (st : reconcileState) : reconcileState * syncResult :=
  let workloads := RetrieveWorkloads st in
  let projectedWorkloads := RetrieveProjectedWorkloads st in
  if negb (Nat.eqb (length workloads) (length projectedWorkloads)) then
    (st, Panicked "workloads and projectedWorkloads must have the same number of items")
  else
    match patchEach (zip workloads projectedWorkloads) st with
    | (st, Some r) => (st, r)
    | (st, None) =>
        let cond := GetCondition ServiceBindingConditionWorkloadProjected (sb_Status (st_Resource st)) in
        if ConditionIsUnknown cond then
          match cond with
          | None => (st, Panicked "invalid memory address or nil pointer dereference")
          | Some c =>
              if String.eqb (cond_Reason c) "Initializing" then
                (set_Resource (markTrue ServiceBindingConditionWorkloadProjected "WorkloadProjected" ""
                   (st_Resource st)) st, Done false)
              else (st, Done false)
          end
        else (st, Done false)
    end.

Definition PatchWorkloads : SubReconciler := SyncReconciler "PatchWorkloads" true PatchWorkloads_Sync.

(** ** ServiceBindingReconciler *)

Definition reconcileSteps : SubReconciler :=
  Sequence [ResolveBindingSecret; ResolveWorkloads; ProjectBinding; PatchWorkloads].

Definition ServiceBindingReconciler : SubReconciler := WithFinalizer finalizer reconcileSteps.
End controller.

(** ** reconciler-runtime

    A sync reconciler runs its function, unless the resource is being deleted
    and it does not take part in finalization; a sequence runs one after the
    other, stops at the first error and asks to be requeued when one of them
    does. *)
Class Runtime := Reconcile : SubReconciler -> reconcileState -> reconcileState * syncResult.

Definition andThen (r : reconcileState * syncResult)
    (k : reconcileState -> reconcileState * syncResult) : reconcileState * syncResult :=
  match r with
  | (st, Done q) =>
      let '(st', r') := k st in
      (st', match r' with Done q' => Done (q || q') | r' => r' end)
  | r => r
  end.

Class RuntimeLaws `{Runtime} : Prop := {
  reconcile_sync n d f st :
    Reconcile (SyncReconciler n d f) st =
    if isDeleting (st_Resource st) && negb d then (st, Done false) else f st;
  reconcile_nil st : Reconcile (Sequence []) st = (st, Done false);
  reconcile_cons r rs st :
    Reconcile (Sequence (r :: rs)) st = andThen (Reconcile r st) (Reconcile (Sequence rs));
}.
