(* ===== verification/ControllerFacts.v ===== *)
(** * Properties of the service binding reconciler *)

From S2P Require Import Prelude GoSort Json Tree Types Kube MetaPodTemplate Layout Workload WorkloadFacts.
From S2P Require Import Binding BindingFacts Projector ProjectorFacts Resolver Lifecycle.
From S2P Require Import ServiceBindingController.
Local Open Scope string_scope.

(** The accessors read the metadata of the tree. *)
Definition metaString (key : string) (j : json) : string :=
  match get_loc (fields ["metadata"; key]%list) j with
  | Ok (Some (JStr s)) => s
  | _ => ""
  end.

Class AccessorsLaws `{Accessors} : Prop := {
  uid_at j : GetUID j = metaString "uid" j;
  resourceVersion_at j : GetResourceVersion j = metaString "resourceVersion" j;
}.

Section facts.
Context `{JsonPath}.
Context `{CodecLaws (list EnvVar)} `{CodecLaws (list VolumeMount)} `{CodecLaws (list Volume)}.
Context `{UnstructuredConverter json} `{LabelSelectors} `{RESTMapper} `{Cluster}.
Context `{ConditionManager} `{!ConditionManagerLaws} `{Accessors} `{WorkloadManager}.

Abbreviation Available := ServiceBindingConditionServiceAvailable.
Abbreviation Projected := ServiceBindingConditionWorkloadProjected.

Lemma conditionOf_set_Binding t r b : conditionOf t (set_Binding r b) = conditionOf t b.
Proof. done. Qed.

Lemma mark_spec t r m b :
  sb_Spec (markTrue t r m b) = sb_Spec b /\ sb_Meta (markTrue t r m b) = sb_Meta b /\
  sbst_Binding (sb_Status (markTrue t r m b)) = sbst_Binding (sb_Status b).
Proof. done. Qed.

(** ** ResolveBindingSecret *)

(** What the status says after the service was looked up. *)
Definition availability (secret : outcome string) (b : ServiceBinding) :
    option (Condition * option ServiceBindingSecretReference) :=
  let cond status reason message := mkCondition Available status reason message in
  match secret with
  | Ok s =>
      if String.eqb s "" then
        Some (cond "Unknown" "ServiceMissingBinding"
                "the service was found, but did not contain a binding secret", None)
      else Some (cond "True" "ResolvedBindingSecret" "", Some (mkSecretReference s))
  | Err (ErrNotFound _) =>
      Some (cond "Unknown" "ServiceNotFound" "the service was not found", sbst_Binding (sb_Status b))
  | Err (ErrForbidden _) =>
      Some (cond "False" "ServiceForbidden"
              "the controller does not have permission to get the service", sbst_Binding (sb_Status b))
  | _ => None
  end.

(** C17 (resolving the secret). [ServiceAvailable] is true exactly when the
    service exposes a secret, whose name is then recorded; a service that is
    not found or may not be read keeps the recorded secret, one without a
    secret clears it. Any other error leaves the binding untouched and is
    returned. The other condition, the spec and the stash never change. *)
Theorem ResolveBindingSecret_status st :
  let b := st_Resource st in
  let '(st', res) := ResolveBindingSecret_Sync st in
  match availability (LookupBindingSecret (serviceRef b)) b with
  | Some (cond, ref) =>
      res = Done false /\ conditionOf Available (st_Resource st') = Some cond /\
      sbst_Binding (sb_Status (st_Resource st')) = ref
  | None => st' = st /\ res <> Done false
  end /\
  conditionOf Projected (st_Resource st') = conditionOf Projected b /\
  sb_Spec (st_Resource st') = sb_Spec b /\ sb_Meta (st_Resource st') = sb_Meta b /\
  st_Workloads st' = st_Workloads st /\ st_Projected st' = st_Projected st.
Proof.
  cbn zeta. unfold ResolveBindingSecret_Sync.
  pose proof (fun r m => mark_other Available Projected r m (st_Resource st)
    available_dependent projected_dependent ltac:(discriminate)) as Hother.
  destruct (LookupBindingSecret _) as [s|[m|m|m]|s]; cbn [availability IsNotFound IsForbidden].
  - destruct (String.eqb s "") eqn:Es; cbn [negb].
    + split_and!; [done|exact (markUnknown_get _ _ _ (st_Resource st) available_dependent)|done
                  |apply Hother|done..].
    + split_and!; [done|exact (markTrue_get _ _ _ (st_Resource st) available_dependent)|done
                  |apply Hother|done..].
  - split_and!; [done| |done|apply Hother|done..]. apply (markUnknown_get _ _ _ _ available_dependent).
  - split_and!; [done| |done|apply Hother|done..]. apply (markFalse_get _ _ _ _ available_dependent).
  - by split_and!.
  - by split_and!.
Qed.

(** ** PatchWorkloads *)

Lemma set_record_resource w d st : st_Resource (record w d st) = st_Resource st.
Proof. done. Qed.

(** The versions of a workload that the loop compares. *)
Definition sameVersion (p : json * json) : Prop :=
  GetUID p.1 = GetUID p.2 /\ GetResourceVersion p.1 = GetResourceVersion p.2.

Lemma patchEach_no_mismatch pairs st s :
  Forall sameVersion pairs -> (forall l b w d, Manage l b w d <> Panic s) ->
  (patchEach pairs st).2 <> Some (Panicked s).
Proof.
  intros Hv Hm. revert st. induction Hv as [|[w d] pairs [Hu Hr] Hv IH]; intros st; [done|].
  cbn [patchEach]. cbn in Hu, Hr. rewrite Hu, Hr, !String.eqb_refl. cbn [negb orb].
  specialize (Hm (st_Managed st) (st_Resource st) w d).
  destruct (Manage _ _ _ _) as [j|e|s']; [apply IH| |cbn; congruence].
  destruct (IsNotFound e); [apply IH|]. by destruct (IsForbidden e).
Qed.

(** The loop never marks the workload condition as true. *)
Lemma patchEach_resource pairs st :
  let st' := (patchEach pairs st).1 in
  st_Resource st' = st_Resource st \/
  conditionOf Projected (st_Resource st') = Some (mkCondition Projected "False" "WorkloadForbidden"
    "the controller does not have permission to update the workloads") /\
  (patchEach pairs st).2 = Some (Done false).
Proof.
  cbn zeta. revert st. induction pairs as [|[w d] pairs IH]; intros st; [by left|]. cbn [patchEach].
  destruct (_ || _); [by left|].
  destruct (Manage _ _ _ _) as [j|e|s]; [apply (IH (record w d st))| |by left].
  destruct (IsNotFound e); [apply (IH (record w d st))|]. destruct (IsForbidden e); [|by left].
  right. split; [|done]. apply (markFalse_get _ _ _ _ projected_dependent).
Qed.

(** C16 (reporting). [PatchWorkloads] reports the projection as done only when
    nothing was reported in this reconcile before: a workload that was not
    found, or that may not be read or updated, stays reported. Otherwise the
    condition is the one before, or that updates are forbidden. *)
Theorem PatchWorkloads_reports st c :
  conditionOf Projected (st_Resource st) = Some c ->
  let '(st', res) := PatchWorkloads_Sync st in
  (res = Done false /\ cond_Status c = "Unknown" /\ cond_Reason c = "Initializing" /\
   conditionOf Projected (st_Resource st') = Some (mkCondition Projected "True" "WorkloadProjected" "")) \/
  conditionOf Projected (st_Resource st') = Some c \/
  conditionOf Projected (st_Resource st') = Some (mkCondition Projected "False" "WorkloadForbidden"
    "the controller does not have permission to update the workloads").
Proof.
  intros Hc. unfold PatchWorkloads_Sync. destruct (negb _); [by right; left|].
  pose proof (patchEach_resource (zip (RetrieveWorkloads st) (RetrieveProjectedWorkloads st)) st) as Hres.
  destruct (patchEach _ st) as [st' [r|]]; cbn in Hres.
  - destruct Hres as [-> |[Hf _]]; [by right; left|by right; right].
  - destruct Hres as [Heq|[_ ?]]; [|done].
    change (GetCondition Projected (sb_Status (st_Resource st'))) with
      (conditionOf Projected (st_Resource st')).
    rewrite Heq, Hc, unknown_status. destruct (String.eqb_spec (cond_Status c) "Unknown") as [Hs|Hs];
      [|right; left; by rewrite Heq].
    destruct (String.eqb_spec (cond_Reason c) "Initializing") as [Hr|Hr];
      [|right; left; by rewrite Heq].
    left. split_and!; try done. apply (markTrue_get _ _ _ _ projected_dependent).
Qed.

(** The loop submits the pairs from the first on, each of the same version. *)
Lemma patchEach_submits pairs st :
  exists n, st_Managed (patchEach pairs st).1 = (st_Managed st ++ take n pairs)%list /\
    Forall sameVersion (take n pairs).
Proof.
  revert st. induction pairs as [|[w d] pairs IH]; intros st; [by exists 0; rewrite app_nil_r|].
  cbn [patchEach]. destruct (_ || _) eqn:Ev; [by exists 0; rewrite app_nil_r|].
  apply orb_false_elim in Ev as [Hu%negb_false_iff%String.eqb_eq Hr%negb_false_iff%String.eqb_eq].
  assert (exists n, st_Managed (record w d st) = (st_Managed st ++ take n ((w, d) :: pairs))%list /\
    Forall sameVersion (take n ((w, d) :: pairs))) as Hone by (exists 1; split; [done|by repeat constructor]).
  destruct (IH (record w d st)) as (n & Hn & Hv).
  assert (exists n, st_Managed (patchEach pairs (record w d st)).1 =
    (st_Managed st ++ take n ((w, d) :: pairs))%list /\ Forall sameVersion (take n ((w, d) :: pairs))) as Hmore.
  { exists (S n). split; [rewrite Hn; cbn; by rewrite <-(assoc_L (++)%list)|by constructor]. }
  destruct (Manage _ _ _ _) as [j|e|s']; [done| |done].
  destruct (IsNotFound e); [done|]. by destruct (IsForbidden e).
Qed.

Lemma PatchWorkloads_submits st :
  exists n, let pairs := zip (RetrieveWorkloads st) (RetrieveProjectedWorkloads st) in
    st_Managed (PatchWorkloads_Sync st).1 = (st_Managed st ++ take n pairs)%list /\
    Forall sameVersion (take n pairs).
Proof.
  unfold PatchWorkloads_Sync. destruct (negb _); [by exists 0; rewrite app_nil_r|].
  destruct (patchEach_submits (zip (RetrieveWorkloads st) (RetrieveProjectedWorkloads st)) st) as (n & Hn & Hv).
  exists n. destruct (patchEach _ st) as [st' [r|]]; [done|]. cbn in Hn |- *.
  destruct (ConditionIsUnknown _); [|done]. destruct (GetCondition _ _) as [c|]; [|done].
  by destruct (String.eqb _ _).
Qed.

(** ** Projecting and patching *)

(** A workload that the projector can handle under every binding, with a
    mapping that stays clear of the identity of the workload. *)
Definition Projectable (w : json) : Prop :=
  exists mapping lay m, Prepared w mapping lay w m /\
    forall p key, p ∈ layoutPaths lay -> key ∈ ["uid"; "resourceVersion"]%list ->
      disjoint p (fields ["metadata"; key]%list) = true.

(** The conversion of an unstructured workload is the identity on its tree. *)
Class UnstructuredLaws : Prop := {
  to_tree (w : json) : ToUnstructured w = Ok w;
  from_tree (u w : json) : FromUnstructured u w = Ok u;
}.

Context `{!UnstructuredLaws} `{!AccessorsLaws}.

Definition rewriteFor (b : ServiceBinding) : metaPodTemplate -> metaPodTemplate :=
  if isDeleting b then unproject b else project b.

Lemma projectOne_ok b w :
  Projectable w ->
  exists w', projectOne b w = Ok w' /\ sameVersion (w, w') /\
    forall mapping m, LookupMapping w = Ok mapping -> readTemplate mapping w = Ok m ->
      readTemplate mapping w' = Ok (rewriteFor b m).
Proof.
  intros (mapping & lay & m & Hp & Hfree).
  destruct (rewrites_spec (rewriteFor b) w mapping lay w m Hp) as (u' & Hu' & _ & Hr & _ & Hsame).
  { unfold rewriteFor. destruct (isDeleting b); [apply unproject_names|apply project_names]. }
  exists u'. split_and!.
  - rewrite <-(from_tree u' w), <-Hu'. unfold projectOne, rewriteFor. by destruct (isDeleting b).
  - split; cbn; rewrite ?uid_at, ?resourceVersion_at; unfold metaString;
      rewrite Hsame; try done; intros p Hpp; apply Hfree; set_solver.
  - intros mapping' m' Hm' Hr'. destruct Hp as [Hm _ _ _ _ Hrm].
    assert (mapping' = mapping) as -> by congruence. congruence.
Qed.

Lemma projectAll_ok b ws :
  Forall Projectable ws ->
  exists ws', mapM (projectOne b) ws = Ok ws' /\ length ws' = length ws /\
    Forall sameVersion (zip ws ws') /\
    Forall2 (fun w w' => projectOne b w = Ok w' /\
      forall mapping m, LookupMapping w = Ok mapping -> readTemplate mapping w = Ok m ->
        readTemplate mapping w' = Ok (rewriteFor b m)) ws ws'.
Proof.
  induction 1 as [|w ws Hw Hws (ws' & Hm & Hlen & Hv & Hf)]; [by exists []|].
  destruct (projectOne_ok b w Hw) as (w' & Hw' & Hvw & Hrw).
  exists (w' :: ws'). cbn. rewrite Hw'. cbn. rewrite Hm. cbn.
  split_and!; [done|by rewrite Hlen|by constructor|by constructor].
Qed.

(** No mismatch. When the stashed workloads can be projected,
    [ProjectBinding] succeeds, and [PatchWorkloads] does not panic afterwards:
    there is one projected workload for each workload, of the same version. *)
Lemma PatchWorkloads_no_panic st c :
  Forall Projectable (RetrieveWorkloads st) ->
  conditionOf Projected (st_Resource st) = Some c ->
  (forall l b w d s, Manage l b w d <> Panic s) ->
  exists st', ProjectBinding_Sync st = (st', Done false) /\
    forall s, (PatchWorkloads_Sync st').2 <> Panicked s.
Proof.
  intros Hws Hc Hm. destruct (projectAll_ok (st_Resource st) _ Hws) as (ws' & Hp & Hlen & Hv & _).
  exists (StashProjectedWorkloads ws' st). split.
  { unfold ProjectBinding_Sync. by rewrite Hp. }
  intros s. unfold PatchWorkloads_Sync.
  change (RetrieveWorkloads (StashProjectedWorkloads ws' st)) with (RetrieveWorkloads st).
  change (RetrieveProjectedWorkloads (StashProjectedWorkloads ws' st)) with ws'.
  rewrite Hlen, Nat.eqb_refl. cbn [negb].
  pose proof (patchEach_no_mismatch (zip (RetrieveWorkloads st) ws')
    (StashProjectedWorkloads ws' st) s Hv (fun l b w d => Hm l b w d s)) as Hn.
  pose proof (patchEach_resource (zip (RetrieveWorkloads st) ws') (StashProjectedWorkloads ws' st)) as Hres.
  destruct (patchEach _ _) as [st' [r|]]; cbn in *; [congruence|].
  destruct Hres as [Heq|[_ ?]]; [|done].
  change (GetCondition Projected (sb_Status (st_Resource st'))) with
    (conditionOf Projected (st_Resource st')).
  rewrite Heq. cbn. rewrite Hc, unknown_status.
  destruct (String.eqb _ _); [|done]. by destruct (String.eqb _ _).
Qed.

Lemma patchEach_all pairs st :
  Forall sameVersion pairs -> (forall l b w d, exists j, Manage l b w d = Ok j) ->
  patchEach pairs st =
  (mkReconcile (st_Resource st) (st_Workloads st) (st_Projected st) (st_Managed st ++ pairs)
    (st_Finalizers st), None)%list.
Proof.
  intros Hv Hm. revert st. induction Hv as [|[w d] pairs [Hu Hr] Hv IH]; intros st.
  { cbn. rewrite app_nil_r. by destruct st. }
  cbn [patchEach]. cbn in Hu, Hr. rewrite Hu, Hr, !String.eqb_refl. cbn [negb orb].
  destruct (Hm (st_Managed st) (st_Resource st) w d) as [j ->]. rewrite IH.
  unfold record. cbn. by rewrite <-(assoc_L (++)%list).
Qed.

(** The tail of the sequence, once the workloads are known. *)
Lemma project_and_patch st ws :
  st_Workloads st = Some ws -> Forall Projectable ws ->
  conditionOf Projected (st_Resource st) = Some (mkCondition Projected "Unknown" "Initializing" "") ->
  (forall l b w d, exists j, Manage l b w d = Ok j) ->
  exists ws', andThen (ProjectBinding_Sync st) PatchWorkloads_Sync =
    (mkReconcile (markTrue Projected "WorkloadProjected" "" (st_Resource st)) (Some ws) (Some ws')
       (st_Managed st ++ zip ws ws') (st_Finalizers st), Done false)%list /\
    Forall2 (fun w w' => projectOne (st_Resource st) w = Ok w' /\
      forall mapping m, LookupMapping w = Ok mapping -> readTemplate mapping w = Ok m ->
        readTemplate mapping w' = Ok (rewriteFor (st_Resource st) m)) ws ws'.
Proof.
  intros Hws Hpw Hc Hm. destruct (projectAll_ok (st_Resource st) ws Hpw) as (ws' & Hp & Hlen & Hv & Hf).
  exists ws'. split; [|done].
  assert (RetrieveWorkloads st = ws) as Hr by (unfold RetrieveWorkloads; by rewrite Hws).
  unfold ProjectBinding_Sync. rewrite Hr, Hp. cbn [andThen]. unfold PatchWorkloads_Sync.
  change (RetrieveWorkloads (StashProjectedWorkloads ws' st)) with (RetrieveWorkloads st).
  change (RetrieveProjectedWorkloads (StashProjectedWorkloads ws' st)) with ws'.
  rewrite Hr, Hlen, Nat.eqb_refl. cbn [negb].
  rewrite (patchEach_all _ _ Hv Hm). cbn [st_Resource StashProjectedWorkloads].
  change (GetCondition Projected (sb_Status ?b)) with (conditionOf Projected b).
  rewrite Hc, unknown_status. cbn. by rewrite Hws.
Qed.

(** ** A whole reconcile *)

Context `{RuntimeLaws}.

Lemma andThen_ext r k k' : (forall st, k st = k' st) -> andThen r k = andThen r k'.
Proof. intros Hk. destruct r as [st [q|e|s]]; cbn; [by rewrite Hk|done..]. Qed.

Lemma andThen_done r : andThen r (fun st => (st, Done false)) = r.
Proof. destruct r as [st [q|e|s]]; cbn; [by rewrite orb_false_r|done..]. Qed.

Lemma run_steps st :
  Reconcile reconcileSteps st =
  andThen (if isDeleting (st_Resource st) then (st, Done false) else ResolveBindingSecret_Sync st)
    (fun st => andThen (ResolveWorkloads_Sync st)
      (fun st => andThen (ProjectBinding_Sync st) PatchWorkloads_Sync)).
Proof.
  unfold reconcileSteps. rewrite reconcile_cons. unfold ResolveBindingSecret at 1.
  rewrite reconcile_sync. cbn [negb]. rewrite andb_true_r. apply andThen_ext. intros st1.
  rewrite reconcile_cons. unfold ResolveWorkloads at 1. rewrite reconcile_sync. cbn [negb].
  rewrite andb_false_r. apply andThen_ext. intros st2.
  rewrite reconcile_cons. unfold ProjectBinding at 1. rewrite reconcile_sync. cbn [negb].
  rewrite andb_false_r. apply andThen_ext. intros st3.
  rewrite reconcile_cons. unfold PatchWorkloads at 1. rewrite reconcile_sync. cbn [negb].
  rewrite andb_false_r. etrans; [apply andThen_ext, reconcile_nil|apply andThen_done].
Qed.

(** The binding that a reconcile projects: the one with the secret of its service,
    unless it is being deleted. *)
Definition resolved (st : reconcileState) : reconcileState * syncResult :=
  if isDeleting (st_Resource st) then (st, Done false) else ResolveBindingSecret_Sync st.

Lemma resolved_frame st :
  let st' := (resolved st).1 in
  sb_Spec (st_Resource st') = sb_Spec (st_Resource st) /\ sb_Meta (st_Resource st') = sb_Meta (st_Resource st) /\
  st_Workloads st' = st_Workloads st /\ st_Projected st' = st_Projected st /\ st_Managed st' = st_Managed st.
Proof.
  unfold resolved, ResolveBindingSecret_Sync. destruct (isDeleting _); [done|].
  destruct (LookupBindingSecret _) as [n|e|s]; [by destruct (negb _)| |done].
  destruct (IsNotFound e); [done|]. by destruct (IsForbidden e).
Qed.

Lemma ResolveWorkloads_stash st :
  let st' := (ResolveWorkloads_Sync st).1 in
  st_Projected st' = st_Projected st /\ st_Managed st' = st_Managed st /\
  ((exists ws, LookupWorkloads (workloadRef (st_Resource st))
      (wr_Selector (sbs_Workload (sb_Spec (st_Resource st)))) = Ok ws /\
      st_Workloads st' = Some ws /\ st_Resource st' = st_Resource st) \/
   st_Workloads st' = st_Workloads st).
Proof.
  unfold ResolveWorkloads_Sync. destruct (LookupWorkloads _ _) as [ws|e|s] eqn:E.
  - split_and!; [done..|]. left. by exists ws.
  - destruct (IsNotFound e); [by split_and!; auto|]. destruct (IsForbidden e); by split_and!; auto.
  - by split_and!; auto.
Qed.

Lemma mapM_Forall2 {A B} (f : A -> outcome B) l k :
  mapM f l = Ok k -> Forall2 (fun x y => f x = Ok y) l k.
Proof.
  revert k. induction l as [|x l IH]; intros k; cbn; [by intros [= <-]|].
  destruct (f x) as [y|e|s] eqn:E; [|done..]. cbn. destruct (mapM f l) as [ys|e|s]; [|done..].
  intros [= <-]. constructor; [done|by apply IH].
Qed.

(** The end of the sequence, whatever the workloads are. *)
Lemma project_submits st :
  let b := st_Resource st in
  let ws := RetrieveWorkloads st in
  let st' := (andThen (ProjectBinding_Sync st) PatchWorkloads_Sync).1 in
  st_Managed st' = st_Managed st \/
  exists ws' n, Forall2 (fun w w' => projectOne b w = Ok w') ws ws' /\
    st_Managed st' = (st_Managed st ++ take n (zip ws ws'))%list /\ Forall sameVersion (take n (zip ws ws')).
Proof.
  cbv zeta. unfold ProjectBinding_Sync. destruct (mapM _ _) as [ws'|e|s] eqn:Ep; [|by left..].
  right. exists ws'. cbn [andThen].
  destruct (PatchWorkloads_submits (StashProjectedWorkloads ws' st)) as (n & Hn & Hv).
  exists n. split_and!; [by apply mapM_Forall2| |exact Hv].
  destruct (PatchWorkloads_Sync _). exact Hn.
Qed.

(** What a reconcile leaves behind when every workload was handled. *)
Definition handled (b : ServiceBinding) (ws : list json) (st st' : reconcileState) : Prop :=
  exists ws', st_Managed st' = (st_Managed st ++ zip ws ws')%list /\
    Forall2 (fun w w' => projectOne b w = Ok w' /\
      forall mapping m, LookupMapping w = Ok mapping -> readTemplate mapping w = Ok m ->
        readTemplate mapping w' = Ok (rewriteFor b m)) ws ws' /\
    conditionOf Projected (st_Resource st') = Some (mkCondition Projected "True" "WorkloadProjected" "").

(** C14 (reconcile). When the service exposes a secret and the workloads can be
    projected and updated, one reconcile records the secret, projects the
    binding with this secret into every workload, hands each workload with its
    projection to the client, in order and once, and ends with both conditions
    true and no request to run again. *)
Theorem reconcile_projects st secret ws :
  let b := st_Resource st in
  isDeleting b = false -> LookupBindingSecret (serviceRef b) = Ok secret -> secret <> "" ->
  LookupWorkloads (workloadRef b) (wr_Selector (sbs_Workload (sb_Spec b))) = Ok ws ->
  Forall Projectable ws ->
  conditionOf Projected b = Some (mkCondition Projected "Unknown" "Initializing" "") ->
  (forall l b w d, exists j, Manage l b w d = Ok j) ->
  exists st' b', Reconcile reconcileSteps st = (st', Done false) /\
    secretName b' = secret /\ sb_Spec b' = sb_Spec b /\ sb_Meta b' = sb_Meta b /\
    handled b' ws st st' /\
    secretName (st_Resource st') = secret /\
    conditionOf Available (st_Resource st') =
      Some (mkCondition Available "True" "ResolvedBindingSecret" "").
Proof.
  cbn zeta. intros Hd Hsec Hne Hws Hpw Hc Hm. rewrite run_steps, Hd.
  unfold ResolveBindingSecret_Sync at 1. rewrite Hsec, (proj2 (String.eqb_neq _ _) Hne). cbn [negb].
  set (b' := set_Binding (Some (mkSecretReference secret))
    (markTrue Available "ResolvedBindingSecret" "" (st_Resource st))).
  cbn [andThen orb]. unfold ResolveWorkloads_Sync at 1. cbn [st_Resource set_Resource].
  change (workloadRef b') with (workloadRef (st_Resource st)).
  change (sb_Spec b') with (sb_Spec (st_Resource st)). rewrite Hws. cbn [andThen orb].
  destruct (project_and_patch (StashWorkloads ws (set_Resource b' st)) ws) as (ws' & -> & Hf);
    [done..| |done|].
  { change (conditionOf Projected b' = Some (mkCondition Projected "Unknown" "Initializing" "")).
    unfold b'. rewrite conditionOf_set_Binding, <-Hc.
    apply mark_other; [apply available_dependent|apply projected_dependent|done]. }
  cbn [orb]. do 2 eexists. split; [done|]. split; [|split; [|split; [|split; [|split]]]].
  - by instantiate (1 := b').
  - done.
  - done.
  - exists ws'. split_and!; [done|exact Hf|]. apply (markTrue_get _ _ _ _ projected_dependent).
  - done.
  - cbn [st_Resource StashWorkloads set_Resource].
    rewrite (proj1 (mark_other Projected Available _ _ b' projected_dependent available_dependent
      ltac:(discriminate))).
    unfold b'. rewrite conditionOf_set_Binding. apply (markTrue_get _ _ _ _ available_dependent).
Qed.

(** Finalization. While a binding is being deleted the service is not
    looked up at all, and the binding is removed from every workload that can
    be projected, with the secret that it recorded before. *)
Lemma reconcile_unprojects st ws :
  let b := st_Resource st in
  isDeleting b = true ->
  LookupWorkloads (workloadRef b) (wr_Selector (sbs_Workload (sb_Spec b))) = Ok ws ->
  Forall Projectable ws ->
  conditionOf Projected b = Some (mkCondition Projected "Unknown" "Initializing" "") ->
  (forall l b w d, exists j, Manage l b w d = Ok j) ->
  exists st', Reconcile reconcileSteps st = (st', Done false) /\ handled b ws st st' /\
    (forall w, projectOne b w = Unproject b w) /\
    sbst_Binding (sb_Status (st_Resource st')) = sbst_Binding (sb_Status b) /\
    conditionOf Available (st_Resource st') = conditionOf Available b.
Proof.
  cbn zeta. intros Hd Hws Hpw Hc Hm. rewrite run_steps, Hd. cbn [andThen orb].
  unfold ResolveWorkloads_Sync at 1. rewrite Hws. cbn [andThen orb].
  destruct (project_and_patch (StashWorkloads ws st) ws) as (ws' & -> & Hf); [done..|].
  eexists. split; [done|]. split; [|split; [|split; [done|]]].
  - exists ws'. split_and!; [done|exact Hf|]. apply (markTrue_get _ _ _ _ projected_dependent).
  - intros w. unfold projectOne. by rewrite Hd.
  - apply (mark_other Projected Available _ _ (st_Resource st) projected_dependent available_dependent
      ltac:(discriminate)).
Qed.

Lemma reconcile_submits st :
  st_Workloads st = None -> st_Managed st = [] ->
  let b := st_Resource (resolved st).1 in
  let st' := (Reconcile reconcileSteps st).1 in
  sb_Spec b = sb_Spec (st_Resource st) /\ sb_Meta b = sb_Meta (st_Resource st) /\
  (st_Managed st' = [] \/
   exists ws ws' n, LookupWorkloads (workloadRef b) (wr_Selector (sbs_Workload (sb_Spec b))) = Ok ws /\
     Forall2 (fun w w' => projectOne b w = Ok w') ws ws' /\
     st_Managed st' = take n (zip ws ws') /\ Forall sameVersion (st_Managed st')).
Proof.
  cbv zeta. intros Hw Hm. rewrite run_steps. fold (resolved st).
  destruct (resolved_frame st) as (Hs & Hme & Hw1 & _ & Hm1). split_and!; [done..|].
  destruct (resolved st) as [st1 [q1|e|s]]; cbn in Hm1, Hw1; [|left; cbn; congruence..].
  cbn [fst andThen]. pose proof (ResolveWorkloads_stash st1) as Hst.
  destruct (ResolveWorkloads_Sync st1) as [st2 [q2|e|s]]; cbn in Hst; destruct Hst as (_ & Hm2 & Hws);
    [|left; cbn; congruence..].
  cbn [fst andThen]. pose proof (project_submits st2) as Hp. cbv zeta in Hp.
  destruct (andThen (ProjectBinding_Sync st2) PatchWorkloads_Sync) as [st3 r3]. cbn [fst] in Hp |- *.
  rewrite Hm2, Hm1, Hm in Hp. destruct Hp as [?|(ws' & n & Hf & Hn & Hv)]; [by left|].
  cbn [app] in Hn. destruct Hws as [(ws & Hl & Hws2 & Hr2)|Hws2].
  - right. exists ws, ws', n.
    assert (RetrieveWorkloads st2 = ws) as Hrw by (unfold RetrieveWorkloads; by rewrite Hws2).
    rewrite Hrw in Hf, Hn, Hv. rewrite Hr2 in Hf. by rewrite Hn.
  - left. assert (RetrieveWorkloads st2 = []) as Hrw by (unfold RetrieveWorkloads; by rewrite Hws2, Hw1, Hw).
    rewrite Hrw in Hn. rewrite Hn. by destruct n.
Qed.

(** C15 (writes). Whatever fails during a reconcile, what it submits to the client
    are projections: of the workloads that the binding refers to, in their
    order from the first on, each once, computed by [projectOne] with the
    binding as it is after its secret was resolved, and each with the UID and
    the resource version that was read. *)
Theorem reconcile_writes st :
  st_Workloads st = None -> st_Managed st = [] ->
  let b := st_Resource (resolved st).1 in
  let st' := (Reconcile reconcileSteps st).1 in
  sb_Spec b = sb_Spec (st_Resource st) /\ sb_Meta b = sb_Meta (st_Resource st) /\
  (st_Managed st' = [] \/
   exists ws ws' n, LookupWorkloads (workloadRef b) (wr_Selector (sbs_Workload (sb_Spec b))) = Ok ws /\
     Forall2 (fun w w' => projectOne b w = Ok w') ws ws' /\
     st_Managed st' = take n (zip ws ws') /\ Forall sameVersion (st_Managed st')).
Proof. apply reconcile_submits. Qed.
End facts.
