(* ===== verification/Finalization.v ===== *)
(** * Finalization of service bindings

    [ServiceBindingReconciler] wraps its steps in a finalizer, which keeps a
    deleted binding until it was removed from its workloads. Adding and
    clearing the finalizer is the business of reconciler-runtime; what it
    documents is the law [reconcile_finalizer]. Here are the life of a binding
    as a sequence of edits and reconciles, the proof that the finalizer guards
    every projection, and the condition under which it is released. *)

From S2P Require Import Prelude Json Types Kube MetaPodTemplate Layout Workload Binding Projector Resolver.
From S2P Require Import Lifecycle ServiceBindingController ControllerFacts.
Local Open Scope string_scope.

(** Patching the finalizers of the resource, which may fail. *)
Class FinalizerClient := {
  AddFinalizer : string -> reconcileState -> option error;
  ClearFinalizer : string -> reconcileState -> option error;
}.

Definition deletingAt (st : reconcileState) : bool := isDeleting (st_Resource st).

(** The finalizer is added before the nested reconciler runs, unless the
    resource is terminating; it is cleared when the resource is terminating and
    the nested reconciler returned without an error. *)
Definition withFinalizer `{FinalizerClient} (F : string)
    (run : reconcileState -> reconcileState * syncResult) (st : reconcileState) :
    reconcileState * syncResult :=
  let cleared '(st', res) :=
    match res with
    | Done q =>
        if deletingAt st' then
          match ClearFinalizer F st' with
          | None => (set_Finalizers (st_Finalizers st' ∖ {[F]}) st', Done q)
          | Some e => (st', Failed e)
          end
        else (st', Done q)
    | _ => (st', res)
    end in
  if deletingAt st then cleared (run st)
  else match AddFinalizer F st with
       | None => cleared (run (set_Finalizers ({[F]} ∪ st_Finalizers st) st))
       | Some e => (st, Failed e)
       end.

Class FinalizerLaws `{Runtime} `{FinalizerClient} : Prop :=
  reconcile_finalizer F r st : Reconcile (WithFinalizer F r) st = withFinalizer F (Reconcile r) st.

Section finalization.
Context `{JsonPath}.
Context `{CodecLaws (list EnvVar)} `{CodecLaws (list VolumeMount)} `{CodecLaws (list Volume)}.
Context `{UnstructuredConverter json} `{LabelSelectors} `{RESTMapper} `{Cluster}.
Context `{ConditionManager} `{!ConditionManagerLaws} `{Accessors} `{WorkloadManager}.
Context `{RuntimeLaws} `{FinalizerClient} `{!FinalizerLaws}.

Abbreviation Projected := ServiceBindingConditionWorkloadProjected.

(** The client updated the workload, or the workload is gone. *)
Definition settled (answer : outcome json) : Prop :=
  match answer with Ok _ => True | Err e => IsNotFound e = true | Panic _ => False end.

(** The answer to the [k]th of the [pairs], submitted after those [before]. *)
Definition answers (before pairs : list (json * json)) (b : ServiceBinding) (k : nat)
    (P : outcome json -> Prop) : Prop :=
  exists w d, pairs !! k = Some (w, d) /\ P (Manage (before ++ take k pairs)%list b w d).

Definition refused (answer : outcome json) : Prop := exists e, answer = Err e /\ IsForbidden e = true.

Definition lookedUp (b : ServiceBinding) : outcome (list json) :=
  LookupWorkloads (workloadRef b) (wr_Selector (sbs_Workload (sb_Spec b))).

(** How a reconcile of the deleted binding [b] that submitted [managed] ends
    without an error: every workload was handed to the client without the
    binding, and the client updated it or did not find it; or there is no such
    workload; or the controller lacks the permission to look the workloads up,
    or to update one of them. *)
Inductive releases (b : ServiceBinding) (managed : list (json * json)) : Prop :=
  | released_all ws ws' :
      lookedUp b = Ok ws -> Forall2 (fun w w' => Unproject b w = Ok w') ws ws' ->
      managed = zip ws ws' -> (forall k, k < length managed -> answers [] managed b k settled) ->
      releases b managed
  | released_absent e : lookedUp b = Err e -> IsNotFound e = true -> managed = [] -> releases b managed
  | released_unreadable e : lookedUp b = Err e -> IsForbidden e = true -> managed = [] -> releases b managed
  | released_refused ws k :
      lookedUp b = Ok ws -> length managed = S k -> answers [] managed b k refused -> releases b managed.

(** ** The steps keep the finalizers and the metadata *)

Definition frame (st st' : reconcileState) : Prop :=
  st_Finalizers st' = st_Finalizers st /\ deletingAt st' = deletingAt st.

#[local] Instance frame_preorder : PreOrder frame.
Proof. split; [by intros st|intros st st' st'' [? ?] [? ?]; split; congruence]. Qed.

Lemma frame_andThen r k st :
  frame st r.1 -> (forall st', frame st st' -> frame st (k st').1) -> frame st (andThen r k).1.
Proof.
  intros Hr Hk. destruct r as [st' [q|e|s]]; cbn in *; [|done..].
  specialize (Hk st' Hr). by destruct (k st').
Qed.

Lemma patchEach_frame pairs st : frame st (patchEach pairs st).1.
Proof.
  revert st. induction pairs as [|[w d] pairs IH]; intros st; [done|]. cbn [patchEach].
  destruct (_ || _); [done|].
  assert (frame st (patchEach pairs (record w d st)).1) by (by transitivity (record w d st)).
  destruct (Manage _ _ _ _) as [j|e|s]; [done| |done]. destruct (IsNotFound e); [done|].
  by destruct (IsForbidden e).
Qed.

Lemma PatchWorkloads_frame st : frame st (PatchWorkloads_Sync st).1.
Proof.
  unfold PatchWorkloads_Sync. destruct (negb _); [done|].
  pose proof (patchEach_frame (zip (RetrieveWorkloads st) (RetrieveProjectedWorkloads st)) st) as Hf.
  destruct (patchEach _ _) as [st' [r|]]; [done|]. destruct (ConditionIsUnknown _); [|done].
  destruct (GetCondition _ _) as [c|]; [|done]. by destruct (String.eqb _ _).
Qed.

Lemma ProjectBinding_frame st : frame st (ProjectBinding_Sync st).1.
Proof. unfold ProjectBinding_Sync. by destruct (mapM _ _). Qed.

Lemma ResolveWorkloads_frame st : frame st (ResolveWorkloads_Sync st).1.
Proof.
  unfold ResolveWorkloads_Sync. destruct (LookupWorkloads _ _) as [ws|e|s]; [done| |done].
  destruct (IsNotFound e); [done|]. by destruct (IsForbidden e).
Qed.

Lemma ResolveBindingSecret_frame st : frame st (ResolveBindingSecret_Sync st).1.
Proof.
  unfold ResolveBindingSecret_Sync. destruct (LookupBindingSecret _) as [s|e|s]; [| |done].
  - by destruct (negb _).
  - destruct (IsNotFound e); [done|]. by destruct (IsForbidden e).
Qed.

Lemma steps_frame st : frame st (Reconcile reconcileSteps st).1.
Proof.
  rewrite run_steps. apply frame_andThen.
  { destruct (isDeleting _); [done|apply ResolveBindingSecret_frame]. }
  intros st1 F1. apply frame_andThen; [by rewrite F1; apply ResolveWorkloads_frame|].
  intros st2 F2. apply frame_andThen; [by rewrite F2; apply ProjectBinding_frame|].
  intros st3 F3. rewrite F3. apply PatchWorkloads_frame.
Qed.

(** ** How the steps end *)

(** The loop of [PatchWorkloads] ended without an error: it handed every pair to
    the client and all of them were settled, or it stopped at the first refusal. *)
Definition loopEnd (before pairs : list (json * json)) (b : ServiceBinding) (r : option syncResult)
    (managed : list (json * json)) : Prop :=
  match r with
  | None => managed = (before ++ pairs)%list /\ forall k, k < length pairs -> answers before pairs b k settled
  | Some (Done _) => exists k, managed = (before ++ take (S k) pairs)%list /\ k < length pairs /\
                       answers before pairs b k refused
  | Some _ => True
  end.

Lemma answers_cons before p pairs b k P :
  answers (before ++ [p])%list pairs b k P -> answers before (p :: pairs) b (S k) P.
Proof. intros (w & d & Hp & Ha). exists w, d. split; [done|]. by rewrite <-(assoc_L (++)%list) in Ha. Qed.

Lemma loopEnd_cons before w d pairs b r managed :
  settled (Manage before b w d) -> loopEnd (before ++ [(w, d)])%list pairs b r managed ->
  loopEnd before ((w, d) :: pairs) b r managed.
Proof.
  intros Hs. destruct r as [[q|e|s]|]; cbn [loopEnd]; [|done..|].
  - intros (k & -> & Hl & Ha%answers_cons). exists (S k). rewrite <-(assoc_L (++)%list).
    split_and!; [done|cbn; lia|done].
  - intros (-> & Ha). split; [by rewrite <-(assoc_L (++)%list)|].
    intros [|k] Hl; [by exists w, d; rewrite app_nil_r|apply answers_cons, Ha; cbn in Hl; lia].
Qed.

Lemma patchEach_ends pairs st :
  loopEnd (st_Managed st) pairs (st_Resource st) (patchEach pairs st).2 (st_Managed (patchEach pairs st).1).
Proof.
  revert st. induction pairs as [|[w d] pairs IH]; intros st; cbn [patchEach].
  { split; [by rewrite app_nil_r|intros k Hk; cbn in Hk; lia]. }
  destruct (_ || _); [done|]. destruct (Manage _ _ _ _) as [j|e|s] eqn:E; [| |done].
  - apply loopEnd_cons; [by rewrite E|apply (IH (record w d st))].
  - destruct (IsNotFound e) eqn:En; [apply loopEnd_cons; [by rewrite E|apply (IH (record w d st))]|].
    destruct (IsForbidden e) eqn:Ef; [|done]. exists 0. split_and!; [done|cbn; lia|].
    exists w, d. split; [done|]. rewrite app_nil_r, E. by exists e.
Qed.

(** What a submitted pair was answered does not depend on the pairs after it. *)
Lemma answers_take before pairs b k n P :
  k < n -> answers before pairs b k P -> answers before (take n pairs) b k P.
Proof.
  intros Hk (w & d & Hp & Ha). exists w, d. rewrite lookup_take_lt, take_take by done.
  by rewrite Nat.min_l by lia.
Qed.

(** The tail of the steps, with the workloads [ws] and nothing submitted yet. *)
Lemma tail_ends st ws st' q :
  RetrieveWorkloads st = ws -> st_Managed st = [] ->
  andThen (ProjectBinding_Sync st) PatchWorkloads_Sync = (st', Done q) ->
  exists ws', Forall2 (fun w w' => projectOne (st_Resource st) w = Ok w') ws ws' /\
    let pairs := zip ws ws' in
    ((st_Managed st' = pairs /\ forall k, k < length pairs -> answers [] pairs (st_Resource st) k settled) \/
     exists k, length (st_Managed st') = S k /\ answers [] (st_Managed st') (st_Resource st) k refused).
Proof.
  intros Hws Hm. unfold ProjectBinding_Sync. rewrite Hws. destruct (mapM _ _) as [ws'|e|s] eqn:Ep; [|done..].
  intros Hrun. exists ws'. split; [by apply mapM_Forall2|]. cbn zeta.
  pose proof (patchEach_ends (zip ws ws') (StashProjectedWorkloads ws' st)) as He.
  cbn [andThen] in Hrun. unfold PatchWorkloads_Sync in Hrun.
  change (RetrieveWorkloads (StashProjectedWorkloads ws' st)) with (RetrieveWorkloads st) in Hrun.
  change (RetrieveProjectedWorkloads (StashProjectedWorkloads ws' st)) with ws' in Hrun.
  rewrite Hws in Hrun. cbn [st_Managed st_Resource StashProjectedWorkloads] in He. rewrite Hm in He.
  destruct (negb _); [done|]. destruct (patchEach _ _) as [st2 [[q2|e|s]|]]; cbn [fst snd loopEnd] in He; [|done..|].
  - right. assert (st' = st2) as -> by congruence. destruct He as (k & -> & Hl & Ha). exists k.
    split; [cbn; rewrite length_take; lia|]. apply answers_take; [lia|done].
  - left. replace (st_Managed st') with (st_Managed st2); [exact He|].
    destruct (ConditionIsUnknown _); [|congruence]. destruct (GetCondition _ _) as [c|]; [|done].
    destruct (String.eqb _ _); cbn in Hrun; by inversion Hrun.
Qed.

(** A reconcile of a deleted binding that ends without an error. *)
Lemma deleting_ends b fs st' q :
  isDeleting b = true -> Reconcile reconcileSteps (mkReconcile b None None [] fs) = (st', Done q) ->
  releases b (st_Managed st').
Proof.
  intros Hd. rewrite run_steps. cbn [st_Resource]. rewrite Hd. cbn [andThen orb].
  unfold ResolveWorkloads_Sync. cbn [st_Resource]. fold (lookedUp b).
  destruct (lookedUp b) as [ws|e|s] eqn:El; [| |done].
  - cbn [andThen orb]. destruct (andThen _ _) as [st2 [q2|e|s]] eqn:Ht; intros [= -> _].
    apply (tail_ends _ ws) in Ht as (ws' & Hf & [[Hm Ha]|(k & Hl & Ha)]); [| |done..].
    + eapply released_all; [exact El| |exact Hm|by rewrite Hm].
      eapply Forall2_impl; [exact Hf|]. intros w w'. unfold projectOne. cbn. by rewrite Hd.
    + by eapply released_refused.
  - assert (forall b' : ServiceBinding, forall st2 q2,
      andThen (ProjectBinding_Sync (mkReconcile b' None None [] fs)) PatchWorkloads_Sync = (st2, Done q2) ->
      st_Managed st2 = []) as Hnone.
    { intros b' st2 q2 Ht. pose proof (project_submits (mkReconcile b' None None [] fs)) as Hp.
      rewrite Ht in Hp. destruct Hp as [Hp|(ws' & n & Hf & Hp & _)]; [done|].
      cbn in Hf, Hp. by destruct n. }
    destruct (IsNotFound e) eqn:En; [|destruct (IsForbidden e) eqn:Ef; [|done]];
      cbn [andThen set_Resource st_Workloads st_Projected st_Managed st_Finalizers];
      destruct (andThen _ _) as [st2 [q2|e'|s]] eqn:Ht; intros [= -> _]; apply Hnone in Ht.
    + by eapply released_absent.
    + by eapply released_unreadable.
Qed.

(** Without workloads, and with a problem reported, the tail changes nothing. *)
Lemma tail_reported st c :
  st_Workloads st = None -> conditionOf Projected (st_Resource st) = Some c -> cond_Status c = "False" ->
  andThen (ProjectBinding_Sync st) PatchWorkloads_Sync = (StashProjectedWorkloads [] st, Done false).
Proof.
  intros Hw Hc Hs. assert (RetrieveWorkloads st = []) as Hr by (unfold RetrieveWorkloads; by rewrite Hw).
  assert (ProjectBinding_Sync st = (StashProjectedWorkloads [] st, Done false)) as ->
    by (unfold ProjectBinding_Sync; by rewrite Hr).
  assert (PatchWorkloads_Sync (StashProjectedWorkloads [] st) = (StashProjectedWorkloads [] st, Done false)) as Hp;
    [|cbn [andThen]; by rewrite Hp].
  unfold PatchWorkloads_Sync. change (RetrieveWorkloads (StashProjectedWorkloads [] st)) with (RetrieveWorkloads st).
  change (RetrieveProjectedWorkloads (StashProjectedWorkloads [] st)) with (@nil json).
  rewrite Hr. cbn [length Nat.eqb negb zip zip_with patchEach].
  change (GetCondition _ _) with (conditionOf Projected (st_Resource st)).
  by rewrite Hc, unknown_status, Hs.
Qed.

(** ** The life of a binding *)

(** A reconcile of a binding and what it submitted to the client. *)
Record reconcileRecord := mkRecord { rr_Resource : ServiceBinding; rr_Managed : list (json * json) }.

(** A binding as it is stored, with its finalizers, and its reconciles, the
    latest first. A binding is created; users and other controllers edit it,
    also to delete it, which cannot be undone, but leave the [finalizer] to the
    reconciler; and it is reconciled as it is stored, after which its status,
    and only that, may be written. *)
Inductive life : ServiceBinding -> gset string -> list reconcileRecord -> Prop :=
  | life_created b fs : life b fs []
  | life_edited b fs h b' fs' :
      life b fs h -> (isDeleting b = true -> isDeleting b' = true) -> (finalizer ∈ fs -> finalizer ∈ fs') ->
      life b' fs' h
  | life_reconciled b fs h b' st' res :
      life b fs h -> Reconcile ServiceBindingReconciler (mkReconcile b None None [] fs) = (st', res) ->
      sb_Spec b' = sb_Spec b -> sb_Meta b' = sb_Meta b ->
      life b' (st_Finalizers st') (mkRecord b (st_Managed st') :: h).

(** The finalizer is on the binding whenever the nested reconciler may project. *)
Lemma reconcile_living b fs st' res :
  isDeleting b = false -> Reconcile ServiceBindingReconciler (mkReconcile b None None [] fs) = (st', res) ->
  (st_Managed st' = [] /\ st_Finalizers st' = fs) \/ finalizer ∈ st_Finalizers st'.
Proof.
  intros Hd. unfold ServiceBindingReconciler. rewrite reconcile_finalizer. unfold withFinalizer.
  change (deletingAt (mkReconcile b None None [] fs)) with (isDeleting b). rewrite Hd. cbn [st_Finalizers].
  destruct (AddFinalizer _ _); [by intros [= <- _]; left|]. intros Hr. right.
  pose proof (steps_frame (set_Finalizers ({[finalizer]} ∪ fs) (mkReconcile b None None [] fs))) as [Hf Hdel].
  change (deletingAt (set_Finalizers _ _)) with (isDeleting b) in Hdel. cbn [set_Finalizers st_Finalizers] in Hf.
  cbn [st_Finalizers st_Resource] in *.
  destruct (Reconcile reconcileSteps _) as [st1 [q|e|s]]; cbn [fst snd] in *; rewrite ?Hdel, ?Hd in Hr;
    inversion Hr; subst; rewrite Hf; set_solver.
Qed.

(** A deleted binding keeps the finalizer, or is released. *)
Lemma reconcile_deleted b fs st' res :
  isDeleting b = true -> Reconcile ServiceBindingReconciler (mkReconcile b None None [] fs) = (st', res) ->
  st_Finalizers st' = fs \/ releases b (st_Managed st').
Proof.
  intros Hd. unfold ServiceBindingReconciler. rewrite reconcile_finalizer. unfold withFinalizer.
  change (deletingAt (mkReconcile b None None [] fs)) with (isDeleting b). rewrite Hd.
  pose proof (steps_frame (mkReconcile b None None [] fs)) as [Hf Hdel].
  change (deletingAt (mkReconcile b None None [] fs)) with (isDeleting b) in Hdel. rewrite Hd in Hdel.
  destruct (Reconcile reconcileSteps _) as [st1 [q|e|s]] eqn:Hr; cbn [fst] in *; rewrite ?Hdel;
    [|by intros [= <- _]; left..].
  destruct (ClearFinalizer _ _); intros [= <- _]; [by left|]. right.
  exact (deleting_ends b fs st1 q Hd Hr).
Qed.

(** The reconcile may have projected the binding into workloads. *)
Definition projecting (r : reconcileRecord) : Prop := isDeleting (rr_Resource r) = false /\ rr_Managed r <> [].

(** Since the latest of the records in [h] that projected, the binding was
    deleted, and a reconcile of the deleted binding released it. *)
Definition releasedSince (h : list reconcileRecord) : Prop :=
  exists newer r older, h = (newer ++ r :: older)%list /\
    Forall (fun r => isDeleting (rr_Resource r) = true) (newer ++ [r]) /\
    releases (rr_Resource r) (rr_Managed r).

Lemma releasedSince_cons r h :
  isDeleting (rr_Resource r) = true -> releasedSince h -> releasedSince (r :: h).
Proof.
  intros Hd (newer & r' & older & -> & Hall & Hrel). exists (r :: newer), r', older.
  split_and!; [done|by constructor|done].
Qed.

Lemma life_guarded b fs h :
  life b fs h ->
  finalizer ∈ fs \/ Forall (fun r => ~ projecting r) h \/ (isDeleting b = true /\ releasedSince h).
Proof.
  induction 1 as [b fs|b fs h b' fs' _ IH Hd Hf|b fs h b' st' res _ IH Hr Hs Hm]; [by right; left|tauto|].
  assert (isDeleting b' = isDeleting b) as Hd' by (unfold isDeleting; by rewrite Hm).
  destruct (isDeleting b) eqn:Hd.
  - destruct (reconcile_deleted _ _ _ _ Hd Hr) as [->|Hrel].
    + destruct IH as [?|[Hn|[_ Hsince]]]; [by left| |].
      * right; left. constructor; [|done]. intros [Hl _]. cbn in Hl. congruence.
      * right; right. split; [done|]. by apply releasedSince_cons.
    + right; right. split; [done|]. exists [], (mkRecord b (st_Managed st')), h. by repeat constructor.
  - destruct (reconcile_living _ _ _ _ Hd Hr) as [[Hnone ->]|?]; [|by left].
    destruct IH as [?|[Hn|[? _]]]; [by left| |done]. right; left. constructor; [|done].
    by intros [_ Hp].
Qed.

(** C5 (safety). Throughout the life of a binding, from the first reconcile
    that submits a projection on the [finalizer] stays on it, so that the API
    server keeps the binding: until the binding is deleted and a reconcile
    of the deleted binding [releases] it, which by then has handed every
    workload that the binding refers to, without the binding, to the client,
    with an answer for each; the exceptions are that the workloads are absent
    and that the permission to read or to update them is missing. *)
Theorem finalizer_guards b fs h r :
  life b fs h -> r ∈ h -> projecting r -> finalizer ∈ fs \/ (isDeleting b = true /\ releasedSince h).
Proof.
  intros Hl Hr Hp. destruct (life_guarded b fs h Hl) as [?|[Hn|?]]; [by left| |by right].
  rewrite Forall_forall in Hn. by destruct (Hn r Hr).
Qed.

(** C18 (error). When the workloads of a deleted binding may not be read, the
    reconcile reports this and ends without an error. So nothing is submitted,
    the projections stay in the workloads, and the finalizer is released all
    the same. *)
Theorem forbidden_releases b fs e :
  isDeleting b = true -> lookedUp b = Err e -> IsForbidden e = true ->
  (forall st, ClearFinalizer finalizer st = None) ->
  exists st', Reconcile ServiceBindingReconciler (mkReconcile b None None [] fs) = (st', Done true) /\
    st_Managed st' = [] /\ st_Finalizers st' = fs ∖ {[finalizer]} /\
    option_map cond_Status (conditionOf Projected (st_Resource st')) = Some "False".
Proof.
  intros Hd Hl Hf Hc. unfold ServiceBindingReconciler. rewrite reconcile_finalizer. unfold withFinalizer.
  change (deletingAt (mkReconcile b None None [] fs)) with (isDeleting b). rewrite Hd, run_steps.
  cbn [st_Resource]. rewrite Hd. cbn [andThen orb]. unfold ResolveWorkloads_Sync. cbn [st_Resource].
  fold (lookedUp b). rewrite Hl, Hf. assert (IsNotFound e = false) as -> by (by destruct e).
  set (message := if String.eqb _ _ then _ else _).
  pose proof (markFalse_get Projected "WorkloadForbidden" message b projected_dependent) as Hcond.
  set (b' := markFalse Projected "WorkloadForbidden" message b) in *. cbn [andThen].
  rewrite (tail_reported (set_Resource b' (mkReconcile b None None [] fs)) _ eq_refl Hcond eq_refl). cbn [orb].
  change (deletingAt _) with (isDeleting b). rewrite Hd, Hc. eexists. split; [done|].
  split_and!; [done..|]. change (option_map cond_Status (conditionOf Projected b') = Some "False").
  by rewrite Hcond.
Qed.

Context `{!UnstructuredLaws} `{!AccessorsLaws}.

(** C6 (liveness). When the workloads of a deleted binding can be read,
    projected and updated, one reconcile is enough: without looking up the
    service, it hands every workload, without the binding and with the secret
    that was recorded before, to the client, in order and once; it releases
    the finalizer and no other, and does not ask to run again. *)
Theorem finalization_completes b fs ws :
  isDeleting b = true -> lookedUp b = Ok ws -> Forall Projectable ws ->
  conditionOf Projected b = Some (mkCondition Projected "Unknown" "Initializing" "") ->
  (forall l b w d, exists j, Manage l b w d = Ok j) -> (forall st, ClearFinalizer finalizer st = None) ->
  let st := mkReconcile b None None [] fs in
  exists st', Reconcile ServiceBindingReconciler st = (st', Done false) /\
    handled b ws st st' /\ (forall w, projectOne b w = Unproject b w) /\
    releases b (st_Managed st') /\ st_Finalizers st' = fs ∖ {[finalizer]} /\
    sbst_Binding (sb_Status (st_Resource st')) = sbst_Binding (sb_Status b) /\
    conditionOf ServiceBindingConditionServiceAvailable (st_Resource st') =
      conditionOf ServiceBindingConditionServiceAvailable b.
Proof.
  cbn zeta. intros Hd Hl Hp Hc Hm Hclear. set (st := mkReconcile b None None [] fs).
  destruct (reconcile_unprojects st ws Hd Hl Hp Hc Hm) as (st' & Hr & Hh & Hu & Hb & Ha).
  pose proof (steps_frame st) as [Hf Hdel]. rewrite Hr in Hf, Hdel. cbn [fst] in Hf, Hdel.
  exists (set_Finalizers (st_Finalizers st' ∖ {[finalizer]}) st'). split_and!; [|exact Hh|exact Hu| | |exact Hb|exact Ha].
  - unfold ServiceBindingReconciler. rewrite reconcile_finalizer. unfold withFinalizer.
    change (deletingAt st) with (isDeleting b) in *. by rewrite Hd, Hr, Hdel, Hd, Hclear.
  - exact (deleting_ends b fs st' false Hd Hr).
  - cbn. by rewrite Hf.
Qed.
End finalization.
