(* ===== verification/WebhookController.v ===== *)
(** * Admission webhooks and their configuration (controllers/webhook_controller.go)

    [AdmissionProjectorWebhook] projects the bindings of a workload while it is
    admitted; [TriggerWebhook] enqueues the bindings that track an admitted
    object. Two aggregate reconcilers keep the rules of the webhooks' own
    configurations in step with the bindings: the kinds that bindings refer to
    are collected in a stash and turned into rules in canonical form. *)

From S2P Require Import Prelude Json Types Kube MetaPodTemplate Projector Resolver Rbac.
From S2P Require Import ServiceBindingWebhook ServiceBindingController.
Local Open Scope string_scope.

(** ** Interfaces *)

(** rbac.AccessChecker, as it is used here: [CanI] may change its state. *)
Class AccessChecker (A : Type) := check_CanI : A -> string -> string -> bool * A.

(** sets.String.List(): the elements in order. *)
Class SetsList := sets_List : gset string -> list string.

(** The accessors of an unstructured object that the webhooks read. *)
Class ObjectAccessors := {
  GetAPIVersion : json -> string;
  GetKind : json -> string;
  GetNamespace : json -> string;
  GetName : json -> string;
  GetLabels : json -> gmap string string;
}.

(** schema.GroupKind.String() *)
Class GroupKinds := GroupKind_String : string -> string -> string.

(** Listing bindings: in a namespace by the value of the index, and all. *)
Class BindingLister := {
  ListBindings : string -> string -> outcome (list ServiceBinding);
  ListAllBindings : outcome (list ServiceBinding);
}.

Section index.
Context `{Schema} `{GroupKinds}.

Definition workloadRefIndexValue (group kind : string) : string := GroupKind_String group kind.

(** The index function that is registered for bindings. *)
Definition workloadRefIndex (serviceBinding : ServiceBinding) : list string :=
  let gvk := FromAPIVersionAndKind (wr_APIVersion (sbs_Workload (sb_Spec serviceBinding)))
               (wr_Kind (sbs_Workload (sb_Spec serviceBinding))) in
  [workloadRefIndexValue (gvk_Group gvk) (gvk_Kind gvk)].
End index.

(** ** AdmissionProjectorWebhook *)

Section admission.
Context `{JsonPath} `{Codec (list EnvVar)} `{Codec (list VolumeMount)} `{Codec (list Volume)}.
Context `{UnstructuredConverter json} `{MappingSource json} `{LabelSelectors} `{Schema} `{GroupKinds}.
Context `{ObjectAccessors} `{BindingLister}.

(** The body of the first loop: is the binding active for this workload? *)
Definition isActive (workload : json) (sb : ServiceBinding) : bool :=
  if negb (Time_IsZero (om_DeletionTimestamp (sb_Meta sb))) then false
  else
    let ref := sbs_Workload (sb_Spec sb) in
    if String.eqb (wr_Name ref) (GetName workload) then true
    else
      match wr_Selector ref with
      | Some s =>
          match LabelSelectorAsSelector (Some s) with
          | inl _ => false
          | inr selector => selector (GetLabels workload)
          end
      | None => false
      end.

Definition activeServiceBindings (workload : json) (items : list ServiceBinding) : list ServiceBinding :=
  fold_left (fun active sb => if isActive workload sb then active ++ [sb] else active)%list items [].

(** The second loop: each binding is defaulted and projected. *)
Fixpoint projectAll (sbs : list ServiceBinding) (workload : json) : outcome json :=
  match sbs with
  | [] => Ok workload
  | sb :: sbs => workload ← Project (ServiceBinding_Default sb) workload; projectAll sbs workload
  end.

Definition AdmissionProjectorWebhook_Sync (workload : json) : outcome json :=
  let gvk := FromAPIVersionAndKind (GetAPIVersion workload) (GetKind workload) in
  items ← ListBindings (GetNamespace workload) (workloadRefIndexValue (gvk_Group gvk) (gvk_Kind gvk));
  projectAll (activeServiceBindings workload items) workload.
End admission.

(** ** TriggerWebhook *)

(** reconcile.Request: namespace and name *)
Definition Request : Type := string * string.

Class Tracker := Tracker_Lookup : GroupVersionKind -> string -> string -> list Request.

Section trigger.
Context `{Schema} `{ObjectAccessors} `{Tracker}.

(** [queue] is [None] as long as the controller has not made its queue;
    [dryRun] is [req.DryRun]. *)
Definition TriggerWebhook_Sync (dryRun : option bool) (trigger : json) (queue : option (list Request)) :
    option (list Request) :=
  match queue with
  | None => None
  | Some q =>
      let trackKey := FromAPIVersionAndKind (GetAPIVersion trigger) (GetKind trigger) in
      Some (fold_left (fun q rr =>
          if match dryRun with Some true => true | _ => false end then q else q ++ [rr])%list
        (Tracker_Lookup trackKey (GetNamespace trigger) (GetName trigger)) q)
  end.
End trigger.

(** ** The stash of the aggregate reconcilers *)

Record RuleWithOperations := mkRule {
  rule_Operations : list string;
  rule_APIGroups : list string;
  rule_APIVersions : list string;
  rule_Resources : list string;
}.

Record stash := mkStash {
  stash_ServiceBindings : option (list ServiceBinding);
  stash_ObservedGVKs : option (list GroupVersionKind);
  stash_WebhookRules : option (list RuleWithOperations);
}.

Definition StashServiceBindings (l : list ServiceBinding) (s : stash) : stash :=
  mkStash (Some l) (stash_ObservedGVKs s) (stash_WebhookRules s).
Definition StashObservedGVKs (l : list GroupVersionKind) (s : stash) : stash :=
  mkStash (stash_ServiceBindings s) (Some l) (stash_WebhookRules s).
Definition StashWebhookRules (l : list RuleWithOperations) (s : stash) : stash :=
  mkStash (stash_ServiceBindings s) (stash_ObservedGVKs s) (Some l).
Definition RetrieveServiceBindings (s : stash) : list ServiceBinding := default [] (stash_ServiceBindings s).
Definition RetrieveObservedGKVs (s : stash) : list GroupVersionKind := default [] (stash_ObservedGVKs s).
Definition RetrieveWebhookRules (s : stash) : list RuleWithOperations := default [] (stash_WebhookRules s).

Section collect.
Context `{Schema} `{BindingLister}.

Definition LoadServiceBindings_Sync (s : stash) : outcome stash :=
  items ← ListAllBindings; Ok (StashServiceBindings items s).

Definition InterceptGVKs_Sync (s : stash) : outcome stash :=
  Ok (StashObservedGVKs
    (fold_left (fun gvks sb =>
        let workload := sbs_Workload (sb_Spec sb) in
        gvks ++ [FromAPIVersionAndKind (wr_APIVersion workload) (wr_Kind workload)])%list
      (RetrieveServiceBindings s) (RetrieveObservedGKVs s)) s).

(** Services that are Secrets are bound directly and need no trigger. *)
Definition isDirect (gvk : GroupVersionKind) : bool :=
  String.eqb (gvk_Kind gvk) "Secret" &&
  (String.eqb (gvk_Group gvk) "" || String.eqb (gvk_Group gvk) "core").

Definition TriggerGVKs_Sync (s : stash) : outcome stash :=
  Ok (StashObservedGVKs
    (fold_left (fun gvks sb =>
        let service := sbs_Service (sb_Spec sb) in
        let gvk := FromAPIVersionAndKind (sr_APIVersion service) (sr_Kind service) in
        if isDirect gvk then gvks else gvks ++ [gvk])%list
      (RetrieveServiceBindings s) (RetrieveObservedGKVs s)) s).
End collect.

(** ** WebhookRules *)

Section rules.
Context `{RESTMapper} `{SetsList}.

(** The loop that dedups the kinds as groups of resources. *)
Fixpoint groupResourcesOf (gvks : list GroupVersionKind) (groupResources : gmap string (gset string)) :
    outcome (gmap string (gset string)) :=
  match gvks with
  | [] => Ok groupResources
  | gvk :: gvks =>
      gvr ← RESTMapping (gvk_Group gvk) (gvk_Kind gvk) (gvk_Version gvk);
      let resources := default ∅ (groupResources !! gvr_Group gvr) in
      groupResourcesOf gvks (<[gvr_Group gvr := {[gvr_Resource gvr]} ∪ resources]> groupResources)
  end.

Context {A : Type} `{AccessChecker A}.

(** Deletes the resources that may not be touched. *)
Fixpoint checkResources (group : string) (l : list string) (resources : gset string) (ac : A) :
    gset string * A :=
  match l with
  | [] => (resources, ac)
  | resource :: l =>
      let '(ok, ac) := check_CanI ac group resource in
      checkResources group l (if ok then resources else resources ∖ {[resource]}) ac
  end.

(** The loop over the groups, in order. *)
Fixpoint rulesOf (operations : list string) (groupResources : gmap string (gset string))
    (groups : list string) (ac : A) : list RuleWithOperations * A :=
  match groups with
  | [] => ([], ac)
  | group :: groups =>
      let resources := default ∅ (groupResources !! group) in
      let '(resources, ac) := checkResources group (sets_List resources) resources ac in
      let '(rules, ac) := rulesOf operations groupResources groups ac in
      (if bool_decide (resources = ∅) then rules
       else mkRule operations [group] ["*"] (sets_List resources) :: rules, ac)
  end.

Definition WebhookRules_Sync (operations : list string) (ac : A) (s : stash) : outcome (stash * A) :=
  groupResources ← groupResourcesOf (RetrieveObservedGKVs s) ∅;
  let '(rules, ac) := rulesOf operations groupResources (sets_List (dom groupResources)) ac in
  Ok (StashWebhookRules rules s, ac).
End rules.

(** ** The webhook configurations

    Of a configuration, the rules of its webhooks; the other members are kept
    in [wh_other] and [wc_other]. *)
Record Webhook := mkWebhook { wh_Rules : list RuleWithOperations; wh_other : json }.
Record WebhookConfiguration := mkWebhookConfiguration { wc_Webhooks : list Webhook; wc_other : json }.

(** equality.Semantic.DeepEqual on rules *)
Class DeepEqual := rules_DeepEqual : list RuleWithOperations -> list RuleWithOperations -> bool.

(** [resource.Webhooks[0].Rules = rules] in a configuration with one webhook. *)
Definition set_Rules (rules : list RuleWithOperations) (c : WebhookConfiguration) : WebhookConfiguration :=
  match wc_Webhooks c with
  | w :: ws => mkWebhookConfiguration (mkWebhook rules (wh_other w) :: ws) (wc_other c)
  | [] => c
  end.

(** The rules of the only webhook, if the configuration has the expected form. *)
Definition onlyWebhook (resource : option WebhookConfiguration) : option Webhook :=
  match resource with
  | Some c => match wc_Webhooks c with [w] => Some w | _ => None end
  | None => None
  end.

Definition DesiredResource (s : stash) (resource : option WebhookConfiguration) :
    option WebhookConfiguration :=
  match onlyWebhook resource with
  | None => resource
  | Some _ => set_Rules (RetrieveWebhookRules s) <$> resource
  end.

Definition SemanticEquals `{DeepEqual} (a1 a2 : option WebhookConfiguration) : bool :=
  match onlyWebhook a1, onlyWebhook a2 with
  | Some w1, Some w2 => rules_DeepEqual (wh_Rules w1) (wh_Rules w2)
  | _, _ => true
  end.

(** The new [current]. *)
Definition MergeRulesBeforeUpdate (current desired : option WebhookConfiguration) :
    option WebhookConfiguration :=
  match onlyWebhook current, onlyWebhook desired with
  | Some _, Some w => set_Rules (wh_Rules w) <$> current
  | _, _ => current
  end.

Definition Sanitize (resource : option WebhookConfiguration) : option (list RuleWithOperations) :=
  match resource with
  | Some c => match wc_Webhooks c with w :: _ => Some (wh_Rules w) | [] => None end
  | None => None
  end.

(** TriggerReconciler has the same four functions on
    ValidatingWebhookConfiguration objects. *)
Definition Trigger_DesiredResource (s : stash) (resource : option WebhookConfiguration) :
    option WebhookConfiguration :=
  match onlyWebhook resource with
  | None => resource
  | Some _ => set_Rules (RetrieveWebhookRules s) <$> resource
  end.

Definition Trigger_SemanticEquals `{DeepEqual} (a1 a2 : option WebhookConfiguration) : bool :=
  match onlyWebhook a1, onlyWebhook a2 with
  | Some w1, Some w2 => rules_DeepEqual (wh_Rules w1) (wh_Rules w2)
  | _, _ => true
  end.

Definition Trigger_MergeRulesBeforeUpdate (current desired : option WebhookConfiguration) :
    option WebhookConfiguration :=
  match onlyWebhook current, onlyWebhook desired with
  | Some _, Some w => set_Rules (wh_Rules w) <$> current
  | _, _ => current
  end.

Definition Trigger_Sanitize (resource : option WebhookConfiguration) : option (list RuleWithOperations) :=
  match resource with
  | Some c => match wc_Webhooks c with w :: _ => Some (wh_Rules w) | [] => None end
  | None => None
  end.

(** What an aggregate reconciler is given. *)
Record ConfigurationFunctions := mkFunctions {
  fn_DesiredResource : stash -> option WebhookConfiguration -> option WebhookConfiguration;
  fn_SemanticEquals : option WebhookConfiguration -> option WebhookConfiguration -> bool;
  fn_MergeBeforeUpdate : option WebhookConfiguration -> option WebhookConfiguration ->
                         option WebhookConfiguration;
  fn_Sanitize : option WebhookConfiguration -> option (list RuleWithOperations);
}.

Definition projectorFunctions `{DeepEqual} : ConfigurationFunctions :=
  mkFunctions DesiredResource SemanticEquals MergeRulesBeforeUpdate Sanitize.
Definition triggerFunctions `{DeepEqual} : ConfigurationFunctions :=
  mkFunctions Trigger_DesiredResource Trigger_SemanticEquals Trigger_MergeRulesBeforeUpdate
    Trigger_Sanitize.

(** The Setup of LoadServiceBindings: whichever binding changes, the one request
    of the reconciler is enqueued. *)
Definition enqueueConfiguration (req : Request) (o : ServiceBinding) : list Request := [req].

(** ** The aggregate reconcilers: their steps in order *)

Section reconcilers.
Context `{Schema} `{BindingLister} `{RESTMapper} `{SetsList} {A : Type} `{AccessChecker A}.

Definition AdmissionProjectorReconciler (ac : A) (s : stash) : outcome (stash * A) :=
  s ← LoadServiceBindings_Sync s;
  s ← InterceptGVKs_Sync s;
  WebhookRules_Sync ["CREATE"; "UPDATE"] ac s.

Definition TriggerReconciler (ac : A) (s : stash) : outcome (stash * A) :=
  s ← LoadServiceBindings_Sync s;
  s ← TriggerGVKs_Sync s;
  s ← InterceptGVKs_Sync s;
  WebhookRules_Sync ["CREATE"; "UPDATE"; "DELETE"] ac s.
End reconcilers.
