(* ===== verification/WebhookFacts.v ===== *)
(** * Properties of the admission webhooks and their configuration *)

From S2P Require Import Prelude GoSort Json Types Kube MetaPodTemplate Projector Resolver.
From S2P Require Import Rbac ServiceBindingWebhook ServiceBindingController WebhookController.
Local Open Scope string_scope.

(** [List] gives the elements of the set in strictly increasing order. *)
Class SetsListLaws `{SetsList} : Prop := {
  sets_List_elem s x : x ∈ sets_List s <-> x ∈ s;
  sets_List_sorted s : StronglySorted (fun x y => String.ltb x y = true) (sets_List s);
}.

(** What the rules need of an access checker: in the states [Inv], which it
    keeps, its answers are those of [allowed]. *)
Class CheckerLaws (A : Type) `{AccessChecker A} (Inv : A -> Prop)
    (allowed : string -> string -> bool) : Prop :=
  check_answers ac g r :
    Inv ac -> (check_CanI ac g r).1 = allowed g r /\ Inv (check_CanI ac g r).2.

(** ** Admission *)

Section admission.
Context `{JsonPath} `{Codec (list EnvVar)} `{Codec (list VolumeMount)} `{Codec (list Volume)}.
Context `{UnstructuredConverter json} `{MappingSource json} `{LabelSelectors} `{Schema} `{GroupKinds}.
Context `{ObjectAccessors} `{BindingLister}.

(** A selector that parses and matches the labels of the workload. *)
Definition selects (workload : json) (ref : ServiceBindingWorkloadReference) : bool :=
  match wr_Selector ref with
  | Some s => match LabelSelectorAsSelector (Some s) with
              | inr m => m (GetLabels workload)
              | inl _ => false
              end
  | None => false
  end.

(** The binding refers to the workload: by its name, or by a selector. *)
Definition refersToWorkload (workload : json) (sb : ServiceBinding) : bool :=
  let ref := sbs_Workload (sb_Spec sb) in
  (negb (String.eqb (wr_Name ref) "") && String.eqb (wr_Name ref) (GetName workload)) ||
  selects workload ref.

Lemma activeServiceBindings_filter w items :
  activeServiceBindings w items = List.filter (isActive w) items.
Proof.
  unfold activeServiceBindings.
  assert (forall acc, fold_left (fun active sb => if isActive w sb then active ++ [sb] else active)%list
    items acc = (acc ++ List.filter (isActive w) items)%list) as Hf; [|apply Hf].
  induction items as [|sb items IH]; intros acc; cbn; [by rewrite app_nil_r|].
  rewrite IH. destruct (isActive w sb); [|done]. by rewrite <-(assoc_L (++)%list).
Qed.

Lemma isActive_named w sb :
  GetName w <> "" ->
  isActive w sb = negb (isDeleting sb) && refersToWorkload w sb.
Proof.
  intros Hn. unfold isActive, isDeleting, refersToWorkload, selects.
  destruct (Time_IsZero _); [|done]. cbn [negb andb].
  destruct (String.eqb_spec (wr_Name (sbs_Workload (sb_Spec sb))) (GetName w)) as [->|]; [|by rewrite andb_false_r].
  by rewrite (proj2 (String.eqb_neq _ _) Hn).
Qed.

Lemma projectAll_app sbs1 sbs2 w :
  projectAll (sbs1 ++ sbs2) w = (w' ← projectAll sbs1 w; projectAll sbs2 w').
Proof.
  revert w. induction sbs1 as [|sb sbs1 IH]; intros w; [done|]. cbn.
  destruct (Project _ w); cbn; [apply IH|done..].
Qed.

(** C19 (admission). A workload that has a name is admitted with the bindings of
    the index that refer to it and are not being deleted: exactly these, in the
    order of the list, each with its defaults. A failure to list or to project
    fails the admission. *)
Theorem AdmissionProjectorWebhook_projects w :
  GetName w <> "" ->
  AdmissionProjectorWebhook_Sync w =
  match ListBindings (GetNamespace w)
          (GroupKind_String (gvk_Group (FromAPIVersionAndKind (GetAPIVersion w) (GetKind w)))
             (gvk_Kind (FromAPIVersionAndKind (GetAPIVersion w) (GetKind w)))) with
  | Ok items =>
      foldl (fun r sb => r ≫= Project (ServiceBinding_Default sb)) (Ok w)
        (List.filter (fun sb => negb (isDeleting sb) && refersToWorkload w sb) items)
  | Err e => Err e
  | Panic s => Panic s
  end.
Proof.
  intros Hn. unfold AdmissionProjectorWebhook_Sync, workloadRefIndexValue.
  destruct (ListBindings _ _) as [items|e|s]; cbn; [|done..].
  rewrite activeServiceBindings_filter.
  rewrite (List.filter_ext (isActive w) (fun sb => negb (isDeleting sb) && refersToWorkload w sb) (fun sb => isActive_named w sb Hn)).
  generalize (List.filter (fun sb => negb (isDeleting sb) && refersToWorkload w sb) items) as l.
  assert (forall l r, (r ≫= projectAll l) =
    foldl (fun r sb => r ≫= Project (ServiceBinding_Default sb)) r l) as Hf.
  { induction l as [|sb l IH]; intros r; cbn; [by destruct r|]. rewrite <-IH. by destruct r. }
  intros l. apply (Hf l (Ok w)).
Qed.

(** C40 (workloads without a name). For a workload whose name is still to be
    generated, a binding without a workload name, that is one with a selector,
    is active as soon as it is not being deleted, whether or not its selector
    matches: both names are empty, and equal. It refers to the workload only
    when the selector matches. *)
Theorem isActive_unnamed w sb :
  GetName w = "" -> wr_Name (sbs_Workload (sb_Spec sb)) = "" ->
  isActive w sb = negb (isDeleting sb) /\
  refersToWorkload w sb = selects w (sbs_Workload (sb_Spec sb)).
Proof.
  intros Hn Hs. unfold isActive, refersToWorkload, isDeleting. rewrite Hs, Hn. split; [|done].
  by destruct (Time_IsZero _).
Qed.
End admission.

(** ** Triggers *)

(** Triggers. A trigger enqueues the requests that track the object, in
    order, after what is already queued; a dry run enqueues nothing; without a
    queue nothing happens. *)
Lemma TriggerWebhook_enqueues `{Schema} `{ObjectAccessors} `{Tracker} dryRun trigger queue :
  TriggerWebhook_Sync dryRun trigger queue =
  (fun q => if bool_decide (dryRun = Some true) then q
            else (q ++ Tracker_Lookup (FromAPIVersionAndKind (GetAPIVersion trigger) (GetKind trigger))
                         (GetNamespace trigger) (GetName trigger))%list) <$> queue.
Proof.
  destruct queue as [q|]; [|done]. cbn. f_equal.
  generalize (Tracker_Lookup (FromAPIVersionAndKind (GetAPIVersion trigger) (GetKind trigger))
    (GetNamespace trigger) (GetName trigger)) as l.
  intros l. revert q. induction l as [|rr l IH]; intros q; cbn.
  - rewrite app_nil_r. by case_bool_decide.
  - rewrite IH. destruct dryRun as [[|]|]; cbn; [done|by rewrite <-(assoc_L (++)%list)..].
Qed.

(** ** Collecting kinds *)

Section collect.
Context `{Schema} `{BindingLister}.

Definition workloadGVK (sb : ServiceBinding) : GroupVersionKind :=
  FromAPIVersionAndKind (wr_APIVersion (sbs_Workload (sb_Spec sb))) (wr_Kind (sbs_Workload (sb_Spec sb))).
Definition serviceGVK (sb : ServiceBinding) : GroupVersionKind :=
  FromAPIVersionAndKind (sr_APIVersion (sbs_Service (sb_Spec sb))) (sr_Kind (sbs_Service (sb_Spec sb))).

Lemma fold_append {A B} (f : A -> B) (p : A -> bool) l acc :
  fold_left (fun bs x => if p x then bs else bs ++ [f x])%list l acc =
  (acc ++ map f (List.filter (fun x => negb (p x)) l))%list.
Proof.
  revert acc. induction l as [|x l IH]; intros acc; cbn; [by rewrite app_nil_r|].
  rewrite IH. destruct (p x); cbn; [done|]. by rewrite <-(assoc_L (++)%list).
Qed.

Lemma InterceptGVKs_closed s :
  InterceptGVKs_Sync s =
  Ok (StashObservedGVKs (RetrieveObservedGKVs s ++ map workloadGVK (RetrieveServiceBindings s))%list s).
Proof.
  unfold InterceptGVKs_Sync. do 2 f_equal.
  pose proof (fold_append workloadGVK (fun _ => false) (RetrieveServiceBindings s)
    (RetrieveObservedGKVs s)) as Hf. cbn in Hf. etrans; [exact Hf|].
  by rewrite filter_all.
Qed.

Lemma TriggerGVKs_closed s :
  TriggerGVKs_Sync s =
  Ok (StashObservedGVKs (RetrieveObservedGKVs s ++
    map serviceGVK (List.filter (fun sb => negb (isDirect (serviceGVK sb))) (RetrieveServiceBindings s)))%list s).
Proof. unfold TriggerGVKs_Sync. do 2 f_equal. apply (fold_append serviceGVK). Qed.
End collect.

(** ** Rules *)

Section rules.
Context `{RESTMapper} `{SetsList} `{!SetsListLaws}.
Context {A : Type} `{AccessChecker A}.

(** The resource of a kind. *)
Definition mapsTo (gvk : GroupVersionKind) (group resource : string) : Prop :=
  exists gvr, RESTMapping (gvk_Group gvk) (gvk_Kind gvk) (gvk_Version gvk) = Ok gvr /\
    gvr_Group gvr = group /\ gvr_Resource gvr = resource.

Definition inGroups (gr : gmap string (gset string)) (group resource : string) : Prop :=
  resource ∈ default ∅ (gr !! group).

Lemma groupResourcesOf_spec gvks gr gr' :
  groupResourcesOf gvks gr = Ok gr' ->
  (forall g r, inGroups gr' g r <-> inGroups gr g r \/ exists gvk, gvk ∈ gvks /\ mapsTo gvk g r) /\
  ((forall g rs, gr !! g = Some rs -> rs <> ∅) -> forall g rs, gr' !! g = Some rs -> rs <> ∅).
Proof.
  revert gr. induction gvks as [|gvk gvks IH]; intros gr; cbn.
  { intros [= <-]. split; [|done]. intros g r. split; [by left|].
    by intros [?|(gvk & []%elem_of_nil & _)]. }
  intros (gvr & Hgvr & Hrest)%bind_Ok. apply IH in Hrest as [Hin Hne]. clear IH. split.
  - intros g r. rewrite Hin. unfold inGroups. destruct (decide (g = gvr_Group gvr)) as [->|Hg].
    + rewrite lookup_insert_eq. cbn. rewrite elem_of_union, elem_of_singleton. split.
      * intros [[-> |?]|(gvk' & ? & ?)]; [right|by left|right].
        -- exists gvk. split; [left|]. by exists gvr.
        -- exists gvk'. split; [by right|done].
      * intros [?|(gvk' & [-> |?]%elem_of_cons & Hm)]; [by left; right| |by right; eauto].
        destruct Hm as (gvr' & Hgvr' & _ & <-). left; left. congruence.
    + rewrite lookup_insert_ne by done. split; [intros [?|(gvk' & ? & ?)]; [by left|right]|].
      * exists gvk'. split; [by right|done].
      * intros [?|(gvk' & [-> |?]%elem_of_cons & Hm)]; [by left| |by right; eauto].
        destruct Hm as (gvr' & Hgvr' & <- & _). congruence.
  - intros Hgr. apply Hne. intros g rs Hrs. apply lookup_insert_Some in Hrs as [[_ <-]|[_ Hrs]];
      [set_solver|by eapply Hgr].
Qed.

Lemma groupResourcesOf_Ok gvks gr :
  (exists gr', groupResourcesOf gvks gr = Ok gr') <->
  forall gvk, gvk ∈ gvks -> exists g r, mapsTo gvk g r.
Proof.
  revert gr. induction gvks as [|gvk gvks IH]; intros gr; cbn.
  { split; [by intros _ ? ?%elem_of_nil|eauto]. }
  split.
  - intros [gr' (gvr & Hgvr & Hrest)%bind_Ok] gvk' [-> |Hin]%elem_of_cons.
    + exists (gvr_Group gvr), (gvr_Resource gvr). by exists gvr.
    + eapply (IH _); [by eexists|done].
  - intros Hall. destruct (Hall gvk) as (g & r & gvr & -> & _); [left|]. cbn. apply IH.
    intros gvk' Hin. apply Hall. by right.
Qed.

(** The groups depend only on which kinds occur. *)
Lemma groupResourcesOf_set gvks1 gvks2 gr1 :
  (forall gvk, gvk ∈ gvks1 <-> gvk ∈ gvks2) ->
  groupResourcesOf gvks1 ∅ = Ok gr1 -> groupResourcesOf gvks2 ∅ = Ok gr1.
Proof.
  intros Heq Hgr1. destruct (proj2 (groupResourcesOf_Ok gvks2 ∅)) as [gr2 Hgr2].
  { intros gvk Hg%Heq. eapply (groupResourcesOf_Ok gvks1 ∅); [by eexists|done]. }
  rewrite Hgr2. f_equal. apply groupResourcesOf_spec in Hgr1 as [Hin1 Hne1], Hgr2 as [Hin2 Hne2].
  specialize (Hne1 ltac:(by intros ? ? ?%lookup_empty_Some)).
  specialize (Hne2 ltac:(by intros ? ? ?%lookup_empty_Some)).
  assert (forall g r, inGroups gr2 g r <-> inGroups gr1 g r) as Hin.
  { intros g r. rewrite Hin1, Hin2. apply or_iff_compat_l. split; intros (gvk & Hg & Hm);
      exists gvk; (split; [by apply Heq|done]). }
  apply map_eq. intros g. specialize (Hin g). unfold inGroups in Hin.
  destruct (gr2 !! g) as [rs2|] eqn:E2, (gr1 !! g) as [rs1|] eqn:E1; cbn in Hin; [| | |done].
  - f_equal. apply leibniz_equiv. intros r. apply Hin.
  - destruct (Hne2 g rs2 E2). apply leibniz_equiv. intros r. apply Hin.
  - destruct (Hne1 g rs1 E1). apply leibniz_equiv. intros r. by rewrite <-Hin.
Qed.

(** *** Access checks *)

Context (Inv : A -> Prop) (allowed : string -> string -> bool) `{!CheckerLaws A Inv allowed}.

Lemma checkResources_spec g l rs ac :
  Inv ac ->
  Inv (checkResources g l rs ac).2 /\
  forall x, x ∈ (checkResources g l rs ac).1 <-> x ∈ rs /\ (x ∈ l -> allowed g x = true).
Proof.
  revert rs ac. induction l as [|r l IH]; intros rs ac Hi; cbn.
  { split; [done|]. intros x. split; [|by intros []]. intros ?. split; [done|].
    by intros ?%elem_of_nil. }
  destruct (check_answers ac g r Hi) as [Ha Hi']. destruct (check_CanI ac g r) as [ok ac'].
  cbn in Ha, Hi'. subst ok.
  destruct (IH (if allowed g r then rs else rs ∖ {[r]}) ac' Hi') as [Hi'' Hx]. split; [done|].
  intros x. rewrite Hx, elem_of_cons. destruct (allowed g r) eqn:Ha.
  - split; intros [Hin Hl]; (split; [done|]); [intros [-> |?]; auto|auto].
  - rewrite elem_of_difference, elem_of_singleton. split.
    + intros [[? ?] ?]. split; [done|]. intros [-> |?]; [done|auto].
    + intros [? Hl]. split; [|by auto]. split; [done|]. intros ->. specialize (Hl (or_introl eq_refl)).
      congruence.
Qed.

Definition permitted (g : string) (rs : gset string) : gset string :=
  filter (fun r => allowed g r = true) rs.

Lemma checkResources_permitted g rs ac :
  Inv ac ->
  (checkResources g (sets_List rs) rs ac).1 = permitted g rs /\
  Inv (checkResources g (sets_List rs) rs ac).2.
Proof.
  intros Hi. destruct (checkResources_spec g (sets_List rs) rs ac Hi) as [Hi' Hx]. split; [|done].
  apply leibniz_equiv. intros x. rewrite Hx, sets_List_elem.
  unfold permitted. rewrite elem_of_filter. naive_solver.
Qed.

(** The rule for a group, if any of its resources may be touched. *)
Definition ruleFor (ops : list string) (gr : gmap string (gset string)) (g : string) :
    option RuleWithOperations :=
  let rs := permitted g (default ∅ (gr !! g)) in
  if bool_decide (rs = ∅) then None else Some (mkRule ops [g] ["*"] (sets_List rs)).

Lemma rulesOf_closed ops gr groups ac :
  Inv ac -> (rulesOf ops gr groups ac).1 = omap (ruleFor ops gr) groups.
Proof.
  revert ac. induction groups as [|g groups IH]; intros ac Hi; [done|]. cbn.
  destruct (checkResources_permitted g (default ∅ (gr !! g)) ac Hi) as [Hp Hi1].
  destruct (checkResources _ _ _ ac) as [rs ac1]. cbn in Hp, Hi1. subst rs.
  specialize (IH ac1 Hi1). destruct (rulesOf ops gr groups ac1) as [rules ac2]. cbn in *. subst rules.
  unfold ruleFor at 3. by case_bool_decide.
Qed.

Lemma rulesOf_keeps ops gr groups ac : Inv ac -> Inv (rulesOf ops gr groups ac).2.
Proof.
  revert ac. induction groups as [|g groups IH]; intros ac Hi; [done|]. cbn.
  destruct (checkResources_permitted g (default ∅ (gr !! g)) ac Hi) as [_ Hi1].
  destruct (checkResources _ _ _ ac) as [rs ac1]. cbn in Hi1.
  specialize (IH ac1 Hi1). by destruct (rulesOf ops gr groups ac1) as [rules ac2].
Qed.

Lemma WebhookRules_keeps ops ac s s' ac' :
  Inv ac -> WebhookRules_Sync ops ac s = Ok (s', ac') -> Inv ac'.
Proof.
  intros Hi. unfold WebhookRules_Sync. intros (gr & Hgr & Hr)%bind_Ok.
  pose proof (rulesOf_keeps ops gr (sets_List (dom gr)) ac Hi) as Hc.
  destruct (rulesOf _ _ _ ac) as [rules ac1]. by injection Hr as _ <-.
Qed.

Lemma WebhookRules_closed ops ac s s' ac' :
  Inv ac -> WebhookRules_Sync ops ac s = Ok (s', ac') ->
  exists gr, groupResourcesOf (RetrieveObservedGKVs s) ∅ = Ok gr /\
    RetrieveWebhookRules s' = omap (ruleFor ops gr) (sets_List (dom gr)).
Proof.
  intros Hi. unfold WebhookRules_Sync. intros (gr & Hgr & Hr)%bind_Ok. exists gr. split; [done|].
  pose proof (rulesOf_closed ops gr (sets_List (dom gr)) ac Hi) as Hc.
  destruct (rulesOf _ _ _ ac) as [rules ac1]. cbn in Hc. by injection Hr as <- _.
Qed.

(** The rules intercept a resource of a group. *)
Definition intercepts (rules : list RuleWithOperations) (g r : string) : Prop :=
  exists rule, rule ∈ rules /\ g ∈ rule_APIGroups rule /\ r ∈ rule_Resources rule.

Lemma omap_sorted (f : string -> option RuleWithOperations) l :
  (forall g rule, f g = Some rule -> rule_APIGroups rule = [g]) ->
  StronglySorted (fun x y => String.ltb x y = true) l ->
  StronglySorted (fun x y => String.ltb x y = true) (concat (map rule_APIGroups (omap f l))).
Proof.
  intros Hf. induction 1 as [|g l Hl IH Hg]; cbn; [constructor|].
  destruct (f g) as [rule|] eqn:E; [|done]. cbn. rewrite (Hf g rule E). cbn. constructor; [done|].
  apply Forall_forall. intros x (gs & Hgs & Hx%list_elem_of_In)%list_elem_of_In%in_concat.
  apply in_map_iff in Hgs as (rule' & <- & Hr%list_elem_of_In).
  apply list_elem_of_omap in Hr as (g' & Hg' & Hr). rewrite (Hf g' rule' Hr) in Hx.
  apply list_elem_of_singleton in Hx as ->. rewrite Forall_forall in Hg. by apply Hg.
Qed.

Lemma ruleFor_groups ops gr g rule : ruleFor ops gr g = Some rule -> rule_APIGroups rule = [g].
Proof. unfold ruleFor. case_bool_decide; [done|]. by intros [= <-]. Qed.

Lemma rules_intercept ops gr g r :
  intercepts (omap (ruleFor ops gr) (sets_List (dom gr))) g r <-> inGroups gr g r /\ allowed g r = true.
Proof.
  unfold intercepts, inGroups. split.
  - intros (rule & (g' & _ & Hr)%list_elem_of_omap & Hg & Hin).
    unfold ruleFor in Hr. case_bool_decide; [done|]. injection Hr as <-. cbn in *.
    apply list_elem_of_singleton in Hg as <-. rewrite sets_List_elem in Hin.
    unfold permitted in Hin. rewrite elem_of_filter in Hin. naive_solver.
  - intros [Hin Ha].
    assert (r ∈ permitted g (default ∅ (gr !! g))) as Hp by (unfold permitted; by rewrite elem_of_filter).
    exists (mkRule ops [g] ["*"] (sets_List (permitted g (default ∅ (gr !! g))))). split_and!.
    + apply list_elem_of_omap. exists g. split.
      * rewrite sets_List_elem. apply elem_of_dom. destruct (gr !! g); [by eexists|].
        cbn in Hin. by apply elem_of_empty in Hin.
      * unfold ruleFor. rewrite bool_decide_eq_false_2; [done|]. set_solver.
    + by left.
    + cbn. by rewrite sets_List_elem.
Qed.

(** *** Properties *)

(** C20 (rules). The rules intercept exactly the resources of the observed kinds
    that the runtime may act on. They are in canonical form: one rule per
    group, in the order of the groups, none empty, for all versions and the
    given operations, with the resources in order. *)
Theorem WebhookRules_exact ops ac s s' ac' :
  Inv ac -> WebhookRules_Sync ops ac s = Ok (s', ac') ->
  let rules := RetrieveWebhookRules s' in
  (forall g r, intercepts rules g r <->
     (exists gvk, gvk ∈ RetrieveObservedGKVs s /\ mapsTo gvk g r) /\ allowed g r = true) /\
  StronglySorted (fun x y => String.ltb x y = true) (concat (map rule_APIGroups rules)) /\
  Forall (fun rule => rule_Operations rule = ops /\ rule_APIVersions rule = ["*"] /\
    length (rule_APIGroups rule) = 1 /\ rule_Resources rule <> [] /\
    StronglySorted (fun x y => String.ltb x y = true) (rule_Resources rule)) rules.
Proof.
  cbn zeta. intros Hi (gr & Hgr & ->)%(WebhookRules_closed _ _ _ _ _ Hi).
  apply groupResourcesOf_spec in Hgr as [Hin _]. split_and!.
  - intros g r. rewrite rules_intercept, Hin. unfold inGroups at 1. rewrite lookup_empty. cbn.
    split; [intros [[?%elem_of_empty|?] ?]; done|]. intros [? ?]. split; [by right|done].
  - apply omap_sorted; [apply ruleFor_groups|apply sets_List_sorted].
  - apply Forall_forall. intros rule (g & _ & Hr)%list_elem_of_omap. unfold ruleFor in Hr.
    case_bool_decide as Hne; [done|]. injection Hr as <-. split_and!; try done; cbn.
    + intros Hnil. apply Hne. apply leibniz_equiv. intros x. rewrite <-sets_List_elem, Hnil. set_solver.
    + apply sets_List_sorted.
Qed.

(** C21 (canonical rules). The rules depend only on which kinds were observed:
    neither their order, nor how often they occur, nor what the access checker
    has cached matters. *)
Theorem WebhookRules_canonical ops ac1 ac2 s1 s2 s1' ac1' :
  Inv ac1 -> Inv ac2 ->
  (forall gvk, gvk ∈ RetrieveObservedGKVs s1 <-> gvk ∈ RetrieveObservedGKVs s2) ->
  WebhookRules_Sync ops ac1 s1 = Ok (s1', ac1') ->
  exists s2' ac2', WebhookRules_Sync ops ac2 s2 = Ok (s2', ac2') /\
    RetrieveWebhookRules s2' = RetrieveWebhookRules s1'.
Proof.
  intros Hi1 Hi2 Heq (gr & Hgr & Hrules)%(WebhookRules_closed _ _ _ _ _ Hi1).
  pose proof (groupResourcesOf_set _ _ _ Heq Hgr) as Hgr2.
  unfold WebhookRules_Sync at 1. rewrite Hgr2. cbn.
  pose proof (rulesOf_closed ops gr (sets_List (dom gr)) ac2 Hi2) as Hc.
  destruct (rulesOf _ _ _ ac2) as [rules ac2']. do 2 eexists. split; [done|].
  cbn in *. congruence.
Qed.

Lemma reconcilers_rules `{Schema} `{BindingLister} ac s sbs :
  Inv ac -> ListAllBindings = Ok sbs -> RetrieveObservedGKVs s = [] ->
  (forall s' ac', AdmissionProjectorReconciler ac s = Ok (s', ac') ->
     forall g r, intercepts (RetrieveWebhookRules s') g r <->
       (exists sb, sb ∈ sbs /\ mapsTo (workloadGVK sb) g r) /\ allowed g r = true) /\
  (forall s' ac', TriggerReconciler ac s = Ok (s', ac') ->
     forall g r, intercepts (RetrieveWebhookRules s') g r <->
       (exists sb, sb ∈ sbs /\ (mapsTo (workloadGVK sb) g r \/
          isDirect (serviceGVK sb) = false /\ mapsTo (serviceGVK sb) g r)) /\ allowed g r = true).
Proof.
  intros Hi Hl Hs.
  assert (forall ops s1 s' ac', WebhookRules_Sync ops ac s1 = Ok (s', ac') -> forall g r,
    intercepts (RetrieveWebhookRules s') g r <->
     (exists gvk, gvk ∈ RetrieveObservedGKVs s1 /\ mapsTo gvk g r) /\ allowed g r = true) as Hrules.
  { intros ops s1 s' ac' (gr & Hgr & ->)%(WebhookRules_closed _ _ _ _ _ Hi) g r.
    apply groupResourcesOf_spec in Hgr as [Hin _]. rewrite rules_intercept, Hin.
    unfold inGroups at 1. rewrite lookup_empty. cbn.
    split; [intros [[?%elem_of_empty|?] ?]; done|]. intros [? ?]. split; [by right|done]. }
  assert (LoadServiceBindings_Sync s = Ok (StashServiceBindings sbs s)) as Hload
    by (unfold LoadServiceBindings_Sync; by rewrite Hl).
  unfold AdmissionProjectorReconciler, TriggerReconciler. rewrite Hload. cbn [mbind outcome_bind].
  rewrite InterceptGVKs_closed, TriggerGVKs_closed. cbn [mbind outcome_bind].
  rewrite InterceptGVKs_closed. cbn [mbind outcome_bind]. split.
  - intros s' ac' Hr g r. rewrite (Hrules _ _ _ _ Hr). apply and_iff_compat_r.
    change (RetrieveObservedGKVs (StashObservedGVKs ?l _)) with l.
    change (RetrieveObservedGKVs (StashServiceBindings sbs s)) with (RetrieveObservedGKVs s).
    change (RetrieveServiceBindings (StashServiceBindings sbs s)) with sbs. rewrite Hs. cbn [app].
    setoid_rewrite list_elem_of_fmap. split.
    + intros (gvk & (sb & -> & Hsb) & Hm). by exists sb.
    + intros (sb & Hsb & Hm). exists (workloadGVK sb). split; [by exists sb|done].
  - intros s' ac' Hr g r. rewrite (Hrules _ _ _ _ Hr). apply and_iff_compat_r.
    change (RetrieveObservedGKVs (StashObservedGVKs ?l _)) with l.
    change (RetrieveObservedGKVs (StashServiceBindings sbs s)) with (RetrieveObservedGKVs s).
    change (RetrieveServiceBindings (StashObservedGVKs _ (StashServiceBindings sbs s))) with sbs.
    change (RetrieveServiceBindings (StashServiceBindings sbs s)) with sbs. rewrite Hs. cbn [app].
    setoid_rewrite elem_of_app. setoid_rewrite list_elem_of_fmap.
    setoid_rewrite elem_of_filter_bool. setoid_rewrite negb_true_iff. split.
    + intros (gvk & [(sb & -> & Hsb & Hd)|(sb & -> & Hsb)] & Hm); exists sb; auto.
    + intros (sb & Hsb & [Hm|[Hd Hm]]).
      * exists (workloadGVK sb). split; [right; by exists sb|done].
      * exists (serviceGVK sb). split; [left; by exists sb|done].
Qed.

(** Coverage. After a pass of the projector's reconciler the rules
    intercept exactly the resources of workload kinds; after a pass of the
    trigger's reconciler, those of workload kinds and of service kinds other
    than Secret; in both cases as far as the runtime may act on them. *)
Lemma reconcilers_cover `{Schema} `{BindingLister} ac s sbs :
  Inv ac -> ListAllBindings = Ok sbs -> RetrieveObservedGKVs s = [] ->
  (forall s' ac', AdmissionProjectorReconciler ac s = Ok (s', ac') ->
     forall g r, intercepts (RetrieveWebhookRules s') g r <->
       (exists sb, sb ∈ sbs /\ mapsTo (workloadGVK sb) g r) /\ allowed g r = true) /\
  (forall s' ac', TriggerReconciler ac s = Ok (s', ac') ->
     forall g r, intercepts (RetrieveWebhookRules s') g r <->
       (exists sb, sb ∈ sbs /\ (mapsTo (workloadGVK sb) g r \/
          isDirect (serviceGVK sb) = false /\ mapsTo (serviceGVK sb) g r)) /\ allowed g r = true).
Proof. apply reconcilers_rules. Qed.
End rules.

(** ** Webhook configurations *)

Class DeepEqualLaws `{DeepEqual} : Prop := DeepEqual_refl rules : rules_DeepEqual rules rules = true.

(** C22 (convergence). This holds of the functions of both reconcilers. Only the
    rules of a configuration with one webhook are ever written. Such a
    configuration, merged with what is desired, carries the computed rules,
    keeps everything else and is semantically equal to what is desired, so the
    next pass does not update it again; it counts as different, and is
    updated, exactly when its rules differ from the computed ones. Any other
    configuration is left alone and never reported as different. *)
Theorem configuration_converges `{DeepEqual} `{!DeepEqualLaws} f s c :
  f = projectorFunctions \/ f = triggerFunctions ->
  let desired := fn_DesiredResource f s (Some c) in
  let merged := fn_MergeBeforeUpdate f (Some c) desired in
  fn_SemanticEquals f merged desired = true /\
  fn_DesiredResource f s merged = merged /\
  match wc_Webhooks c with
  | [w] => merged = Some (mkWebhookConfiguration [mkWebhook (RetrieveWebhookRules s) (wh_other w)] (wc_other c)) /\
           fn_Sanitize f merged = Some (RetrieveWebhookRules s) /\
           fn_SemanticEquals f (Some c) desired = rules_DeepEqual (wh_Rules w) (RetrieveWebhookRules s)
  | _ => merged = Some c /\ desired = Some c /\ forall a, fn_SemanticEquals f (Some c) a = true
  end.
Proof.
  intros [-> | ->]; destruct c as [[|w [|w' ws]] o]; cbn;
    rewrite ?DeepEqual_refl; by split_and!.
Qed.

(** ** The access checker of [Rbac.v] *)

Section rbac.
(** The clock and the client at the [n]th call. *)
Context (env : nat -> Z * Z * (SelfSubjectAccessReview -> SelfSubjectAccessReview * option error)).

#[export] Instance rbac_checker : AccessChecker (accessChecker * nat) := fun st g r =>
  let '(ac, n) := st in
  let '(now, later, create) := env n in
  let '(b, ac) := CanI ac (mkCall g r now later create) in
  (b, (ac, S n)).

Context (server : ResourceAttributes -> bool) (verb : string).
(** The server answers every review, and always the same way. *)
Context (Hserver : forall n s k, ssar_Spec s = Some k ->
  exists s', (env n).2 s = (s', None) /\ ssar_Allowed s' = server k).

(** What is cached agrees with the server. *)
Definition agrees (st : accessChecker * nat) : Prop :=
  ac_verb st.1 = verb /\ forall k s, ac_cache st.1 !! k = Some s -> ssar_Allowed s = server k.

#[export] Instance rbac_checker_laws :
  CheckerLaws (accessChecker * nat) agrees (fun g r => server (mkAttributes "" verb g r)).
Proof.
  intros [ac n] g r [Hv Hc]. cbn in Hv, Hc. unfold check_CanI, rbac_checker.
  destruct (env n) as [[now later] create] eqn:En. pose proof (Hserver n) as Hs.
  rewrite En in Hs. cbn in Hs. set (c := mkCall g r now later create).
  assert (keyOf ac c = mkAttributes "" verb g r) as Hk by (unfold keyOf; by rewrite Hv).
  destruct (asks ac c) eqn:Ea.
  - assert (ssar_Allowed (review (keyOf ac c) emptyReview c) = server (keyOf ac c)) as Hr.
    { unfold review. destruct (Hs (mkReview (ssar_CreationTimestamp emptyReview) (Some (keyOf ac c))
        (ssar_Allowed emptyReview)) (keyOf ac c) eq_refl) as (s' & Hs' & Ha).
      change (call_Create c) with create. by rewrite Hs'. }
    rewrite (CanI_asks ac c Ea), Hr, Hk. split; [done|]. split; [done|]. cbn.
    intros k s [[<- <-]|[_ ?]]%lookup_insert_Some; [by rewrite <-Hk|eauto].
  - destruct (CanI_cached ac c Ea) as (s & Hin & _ & ->). rewrite Hk in Hin.
    split; [by apply Hc|by split].
Qed.
End rbac.
