(* ===== verification/WorkloadRuns.v ===== *)
(** * Runs of projections on workloads

    The runs of [BindingRuns.v] on workloads, and the admission webhook after
    them: a workload that the reconciler has settled is admitted as it is. *)

From S2P Require Import Prelude GoSort Json Tree Types Kube MetaPodTemplate Layout Workload WorkloadFacts.
From S2P Require Import Binding BindingSpec BindingLemmas BindingFacts BindingRuns Projector ProjectorFacts.
From S2P Require Import Resolver ServiceBindingWebhook WebhookController WebhookFacts.
Local Open Scope string_scope.

Section runs.
Context `{JsonPath}.
Context `{CodecLaws (list EnvVar)} `{CodecLaws (list VolumeMount)} `{CodecLaws (list Volume)}.
Context {W : Type} `{UnstructuredConverter W} `{MappingSource W} `{!ConverterLaws W}.

(** The workload after a run; the first failure ends it. *)
Definition ProjectRun (run : list ServiceBinding) (w : W) : outcome W :=
  foldl (fun r b => r ≫= Project b) (Ok w) run.

Lemma ProjectRun_fail run (r : outcome W) :
  (forall w, r <> Ok w) -> foldl (fun r b => r ≫= Project b) r run = r.
Proof. intros Hr. induction run as [|b run IH]; [done|]. by destruct r; [destruct (Hr a)|..]. Qed.

Lemma ProjectRun_cons b run w w' :
  ProjectRun (b :: run) w = Ok w' <-> exists w1, Project b w = Ok w1 /\ ProjectRun run w1 = Ok w'.
Proof.
  unfold ProjectRun. cbn. destruct (Project b w) as [w1|e|s] eqn:E; cbn.
  - split; [by eauto|]. by intros (? & [= <-] & ?).
  - rewrite ProjectRun_fail by done. split; [done|by intros (? & ? & _)].
  - rewrite ProjectRun_fail by done. split; [done|by intros (? & ? & _)].
Qed.

(** Projecting a binding does not change which mapping applies. *)
Definition keepsMapping (bs : list ServiceBinding) : Prop :=
  forall b w w', b ∈ bs -> Project b w = Ok w' -> LookupMapping w' = LookupMapping w.

Lemma ProjectRun_prepared bs run : forall w w' mapping lay u m,
  keepsMapping bs -> run ⊆ bs -> Prepared w mapping lay u m -> ProjectRun run w = Ok w' ->
  exists u', Prepared w' mapping lay u' (projectRun run m) /\ sameElsewhere lay u u' /\
    (run <> [] -> writeTemplate (projectRun run m) mapping u' = Ok u').
Proof.
  induction run as [|b run IH]; intros w w' mapping lay u m Hk Hs Hp Hr.
  { injection Hr as <-. exists u. by split_and!; [|intros ??|]. }
  apply ProjectRun_cons in Hr as (w1 & Hb & Hr).
  destruct (rewrites_spec (project b) w mapping lay u m Hp) as (u1 & Hu1 & Hw1 & Hr1 & Hid & Hs1);
    [apply project_names|].
  change (rewrites (project b) w) with (Project b w) in Hu1. rewrite Hb in Hu1. symmetry in Hu1.
  assert (Prepared w1 mapping lay u1 (project b m)) as Hp1.
  { apply (rewrites_prepared (project b) w mapping lay u m u1 w1 Hp Hw1 Hr1 Hu1).
    rewrite (Hk b w w1) by (done || set_solver). apply Hp. }
  destruct (IH w1 w' mapping lay u1 (project b m)) as (u' & Hp' & Hs' & Hid'); [done|set_solver|done..|].
  exists u'. split_and!; [done|intros ks Hks; by rewrite Hs', Hs1|]. intros _.
  destruct run as [|b' run]; [|by apply Hid'].
  injection Hr as <-. assert (u' = u1) as ->; [|done].
  pose proof (prep_tree _ _ _ _ _ Hp'). pose proof (prep_tree _ _ _ _ _ Hp1). congruence.
Qed.

(** Writing back the template that is there leaves the workload as it is. *)
Lemma rewrites_settled f w mapping lay u m :
  Prepared w mapping lay u m -> writeTemplate m mapping u = Ok u -> f m = m -> rewrites f w = Ok w.
Proof.
  intros [Hm Ht _ _ _ Hr] Hw Hf. unfold rewrites, NewMetaPodTemplate, WriteToWorkload.
  rewrite Hm. cbn. rewrite Ht. cbn. rewrite Hr. cbn. rewrite Hf, Hw. cbn. by apply from_after_to.
Qed.

Lemma ProjectRun_settled bs run w w' mapping lay u m b :
  keepsMapping bs -> compatible bs m -> run ⊆ bs -> Prepared w mapping lay u m ->
  ProjectRun run w = Ok w' -> b ∈ run -> Project b w' = Ok w'.
Proof.
  intros Hk Hc Hs Hp Hr Hb.
  destruct (ProjectRun_prepared bs run w w' mapping lay u m Hk Hs Hp Hr) as (u' & Hp' & _ & Hid).
  apply (rewrites_settled (project b) w' mapping lay u' (projectRun run m)); [done|..].
  - apply Hid. by intros ->; apply not_elem_of_nil in Hb.
  - change (project b (projectRun run m)) with (projectRun [b] (projectRun run m)).
    unfold projectRun. rewrite <-foldl_app. apply (projectRun_same bs); [set_solver|done|].
    intros x. set_solver.
Qed.

(** Convergence of workloads. On a workload that the projector can read and
    write, a run of projections that does not fail and that projects each of
    some compatible bindings at least once settles the workload: it reads as
    the template with all of them, whatever the order of the run, nothing
    outside the places of the mapping has changed, and projecting any of them
    again leaves the workload exactly as it is. *)
Lemma ProjectRun_converges bs run w w' mapping lay u m :
  keepsMapping bs -> compatible bs m -> Prepared w mapping lay u m ->
  run ⊆ bs -> bs ⊆ run -> ProjectRun run w = Ok w' ->
  (exists u', ToUnstructured w' = Ok u' /\ readTemplate mapping u' = Ok (projectRun bs m) /\
     sameElsewhere lay u u') /\
  forall b, b ∈ bs -> Project b w' = Ok w'.
Proof.
  intros Hk Hc Hp Hs Hb Hr. split.
  - destruct (ProjectRun_prepared bs run w w' mapping lay u m Hk Hs Hp Hr) as (u' & Hp' & Hse & _).
    exists u'. split_and!; [apply Hp'| |done]. rewrite (prep_read _ _ _ _ _ Hp'). f_equal.
    apply (projectRun_same bs); [done..|]. intros b. split; auto.
  - intros b Hin. eapply ProjectRun_settled; eauto.
Qed.
End runs.

(** ** Admission after reconciling *)

Section admission.
Context `{JsonPath}.
Context `{CodecLaws (list EnvVar)} `{CodecLaws (list VolumeMount)} `{CodecLaws (list Volume)}.
Context `{UnstructuredConverter json} `{MappingSource json} `{!ConverterLaws json}.
Context `{LabelSelectors} `{Schema} `{GroupKinds} `{ObjectAccessors} `{BindingLister}.

Lemma projectAll_settled sbs w :
  (forall sb, sb ∈ sbs -> Project (ServiceBinding_Default sb) w = Ok w) -> projectAll sbs w = Ok w.
Proof.
  induction sbs as [|sb sbs IH]; intros Hs; [done|]. cbn [projectAll].
  rewrite Hs by set_solver. cbn. apply IH. set_solver.
Qed.

(** Admission settles. Once the reconciler has projected the bindings of a
    workload, the admission of that workload, which projects all active
    bindings of the index again, with their defaults, changes nothing: the two
    do not fight over the workload. *)
Lemma admission_after_reconcile bs run w w' mapping lay u m items :
  keepsMapping bs -> compatible bs m -> Prepared w mapping lay u m ->
  run ⊆ bs -> ProjectRun run w = Ok w' ->
  ListBindings (GetNamespace w')
    (let gvk := FromAPIVersionAndKind (GetAPIVersion w') (GetKind w') in
     workloadRefIndexValue (gvk_Group gvk) (gvk_Kind gvk)) = Ok items ->
  (forall sb, sb ∈ items -> isActive w' sb = true -> ServiceBinding_Default sb ∈ run) ->
  AdmissionProjectorWebhook_Sync w' = Ok w'.
Proof.
  intros Hk Hc Hp Hs Hr Hl Ha. unfold AdmissionProjectorWebhook_Sync. cbv zeta in Hl |- *. rewrite Hl. cbn.
  rewrite activeServiceBindings_filter. apply projectAll_settled.
  intros sb [Hin Hact]%elem_of_filter_bool. eapply ProjectRun_settled; eauto.
Qed.
End admission.
