(* ===== verification/WorkloadHistory.v ===== *)
(** * Histories of a workload

    The histories of [BindingHistory.v] on a workload: its steps are what whole
    reconciles of bindings, from the lookup of the service to the update,
    submit for it, and [AdmissionProjectorWebhook_Sync], what the admission
    webhook makes of it. The pod template of the workload goes through a
    history of templates, and nothing else of the workload changes. *)

From stdpp Require Import relations fin_maps.
From S2P Require Import Prelude GoSort Json Tree Types Kube MetaPodTemplate Layout Workload WorkloadFacts.
From S2P Require Import Binding BindingSpec BindingLemmas BindingFacts BindingRuns BindingHistory.
From S2P Require Import Projector ProjectorFacts Resolver ServiceBindingWebhook Lifecycle.
From S2P Require Import ServiceBindingController ControllerFacts WebhookController WebhookFacts WorkloadRuns.
Local Open Scope string_scope.

(** The live bindings after a reconcile of [b]. *)
Definition reconciledLive (b : ServiceBinding) (live : liveBindings) : liveBindings :=
  if isDeleting b then delete (UID b) live else projectedLive b live.

Lemma reconciled_history bs live m b :
  b ∈ bs -> history bs (live, m) (reconciledLive b live, rewriteFor b m).
Proof.
  intros Hb. unfold reconciledLive, rewriteFor. destruct (isDeleting b); [by constructor|].
  apply (history_projected bs live m [b]). by intros b' ->%list_elem_of_singleton.
Qed.

Lemma reconciled_names b m :
  map mct_Name (mpt_Containers (rewriteFor b m)) = map mct_Name (mpt_Containers m).
Proof. unfold rewriteFor. destruct (isDeleting b); [apply unproject_names|apply project_names]. Qed.

(** The kind of an object is read from its type fields. *)
Class KindLaws `{UnstructuredConverter json} `{Cluster} : Prop :=
  kind_of_fields w w' u u' : ToUnstructured w = Ok u -> ToUnstructured w' = Ok u' ->
    (forall key, key ∈ ["apiVersion"; "kind"]%list -> get_loc (fields [key]) u = get_loc (fields [key]) u') ->
    GVKForObject w = GVKForObject w'.

(** The places of a mapping do not touch the type fields. *)
Definition keepsKind (lay : layout) : Prop :=
  forall p key, p ∈ layoutPaths lay -> key ∈ ["apiVersion"; "kind"]%list ->
  disjoint p (fields [key]) = true.

Section history.
Context `{JsonPath}.
Context `{CodecLaws (list EnvVar)} `{CodecLaws (list VolumeMount)} `{CodecLaws (list Volume)}.
Context `{UnstructuredConverter json} `{!ConverterLaws json}.
Context `{LabelSelectors} `{RESTMapper} {base : Cluster} `{!KindLaws} `{Schema} `{GroupKinds} `{ObjectAccessors}.
Context `{ConditionManager} `{Accessors} `{RuntimeLaws}.

(** *** Steps *)

(** The cluster and the client are those of the moment: objects come and change,
    and updates may fail. What stays are the kinds and the mapping resources. *)
Definition sameMappings (cl : Cluster) : Prop :=
  forall w, @LookupMapping json (@cluster_mappingSource _ cl) w = @LookupMapping json (@cluster_mappingSource _ base) w.

(** A whole reconcile: the binding with which it projects, and what it submits. *)
Definition reconciledBinding (cl : Cluster) (st : reconcileState) : ServiceBinding :=
  st_Resource (@resolved cl _ st).1.
Definition submitted (cl : Cluster) (manager : WorkloadManager) (st : reconcileState) : list (json * json) :=
  st_Managed (Reconcile (@reconcileSteps _ _ _ _ _ _ _ cl _ _ manager) st).1.

(** What the index has for a workload. *)
Definition indexed (lister : BindingLister) (w : json) : outcome (list ServiceBinding) :=
  let gvk := FromAPIVersionAndKind (GetAPIVersion w) (GetKind w) in
  ListBindings (GetNamespace w) (workloadRefIndexValue (gvk_Group gvk) (gvk_Kind gvk)).

(** The bindings with which a workload is admitted. *)
Definition admitted (w : json) (items : list ServiceBinding) : list ServiceBinding :=
  map ServiceBinding_Default (activeServiceBindings w items).

(** The index has current versions of the bindings that are active. *)
Definition upToDate (bs : list ServiceBinding) (live : liveBindings) (lister : BindingLister) (w : json) : Prop :=
  exists items, indexed lister w = Ok items /\
    forall b, b ∈ admitted w items -> b ∈ bs /\ current live b.

(** A write that the API server accepts replaces the workload that was read: a
    pair that a reconcile submits, or what the admission webhook makes of a
    workload with whatever versions of bindings are in the index by then. *)
Inductive workloadHistory (bs : list ServiceBinding) : relation (liveBindings * json) :=
| workload_reconciled cl manager st live w w' :
    sameMappings cl -> st_Workloads st = None -> st_Managed st = [] ->
    reconciledBinding cl st ∈ bs -> (w, w') ∈ submitted cl manager st ->
    workloadHistory bs (live, w) (reconciledLive (reconciledBinding cl st) live, w')
| workload_admitted lister items live w w' :
    indexed lister w = Ok items -> admitted w items ⊆ bs ->
    AdmissionProjectorWebhook_Sync w = Ok w' ->
    workloadHistory bs (live, w) (liveAfter (admitted w items) live, w').

(** What is submitted is a projection under the mapping of the workload. *)
Lemma submitted_projection cl manager st w w' :
  sameMappings cl -> st_Workloads st = None -> st_Managed st = [] ->
  (w, w') ∈ submitted cl manager st -> @projectOne _ _ _ _ _ _ base (reconciledBinding cl st) w = Ok w'.
Proof.
  intros Hcl Hw Hm Hin.
  assert (forall b v, @projectOne _ _ _ _ _ _ cl b v = @projectOne _ _ _ _ _ _ base b v) as Heq.
  { intros b v. unfold projectOne, Project, Unproject. destruct (isDeleting b); by rewrite (Hcl v). }
  destruct (@reconcile_submits _ _ _ _ _ _ _ cl _ _ manager _ _ st Hw Hm)
    as (_ & _ & [Hnil|(ws & ws' & n & _ & Hf & Hn & _)]); unfold submitted in Hin.
  { rewrite Hnil in Hin. by apply elem_of_nil in Hin. }
  rewrite Hn in Hin. apply elem_of_take in Hin as (i & Hi & _). apply lookup_zip_with_Some in Hi as (x & y & [= -> ->] & Hx & Hy).
  rewrite <-Heq. by apply (Forall2_lookup_lr _ _ _ _ _ _ Hf Hx Hy).
Qed.

Lemma projectOne_rewrites b : projectOne b = rewrites (rewriteFor b).
Proof. unfold projectOne, rewriteFor. by destruct (isDeleting b). Qed.

(** ** What a workload goes through *)

Section steps.
Context (mapping : ClusterWorkloadResourceMappingTemplate) (lay : layout) (u0 : json).
Hypothesis Hkind : keepsKind lay.

(** The workload whose tree was [u0] first and that now has the template [m].
    Once a step was taken the template is written the way the projector does. *)
Definition stands (touched : Prop) (w : json) (m : metaPodTemplate) : Prop :=
  exists u, Prepared w mapping lay u m /\ sameElsewhere lay u0 u /\
    (touched -> writeTemplate m mapping u = Ok u).

Lemma stands_weaken (P Q : Prop) w m : stands P w m -> (Q -> P) -> stands Q w m.
Proof. intros (u & ? & ? & Hw) HQ. exists u. split_and!; auto. Qed.

Lemma stands_rewrites (touched : Prop) f w w' m :
  stands touched w m -> map mct_Name (mpt_Containers (f m)) = map mct_Name (mpt_Containers m) ->
  rewrites f w = Ok w' -> stands True w' (f m).
Proof.
  intros (u & Hp & Hs & _) Hn Hr.
  destruct (rewrites_spec f w mapping lay u m Hp Hn) as (u1 & Hu1 & Hw1 & Hr1 & Hid & Hs1).
  rewrite Hr in Hu1. symmetry in Hu1. exists u1. split_and!; [|intros ks Hks; by rewrite Hs1, Hs|done].
  apply (rewrites_prepared f w mapping lay u m u1 w' Hp Hw1 Hr1 Hu1).
  rewrite <-(prep_mapping _ _ _ _ _ Hp). unfold LookupMapping, cluster_mappingSource, cluster_LookupMapping.
  rewrite (kind_of_fields w' w u1 u); [done|by eapply to_after_from|apply Hp|].
  intros key Hkey. apply Hs1. intros p Hpl. by apply Hkind.
Qed.

Lemma stands_projectAll (touched : Prop) sbs w w' m :
  stands touched w m -> projectAll sbs w = Ok w' ->
  stands (touched \/ sbs <> []) w' (projectRun (map ServiceBinding_Default sbs) m).
Proof.
  revert touched w m. induction sbs as [|sb sbs IH]; intros touched w m Hst Hr.
  { injection Hr as <-. eapply stands_weaken; [exact Hst|]. by intros [?|?]. }
  cbn [projectAll] in Hr. destruct (Project _ w) as [w1|e|x] eqn:E; [|done..]. cbn in Hr.
  eapply stands_weaken; [apply (IH True w1 (project (ServiceBinding_Default sb) m)); [|done]|by left].
  by eapply stands_rewrites; [exact Hst|apply project_names|].
Qed.

(** A step of the workload is a step of its template. *)
Lemma workload_step bs live w live' w' m :
  stands (live <> ∅) w m -> workloadHistory bs (live, w) (live', w') ->
  exists m', stands (live' <> ∅) w' m' /\ history bs (live, m) (live', m').
Proof.
  intros Hst Hstep. remember (live, w) as s eqn:Es. remember (live', w') as s' eqn:Es'.
  destruct Hstep as [cl manager st l v v' Hcl Hn Hm Hb Hin|lister items l v v' Hl Hsub Hr]; simplify_eq.
  - set (b := reconciledBinding cl st) in *. exists (rewriteFor b m).
    split; [|by apply reconciled_history].
    pose proof (submitted_projection cl manager st w w' Hcl Hn Hm Hin) as Hr. rewrite projectOne_rewrites in Hr.
    by apply (stands_weaken True); [apply (stands_rewrites _ _ _ _ _ Hst (reconciled_names b m) Hr)|].
  - unfold AdmissionProjectorWebhook_Sync in Hr. unfold indexed in Hl. cbv zeta in Hr, Hl.
    rewrite Hl in Hr. cbn in Hr. eexists. split; [|by apply history_projected].
    eapply stands_weaken; [by eapply stands_projectAll|]. unfold admitted.
    destruct (activeServiceBindings w items); [by left|by right].
Qed.

Lemma workload_steps bs w0 m0 live w :
  stands False w0 m0 -> rtc (workloadHistory bs) (∅, w0) (live, w) ->
  exists m, stands (live <> ∅) w m /\ rtc (history bs) (∅, m0) (live, m).
Proof.
  intros Hst Hr.
  enough (forall s s', rtc (workloadHistory bs) s s' -> forall m, stands (s.1 <> ∅) s.2 m ->
    exists m', stands (s'.1 <> ∅) s'.2 m' /\ rtc (history bs) (s.1, m) (s'.1, m')) as Hgen.
  { apply (Hgen _ _ Hr). destruct Hst as (u & ? & ? & _). by exists u. }
  induction 1 as [[l v]|[l1 v1] [l2 v2] s Hstep _ IH]; intros m Hm; [by exists m|].
  destruct (workload_step bs l1 v1 l2 v2 m Hm Hstep) as (m2 & Hm2 & Hh).
  destruct (IH m2 Hm2) as (m' & ? & ?). exists m'. split; [done|]. by eapply rtc_l.
Qed.
End steps.

(** C2 (history of workloads). Whatever reconciles and admissions a workload
    went through, with bindings that come, change and go, and admissions that
    see older or newer versions than the reconciler: nothing outside the places
    of its mapping has changed, and its template is what projecting the bindings
    that are live, in the versions that were projected last, into its first
    template gives, so that it is the first template again once all bindings are
    gone. Projecting a current
    version again and an admission that sees the current versions leave the
    workload exactly as it is. *)
Theorem workload_history_refines bs m0 w0 mapping lay u0 live w :
  separate bs m0 -> keepsKind lay -> Prepared w0 mapping lay u0 m0 ->
  rtc (workloadHistory bs) (∅, w0) (live, w) ->
  (exists u m, ToUnstructured w = Ok u /\ sameElsewhere lay u0 u /\ readTemplate mapping u = Ok m /\
     rtc (history bs) (∅, m0) (live, m) /\ (live = ∅ -> m = m0) /\
     forall run, (forall b, b ∈ run <-> live !! UID b = Some b) -> m = projectRun run m0) /\
  (forall b, b ∈ bs -> live <> ∅ -> current live b -> Project b w = Ok w) /\
  (forall lister, live <> ∅ -> upToDate bs live lister w -> AdmissionProjectorWebhook_Sync w = Ok w).
Proof.
  intros Hsep Hkind Hp Hr.
  destruct (workload_steps mapping lay u0 Hkind bs w0 m0 live w) as (m & (u & Hp' & Hs & Hw) & Hh);
    [by exists u0|done|].
  destruct (history_live bs m0 Hsep live m Hh) as [Ht ->].
  assert (forall b, b ∈ bs -> current live b -> live <> ∅ -> Project b w = Ok w) as Hfix.
  { intros b Hb Hc Hne. apply (rewrites_settled (project b) w mapping lay u (projectLive live m0));
      [done|by apply Hw|by apply (project_current bs)]. }
  split_and!.
  - exists u, (projectLive live m0). split_and!; [apply Hp'|done|apply Hp'|done|by intros ->|].
    intros run Hrun. apply (projectRun_same (versions live)); [done|by apply (live_compatible bs)|].
    intros b. by rewrite Hrun, (elem_of_tracked bs).
  - intros b Hb Hne Hc. by apply Hfix.
  - intros lister Hne (items & Hl & Hup). unfold AdmissionProjectorWebhook_Sync.
    unfold indexed in Hl. cbv zeta in Hl |- *. rewrite Hl. cbn. apply projectAll_settled. intros sb Hsb.
    assert (ServiceBinding_Default sb ∈ admitted w items) as Hin by (apply list_elem_of_fmap; by exists sb).
    by apply Hfix; [apply Hup..|].
Qed.
End history.
