(* ===== verification/Main.v ===== *)
(** * The wiring of the runtime (main.go)

    [main] gives the two reconcilers of webhook configurations one access
    checker, with the verb [update] for the projector and [get] for the
    trigger, and runs them whenever a binding changes. Flags, the manager and
    the registration with it are controller-runtime's. *)

From S2P Require Import Prelude GoSort Json Types Kube MetaPodTemplate Projector Resolver.
From S2P Require Import Rbac ServiceBindingWebhook ServiceBindingController WebhookController WebhookFacts.
Local Open Scope string_scope.

Definition minute : Z := 60 * 1000000000.

(** [rbac.NewAccessChecker(config, 5*time.Minute)], and what the reconcilers get. *)
Definition mainChecker : accessChecker := NewAccessChecker (5 * minute).
Definition projectorChecker : accessChecker := WithVerb mainChecker "update".
Definition triggerChecker : accessChecker := WithVerb mainChecker "get".

(** The stash of a reconcile starts empty. *)
Definition emptyStash : stash := mkStash None None None.

Section wiring.
Context `{Schema} `{RESTMapper} `{SetsList} `{!SetsListLaws}.

(** The clock and the client of each checker, by the number of the call. *)
Context (env : nat -> Z * Z * (SelfSubjectAccessReview -> SelfSubjectAccessReview * option error)).

(** One pass of either reconciler; its bindings are those in the cluster at
    that time. *)
Definition projectorPass (lister : BindingLister) (st : accessChecker * nat) :
    outcome (stash * (accessChecker * nat)) :=
  @AdmissionProjectorReconciler _ lister _ _ _ (rbac_checker env) st emptyStash.
Definition triggerPass (lister : BindingLister) (st : accessChecker * nat) :
    outcome (stash * (accessChecker * nat)) :=
  @TriggerReconciler _ lister _ _ _ (rbac_checker env) st emptyStash.

(** The checker after some passes; one that fails leaves it as it was. *)
Definition afterPasses (pass : BindingLister -> accessChecker * nat -> outcome (stash * (accessChecker * nat)))
    (listers : list BindingLister) (st : accessChecker * nat) : accessChecker * nat :=
  foldl (fun st lister => match pass lister st with Ok (_, st') => st' | _ => st end) st listers.

Context (server : ResourceAttributes -> bool).
Hypothesis Hserver : forall n s k, ssar_Spec s = Some k ->
  exists s', (env n).2 s = (s', None) /\ ssar_Allowed s' = server k.

Lemma fresh_agrees verb : agrees server verb (WithVerb mainChecker verb, 0).
Proof. split; [done|]. intros k s Hs. cbn in Hs. by rewrite lookup_empty in Hs. Qed.

Lemma passes_agree verb pass listers st :
  (forall lister st s st', agrees server verb st -> pass lister st = Ok (s, st') -> agrees server verb st') ->
  agrees server verb st -> agrees server verb (afterPasses pass listers st).
Proof.
  intros Hp. revert st. induction listers as [|l ls IH]; intros st Hs; [done|]. cbn.
  apply IH. destruct (pass l st) as [[s st']|e|x] eqn:E; [by eapply Hp|done..].
Qed.

#[local] Instance main_checker : AccessChecker (accessChecker * nat) := rbac_checker env.
#[local] Instance main_laws verb :
  CheckerLaws (accessChecker * nat) (agrees server verb) (fun g r => server (mkAttributes "" verb g r)).
Proof. by apply rbac_checker_laws. Qed.

Lemma projectorPass_agrees lister st s st' :
  agrees server "update" st -> projectorPass lister st = Ok (s, st') -> agrees server "update" st'.
Proof.
  intros Hs. unfold projectorPass, AdmissionProjectorReconciler. intros Hr. simplify_outcome.
  exact (WebhookRules_keeps (agrees server "update") _ _ _ _ _ _ Hs Hr).
Qed.

Lemma triggerPass_agrees lister st s st' :
  agrees server "get" st -> triggerPass lister st = Ok (s, st') -> agrees server "get" st'.
Proof.
  intros Hs. unfold triggerPass, TriggerReconciler. intros Hr. simplify_outcome.
  exact (WebhookRules_keeps (agrees server "get") _ _ _ _ _ _ Hs Hr).
Qed.

(** C24 (configurations). In the runtime that [main] puts together, after any
    number of earlier passes, whether they failed or not, a pass of the
    projector's reconciler that succeeds makes of a configuration with one
    webhook one whose rules intercept exactly the resources of the workload
    kinds of the bindings that the runtime may update; the trigger's
    reconciler, those of the workload kinds and of the service kinds other than
    Secret that the runtime may get. Nothing else of the configuration
    changes. *)
Theorem main_configures lister listers sbs w other :
  @ListAllBindings lister = Ok sbs ->
  let c := mkWebhookConfiguration [w] other in
  (forall s st, projectorPass lister (afterPasses projectorPass listers (projectorChecker, 0)) = Ok (s, st) ->
   exists rules,
     MergeRulesBeforeUpdate (Some c) (DesiredResource s (Some c)) =
       Some (mkWebhookConfiguration [mkWebhook rules (wh_other w)] other) /\
     forall g r, intercepts rules g r <->
       (exists sb, sb ∈ sbs /\ mapsTo (workloadGVK sb) g r) /\
       server (mkAttributes "" "update" g r) = true) /\
  (forall s st, triggerPass lister (afterPasses triggerPass listers (triggerChecker, 0)) = Ok (s, st) ->
   exists rules,
     Trigger_MergeRulesBeforeUpdate (Some c) (Trigger_DesiredResource s (Some c)) =
       Some (mkWebhookConfiguration [mkWebhook rules (wh_other w)] other) /\
     forall g r, intercepts rules g r <->
       (exists sb, sb ∈ sbs /\ (mapsTo (workloadGVK sb) g r \/
          isDirect (serviceGVK sb) = false /\ mapsTo (serviceGVK sb) g r)) /\
       server (mkAttributes "" "get" g r) = true).
Proof.
  intros Hl c. split; intros s st Hp; exists (RetrieveWebhookRules s); (split; [done|]).
  - assert (agrees server "update" (afterPasses projectorPass listers (projectorChecker, 0))) as Ha.
    { apply passes_agree; [intros *; apply projectorPass_agrees|apply fresh_agrees]. }
    exact (proj1 (reconcilers_rules (agrees server "update") _ _ emptyStash sbs Ha Hl eq_refl) s st Hp).
  - assert (agrees server "get" (afterPasses triggerPass listers (triggerChecker, 0))) as Ha.
    { apply passes_agree; [intros *; apply triggerPass_agrees|apply fresh_agrees]. }
    exact (proj2 (reconcilers_rules (agrees server "get") _ _ emptyStash sbs Ha Hl eq_refl) s st Hp).
Qed.
End wiring.
