(* ===== verification/Triggering.v ===== *)
(** * Waking up bindings (resolver/cluster.go, webhook_controller.go)

    A reconcile that looks at a service or at a named workload tracks it, also
    when it is not there yet, and is not tried again by itself. The trigger
    webhook enqueues the bindings that track an object when the API server
    admits it. This file puts the two together with the rules that the
    trigger's reconciler writes: what a binding waits for wakes it. *)

From S2P Require Import Prelude GoSort Json Types Kube MetaPodTemplate Projector Resolver Lifecycle.
From S2P Require Import Rbac ServiceBindingWebhook ServiceBindingController ControllerFacts.
From S2P Require Import WebhookController WebhookFacts Main.
Local Open Scope string_scope.

(** ** The resolver, with the objects that it tracks *)

(** A result and the calls of [TrackAndGet] on the way to it. *)
Definition tracking (A : Type) : Type := list ObjectReference * outcome A.

#[export] Instance tracking_ret : MRet tracking := fun A a => ([], Ok a).
#[export] Instance tracking_bind : MBind tracking := fun A B k m =>
  match m with
  | (l, Ok a) => let '(l', r) := k a in (l ++ l', r)%list
  | (l, Err e) => (l, Err e)
  | (l, Panic s) => (l, Panic s)
  end.

Section tracked.
Context `{LabelSelectors} `{RESTMapper} `{Cluster} `{Schema}.

Definition trackAndGet (apiVersion kind namespace name : string) : tracking json :=
  ([mkObjectReference apiVersion kind namespace name], TrackAndGet apiVersion kind namespace name).

Definition noTracking {A} (r : outcome A) : tracking A := ([], r).

Definition LookupBindingSecret_tracked (serviceRef : ObjectReference) : tracking string :=
  if String.eqb (or_APIVersion serviceRef) "v1" && String.eqb (or_Kind serviceRef) "Secret" then
    mret (or_Name serviceRef)
  else
    service ← trackAndGet (or_APIVersion serviceRef) (or_Kind serviceRef)
                (or_Namespace serviceRef) (or_Name serviceRef);
    let '(secretName, _, err) := NestedString service ["status"; "binding"; "name"]%list in
    match err with
    | Some err => noTracking (Err err)
    | None => mret secretName
    end.

Definition LookupWorkloads_tracked (workloadRef : ObjectReference) (selector : option LabelSelector) :
    tracking (list json) :=
  if negb (String.eqb (or_Name workloadRef) "") then
    workload ← trackAndGet (or_APIVersion workloadRef) (or_Kind workloadRef)
                 (or_Namespace workloadRef) (or_Name workloadRef);
    mret [workload]
  else noTracking (lookupWorkloads workloadRef selector).

Lemma LookupBindingSecret_tracked_result r :
  (LookupBindingSecret_tracked r).2 = LookupBindingSecret r.
Proof.
  unfold LookupBindingSecret_tracked, LookupBindingSecret. destruct (_ && _); [done|].
  unfold trackAndGet. destruct (TrackAndGet _ _ _ _) as [j|e|s]; [|done..]. cbn.
  by destruct (NestedString _ _) as [[n f] [e|]].
Qed.

Lemma LookupWorkloads_tracked_result r sel :
  (LookupWorkloads_tracked r sel).2 = LookupWorkloads r sel.
Proof.
  unfold LookupWorkloads_tracked, LookupWorkloads. destruct (negb _); [|done].
  unfold lookupWorkload, trackAndGet. by destruct (TrackAndGet _ _ _ _).
Qed.

(** ** What a reconcile tracks *)

Context `{ConditionManager}.

(** [ResolveBindingSecret], which is left out while the binding is deleted, and
    [ResolveWorkloads], which comes next unless it failed. *)
Definition tracked (st : reconcileState) : list ObjectReference :=
  let b := st_Resource st in
  let workloads b := (LookupWorkloads_tracked (workloadRef b) (wr_Selector (sbs_Workload (sb_Spec b)))).1 in
  if isDeleting b then workloads b
  else ((LookupBindingSecret_tracked (serviceRef b)).1 ++
        match ResolveBindingSecret_Sync st with
        | (st', Done _) => workloads (st_Resource st')
        | _ => []
        end)%list.

(** The tracker, after a binding was reconciled, has the binding for each object
    that the reconcile tracked. *)
Definition trackedFor `{Tracker} (req : Request) (refs : list ObjectReference) : Prop :=
  forall r, r ∈ refs ->
  req ∈ Tracker_Lookup (FromAPIVersionAndKind (or_APIVersion r) (or_Kind r)) (or_Namespace r) (or_Name r).
End tracked.

(** ** Facts *)

Section facts.
Context `{LabelSelectors} `{RESTMapper} `{Cluster} `{Schema} `{ConditionManager}.
Implicit Types b : ServiceBinding.

Definition direct (r : ObjectReference) : bool :=
  String.eqb (or_APIVersion r) "v1" && String.eqb (or_Kind r) "Secret".

Lemma LookupBindingSecret_tracks r :
  (LookupBindingSecret_tracked r).1 = if direct r then [] else [r].
Proof.
  unfold LookupBindingSecret_tracked, direct. destruct (_ && _); [done|].
  unfold trackAndGet. destruct r. cbn. destruct (TrackAndGet _ _ _ _) as [j|e|s]; [|done..]. cbn.
  by destruct (NestedString _ _) as [[n f] [e|]].
Qed.

Lemma LookupWorkloads_tracks r sel :
  (LookupWorkloads_tracked r sel).1 = if String.eqb (or_Name r) "" then [] else [r].
Proof.
  unfold LookupWorkloads_tracked. destruct (String.eqb _ _); [done|]. unfold trackAndGet.
  destruct r. cbn. by destruct (TrackAndGet _ _ _ _).
Qed.

(** Resolving the secret leaves the rest of the binding as it is. *)
Lemma ResolveBindingSecret_spec st st' res :
  ResolveBindingSecret_Sync st = (st', res) ->
  sb_Spec (st_Resource st') = sb_Spec (st_Resource st) /\ sb_Meta (st_Resource st') = sb_Meta (st_Resource st).
Proof.
  unfold ResolveBindingSecret_Sync. destruct (LookupBindingSecret _) as [n|e|s].
  - destruct (negb _); by intros [= <- _].
  - destruct (IsNotFound e); [by intros [= <- _]|]. destruct (IsForbidden e); by intros [= <- _].
  - by intros [= <- _].
Qed.

(** What the steps of a reconcile look at. *)
Lemma tracked_spec st r :
  let b := st_Resource st in
  r ∈ tracked st <->
  (r = serviceRef b /\ isDeleting b = false /\ direct r = false) \/
  (r = workloadRef b /\ wr_Name (sbs_Workload (sb_Spec b)) <> "" /\
   (isDeleting b = true \/ exists requeue, (ResolveBindingSecret_Sync st).2 = Done requeue)).
Proof.
  cbv zeta. set (b := st_Resource st).
  assert (forall b', r ∈ (LookupWorkloads_tracked (workloadRef b')
      (wr_Selector (sbs_Workload (sb_Spec b')))).1 <->
    r = workloadRef b' /\ wr_Name (sbs_Workload (sb_Spec b')) <> "") as Hw.
  { intros b'. rewrite LookupWorkloads_tracks. cbn. destruct (String.eqb_spec (wr_Name (sbs_Workload (sb_Spec b'))) "").
    - rewrite elem_of_nil. naive_solver.
    - rewrite list_elem_of_singleton. naive_solver. }
  unfold tracked. fold b. destruct (isDeleting b); [rewrite Hw; naive_solver|].
  rewrite elem_of_app, LookupBindingSecret_tracks.
  destruct (ResolveBindingSecret_Sync st) as [st' res] eqn:E.
  destruct (ResolveBindingSecret_spec st st' res E) as [Hs Hm].
  assert (workloadRef (st_Resource st') = workloadRef b) as Hr by (unfold workloadRef; by rewrite Hs, Hm).
  assert (r ∈ (if direct (serviceRef b) then [] else [serviceRef b])%list <->
    r = serviceRef b /\ direct r = false) as Hd.
  { destruct (direct (serviceRef b)) eqn:Ed; rewrite ?elem_of_nil, ?list_elem_of_singleton; split; try done.
    - intros [-> ?]. congruence.
    - by intros ->.
    - by intros [-> _]. }
  rewrite Hd. destruct res as [requeue|e|s]; cbn.
  - rewrite Hw, Hr, Hs. fold b. naive_solver.
  - rewrite elem_of_nil. naive_solver.
  - rewrite elem_of_nil. naive_solver.
Qed.
End facts.

(** ** Properties *)

Section wakes.
Context `{LabelSelectors} `{Schema} `{RESTMapper} `{Cluster} `{ConditionManager} `{ObjectAccessors} `{Tracker}.
Context `{SetsList} `{!SetsListLaws}.
Context (env : nat -> Z * Z * (SelfSubjectAccessReview -> SelfSubjectAccessReview * option error)).
Context (server : ResourceAttributes -> bool).
Hypothesis Hserver : forall n s k, ssar_Spec s = Some k ->
  exists s', (env n).2 s = (s', None) /\ ssar_Allowed s' = server k.

Definition kindOf (r : ObjectReference) : GroupVersionKind :=
  FromAPIVersionAndKind (or_APIVersion r) (or_Kind r).

(** The reference to an admitted object. *)
Definition referenceTo (trigger : json) : ObjectReference :=
  mkObjectReference (GetAPIVersion trigger) (GetKind trigger) (GetNamespace trigger) (GetName trigger).

(** C25 (waking up). A reconcile tracks the service of a binding, unless it is a
    Secret that is bound directly or the binding is being deleted, and its
    workload, if it has a name and the secret was looked up without a failure.
    Of every object that it tracks, there already or not: when the runtime may
    get it, the rules that the trigger's reconciler makes intercept it, except
    for Secrets; and when it is admitted, the trigger webhook enqueues the
    binding, unless it is a dry run. *)
Theorem tracked_wakes st req lister listers sbs s pst trigger dryRun q :
  let b := st_Resource st in
  let r := referenceTo trigger in
  @ListAllBindings lister = Ok sbs -> b ∈ sbs ->
  triggerPass env lister (afterPasses (triggerPass env) listers (triggerChecker, 0)) = Ok (s, pst) ->
  trackedFor req (tracked st) ->
  ((r = serviceRef b /\ isDeleting b = false /\ direct r = false) \/
   (r = workloadRef b /\ wr_Name (sbs_Workload (sb_Spec b)) <> "" /\
    (isDeleting b = true \/ exists requeue, (ResolveBindingSecret_Sync st).2 = Done requeue))) ->
  (forall g rs, isDirect (kindOf r) = false -> mapsTo (kindOf r) g rs ->
     server (mkAttributes "" "get" g rs) = true -> intercepts (RetrieveWebhookRules s) g rs) /\
  exists woken, TriggerWebhook_Sync dryRun trigger (Some q) = Some (q ++ woken)%list /\
    (dryRun <> Some true -> req ∈ woken) /\ (dryRun = Some true -> woken = []).
Proof.
  cbv zeta. intros Hl Hb Hp Ht Hr. split.
  - intros g rs Hd Hm Hs.
    assert (agrees server "get" (afterPasses (triggerPass env) listers (triggerChecker, 0))) as Ha.
    { apply passes_agree; [intros *; by apply triggerPass_agrees|apply fresh_agrees]. }
    pose proof (rbac_checker_laws env server "get" Hserver) as Hlaws.
    apply (proj2 (reconcilers_rules (agrees server "get") _ _ emptyStash sbs Ha Hl eq_refl) s pst Hp).
    split; [|done]. exists (st_Resource st). split; [done|].
    destruct Hr as [(Hr & _ & _)|(Hr & _ & _)]; rewrite Hr in Hd, Hm; [by right|by left].
  - rewrite TriggerWebhook_enqueues. cbn. case_bool_decide as Hd.
    + exists []. rewrite app_nil_r. split_and!; [done..|done].
    + eexists. split; [done|]. split; [|done]. intros _.
      apply (Ht (referenceTo trigger)). by apply tracked_spec.
Qed.
End wakes.
