(* ===== verification/Flags.v ===== *)
(** * Command line flags (main.go)

    Go's [flag] package as far as [main] uses it: string and boolean flags in
    a set that exits when an argument is wrong. Flags that other packages
    register (zap, controller-runtime) are a parameter of the flag set. *)

From Stdlib Require Import Ascii.
From S2P Require Import Prelude.
Local Open Scope string_scope.

(** ** Values *)

(** strconv.ParseBool *)
Definition ParseBool (s : string) : option bool :=
  if bool_decide (s ∈ ["1"; "t"; "T"; "TRUE"; "true"; "True"]%list) then Some true
  else if bool_decide (s ∈ ["0"; "f"; "F"; "FALSE"; "false"; "False"]%list) then Some false
  else None.

(** A flag that is defined: whether it needs no value ([IsBoolFlag]), and which
    values its [Set] takes. *)
Record Flag := mkFlag { flag_IsBoolFlag : bool; flag_Set : string -> bool }.

Definition stringFlag : Flag := mkFlag false (fun _ => true).
Definition boolFlag : Flag := mkFlag true (fun s => bool_decide (is_Some (ParseBool s))).

(** ** Parsing *)

(** [name=value] or [name]; the first character is not looked at. *)
Fixpoint cutValue (s : string) : string * option string :=
  match s with
  | "" => ("", None)
  | String c s' =>
      if Ascii.eqb c "=" then ("", Some s')
      else let '(n, v) := cutValue s' in (String c n, v)
  end.

Inductive argument :=
| NoFlag
| Terminator
| BadSyntax
| IsFlag (name : string) (value : option string).

Definition flagNamed (name : string) : argument :=
  match name with
  | "" => BadSyntax
  | String c rest =>
      if Ascii.eqb c "-" || Ascii.eqb c "=" then BadSyntax
      else let '(n, v) := cutValue rest in IsFlag (String c n) v
  end.

(** One or two dashes before the name; a single character is not a flag. *)
Definition readArgument (s : string) : argument :=
  match s with
  | String a (String b rest) =>
      if negb (Ascii.eqb a "-") then NoFlag
      else if negb (Ascii.eqb b "-") then flagNamed (String b rest)
      else match rest with "" => Terminator | _ => flagNamed rest end
  | _ => NoFlag
  end.

(** What [Parse] does with the arguments: the values that were set and the other
    arguments, or the process exits: with 0 after [-h], with 2 after an error. *)
Inductive parsed :=
| Parsed (values : gmap string string) (args : list string)
| ParseExit (code : Z).

Section parse.
Context (formal : gmap string Flag).

Fixpoint Parse (args : list string) (values : gmap string string) : parsed :=
  match args with
  | [] => Parsed values []
  | s :: rest =>
      match readArgument s with
      | NoFlag => Parsed values args
      | Terminator => Parsed values rest
      | BadSyntax => ParseExit 2
      | IsFlag name value =>
          match formal !! name with
          | None => if String.eqb name "help" || String.eqb name "h" then ParseExit 0 else ParseExit 2
          | Some flag =>
              if flag_IsBoolFlag flag then
                let v := default "true" value in
                if flag_Set flag v then Parse rest (<[name := v]> values) else ParseExit 2
              else
                match value, rest with
                | Some v, _ => if flag_Set flag v then Parse rest (<[name := v]> values) else ParseExit 2
                | None, v :: rest => if flag_Set flag v then Parse rest (<[name := v]> values) else ParseExit 2
                | None, [] => ParseExit 2
                end
          end
      end
  end.
End parse.

(** ** The flags of main *)

Record mainOptions := mkMainOptions {
  metricsAddr : string;
  probeAddr : string;
  enableLeaderElection : bool;
}.

Definition mainFlags (other : gmap string Flag) : gmap string Flag :=
  <["metrics-bind-address" := stringFlag]>
    (<["health-probe-bind-address" := stringFlag]>
      (<["leader-elect" := boolFlag]> other)).

(** The variables after [flag.Parse()]. *)
Definition optionsOf (values : gmap string string) : mainOptions :=
  mkMainOptions (default ":8080" (values !! "metrics-bind-address"))
    (default ":8081" (values !! "health-probe-bind-address"))
    (default false (values !! "leader-elect" ≫= ParseBool)).

(** ** Facts *)

Lemma ParseBool_true : ParseBool "true" = Some true.
Proof. reflexivity. Qed.

Definition showBool (b : bool) : string := if b then "true" else "false".

Lemma ParseBool_show b : ParseBool (showBool b) = Some b.
Proof. by destruct b. Qed.

(** No character of [n] is an equals sign. *)
Fixpoint noEquals (n : string) : bool :=
  match n with
  | "" => true
  | String c n => negb (Ascii.eqb c "=") && noEquals n
  end.

Lemma cutValue_app n v : noEquals n = true -> cutValue (n +:+ String "=" v) = (n, Some v).
Proof.
  induction n as [|c n IH]; [done|]. cbn [noEquals]. intros [Hc%negb_true_iff Hn]%andb_prop.
  rewrite string_app_cons. cbn. by rewrite Hc, IH.
Qed.

(** The argument [-name=value]. *)
Definition setting (name value : string) : string := String "-" (name +:+ String "=" value).

Lemma readArgument_setting c name value :
  Ascii.eqb c "-" = false -> Ascii.eqb c "=" = false -> noEquals name = true ->
  readArgument (setting (String c name) value) = IsFlag (String c name) (Some value).
Proof.
  intros Hd He Hn. unfold setting. rewrite string_app_cons. unfold readArgument, flagNamed. rewrite Hd. cbn [negb Ascii.eqb Bool.eqb].
  by rewrite He, cutValue_app.
Qed.

(** The options as arguments. *)
Definition arguments (o : mainOptions) : list string :=
  [setting "metrics-bind-address" (metricsAddr o); setting "health-probe-bind-address" (probeAddr o);
   setting "leader-elect" (showBool (enableLeaderElection o))].

Lemma mainFlags_lookup other :
  mainFlags other !! "metrics-bind-address" = Some stringFlag /\
  mainFlags other !! "health-probe-bind-address" = Some stringFlag /\
  mainFlags other !! "leader-elect" = Some boolFlag.
Proof. unfold mainFlags. split_and!; by simplify_map_eq. Qed.

(** A flag with its value is set, if the value is right. *)
Lemma Parse_setting formal c name value flag rest values :
  Ascii.eqb c "-" = false -> Ascii.eqb c "=" = false -> noEquals name = true ->
  formal !! String c name = Some flag -> flag_Set flag value = true ->
  Parse formal (setting (String c name) value :: rest) values =
  Parse formal rest (<[String c name := value]> values).
Proof.
  intros Hd He Hn Hf Hs. cbn [Parse]. rewrite readArgument_setting, Hf by done. cbn.
  rewrite Hs. by destruct (flag_IsBoolFlag flag).
Qed.

(** No arguments give the defaults, and every choice of options can be given as
    arguments, whatever the addresses are and whatever flags other packages
    have. *)
Lemma options_parse other o :
  (exists values, Parse (mainFlags other) [] ∅ = Parsed values [] /\
     optionsOf values = mkMainOptions ":8080" ":8081" false) /\
  (exists values, Parse (mainFlags other) (arguments o) ∅ = Parsed values [] /\ optionsOf values = o).
Proof.
  destruct (mainFlags_lookup other) as (Hm & Hp & Hl).
  split; [by exists ∅|]. destruct o as [m p l]. eexists. split.
  - unfold arguments.
    rewrite (Parse_setting _ "m" "etrics-bind-address" m stringFlag) by done.
    rewrite (Parse_setting _ "h" "ealth-probe-bind-address" p stringFlag) by done.
    by rewrite (Parse_setting _ "l" "eader-elect" (showBool l) boolFlag) by (done || by destruct l).
  - unfold optionsOf. simplify_map_eq. by destruct l.
Qed.
