(* ===== verification/Startup.v ===== *)
(** * Starting the runtime (main.go, groupversion_info.go, the Setup functions)

    [init] fills the scheme and [main] makes the manager, sets up the
    controllers and the webhooks with it, and starts it. What controller-runtime
    does is an [operation], which may fail ([perform]); the program is its log
    of operations and the way it ends. *)

From S2P Require Import Prelude GoSort Json Types Kube MetaPodTemplate Projector Resolver.
From S2P Require Import Rbac ServiceBindingWebhook ServiceBindingController WebhookController Flags Main.
Local Open Scope string_scope.

(** ** The scheme (groupversion_info.go, and init in the files of the types) *)

Record GroupVersion := mkGroupVersion { gv_Group : string; gv_Version : string }.

Definition v1beta1 : GroupVersion := mkGroupVersion "servicebinding.io" "v1beta1".

(** scheme.Builder: the objects to add under a group and version. *)
Record Builder := mkBuilder { builder_GroupVersion : GroupVersion; builder_Objects : list string }.

Definition Builder_Register (objects : list string) (b : Builder) : Builder :=
  mkBuilder (builder_GroupVersion b) (builder_Objects b ++ objects).

Definition init_mappings : Builder -> Builder :=
  Builder_Register ["ClusterWorkloadResourceMapping"; "ClusterWorkloadResourceMappingList"]%list.
Definition init_bindings : Builder -> Builder :=
  Builder_Register ["ServiceBinding"; "ServiceBindingList"]%list.

(** The builder once the package is initialized, in the order of its files. *)
Definition SchemeBuilder : Builder := init_bindings (init_mappings (mkBuilder v1beta1 [])).

Inductive schemeEntry :=
| ClientGoScheme
| BuilderScheme (b : Builder).

(** ** What the reconcilers set up *)

(** handler.Funcs without functions, or a function that maps the object to the
    requests to enqueue. *)
Inductive EventHandler :=
| Funcs
| EnqueueRequestsFromMapFunc (f : ServiceBinding -> list Request).

Inductive setupCall :=
| Watches (type : string) (h : EventHandler)
| IndexField (type key : string) (extract : ServiceBinding -> list string).

Definition workloadRefIndexKey : string := ".metadata.workloadRef".

(** ProjectBinding watches the mappings, for its reads of them to be cached; it
    enqueues nothing. *)
Definition ProjectBinding_Setup : list setupCall := [Watches "ClusterWorkloadResourceMapping" Funcs].

Definition LoadServiceBindings_Setup (req : Request) : list setupCall :=
  [Watches "ServiceBinding" (EnqueueRequestsFromMapFunc (enqueueConfiguration req))].

Definition AdmissionProjector_Setup `{Schema} `{GroupKinds} : list setupCall :=
  [IndexField "ServiceBinding" workloadRefIndexKey workloadRefIndex].

(** reconcilers.NewConfig *)
Record Config := mkConfig { config_Type : string; config_SyncPeriod : Z }.

(** A reconciler as it is given to the manager. What it does when it runs is
    [ServiceBindingReconciler], [AdmissionProjectorReconciler] and
    [TriggerReconciler]. *)
Record Controller := mkController {
  ctl_Name : string;
  ctl_Type : string;
  ctl_Request : option Request;
  ctl_Checker : option accessChecker;
  ctl_Config : Config;
  ctl_Setup : list setupCall;
}.

Definition ServiceBinding_controller (c : Config) : Controller :=
  mkController "" "ServiceBinding" None None c ProjectBinding_Setup.

Definition AdmissionProjector_controller `{Schema} `{GroupKinds} (c : Config) (name : string)
    (accessChecker : accessChecker) : Controller :=
  let req := ("", name) in
  mkController "AdmissionProjector" "MutatingWebhookConfiguration" (Some req) (Some accessChecker) c
    (LoadServiceBindings_Setup req ++ AdmissionProjector_Setup).

Definition Trigger_controller (c : Config) (name : string) (accessChecker : accessChecker) : Controller :=
  let req := ("", name) in
  mkController "Trigger" "ValidatingWebhookConfiguration" (Some req) (Some accessChecker) c
    (LoadServiceBindings_Setup req).

(** The requests that a change of a binding enqueues for what was set up. *)
Definition enqueuedFor (sb : ServiceBinding) (calls : list setupCall) : list Request :=
  calls ≫= fun call =>
    match call with
    | Watches type (EnqueueRequestsFromMapFunc f) => if String.eqb type "ServiceBinding" then f sb else []
    | _ => []
    end.

(** ** The operations of the manager *)

Record ManagerOptions := mkManagerOptions {
  mgr_Scheme : list schemeEntry;
  mgr_MetricsBindAddress : string;
  mgr_Port : Z;
  mgr_HealthProbeBindAddress : string;
  mgr_LeaderElection : bool;
  mgr_LeaderElectionID : string;
  mgr_SyncPeriod : Z;
}.

(** The function that an admission webhook adapter runs: the one that projects, or
    the one that fills the queue of a controller. *)
Inductive webhookSync :=
| ProjectorSync
| TriggerSync (serviceBindingController : Controller).

Record WebhookAdapter := mkAdapter {
  adapter_Name : string;
  adapter_Type : string;
  adapter_Sync : webhookSync;
  adapter_Config : Config;
}.

Definition AdmissionProjectorWebhook (c : Config) : WebhookAdapter :=
  mkAdapter "AdmissionProjectorWebhook" "Unstructured" ProjectorSync c.
Definition TriggerWebhook (c : Config) (serviceBindingController : Controller) : WebhookAdapter :=
  mkAdapter "AdmissionProjectorWebhook" "Unstructured" (TriggerSync serviceBindingController) c.

Inductive operation :=
| AddToScheme (e : schemeEntry)
| SetLogger (Development : bool) (flags : gmap string string)
| GetConfig
| NewManager (o : ManagerOptions)
| SetupSignalHandler
| SetupWithManager (c : Controller)
| WebhookManagedBy (type : string)
| RegisterWebhook (path : string) (w : WebhookAdapter)
| AddHealthzCheck (name : string)
| AddReadyzCheck (name : string)
| Info (msg : string)
| Error (err : error) (msg : string) (keysAndValues : list string)
| StartManager.

(** NewWebhookManagedBy(mgr).For(r).Complete(), for both types. *)
Definition ServiceBinding_SetupWebhookWithManager : operation := WebhookManagedBy "ServiceBinding".
Definition Mapping_SetupWebhookWithManager : operation := WebhookManagedBy "ClusterWorkloadResourceMapping".

(** The answer to an operation after others: the error that it returns. *)
Class ManagerRuntime := perform : list operation -> operation -> option error.

(** ** Programs *)

(** os.Exit with a code, or a panic. *)
Inductive exitStatus :=
| ExitCode (n : Z)
| PanicExit (err : error).

(** What a program did, and its result unless it ended the process. *)
Definition program (A : Type) : Type := list operation -> list operation * (exitStatus + A).

#[export] Instance program_ret : MRet program := fun A a log => (log, inr a).
#[export] Instance program_bind : MBind program := fun A B k p log =>
  match p log with
  | (log, inr a) => k a log
  | (log, inl s) => (log, inl s)
  end.

Definition os_Exit {A} (code : Z) : program A := fun log => (log, inl (ExitCode code)).
Definition panic {A} (err : error) : program A := fun log => (log, inl (PanicExit err)).

Section main.
Context `{ManagerRuntime}.

Definition invoke (op : operation) : program (option error) :=
  fun log => (log ++ [op], inr (perform log op))%list.

(** An operation without an error to look at. *)
Definition exec (op : operation) : program unit := invoke op ;; mret ().

(** utilruntime.Must *)
Definition Must (op : operation) : program unit :=
  err ← invoke op;
  match err with
  | Some e => panic e
  | None => mret ()
  end.

(** [if err := op; err != nil { setupLog.Error(err, msg, ...); os.Exit(1) }] *)
Definition orExit (op : operation) (msg : string) (keysAndValues : list string) : program unit :=
  err ← invoke op;
  match err with
  | Some e => exec (Error e msg keysAndValues) ;; os_Exit 1
  | None => mret ()
  end.

(** ctrl.GetConfigOrDie, which logs by itself. *)
Definition GetConfigOrDie : program unit :=
  err ← invoke GetConfig;
  match err with
  | Some e => os_Exit 1
  | None => mret ()
  end.

Definition scheme : list schemeEntry := [ClientGoScheme; BuilderScheme SchemeBuilder].

Definition init : program unit :=
  Must (AddToScheme ClientGoScheme) ;;
  Must (AddToScheme (BuilderScheme SchemeBuilder)).

Definition hour : Z := 60 * minute.
Definition syncPeriod : Z := 10 * hour.

Context `{Schema} `{GroupKinds}.
Context (otherFlags : gmap string Flag).

Definition main (args : list string) : program unit :=
  match Parse (mainFlags otherFlags) args ∅ with
  | ParseExit code => os_Exit code
  | Parsed values _ =>
      let o := optionsOf values in
      exec (SetLogger true values) ;;
      GetConfigOrDie ;;
      orExit (NewManager (mkManagerOptions scheme (metricsAddr o) 9443 (probeAddr o)
        (enableLeaderElection o) "a359ffaf.servicebinding.io" syncPeriod)) "unable to start manager" [] ;;
      exec SetupSignalHandler ;;
      let config := mkConfig "ServiceBinding" syncPeriod in
      let accessChecker := NewAccessChecker (5 * minute) in
      let serviceBindingController := ServiceBinding_controller config in
      orExit (SetupWithManager serviceBindingController)
        "unable to create controller" ["controller"; "ServiceBinding"]%list ;;
      orExit ServiceBinding_SetupWebhookWithManager
        "unable to create webhook" ["webhook"; "ServiceBinding"]%list ;;
      orExit Mapping_SetupWebhookWithManager
        "unable to create webhook" ["webhook"; "ClusterWorkloadResourceMapping"]%list ;;
      orExit (SetupWithManager (AdmissionProjector_controller config
          "servicebinding-runtime-admission-projector" (WithVerb accessChecker "update")))
        "unable to create controller" ["controller"; "AdmissionProjector"]%list ;;
      exec (RegisterWebhook "/interceptor" (AdmissionProjectorWebhook config)) ;;
      orExit (SetupWithManager (Trigger_controller config
          "servicebinding-runtime-trigger" (WithVerb accessChecker "get")))
        "unable to create controller" ["controller"; "Trigger"]%list ;;
      exec (RegisterWebhook "/trigger" (TriggerWebhook config serviceBindingController)) ;;
      orExit (AddHealthzCheck "healthz") "unable to set up health check" [] ;;
      orExit (AddReadyzCheck "readyz") "unable to set up ready check" [] ;;
      exec (Info "starting manager") ;;
      orExit StartManager "problem running manager" []
  end.

(** The process: the package is initialized, then [main] runs. *)
Definition run (args : list string) : list operation * (exitStatus + unit) :=
  (init ;; main args) [].

(** ** The specification: a list of steps *)

(** What a failure of a step does. *)
Inductive onFailure :=
| Ignored
| Panics
| Dies
| Reports (msg : string) (keysAndValues : list string).

Definition step : Type := operation * onFailure.

(** The operations that follow a failure, and how the process ends. *)
Definition reaction (f : onFailure) (e : error) : option (list operation * exitStatus) :=
  match f with
  | Ignored => None
  | Panics => Some ([], PanicExit e)
  | Dies => Some ([], ExitCode 1)
  | Reports msg kvs => Some ([Error e msg kvs], ExitCode 1)
  end.

Fixpoint runSteps (steps : list step) (log : list operation) : list operation * (exitStatus + unit) :=
  match steps with
  | [] => (log, inr ())
  | (op, f) :: steps =>
      match perform log op ≫= reaction f with
      | Some (ops, s) => (log ++ op :: ops, inl s)%list
      | None => runSteps steps (log ++ [op])%list
      end
  end.

Definition initSteps : list step := map (fun e => (AddToScheme e, Panics)) scheme.

Definition bindingController : Controller := ServiceBinding_controller (mkConfig "ServiceBinding" syncPeriod).
Definition projectorController : Controller :=
  AdmissionProjector_controller (mkConfig "ServiceBinding" syncPeriod)
    "servicebinding-runtime-admission-projector" projectorChecker.
Definition triggerController : Controller :=
  Trigger_controller (mkConfig "ServiceBinding" syncPeriod) "servicebinding-runtime-trigger" triggerChecker.

Definition mainSteps (values : gmap string string) : list step :=
  let o := optionsOf values in
  [(SetLogger true values, Ignored); (GetConfig, Dies);
   (NewManager (mkManagerOptions scheme (metricsAddr o) 9443 (probeAddr o) (enableLeaderElection o)
      "a359ffaf.servicebinding.io" syncPeriod), Reports "unable to start manager" []);
   (SetupSignalHandler, Ignored);
   (SetupWithManager bindingController,
      Reports "unable to create controller" ["controller"; "ServiceBinding"]%list);
   (ServiceBinding_SetupWebhookWithManager,
      Reports "unable to create webhook" ["webhook"; "ServiceBinding"]%list);
   (Mapping_SetupWebhookWithManager,
      Reports "unable to create webhook" ["webhook"; "ClusterWorkloadResourceMapping"]%list);
   (SetupWithManager projectorController,
      Reports "unable to create controller" ["controller"; "AdmissionProjector"]%list);
   (RegisterWebhook "/interceptor" (AdmissionProjectorWebhook (ctl_Config bindingController)), Ignored);
   (SetupWithManager triggerController,
      Reports "unable to create controller" ["controller"; "Trigger"]%list);
   (RegisterWebhook "/trigger" (TriggerWebhook (ctl_Config bindingController) bindingController), Ignored);
   (AddHealthzCheck "healthz", Reports "unable to set up health check" []);
   (AddReadyzCheck "readyz", Reports "unable to set up ready check" []);
   (Info "starting manager", Ignored);
   (StartManager, Reports "problem running manager" [])].

(** A program that does the work of a list of steps. *)
Definition implements (p : program unit) (steps : list step) : Prop :=
  forall log, p log = runSteps steps log.

Lemma runSteps_app s1 s2 log :
  runSteps (s1 ++ s2) log =
  match runSteps s1 log with
  | (log, inr _) => runSteps s2 log
  | (log, inl s) => (log, inl s)
  end.
Proof.
  revert log. induction s1 as [|[op f] s1 IH]; intros log; [done|]. cbn.
  destruct (perform log op ≫= reaction f) as [[ops s]|]; [done|apply IH].
Qed.

Lemma implements_seq p q s1 s2 :
  implements p s1 -> implements q s2 -> implements (p ;; q) (s1 ++ s2).
Proof.
  intros Hp Hq log. rewrite runSteps_app, <-Hp. unfold mbind at 1, program_bind.
  destruct (p log) as [log' [s|[]]]; [done|apply Hq].
Qed.

#[local] Ltac one_step op :=
  let log := fresh "log" in
  intros log; unfold Must, orExit, GetConfigOrDie, exec, invoke, panic, os_Exit, mbind, program_bind, mret, program_ret;
  cbn; destruct (perform log op); cbn; rewrite <-?(assoc_L (++)%list); reflexivity.

Lemma implements_exec op : implements (exec op) [(op, Ignored)].
Proof. one_step op. Qed.

Lemma implements_Must op : implements (Must op) [(op, Panics)].
Proof. one_step op. Qed.

Lemma implements_GetConfig : implements GetConfigOrDie [(GetConfig, Dies)].
Proof. one_step GetConfig. Qed.

Lemma implements_orExit op msg kvs : implements (orExit op msg kvs) [(op, Reports msg kvs)].
Proof. one_step op. Qed.

Lemma init_implements : implements init initSteps.
Proof. apply (implements_seq _ _ [_] [_]); apply implements_Must. Qed.

Lemma main_implements args values rest :
  Parse (mainFlags otherFlags) args ∅ = Parsed values rest -> implements (main args) (mainSteps values).
Proof.
  intros Hp. unfold main. rewrite Hp. unfold mainSteps.
  repeat (apply (implements_seq _ _ [_]);
    [first [apply implements_exec|apply implements_GetConfig|apply implements_orExit]|]).
  apply implements_orExit.
Qed.

(** ** How a list of steps ends *)

(** No step before the one that is looked at ended the process. *)
Fixpoint passes (steps : list step) (log : list operation) : Prop :=
  match steps with
  | [] => True
  | (op, f) :: steps => perform log op ≫= reaction f = None /\ passes steps (log ++ [op])
  end.

Lemma runSteps_ends steps log :
  (passes steps log /\ runSteps steps log = (log ++ steps.*1, inr ())%list) \/
  exists before op f after ops s,
    (steps = before ++ (op, f) :: after)%list /\ passes before log /\
    perform (log ++ before.*1) op ≫= reaction f = Some (ops, s) /\
    runSteps steps log = (log ++ before.*1 ++ op :: ops, inl s)%list.
Proof.
  revert log. induction steps as [|[op f] steps IH]; intros log.
  { left. cbn. by rewrite app_nil_r. }
  cbn [passes runSteps]. destruct (perform log op ≫= reaction f) as [[ops s]|] eqn:E.
  { right. exists [], op, f, steps, ops, s. cbn. by rewrite app_nil_r. }
  destruct (IH (log ++ [op])%list) as [[Hp Hr]|(before & op' & f' & after & ops & s & -> & Hp & Hs & Hr)].
  - left. split; [done|]. rewrite Hr. cbn. by rewrite <-(assoc_L (++)%list).
  - right. exists ((op, f) :: before), op', f', after, ops, s. cbn.
    rewrite <-(assoc_L (++)%list) in Hs, Hr. split_and!; [done..| |].
    + exact Hs.
    + by rewrite Hr.
Qed.

Lemma passes_app s1 s2 log : passes (s1 ++ s2) log <-> passes s1 log /\ passes s2 (log ++ s1.*1).
Proof.
  revert log. induction s1 as [|[op f] s1 IH]; intros log; cbn.
  { rewrite app_nil_r. tauto. }
  rewrite IH, <-(assoc_L (++)%list). tauto.
Qed.

Lemma reaction_logs f e ops s op : reaction f e = Some (ops, s) -> op ∈ ops -> exists e msg kvs, op = Error e msg kvs.
Proof.
  destruct f as [| | |msg kvs]; cbn; intros [= <- <-]; [by intros ?%elem_of_nil..|].
  intros ->%list_elem_of_singleton. eauto.
Qed.

(** The last operation is performed exactly when the steps before it pass. *)
Lemma runSteps_last steps op f :
  op ∉ steps.*1 -> (forall e msg kvs, op <> Error e msg kvs) ->
  op ∈ (runSteps (steps ++ [(op, f)]) []).1 <-> passes steps [].
Proof.
  intros Hn He. rewrite runSteps_app.
  destruct (runSteps_ends steps []) as [[Hp ->]|(before & op' & f' & after & ops & s & -> & _ & Hs & ->)].
  - split; [done|]. intros _. cbn. destruct (perform _ op ≫= reaction f) as [[ops s]|]; cbn; set_solver.
  - rewrite passes_app. cbn. split; [|intros (_ & Hs' & _); cbn in Hs; by rewrite Hs in Hs'].
    rewrite fmap_app in Hn. cbn in Hn.
    intros [Hin|[->|Hin]%elem_of_cons]%elem_of_app; [set_solver..|]. exfalso.
    destruct (perform _ op') as [e|]; [|done]. cbn in Hs.
    destruct (reaction_logs f' e ops s op Hs Hin) as (e' & msg & kvs & ->). by eapply He.
Qed.

(** What the controllers that are set up have set up. *)
Definition setupsOf (ops : list operation) : list setupCall :=
  ops ≫= fun op => match op with SetupWithManager c => ctl_Setup c | _ => [] end.

(** ** Properties *)

(** C26 (startup). When the flags are wrong the process ends with their exit code.
    Otherwise it performs [initSteps] and [mainSteps], in this order, up to the
    first step that fails: a failure to fill the scheme panics, one to find the
    configuration exits with 1, any other is logged with its own message before
    the process exits with 1, and nothing is done after that. The manager is
    started exactly when every step before was passed. By then the controllers
    have set up that a change of a binding enqueues one request for each of the
    two webhook configurations and none else, and the index of the bindings by
    the kind of their workload. *)
Theorem run_starts args :
  match Parse (mainFlags otherFlags) args ∅ with
  | ParseExit code => passes initSteps [] -> run args = (initSteps.*1, inl (ExitCode code))
  | Parsed values _ =>
      let steps := (initSteps ++ mainSteps values)%list in
      ((passes steps [] /\ run args = (steps.*1, inr ())) \/
       exists before op f after ops s, (steps = before ++ (op, f) :: after)%list /\ passes before [] /\
         perform before.*1 op ≫= reaction f = Some (ops, s) /\
         run args = (before.*1 ++ op :: ops, inl s)%list) /\
      (StartManager ∈ (run args).1 <-> passes (initSteps ++ removelast (mainSteps values)) []) /\
      (forall sb, enqueuedFor sb (setupsOf (removelast (mainSteps values)).*1) =
         [("", "servicebinding-runtime-admission-projector"); ("", "servicebinding-runtime-trigger")]%list) /\
      IndexField "ServiceBinding" workloadRefIndexKey workloadRefIndex ∈
        setupsOf (removelast (mainSteps values)).*1
  end.
Proof.
  destruct (Parse _ _ _) as [values rest|code] eqn:Hp; cycle 1.
  { intros Hi. unfold run. unfold mbind at 1, program_bind. rewrite init_implements.
    destruct (runSteps_ends initSteps []) as [[_ ->]|(before & op & f & after & ops & s & He & _ & Hs & _)].
    - unfold main. by rewrite Hp.
    - rewrite He, passes_app in Hi. cbn in Hi, Hs. destruct Hi as (_ & Hs' & _). by rewrite Hs in Hs'. }
  assert (run args = runSteps (initSteps ++ mainSteps values) []) as Hrun.
  { apply implements_seq; [apply init_implements|by eapply main_implements]. }
  cbv zeta. split_and!.
  - rewrite Hrun. apply runSteps_ends.
  - rewrite Hrun. change (mainSteps values) with
      (removelast (mainSteps values) ++ [(StartManager, Reports "problem running manager" [])])%list at 1.
    rewrite (assoc_L (++)%list). apply runSteps_last; [|done].
    cbn. rewrite !elem_of_cons, elem_of_nil. naive_solver.
  - done.
  - cbn. set_solver.
Qed.
End main.
