(* ===== verification/ConcreteCluster.v ===== *)
(** * A concrete cluster

    Instances of the interfaces to the API server and to reconciler-runtime,
    each with its laws: a cluster that holds [deployment] and a service, a
    condition manager, a runtime that runs sub reconcilers, an access review
    that allows everything but Secrets, and the small helpers of
    apimachinery. *)

From Stdlib Require Import Ascii.
From S2P Require Import Prelude GoSort Json Tree Types Kube Samples MetaPodTemplate FieldErrors.
From S2P Require Import MappingWebhook Projector Resolver Lifecycle Rbac ServiceBindingController.
From S2P Require Import ControllerFacts Finalization WebhookController WebhookFacts Concrete WorkloadWitnesses.
Local Open Scope string_scope.

(** ** apimachinery *)

(** The part of [s] before and after the first slash. *)
Fixpoint splitSlash (s : string) : string * option string :=
  match s with
  | "" => ("", None)
  | String "/"%char s' => ("", Some s')
  | String c s' => let '(a, b) := splitSlash s' in (String c a, b)
  end.

#[export] Instance schema : Schema := fun apiVersion kind =>
  match splitSlash apiVersion with
  | (g, Some v) => mkGVK g v kind
  | (v, None) => mkGVK "" v kind
  end.

#[export] Instance groupKinds : GroupKinds := fun group kind =>
  if String.eqb group "" then kind else kind +:+ ("." +:+ group).

#[export] Instance restMapper : RESTMapper := fun group kind version =>
  Ok (mkGVR group version (kind +:+ "s")).

(** A selector is an object of labels, all of which are required. *)
#[export] Instance labelSelectors : LabelSelectors := fun selector =>
  match selector with
  | None => inr (fun _ => false)
  | Some j => match (unmarshal j : outcome (gmap string string)) with
              | Ok m => inr (fun labels => bool_decide (m ⊆ labels))
              | _ => inl (ErrOther "not a selector")
              end
  end.

#[export] Instance aggregate : Aggregate := fun errs =>
  match errs with [] => None | _ => Some (ErrOther "invalid") end.
#[export] Instance aggregate_laws : AggregateLaws.
Proof. by intros []. Qed.

#[export] Instance rule_eq_dec : EqDecision RuleWithOperations.
Proof. solve_decision. Defined.
#[export] Instance deepEqual : DeepEqual := fun a b => bool_decide (a = b).
#[export] Instance deepEqual_laws : DeepEqualLaws.
Proof. intros rules. by apply bool_decide_eq_true_2. Qed.

#[export] Instance setsList : SetsList := fun s => SliceStable String.ltb (elements s).

Lemma ltb_swo : StrictWeakOrder String.ltb.
Proof. split; [apply ltb_asym|apply ltb_negtrans]. Qed.

#[export] Instance setsList_laws : SetsListLaws.
Proof.
  pose proof ltb_swo. split.
  - intros s x. unfold sets_List, setsList. by rewrite elem_of_SliceStable, elem_of_elements.
  - intros s. destruct (SliceStable_spec String.ltb (elements s)) as [Hp Ho _].
    unfold sets_List, setsList. revert Ho Hp. generalize (SliceStable String.ltb (elements s)) as l.
    intros l Ho Hp. assert (NoDup l) as Hnd by (rewrite Hp; apply NoDup_elements). clear Hp.
    induction Ho as [|x l Hl IH Hx]; [constructor|]. apply NoDup_cons in Hnd as [Hni Hnd].
    constructor; [by apply IH|]. apply Forall_forall. intros y Hy. rewrite Forall_forall in Hx.
    specialize (Hx y Hy). destruct (String.ltb x y) eqn:E; [done|].
    destruct Hni. by rewrite (ltb_total x y E Hx).
Qed.

(** ** Objects *)

#[export] Instance objectAccessors : ObjectAccessors := {|
  GetAPIVersion j := match get_loc (fields ["apiVersion"]%list) j with Ok (Some (JStr s)) => s | _ => "" end;
  GetKind j := match get_loc (fields ["kind"]%list) j with Ok (Some (JStr s)) => s | _ => "" end;
  GetNamespace := metaString "namespace";
  GetName := metaString "name";
  GetLabels j := match get_loc (fields ["metadata"; "labels"]%list) j with
                 | Ok (Some l) => match unmarshal l with Ok m => m | _ => ∅ end
                 | _ => ∅
                 end;
|}.

#[export] Instance accessors : Accessors :=
  {| GetUID := metaString "uid"; GetResourceVersion := metaString "resourceVersion" |}.
#[export] Instance accessors_laws : AccessorsLaws.
Proof. by split. Qed.

#[export] Instance unstructured_laws : UnstructuredLaws.
Proof. by split. Qed.

(** ** The API server *)

Definition service : json :=
  obj [("status", obj [("binding", obj [("name", JStr "mysql-secret")])])].

(** Mappings for version v1 and for all versions, in this order. *)
Definition v1Mapping : ClusterWorkloadResourceMappingTemplate :=
  mkMappingTemplate "v1" ".v1.annotations" [] ".v1.volumes".

Definition clusterWith (vs : list ClusterWorkloadResourceMappingTemplate) : Cluster := {|
  GVKForObject _ := Ok (mkGVK "apps" "v1" "Deployment");
  GetMapping name :=
    if String.eqb name "Deployments.apps"
    then Ok (mkMapping (sampleMeta name "m-1") (mkMappingSpec vs))
    else Err (ErrNotFound name);
  TrackAndGet apiVersion kind namespace name :=
    if String.eqb kind "Deployment" then Ok deployment
    else if String.eqb kind "MyService" then Ok service else Err (ErrNotFound name);
  ListUnstructured _ _ _ _ := Ok [];
  NestedString j path :=
    match get_loc (fields path) j with
    | Ok (Some (JStr s)) => (s, true, None)
    | Ok (Some _) | Err _ | Panic _ => ("", false, Some (ErrOther "not a string"))
    | Ok None => ("", false, None)
    end;
|}.

(** ** reconciler-runtime *)

Definition mark (status t r m : string) (cs : list Condition) : list Condition :=
  mkCondition t status r m :: List.filter (fun c => negb (String.eqb (cond_Type c) t)) cs.

#[export] Instance conditionManager : ConditionManager := {|
  MarkTrue := mark "True";
  MarkFalse := mark "False";
  MarkUnknown := mark "Unknown";
  manager_InitializeConditions cs := cs;
  ConditionIsUnknown c :=
    match c with Some c => String.eqb (cond_Status c) "Unknown" | None => true end;
|}.

Lemma mark_hit status t r m s :
  GetCondition t (SetConditions (mark status t r m (GetConditions s)) s) = Some (mkCondition t status r m).
Proof. unfold GetCondition. cbn. by rewrite String.eqb_refl. Qed.

Lemma mark_miss status t t' r m s :
  t <> t' -> GetCondition t' (SetConditions (mark status t r m (GetConditions s)) s) = GetCondition t' s.
Proof.
  intros Hne. unfold GetCondition. cbn. rewrite (proj2 (String.eqb_neq t t') Hne).
  unfold GetConditions. induction (sbst_Conditions s) as [|c cs IH]; [done|]. cbn.
  destruct (String.eqb_spec (cond_Type c) t) as [Ht|Ht]; cbn.
  - rewrite IH. rewrite (proj2 (String.eqb_neq (cond_Type c) t')); [done|congruence].
  - by rewrite IH.
Qed.

#[export] Instance conditionManager_laws : ConditionManagerLaws.
Proof.
  split.
  - intros s t r m _. split_and!; apply mark_hit.
  - intros s t t' r m _ _ Hne. split_and!; by apply mark_miss.
  - done.
Qed.

(** A client whose patches of the finalizers succeed. *)
#[export] Instance finalizerClient : FinalizerClient :=
  {| AddFinalizer _ _ := None; ClearFinalizer _ _ := None |}.

Fixpoint interpret (r : SubReconciler) (st : reconcileState) : reconcileState * syncResult :=
  match r with
  | SyncReconciler _ d f => if isDeleting (st_Resource st) && negb d then (st, Done false) else f st
  | Sequence rs =>
      (fix loop (rs : list SubReconciler) st :=
         match rs with
         | [] => (st, Done false)
         | r :: rs => andThen (interpret r st) (loop rs)
         end) rs st
  | WithFinalizer F r => withFinalizer F (interpret r) st
  end.

#[export] Instance runtime : Runtime := interpret.
#[export] Instance runtime_laws : RuntimeLaws.
Proof. by split. Qed.
#[export] Instance finalizer_laws : FinalizerLaws.
Proof. by intros F r st. Qed.

#[export] Instance workloadManager : WorkloadManager := fun _ _ _ desired => Ok desired.

(** ** Access reviews *)

Definition serverAllows (k : ResourceAttributes) : bool := negb (String.eqb (ra_Resource k) "Secrets").

(** The [n]th call happens [n] seconds after the epoch. *)
Definition second : Z := 1000000000.
Definition reviewAt (now : Z) (s : SelfSubjectAccessReview) : SelfSubjectAccessReview * option error :=
  (mkReview now (ssar_Spec s) (match ssar_Spec s with Some k => serverAllows k | None => false end), None).

Definition environment (n : nat) :
    Z * Z * (SelfSubjectAccessReview -> SelfSubjectAccessReview * option error) :=
  let now := (Z.of_nat n * second)%Z in (now, now, reviewAt now).

Lemma environment_serves n s k :
  ssar_Spec s = Some k ->
  exists s', (environment n).2 s = (s', None) /\ ssar_Allowed s' = serverAllows k.
Proof. intros Hk. cbn. unfold reviewAt. rewrite Hk. eauto. Qed.

#[export] Instance checker : AccessChecker (accessChecker * nat) := rbac_checker environment.
#[export] Instance checker_laws :
  CheckerLaws (accessChecker * nat) (agrees serverAllows "update")
    (fun g r => serverAllows (mkAttributes "" "update" g r)).
Proof. apply rbac_checker_laws, environment_serves. Qed.

Definition freshChecker : accessChecker * nat :=
  (WithVerb (NewAccessChecker (60 * second)) "update", 0).

Lemma freshChecker_agrees : agrees serverAllows "update" freshChecker.
Proof. split; [done|]. intros k s Hs. cbn in Hs. by rewrite lookup_empty in Hs. Qed.

(** ** Bindings in the cluster *)

#[export] Instance bindingLister : BindingLister :=
  {| ListBindings _ _ := Ok [mysql; redis]; ListAllBindings := Ok [mysql; redis] |}.
