(* ===== verification/ClusterWitnesses.v ===== *)
(** * The cluster properties at the concrete cluster

    The properties of the resolver, the webhooks, the access checker and the
    reconciler, at the objects of [ConcreteCluster.v]. *)

From stdpp Require Import relations.
From S2P Require Import Prelude GoSort Json Tree Types Kube Samples MetaPodTemplate FieldErrors Layout Workload.
From S2P Require Import Binding MappingWebhook Projector ProjectorFacts Resolver ResolverFacts Lifecycle Rbac.
From S2P Require Import ServiceBindingWebhook ServiceBindingController ControllerFacts Finalization.
From S2P Require Import BindingLemmas BindingFacts BindingRuns BindingHistory BindingWitnesses WorkloadRuns WorkloadHistory Main Triggering Flags Startup.
From S2P Require Import WebhookController WebhookFacts Concrete WorkloadWitnesses ConcreteCluster.
Local Open Scope string_scope.

(** ** Resolver *)

Section resolver.
Context (vs : list ClusterWorkloadResourceMappingTemplate).

Lemma deployment_resolves : @Resolves _ (clusterWith vs) deployment "v1" vs.
Proof. by exists (mkGVK "apps" "v1" "Deployment"), (mkGVR "apps" "v1" "Deployments"). Qed.
End resolver.

(** [v1] first, then [*]: the wildcard entry is returned for version v1. *)
Lemma LookupMapping_exact_witness :
  let vs := [v1Mapping; deploymentMapping] in
  let found := @LookupMapping json (@cluster_mappingSource _ (clusterWith vs)) deployment in
  (found = Ok (Template_Default v1Mapping) <-> (true = true -> "*" = "v1")) /\
  (true = true -> "*" <> "v1" ->
   mt_Version v1Mapping = "v1" /\ exists t, found = Ok t /\ mt_Version t <> "v1").
Proof.
  exact (@LookupMapping_exact _ (clusterWith [v1Mapping; deploymentMapping]) deployment "v1"
    [v1Mapping; deploymentMapping] (deployment_resolves _)).
Defined.

(** A cluster in which no mapping is defined. *)
Definition emptyCluster : Cluster := {|
  GVKForObject _ := Ok (mkGVK "batch" "v1" "CronJob");
  GetMapping name := Err (ErrNotFound name);
  TrackAndGet _ _ _ name := Err (ErrNotFound name);
  ListUnstructured _ _ _ _ := Ok [];
  NestedString _ _ := ("", false, None);
|}.

Lemma LookupMapping_missing_witness :
  @LookupMapping json (@cluster_mappingSource _ emptyCluster) deployment =
  Ok (mkMappingTemplate "*" ".spec.template.metadata.annotations"
        [mkMappingContainer ".spec.template.spec.initContainers[*]" ".name" ".env" ".volumeMounts";
         mkMappingContainer ".spec.template.spec.containers[*]" ".name" ".env" ".volumeMounts"]
        ".spec.template.spec.volumes").
Proof.
  exact (@LookupMapping_missing _ emptyCluster deployment (mkGVK "batch" "v1" "CronJob")
    (mkGVR "batch" "v1" "CronJobs") eq_refl eq_refl (ErrNotFound "CronJobs.batch") eq_refl).
Defined.

(** ** Webhooks of the API types *)

Lemma ServiceBinding_admission_witness :
  (snd (ServiceBinding_ValidateCreate mysql) = None <-> ValidSpec (sb_Spec (ServiceBinding_Default mysql))) /\
  ServiceBinding_ValidateUpdate mysql redis = ServiceBinding_ValidateCreate mysql /\
  fst (ServiceBinding_ValidateCreate mysql) = ServiceBinding_Default mysql /\
  sbs_Name (sb_Spec (ServiceBinding_Default mysql)) = "mysql" /\
  ServiceBinding_Default (ServiceBinding_Default mysql) = ServiceBinding_Default mysql.
Proof. exact (ServiceBinding_admission mysql redis). Defined.

(** ** Reconciler *)

#[local] Instance cluster : Cluster := clusterWith [deploymentMapping].

Definition initialized (b : ServiceBinding) : ServiceBinding :=
  set_sb_Status (InitializeConditions (sb_Status b)) b.

(** The MySQL binding whose service was not looked up yet. *)
Definition newBinding : ServiceBinding := initialized (set_Binding None mysql).
Definition deletedBinding : ServiceBinding :=
  initialized (mkServiceBinding (mkObjectMeta "mysql" "my-namespace" "uid-1" 1 (Some 1%Z))
    (sb_Spec mysql) (sb_Status mysql)).

Definition start (b : ServiceBinding) : reconcileState := mkReconcile b None None [] ∅.

Lemma deployment_lookup : LookupMapping deployment = Ok deploymentMapping.
Proof. vm_compute. reflexivity. Qed.

Lemma deployment_projectable : Projectable deployment.
Proof.
  exists deploymentMapping, deploymentLayout, deploymentTemplate. split.
  - destruct deployment_prepared as [_ ? ? ? ? ?]. by split.
  - assert (forallb (fun p => disjoint p (fields ["metadata"; "uid"]%list) &&
      disjoint p (fields ["metadata"; "resourceVersion"]%list)) (layoutPaths deploymentLayout) = true)
      as Hd by by vm_compute.
    intros p key Hp%list_elem_of_In. rewrite forallb_forall in Hd.
    specialize (Hd p Hp). apply andb_prop in Hd as [Hu Hr].
    by intros [-> | ->%list_elem_of_singleton]%elem_of_cons.
Qed.

Lemma deployments_projectable : Forall Projectable [deployment].
Proof. constructor; [apply deployment_projectable|constructor]. Qed.

Lemma manage_ok l b w d : exists j, Manage l b w d = Ok j.
Proof. by exists d. Qed.

Lemma manage_no_panic l b w d s : Manage l b w d <> Panic s.
Proof. unfold Manage, workloadManager. discriminate. Qed.

Abbreviation Available := ServiceBindingConditionServiceAvailable.
Abbreviation Projected := ServiceBindingConditionWorkloadProjected.

Lemma newBinding_workloads :
  LookupWorkloads (workloadRef newBinding) (wr_Selector (sbs_Workload (sb_Spec newBinding))) =
  Ok [deployment].
Proof. vm_compute. reflexivity. Qed.

Lemma deletedBinding_workloads :
  LookupWorkloads (workloadRef deletedBinding) (wr_Selector (sbs_Workload (sb_Spec deletedBinding))) =
  Ok [deployment].
Proof. vm_compute. reflexivity. Qed.

Lemma newBinding_secret : LookupBindingSecret (serviceRef newBinding) = Ok "mysql-secret".
Proof. vm_compute. reflexivity. Qed.

Lemma reconcile_projects_witness :
  exists st' b', Reconcile reconcileSteps (start newBinding) = (st', Done false) /\
    secretName b' = "mysql-secret" /\ sb_Spec b' = sb_Spec newBinding /\
    sb_Meta b' = sb_Meta newBinding /\ handled b' [deployment] (start newBinding) st' /\
    secretName (st_Resource st') = "mysql-secret" /\
    conditionOf Available (st_Resource st') =
      Some (mkCondition Available "True" "ResolvedBindingSecret" "").
Proof.
  exact (reconcile_projects (start newBinding) "mysql-secret" [deployment] eq_refl
    newBinding_secret ltac:(discriminate) newBinding_workloads deployments_projectable
    eq_refl manage_ok).
Defined.

Lemma finalization_completes_witness :
  let st := mkReconcile deletedBinding None None [] {[finalizer]} in
  exists st', Reconcile ServiceBindingReconciler st = (st', Done false) /\
    handled deletedBinding [deployment] st st' /\
    (forall w, projectOne deletedBinding w = Unproject deletedBinding w) /\
    releases deletedBinding (st_Managed st') /\ st_Finalizers st' = {[finalizer]} ∖ {[finalizer]} /\
    sbst_Binding (sb_Status (st_Resource st')) = sbst_Binding (sb_Status deletedBinding) /\
    conditionOf Available (st_Resource st') = conditionOf Available deletedBinding.
Proof.
  exact (finalization_completes deletedBinding {[finalizer]} [deployment] eq_refl
    deletedBinding_workloads deployments_projectable eq_refl manage_ok (fun _ => eq_refl)).
Defined.

(** A binding that is projected, deleted and reconciled again. *)
Definition deletedRecord : reconcileRecord :=
  mkRecord deletedBinding (st_Managed (Reconcile ServiceBindingReconciler
    (mkReconcile deletedBinding None None [] {[finalizer]})).1).
Definition projectedRecord : reconcileRecord :=
  mkRecord newBinding (st_Managed (Reconcile ServiceBindingReconciler (start newBinding)).1).

Lemma deletedBinding_life : life deletedBinding ∅ [deletedRecord; projectedRecord].
Proof.
  assert (st_Finalizers (Reconcile ServiceBindingReconciler
    (mkReconcile deletedBinding None None [] {[finalizer]})).1 = ∅) as <- by by vm_compute.
  eapply (life_reconciled deletedBinding {[finalizer]} [projectedRecord] deletedBinding);
    [|apply surjective_pairing|done|done].
  apply (life_edited newBinding {[finalizer]}); [|done|done].
  assert (st_Finalizers (Reconcile ServiceBindingReconciler (start newBinding)).1 = {[finalizer]}) as <-
    by by vm_compute.
  eapply (life_reconciled newBinding ∅ [] newBinding); [|apply surjective_pairing|done|done].
  constructor.
Qed.

Lemma projectedRecord_projects : projecting projectedRecord.
Proof. split; by vm_compute. Qed.

Lemma finalizer_guards_witness :
  finalizer ∈ (∅ : gset string) \/
  (isDeleting deletedBinding = true /\ releasedSince [deletedRecord; projectedRecord]).
Proof.
  apply (finalizer_guards deletedBinding ∅ [deletedRecord; projectedRecord] projectedRecord);
    [exact deletedBinding_life|by right; left|exact projectedRecord_projects].
Defined.

(** A cluster in which the controller may not read the workloads. *)
Section forbidding.
#[local] Instance forbiddingCluster : Cluster := {|
  GVKForObject := @GVKForObject cluster;
  GetMapping := @GetMapping cluster;
  TrackAndGet _ _ _ name := Err (ErrForbidden name);
  ListUnstructured _ _ _ _ := Err (ErrForbidden "list");
  NestedString := @NestedString cluster;
|}.

Lemma forbidden_releases_witness :
  exists st', Reconcile ServiceBindingReconciler (mkReconcile deletedBinding None None [] {[finalizer]}) =
      (st', Done true) /\
    st_Managed st' = []%list /\ st_Finalizers st' = {[finalizer]} ∖ {[finalizer]} /\
    option_map cond_Status (conditionOf Projected (st_Resource st')) = Some "False".
Proof.
  apply (forbidden_releases deletedBinding {[finalizer]} (ErrForbidden "my-workload")); [done|by vm_compute|done|done].
Defined.
End forbidding.

Lemma reconcile_writes_witness :
  let b := st_Resource (resolved (start newBinding)).1 in
  let st' := (Reconcile reconcileSteps (start newBinding)).1 in
  sb_Spec b = sb_Spec newBinding /\ sb_Meta b = sb_Meta newBinding /\
  (st_Managed st' = []%list \/
   exists ws ws' n, LookupWorkloads (workloadRef b) (wr_Selector (sbs_Workload (sb_Spec b))) = Ok ws /\
     Forall2 (fun w w' => projectOne b w = Ok w') ws ws' /\
     st_Managed st' = take n (zip ws ws') /\ Forall sameVersion (st_Managed st')).
Proof. exact (reconcile_writes (start newBinding) eq_refl eq_refl). Defined.

Lemma PatchWorkloads_no_panic_witness :
  let st := mkReconcile newBinding (Some [deployment]) None [] ∅ in
  exists st', ProjectBinding_Sync st = (st', Done false) /\
    forall s, (PatchWorkloads_Sync st').2 <> Panicked s.
Proof.
  exact (PatchWorkloads_no_panic (mkReconcile newBinding (Some [deployment]) None [] ∅)
    (mkCondition Projected "Unknown" "Initializing" "") deployments_projectable eq_refl
    manage_no_panic).
Defined.

Lemma PatchWorkloads_reports_witness :
  let st := start (markUnknown Projected "WorkloadNotFound" "the workload was not found" newBinding) in
  let '(st', res) := PatchWorkloads_Sync st in
  (res = Done false /\ "Unknown" = "Unknown" /\ "WorkloadNotFound" = "Initializing" /\
   conditionOf Projected (st_Resource st') = Some (mkCondition Projected "True" "WorkloadProjected" "")) \/
  conditionOf Projected (st_Resource st') =
    Some (mkCondition Projected "Unknown" "WorkloadNotFound" "the workload was not found") \/
  conditionOf Projected (st_Resource st') = Some (mkCondition Projected "False" "WorkloadForbidden"
    "the controller does not have permission to update the workloads").
Proof.
  exact (PatchWorkloads_reports
    (start (markUnknown Projected "WorkloadNotFound" "the workload was not found" newBinding))
    (mkCondition Projected "Unknown" "WorkloadNotFound" "the workload was not found") eq_refl).
Defined.

Lemma ResolveBindingSecret_status_witness :
  let '(st', res) := ResolveBindingSecret_Sync (start newBinding) in
  (res = Done false /\
   conditionOf Available (st_Resource st') = Some (mkCondition Available "True" "ResolvedBindingSecret" "") /\
   sbst_Binding (sb_Status (st_Resource st')) = Some (mkSecretReference "mysql-secret")) /\
  conditionOf Projected (st_Resource st') = conditionOf Projected newBinding /\
  sb_Spec (st_Resource st') = sb_Spec newBinding /\ sb_Meta (st_Resource st') = sb_Meta newBinding /\
  st_Workloads st' = None /\ st_Projected st' = None.
Proof. exact (ResolveBindingSecret_status (start newBinding)). Defined.

(** ** Access checks *)

Definition readNow (n : nat) (resource : string) : call :=
  mkCall "apps" resource (Z.of_nat n * second) (Z.of_nat n * second) (reviewAt (Z.of_nat n * second)).
Definition failing (n : nat) : call :=
  mkCall "apps" "Deployments" (Z.of_nat n * second) (Z.of_nat n * second)
    (fun s => (s, Some (ErrOther "timeout"))).

Lemma CanI_sound_witness :
  let ac0 := WithVerb (NewAccessChecker (60 * second)) "update" in
  let k := mkAttributes "" "update" "apps" "Deployments" in
  let c := readNow 30 "Deployments" in
  ssar_Allowed (review k emptyReview c) = true \/
  exists s, (k, s) ∈ asked ac0 [readNow 1 "Deployments"; readNow 2 "Secrets"] /\
    ssar_Allowed s = true /\ (call_now c < ssar_CreationTimestamp s + 60 * second)%Z.
Proof.
  exact (CanI_sound (60 * second) "update" [readNow 1 "Deployments"; readNow 2 "Secrets"]
    (readNow 30 "Deployments") eq_refl).
Defined.

Lemma CanI_denial_cached_witness :
  let ac := (CanI freshChecker.1 (failing 1)).2 in CanI ac (readNow 30 "Deployments") = (false, ac).
Proof.
  refine (CanI_denial_cached freshChecker.1 (failing 1) (readNow 30 "Deployments") eq_refl _ _
    eq_refl eq_refl eq_refl).
  - intros s s' e [= <- <-]. done.
  - by exists (ErrOther "timeout").
Defined.

Definition unstamped (n : nat) : call :=
  mkCall "apps" "Deployments" (Z.of_nat n * second) (Z.of_nat n * second)
    (fun s => (mkReview zeroTime (ssar_Spec s) true, None)).

Lemma CanI_unstamped_asks_again_witness :
  asks (CanI freshChecker.1 (unstamped 1)).2 (unstamped 2) = true.
Proof.
  refine (CanI_unstamped_asks_again freshChecker.1 (unstamped 1) (unstamped 2) eq_refl _ _ eq_refl eq_refl).
  - by intros s.
  - by vm_compute.
Defined.

(** ** Admission and rules *)

Definition rawDeployment : json := obj [("kind", JStr "Deployment"); ("apiVersion", JStr "apps/v1")].

Lemma deployment_named : GetName deployment <> "".
Proof. vm_compute. discriminate. Qed.

Lemma AdmissionProjectorWebhook_projects_witness :
  AdmissionProjectorWebhook_Sync deployment =
  foldl (fun r sb => r ≫= Project (ServiceBinding_Default sb)) (Ok deployment)
    (List.filter (fun sb => negb (isDeleting sb) && refersToWorkload deployment sb) [mysql; redis]).
Proof. exact (AdmissionProjectorWebhook_projects deployment deployment_named). Defined.

(** *** Runs *)

Lemma deployment_keepsMapping bs : keepsMapping (W := json) bs.
Proof. by intros b w w' _ _. Qed.

Lemma deployment_compatible : compatible [mysql; redis] deploymentTemplate.
Proof.
  apply mysql_redis_compatible; [|by apply exclusiveSecret_bool..|by apply literalRoots_bool].
  split; try done. apply mysql_redis_independent.
Qed.

Definition settledDeployment : json := resultOf (ProjectRun [redis; mysql; redis; redis; mysql] deployment).
Lemma deployment_settled : ProjectRun [redis; mysql; redis; redis; mysql] deployment = Ok settledDeployment.
Proof. vm_compute. reflexivity. Qed.

Lemma ProjectRun_converges_witness : Project mysql settledDeployment = Ok settledDeployment.
Proof.
  apply (proj2 (ProjectRun_converges [mysql; redis] [redis; mysql; redis; redis; mysql] deployment settledDeployment
    deploymentMapping deploymentLayout deployment deploymentTemplate (deployment_keepsMapping _)
    deployment_compatible deployment_prepared (run_sub mysql redis) (run_covers mysql redis) deployment_settled)).
  by left.
Defined.

Lemma settled_active sb :
  sb ∈ [mysql; redis] -> isActive settledDeployment sb = true ->
  ServiceBinding_Default sb ∈ [redis; mysql; redis; redis; mysql].
Proof.
  rewrite !elem_of_cons, elem_of_nil. intros [-> |[-> |[]]] _; vm_compute; [right|]; by left.
Qed.

Lemma admission_after_reconcile_witness :
  AdmissionProjectorWebhook_Sync settledDeployment = Ok settledDeployment.
Proof.
  exact (admission_after_reconcile [mysql; redis] [redis; mysql; redis; redis; mysql] deployment settledDeployment
    deploymentMapping deploymentLayout deployment deploymentTemplate [mysql; redis]
    (deployment_keepsMapping _) deployment_compatible deployment_prepared (run_sub mysql redis)
    deployment_settled eq_refl settled_active).
Defined.

(** *** A history: both bindings come, an admission, MySQL changes, Redis goes *)

#[local] Instance cluster_kinds : KindLaws.
Proof. by intros w w' u u' _ _ _. Qed.

(** The cluster while the deployment is [w] and the service of each name exposes
    a secret. *)
Definition clusterAt (w : json) (secretOf : string -> string) : Cluster := {|
  GVKForObject := GVKForObject;
  GetMapping := GetMapping;
  TrackAndGet apiVersion kind namespace name :=
    if String.eqb kind "Deployment" then Ok w
    else if String.eqb kind "MyService"
    then Ok (obj [("status", obj [("binding", obj [("name", JStr (secretOf name))])])])
    else Err (ErrNotFound name);
  ListUnstructured := ListUnstructured;
  NestedString := NestedString;
|}.

Lemma clusterAt_mappings w secretOf : sameMappings (clusterAt w secretOf).
Proof. by intros v. Qed.

Definition firstSecret (name : string) : string := name +:+ "-secret".
Definition renewedSecret (name : string) : string := if String.eqb name "mysql" then "renewed-secret" else name +:+ "-secret".

(** The bindings as they are read: new, with a changed spec, and being deleted. *)
Definition newRedis : ServiceBinding := initialized (set_Binding None redis).
Definition changedMysql : ServiceBinding :=
  initialized (mkServiceBinding (sb_Meta mysqlRenewed) (sb_Spec mysqlRenewed) (sb_Status mysql)).
Definition deletedRedis : ServiceBinding :=
  initialized (mkServiceBinding (mkObjectMeta "redis" "my-namespace" "uid-2" 2 (Some 1%Z))
    (sb_Spec redis) (sb_Status redis)).

(** What the workload is after a reconcile. *)
Definition submittedFor (w : json) (secretOf : string -> string) (b : ServiceBinding) : json :=
  match submitted (clusterAt w secretOf) _ (start b) with (_, w') :: _ => w' | [] => w end.

Definition oneBound : json := submittedFor rootedDeployment firstSecret newBinding.
Definition twoBound : json := submittedFor oneBound firstSecret newRedis.
Definition mysqlChanged : json := submittedFor twoBound renewedSecret changedMysql.
Definition redisGone : json := submittedFor mysqlChanged renewedSecret deletedRedis.

Definition mysqlFirst : ServiceBinding := reconciledBinding (clusterAt rootedDeployment firstSecret) (start newBinding).
Definition redisFirst : ServiceBinding := reconciledBinding (clusterAt oneBound firstSecret) (start newRedis).
Definition mysqlSecond : ServiceBinding := reconciledBinding (clusterAt twoBound renewedSecret) (start changedMysql).
Definition redisSecond : ServiceBinding := reconciledBinding (clusterAt mysqlChanged renewedSecret) (start deletedRedis).

Definition reconciledVersions : list ServiceBinding :=
  [mysqlFirst; redisFirst; mysqlSecond; redisSecond; mysql; redis].

Lemma reconciledVersions_separate : separate reconciledVersions rootedDeploymentTemplate.
Proof.
  apply separate_bool; [by vm_compute|by vm_compute|by apply literalRoots_bool|].
  repeat constructor; by vm_compute.
Qed.

Lemma twoBound_indexed : indexed bindingLister twoBound = Ok [mysql; redis].
Proof. reflexivity. Qed.

Lemma twoBound_admitted : admitted twoBound [mysql; redis] ⊆ reconciledVersions.
Proof.
  assert (admitted twoBound [mysql; redis] = [mysql; redis]) as -> by by vm_compute.
  intros b. unfold reconciledVersions. set_solver.
Qed.

Lemma in_singleton_list {A} (x y : A) l : l = [y] -> x = y -> x ∈ l.
Proof. intros -> ->. by left. Qed.

#[local] Ltac reconcile_step w secretOf b :=
  apply (workload_reconciled _ (clusterAt w secretOf) _ (start b));
    [apply clusterAt_mappings|done|done|by repeat constructor
    |eapply in_singleton_list; [vm_compute; reflexivity|vm_compute; reflexivity]].

Lemma rooted_history :
  rtc (workloadHistory reconciledVersions) (∅, rootedDeployment) ({[ "uid-1" := mysqlSecond ]}, redisGone).
Proof.
  assert (reconciledLive redisSecond (reconciledLive mysqlSecond (liveAfter (admitted twoBound [mysql; redis])
    (reconciledLive redisFirst (reconciledLive mysqlFirst ∅)))) = {[ "uid-1" := mysqlSecond ]}) as <- by by vm_compute.
  apply (rtc_l _ _ (reconciledLive mysqlFirst ∅, oneBound)); [reconcile_step rootedDeployment firstSecret newBinding|].
  apply (rtc_l _ _ (reconciledLive redisFirst (reconciledLive mysqlFirst ∅), twoBound));
    [reconcile_step oneBound firstSecret newRedis|].
  eapply rtc_l; [apply (workload_admitted _ bindingLister [mysql; redis] _ _ twoBound);
    [exact twoBound_indexed|exact twoBound_admitted|by vm_compute]|].
  eapply rtc_l; [reconcile_step twoBound renewedSecret changedMysql|].
  apply rtc_once. reconcile_step mysqlChanged renewedSecret deletedRedis.
Qed.

Lemma rooted_kind : keepsKind deploymentLayout.
Proof.
  intros p key Hp Hkey.
  assert (forallb (fun p => forallb (fun k => disjoint p (fields [k])) ["apiVersion"; "kind"]%list)
    (layoutPaths deploymentLayout) = true) as H by by vm_compute.
  apply forallb_elem with (x := p) in H; [|done]. by apply forallb_elem with (x := key) in H.
Qed.

Lemma rooted_in_cluster :
  Prepared rootedDeployment deploymentMapping deploymentLayout rootedDeployment rootedDeploymentTemplate.
Proof. destruct rooted_prepared as [_ ? ? ? ? ?]. by split. Qed.

Lemma workload_history_refines_witness : Project mysqlSecond redisGone = Ok redisGone.
Proof.
  exact (proj1 (proj2 (workload_history_refines reconciledVersions rootedDeploymentTemplate rootedDeployment
    deploymentMapping deploymentLayout rootedDeployment _ redisGone reconciledVersions_separate
    rooted_kind rooted_in_cluster rooted_history)) mysqlSecond ltac:(by repeat constructor)
    ltac:(done) ltac:(by vm_compute)).
Defined.

(** A binding for workloads of another team. *)
Definition selecting : ServiceBinding :=
  mkServiceBinding (sampleMeta "selecting" "uid-5")
    (mkServiceBindingSpec "selecting" "" ""
       (mkWorkloadReference "apps/v1" "Deployment" "" (Some (obj [("team", JStr "b")])) [])
       (mkServiceReference "v1" "Secret" "mysql-secret") [])
    (mkServiceBindingStatus 1 [] (Some (mkSecretReference "mysql-secret"))).

Lemma isActive_unnamed_witness :
  isActive rawDeployment selecting = true /\ refersToWorkload rawDeployment selecting = false.
Proof. exact (isActive_unnamed rawDeployment selecting eq_refl eq_refl). Defined.

Definition noStash : stash := mkStash None None None.
Definition observed (gvks : list GroupVersionKind) : stash := mkStash None (Some gvks) None.
Definition resultStash (r : outcome (stash * (accessChecker * nat))) : stash :=
  match r with Ok (s, _) => s | _ => noStash end.
Definition resultChecker (r : outcome (stash * (accessChecker * nat))) : accessChecker * nat :=
  match r with Ok (_, ac) => ac | _ => freshChecker end.

Definition kinds : list GroupVersionKind :=
  [mkGVK "example" "v1" "MyService"; mkGVK "apps" "v1" "Deployment"; mkGVK "" "v1" "Secret"].
Definition ops : list string := ["CREATE"; "UPDATE"].
Definition rulesPass : outcome (stash * (accessChecker * nat)) :=
  WebhookRules_Sync ops freshChecker (observed kinds).

Lemma rulesPass_ok : rulesPass = Ok (resultStash rulesPass, resultChecker rulesPass).
Proof. vm_compute. reflexivity. Qed.

Lemma WebhookRules_exact_witness :
  let rules := RetrieveWebhookRules (resultStash rulesPass) in
  (forall g r, intercepts rules g r <->
     (exists gvk, gvk ∈ kinds /\ mapsTo gvk g r) /\ serverAllows (mkAttributes "" "update" g r) = true) /\
  StronglySorted (fun x y => String.ltb x y = true) (concat (map rule_APIGroups rules)) /\
  Forall (fun rule => rule_Operations rule = ops /\ rule_APIVersions rule = ["*"]%list /\
    length (rule_APIGroups rule) = 1 /\ rule_Resources rule <> [] /\
    StronglySorted (fun x y => String.ltb x y = true) (rule_Resources rule)) rules.
Proof.
  exact (WebhookRules_exact (agrees serverAllows "update")
    (fun g r => serverAllows (mkAttributes "" "update" g r)) ops freshChecker (observed kinds)
    (resultStash rulesPass) (resultChecker rulesPass) freshChecker_agrees rulesPass_ok).
Defined.

Lemma same_kinds gvk : gvk ∈ kinds <-> gvk ∈ (rev kinds ++ kinds)%list.
Proof. rewrite elem_of_app, !list_elem_of_In, <-in_rev. tauto. Qed.

Lemma WebhookRules_canonical_witness :
  exists s2' ac2', WebhookRules_Sync ops freshChecker (observed (rev kinds ++ kinds)%list) = Ok (s2', ac2') /\
    RetrieveWebhookRules s2' = RetrieveWebhookRules (resultStash rulesPass).
Proof.
  exact (WebhookRules_canonical (agrees serverAllows "update")
    (fun g r => serverAllows (mkAttributes "" "update" g r)) ops freshChecker freshChecker
    (observed kinds) (observed (rev kinds ++ kinds)%list) (resultStash rulesPass)
    (resultChecker rulesPass) freshChecker_agrees freshChecker_agrees same_kinds rulesPass_ok).
Defined.

Lemma reconcilers_cover_witness :
  (forall s' ac', AdmissionProjectorReconciler freshChecker noStash = Ok (s', ac') ->
     forall g r, intercepts (RetrieveWebhookRules s') g r <->
       (exists sb, sb ∈ [mysql; redis]%list /\ mapsTo (workloadGVK sb) g r) /\
       serverAllows (mkAttributes "" "update" g r) = true) /\
  (forall s' ac', TriggerReconciler freshChecker noStash = Ok (s', ac') ->
     forall g r, intercepts (RetrieveWebhookRules s') g r <->
       (exists sb, sb ∈ [mysql; redis]%list /\ (mapsTo (workloadGVK sb) g r \/
          isDirect (serviceGVK sb) = false /\ mapsTo (serviceGVK sb) g r)) /\
       serverAllows (mkAttributes "" "update" g r) = true).
Proof.
  exact (reconcilers_cover (agrees serverAllows "update")
    (fun g r => serverAllows (mkAttributes "" "update" g r)) freshChecker noStash [mysql; redis]%list
    freshChecker_agrees eq_refl eq_refl).
Defined.

Definition webhookConfiguration : WebhookConfiguration :=
  mkWebhookConfiguration [mkWebhook [] (JStr "clientConfig")] JNull.

Lemma configuration_converges_witness :
  let s := resultStash rulesPass in
  let desired := DesiredResource s (Some webhookConfiguration) in
  let merged := MergeRulesBeforeUpdate (Some webhookConfiguration) desired in
  SemanticEquals merged desired = true /\
  DesiredResource s merged = merged /\
  (merged = Some (mkWebhookConfiguration
      [mkWebhook (RetrieveWebhookRules s) (JStr "clientConfig")] JNull) /\
   Sanitize merged = Some (RetrieveWebhookRules s) /\
   SemanticEquals (Some webhookConfiguration) desired = rules_DeepEqual [] (RetrieveWebhookRules s)).
Proof.
  exact (configuration_converges projectorFunctions (resultStash rulesPass) webhookConfiguration
    (or_introl eq_refl)).
Defined.

(** ** The runtime *)

Definition mainPass : outcome (stash * (accessChecker * nat)) :=
  projectorPass environment bindingLister
    (afterPasses (projectorPass environment) [bindingLister; bindingLister]%list (projectorChecker, 0)).
Lemma mainPass_ok : mainPass = Ok (resultStash mainPass, resultChecker mainPass).
Proof. vm_compute. reflexivity. Qed.

Lemma main_configures_witness :
  exists rules,
    MergeRulesBeforeUpdate (Some webhookConfiguration)
      (DesiredResource (resultStash mainPass) (Some webhookConfiguration)) =
      Some (mkWebhookConfiguration [mkWebhook rules (JStr "clientConfig")] JNull) /\
    forall g r, intercepts rules g r <->
      (exists sb, sb ∈ [mysql; redis]%list /\ mapsTo (workloadGVK sb) g r) /\
      serverAllows (mkAttributes "" "update" g r) = true.
Proof.
  exact (proj1 (main_configures environment serverAllows environment_serves bindingLister
    [bindingLister; bindingLister]%list [mysql; redis]%list (mkWebhook [] (JStr "clientConfig")) JNull eq_refl)
    _ _ mainPass_ok).
Defined.

(** The MySQL service is admitted. *)
Definition admittedService : json :=
  obj [("apiVersion", JStr "example/v1"); ("kind", JStr "MyService");
       ("metadata", obj [("name", JStr "mysql"); ("namespace", JStr "my-namespace")])].

#[local] Instance gvk_eq_dec : EqDecision GroupVersionKind.
Proof. solve_decision. Defined.

(** A tracker with the objects of one reconcile. *)
#[local] Instance trackedByMysql : Tracker := fun gvk namespace name =>
  if existsb (fun r => bool_decide (gvk = kindOf r /\ namespace = or_Namespace r /\ name = or_Name r))
       (tracked (start mysql))
  then [("my-namespace", "mysql")]%list else []%list.

Lemma trackedByMysql_laws : trackedFor ("my-namespace", "mysql") (tracked (start mysql)).
Proof.
  intros r Hr. unfold Tracker_Lookup, trackedByMysql.
  rewrite (proj2 (existsb_exists _ _)); [by left|]. exists r.
  split; [by apply list_elem_of_In|by apply bool_decide_eq_true_2].
Qed.

Definition triggerRun : outcome (stash * (accessChecker * nat)) :=
  triggerPass environment bindingLister
    (afterPasses (triggerPass environment) [bindingLister]%list (triggerChecker, 0)).
Lemma triggerRun_ok : triggerRun = Ok (resultStash triggerRun, resultChecker triggerRun).
Proof. vm_compute. reflexivity. Qed.

Lemma tracked_wakes_witness :
  exists woken, TriggerWebhook_Sync None admittedService (Some []%list) = Some woken /\
    ("my-namespace", "mysql") ∈ woken.
Proof.
  destruct (tracked_wakes environment serverAllows environment_serves (start mysql) ("my-namespace", "mysql")
    bindingLister [bindingLister]%list [mysql; redis]%list (resultStash triggerRun) (resultChecker triggerRun)
    admittedService None []%list eq_refl ltac:(by left) triggerRun_ok trackedByMysql_laws
    ltac:(left; by split_and!)) as (_ & woken & Hw & Hin & _).
  exists woken. split; [exact Hw|by apply Hin].
Defined.

(** ** Startup *)

(** A manager for which everything works, and one that cannot set up the
    trigger's controller. *)
Definition smooth : ManagerRuntime := fun _ _ => None.
Definition noTrigger : ManagerRuntime := fun _ op =>
  match op with
  | SetupWithManager c => if String.eqb (ctl_Name c) "Trigger" then Some (ErrOther "no such kind") else None
  | _ => None
  end.

Lemma leaderElection_parsed :
  Parse (mainFlags ∅) ["--leader-elect"]%list ∅ = Parsed {[ "leader-elect" := "true" ]} [].
Proof. vm_compute. reflexivity. Qed.

Lemma run_starts_witness :
  StartManager ∈ (@run smooth _ _ ∅ ["--leader-elect"]%list).1 /\
  ~ StartManager ∈ (@run noTrigger _ _ ∅ ["--leader-elect"]%list).1.
Proof.
  pose proof (@run_starts smooth _ _ ∅ ["--leader-elect"]%list) as Hs.
  pose proof (@run_starts noTrigger _ _ ∅ ["--leader-elect"]%list) as Hn.
  rewrite leaderElection_parsed in Hs, Hn. destruct Hs as (_ & Hs & _), Hn as (_ & Hn & _). split.
  - apply Hs. vm_compute. repeat split.
  - rewrite Hn. vm_compute. naive_solver.
Defined.
